(* ===== verification/_CoqProject ===== *)
-Q . S2P
Prelude.v
Ttlv.v
Grammar.v
EncBuf.v
Blocks.v
ValidCost.v
Hex.v
Names.v
Registry.v
Formatting.v
FormatText.v
Generated.v
Kmip14.v
Kmip20.v
DefaultRegistry.v
GoTime.v
Json.v
JsonCodec.v
JsonRoundtrip.v
Printer.v
XmlCodec.v
XmlRoundtrip.v
Specs.v
Kmipgen.v
Ppkmip.v
PpkmipJson.v
Reflect.v
Encoder.v
Stream.v
Decoder.v
Slices.v
DecoderSound.v
GoRoundtrip.v
Messages.v
Server.v
ServerSpec.v
Connections.v
Objects.v
Operations20.v
ObjectTypes.v
EndToEnd.v
Listener.v
