(* ===== verification/Prelude.v ===== *)
(** * A verification development for kmip-go

    The repository implements the Key Management Interoperability Protocol in
    Go: the binary TTLV encoding and its JSON, XML and text forms (package ttlv),
    the message, object and payload types with a server that dispatches requests
    to handlers (package kmip), the tables of the KMIP 1.4 and 2.0 specifications
    (packages kmip14 and kmip20, generated by cmd/kmipgen), and a pretty printer
    (cmd/ppkmip).  This development models all of these as executable functions
    and transition systems and proves what makes them correct.

    ** How Go is represented

    A call returns a value of [res E A] (this file): [Ok] for a nil error, [Err]
    for an error value, [Panic] for a run-time panic and [OutOfFuel] when the fuel
    given to a loop was too small; theorems state that it was not.  Integers
    are [Z], with the wrap-around of the machine width ([u32], [i32], [u64],
    [i64]) written where the code converts.  Bytes are [list byte]; a slice that
    may be nil is an option; strings are byte strings.  The methods of an object
    take and return its state.  What the program takes from elsewhere is a
    parameter with documented laws: the title caser of golang.org/x/text
    ([TitleCaser], [titleCaserOk]), the conversion of a float64 that does not fit
    an integer type ([FloatConv]), the merry error library ([Merry]), the clock
    and the handlers an application registers, and the text of XML tokens
    ([XmlText]).

    ** Files and the code they model

    - [Prelude]: outcomes, machine integers, big-endian bytes, list and string
      lemmas, the hint database [kmip].
    - Package ttlv, binary form.  [Ttlv]: the [TTLV] slice of src/ttlv/ttlv.go,
      its accessors, [Valid] and [Next].  [Grammar]: the wire format as an
      inductive relation between items and blocks of bytes, the specification of
      the previous file.  [EncBuf]: [encBuf] of src/ttlv/encoder.go.  [Blocks]:
      what the accessors return on a block.  [ValidCost]: [Valid] with its calls
      counted.  [Stream]: [NextTTLV] of src/ttlv/decoder.go over short reads.
    - Package ttlv, names and text.  [Hex], [Names]: src/internal/kmiputil.
      [Registry], [Formatting]: src/ttlv/registry.go and formatting.go, where the
      class [EnumMapLaws] is the contract between the two; [FormatText]: the
      characters of these texts.  [GoTime], [Json]: what the code uses of Go's
      packages time and encoding/json.  [JsonCodec], [JsonRoundtrip]: MarshalJSON
      and UnmarshalJSON.  [XmlCodec], [XmlRoundtrip]: MarshalXML and UnmarshalXML
      over tokens.  [Printer]: Print, String and PrintPrettyHex.
    - Package ttlv, reflection.  [Reflect]: Go types and values as package reflect
      shows them, and type information.  [Encoder]: Marshal and the [Encoder];
      [Decoder], [DecoderSound]: Unmarshal and the [Decoder].  [Slices]: the
      destination slices of [TTLV.UnmarshalTTLV] with the arrays they share.
      [GoRoundtrip]: the
      encoding of Go values as items, stated apart from both, with what becomes
      of the values that are not restored exactly.
    - Generated code.  [Generated], [Kmip14], [Kmip20]: the tables.
      [DefaultRegistry]: the registry the package initializers build.  [Specs],
      [Kmipgen]: the specifications and the generator of src/cmd/kmipgen.
    - Package kmip.  [Messages]: the messages, as records and as Go types, tied by
      the class [GoStruct].  [Server], [ServerSpec]: src/requests.go from the
      bytes of a connection to the bytes of the answers.  [Connections]: the
      goroutines of the connections as a transition system, with the pool of
      responses, the multiplexer and the state of the handlers that they share.
      [Listener]: Serve, Close and Shutdown as a transition system of concurrent
      calls.  [Objects]:
      attributes and the handlers of the op_*.go files.  [Operations20]: the
      handlers of package kmip20 and UniqueIdentifierValue.  [ObjectTypes]: the
      remaining types and the catalogue of all of them.  [EndToEnd]: calls of a
      client through the server to the functions behind the handlers and back,
      which composes all of the above.
    - [Ppkmip]: src/cmd/ppkmip from its parsed flags and its file, argument or
      standard input to standard output; [PpkmipJson]: its JSON output as input.

    ** What the theorems show

    - The binary format: [Valid] accepts exactly the grammar, which is
      unambiguous, [Next] and [Value] follow it, the encoder's output is in it,
      big integers of every size survive, and all of it ends without a panic on
      every input; validation is exponential in the nesting depth.
    - Reflection: Marshal returns on every acyclic value and writes blocks; an
      [Encoder] keeps its state also on errors; Unmarshal stores values of the
      destination's type whatever the bytes; the Go values that [wireValue]
      describes survive a round trip, and so do the trees of [ttlv.Value]; every
      type of the packages works with the default registry; decoding into a
      TTLV writes over no slice but those that share the destination's bytes.
    - Text: enumerations, masks other than zero, tags and types are read back
      from their text under the default registry; JSON and XML round trip on the
      items they can represent, pretty hex on all, JSON and pretty hex also
      through the standard input of ppkmip; Print shows every valid message in
      full.
    - The tables: the generated packages are what the generator makes of the
      specifications, in every iteration order of its maps, and the registry
      they build satisfies the contract that formatting relies on.
    - The server: each connection is answered message by message and in order,
      each batch item once, by the handler registered for its operation and with
      its correlation data, nothing of an earlier response is sent; connections that run at the same time own the responses
      they recycle, and each answers as it would on its own, as the sequential
      model of a connection does; a listener is closed once; in every fair run Close
      returns and ends the Serve calls.  Batches of calls that the wire can carry,
      sent by a client over a connection, reach the functions with its arguments,
      and their results and failures reach the client.
    - Error paths: what is done with truncated streams, rejected requests,
      undecodable payloads, identifiers that are numerals, objects without an
      identifier and types that cannot be decoded, where it is not what the
      documentation says.

    ** Fuel

    Loops over bytes get the length of the slice plus one, which is enough since
    every iteration consumes a header ([Valid], [Print], PrintPrettyHex,
    MarshalJSON, MarshalXML, the loops of the decoder); the JSON parser
    twice the length of the text plus two; unmarshalJSON the depth of the value;
    decoding an element twice the number of tokens plus two; serving a connection
    one more than the messages it carries.  The recursion of the encoder over a Go
    value takes [need v] and that of the decoder [decodeFuel], linear in the
    number of bytes; both are proved to be enough.  Where a function takes fuel as
    an argument its theorem holds for every fuel above such a bound.

    ** Not modelled

    - The text of XML tokens, which encoding/xml writes and reads; the network
      and the TLS handshake, which in [Connections] fail at any time; logging; the
      failure of writes to an io.Writer elsewhere; flag parsing, the usage texts, the files kmipgen reads and writes and the
      gofmt-ed text around the declarations of generated code.
    - The text of errors except those of [UnmarshalerError] and [MarshalerError]
      and where Print and the decoder put it into their result: merry.Details and
      the wrapping of causes are functions of the merry library.
    - Marshalers and Unmarshalers that an application defines, recursive Go
      types, fields of interface types with methods and the elements of Go maps
      and channels, none of which the repository has.  Go values are finite
      trees: a value that leads back to itself is not represented ([Marshal]
      does not return for one, as its finite unfoldings show, [Marshal_cycle]).
    - Data races: the steps of [Listener] and [Connections] are the accesses to
      shared state, which the code makes under a mutex, through sync/atomic or
      through sync.Pool; a call of an item handler is one step on the state behind
      the handlers, which an application has to protect. *)
From Stdlib Require Import ZArith Lia Strings.Byte.
From stdpp Require Import base list strings numbers gmap.

(** The hint database of the development: side conditions on tags, lengths and
    ranges. *)
Create HintDb kmip.

(** * Outcomes of Go code

    [Ok a] is a normal return with a nil error, [Err e] a return with the
    non-nil error [e], [Panic] a run-time panic and [OutOfFuel] a loop that
    did not finish within the fuel of the model.  No function of the library
    is specified as "if it returns": the totality theorems exclude [Panic] and
    [OutOfFuel] outright. *)
Inductive res (E A : Type) : Type :=
  | Ok (a : A)
  | Err (e : E)
  | Panic
  | OutOfFuel.
Arguments Ok {E A} a.
Arguments Err {E A} e.
Arguments Panic {E A}.
Arguments OutOfFuel {E A}.

#[export] Instance res_ret (E : Type) : MRet (res E) := λ A a, Ok a.
#[export] Instance res_bind (E : Type) : MBind (res E) := λ A B f r,
  match r with
  | Ok a => f a
  | Err e => Err e
  | Panic => Panic
  | OutOfFuel => OutOfFuel
  end.
#[export] Instance res_fmap (E : Type) : FMap (res E) := λ A B f r,
  match r with
  | Ok a => Ok (f a)
  | Err e => Err e
  | Panic => Panic
  | OutOfFuel => OutOfFuel
  end.

(** [defined r]: the Go code returned (with or without an error). *)
Definition defined {E A} (r : res E A) : Prop :=
  match r with Ok _ | Err _ => True | Panic | OutOfFuel => False end.

Definition is_ok {E A} (r : res E A) : bool :=
  match r with Ok _ => true | _ => false end.

Lemma Ok_inj {E A} (a b : A) : Ok (E := E) a = Ok b → a = b.
Proof. by injection 1. Qed.

Lemma bind_Ok_inv {E A B} (r : res E A) (f : A → res E B) b :
  r ≫= f = Ok b → ∃ a, r = Ok a ∧ f a = Ok b.
Proof. destruct r; try discriminate. eauto. Qed.

Lemma bind_defined {E A B} (r : res E A) (f : A → res E B) :
  defined r → (∀ a, r = Ok a → defined (f a)) → defined (r ≫= f).
Proof. destruct r; simpl; try done. eauto. Qed.

(** * Machine integers

    Every Go integer is a [Z]; the conversions of the source are the wrapping
    functions below. *)
Local Open Scope Z_scope.

Definition u8 (z : Z) : Z := z mod 2 ^ 8.
Definition u32 (z : Z) : Z := z mod 2 ^ 32.
Definition u64 (z : Z) : Z := z mod 2 ^ 64.
Definition i32 (z : Z) : Z := (z + 2 ^ 31) mod 2 ^ 32 - 2 ^ 31.
Definition i64 (z : Z) : Z := (z + 2 ^ 63) mod 2 ^ 64 - 2 ^ 63.

Definition is_u32 (z : Z) : Prop := 0 ≤ z < 2 ^ 32.
Definition is_u64 (z : Z) : Prop := 0 ≤ z < 2 ^ 64.
Definition is_i32 (z : Z) : Prop := - 2 ^ 31 ≤ z < 2 ^ 31.
Definition is_i64 (z : Z) : Prop := - 2 ^ 63 ≤ z < 2 ^ 63.

(** [wrap_lia] decides goals about the wrapping conversions: the powers are
    evaluated and [mod] is replaced by its defining equation. *)
Ltac wrap_unfold :=
  unfold u8, u32, u64, i32, i64, is_u32, is_u64, is_i32, is_i64 in *;
  change (2 ^ 8) with 256 in *;
  change (2 ^ 31) with 2147483648 in *;
  change (2 ^ 32) with 4294967296 in *;
  change (2 ^ 63) with 9223372036854775808 in *;
  change (2 ^ 64) with 18446744073709551616 in *.
Ltac wrap_lia := wrap_unfold; Z.div_mod_to_equations; lia.

Lemma u32_range z : is_u32 (u32 z).
Proof. wrap_lia. Qed.
Lemma u64_range z : is_u64 (u64 z).
Proof. wrap_lia. Qed.
Lemma i32_range z : is_i32 (i32 z).
Proof. wrap_lia. Qed.
Lemma i64_range z : is_i64 (i64 z).
Proof. wrap_lia. Qed.
Lemma u32_id z : is_u32 z → u32 z = z.
Proof. wrap_lia. Qed.
Lemma u64_id z : is_u64 z → u64 z = z.
Proof. wrap_lia. Qed.
Lemma i32_id z : is_i32 z → i32 z = z.
Proof. wrap_lia. Qed.
Lemma i64_id z : is_i64 z → i64 z = z.
Proof. wrap_lia. Qed.
Lemma i32_u32 z : i32 (u32 z) = i32 z.
Proof. wrap_lia. Qed.
Lemma i64_u64 z : i64 (u64 z) = i64 z.
Proof. wrap_lia. Qed.
Lemma u32_i32 z : u32 (i32 z) = u32 z.
Proof. wrap_lia. Qed.
Lemma u64_i64 z : u64 (i64 z) = u64 z.
Proof. wrap_lia. Qed.

(** * Bytes *)
Abbreviation byte := Byte.byte.

#[export] Instance byte_eq_decision : EqDecision byte := Byte.byte_eq_dec.

(** The value of a byte, and Go's conversion [byte(z)]. *)
Definition b2z (b : byte) : Z := Z.of_N (Byte.to_N b).
Definition z2b (z : Z) : byte := default x00 (Byte.of_N (Z.to_N (u8 z))).

Lemma b2z_range b : 0 ≤ b2z b < 256.
Proof. unfold b2z. pose proof (Byte.to_N_bounded b). lia. Qed.

Lemma b2z_z2b z : b2z (z2b z) = u8 z.
Proof.
  unfold b2z, z2b. assert (0 ≤ u8 z < 256) by wrap_lia.
  destruct (Byte.of_N (Z.to_N (u8 z))) as [b|] eqn:Hb; simpl.
  - apply Byte.to_of_N in Hb. rewrite Hb. lia.
  - apply Byte.of_N_None_iff in Hb. lia.
Qed.

Lemma z2b_b2z b : z2b (b2z b) = b.
Proof.
  unfold z2b. pose proof (b2z_range b).
  replace (u8 (b2z b)) with (b2z b) by wrap_lia.
  unfold b2z. rewrite N2Z.id, Byte.of_to_N. done.
Qed.

#[export] Instance b2z_inj : Inj (=) (=) b2z.
Proof. intros x y Hxy. rewrite <- (z2b_b2z x), Hxy, z2b_b2z. done. Qed.

Lemma z2b_u8 z : z2b (u8 z) = z2b z.
Proof. unfold z2b. by replace (u8 (u8 z)) with (u8 z) by wrap_lia. Qed.

(** * Slices

    A Go byte slice is a [list byte]; where the code distinguishes a nil slice
    from an empty one it is an [option (list byte)], [None] being nil. *)
Definition len {A} (l : list A) : Z := Z.of_nat (length l).

(** [t[i:]] and [t[i:j]]; out of range they panic. *)
Definition slice_from {E A} (t : list A) (i : Z) : res E (list A) :=
  if (0 <=? i) && (i <=? len t) then Ok (drop (Z.to_nat i) t) else Panic.
Definition slice {E A} (t : list A) (i j : Z) : res E (list A) :=
  if (0 <=? i) && (i <=? j) && (j <=? len t)
  then Ok (take (Z.to_nat (j - i)) (drop (Z.to_nat i) t)) else Panic.
(** [t[i]]; out of range it panics. *)
Definition index {E A} (t : list A) (i : Z) : res E A :=
  if 0 <=? i then match t !! Z.to_nat i with Some a => Ok a | None => Panic end
  else Panic.
(** The value of [t[i]] where a guard has established that it is in range. *)
Definition byteAt (t : list byte) (i : nat) : Z :=
  match t !! i with Some b => b2z b | None => 0 end.

(** The bytes of a possibly nil slice. *)
Definition bytesOf (o : option (list byte)) : list byte := default [] o.

Lemma len_nonneg {A} (l : list A) : 0 ≤ len l.
Proof. unfold len. lia. Qed.
Lemma len_app {A} (l1 l2 : list A) : len (l1 ++ l2) = len l1 + len l2.
Proof. unfold len. rewrite length_app. lia. Qed.
Lemma len_nil {A} : len (@nil A) = 0.
Proof. done. Qed.
Lemma len_zero {A} (l : list A) : len l = 0 → l = [].
Proof. destruct l; [done|]. unfold len; simpl; lia. Qed.
Lemma len_cons {A} (x : A) l : len (x :: l) = 1 + len l.
Proof. unfold len; simpl; lia. Qed.
Lemma len_replicate {A} n (x : A) : len (replicate n x) = Z.of_nat n.
Proof. unfold len. by rewrite length_replicate. Qed.
Lemma len_drop {A} n (l : list A) : len (drop n l) = Z.max 0 (len l - Z.of_nat n).
Proof. unfold len. rewrite length_drop. lia. Qed.
Lemma len_take {A} n (l : list A) : len (take n l) = Z.min (Z.of_nat n) (len l).
Proof. unfold len. rewrite length_take. lia. Qed.

(** * Big-endian numbers *)

(** The number whose big-endian representation is [l]
    (encoding/binary BigEndian.Uint16/32/64 and math/big SetBytes). *)
Fixpoint be_decode (l : list byte) : Z :=
  match l with
  | [] => 0
  | b :: l => b2z b * 2 ^ (8 * len l) + be_decode l
  end.

(** The low [n] bytes of [z], most significant first
    (BigEndian.PutUint32 and PutUint64 for [n] = 4 and 8). *)
Fixpoint be_encode (n : nat) (z : Z) : list byte :=
  match n with
  | O => []
  | S n => z2b (Z.shiftr z (8 * Z.of_nat n)) :: be_encode n z
  end.

Lemma length_be_encode n z : length (be_encode n z) = n.
Proof. induction n; simpl; auto. Qed.

Lemma len_be_encode n z : len (be_encode n z) = Z.of_nat n.
Proof. unfold len. by rewrite length_be_encode. Qed.

Lemma pow8_pos n : 0 ≤ n → 0 < 2 ^ (8 * n).
Proof. intros. apply Z.pow_pos_nonneg; lia. Qed.

Lemma mod_pow8_S n z :
  z mod 2 ^ (8 * Z.of_nat (S n)) =
  z mod 2 ^ (8 * Z.of_nat n) + 2 ^ (8 * Z.of_nat n) * ((z / 2 ^ (8 * Z.of_nat n)) mod 2 ^ 8).
Proof.
  replace (8 * Z.of_nat (S n)) with (8 * Z.of_nat n + 8) by lia.
  rewrite Z.pow_add_r by lia.
  pose proof (pow8_pos (Z.of_nat n) ltac:(lia)).
  apply Z.rem_mul_r; lia.
Qed.

Lemma be_decode_range l : 0 ≤ be_decode l < 2 ^ (8 * len l).
Proof.
  induction l as [|b l IH]; [done|]. cbn [be_decode].
  rewrite len_cons. pose proof (b2z_range b). pose proof (len_nonneg l).
  replace (8 * (1 + len l)) with (8 + 8 * len l) by lia.
  rewrite Z.pow_add_r by lia. change (2 ^ 8) with 256. nia.
Qed.

Lemma be_decode_encode n z : be_decode (be_encode n z) = z mod 2 ^ (8 * Z.of_nat n).
Proof.
  induction n as [|n IH]; [by rewrite Z.mod_1_r|]. cbn [be_encode be_decode].
  rewrite IH, b2z_z2b, len_be_encode. unfold u8.
  rewrite Z.shiftr_div_pow2 by lia.
  rewrite mod_pow8_S. lia.
Qed.

Lemma be_encode_inj_mod n z1 z2 :
  z1 mod 2 ^ (8 * Z.of_nat n) = z2 mod 2 ^ (8 * Z.of_nat n) →
  be_encode n z1 = be_encode n z2.
Proof.
  revert z1 z2. induction n as [|n IH]; intros z1 z2 Heq; [done|]. cbn [be_encode].
  rewrite !mod_pow8_S in Heq.
  pose proof (pow8_pos (Z.of_nat n) ltac:(lia)) as Hp.
  pose proof (Z.mod_pos_bound z1 _ Hp). pose proof (Z.mod_pos_bound z2 _ Hp).
  rewrite !(Z.add_comm (_ mod 2 ^ (8 * Z.of_nat n))) in Heq.
  apply Z.div_mod_unique in Heq as [Hq Hr]; [|lia..].
  f_equal; [|by apply IH].
  rewrite !Z.shiftr_div_pow2 by lia. rewrite <- z2b_u8. symmetry.
  rewrite <- z2b_u8. unfold u8. by rewrite Hq.
Qed.

Lemma be_encode_decode l : be_encode (length l) (be_decode l) = l.
Proof.
  induction l as [|b l IH]; [done|]. cbn [length be_encode be_decode].
  change (Z.of_nat (length l)) with (len l).
  pose proof (be_decode_range l). pose proof (pow8_pos (len l) (len_nonneg l)).
  f_equal.
  - rewrite Z.shiftr_div_pow2 by (pose proof (len_nonneg l); lia).
    rewrite Z.div_add_l by lia. rewrite Z.div_small by done.
    rewrite Z.add_0_r. apply z2b_b2z.
  - etransitivity; [|exact IH]. apply be_encode_inj_mod.
    change (Z.of_nat (length l)) with (len l).
    rewrite Z.add_comm, Z.mod_add by lia. done.
Qed.

Lemma be_decode_app l1 l2 :
  be_decode (l1 ++ l2) = be_decode l1 * 2 ^ (8 * len l2) + be_decode l2.
Proof.
  induction l1 as [|b l IH]; [done|]. cbn [be_decode app].
  rewrite IH, len_app. pose proof (len_nonneg l). pose proof (len_nonneg l2).
  replace (8 * (len l + len l2)) with (8 * len l + 8 * len l2) by lia.
  rewrite Z.pow_add_r by lia. lia.
Qed.

Lemma be_decode_inj l1 l2 :
  length l1 = length l2 → be_decode l1 = be_decode l2 → l1 = l2.
Proof.
  intros Hlen Heq. rewrite <- (be_encode_decode l1), <- (be_encode_decode l2).
  congruence.
Qed.

(** A number below [2^n] or-ed with one shifted by [n] is their sum: Go's way
    of assembling big-endian numbers. *)
Lemma lor_shiftl_add a b n :
  0 ≤ n → 0 ≤ a < 2 ^ n → Z.lor a (Z.shiftl b n) = a + b * 2 ^ n.
Proof.
  intros Hn Ha. pose proof (Z.add_lor_land a (Z.shiftl b n)) as Heq.
  assert (Z.land a (Z.shiftl b n) = 0) as Hz.
  { apply Z.bits_inj'. intros i Hi. rewrite Z.land_spec, Z.bits_0.
    destruct (Z.lt_ge_cases i n).
    - rewrite Z.shiftl_spec_low by done. apply andb_false_r.
    - rewrite <- (Z.mod_small a (2 ^ n)) by done.
      by rewrite Z.mod_pow2_bits_high by lia. }
  rewrite Z.shiftl_mul_pow2 in * by done. lia.
Qed.

#[export] Hint Resolve len_nonneg u32_range u64_range i32_range i64_range : kmip.

(** * Strings *)

Lemma append_cons c s t : String c s +:+ t = String c (s +:+ t).
Proof. done. Qed.
Lemma app_empty_r s : s +:+ EmptyString = s.
Proof. induction s as [|c s IH]; [done|]. exact (f_equal (String c) IH). Qed.
Lemma app_assoc_s s1 s2 s3 : (s1 +:+ s2) +:+ s3 = s1 +:+ (s2 +:+ s3).
Proof. induction s1 as [|c s IH]; [done|]. exact (f_equal (String c) IH). Qed.

Lemma length_append a b : String.length (a +:+ b) = (String.length a + String.length b)%nat.
Proof. induction a as [|x a IH]; [done|]. rewrite append_cons. cbn. by rewrite IH. Qed.

(** [side] closes the range side conditions of rewriting. *)
Ltac side :=
  first [ done | lia | solve [eauto with kmip] | solve [split; eauto with kmip; lia] ].
