(* ===== verification/Ttlv.v ===== *)
(** The binary TTLV format: the [TTLV] byte slice and its header, value and
    validation methods (src/ttlv/ttlv.go), with the type and tag constants they
    use (src/ttlv/types.go, src/ttlv/tag.go). *)
From Stdlib Require Import ZArith Lia Strings.Byte.
From stdpp Require Import base list strings numbers.
From S2P Require Import Prelude.
Local Open Scope Z_scope.

(** * Types and tags *)

Definition TypeStructure : Z := 0x01.
Definition TypeInteger : Z := 0x02.
Definition TypeLongInteger : Z := 0x03.
Definition TypeBigInteger : Z := 0x04.
Definition TypeEnumeration : Z := 0x05.
Definition TypeBoolean : Z := 0x06.
Definition TypeTextString : Z := 0x07.
Definition TypeByteString : Z := 0x08.
Definition TypeDateTime : Z := 0x09.
Definition TypeInterval : Z := 0x0A.
Definition TypeDateTimeExtended : Z := 0x0B.

Definition TagNone : Z := 0.
Definition tagAttributeName : Z := 0x42000a.
Definition tagAttributeValue : Z := 0x42000b.

Definition minStandardTag : Z := 0x00420000.
Definition maxStandardTag : Z := 0x00430000.
Definition minCustomTag : Z := 0x00540000.
Definition maxCustomTag : Z := 0x00550000.

(** [func (t Tag) Valid() bool] *)
Definition Tag_Valid (t : Z) : bool :=
  if (minStandardTag <=? t) && (t <? maxStandardTag) then true
  else if (minCustomTag <=? t) && (t <? maxCustomTag) then true
  else false.

(** * Constants and errors *)

Definition lenTag : Z := 3.
Definition lenLen : Z := 4.
Definition lenInt : Z := 4.
Definition lenLongInt : Z := 8.
Definition lenHeader : Z := lenTag + 1 + lenLen.

(** The sentinel errors of ttlv.go; [Prepend tag e] is
    [merry.Prepend(e, tag.String())], which keeps [e] as its cause. *)
Inductive terr : Type :=
  | ErrValueTruncated
  | ErrHeaderTruncated
  | ErrInvalidLen
  | ErrInvalidType
  | ErrInvalidTag
  | Prepend (tag : Z) (e : terr).

#[export] Instance terr_eq_dec : EqDecision terr.
Proof. solve_decision. Defined.

(** The sentinel that [errors.Is] finds under the prefixes. *)
Fixpoint terr_cause (e : terr) : terr :=
  match e with Prepend _ e => terr_cause e | _ => e end.

(** * The TTLV slice *)

Abbreviation TTLV := (list byte).

(** One arm of a Go [switch]: does the value equal one of the cases? *)
Definition oneOf (v : Z) (cases : list Z) : bool := existsb (Z.eqb v) cases.

Definition TTLV_Tag (t : TTLV) : Z :=
  if len t <? 3 then TagNone
  else Z.lor (Z.lor (byteAt t 2) (Z.shiftl (byteAt t 1) 8)) (Z.shiftl (byteAt t 0) 16).

Definition TTLV_Type (t : TTLV) : Z :=
  if len t <? 4 then 0 else byteAt t 3.

Definition TTLV_Len (t : TTLV) : Z :=
  if len t <? lenHeader then 0 else be_decode (take 4 (drop 4 t)).

Definition TTLV_FullLen (t : TTLV) : res terr Z :=
  let ty := TTLV_Type t in
  if oneOf ty [TypeInterval; TypeDateTime; TypeDateTimeExtended; TypeBoolean;
               TypeEnumeration; TypeLongInteger; TypeInteger]
  then Ok (lenHeader + 8)
  else if oneOf ty [TypeByteString; TypeTextString] then
    let l := TTLV_Len t + lenHeader in
    let m := l mod 8 in
    if 0 <? m then Ok (l + (8 - m)) else Ok l
  else if oneOf ty [TypeBigInteger; TypeStructure] then Ok (TTLV_Len t + lenHeader)
  else Panic.

(** [None] is the nil slice. *)
Definition TTLV_ValueRaw (t : TTLV) : option (list byte) :=
  let l := TTLV_Len t in
  if l =? 0 then None
  else if len t <? lenHeader + l then Some (drop 8 t)
  else Some (take (Z.to_nat l) (drop 8 t)).

(** [binary.BigEndian.Uint32] and [Uint64]: they read the first bytes of the
    slice and panic when it is too short. *)
Definition Uint32 (b : list byte) : res terr Z :=
  if len b <? 4 then Panic else Ok (be_decode (take 4 b)).
Definition Uint64 (b : list byte) : res terr Z :=
  if len b <? 8 then Panic else Ok (be_decode (take 8 b)).

(** * Validation *)

Definition TTLV_validTag (t : TTLV) : res terr bool :=
  b ← index t 0;
  Ok (oneOf (b2z b) [0x42; 0x54]).

Definition TTLV_ValidHeader (t : TTLV) : res terr unit :=
  if len t <? lenHeader then Err ErrHeaderTruncated
  else
    vt ← TTLV_validTag t;
    if negb vt then Err ErrInvalidTag
    else
      let ty := TTLV_Type t in
      if oneOf ty [TypeStructure; TypeTextString; TypeByteString] then Ok tt
      else if oneOf ty [TypeInteger; TypeEnumeration; TypeInterval] then
        if TTLV_Len t =? lenInt then Ok tt else Err ErrInvalidLen
      else if oneOf ty [TypeLongInteger; TypeBoolean; TypeDateTime; TypeDateTimeExtended] then
        if TTLV_Len t =? lenLongInt then Ok tt else Err ErrInvalidLen
      else if oneOf ty [TypeBigInteger] then
        if TTLV_Len t mod 8 =? 0 then Ok tt else Err ErrInvalidLen
      else Err ErrInvalidType.

(** [Next], for a given validity check of the value at the head of the slice. *)
Definition nextWith (valid : TTLV → res terr unit) (t : TTLV) : res terr (option TTLV) :=
  match valid t with
  | Ok _ =>
      fl ← TTLV_FullLen t;
      n ← slice_from t fl;
      if len n =? 0 then Ok None else Ok (Some n)
  | Err _ => Ok None
  | Panic => Panic
  | OutOfFuel => OutOfFuel
  end.

(** The loop of [Valid] over the values enclosed in a Structure; [n] bounds
    its iterations. *)
Fixpoint validInner (valid : TTLV → res terr unit) (n : nat) (tag : Z) (inner : TTLV)
    : res terr unit :=
  if len inner =? 0 then Ok tt
  else match n with
  | O => OutOfFuel
  | S n =>
      match valid inner with
      | Ok _ => nx ← nextWith valid inner; validInner valid n tag (bytesOf nx)
      | Err e => Err (Prepend tag e)
      | Panic => Panic
      | OutOfFuel => OutOfFuel
      end
  end.

(** [Valid], with the nesting depth bounded by [fuel]. *)
Fixpoint validFuel (fuel : nat) (t : TTLV) : res terr unit :=
  match fuel with
  | O => OutOfFuel
  | S fuel =>
      _ ← TTLV_ValidHeader t;
      fl ← TTLV_FullLen t;
      if len t <? fl then Err ErrValueTruncated
      else if TTLV_Type t =? TypeStructure then
        let inner := bytesOf (TTLV_ValueRaw t) in
        validInner (validFuel fuel) (length inner) (TTLV_Tag t) inner
      else Ok tt
  end.

(** Every level of nesting and every iteration of the loop consumes at least
    a header, so the length of the slice is enough fuel (see [Valid_unfold]). *)
Definition TTLV_Valid (t : TTLV) : res terr unit := validFuel (S (length t)) t.

Definition TTLV_Next (t : TTLV) : res terr (option TTLV) := nextWith TTLV_Valid t.

(** * Big integers in the value segment *)

Definition testByte (b : byte) (mask : Z) : Z := Z.land (b2z b) mask.

(** [unpadBigInt]: drop the leading bytes that only repeat the sign bit. *)
Fixpoint unpadBigInt (data : list byte) : list byte :=
  match data with
  | b0 :: ((b1 :: _) as rest) =>
      if (b2z b0 =? 0xFF) && (1 <? testByte b1 0x80) then unpadBigInt rest
      else if (b2z b0 =? 0x00) && (testByte b1 0x80 =? 0) then unpadBigInt rest
      else data
  | _ => data
  end.

Definition unmarshalBigInt (data : list byte) : Z :=
  let n := be_decode data in
  match data with
  | b0 :: _ => if 0 <? testByte b0 0x80 then n - Z.shiftl 1 (len data * 8) else n
  | [] => n
  end.

(** * Typed values *)

(** [time.Time] in UTC: seconds since the Unix epoch and nanoseconds within
    the second.  [unixTime] is [time.Unix(sec, nsec)]. *)
Record gotime := GoTime { time_sec : Z; time_nsec : Z }.
#[export] Instance gotime_eq_dec : EqDecision gotime.
Proof. solve_decision. Defined.

Definition unixTime (sec nsec : Z) : gotime :=
  GoTime (i64 (sec + nsec / 1000000000)) (nsec mod 1000000000).

Definition Second : Z := 1000000000.

(** The Go values that [TTLV.Value] returns: one constructor per dynamic
    type. *)
Inductive goval : Type :=
  | GInt32 (i : Z)
  | GInt64 (i : Z)
  | GBigInt (i : Z)
  | GEnumValue (e : Z)
  | GBool (b : bool)
  | GString (s : string)
  | GBytes (b : option (list byte))
  | GTime (t : gotime)
  | GDateTimeExtended (t : gotime)
  | GDuration (ns : Z)
  | GTTLV (t : option TTLV).

Definition TTLV_ValueInteger (t : TTLV) : res terr Z :=
  u ← Uint32 (bytesOf (TTLV_ValueRaw t)); Ok (i32 u).

Definition TTLV_ValueLongInteger (t : TTLV) : res terr Z :=
  u ← Uint64 (bytesOf (TTLV_ValueRaw t)); Ok (i64 u).

Definition TTLV_ValueBigInteger (t : TTLV) : res terr Z :=
  Ok (unmarshalBigInt (unpadBigInt (bytesOf (TTLV_ValueRaw t)))).

Definition TTLV_ValueEnumeration (t : TTLV) : res terr Z :=
  Uint32 (bytesOf (TTLV_ValueRaw t)).

Definition TTLV_ValueBoolean (t : TTLV) : res terr bool :=
  b ← index (bytesOf (TTLV_ValueRaw t)) 7;
  Ok (negb (b2z b =? 0)).

Definition TTLV_ValueTextString (t : TTLV) : string :=
  String.string_of_list_byte (bytesOf (TTLV_ValueRaw t)).

Definition TTLV_ValueByteString (t : TTLV) : option (list byte) := TTLV_ValueRaw t.

Definition TTLV_ValueDateTime (t : TTLV) : res terr gotime :=
  i ← TTLV_ValueLongInteger t;
  if TTLV_Type t =? TypeDateTimeExtended then Ok (unixTime 0 (i64 (i * 1000)))
  else Ok (unixTime i 0).

Definition TTLV_ValueDateTimeExtended (t : TTLV) : res terr gotime :=
  i ← TTLV_ValueLongInteger t;
  if TTLV_Type t =? TypeDateTimeExtended then Ok (unixTime 0 (i64 (i * 1000)))
  else Ok (unixTime i 0).

Definition TTLV_ValueInterval (t : TTLV) : res terr Z :=
  u ← Uint32 (bytesOf (TTLV_ValueRaw t));
  Ok (i64 (u * Second)).

Definition TTLV_ValueStructure (t : TTLV) : option TTLV := TTLV_ValueRaw t.

Definition TTLV_Value (t : TTLV) : res terr goval :=
  let ty := TTLV_Type t in
  if ty =? TypeInterval then GDuration <$> TTLV_ValueInterval t
  else if ty =? TypeDateTime then GTime <$> TTLV_ValueDateTime t
  else if ty =? TypeDateTimeExtended then GDateTimeExtended <$> TTLV_ValueDateTimeExtended t
  else if ty =? TypeByteString then Ok (GBytes (TTLV_ValueByteString t))
  else if ty =? TypeTextString then Ok (GString (TTLV_ValueTextString t))
  else if ty =? TypeBoolean then GBool <$> TTLV_ValueBoolean t
  else if ty =? TypeEnumeration then GEnumValue <$> TTLV_ValueEnumeration t
  else if ty =? TypeBigInteger then GBigInt <$> TTLV_ValueBigInteger t
  else if ty =? TypeLongInteger then GInt64 <$> TTLV_ValueLongInteger t
  else if ty =? TypeInteger then GInt32 <$> TTLV_ValueInteger t
  else if ty =? TypeStructure then Ok (GTTLV (TTLV_ValueStructure t))
  else Panic.

(** * Concrete values *)

(** A ByteString "abc" under tag 0x420001, then five bytes of another value. *)
Definition sampleBytes : TTLV :=
  map z2b [0x42;0;1; 8; 0;0;0;3; 0x61;0x62;0x63;0;0;0;0;0; 1;2;3;4;5].
Example sampleBytes_valid : TTLV_Valid sampleBytes = Ok tt.
Proof. vm_compute. reflexivity. Qed.
Example sampleBytes_next : TTLV_Next sampleBytes = Ok (Some (map z2b [1;2;3;4;5])).
Proof. vm_compute. reflexivity. Qed.

(** * Header lemmas *)

Lemma index_Ok {E A} (t : list A) i a :
  t !! i = Some a → index (E:=E) t (Z.of_nat i) = Ok a.
Proof.
  intros Hi. unfold index. rewrite (proj2 (Z.leb_le 0 (Z.of_nat i))) by lia.
  by rewrite Nat2Z.id, Hi.
Qed.

Lemma byteAt_app t r i : (i < length t)%nat → byteAt (t ++ r) i = byteAt t i.
Proof. intros. unfold byteAt. by rewrite lookup_app_l. Qed.

Lemma byteAt_range t i : 0 ≤ byteAt t i < 256.
Proof. unfold byteAt. destruct (t !! i); [apply b2z_range|lia]. Qed.

Lemma TTLV_Len_range t : 0 ≤ TTLV_Len t < 2 ^ 32.
Proof.
  unfold TTLV_Len. case_match; [lia|].
  pose proof (be_decode_range (take 4 (drop 4 t))) as Hr.
  assert (len (take 4 (drop 4 t)) ≤ 4) by (rewrite len_take; lia).
  split; [lia|]. eapply Z.lt_le_trans; [apply Hr|].
  apply Z.pow_le_mono_r; lia.
Qed.

(** What a valid header says about type and length. *)
Definition headerShape (ty l : Z) : Prop :=
  (ty = TypeStructure ∨ ty = TypeTextString ∨ ty = TypeByteString) ∨
  ((ty = TypeInteger ∨ ty = TypeEnumeration ∨ ty = TypeInterval) ∧ l = 4) ∨
  ((ty = TypeLongInteger ∨ ty = TypeBoolean ∨ ty = TypeDateTime ∨
    ty = TypeDateTimeExtended) ∧ l = 8) ∨
  (ty = TypeBigInteger ∧ l mod 8 = 0).

Ltac unfold_types :=
  unfold TypeStructure, TypeInteger, TypeLongInteger, TypeBigInteger, TypeEnumeration,
    TypeBoolean, TypeTextString, TypeByteString, TypeDateTime, TypeInterval,
    TypeDateTimeExtended, lenHeader, lenTag, lenLen, lenInt, lenLongInt in *.

(** [oneOf_lia] splits the switches in goal and context and decides the arms
    that arithmetic refutes. *)
Ltac oneOf_split :=
  unfold oneOf in *; cbn [existsb] in *;
  repeat match goal with
  | |- context [if ?b then _ else _] => destruct b eqn:?
  | H : context [if ?b then _ else _] |- _ => destruct b eqn:?
  end.
Ltac oneOf_lia := unfold headerShape in *; unfold_types; oneOf_split; try done; try lia;
  try (Z.div_mod_to_equations; lia).

Lemma ValidHeader_spec t :
  TTLV_ValidHeader t = Ok tt ↔
  lenHeader ≤ len t ∧ (byteAt t 0 = 0x42 ∨ byteAt t 0 = 0x54) ∧
  headerShape (TTLV_Type t) (TTLV_Len t).
Proof.
  unfold TTLV_ValidHeader. destruct (Z.ltb_spec (len t) lenHeader) as [Hl|Hl].
  { split; [done|]. lia. }
  unfold TTLV_validTag, byteAt. destruct t as [|b t]; [by compute in Hl|].
  change (index (E:=terr) (b :: t) 0) with (Ok (E:=terr) b).
  change ((b :: t) !! 0%nat) with (Some b). cbn [mbind res_bind].
  generalize (TTLV_Type (b :: t)) (TTLV_Len (b :: t)). intros ty l.
  split; [intros H|intros (_ & Hb & Hs)]; oneOf_lia.
Qed.

Lemma ValidHeader_defined t : defined (TTLV_ValidHeader t).
Proof.
  unfold TTLV_ValidHeader. destruct (Z.ltb_spec (len t) lenHeader) as [Hl|Hl]; [done|].
  unfold TTLV_validTag. destruct t as [|b t]; [by compute in Hl|].
  cbn [index]. change (index (E:=terr) (b :: t) 0) with (Ok (E:=terr) b).
  cbn [mbind res_bind]. repeat (case_match; try done).
Qed.

(** The length of a whole block, by the type in the header: [FullLen] on the
    headers that [ValidHeader] accepts. *)
Definition paddedLen (ty l : Z) : Z :=
  if oneOf ty [TypeStructure; TypeBigInteger] then l
  else if oneOf ty [TypeTextString; TypeByteString] then l + (- l) mod 8
  else 8.

Lemma paddedLen_ge ty l : 0 ≤ l → headerShape ty l → l ≤ paddedLen ty l.
Proof. intros. unfold paddedLen. oneOf_lia. Qed.

Lemma FullLen_shape t :
  headerShape (TTLV_Type t) (TTLV_Len t) →
  TTLV_FullLen t = Ok (lenHeader + paddedLen (TTLV_Type t) (TTLV_Len t)).
Proof.
  pose proof (TTLV_Len_range t).
  unfold TTLV_FullLen, paddedLen. generalize dependent (TTLV_Len t).
  generalize (TTLV_Type t). intros ty l Hl Hs.
  oneOf_lia; f_equal; oneOf_lia.
Qed.

Lemma FullLen_valid t :
  TTLV_ValidHeader t = Ok tt →
  ∃ fl, TTLV_FullLen t = Ok fl ∧ lenHeader + TTLV_Len t ≤ fl ∧ lenHeader ≤ len t.
Proof.
  intros (Hl & _ & Hs)%ValidHeader_spec. eexists. split; [by apply FullLen_shape|].
  pose proof (TTLV_Len_range t). pose proof (paddedLen_ge _ _ (proj1 H) Hs). lia.
Qed.

Lemma ValueRaw_length t :
  lenHeader ≤ len t → (length (bytesOf (TTLV_ValueRaw t)) + 8 ≤ length t)%nat.
Proof.
  unfold TTLV_ValueRaw, len. unfold_types. intros.
  repeat case_match; simpl; rewrite ?length_take, ?length_drop; lia.
Qed.

(** * Validation terminates and never panics *)

Lemma validInner_ext v1 v2 n tag inner :
  (∀ t, (length t ≤ length inner)%nat → v1 t = v2 t) →
  validInner v1 n tag inner = validInner v2 n tag inner.
Proof.
  revert inner. induction n as [|n IH]; intros inner Hv; [done|]. simpl.
  case_match; [done|]. rewrite <- (Hv inner) by lia.
  destruct (v1 inner) as [[]|?| |] eqn:Hi; try done.
  unfold nextWith. rewrite <- (Hv inner), Hi by lia.
  destruct (TTLV_FullLen inner) as [fl|?| |]; try done. cbn [mbind res_bind].
  unfold slice_from. case_match; [|done]. cbn [mbind res_bind].
  repeat case_match; simpl; apply IH; intros t Ht; apply Hv; simpl in Ht;
    rewrite ?length_drop in Ht; lia.
Qed.

(** What the loop needs to know of a validity check: it implies a complete,
    well-formed block at the head of the slice. *)
Definition soundCheck (v : TTLV → res terr unit) (t : TTLV) : Prop :=
  defined (v t) ∧
  (v t = Ok tt → ∃ fl, TTLV_FullLen t = Ok fl ∧ lenHeader ≤ fl ≤ len t).

Lemma nextWith_Ok v t :
  soundCheck v t → v t = Ok tt →
  ∃ fl, TTLV_FullLen t = Ok fl ∧ lenHeader ≤ fl ≤ len t ∧
    nextWith v t = Ok (if len t =? fl then None else Some (drop (Z.to_nat fl) t)).
Proof.
  intros [_ Hs] Hv. destruct (Hs Hv) as (fl & Hfl & Hb). exists fl. split_and!; try done; try lia.
  unfold nextWith. rewrite Hv, Hfl. cbn [mbind res_bind].
  unfold slice_from. unfold_types. rewrite (proj2 (Z.leb_le 0 fl)), (proj2 (Z.leb_le fl _)) by lia.
  cbn [andb mbind res_bind]. rewrite len_drop, Z2Nat.id by lia.
  destruct (Z.eqb_spec (len t) fl), (Z.eqb_spec (Z.max 0 (len t - fl)) 0); try done; lia.
Qed.

Lemma validInner_defined v n tag inner :
  (length inner ≤ n)%nat →
  (∀ t, (length t ≤ length inner)%nat → soundCheck v t) →
  defined (validInner v n tag inner).
Proof.
  revert inner. induction n as [|n IH]; intros inner Hn Hv.
  { destruct inner; [done|simpl in Hn; lia]. }
  simpl. case_match; [done|]. destruct (Hv inner) as [Hd Hs]; [lia|].
  destruct (v inner) as [[]|?| |] eqn:Hi; try done.
  destruct (nextWith_Ok v inner) as (fl & Hfl & Hb & ->); [by apply Hv|done|].
  unfold_types. cbn [mbind res_bind]. unfold len in *.
  apply IH; [|intros t Ht; apply Hv]; case_match; simpl in *; rewrite ?length_drop in *; lia.
Qed.

Lemma validFuel_step fuel t :
  validFuel (S fuel) t =
    (_ ← TTLV_ValidHeader t; fl ← TTLV_FullLen t;
     if len t <? fl then Err ErrValueTruncated
     else if TTLV_Type t =? TypeStructure then
       let inner := bytesOf (TTLV_ValueRaw t) in
       validInner (validFuel fuel) (length inner) (TTLV_Tag t) inner
     else Ok tt).
Proof. done. Qed.

Lemma validFuel_stable n t f1 f2 :
  (length t < n)%nat → (length t < f1)%nat → (length t < f2)%nat →
  validFuel f1 t = validFuel f2 t.
Proof.
  revert t f1 f2. induction n as [|n IH]; intros t f1 f2 Hn H1 H2; [lia|].
  destruct f1 as [|f1], f2 as [|f2]; try lia. rewrite !validFuel_step.
  destruct (TTLV_ValidHeader t) as [[]|?| |] eqn:Hh; try done. cbn [mbind res_bind].
  destruct (TTLV_FullLen t) as [fl|?| |] eqn:Hfl; try done. cbn [mbind res_bind].
  repeat (case_match; try done). apply validInner_ext. intros t' Ht'.
  destruct (FullLen_valid t Hh) as (? & _ & _ & Hl).
  pose proof (ValueRaw_length t Hl). apply IH; lia.
Qed.

Lemma validFuel_sound n t f :
  (length t < n)%nat → (length t < f)%nat → soundCheck (validFuel f) t.
Proof.
  revert t f. induction n as [|n IH]; intros t f Hn Hf; [lia|].
  destruct f as [|f]; [lia|]. unfold soundCheck. rewrite !validFuel_step.
  pose proof (ValidHeader_defined t) as Hd.
  destruct (TTLV_ValidHeader t) as [[]|?| |] eqn:Hh; try done. cbn [mbind res_bind].
  destruct (FullLen_valid t Hh) as (fl & Hfl & Hge & Hl). pose proof (TTLV_Len_range t).
  rewrite Hfl. cbn [mbind res_bind].
  destruct (Z.ltb_spec (len t) fl); [done|]. split.
  - case_match; [|done]. apply validInner_defined; [lia|]. intros t' Ht'.
    pose proof (ValueRaw_length t Hl). apply IH; lia.
  - intros _. exists fl. split; [done|]. unfold_types; lia.
Qed.

Lemma Valid_sound t : soundCheck TTLV_Valid t.
Proof. unfold TTLV_Valid, soundCheck. apply (validFuel_sound (S (length t))); lia. Qed.

(** The recursion equation of the source: [Valid] in terms of itself. *)
Lemma Valid_unfold t :
  TTLV_Valid t =
    (_ ← TTLV_ValidHeader t; fl ← TTLV_FullLen t;
     if len t <? fl then Err ErrValueTruncated
     else if TTLV_Type t =? TypeStructure then
       let inner := bytesOf (TTLV_ValueRaw t) in
       validInner TTLV_Valid (length inner) (TTLV_Tag t) inner
     else Ok tt).
Proof.
  unfold TTLV_Valid at 1. rewrite validFuel_step.
  destruct (TTLV_ValidHeader t) as [[]|?| |] eqn:Hh; try done. cbn [mbind res_bind].
  destruct (TTLV_FullLen t) as [fl|?| |] eqn:Hfl; try done. cbn [mbind res_bind].
  repeat (case_match; try done). apply validInner_ext. intros t' Ht'.
  destruct (FullLen_valid t Hh) as (? & _ & _ & Hl).
  pose proof (ValueRaw_length t Hl). apply (validFuel_stable (S (length t'))); lia.
Qed.

(** * The header of a block *)

(** The eight bytes that announce a block: tag, type, length. *)
Definition header (tag ty l : Z) : list byte :=
  be_encode 3 tag ++ z2b ty :: be_encode 4 l.

Lemma length_header tag ty l : length (header tag ty l) = 8%nat.
Proof. unfold header. rewrite length_app. simpl. done. Qed.

Lemma len_header tag ty l x : len (header tag ty l ++ x) = lenHeader + len x.
Proof. rewrite len_app. unfold len. by rewrite length_header. Qed.

Lemma TTLV_Tag_decode t : 3 ≤ len t → TTLV_Tag t = be_decode (take 3 t).
Proof.
  intros Hl. unfold TTLV_Tag. destruct (Z.ltb_spec (len t) 3); [lia|].
  destruct t as [|b0 [|b1 [|b2 t]]]; try (by compute in Hl).
  unfold byteAt. simpl lookup. cbn [take firstn be_decode].
  pose proof (b2z_range b0). pose proof (b2z_range b1). pose proof (b2z_range b2).
  rewrite (lor_shiftl_add _ _ 8) by (change (2 ^ 8) with 256; lia).
  rewrite (lor_shiftl_add _ _ 16)
    by (change (2 ^ 8) with 256; change (2 ^ 16) with 65536; lia).
  unfold len; simpl. lia.
Qed.

Lemma TTLV_Tag_range t : 0 ≤ TTLV_Tag t < 2 ^ 24.
Proof.
  destruct (Z.lt_ge_cases (len t) 3).
  { unfold TTLV_Tag. rewrite (proj2 (Z.ltb_lt _ _)) by done. done. }
  rewrite TTLV_Tag_decode by lia. pose proof (be_decode_range (take 3 t)) as Hr.
  rewrite len_take in Hr. replace (8 * (Z.of_nat 3 `min` len t)) with 24 in Hr by lia. done.
Qed.

Lemma header_Tag tag ty l x : 0 ≤ tag < 2 ^ 24 → TTLV_Tag (header tag ty l ++ x) = tag.
Proof.
  intros Ht. rewrite TTLV_Tag_decode.
  - unfold header. rewrite <- app_assoc, take_app_length'.
    + rewrite be_decode_encode. apply Z.mod_small. done.
    + done.
  - rewrite len_header. pose proof (len_nonneg x). unfold_types; lia.
Qed.

Lemma header_Type tag ty l x : 0 ≤ ty < 256 → TTLV_Type (header tag ty l ++ x) = ty.
Proof.
  intros Ht. unfold TTLV_Type. rewrite len_header. pose proof (len_nonneg x).
  destruct (Z.ltb_spec (lenHeader + len x) 4); [unfold_types; lia|].
  unfold byteAt. simpl. rewrite b2z_z2b. unfold u8. by apply Z.mod_small.
Qed.

Lemma header_Len tag ty l x : 0 ≤ l < 2 ^ 32 → TTLV_Len (header tag ty l ++ x) = l.
Proof.
  intros Hl. unfold TTLV_Len. rewrite len_header. pose proof (len_nonneg x).
  destruct (Z.ltb_spec (lenHeader + len x) lenHeader); [lia|].
  unfold header. rewrite <- app_assoc.
  change (z2b ty :: be_encode 4 l) with ([z2b ty] ++ be_encode 4 l).
  rewrite <- app_assoc, app_assoc, drop_app_length' by done.
  rewrite take_app_length' by done. rewrite be_decode_encode. by apply Z.mod_small.
Qed.

Lemma header_drop tag ty l x : drop 8 (header tag ty l ++ x) = x.
Proof. apply drop_app_length'. done. Qed.

Lemma header_byte0 tag ty l x : byteAt (header tag ty l ++ x) 0 = (tag / 2 ^ 16) mod 256.
Proof. unfold byteAt. simpl. rewrite b2z_z2b, Z.shiftr_div_pow2 by lia. done. Qed.

(** Every slice of at least eight bytes starts with the header its accessors
    describe. *)
Lemma header_split t :
  lenHeader ≤ len t →
  t = header (TTLV_Tag t) (TTLV_Type t) (TTLV_Len t) ++ drop 8 t.
Proof.
  intros Hl. rewrite <- (take_drop 8 t) at 1. f_equal. unfold header.
  rewrite TTLV_Tag_decode by (unfold_types; lia). unfold TTLV_Type, TTLV_Len.
  destruct (Z.ltb_spec (len t) 4); [unfold_types; lia|].
  destruct (Z.ltb_spec (len t) lenHeader); [lia|].
  do 8 (destruct t as [|? t]; [by compute in Hl|]). cbn [take firstn drop skipn].
  unfold byteAt. cbn [lookup list_lookup].
  rewrite (be_encode_decode [_; _; _]), (be_encode_decode [_; _; _; _]), z2b_b2z. done.
Qed.

(** [validTag] looks at one byte only, which decides the tag's range. *)
Lemma Tag_Valid_byte0 tag :
  0 ≤ tag < 2 ^ 24 →
  Tag_Valid tag = true ↔ (tag / 2 ^ 16) mod 256 = 0x42 ∨ (tag / 2 ^ 16) mod 256 = 0x54.
Proof.
  intros Ht. unfold Tag_Valid, minStandardTag, maxStandardTag, minCustomTag, maxCustomTag.
  change (2 ^ 16) with 65536. change (2 ^ 24) with 16777216 in Ht.
  destruct ((4325376 <=? tag) && (tag <? 4390912)) eqn:?;
    [|destruct ((5505024 <=? tag) && (tag <? 5570560)) eqn:?];
    (split; [intros ?; try done|intros ?; try done]); Z.div_mod_to_equations; lia.
Qed.

(** [Next] never fails and never stays where it is. *)
Lemma Next_shorter t :
  ∃ o, TTLV_Next t = Ok o ∧ (len (bytesOf o) + lenHeader ≤ len t ∨ o = None).
Proof.
  destruct (Valid_sound t) as [Hd Hs]. unfold TTLV_Next.
  destruct (TTLV_Valid t) as [[]|e| |] eqn:Hv; try done.
  - destruct (nextWith_Ok TTLV_Valid t (Valid_sound t) Hv) as (fl & _ & Hb & ->).
    eexists. split; [done|]. case_match; [by right|left]. simpl.
    rewrite len_drop. unfold_types; lia.
  - exists None. split; [|by right]. unfold nextWith. by rewrite Hv.
Qed.

(** * Properties *)

(** C24. [Valid] and [Next] are total: on every byte slice, well-formed or not,
    the recursion terminates within the fuel of the model and no index, slice
    expression or [FullLen] switch panics; [Next] moreover never fails, it
    returns nil or a strictly shorter slice. *)
Theorem Valid_Next_total t :
  defined (TTLV_Valid t) ∧
  ∃ o, TTLV_Next t = Ok o ∧ (len (bytesOf o) + lenHeader ≤ len t ∨ o = None).
Proof. split; [apply Valid_sound|apply Next_shorter]. Qed.

(** The one-byte test of [validTag] is the range test of [Tag.Valid] on
    the tag of the slice. *)
Lemma validTag_is_Tag_Valid t :
  3 ≤ len t → TTLV_validTag t = Ok (Tag_Valid (TTLV_Tag t)).
Proof.
  intros Hl. pose proof (TTLV_Tag_range t) as Hr. pose proof (Tag_Valid_byte0 _ Hr) as Hb.
  rewrite TTLV_Tag_decode in * by done.
  destruct t as [|b0 [|b1 [|b2 t]]]; try (by compute in Hl).
  unfold TTLV_validTag. rewrite (index_Ok _ 0 b0) by done. cbn [mbind res_bind].
  change (take 3 (b0 :: b1 :: b2 :: t)) with [b0; b1; b2] in *.
  cbn [be_decode] in *. rewrite !len_cons, len_nil in Hb.
  pose proof (b2z_range b0). pose proof (b2z_range b1). pose proof (b2z_range b2).
  revert Hb. change (2 ^ (8 * (1 + (1 + 0)))) with 65536.
  change (2 ^ (8 * (1 + 0))) with 256. change (2 ^ (8 * 0)) with 1. change (2 ^ 16) with 65536.
  replace ((b2z b0 * 65536 + (b2z b1 * 256 + (b2z b2 * 1 + 0))) / 65536 mod 256)
    with (b2z b0) by (Z.div_mod_to_equations; lia).
  unfold oneOf. simpl existsb. intros Hb. f_equal. apply eq_true_iff_eq. rewrite Hb. lia.
Qed.
