(* ===== verification/Grammar.v ===== *)
(** The abstract specification of the binary format: trees of KMIP items, the
    relation between a tree and the blocks of bytes that denote it, and the
    theorems that [Valid], [Next] and [Value] (src/ttlv/ttlv.go) implement it. *)
From Stdlib Require Import ZArith Lia Strings.Byte.
From stdpp Require Import base list strings numbers.
From S2P Require Import Prelude Ttlv.
Local Open Scope Z_scope.
Set Warnings "-register-all".

(** * KMIP items *)

(** The primitive KMIP values.  Dates are seconds, extended dates
    microseconds, intervals seconds, as on the wire. *)
Inductive prim : Type :=
  | PInteger (i : Z)
  | PLongInteger (i : Z)
  | PBigInteger (i : Z)
  | PEnumeration (e : Z)
  | PBoolean (b : bool)
  | PTextString (s : list byte)
  | PByteString (s : list byte)
  | PDateTime (sec : Z)
  | PInterval (sec : Z)
  | PDateTimeExtended (usec : Z).

Inductive item : Type :=
  | IPrim (tag : Z) (p : prim)
  | IStructure (tag : Z) (items : list item).

Definition itemTag (it : item) : Z :=
  match it with IPrim tag _ => tag | IStructure tag _ => tag end.

(** The two's complement number in a big-endian byte string. *)
Definition twosComplement (raw : list byte) : Z :=
  let n := be_decode raw in
  if 2 ^ (8 * len raw) <=? 2 * n then n - 2 ^ (8 * len raw) else n.

(** The value of a value segment, by type: [None] when the length does not fit
    the type or the type is not one of the primitive ones. *)
Definition primDecode (ty : Z) (raw : list byte) : option prim :=
  let l := len raw in
  if ty =? TypeInteger then
    if l =? 4 then Some (PInteger (twosComplement raw)) else None
  else if ty =? TypeLongInteger then
    if l =? 8 then Some (PLongInteger (twosComplement raw)) else None
  else if ty =? TypeBigInteger then
    if l mod 8 =? 0 then Some (PBigInteger (twosComplement raw)) else None
  else if ty =? TypeEnumeration then
    if l =? 4 then Some (PEnumeration (be_decode raw)) else None
  else if ty =? TypeBoolean then
    if l =? 8 then Some (PBoolean (negb (byteAt raw 7 =? 0))) else None
  else if ty =? TypeTextString then Some (PTextString raw)
  else if ty =? TypeByteString then Some (PByteString raw)
  else if ty =? TypeDateTime then
    if l =? 8 then Some (PDateTime (twosComplement raw)) else None
  else if ty =? TypeInterval then
    if l =? 4 then Some (PInterval (be_decode raw)) else None
  else if ty =? TypeDateTimeExtended then
    if l =? 8 then Some (PDateTimeExtended (twosComplement raw)) else None
  else None.

(** * Blocks that denote an item *)

(** [Denotes it blk]: the bytes [blk] are a complete TTLV block for [it].  A
    primitive block is its header, the value segment and padding up to the
    block length of its type; the body of a Structure is the blocks of its
    items, one after the other.  Padding bytes are unconstrained. *)
Inductive Denotes : item → list byte → Prop :=
  | Denotes_prim tag ty p raw pad :
      Tag_Valid tag = true →
      primDecode ty raw = Some p →
      len raw < 2 ^ 32 →
      len raw + len pad = paddedLen ty (len raw) →
      Denotes (IPrim tag p) (header tag ty (len raw) ++ raw ++ pad)
  | Denotes_structure tag items body :
      Tag_Valid tag = true →
      DenotesSeq items body →
      len body < 2 ^ 32 →
      Denotes (IStructure tag items) (header tag TypeStructure (len body) ++ body)
with DenotesSeq : list item → list byte → Prop :=
  | DenotesSeq_nil : DenotesSeq [] []
  | DenotesSeq_cons it items blk body :
      Denotes it blk → DenotesSeq items body →
      DenotesSeq (it :: items) (blk ++ body).

Scheme Denotes_mut := Induction for Denotes Sort Prop
  with DenotesSeq_mut := Induction for DenotesSeq Sort Prop.

(** The Go value that stands for a primitive KMIP value. *)
Definition primGo (p : prim) : goval :=
  match p with
  | PInteger i => GInt32 i
  | PLongInteger i => GInt64 i
  | PBigInteger i => GBigInt i
  | PEnumeration e => GEnumValue e
  | PBoolean b => GBool b
  | PTextString s => GString (String.string_of_list_byte s)
  | PByteString s => GBytes (match s with [] => None | _ => Some s end)
  | PDateTime sec => GTime (GoTime sec 0)
  | PInterval sec => GDuration (sec * Second)
  | PDateTimeExtended usec => GDateTimeExtended (unixTime 0 (i64 (usec * 1000)))
  end.

(** * Lemmas on blocks *)

Lemma Tag_Valid_range tag : Tag_Valid tag = true → 0 ≤ tag < 2 ^ 24.
Proof.
  unfold Tag_Valid, minStandardTag, maxStandardTag, minCustomTag, maxCustomTag.
  intros. repeat case_match; try done; change (2 ^ 24) with 16777216; lia.
Qed.

Lemma primDecode_shape ty raw p :
  primDecode ty raw = Some p → headerShape ty (len raw) ∧ ty ≠ TypeStructure ∧ 0 ≤ ty < 256.
Proof. unfold primDecode. intros. oneOf_lia. Qed.

Lemma primDecode_total ty raw :
  headerShape ty (len raw) → ty ≠ TypeStructure → is_Some (primDecode ty raw).
Proof. unfold primDecode. intros. oneOf_lia; eauto. Qed.

(** The accessors on a block announced by a header with a valid tag. *)
Lemma header_valid tag ty l x :
  Tag_Valid tag = true → headerShape ty l → 0 ≤ ty < 256 → 0 ≤ l < 2 ^ 32 →
  TTLV_ValidHeader (header tag ty l ++ x) = Ok tt.
Proof.
  intros Ht Hs Hty Hl. apply ValidHeader_spec.
  rewrite len_header, header_byte0, header_Type, header_Len by done.
  pose proof (len_nonneg x). split_and!; [lia| |done].
  apply Tag_Valid_byte0; [by apply Tag_Valid_range|done].
Qed.

Lemma header_FullLen tag ty l x :
  headerShape ty l → 0 ≤ ty < 256 → 0 ≤ l < 2 ^ 32 →
  TTLV_FullLen (header tag ty l ++ x) = Ok (lenHeader + paddedLen ty l).
Proof.
  intros Hs Hty Hl. rewrite FullLen_shape; rewrite header_Type, header_Len; done.
Qed.

(** The value segment of a complete block. *)
Lemma header_ValueRaw tag ty raw x :
  len raw < 2 ^ 32 →
  TTLV_ValueRaw (header tag ty (len raw) ++ raw ++ x) =
    match raw with [] => None | _ => Some raw end.
Proof.
  intros Hl. unfold TTLV_ValueRaw. pose proof (len_nonneg raw). pose proof (len_nonneg x).
  rewrite header_Len, len_header, len_app by lia.
  destruct (Z.eqb_spec (len raw) 0) as [Hz|Hz].
  { by apply len_zero in Hz as ->. }
  destruct (Z.ltb_spec (lenHeader + (len raw + len x)) (lenHeader + len raw)); [lia|].
  rewrite header_drop, take_app_length' by (unfold len; lia). by destruct raw.
Qed.

Lemma header_ValueRaw_bytes tag ty raw x :
  len raw < 2 ^ 32 →
  bytesOf (TTLV_ValueRaw (header tag ty (len raw) ++ raw ++ x)) = raw.
Proof. intros. rewrite header_ValueRaw by done. by destruct raw. Qed.

Lemma headerShape_structure l : headerShape TypeStructure l.
Proof. unfold headerShape. auto. Qed.

Lemma paddedLen_structure l : paddedLen TypeStructure l = l.
Proof. done. Qed.

Lemma TypeStructure_byte : 0 ≤ TypeStructure < 256.
Proof. done. Qed.

#[export] Hint Resolve TypeStructure_byte headerShape_structure Tag_Valid_range : kmip.

(** A denoting block has a valid header, is as long as [FullLen] says and
    carries the tag of its item. *)
Lemma Denotes_header it blk rest :
  Denotes it blk →
  TTLV_ValidHeader (blk ++ rest) = Ok tt ∧
  TTLV_FullLen (blk ++ rest) = Ok (len blk) ∧
  TTLV_Tag (blk ++ rest) = itemTag it ∧
  lenHeader ≤ len blk.
Proof.
  intros [tag ty p raw pad Ht Hp Hl Hpad|tag items body Ht Hseq Hl]; rewrite <- app_assoc.
  - destruct (primDecode_shape _ _ _ Hp) as (Hs & _ & Hty).
    pose proof (len_nonneg raw). pose proof (len_nonneg pad).
    rewrite header_valid, header_FullLen, header_Tag, len_header, len_app by side.
    split_and!; try done; [|unfold_types; lia]. f_equal. lia.
  - pose proof (len_nonneg body).
    rewrite header_valid, header_FullLen, header_Tag, len_header
      by side; split_and!; try done; unfold_types; lia.
Qed.

(** ** Soundness of [Valid]: denoting blocks are accepted *)

Lemma nextWith_block it blk rest :
  Denotes it blk → TTLV_Valid (blk ++ rest) = Ok tt →
  nextWith TTLV_Valid (blk ++ rest) = Ok (match rest with [] => None | _ => Some rest end).
Proof.
  intros Hd Hv. destruct (nextWith_Ok _ _ (Valid_sound (blk ++ rest)) Hv) as (fl & Hfl & _ & ->).
  destruct (Denotes_header it blk rest Hd) as (_ & Hfl' & _ & _).
  rewrite Hfl' in Hfl. injection Hfl as <-.
  rewrite len_app. destruct (Z.eqb_spec (len blk + len rest) (len blk)).
  - assert (len rest = 0) as ->%len_zero by lia. done.
  - destruct rest; [by rewrite len_nil in *; lia|].
    by rewrite drop_app_length' by (unfold len; lia).
Qed.

Lemma validInner_cons it blk body n tag :
  Denotes it blk → TTLV_Valid (blk ++ body) = Ok tt →
  validInner TTLV_Valid (S n) tag (blk ++ body) = validInner TTLV_Valid n tag body.
Proof.
  intros Hd Hv. destruct (Denotes_header it blk body Hd) as (_ & _ & _ & Hl).
  cbn [validInner]. rewrite len_app. pose proof (len_nonneg body).
  destruct (Z.eqb_spec (len blk + len body) 0); [unfold_types; lia|].
  rewrite Hv, (nextWith_block it) by done. by destruct body.
Qed.

Lemma Valid_block it blk rest : Denotes it blk → TTLV_Valid (blk ++ rest) = Ok tt.
Proof.
  intros Hd. revert rest. induction Hd using Denotes_mut with
    (P0 := λ items body _, ∀ n tag, (length body ≤ n)%nat →
      validInner TTLV_Valid n tag body = Ok tt); intros.
  - pose proof (Denotes_prim tag ty p raw pad e e0 l e1) as Hd.
    destruct (Denotes_header _ _ rest Hd) as (Hh & Hfl & _ & _).
    rewrite Valid_unfold, Hh, Hfl. cbn [mbind res_bind].
    rewrite len_app. destruct (Z.ltb_spec (len (header tag ty (len raw) ++ raw ++ pad) + len rest)
      (len (header tag ty (len raw) ++ raw ++ pad))) as [Hlt|_].
    { pose proof (len_nonneg rest). lia. }
    destruct (primDecode_shape _ _ _ e0) as (_ & Hns & Hty).
    rewrite <- app_assoc, header_Type by done.
    by destruct (Z.eqb_spec ty TypeStructure).
  - pose proof (Denotes_structure tag items body e d l) as Hd.
    destruct (Denotes_header _ _ rest Hd) as (Hh & Hfl & Htag & _).
    rewrite Valid_unfold, Hh, Hfl, Htag. cbn [mbind res_bind].
    rewrite len_app. destruct (Z.ltb_spec (len (header tag TypeStructure (len body) ++ body) + len rest)
      (len (header tag TypeStructure (len body) ++ body))) as [Hlt|_].
    { pose proof (len_nonneg rest). lia. }
    rewrite <- app_assoc, header_Type by side. rewrite Z.eqb_refl.
    rewrite header_ValueRaw_bytes by done. by apply IHHd.
  - by destruct n.
  - destruct (Denotes_header it blk [] Hd) as (_ & _ & _ & Hl).
    unfold len in Hl. unfold_types. rewrite length_app in *.
    destruct n as [|n]; [lia|].
    rewrite (validInner_cons it) by done. apply IHHd0. lia.
Qed.

(** ** Completeness: what [Valid] accepts denotes an item *)

Lemma validInner_inv n tag inner :
  (∀ t, (length t ≤ length inner)%nat → TTLV_Valid t = Ok tt →
    ∃ it blk rest, t = blk ++ rest ∧ Denotes it blk) →
  validInner TTLV_Valid n tag inner = Ok tt → ∃ items, DenotesSeq items inner.
Proof.
  revert inner. induction n as [|n IH]; intros inner Hv; cbn [validInner].
  - destruct (Z.eqb_spec (len inner) 0) as [->%len_zero|]; [|done].
    exists []. constructor.
  - destruct (Z.eqb_spec (len inner) 0) as [->%len_zero|].
    { exists []. constructor. }
    destruct (TTLV_Valid inner) as [[]|?| |] eqn:Hi; try done.
    destruct (Hv inner) as (it & blk & rest & -> & Hd); [lia|done|].
    rewrite (nextWith_block it) by done. cbn [mbind res_bind]. intros Hn.
    destruct (IH rest) as [items Hitems].
    + intros t Ht. apply Hv. rewrite length_app. lia.
    + by destruct rest.
    + exists (it :: items). by constructor.
Qed.

Lemma Valid_block_inv n t :
  (length t < n)%nat → TTLV_Valid t = Ok tt →
  ∃ it blk rest, t = blk ++ rest ∧ Denotes it blk.
Proof.
  revert t. induction n as [|n IH]; intros t Hn; [lia|]. rewrite Valid_unfold.
  destruct (TTLV_ValidHeader t) as [[]|?| |] eqn:Hh; try done. cbn [mbind res_bind].
  pose proof Hh as (Hl & Hb0 & Hs)%ValidHeader_spec.
  rewrite FullLen_shape by done. cbn [mbind res_bind].
  pose proof (TTLV_Len_range t) as Hlr. pose proof (TTLV_Tag_range t) as Htr.
  pose proof (paddedLen_ge _ _ (proj1 Hlr) Hs) as Hge.
  destruct (Z.ltb_spec (len t) (lenHeader + paddedLen (TTLV_Type t) (TTLV_Len t))) as [|Hfl]; [done|].
  pose proof (header_split t Hl) as Hsplit.
  assert (0 ≤ TTLV_Type t < 256) as Htyr by (unfold headerShape in Hs; unfold_types; lia).
  set (tag := TTLV_Tag t) in *. set (ty := TTLV_Type t) in *. set (l := TTLV_Len t) in *.
  assert (Tag_Valid tag = true) as Htag.
  { apply Tag_Valid_byte0; [done|]. rewrite Hsplit, header_byte0 in Hb0. done. }
  set (x := drop 8 t) in *. clearbody x tag ty l.
  assert (len x = len t - 8) as Hx.
  { rewrite Hsplit, len_header. unfold_types; lia. }
  unfold_types. pose (raw := take (Z.to_nat l) x). pose (y := drop (Z.to_nat l) x).
  assert (x = raw ++ y) as Hxy by (symmetry; apply take_drop).
  assert (len raw = l) as Hraw by (unfold raw; rewrite len_take; lia).
  assert (len y = len x - l) as Hy by (unfold y; rewrite len_drop; lia).
  clearbody raw y. subst x l t. destruct (Z.eqb_spec ty 1) as [->|Hns].
  - rewrite header_ValueRaw_bytes by lia. intros Hin.
    apply validInner_inv in Hin as [items Hseq];
      [|intros t' Ht'; apply IH; rewrite !length_app, length_header in Hn; lia].
    exists (IStructure tag items), (header tag 1 (len raw) ++ raw), y.
    rewrite <- app_assoc. split; [done|]. constructor; [done..|lia].
  - intros _. destruct (primDecode_total ty raw Hs Hns) as [p Hp].
    pose (k := Z.to_nat (paddedLen ty (len raw) - len raw)).
    exists (IPrim tag p), (header tag ty (len raw) ++ raw ++ take k y), (drop k y).
    rewrite <- !app_assoc, take_drop. split; [done|]. constructor; try done; try lia.
    unfold k. rewrite len_take. rewrite len_header, len_app in Hfl. unfold_types. lia.
Qed.

(** ** Values *)

Lemma twosComplement_i32 raw : len raw = 4 → i32 (be_decode raw) = twosComplement raw.
Proof.
  intros Hl. unfold twosComplement. pose proof (be_decode_range raw) as Hr.
  rewrite Hl in *. change (8 * 4) with 32 in *. case_match; wrap_lia.
Qed.

Lemma twosComplement_i64 raw : len raw = 8 → i64 (be_decode raw) = twosComplement raw.
Proof.
  intros Hl. unfold twosComplement. pose proof (be_decode_range raw) as Hr.
  rewrite Hl in *. change (8 * 8) with 64 in *. case_match; wrap_lia.
Qed.

(** The sign bit of a byte. *)
Lemma testByte_sign b : testByte b 0x80 = if 128 <=? b2z b then 128 else 0.
Proof. by destruct b. Qed.

Lemma be_decode_sign b l :
  (2 ^ (8 * len (b :: l)) <=? 2 * be_decode (b :: l)) = (128 <=? b2z b).
Proof.
  rewrite len_cons. cbn [be_decode]. pose proof (be_decode_range l). pose proof (b2z_range b).
  pose proof (len_nonneg l). pose proof (pow8_pos (len l) ltac:(done)).
  replace (8 * (1 + len l)) with (8 + 8 * len l) by lia. rewrite Z.pow_add_r by lia.
  change (2 ^ 8) with 256. destruct (Z.leb_spec 128 (b2z b)); [apply Z.leb_le|apply Z.leb_gt]; nia.
Qed.

Lemma twosComplement_cons b l :
  twosComplement (b :: l) =
    (if 128 <=? b2z b then b2z b - 256 else b2z b) * 2 ^ (8 * len l) + be_decode l.
Proof.
  unfold twosComplement. rewrite be_decode_sign, len_cons. cbn [be_decode].
  replace (8 * (1 + len l)) with (8 + 8 * len l) by lia.
  pose proof (len_nonneg l). rewrite Z.pow_add_r by lia. change (2 ^ 8) with 256.
  case_match; lia.
Qed.

Lemma unmarshalBigInt_spec data : unmarshalBigInt data = twosComplement data.
Proof.
  destruct data as [|b l]; [done|]. unfold unmarshalBigInt, twosComplement.
  rewrite testByte_sign, be_decode_sign.
  rewrite Z.shiftl_mul_pow2 by (pose proof (len_nonneg (b :: l)); lia).
  replace (len (b :: l) * 8) with (8 * len (b :: l)) by lia.
  destruct (128 <=? b2z b); simpl; lia.
Qed.

(** A leading byte that repeats the sign bit of the next one is padding. *)
Definition signPad (b0 b1 : byte) : bool :=
  (b2z b0 =? 255) && (128 <=? b2z b1) || (b2z b0 =? 0) && (b2z b1 <? 128).

Lemma twosComplement_signPad b0 b1 l :
  signPad b0 b1 = true → twosComplement (b0 :: b1 :: l) = twosComplement (b1 :: l).
Proof.
  unfold signPad. intros Hs. rewrite !twosComplement_cons, len_cons. cbn [be_decode].
  pose proof (len_nonneg l). replace (8 * (1 + len l)) with (8 + 8 * len l) by lia.
  rewrite Z.pow_add_r by lia. change (2 ^ 8) with 256.
  destruct (Z.leb_spec 128 (b2z b0)), (Z.leb_spec 128 (b2z b1)); lia.
Qed.

Lemma unpadBigInt_step b0 b1 l :
  unpadBigInt (b0 :: b1 :: l) =
    if signPad b0 b1 then unpadBigInt (b1 :: l) else b0 :: b1 :: l.
Proof.
  unfold signPad. cbn [unpadBigInt]. rewrite !testByte_sign.
  destruct (Z.leb_spec 128 (b2z b1)), (Z.ltb_spec (b2z b1) 128); try lia;
    destruct (b2z b0 =? 255), (b2z b0 =? 0); done.
Qed.

(** [unpadBigInt] drops sign bytes only: the number stays. *)
Lemma unpadBigInt_value data : twosComplement (unpadBigInt data) = twosComplement data.
Proof.
  induction data as [|b0 [|b1 l] IH]; [done|done|]. rewrite unpadBigInt_step.
  destruct (signPad b0 b1) eqn:Hs; [|done]. by rewrite IH, twosComplement_signPad.
Qed.

Lemma unixTime_sec sec : is_i64 sec → unixTime sec 0 = GoTime sec 0.
Proof.
  intros. unfold unixTime. change (0 / 1000000000) with 0.
  by rewrite Z.add_0_r, i64_id.
Qed.

Lemma Value_prim tag p blk rest :
  Denotes (IPrim tag p) blk → TTLV_Value (blk ++ rest) = Ok (primGo p).
Proof.
  intros Hd. inversion Hd as [tag' ty p' raw pad Ht Hp Hl Hpad|]; subst.
  destruct (primDecode_shape _ _ _ Hp) as (_ & _ & Hty).
  pose proof (be_decode_range raw) as Hr.
  unfold TTLV_Value, TTLV_ValueInterval, TTLV_ValueDateTime, TTLV_ValueDateTimeExtended,
    TTLV_ValueBoolean, TTLV_ValueEnumeration, TTLV_ValueBigInteger, TTLV_ValueLongInteger,
    TTLV_ValueInteger, TTLV_ValueByteString, TTLV_ValueTextString, TTLV_ValueLongInteger.
  rewrite <- !app_assoc, header_Type by done.
  rewrite header_ValueRaw_bytes, header_ValueRaw by done.
  unfold primDecode in Hp. revert Hp.
  repeat match goal with
  | |- context [ty =? ?c] => destruct (Z.eqb_spec ty c) as [->|]
  end; try done; cbn [Z.eqb]; simpl (_ =? _);
  repeat match goal with
  | |- (if ?b then _ else _) = _ → _ => destruct b eqn:Hlen; [apply Z.eqb_eq in Hlen|done]
  end; intros [= <-]; unfold Uint32, Uint64; rewrite ?Hlen; cbn [primGo];
  rewrite ?take_ge by (unfold len in Hlen; lia); simpl.
  - by rewrite twosComplement_i32.
  - by rewrite twosComplement_i64.
  - by rewrite unmarshalBigInt_spec, unpadBigInt_value.
  - done.
  - unfold byteAt. destruct (raw !! 7%nat) as [b|] eqn:Hb.
    + by rewrite (index_Ok raw 7 b).
    + apply lookup_ge_None in Hb. unfold len in Hlen. lia.
  - done.
  - done.
  - rewrite <- (twosComplement_i64 raw Hlen). by rewrite unixTime_sec by side.
  - rewrite Hlen in Hr. unfold Second. change (2 ^ (8 * 4)) with 4294967296 in Hr.
    rewrite i64_id by (wrap_unfold; lia). done.
  - by rewrite twosComplement_i64.
Qed.

(** * The items of a tree are unambiguous *)

Lemma header_inj tag1 ty1 l1 x1 tag2 ty2 l2 x2 :
  0 ≤ tag1 < 2 ^ 24 → 0 ≤ tag2 < 2 ^ 24 → 0 ≤ ty1 < 256 → 0 ≤ ty2 < 256 →
  0 ≤ l1 < 2 ^ 32 → 0 ≤ l2 < 2 ^ 32 →
  header tag1 ty1 l1 ++ x1 = header tag2 ty2 l2 ++ x2 →
  tag1 = tag2 ∧ ty1 = ty2 ∧ l1 = l2 ∧ x1 = x2.
Proof.
  intros Ht1 Ht2 Hy1 Hy2 Hl1 Hl2 Heq.
  pose proof (f_equal TTLV_Tag Heq) as E1. pose proof (f_equal TTLV_Type Heq) as E2.
  pose proof (f_equal TTLV_Len Heq) as E3. pose proof (f_equal (drop 8) Heq) as E4.
  rewrite !header_Tag in E1 by done. rewrite !header_Type in E2 by done.
  rewrite !header_Len in E3 by done. rewrite !header_drop in E4. done.
Qed.

Lemma Denotes_unique it1 blk1 :
  Denotes it1 blk1 → ∀ it2 blk2 r1 r2,
  Denotes it2 blk2 → blk1 ++ r1 = blk2 ++ r2 → it1 = it2 ∧ blk1 = blk2 ∧ r1 = r2.
Proof.
  intros Hd. induction Hd using Denotes_mut with
    (P0 := λ items1 body _, ∀ items2, DenotesSeq items2 body → items1 = items2).
  - intros it2 blk2 r1 r2 Hd2 Heq.
    pose proof (Denotes_prim tag ty p raw pad e e0 l e1) as Hd1.
    destruct (primDecode_shape _ _ _ e0) as (_ & Hns & Hty).
    pose proof (len_nonneg raw).
    inversion Hd2 as [tag2 ty2 p2 raw2 pad2 Ht2 Hp2 Hl2 Hpad2|tag2 items2 body2 Ht2 Hs2 Hl2]; subst;
      rewrite <- !app_assoc in Heq; apply header_inj in Heq as (-> & -> & Hl & Hx); try side.
    2: { destruct (primDecode_shape _ _ _ Hp2) as (_ & _ & ?). done. }
    apply app_inj_1 in Hx as [<- Hx]; [|unfold len in Hl; lia].
    simplify_eq. apply app_inj_1 in Hx as [-> ->]; [done|unfold len in *; lia].
  - intros it2 blk2 r1 r2 Hd2 Heq. pose proof (len_nonneg body).
    inversion Hd2 as [tag2 ty2 p2 raw2 pad2 Ht2 Hp2 Hl2 Hpad2|tag2 items2 body2 Ht2 Hs2 Hl2]; subst;
      rewrite <- !app_assoc in Heq; apply header_inj in Heq as (-> & Hty & Hl & Hx); try side.
    + destruct (primDecode_shape _ _ _ Hp2) as (_ & Hns & _). congruence.
    + destruct (primDecode_shape _ _ _ Hp2) as (_ & _ & ?). done.
    + apply app_inj_1 in Hx as [<- ->]; [|unfold len in Hl; lia].
      split_and!; try done. f_equal. by apply IHHd.
  - intros items2 Hs. inversion Hs as [|it items blk body Hd Hs' Heq]; [done|].
    destruct (Denotes_header it blk [] Hd) as (_ & _ & _ & Hl).
    destruct blk; [by compute in Hl|done].
  - intros items2 Hs. inversion Hs as [Hnil|it' items' blk' body' Hd' Hs' Heq].
    + destruct (Denotes_header it blk [] Hd) as (_ & _ & _ & Hl).
      destruct blk; [by compute in Hl|done].
    + subst. destruct (IHHd it' blk' body body' Hd') as (-> & -> & ->); [done|].
      f_equal. by apply IHHd0.
Qed.

(** * Concrete items *)

(** A Structure that holds an Integer and a ByteString of three bytes. *)
Definition sampleItem : item :=
  IStructure 0x420069 [IPrim 0x42006a (PInteger (-2)); IPrim 0x420001 (PByteString [x61; x62; x63])].
Definition sampleIntRaw : list byte := be_encode 4 (-2).
Definition sampleInt : list byte :=
  header 0x42006a TypeInteger (len sampleIntRaw) ++ sampleIntRaw ++ [x00; x00; x00; x00].
Definition sampleString : list byte :=
  header 0x420001 TypeByteString (len [x61; x62; x63]) ++ [x61; x62; x63] ++
    [x00; x00; x00; x00; x00].
Definition sampleBody : list byte := sampleInt ++ sampleString ++ [].
Definition sampleBlock : list byte :=
  header 0x420069 TypeStructure (len sampleBody) ++ sampleBody.

Lemma sampleInt_denotes : Denotes (IPrim 0x42006a (PInteger (-2))) sampleInt.
Proof. by apply Denotes_prim. Qed.

Lemma sampleString_denotes : Denotes (IPrim 0x420001 (PByteString [x61; x62; x63])) sampleString.
Proof. by apply Denotes_prim. Qed.

Lemma sampleBlock_denotes : Denotes sampleItem sampleBlock.
Proof.
  apply Denotes_structure; [done| |done].
  apply DenotesSeq_cons; [apply sampleInt_denotes|].
  apply DenotesSeq_cons; [apply sampleString_denotes|constructor].
Qed.

(** * Properties *)

(** C1. Refinement: [Valid] accepts a slice exactly when the slice starts with
    a block of the TTLV grammar; the bytes after the block play no role. *)
Theorem Valid_grammar t :
  TTLV_Valid t = Ok tt ↔ ∃ it blk rest, t = blk ++ rest ∧ Denotes it blk.
Proof.
  split.
  - apply (Valid_block_inv (S (length t))). lia.
  - intros (it & blk & rest & -> & Hd). by apply (Valid_block it).
Qed.

(** On a slice that starts with a block of the grammar, [Tag], [FullLen]
    and [Next] describe that block: its tag, its exact length, and the bytes
    after it (nil when there are none). *)
Theorem Next_after_block it blk rest :
  Denotes it blk →
  TTLV_Tag (blk ++ rest) = itemTag it ∧
  TTLV_FullLen (blk ++ rest) = Ok (len blk) ∧
  TTLV_Next (blk ++ rest) = Ok (match rest with [] => None | _ => Some rest end).
Proof.
  intros Hd. destruct (Denotes_header it blk rest Hd) as (_ & Hfl & Ht & _).
  split_and!; [done..|]. apply (nextWith_block it); [done|]. by apply (Valid_block it).
Qed.

Lemma Next_after_block_witness :
  TTLV_Next (sampleBlock ++ [x07]) = Ok (Some [x07]).
Proof. exact (proj2 (proj2 (Next_after_block sampleItem sampleBlock [x07] sampleBlock_denotes))). Defined.

(** [Value] decodes the value segment of every primitive block to the Go
    value of the KMIP value it denotes: two's complement integers of 4, 8 and
    any multiple of 8 bytes, strings, dates and intervals, without panicking. *)
Theorem Value_decodes tag p blk rest :
  Denotes (IPrim tag p) blk → TTLV_Value (blk ++ rest) = Ok (primGo p).
Proof. apply Value_prim. Qed.

Lemma Value_decodes_witness : TTLV_Value (sampleInt ++ [x01; x02]) = Ok (GInt32 (-2)).
Proof. exact (Value_decodes 0x42006a (PInteger (-2)) sampleInt [x01; x02] sampleInt_denotes). Defined.
