(* ===== verification/EncBuf.v ===== *)
(** The encoding buffer of src/ttlv/encoder.go: [encBuf] and the primitive
    encoders, and the theorems that what they append denotes the value they
    were given. *)
From Stdlib Require Import ZArith Lia Strings.Byte.
From stdpp Require Import base list strings numbers.
From S2P Require Import Prelude Ttlv Grammar.
Local Open Scope Z_scope.
Set Warnings "-register-all".

(** The buffer is the list of the bytes written so far ([bytes.Buffer] with
    nothing read yet). *)
Abbreviation encBuf := (list byte).

(** [var zeros = [8]byte{}] and [ones]; [zerosTo n] is [zeros[:n]]. *)
Definition zeros : list byte := replicate 8 x00.
Definition ones : list byte := replicate 8 xff.
Definition zerosTo (n : Z) : list byte := take (Z.to_nat n) zeros.
Definition onesTo (n : Z) : list byte := take (Z.to_nat n) ones.

(** [binary.BigEndian.PutUint32(h[off:], v)] and [PutUint64]: overwrite in
    place. *)
Definition putBytes (h : encBuf) (off : Z) (bs : list byte) : encBuf :=
  take (Z.to_nat off) h ++ bs ++ drop (Z.to_nat off + length bs) h.
Definition putUint32 (h : encBuf) (off v : Z) : encBuf := putBytes h off (be_encode 4 v).
Definition putUint64 (h : encBuf) (off v : Z) : encBuf := putBytes h off (be_encode 8 v).

(** [begin] returns the new buffer and the offset of the value segment. *)
Definition encBuf_begin (h : encBuf) (tag typ : Z) : encBuf * Z :=
  let h := h ++ [z2b (Z.shiftr tag 16)] in
  let h := h ++ [z2b (Z.shiftr tag 8)] in
  let h := h ++ [z2b tag] in
  let h := h ++ [z2b typ] in
  let h := h ++ zerosTo 4 in
  (h, len h).

(** [end]: pad the value segment to a multiple of 8, then patch its length. *)
Definition encBuf_end (h : encBuf) (i : Z) : encBuf :=
  let n := len h - i in
  let m := n mod 8 in
  let h := if 0 <? m then h ++ zerosTo (8 - m) else h in
  putUint32 h (i - 4) (u32 n).

Definition writeLongIntVal (h : encBuf) (tag typ i : Z) : encBuf :=
  let '(h, s) := encBuf_begin h tag typ in
  let ll := len h in
  let h := h ++ zerosTo 8 in
  let h := putUint64 h ll (u64 i) in
  encBuf_end h s.

Definition writeIntVal (h : encBuf) (tag typ val : Z) : encBuf :=
  let '(h, s) := encBuf_begin h tag typ in
  let ll := len h in
  let h := h ++ zerosTo 4 in
  let h := putUint32 h ll val in
  encBuf_end h s.

(** math/big: [BitLen] and [Bytes] of the absolute value. *)
Definition BitLen (z : Z) : Z := if z =? 0 then 0 else Z.log2 (Z.abs z) + 1.
Definition bigBytes (z : Z) : list byte :=
  be_encode (Z.to_nat ((BitLen z + 7) / 8)) (Z.abs z).

(** The value segment that [encodeBigInt] writes. *)
Definition bigIntSegment (i : Z) : list byte :=
  match i with
  | Z0 => zerosTo 8
  | Zpos _ =>
      let b := bigBytes i in
      let l := len b in
      let neg := match b with b0 :: _ => 0 <? testByte b0 0x80 | [] => false end in
      let l := if neg then l + 1 else l in
      let m := l mod 8 in
      (if neg then [x00] else []) ++ (if 0 <? m then zerosTo (8 - m) else []) ++ b
  | Zneg _ =>
      let length := (BitLen i / 8 + 1) * 8 in
      let j := Z.shiftl 1 length in
      let b := bigBytes (i + j) in
      let b := match b with
               | b0 :: ((b1 :: _) as rest) =>
                   if (b2z b0 =? 0xff) && negb (testByte b1 0x80 =? 0) then rest else b
               | _ => b
               end in
      let l := len b in
      let m := l mod 8 in
      (if 0 <? m then onesTo (8 - m) else []) ++ b
  end.

(** [None] is a nil [*big.Int]. *)
Definition encodeBigInt (h : encBuf) (tag : Z) (i : option Z) : encBuf :=
  match i with
  | None => h
  | Some i =>
      let '(h, ii) := encBuf_begin h tag TypeBigInteger in
      let h := h ++ bigIntSegment i in
      encBuf_end h ii
  end.

Definition encodeInt (h : encBuf) (tag i : Z) : encBuf :=
  writeIntVal h tag TypeInteger (u32 i).

Definition encodeBool (h : encBuf) (tag : Z) (b : bool) : encBuf :=
  if b then writeLongIntVal h tag TypeBoolean 1 else writeLongIntVal h tag TypeBoolean 0.

Definition encodeLongInt (h : encBuf) (tag i : Z) : encBuf :=
  writeLongIntVal h tag TypeLongInteger i.

Definition encodeDateTime (h : encBuf) (tag : Z) (t : gotime) : encBuf :=
  writeLongIntVal h tag TypeDateTime (time_sec t).

Definition encodeDateTimeExtended (h : encBuf) (tag : Z) (t : gotime) : encBuf :=
  let m := i64 (i64 (time_sec t * 1000000) + time_nsec t / 1000) in
  writeLongIntVal h tag TypeDateTimeExtended m.

(** Go's integer division truncates toward zero. *)
Definition encodeInterval (h : encBuf) (tag d : Z) : encBuf :=
  writeIntVal h tag TypeInterval (u32 (Z.quot d Second)).

Definition encodeEnum (h : encBuf) (tag i : Z) : encBuf :=
  writeIntVal h tag TypeEnumeration i.

Definition encodeTextString (h : encBuf) (tag : Z) (s : string) : encBuf :=
  let '(h, i) := encBuf_begin h tag TypeTextString in
  let h := h ++ String.list_byte_of_string s in
  encBuf_end h i.

(** [None] is a nil slice. *)
Definition encodeByteString (h : encBuf) (tag : Z) (b : option (list byte)) : encBuf :=
  match b with
  | None => h
  | Some b =>
      let '(h, i) := encBuf_begin h tag TypeByteString in
      let h := h ++ b in
      encBuf_end h i
  end.

Example encodeBigInt_neg128 :
  encodeBigInt [] 0x420001 (Some (-128)) =
  header 0x420001 TypeBigInteger 8 ++ replicate 7 xff ++ [x80].
Proof. vm_compute. reflexivity. Qed.

(** * What [begin] and [end] write *)

Lemma begin_eq h tag typ :
  encBuf_begin h tag typ = (h ++ header tag typ 0, len h + lenHeader).
Proof.
  unfold encBuf_begin. f_equal.
  - rewrite <- !app_assoc. reflexivity.
  - rewrite !len_app, !len_cons, len_nil. change (len (zerosTo 4)) with 4.
    unfold_types. lia.
Qed.

Lemma header_patch tag typ l : take 4 (header tag typ 0) ++ be_encode 4 l = header tag typ l.
Proof. reflexivity. Qed.

Lemma len_zerosTo n : 0 ≤ n ≤ 8 → len (zerosTo n) = n.
Proof. intros. unfold zerosTo, zeros. rewrite len_take, len_replicate. lia. Qed.

(** The padding [end] appends after a value segment of [n] bytes. *)
Definition padding (n : Z) : list byte := zerosTo ((- n) mod 8).

Lemma len_padding n : len (padding n) = (- n) mod 8.
Proof. unfold padding. apply len_zerosTo. Z.div_mod_to_equations; lia. Qed.

Lemma padding_eq n : (if 0 <? n mod 8 then zerosTo (8 - n mod 8) else []) = padding n.
Proof.
  unfold padding. destruct (Z.ltb_spec 0 (n mod 8)).
  - f_equal. Z.div_mod_to_equations; lia.
  - replace (- n mod 8) with 0 by (Z.div_mod_to_equations; lia). done.
Qed.

Lemma putBytes_app a b c off bs :
  off = len a → length bs = length b → putBytes (a ++ b ++ c) off bs = a ++ bs ++ c.
Proof.
  intros -> Hb. unfold putBytes, len. rewrite Nat2Z.id, Hb.
  rewrite take_app_length, (app_assoc a b c), (drop_app_length' (a ++ b)); [done|].
  by rewrite length_app.
Qed.

Lemma u32_be i : be_encode 4 (u32 i) = be_encode 4 i.
Proof. apply be_encode_inj_mod. unfold u32. apply Z.mod_mod. done. Qed.
Lemma u64_be i : be_encode 8 (u64 i) = be_encode 8 i.
Proof. apply be_encode_inj_mod. unfold u64. apply Z.mod_mod. done. Qed.

(** Between [begin] and [end], everything appended is the value segment: the
    effect of the pair is a complete block, whatever the buffer held before. *)
Lemma end_begin h tag typ raw :
  encBuf_end ((h ++ header tag typ 0) ++ raw) (len h + lenHeader) =
  h ++ header tag typ (len raw) ++ raw ++ padding (len raw).
Proof.
  pose proof (len_nonneg raw). unfold encBuf_end.
  rewrite !len_app. change (len (header tag typ 0)) with 8. unfold_types.
  replace (len h + 8 + len raw - (len h + (3 + 1 + 4))) with (len raw) by lia.
  assert (∀ x y : list byte, (if 0 <? len raw mod 8 then x ++ zerosTo (8 - len raw mod 8) else x)
    = x ++ padding (len raw)) as Hp.
  { intros x _. rewrite <- padding_eq. case_match; [done|]. by rewrite app_nil_r. }
  rewrite Hp by exact h. unfold putUint32. rewrite u32_be.
  rewrite <- (take_drop 4 (header tag typ 0)), <- !app_assoc, app_assoc.
  rewrite (putBytes_app (h ++ take 4 (header tag typ 0)) (drop 4 (header tag typ 0))).
  - rewrite <- (header_patch tag typ (len raw)), <- !app_assoc. done.
  - rewrite len_app. change (len (take 4 (header tag typ 0))) with 4. lia.
  - done.
Qed.

Lemma writeIntVal_eq h tag typ v :
  writeIntVal h tag typ v = h ++ header tag typ 4 ++ be_encode 4 v ++ padding 4.
Proof.
  unfold writeIntVal. rewrite begin_eq. unfold putUint32.
  pose proof (putBytes_app (h ++ header tag typ 0) (zerosTo 4) []
    (len (h ++ header tag typ 0)) (be_encode 4 v) eq_refl eq_refl) as Hp.
  rewrite !app_nil_r in Hp. rewrite Hp. by rewrite end_begin, len_be_encode.
Qed.

Lemma writeLongIntVal_eq h tag typ i :
  writeLongIntVal h tag typ i = h ++ header tag typ 8 ++ be_encode 8 (u64 i) ++ padding 8.
Proof.
  unfold writeLongIntVal. rewrite begin_eq. unfold putUint64.
  pose proof (putBytes_app (h ++ header tag typ 0) (zerosTo 8) []
    (len (h ++ header tag typ 0)) (be_encode 8 (u64 i)) eq_refl eq_refl) as Hp.
  rewrite !app_nil_r in Hp. rewrite Hp. by rewrite end_begin, len_be_encode.
Qed.

(** * The big integer segment *)

Lemma BitLen_bounds z : z ≠ 0 → 0 < BitLen z ∧ 2 ^ (BitLen z - 1) ≤ Z.abs z < 2 ^ BitLen z.
Proof.
  intros Hz. unfold BitLen. destruct (Z.eqb_spec z 0); [done|].
  pose proof (Z.log2_spec (Z.abs z) ltac:(lia)) as Hs. pose proof (Z.log2_nonneg (Z.abs z)).
  replace (Z.log2 (Z.abs z) + 1 - 1) with (Z.log2 (Z.abs z)) by lia.
  replace (Z.log2 (Z.abs z) + 1) with (Z.succ (Z.log2 (Z.abs z))) by lia. lia.
Qed.

Lemma bigBytes_decode z : be_decode (bigBytes z) = Z.abs z.
Proof.
  destruct (Z.eq_dec z 0) as [->|Hz]; [done|].
  destruct (BitLen_bounds z Hz) as (Hp & _ & Hlt). unfold bigBytes.
  rewrite be_decode_encode, Z2Nat.id by (Z.div_mod_to_equations; lia).
  apply Z.mod_small. split; [lia|]. eapply Z.lt_le_trans; [apply Hlt|].
  apply Z.pow_le_mono_r; [lia|]. Z.div_mod_to_equations; lia.
Qed.

Lemma twosComplement_nonneg raw :
  2 * be_decode raw < 2 ^ (8 * len raw) → twosComplement raw = be_decode raw.
Proof. intros. unfold twosComplement. case_match; lia. Qed.

Lemma be_decode_zeros k b : be_decode (replicate k x00 ++ b) = be_decode b.
Proof. induction k as [|k IH]; [done|]. cbn [replicate app be_decode]. rewrite IH. done. Qed.

Lemma twosComplement_ones k b0 l :
  128 ≤ b2z b0 → twosComplement (replicate k xff ++ b0 :: l) = twosComplement (b0 :: l).
Proof.
  intros Hb. induction k as [|k IH]; [done|]. cbn [replicate app].
  destruct k as [|k]; cbn [replicate app] in *.
  - apply twosComplement_signPad. unfold signPad. simpl. lia.
  - rewrite twosComplement_signPad; done.
Qed.

Lemma zerosTo_replicate n : 0 ≤ n ≤ 8 → zerosTo n = replicate (Z.to_nat n) x00.
Proof. intros. unfold zerosTo, zeros. rewrite take_replicate. f_equal. lia. Qed.
Lemma onesTo_replicate n : 0 ≤ n ≤ 8 → onesTo n = replicate (Z.to_nat n) xff.
Proof. intros. unfold onesTo, ones. rewrite take_replicate. f_equal. lia. Qed.

(** Zero bytes in front of a number that leave room for the sign bit. *)
Lemma twosComplement_zeros k b :
  be_decode b * 2 < 2 ^ (8 * (Z.of_nat k + len b)) →
  twosComplement (replicate k x00 ++ b) = be_decode b.
Proof.
  intros Hb. rewrite twosComplement_nonneg; rewrite be_decode_zeros; [done|].
  rewrite len_app, len_replicate. lia.
Qed.

Lemma bigIntSegment_pos i :
  0 < i → twosComplement (bigIntSegment i) = i ∧ len (bigIntSegment i) mod 8 = 0.
Proof.
  intros Hi. destruct i as [|p|p]; try lia. unfold bigIntSegment.
  set (i := Zpos p) in *. pose proof (bigBytes_decode i) as Hd.
  rewrite Z.abs_eq in Hd by lia. pose proof (be_decode_range (bigBytes i)) as Hr.
  destruct (bigBytes i) as [|b0 l] eqn:Hb; [simpl in Hd; lia|].
  pose proof (be_decode_sign b0 l) as Hs. rewrite Hd in *. rewrite testByte_sign.
  set (b := b0 :: l) in *. pose proof (len_nonneg b).
  destruct (Z.leb_spec 128 (b2z b0)).
  - apply Z.leb_le in Hs. change (0 <? 128) with true. cbn iota.
    rewrite padding_eq. unfold padding.
    rewrite zerosTo_replicate by (Z.div_mod_to_equations; lia).
    set (k := Z.to_nat _). change ([x00] ++ replicate k x00 ++ b) with (replicate (S k) x00 ++ b).
    split; [|rewrite len_app, len_replicate; unfold k; Z.div_mod_to_equations; lia].
    rewrite twosComplement_zeros; [done|]. rewrite Hd.
    replace (8 * (Z.of_nat (S k) + len b)) with (8 + (8 * Z.of_nat k + 8 * len b)) by lia.
    rewrite !Z.pow_add_r by lia. pose proof (pow8_pos (Z.of_nat k) ltac:(lia)).
    change (2 ^ 8) with 256. nia.
  - apply Z.leb_gt in Hs. change (0 <? 0) with false. cbn iota. rewrite padding_eq. unfold padding.
    rewrite zerosTo_replicate by (Z.div_mod_to_equations; lia). cbn [app].
    set (k := Z.to_nat _).
    split; [|rewrite !len_app, len_replicate; unfold k; Z.div_mod_to_equations; lia].
    rewrite twosComplement_zeros; [done|]. rewrite Hd.
    replace (8 * (Z.of_nat k + len b)) with (8 * Z.of_nat k + 8 * len b) by lia.
    rewrite !Z.pow_add_r by lia. pose proof (pow8_pos (Z.of_nat k) ltac:(lia)). nia.
Qed.

(** Stripping a redundant sign byte and padding with ones keep a negative
    number. *)
Lemma negSegment i b0 l :
  twosComplement (b0 :: l) = i → 128 ≤ b2z b0 →
  let b := match b0 :: l with
           | b0 :: ((b1 :: _) as rest) =>
               if (b2z b0 =? 0xff) && negb (testByte b1 0x80 =? 0) then rest else b0 :: l
           | _ => b0 :: l
           end in
  twosComplement ((if 0 <? len b mod 8 then onesTo (8 - len b mod 8) else []) ++ b) = i ∧
  len ((if 0 <? len b mod 8 then onesTo (8 - len b mod 8) else []) ++ b) mod 8 = 0.
Proof.
  intros Htw Hb0 b. assert (∃ b0' l', b = b0' :: l' ∧ 128 ≤ b2z b0' ∧
    twosComplement (b0' :: l') = i) as (b0' & l' & -> & Hb & Ht).
  { unfold b. destruct l as [|b1 l]; [eauto|]. rewrite testByte_sign.
    destruct (Z.eqb_spec (b2z b0) 255) as [E|]; cbn [andb]; [|eauto].
    destruct (Z.leb_spec 128 (b2z b1)); simpl; [|eauto].
    exists b1, l. split_and!; try done. rewrite <- Htw. symmetry.
    apply twosComplement_signPad. unfold signPad. lia. }
  set (b := b0' :: l'). pose proof (len_nonneg b).
  pose proof (Z.mod_pos_bound (len b) 8 ltac:(lia)).
  destruct (Z.ltb_spec 0 (len b mod 8)); cbn [app]; [|split; [done|lia]].
  rewrite onesTo_replicate by (Z.div_mod_to_equations; lia). split.
  - unfold b at 2. by rewrite twosComplement_ones.
  - rewrite len_app, len_replicate. Z.div_mod_to_equations; lia.
Qed.

Lemma bigIntSegment_neg i :
  i < 0 → twosComplement (bigIntSegment i) = i ∧ len (bigIntSegment i) mod 8 = 0.
Proof.
  intros Hi. destruct i as [|p|p]; try lia. unfold bigIntSegment.
  set (i := Zneg p) in *. destruct (BitLen_bounds i ltac:(lia)) as (Hp & _ & Hlt).
  set (N := BitLen i / 8 + 1). assert (BitLen i + 1 ≤ 8 * N ∧ 0 < N) as [HN HN0].
  { unfold N. Z.div_mod_to_equations; lia. }
  assert (Z.abs i < 2 ^ (8 * N - 1)) as Hb.
  { eapply Z.lt_le_trans; [apply Hlt|]. apply Z.pow_le_mono_r; lia. }
  rewrite Z.shiftl_mul_pow2, Z.mul_1_l by lia.
  assert (2 ^ (N * 8) = 2 * 2 ^ (8 * N - 1)) as Hpow.
  { rewrite <- Z.pow_succ_r by lia. f_equal. lia. }
  pose proof (bigBytes_decode (i + 2 ^ (N * 8))) as Hd. rewrite Z.abs_eq in Hd by lia.
  assert (len (bigBytes (i + 2 ^ (N * 8))) = N) as Hlen.
  { unfold bigBytes. rewrite len_be_encode.
    replace (BitLen (i + 2 ^ (N * 8))) with (8 * N); [Z.div_mod_to_equations; lia|].
    unfold BitLen. destruct (Z.eqb_spec (i + 2 ^ (N * 8)) 0); [lia|].
    rewrite (Z.log2_unique _ (8 * N - 1)); [lia|lia|].
    replace (Z.succ (8 * N - 1)) with (N * 8) by lia. lia. }
  revert Hd Hlen. generalize (bigBytes (i + 2 ^ (N * 8))). intros b Hd Hlen.
  assert (twosComplement b = i) as Htw.
  { unfold twosComplement. rewrite Hd, Hlen. replace (8 * N) with (N * 8) by lia.
    rewrite (proj2 (Z.leb_le _ _)) by lia. lia. }
  destruct b as [|b0 l]; [rewrite len_nil in Hlen; lia|].
  pose proof (be_decode_sign b0 l) as Hs. rewrite Hd, Hlen in Hs.
  replace (8 * N) with (N * 8) in Hs by lia.
  rewrite (proj2 (Z.leb_le _ _)) in Hs by lia. symmetry in Hs. apply Z.leb_le in Hs.
  by apply negSegment.
Qed.

Lemma bigIntSegment_spec i :
  twosComplement (bigIntSegment i) = i ∧ len (bigIntSegment i) mod 8 = 0.
Proof.
  destruct (Z.lt_trichotomy i 0) as [Hi|[->|Hi]];
    [by apply bigIntSegment_neg|done|by apply bigIntSegment_pos].
Qed.

(** * Encoding trees of items *)

(** The encoder for each primitive KMIP value, fed with the Go value that
    stands for it. *)
Definition encodePrim (h : encBuf) (tag : Z) (p : prim) : encBuf :=
  match p with
  | PInteger i => encodeInt h tag i
  | PLongInteger i => encodeLongInt h tag i
  | PBigInteger i => encodeBigInt h tag (Some i)
  | PEnumeration e => encodeEnum h tag e
  | PBoolean b => encodeBool h tag b
  | PTextString s => encodeTextString h tag (String.string_of_list_byte s)
  | PByteString s => encodeByteString h tag (Some s)
  | PDateTime sec => encodeDateTime h tag (GoTime sec 0)
  | PInterval sec => encodeInterval h tag (sec * Second)
  | PDateTimeExtended usec =>
      encodeDateTimeExtended h tag (GoTime (usec / 1000000) (usec mod 1000000 * 1000))
  end.

(** A Structure: [begin], the items, [end]. *)
Fixpoint encodeItem (h : encBuf) (it : item) {struct it} : encBuf :=
  match it with
  | IPrim tag p => encodePrim h tag p
  | IStructure tag items =>
      let '(h, i) := encBuf_begin h tag TypeStructure in
      let h := foldl encodeItem h items in
      encBuf_end h i
  end.

(** The value segment an encoder writes for a primitive, and its type. *)
Definition primType (p : prim) : Z :=
  match p with
  | PInteger _ => TypeInteger
  | PLongInteger _ => TypeLongInteger
  | PBigInteger _ => TypeBigInteger
  | PEnumeration _ => TypeEnumeration
  | PBoolean _ => TypeBoolean
  | PTextString _ => TypeTextString
  | PByteString _ => TypeByteString
  | PDateTime _ => TypeDateTime
  | PInterval _ => TypeInterval
  | PDateTimeExtended _ => TypeDateTimeExtended
  end.

Definition primSegment (p : prim) : list byte :=
  match p with
  | PInteger i | PEnumeration i | PInterval i => be_encode 4 i
  | PLongInteger i | PDateTime i | PDateTimeExtended i => be_encode 8 i
  | PBigInteger i => bigIntSegment i
  | PBoolean b => be_encode 8 (if b then 1 else 0)
  | PTextString s | PByteString s => s
  end.

(** The primitive values that fit the wire format. *)
Definition primOk (p : prim) : Prop :=
  match p with
  | PInteger i => is_i32 i
  | PLongInteger i | PDateTime i | PDateTimeExtended i => is_i64 i
  | PEnumeration i | PInterval i => is_u32 i
  | PBoolean _ => True
  | PBigInteger _ | PTextString _ | PByteString _ => len (primSegment p) < 2 ^ 32
  end.

Definition primBlock (tag : Z) (p : prim) : list byte :=
  header tag (primType p) (len (primSegment p)) ++ primSegment p ++ padding (len (primSegment p)).

(** The canonical block of an item: zero padding, shortest big integers. *)
Fixpoint itemBlock (it : item) : list byte :=
  match it with
  | IPrim tag p => primBlock tag p
  | IStructure tag items =>
      let body := concat (map itemBlock items) in
      header tag TypeStructure (len body) ++ body
  end.

(** An item that fits the wire format: tags in range, values in range, every
    Structure shorter than 4 GiB. *)
Inductive itemOk : item → Prop :=
  | itemOk_prim tag p : Tag_Valid tag = true → primOk p → itemOk (IPrim tag p)
  | itemOk_structure tag items :
      Tag_Valid tag = true → Forall itemOk items →
      len (concat (map itemBlock items)) < 2 ^ 32 →
      itemOk (IStructure tag items).

(** Induction over items with the hypothesis for every enclosed item. *)
Lemma item_ind' (P : item → Prop) :
  (∀ tag p, P (IPrim tag p)) →
  (∀ tag items, Forall P items → P (IStructure tag items)) →
  ∀ it, P it.
Proof.
  intros Hp Hs. fix IH 1. intros [tag p|tag items]; [apply Hp|apply Hs].
  induction items as [|it items IHi]; constructor; [apply IH|apply IHi].
Qed.

Lemma encodeBigInt_eq h tag i :
  encodeBigInt h tag (Some i) = h ++ primBlock tag (PBigInteger i).
Proof. unfold encodeBigInt. by rewrite begin_eq, end_begin. Qed.

Lemma encodeBytes_eq h tag typ s :
  (let '(h, i) := encBuf_begin h tag typ in let h := h ++ s in encBuf_end h i) =
  h ++ header tag typ (len s) ++ s ++ padding (len s).
Proof. by rewrite begin_eq, end_begin. Qed.

(** The microseconds that [encodeDateTimeExtended] reassembles. *)
Lemma usec_split usec : is_i64 usec →
  i64 (i64 (usec / 1000000 * 1000000) + (usec mod 1000000 * 1000) / 1000) = usec.
Proof.
  intros Hu. rewrite Z.div_mul by lia. wrap_unfold.
  Z.div_mod_to_equations. lia.
Qed.

Lemma encodePrim_eq h tag p : primOk p → encodePrim h tag p = h ++ primBlock tag p.
Proof.
  intros Hp. destruct p; cbn [primOk primSegment] in Hp; cbn [encodePrim].
  - unfold encodeInt. by rewrite writeIntVal_eq, u32_be.
  - unfold encodeLongInt. by rewrite writeLongIntVal_eq, u64_be.
  - by apply encodeBigInt_eq.
  - unfold encodeEnum. by rewrite writeIntVal_eq.
  - unfold encodeBool. destruct b; by rewrite writeLongIntVal_eq.
  - unfold encodeTextString. rewrite String.list_byte_of_string_of_list_byte.
    by apply encodeBytes_eq.
  - unfold encodeByteString. by apply encodeBytes_eq.
  - unfold encodeDateTime. by rewrite writeLongIntVal_eq, u64_be.
  - unfold encodeInterval. rewrite Z.quot_mul by done. by rewrite writeIntVal_eq, u32_be.
  - unfold encodeDateTimeExtended. cbn [time_sec time_nsec].
    by rewrite writeLongIntVal_eq, u64_be, usec_split.
Qed.

Lemma twosComplement_be4 i : is_i32 i → twosComplement (be_encode 4 i) = i.
Proof.
  intros. rewrite <- twosComplement_i32 by apply len_be_encode. rewrite be_decode_encode.
  change (i mod 2 ^ (8 * Z.of_nat 4)) with (u32 i). by rewrite i32_u32, i32_id.
Qed.

Lemma twosComplement_be8 i : is_i64 i → twosComplement (be_encode 8 i) = i.
Proof.
  intros. rewrite <- twosComplement_i64 by apply len_be_encode. rewrite be_decode_encode.
  change (i mod 2 ^ (8 * Z.of_nat 8)) with (u64 i). by rewrite i64_u64, i64_id.
Qed.

Lemma be_decode_be4 i : is_u32 i → be_decode (be_encode 4 i) = i.
Proof. intros. rewrite be_decode_encode. by apply u32_id. Qed.

Lemma primSegment_decode p : primOk p → primDecode (primType p) (primSegment p) = Some p.
Proof.
  intros Hp. destruct p; cbn [primOk primSegment primType] in *; unfold primDecode; unfold_types;
    simpl (_ =? _); cbn iota; rewrite ?len_be_encode; cbn iota;
    try (rewrite ?twosComplement_be4, ?twosComplement_be8, ?be_decode_be4 by done; done).
  - destruct (bigIntSegment_spec i) as [-> ->]. done.
  - by destruct b.
Qed.

Lemma primSegment_len p : primOk p → len (primSegment p) < 2 ^ 32.
Proof. destruct p; cbn [primOk primSegment]; rewrite ?len_be_encode; lia. Qed.

Lemma paddedLen_prim p :
  primOk p →
  len (primSegment p) + len (padding (len (primSegment p))) =
  paddedLen (primType p) (len (primSegment p)).
Proof.
  intros Hp. rewrite len_padding. destruct p; cbn [primSegment primType];
    unfold paddedLen; unfold_types; simpl (oneOf _ _); cbn iota; rewrite ?len_be_encode; try done.
  destruct (bigIntSegment_spec i) as [_ Hm]. Z.div_mod_to_equations; lia.
Qed.

Lemma primBlock_denotes tag p :
  Tag_Valid tag = true → primOk p → Denotes (IPrim tag p) (primBlock tag p).
Proof.
  intros. apply (Denotes_prim tag (primType p)); try done.
  - by apply primSegment_decode.
  - by apply primSegment_len.
  - by apply paddedLen_prim.
Qed.

Lemma primBlock_aligned tag p : len (primBlock tag p) mod 8 = 0.
Proof.
  unfold primBlock. rewrite len_header, len_app, len_padding. unfold_types.
  Z.div_mod_to_equations; lia.
Qed.

Lemma concat_aligned {A} (f : A → list byte) l :
  Forall (λ x, len (f x) mod 8 = 0) l → len (concat (map f l)) mod 8 = 0.
Proof.
  induction 1 as [|x l Hx Hl IH]; [done|]. cbn [map concat]. rewrite len_app.
  rewrite Z.add_mod, Hx, IH by lia. done.
Qed.

Lemma itemBlock_aligned it : len (itemBlock it) mod 8 = 0.
Proof.
  induction it as [tag p|tag items IH] using item_ind'; [apply primBlock_aligned|].
  cbn [itemBlock]. rewrite len_header, Z.add_mod, (concat_aligned itemBlock items IH) by lia. done.
Qed.

Lemma padding_aligned n : n mod 8 = 0 → padding n = [].
Proof. intros. unfold padding. replace (- n mod 8) with 0 by (Z.div_mod_to_equations; lia). done. Qed.

Lemma itemOk_inv tag items :
  itemOk (IStructure tag items) →
  Tag_Valid tag = true ∧ Forall itemOk items ∧ len (concat (map itemBlock items)) < 2 ^ 32.
Proof. by inversion 1. Qed.

Lemma foldl_encode items h :
  Forall (λ it, itemOk it → ∀ h, encodeItem h it = h ++ itemBlock it) items →
  Forall itemOk items → foldl encodeItem h items = h ++ concat (map itemBlock items).
Proof.
  intros Hf. revert h. induction Hf as [|it items Hit _ IH]; intros h Hok; cbn [foldl map concat].
  - by rewrite app_nil_r.
  - inversion Hok as [|? ? Ho Hok']; subst. by rewrite Hit, IH, app_assoc by done.
Qed.

Lemma encodeItem_eq it : itemOk it → ∀ h, encodeItem h it = h ++ itemBlock it.
Proof.
  induction it as [tag p|tag items IH] using item_ind'; intros Hok h.
  - inversion Hok; subst. by apply encodePrim_eq.
  - apply itemOk_inv in Hok as (Ht & Hok & Hl).
    cbn [encodeItem]. rewrite begin_eq, foldl_encode, end_begin by done.
    rewrite padding_aligned, app_nil_r; [done|].
    apply concat_aligned. apply Forall_true. apply itemBlock_aligned.
Qed.

Lemma DenotesSeq_concat items :
  Forall (λ it, Denotes it (itemBlock it)) items →
  DenotesSeq items (concat (map itemBlock items)).
Proof. induction 1; cbn [map concat]; by constructor. Qed.

Lemma itemBlock_denotes it : itemOk it → Denotes it (itemBlock it).
Proof.
  induction it as [tag p|tag items IH] using item_ind'; intros Hok.
  - inversion Hok; subst. by apply primBlock_denotes.
  - apply itemOk_inv in Hok as (Ht & Hok & Hl).
    cbn [itemBlock]. apply Denotes_structure; [done| |done].
    apply DenotesSeq_concat. rewrite Forall_forall in *. auto.
Qed.

Lemma primBlock_Value tag p rest :
  Tag_Valid tag = true → primOk p → TTLV_Value (primBlock tag p ++ rest) = Ok (primGo p).
Proof. intros. apply (Value_prim tag). by apply primBlock_denotes. Qed.

Lemma primBlock_Type tag p rest : TTLV_Type (primBlock tag p ++ rest) = primType p.
Proof.
  unfold primBlock. rewrite <- app_assoc. apply header_Type.
  destruct p; cbn [primType]; unfold_types; lia.
Qed.

(** [encodeDateTimeExtended] writes the microseconds since the epoch. *)
Lemma encodeDateTimeExtended_eq h tag sec nsec :
  is_i64 (sec * 1000000 + nsec / 1000) →
  encodeDateTimeExtended h tag (GoTime sec nsec) =
  h ++ primBlock tag (PDateTimeExtended (sec * 1000000 + nsec / 1000)).
Proof.
  intros Hi. unfold encodeDateTimeExtended. cbn [time_sec time_nsec].
  rewrite writeLongIntVal_eq, u64_be. unfold primBlock. cbn [primType primSegment].
  rewrite len_be_encode. do 3 f_equal. apply be_encode_inj_mod.
  change (8 * Z.of_nat 8) with 64. clear Hi. wrap_unfold. generalize (nsec / 1000). intros k.
  Z.div_mod_to_equations; lia.
Qed.

(** What [time.Unix(0, usec*1000)] is when the product does not wrap. *)
Lemma unixTime_usec sec nsec :
  0 ≤ nsec < 1000000000 → is_i64 ((sec * 1000000 + nsec / 1000) * 1000) →
  unixTime 0 (i64 ((sec * 1000000 + nsec / 1000) * 1000)) = GoTime sec (nsec / 1000 * 1000).
Proof.
  intros Hn Hi. rewrite i64_id by done. unfold unixTime. revert Hi. wrap_unfold. intros Hi.
  f_equal; Z.div_mod_to_equations; lia.
Qed.

(** * Properties *)

(** C2. Encoding is correct: for every item that fits the wire format, what
    the encoder appends to the buffer is a block of the TTLV grammar that
    denotes that item, 8-byte aligned and accepted by [Valid] whatever
    follows; the bytes already in the buffer are left untouched. *)
Theorem encodeItem_denotes it h :
  itemOk it →
  ∃ blk, encodeItem h it = h ++ blk ∧ Denotes it blk ∧ len blk mod 8 = 0 ∧
    ∀ rest, TTLV_Valid (blk ++ rest) = Ok tt.
Proof.
  intros Hok. exists (itemBlock it). split; [by apply encodeItem_eq|].
  pose proof (itemBlock_denotes it Hok). split; [done|]. split; [apply itemBlock_aligned|].
  intros rest. by apply (Valid_block it).
Qed.

Lemma encodeItem_denotes_witness :
  ∃ blk, encodeItem [x2a] (IStructure 0x420078
      [IPrim 0x42006a (PInteger (-2)); IPrim 0x420020 (PBigInteger (2 ^ 70))]) = [x2a] ++ blk ∧
    Denotes (IStructure 0x420078
      [IPrim 0x42006a (PInteger (-2)); IPrim 0x420020 (PBigInteger (2 ^ 70))]) blk ∧
    len blk mod 8 = 0 ∧ ∀ rest, TTLV_Valid (blk ++ rest) = Ok tt.
Proof.
  apply encodeItem_denotes. repeat constructor; cbn; unfold is_i32; lia.
Defined.

(** Primitive round trip: [Value] of a freshly encoded primitive returns
    the Go value of it, for every type, whatever the buffer already held. *)
Theorem encodePrim_Value tag p h rest :
  Tag_Valid tag = true → primOk p →
  ∃ blk, encodePrim h tag p = h ++ blk ∧ TTLV_Value (blk ++ rest) = Ok (primGo p).
Proof.
  intros Ht Hp. exists (primBlock tag p). split; [by apply encodePrim_eq|].
  by apply primBlock_Value.
Qed.

Lemma encodePrim_Value_witness :
  ∃ blk, encodePrim [] 0x42006a (PInterval 3600) = [] ++ blk ∧
    TTLV_Value (blk ++ [x00]) = Ok (GDuration (3600 * Second)).
Proof. apply encodePrim_Value; [reflexivity|]. cbn. unfold is_u32. lia. Defined.

(** C26. Big integers of any size and sign survive the wire: the segment
    [encodeBigInt] writes is a multiple of eight bytes and [ValueBigInteger]
    reads the same number back. *)
Theorem BigInteger_roundtrip tag i rest :
  Tag_Valid tag = true → len (bigIntSegment i) < 2 ^ 32 →
  len (bigIntSegment i) mod 8 = 0 ∧
  TTLV_ValueBigInteger (encodeBigInt [] tag (Some i) ++ rest) = Ok i.
Proof.
  intros Ht Hl. split; [apply bigIntSegment_spec|]. rewrite encodeBigInt_eq by done.
  pose proof (primBlock_Value tag (PBigInteger i) rest Ht Hl) as Hv.
  unfold TTLV_Value in Hv. rewrite primBlock_Type in Hv.
  change (GBigInt <$> TTLV_ValueBigInteger (primBlock tag (PBigInteger i) ++ rest)
    = Ok (GBigInt i)) in Hv.
  change (TTLV_ValueBigInteger (primBlock tag (PBigInteger i) ++ rest) = Ok i).
  destruct (TTLV_ValueBigInteger _); [|done..]. cbn in Hv. congruence.
Qed.

Lemma BigInteger_roundtrip_witness :
  len (bigIntSegment (- 2 ^ 127)) mod 8 = 0 ∧
  TTLV_ValueBigInteger (encodeBigInt [] 0x420020 (Some (- 2 ^ 127)) ++ [x01]) = Ok (- 2 ^ 127).
Proof. apply BigInteger_roundtrip; [reflexivity|]. vm_compute. reflexivity. Defined.

(** DateTimeExtended keeps microseconds for the times whose nanoseconds
    since the epoch fit 64 bits (1677 to 2262). *)
Theorem DateTimeExtended_roundtrip tag sec nsec rest :
  Tag_Valid tag = true → 0 ≤ nsec < 1000000000 →
  is_i64 ((sec * 1000000 + nsec / 1000) * 1000) →
  TTLV_Value (encodeDateTimeExtended [] tag (GoTime sec nsec) ++ rest) =
  Ok (GDateTimeExtended (GoTime sec (nsec / 1000 * 1000))).
Proof.
  intros Ht Hn Hi.
  assert (is_i64 (sec * 1000000 + nsec / 1000)) by (revert Hi; wrap_unfold; lia).
  rewrite encodeDateTimeExtended_eq by done. cbn [app].
  rewrite primBlock_Value by done. cbn [primGo]. by rewrite unixTime_usec.
Qed.

Lemma DateTimeExtended_roundtrip_witness :
  TTLV_Value (encodeDateTimeExtended [] 0x420001 (GoTime 1600000000 123456789) ++ []) =
  Ok (GDateTimeExtended (GoTime 1600000000 123456000)).
Proof.
  apply (DateTimeExtended_roundtrip 0x420001 1600000000 123456789 []); [reflexivity|lia|].
  unfold is_i64. vm_compute. split; [discriminate|reflexivity].
Defined.

(** Beyond that range the wire still carries the time exactly, but the
    decoder's multiplication by 1000 wraps: 2300-01-01 is encoded as its
    microseconds and read back as a date in 1715. *)
Theorem DateTimeExtended_wraps :
  encodeDateTimeExtended [] 0x420001 (GoTime 10413792000 0) =
    primBlock 0x420001 (PDateTimeExtended 10413792000000000) ∧
  TTLV_Value (encodeDateTimeExtended [] 0x420001 (GoTime 10413792000 0)) =
    Ok (GDateTimeExtended (GoTime (-8032952074) 290448384)).
Proof. split; vm_compute; reflexivity. Qed.
