(* ===== verification/Blocks.v ===== *)
(** What the accessors of src/ttlv/ttlv.go return on a block, and on the
    canonical block of an item: the lemmas the textual encodings share. *)
From Stdlib Require Import ZArith Lia Strings.Byte.
From stdpp Require Import base list numbers.
From S2P Require Import Prelude Ttlv Grammar EncBuf.
Local Open Scope Z_scope.

(** * Blocks *)

(** The values of a Structure as a slice: nil when there are none. *)
Definition nonNil (body : list byte) : option TTLV := match body with [] => None | _ => Some body end.

Lemma bytesOf_nonNil body : bytesOf (nonNil body) = body.
Proof. by destruct body. Qed.

Lemma block_length it blk : Denotes it blk → (8 ≤ length blk)%nat.
Proof.
  intros Hd. destruct (Denotes_header it blk [] Hd) as (_ & _ & _ & Hl).
  change lenHeader with 8 in Hl. unfold len in Hl. lia.
Qed.

Lemma nonNil_block it blk rest : Denotes it blk → nonNil (blk ++ rest) = Some (blk ++ rest).
Proof. intros Hd%block_length. by destruct blk; [cbn in Hd; lia|]. Qed.

Lemma block_Next it blk rest : Denotes it blk → TTLV_Next (blk ++ rest) = Ok (nonNil rest).
Proof. intros Hd. apply (nextWith_block it); [done|by apply (Valid_block it)]. Qed.

Lemma structure_Type tag body rest : TTLV_Type ((header tag TypeStructure (len body) ++ body) ++ rest) = TypeStructure.
Proof. rewrite <- app_assoc. by apply header_Type. Qed.

Lemma structure_value tag body rest : len body < 2 ^ 32 →
  TTLV_ValueStructure ((header tag TypeStructure (len body) ++ body) ++ rest) = nonNil body.
Proof. intros Hl. rewrite <- app_assoc. by apply header_ValueRaw. Qed.

Lemma block_Type_prim tag p blk rest : Denotes (IPrim tag p) blk → TTLV_Type (blk ++ rest) ≠ TypeStructure.
Proof.
  intros Hd. inversion Hd as [tag' ty p' raw pad Ht Hp Hl Hpad|]; subst.
  destruct (primDecode_shape _ _ _ Hp) as (_ & Hns & Hty). by rewrite <- app_assoc, header_Type.
Qed.

(** * Canonical blocks *)

(** The value segment of an item. *)
Definition segment (it : item) : list byte :=
  match it with IPrim _ p => primSegment p | IStructure _ items => concat (map itemBlock items) end.

Lemma fmap_Ok_inj {E A B} (f : A → B) (x : res E A) b : Inj (=) (=) f → f <$> x = Ok (f b) → x = Ok b.
Proof. intros Hf. destruct x; cbn; intros Hx; [|done..]. f_equal. apply Hf. by simplify_eq. Qed.

Lemma primBlock_raw tag p rest : primOk p → bytesOf (TTLV_ValueRaw (primBlock tag p ++ rest)) = primSegment p.
Proof. intros Hp. unfold primBlock. rewrite <- !app_assoc. by apply header_ValueRaw_bytes, primSegment_len. Qed.

Lemma itemBlock_raw it rest : itemOk it → bytesOf (TTLV_ValueRaw (itemBlock it ++ rest)) = segment it.
Proof.
  intros Hok. destruct it as [tag p|tag items]; [inversion Hok; by apply primBlock_raw|].
  apply itemOk_inv in Hok as (_ & _ & Hl). cbn [itemBlock segment]. rewrite <- app_assoc. by apply header_ValueRaw_bytes.
Qed.

Definition itemType (it : item) : Z := match it with IPrim _ p => primType p | IStructure _ _ => TypeStructure end.

Lemma itemBlock_Type it rest : TTLV_Type (itemBlock it ++ rest) = itemType it.
Proof.
  destruct it; [apply primBlock_Type|]. cbn [itemBlock itemType]. rewrite <- app_assoc. by apply header_Type.
Qed.

Lemma itemBlock_Tag it rest : itemOk it → TTLV_Tag (itemBlock it ++ rest) = itemTag it.
Proof. intros Hok. by apply Denotes_header, itemBlock_denotes. Qed.

Lemma itemBlock_length it : itemOk it → (8 ≤ length (itemBlock it))%nat.
Proof.
  intros Hok. destruct (Denotes_header it (itemBlock it) [] (itemBlock_denotes it Hok)) as (_ & _ & _ & Hl).
  change lenHeader with 8 in Hl. unfold len in Hl. lia.
Qed.

Ltac byInj := first [done | by intros ? ? [=]].

(** The value of a block, by type. *)
Lemma block_value {A} (f : A → goval) (get : TTLV → res terr A) tag p a rest :
  Inj (=) (=) f → Tag_Valid tag = true → primOk p → primGo p = f a →
  TTLV_Value (primBlock tag p ++ rest) = f <$> get (primBlock tag p ++ rest) →
  get (primBlock tag p ++ rest) = Ok a.
Proof.
  intros Hf Ht Hp Hg Hv. rewrite primBlock_Value, Hg in Hv by done. apply (fmap_Ok_inj f); [done|by symmetry].
Qed.

Lemma itemBlock_Next c rest : itemOk c →
  TTLV_Next (itemBlock c ++ rest) = Ok (nonNil rest).
Proof. intros Hok. by apply (block_Next c), itemBlock_denotes. Qed.

Lemma items_length items : Forall itemOk items → (length items ≤ length (concat (map itemBlock items)))%nat.
Proof.
  induction 1 as [|it items Hit _ IH]; [done|]. cbn [map concat length]. rewrite length_app.
  pose proof (itemBlock_length it Hit). lia.
Qed.

Lemma length_in_concat it items : it ∈ items → (length (itemBlock it) ≤ length (concat (map itemBlock items)))%nat.
Proof. induction 1; cbn [map concat]; rewrite length_app; lia. Qed.

