(* ===== verification/ValidCost.v ===== *)
(** The cost of [TTLV.Valid] (src/ttlv/ttlv.go): the same function with the
    calls counted.  The loop over a Structure validates each enclosed value
    and then calls [Next], which validates it again, so the number of calls
    doubles with every level of nesting. *)
From Stdlib Require Import ZArith Lia Strings.Byte.
From stdpp Require Import base list numbers.
From S2P Require Import Prelude Ttlv Grammar.
Local Open Scope Z_scope.

(** A result and the number of calls of [Valid] made to get it. *)
Definition counted (A : Type) : Type := (res terr A * Z)%type.

Definition nextTick (valid : TTLV → counted unit) (t : TTLV) : counted (option TTLV) :=
  let '(r, c) := valid t in
  (match r with
   | Ok _ =>
       fl ← TTLV_FullLen t;
       n ← slice_from t fl;
       if len n =? 0 then Ok None else Ok (Some n)
   | Err _ => Ok None
   | Panic => Panic
   | OutOfFuel => OutOfFuel
   end, c).

Fixpoint innerTick (valid : TTLV → counted unit) (n : nat) (tag : Z) (inner : TTLV)
    : counted unit :=
  if len inner =? 0 then (Ok tt, 0)
  else match n with
  | O => (OutOfFuel, 0)
  | S n =>
      let '(r, c1) := valid inner in
      match r with
      | Ok _ =>
          let '(nx, c2) := nextTick valid inner in
          match nx with
          | Ok nx => let '(r, c3) := innerTick valid n tag (bytesOf nx) in (r, c1 + c2 + c3)
          | Err e => (Err e, c1 + c2)
          | Panic => (Panic, c1 + c2)
          | OutOfFuel => (OutOfFuel, c1 + c2)
          end
      | Err e => (Err (Prepend tag e), c1)
      | Panic => (Panic, c1)
      | OutOfFuel => (OutOfFuel, c1)
      end
  end.

Fixpoint validTick (fuel : nat) (t : TTLV) : counted unit :=
  match fuel with
  | O => (OutOfFuel, 0)
  | S fuel =>
      match (_ ← TTLV_ValidHeader t; TTLV_FullLen t) with
      | Ok fl =>
          if len t <? fl then (Err ErrValueTruncated, 1)
          else if TTLV_Type t =? TypeStructure then
            let inner := bytesOf (TTLV_ValueRaw t) in
            let '(r, c) := innerTick (validTick fuel) (length inner) (TTLV_Tag t) inner in
            (r, 1 + c)
          else (Ok tt, 1)
      | Err e => (Err e, 1)
      | Panic => (Panic, 1)
      | OutOfFuel => (OutOfFuel, 1)
      end
  end.

(** The calls [t.Valid()] makes, itself included. *)
Definition validCalls (t : TTLV) : Z := (validTick (S (length t)) t).2.

(** * Counting does not change the result *)

Lemma nextTick_fst vt v t : (∀ x, (vt x).1 = v x) → (nextTick vt t).1 = nextWith v t.
Proof.
  intros Hv. unfold nextTick, nextWith. rewrite <- (Hv t). destruct (vt t) as [r c]. by destruct r.
Qed.

Lemma innerTick_fst vt v n tag inner :
  (∀ x, (vt x).1 = v x) → (innerTick vt n tag inner).1 = validInner v n tag inner.
Proof.
  intros Hv. revert inner. induction n as [|n IH]; intros inner; cbn [innerTick validInner].
  { by case_match. }
  destruct (len inner =? 0); [done|]. rewrite <- (Hv inner). destruct (vt inner) as [r c1].
  destruct r; try done. cbn [fst]. rewrite <- (nextTick_fst vt v inner Hv).
  destruct (nextTick vt inner) as [nx c2]. destruct nx as [nx| | |]; try done.
  cbn. rewrite <- IH. by destruct (innerTick _ _ _ _).
Qed.

Lemma validTick_fst fuel t : (validTick fuel t).1 = validFuel fuel t.
Proof.
  revert t. induction fuel as [|fuel IH]; intros t; [done|]. cbn [validTick validFuel].
  destruct (TTLV_ValidHeader t); try done. cbn.
  destruct (TTLV_FullLen t); try done. cbn.
  destruct (len t <? _); [done|]. destruct (_ =? TypeStructure); [|done].
  rewrite <- (innerTick_fst (validTick fuel)) by done. by destruct (innerTick _ _ _ _).
Qed.

(** * Nested Structures *)

(** [d] Structures inside an outermost one, the innermost empty: eight bytes
    for each. *)
Fixpoint nested (d : nat) : TTLV :=
  match d with
  | O => header 0x420078 TypeStructure 0
  | S d' => header 0x420078 TypeStructure (8 * Z.of_nat d) ++ nested d'
  end.

Lemma len_nested d : len (nested d) = 8 * (Z.of_nat d + 1).
Proof. induction d as [|d IH]; [done|]. cbn [nested]. rewrite len_header, IH. unfold_types. lia. Qed.

Fixpoint nestedItem (d : nat) : item :=
  IStructure 0x420078 (match d with O => [] | S d => [nestedItem d] end).

Lemma nested_denotes d : 8 * Z.of_nat d < 2 ^ 32 → Denotes (nestedItem d) (nested d).
Proof.
  induction d as [|d IH]; intros Hd; cbn [nested nestedItem].
  - apply (Denotes_structure 0x420078 [] []); [done|constructor|done].
  - pose proof (len_nested d) as Hl. replace (8 * Z.of_nat (S d)) with (len (nested d)) by lia.
    apply Denotes_structure; [done| |lia]. rewrite <- (app_nil_r (nested d)).
    apply DenotesSeq_cons; [apply IH; lia|constructor].
Qed.

Lemma slice_from_end {E A} (t : list A) : slice_from (E := E) t (len t) = Ok [].
Proof.
  unfold slice_from. pose proof (len_nonneg t). rewrite Z.leb_refl.
  rewrite (proj2 (Z.leb_le 0 _)) by done. cbn. f_equal. unfold len. rewrite Nat2Z.id.
  by rewrite drop_ge.
Qed.

(** One value that fills the slice: validated twice. *)
Lemma innerTick_single vt n tag t c :
  (0 < n)%nat → len t ≠ 0 → vt t = (Ok tt, c) → TTLV_FullLen t = Ok (len t) →
  innerTick vt n tag t = (Ok tt, 2 * c).
Proof.
  intros Hn Hl Hv Hf. destruct n as [|n]; [lia|]. cbn [innerTick].
  rewrite (proj2 (Z.eqb_neq _ _)), Hv by done. unfold nextTick.
  rewrite Hv, Hf. cbn [mbind res_bind]. rewrite slice_from_end. cbn [mbind res_bind].
  change (len (A := byte) [] =? 0) with true. cbn iota. cbn [bytesOf].
  destruct n; cbn; f_equal; lia.
Qed.

Lemma nested_Type d : TTLV_Type (nested d) = TypeStructure.
Proof.
  destruct d; cbn [nested]; [done|]. apply header_Type. unfold_types. lia.
Qed.

Lemma nested_inner d :
  8 * Z.of_nat d < 2 ^ 32 →
  bytesOf (TTLV_ValueRaw (nested d)) = match d with O => [] | S d => nested d end.
Proof.
  intros Hd. destruct d as [|d]; [done|]. cbn [nested]. pose proof (len_nested d).
  replace (8 * Z.of_nat (S d)) with (len (nested d)) by lia.
  rewrite <- (app_nil_r (nested d)) at 2. apply header_ValueRaw_bytes. lia.
Qed.

Lemma validTick_nested d fuel :
  8 * Z.of_nat d < 2 ^ 32 → (d < fuel)%nat →
  validTick fuel (nested d) = (Ok tt, 2 ^ (Z.of_nat d + 1) - 1).
Proof.
  revert fuel. induction d as [|d IH]; intros fuel Hd Hf; (destruct fuel as [|fuel]; [lia|]);
    destruct (Denotes_header _ _ [] (nested_denotes _ Hd)) as (Hh & Hfl & _ & _);
    rewrite app_nil_r in Hh, Hfl; cbn [validTick]; rewrite Hh, Hfl; cbn [mbind res_bind];
    rewrite Z.ltb_irrefl, nested_Type, nested_inner by done.
  - reflexivity.
  - destruct (Denotes_header _ _ [] (nested_denotes d ltac:(lia))) as (_ & Hfl' & _ & _).
    rewrite app_nil_r in Hfl'. pose proof (len_nested d) as Hl.
    change (TypeStructure =? TypeStructure) with true. cbn iota.
    rewrite (innerTick_single _ _ _ _ (2 ^ (Z.of_nat d + 1) - 1));
      [|unfold len in Hl; lia|lia|apply IH; lia|done].
    f_equal. replace (Z.of_nat (S d) + 1) with (Z.succ (Z.of_nat d + 1)) by lia.
    rewrite Z.pow_succ_r by lia. lia.
Qed.

(** * Properties *)

(** The counted function is [Valid]: for every slice it returns the same
    result, and its count is the number of calls. *)
Lemma validTick_is_Valid t : (validTick (S (length t)) t).1 = TTLV_Valid t.
Proof. apply validTick_fst. Qed.

(** C34. [Valid] takes exponential time in the nesting depth: a valid message
    of 8(d+1) bytes, [d] empty Structures inside one another, makes
    2^(d+1) - 1 calls of [Valid]. *)
Theorem Valid_exponential d :
  8 * Z.of_nat d < 2 ^ 32 →
  TTLV_Valid (nested d) = Ok tt ∧ len (nested d) = 8 * (Z.of_nat d + 1) ∧
  validCalls (nested d) = 2 ^ (Z.of_nat d + 1) - 1.
Proof.
  intros Hd. split; [|split; [apply len_nested|]].
  - rewrite <- (app_nil_r (nested d)). apply (Valid_block (nestedItem d)). by apply nested_denotes.
  - unfold validCalls. rewrite validTick_nested; [done..|].
    pose proof (len_nested d) as Hl. unfold len in Hl. lia.
Qed.

Lemma Valid_exponential_witness :
  TTLV_Valid (nested 59) = Ok tt ∧ len (nested 59) = 480 ∧ validCalls (nested 59) = 2 ^ 60 - 1.
Proof. apply (Valid_exponential 59). lia. Defined.
