(* ===== verification/Hex.v ===== *)
(** Hex strings and decimal numbers: src/internal/kmiputil/hex_values.go and
    [Hex2bytes] of src/ttlv/ttlv.go, over the encoding/hex, strconv and fmt
    functions of the Go standard library that the repository uses. *)
From Stdlib Require Import ZArith Lia Strings.Byte Ascii String.
From stdpp Require Import base list strings numbers.
From S2P Require Import Prelude.
Local Open Scope Z_scope.

(** * Characters *)

Definition chr (c : ascii) : Z := Z.of_N (N_of_ascii c).
Definition isDigit (c : ascii) : bool := (48 <=? chr c) && (chr c <=? 57).
Definition isUpper (c : ascii) : bool := (65 <=? chr c) && (chr c <=? 90).
Definition isLower (c : ascii) : bool := (97 <=? chr c) && (chr c <=? 122).

(** The value of a hex digit. *)
Definition hexVal (c : ascii) : option Z :=
  if isDigit c then Some (chr c - 48)
  else if (97 <=? chr c) && (chr c <=? 102) then Some (chr c - 87)
  else if (65 <=? chr c) && (chr c <=? 70) then Some (chr c - 55)
  else None.

(** The lower-case digit for [0 ≤ d < 16]. *)
Definition hexChar (d : Z) : ascii :=
  ascii_of_N (Z.to_N (if d <? 10 then 48 + d else 87 + d)).

(** * encoding/hex *)

(** [hex.DecodeString]; [None] is an error: an odd number of digits or a
    character that is not a hex digit. *)
Fixpoint hexDecodeString (s : string) : option (list byte) :=
  match s with
  | EmptyString => Some []
  | String c1 (String c2 s) =>
      h ← hexVal c1; l ← hexVal c2; bs ← hexDecodeString s;
      Some (z2b (16 * h + l) :: bs)
  | String _ EmptyString => None
  end.

(** [hex.EncodeToString] *)
Fixpoint hexEncodeToString (bs : list byte) : string :=
  match bs with
  | [] => EmptyString
  | b :: bs => String (hexChar (b2z b / 16)) (String (hexChar (b2z b mod 16)) (hexEncodeToString bs))
  end.

(** * kmiputil *)

Inductive herr : Type := ErrInvalidHexString.

(** [strings.HasPrefix(s, "0x")] and [s[2:]]. *)
Definition hexPrefix (s : string) : option string :=
  match s with
  | String c1 (String c2 rest) => if (c1 =? "0")%char && (c2 =? "x")%char then Some rest else None
  | _ => None
  end.

(** The number of bytes left after the leading zero bytes. *)
Fixpoint significant (b : list byte) : Z :=
  match b with
  | [] => 0
  | b0 :: rest => if b2z b0 =? 0 then significant rest else len b
  end.

(** [nil, nil] when the string has no 0x prefix is [Ok None]. *)
Definition ParseHexValue (s : string) (maxLen : Z) : res herr (option (list byte)) :=
  match hexPrefix s with
  | None => Ok None
  | Some digits =>
      match hexDecodeString digits with
      | None => Err ErrInvalidHexString
      | Some b =>
          if (0 <? maxLen) && (maxLen <? significant b) then Err ErrInvalidHexString
          else Ok (Some b)
      end
  end.

Definition pad (b : list byte) (l : Z) : list byte :=
  if len b <? l then replicate (Z.to_nat (l - len b)) x00 ++ b else b.

(** [binary.BigEndian.Uint32(pad(b, 4))] reads the first four bytes. *)
Definition DecodeUint32 (b : list byte) : Z := be_decode (take 4 (pad b 4)).
Definition DecodeUint64 (b : list byte) : Z := be_decode (take 8 (pad b 8)).

(** * ttlv.Hex2bytes *)

Definition isHex (c : ascii) : bool :=
  isDigit c || (65 <=? chr c) && (chr c <=? 70) || (97 <=? chr c) && (chr c <=? 102).

Fixpoint filterString (p : ascii → bool) (s : string) : string :=
  match s with
  | EmptyString => EmptyString
  | String c s => if p c then String c (filterString p s) else filterString p s
  end.

(** Panics when an odd number of digits remains. *)
Definition Hex2bytes (s : string) : res herr (list byte) :=
  match hexDecodeString (filterString isHex s) with
  | Some b => Ok b
  | None => Panic
  end.

(** * strconv and fmt *)

Fixpoint parseDigits (s : string) (acc : Z) : option Z :=
  match s with
  | EmptyString => Some acc
  | String c s => if isDigit c then parseDigits s (10 * acc + (chr c - 48)) else None
  end.

(** [strconv.ParseUint(s, 10, 8*n)] with [bound = 2^(8n)]: [None] is an error
    (empty, not all digits, or out of range). *)
Definition parseUint (s : string) (bound : Z) : option Z :=
  match s with
  | EmptyString => None
  | _ => n ← parseDigits s 0; if n <? bound then Some n else None
  end.

(** [strconv.ParseInt(s, 10, 8*n)] with [half = 2^(8n-1)]. *)
Definition parseInt (s : string) (half : Z) : option Z :=
  match s with
  | EmptyString => None
  | String c rest =>
      if (c =? "+")%char then n ← parseUint rest (2 * half); if n <? half then Some n else None
      else if (c =? "-")%char then
        n ← parseUint rest (2 * half); if n <=? half then Some (- n) else None
      else n ← parseUint s (2 * half); if n <? half then Some n else None
  end.

(** The [n] low hex digits of [z], most significant first. *)
Fixpoint fixedHex (n : nat) (z : Z) : string :=
  match n with
  | O => EmptyString
  | S n => String (hexChar ((z / 16 ^ Z.of_nat n) mod 16)) (fixedHex n z)
  end.

(** The lower-case hex digits of [z ≥ 0], as many as [z] needs and at least
    [width] (Go counts digits, not the 0x prefix, for [%#0wx]). *)
Definition hexNum (width : nat) (z : Z) : string :=
  fixedHex (Nat.max width (Z.to_nat (Z.log2 z / 4 + 1))) z.

(** [fmt.Sprintf("%#0wx", z)]: a negative number is printed as a sign and its
    absolute value, and the sign takes one of the [w] digits. *)
Definition sprintfHex (width : nat) (z : Z) : string :=
  if z <? 0 then "-0x" +:+ hexNum (width - 1) (- z) else "0x" +:+ hexNum width z.

Example ParseHexValue_ex : ParseHexValue "0x0042" 1 = Ok (Some [x00; x42]).
Proof. vm_compute. reflexivity. Qed.
Example sprintfHex_ex1 : sprintfHex 8 2 = "0x00000002"%string.
Proof. vm_compute. reflexivity. Qed.
Example sprintfHex_ex2 : sprintfHex 8 (-1) = "-0x0000001"%string.
Proof. vm_compute. reflexivity. Qed.

(** * Round trips *)

Lemma hexVal_hexChar d : 0 ≤ d < 16 → hexVal (hexChar d) = Some d.
Proof.
  intros Hd. unfold hexVal, hexChar, isDigit, chr.
  destruct (Z.ltb_spec d 10); rewrite N_ascii_embedding by lia; rewrite Z2N.id by lia;
    repeat case_match; f_equal; lia.
Qed.

Lemma hexDecode_encode bs : hexDecodeString (hexEncodeToString bs) = Some bs.
Proof.
  induction bs as [|b bs IH]; [done|]. cbn [hexEncodeToString hexDecodeString].
  pose proof (b2z_range b).
  rewrite !hexVal_hexChar by (Z.div_mod_to_equations; lia). simpl. rewrite IH. simpl.
  do 2 f_equal. rewrite <- Z_div_mod_eq_full. apply z2b_b2z.
Qed.

Lemma fixedHex_bytes n z : fixedHex (2 * n) z = hexEncodeToString (be_encode n z).
Proof.
  induction n as [|n IH]; [done|].
  replace (2 * S n)%nat with (S (S (2 * n))) by lia. cbn [fixedHex be_encode hexEncodeToString].
  rewrite IH, b2z_z2b, Z.shiftr_div_pow2 by lia. unfold u8.
  rewrite (Nat2Z.inj_succ (2 * n)), Z.pow_succ_r, (Z.mul_comm 16) by lia.
  replace (16 ^ Z.of_nat (2 * n)) with (2 ^ (8 * Z.of_nat n)).
  2: { change 16 with (2 ^ 4). rewrite <- Z.pow_mul_r by lia. f_equal. lia. }
  rewrite <- Z.div_div by (try apply Z.pow_nonzero; lia). change (2 ^ 8) with 256.
  generalize (z / 2 ^ (8 * Z.of_nat n)). intros q.
  f_equal; [|f_equal]; f_equal; Z.div_mod_to_equations; lia.
Qed.

Lemma hexNum_fixed width z :
  (0 < width)%nat → 0 ≤ z < 16 ^ Z.of_nat width → hexNum width z = fixedHex width z.
Proof.
  intros Hw Hz. unfold hexNum. f_equal. apply Nat.max_l.
  destruct (Z.eq_dec z 0) as [->|]; [change (Z.log2 0 / 4 + 1) with 1; lia|].
  assert (Z.log2 z < 4 * Z.of_nat width).
  { apply Z.log2_lt_pow2; [lia|]. change 16 with (2 ^ 4) in Hz.
    rewrite <- Z.pow_mul_r in Hz by lia. lia. }
  Z.div_mod_to_equations; lia.
Qed.

(** Numbers printed with [%#0wx] at their full width decode to their bytes. *)
Lemma hexNum_decode n z :
  (0 < n)%nat → 0 ≤ z < 2 ^ (8 * Z.of_nat n) →
  hexDecodeString (hexNum (2 * n) z) = Some (be_encode n z).
Proof.
  intros Hn Hz. rewrite hexNum_fixed, fixedHex_bytes; [apply hexDecode_encode|lia|].
  change 16 with (2 ^ 4). rewrite <- Z.pow_mul_r by lia.
  replace (4 * Z.of_nat (2 * n)) with (8 * Z.of_nat n) by lia. done.
Qed.

Lemma significant_le b : significant b ≤ len b.
Proof.
  induction b as [|b0 b IH]; [done|]. cbn [significant]. case_match; rewrite ?len_cons; lia.
Qed.

Lemma be_decode_pad b l : be_decode (pad b l) = be_decode b.
Proof.
  unfold pad. case_match; [|done]. generalize (Z.to_nat (l - len b)). intros k.
  induction k as [|k IH]; [done|]. cbn [replicate app be_decode]. rewrite IH. done.
Qed.

Lemma len_pad b l : len b ≤ l → len (pad b l) = l.
Proof.
  intros. unfold pad. destruct (Z.ltb_spec (len b) l); [|lia].
  rewrite len_app, len_replicate. lia.
Qed.

Lemma DecodeUint32_short b : len b ≤ 4 → DecodeUint32 b = be_decode b.
Proof.
  intros. unfold DecodeUint32. pose proof (len_pad b 4 H) as Hl. unfold len in Hl.
  rewrite take_ge by lia. apply be_decode_pad.
Qed.

Lemma DecodeUint64_short b : len b ≤ 8 → DecodeUint64 b = be_decode b.
Proof.
  intros. unfold DecodeUint64. pose proof (len_pad b 8 H) as Hl. unfold len in Hl.
  rewrite take_ge by lia. apply be_decode_pad.
Qed.

Lemma hexPrefix_0x s : hexPrefix ("0x" +:+ s) = Some s.
Proof. done. Qed.

(** The fixed-width hex of a number, read back by [ParseHexValue]. *)
Lemma ParseHexValue_sprintf n z :
  (0 < n)%nat → 0 ≤ z < 2 ^ (8 * Z.of_nat n) →
  ParseHexValue (sprintfHex (2 * n) z) (Z.of_nat n) = Ok (Some (be_encode n z)).
Proof.
  intros Hn Hz. unfold ParseHexValue, sprintfHex.
  destruct (Z.ltb_spec z 0); [lia|]. rewrite hexPrefix_0x, hexNum_decode by done. pose proof (significant_le (be_encode n z)) as Hs.
  rewrite len_be_encode in Hs. rewrite (proj2 (Z.ltb_ge (Z.of_nat n) _)) by done.
  by rewrite andb_false_r.
Qed.
