(* ===== verification/Names.v ===== *)
(** Name normalization: src/internal/kmiputil/names.go.

    The capitalisation of a word is done by golang.org/x/text/cases, which is
    not part of the repository: it is the parameter [titleCase]. *)
From Stdlib Require Import ZArith Lia Strings.Byte Ascii String.
From stdpp Require Import base list strings numbers.
From S2P Require Import Prelude Hex.
Local Open Scope Z_scope.

(** * The caser *)

(** [cases.Title(language.AmericanEnglish, cases.NoLower).String] *)
Class TitleCaser := titleCase : string → string.

Definition toUpper (c : ascii) : ascii :=
  if isLower c then ascii_of_N (N_of_ascii c - 32) else c.

(** Capitalise the first letter, leave the others alone. *)
Definition titleASCII : string → string := λ w,
  match w with
  | EmptyString => EmptyString
  | String c w => String (toUpper c) w
  end.

Definition isWordChar (c : ascii) : bool :=
  isLower c || isUpper c || isDigit c || (c =? "_")%char.

Fixpoint forallString (p : ascii → bool) (s : string) : bool :=
  match s with EmptyString => true | String c s => p c && forallString p s end.

(** The words on which the documentation of the caser settles the result: it
    capitalises a leading letter and, with NoLower, changes nothing else; a
    word without lower-case letters stays as it is. *)
Definition plainWord (w : string) : bool :=
  forallString isWordChar w &&
  (forallString (λ c, negb (isLower c)) w ||
   match w with EmptyString => true | String c _ => isLower c || isUpper c end).

(** What the development assumes of the caser: on plain words it is
    [titleASCII]. *)
Definition titleCaserOk (tc : TitleCaser) : Prop :=
  ∀ w, plainWord w = true → @titleCase tc w = titleASCII w.

#[export] Instance asciiCaser : TitleCaser := titleASCII.

(** * Runes *)

(** Go ranges over a string rune by rune; a byte that starts no valid UTF-8
    sequence is the rune U+FFFD.  [decodeRune] is [utf8.DecodeRune]: the rune
    and its width. *)
Definition runeError : Z := 0xFFFD.
Definition inRange (lo hi z : Z) : bool := (lo <=? z) && (z <=? hi).
Definition decodeRune (l : list Z) : Z * nat :=
  match l with
  | [] => (runeError, 1%nat)
  | b0 :: rest =>
      if b0 <? 0x80 then (b0, 1%nat)
      else match rest with
      | [] => (runeError, 1%nat)
      | b1 :: rest =>
          if inRange 0xC2 0xDF b0 && inRange 0x80 0xBF b1 then
            (Z.land b0 0x1F * 64 + Z.land b1 0x3F, 2%nat)
          else match rest with
          | [] => (runeError, 1%nat)
          | b2 :: rest =>
              if inRange 0xE0 0xEF b0 &&
                 inRange (if b0 =? 0xE0 then 0xA0 else 0x80) (if b0 =? 0xED then 0x9F else 0xBF) b1 &&
                 inRange 0x80 0xBF b2 then
                (Z.land b0 0x0F * 4096 + Z.land b1 0x3F * 64 + Z.land b2 0x3F, 3%nat)
              else match rest with
              | [] => (runeError, 1%nat)
              | b3 :: _ =>
                  if inRange 0xF0 0xF4 b0 &&
                     inRange (if b0 =? 0xF0 then 0x90 else 0x80) (if b0 =? 0xF4 then 0x8F else 0xBF) b1 &&
                     inRange 0x80 0xBF b2 && inRange 0x80 0xBF b3 then
                    (Z.land b0 0x07 * 262144 + Z.land b1 0x3F * 4096 +
                     Z.land b2 0x3F * 64 + Z.land b3 0x3F, 4%nat)
                  else (runeError, 1%nat)
              end
          end
      end
  end.

(** Every rune is at least one byte wide, so the length bounds the loop. *)
Fixpoint decodeRunes (n : nat) (l : list Z) : list Z :=
  match n, l with
  | S n, _ :: _ => let '(r, w) := decodeRune l in r :: decodeRunes n (drop w l)
  | _, _ => []
  end.

Definition runes (s : string) : list Z :=
  let l := map chr (list_ascii_of_string s) in decodeRunes (length l) l.

(** * NormalizeName *)

Definition isLowerRune (r : Z) : bool := inRange 97 122 r.
Definition isUpperRune (r : Z) : bool := inRange 65 90 r.
Definition isDigitRune (r : Z) : bool := inRange 48 57 r.
(** The class [\w] of the regexp package. *)
Definition isWordRune (r : Z) : bool :=
  isLowerRune r || isUpperRune r || isDigitRune r || (r =? 95).

(** Step 1: round brackets become spaces. *)
Definition bracketsToSpaces (rs : list Z) : list Z :=
  map (λ r, if (r =? 40) || (r =? 41) then 32 else r) rs.

(** Step 2: [nonWordAtWordBoundary.ReplaceAllString(s, " $2")], the leftmost
    non-overlapping matches of [(\W)([a-zA-Z][a-z])]. *)
Fixpoint nonWordAtWordBoundary (rs : list Z) : list Z :=
  match rs with
  | r0 :: ((r1 :: r2 :: rest) as tl) =>
      if negb (isWordRune r0) && (isLowerRune r1 || isUpperRune r1) && isLowerRune r2
      then 32 :: r1 :: r2 :: nonWordAtWordBoundary rest
      else r0 :: nonWordAtWordBoundary tl
  | _ => rs
  end.

(** Step 3: the remaining non-word characters, spaces apart, become
    underscores. *)
Definition nonWordToUnderscore (rs : list Z) : list Z :=
  map (λ r, if isWordRune r || (r =? 32) then r else 95) rs.

(** [strings.Split(s, " ")] on the characters of the string. *)
Fixpoint splitSpaces (rs : list Z) (cur : list Z) : list (list Z) :=
  match rs with
  | [] => [rev cur]
  | r :: rs => if r =? 32 then rev cur :: splitSpaces rs [] else splitSpaces rs (r :: cur)
  end.

(** Step 4: [startingDigits.ReplaceAllString(w, "$2$1")]. *)
Fixpoint startingDigits (w : list Z) (digits : list Z) : list Z :=
  match w with
  | r :: w' => if isDigitRune r then startingDigits w' (r :: digits) else w ++ rev digits
  | [] => rev digits
  end.

Definition runesToString (rs : list Z) : string :=
  string_of_list_ascii (map (λ r, ascii_of_N (Z.to_N r)) rs).

(** The words after steps 1 to 4. *)
Definition nameWords (s : string) : list string :=
  let rs := nonWordToUnderscore (nonWordAtWordBoundary (bracketsToSpaces (runes s))) in
  match splitSpaces rs [] with
  | w :: ws => map runesToString (startingDigits w [] :: ws)
  | [] => []
  end.

(** Steps 5 and 6: capitalise and concatenate. *)
Definition NormalizeName `{TitleCaser} (s : string) : string :=
  String.concat "" (map titleCase (nameWords s)).

Example NormalizeName_ex1 : NormalizeName "PKCS#1 v1.5"%string = "PKCS_1V1_5"%string.
Proof. vm_compute. reflexivity. Qed.
Example NormalizeName_ex2 : NormalizeName "3DES (CBC) key-block"%string = "DES3CBCKeyBlock"%string.
Proof. vm_compute. reflexivity. Qed.

(** * The caser on plain words determines the result *)

Lemma NormalizeName_caser (tc : TitleCaser) s :
  titleCaserOk tc → forallb plainWord (nameWords s) = true →
  @NormalizeName tc s = @NormalizeName asciiCaser s.
Proof.
  intros Htc Hw. unfold NormalizeName. f_equal.
  induction (nameWords s) as [|w ws IH]; [done|]. cbn [map forallb] in *.
  apply andb_prop in Hw as [Hw Hws]. f_equal; [by apply Htc|by apply IH].
Qed.

(** * Normalized names are words *)

Lemma forallString_app p s1 s2 :
  forallString p (s1 +:+ s2) = forallString p s1 && forallString p s2.
Proof.
  induction s1 as [|c s1 IH]; [done|]. simpl. rewrite IH. by rewrite andb_assoc.
Qed.

Lemma forallString_concat p ws :
  forallString p (String.concat "" ws) = forallb (forallString p) ws.
Proof.
  induction ws as [|w [|w' ws] IH]; [done|simpl; by rewrite andb_true_r|].
  change (String.concat "" (w :: w' :: ws)) with (w +:+ "" +:+ String.concat "" (w' :: ws)).
  rewrite !forallString_app, IH. done.
Qed.

Lemma runesToString_word rs :
  forallb isWordRune rs = true → forallString isWordChar (runesToString rs) = true.
Proof.
  induction rs as [|r rs IH]; [done|]. simpl. intros [Hr Hrs]%andb_prop.
  unfold runesToString in *. simpl. rewrite IH, andb_true_r by done.
  unfold isWordRune, isLowerRune, isUpperRune, isDigitRune, inRange in Hr.
  unfold isWordChar, isLower, isUpper, isDigit, chr. rewrite N_ascii_embedding by lia.
  rewrite Z2N.id by lia. destruct (Z.eqb_spec r 95) as [->|]; [done|].
  rewrite orb_false_r in Hr. rewrite Hr. done.
Qed.

Lemma forallb_rev {A} (p : A → bool) l : forallb p (rev l) = forallb p l.
Proof.
  induction l as [|x l IH]; [done|]. simpl. rewrite forallb_app, IH. simpl.
  rewrite andb_true_r. apply andb_comm.
Qed.

Lemma splitSpaces_word rs cur :
  forallb (λ r, isWordRune r || (r =? 32)) rs = true → forallb isWordRune cur = true →
  Forall (λ w, forallb isWordRune w = true) (splitSpaces rs cur).
Proof.
  revert cur. induction rs as [|r rs IH]; intros cur Hrs Hcur; simpl in *.
  - constructor; [by rewrite forallb_rev|constructor].
  - apply andb_prop in Hrs as [Hr Hrs]. destruct (Z.eqb_spec r 32) as [->|].
    + constructor; [by rewrite forallb_rev|]. by apply IH.
    + rewrite orb_false_r in Hr. apply IH; [done|]. simpl. by rewrite Hr.
Qed.

Lemma startingDigits_word w digits :
  forallb isWordRune w = true → forallb isWordRune digits = true →
  forallb isWordRune (startingDigits w digits) = true.
Proof.
  revert digits. induction w as [|r w IH]; intros digits Hw Hd; cbn [startingDigits].
  - by rewrite forallb_rev.
  - case_match.
    + simpl in Hw. apply andb_prop in Hw as [Hr Hw]. apply IH; [done|]. simpl. by rewrite Hr.
    + by rewrite forallb_app, forallb_rev, Hw.
Qed.

Lemma nonWordToUnderscore_word rs :
  forallb (λ r, isWordRune r || (r =? 32)) (nonWordToUnderscore rs) = true.
Proof.
  induction rs as [|r rs IH]; [done|]. simpl. rewrite IH, andb_true_r.
  case_match eqn:E; [done|reflexivity].
Qed.

Lemma nameWords_word s : Forall (λ w, forallString isWordChar w = true) (nameWords s).
Proof.
  unfold nameWords. pose proof (splitSpaces_word _ [] (nonWordToUnderscore_word
    (nonWordAtWordBoundary (bracketsToSpaces (runes s)))) eq_refl) as Hs.
  destruct (splitSpaces _ []) as [|w ws]; [constructor|].
  inversion Hs as [|? ? Hw Hws]; subst. simpl. constructor.
  - apply runesToString_word. by apply startingDigits_word.
  - clear Hs Hw. induction Hws; simpl; constructor; [by apply runesToString_word|done].
Qed.

(** The caser maps words to words: it changes the case of letters only. *)
Definition titleCaserWord (tc : TitleCaser) : Prop :=
  ∀ w, forallString isWordChar w = true → forallString isWordChar (@titleCase tc w) = true.

Lemma NormalizeName_word (tc : TitleCaser) s :
  titleCaserWord tc → forallString isWordChar (@NormalizeName tc s) = true.
Proof.
  intros Htc. unfold NormalizeName. rewrite forallString_concat.
  pose proof (nameWords_word s) as Hw. induction Hw as [|w ws Hw _ IH]; [done|].
  simpl. rewrite IH, andb_true_r. by apply Htc.
Qed.

Lemma toUpper_word c : isWordChar c = true → isWordChar (toUpper c) = true.
Proof. destruct c as [[] [] [] [] [] [] [] []]; vm_compute; done. Qed.

Lemma asciiCaser_word : titleCaserWord asciiCaser.
Proof.
  intros [|c w]; [done|]. cbn. intros [Hc Hw]%andb_prop.
  by rewrite toUpper_word, Hw.
Qed.

(** * Properties *)

(** A normalized name consists of ASCII letters, digits and underscores
    only, whatever the string: it never needs quoting in XML or JSON and never
    contains the separators of a bitmask string. *)
Theorem NormalizeName_is_word (tc : TitleCaser) s :
  titleCaserWord tc → forallString isWordChar (@NormalizeName tc s) = true.
Proof. apply NormalizeName_word. Qed.

Lemma NormalizeName_is_word_witness :
  forallString isWordChar (@NormalizeName asciiCaser "Ünïcode <x>&(y) z"%string) = true.
Proof. apply (NormalizeName_is_word asciiCaser). exact asciiCaser_word. Defined.
