(* ===== verification/Registry.v ===== *)
(** The registry of names: src/ttlv/registry.go, with the [EnumMap] interface
    of src/ttlv/formatting.go and [RegisterTypes] of src/ttlv/types.go. *)
From Stdlib Require Import ZArith Lia Strings.Byte Ascii String Permutation.
From stdpp Require Import base list strings numbers gmap sorting fin_maps.
From S2P Require Import Prelude Ttlv Hex Names.
Local Open Scope Z_scope.

(** * The EnumMap interface *)

(** The Go interface as a record of operations; a missing name or value is
    [None]. *)
Record EnumMap := mkEnumMap {
  em_Name : Z → option string;
  em_CanonicalName : Z → option string;
  em_Value : string → option Z;
  em_Values : list Z;
  em_Bitmask : bool;
}.

(** A word that does not start with a digit: neither a number nor a hex string. *)
Definition properName (n : string) : bool :=
  forallString isWordChar n &&
  match n with EmptyString => false | String c _ => negb (isDigit c) end.

(** What the formatting and parsing functions need of an [EnumMap]: the values
    are the named ones, in increasing order, a name finds its value again and
    cannot be mistaken for a number. *)
Class EnumMapLaws (m : EnumMap) : Prop := {
  law_range : ∀ v n, em_Name m v = Some n → is_u32 v;
  law_values : ∀ v, v ∈ em_Values m ↔ is_Some (em_Name m v);
  law_sorted : StronglySorted Z.lt (em_Values m);
  law_name_value : ∀ v n, em_Name m v = Some n → em_Value m n = Some v;
  law_name_proper : ∀ v n, em_Name m v = Some n → properName n = true;
}.

(** * Enum *)

Record Enum := mkEnum {
  valuesToName : gmap Z string;
  valuesToCanonicalName : gmap Z string;
  nameToValue : gmap string Z;
  canonicalNamesToValue : gmap string Z;
  bitMask : bool;
}.

Definition NewEnum : Enum := mkEnum ∅ ∅ ∅ ∅ false.
Definition NewBitmask : Enum := mkEnum ∅ ∅ ∅ ∅ true.

Definition Enum_RegisterValue `{TitleCaser} (e : Enum) (v : Z) (name : string) : Enum :=
  let nn := NormalizeName name in
  {| valuesToName := <[v := nn]> (valuesToName e);
     nameToValue := <[nn := v]> (nameToValue e);
     valuesToCanonicalName := <[v := name]> (valuesToCanonicalName e);
     canonicalNamesToValue := <[name := v]> (canonicalNamesToValue e);
     bitMask := bitMask e |}.

(** The methods accept a nil receiver, [None]. *)
Definition Enum_Name (e : option Enum) (v : Z) : option string :=
  e ← e; valuesToName e !! v.

Definition Enum_CanonicalName (e : option Enum) (v : Z) : option string :=
  e ← e; valuesToCanonicalName e !! v.

Definition Enum_Value (e : option Enum) (name : string) : option Z :=
  e ← e;
  match nameToValue e !! name with
  | Some v => Some v
  | None => canonicalNamesToValue e !! name
  end.

(** The keys in increasing order; Go's map iteration order is unspecified,
    [sort.Sort] makes the result independent of it. *)
Definition Enum_Values (e : Enum) : list Z :=
  merge_sort Z.le (map_to_list (valuesToName e)).*1.

Definition Enum_Bitmask (e : option Enum) : bool :=
  match e with None => false | Some e => bitMask e end.

(** [*Enum] implements [EnumMap]. *)
Definition Enum_EnumMap (e : Enum) : EnumMap := {|
  em_Name := Enum_Name (Some e);
  em_CanonicalName := Enum_CanonicalName (Some e);
  em_Value := Enum_Value (Some e);
  em_Values := Enum_Values e;
  em_Bitmask := Enum_Bitmask (Some e);
|}.

(** A run of registrations, as the generated code does over a map literal. *)
Definition registerAll `{TitleCaser} (e : Enum) (l : list (Z * string)) : Enum :=
  foldl (λ e '(v, name), Enum_RegisterValue e v name) e l.

(** * Registry *)

(** What a tag is registered with: an [*Enum] of its own, or a pointer to the
    registry's own [tags] or [types], which later registrations keep
    updating. *)
Inductive EnumRef : Type :=
  | RefTags
  | RefTypes
  | RefEnum (e : Enum)
  | RefCustom (m : EnumMap).

Record Registry := mkRegistry {
  enums : gmap Z EnumRef;
  tags : Enum;
  types : Enum;
}.

Definition emptyRegistry : Registry := mkRegistry ∅ NewEnum NewEnum.

Definition Registry_RegisterType `{TitleCaser} (r : Registry) (t : Z) (name : string) : Registry :=
  mkRegistry (enums r) (tags r) (Enum_RegisterValue (types r) t name).

Definition Registry_RegisterTag `{TitleCaser} (r : Registry) (t : Z) (name : string) : Registry :=
  mkRegistry (enums r) (Enum_RegisterValue (tags r) t name) (types r).

Definition Registry_RegisterEnum (r : Registry) (t : Z) (def : EnumRef) : Registry :=
  mkRegistry (<[t := def]> (enums r)) (tags r) (types r).

(** Dereference the registered pointer. *)
Definition derefEnum (r : Registry) (d : EnumRef) : EnumMap :=
  match d with
  | RefTags => Enum_EnumMap (tags r)
  | RefTypes => Enum_EnumMap (types r)
  | RefEnum e => Enum_EnumMap e
  | RefCustom m => m
  end.

Definition Registry_EnumForTag (r : Registry) (t : Z) : option EnumMap :=
  derefEnum r <$> enums r !! t.

Definition Registry_IsBitmask (r : Registry) (t : Z) : bool :=
  match Registry_EnumForTag r t with Some e => em_Bitmask e | None => false end.

Definition Registry_IsEnum (r : Registry) (t : Z) : bool :=
  match Registry_EnumForTag r t with Some e => negb (em_Bitmask e) | None => false end.

Definition Registry_Tags (r : Registry) : EnumRef := RefTags.
Definition Registry_Types (r : Registry) : EnumRef := RefTypes.

(** [RegisterTypes]: the map literal, in the order it is written. *)
Definition typeNames : list (Z * string) :=
  [(TypeBigInteger, "BigInteger"); (TypeBoolean, "Boolean"); (TypeByteString, "ByteString");
   (TypeDateTime, "DateTime"); (TypeEnumeration, "Enumeration"); (TypeInteger, "Integer");
   (TypeInterval, "Interval"); (TypeLongInteger, "LongInteger"); (TypeStructure, "Structure");
   (TypeTextString, "TextString"); (TypeDateTimeExtended, "DateTimeExtended")]%string.

Definition RegisterTypes `{TitleCaser} (r : Registry) : Registry :=
  foldl (λ r '(v, name), Registry_RegisterType r v name) r typeNames.

Example RegisterTypes_ex :
  em_Values (Enum_EnumMap (types (RegisterTypes emptyRegistry))) = [1;2;3;4;5;6;7;8;9;10;11].
Proof. vm_compute. reflexivity. Qed.

(** * Lemmas on runs of registrations *)

Section RegisterAll.
Context `{tc : TitleCaser}.

Implicit Types (e : Enum) (l : list (Z * string)).

Lemma registerAll_app e l1 l2 :
  registerAll e (l1 ++ l2) = registerAll (registerAll e l1) l2.
Proof. apply foldl_app. Qed.

Lemma registerAll_bitMask e l : bitMask (registerAll e l) = bitMask e.
Proof.
  revert e. induction l as [|[v n] l IH]; intros e; [done|].
  etransitivity; [apply IH|done].
Qed.

(** A map of the enumeration after a run: the entries of the run over the
    old ones, a later entry winning over an earlier one. *)
Lemma registerAll_proj {K A} `{Countable K} (π : Enum → gmap K A)
    (k : Z → string → K) (f : Z → string → A) e l :
  (∀ e v n, π (Enum_RegisterValue e v n) = <[k v n := f v n]> (π e)) →
  π (registerAll e l) =
    list_to_map (reverse ((λ '(v, n), (k v n, f v n)) <$> l)) ∪ π e.
Proof.
  intros Hπ. revert e. induction l as [|[v n] l IH]; intros e.
  - simpl. by rewrite (left_id_L ∅ (∪)).
  - change (registerAll e ((v, n) :: l)) with (registerAll (Enum_RegisterValue e v n) l).
    rewrite IH, Hπ, fmap_cons, reverse_cons, list_to_map_app.
    simpl. rewrite <- (assoc_L (∪)). f_equal. by rewrite insert_empty, insert_union_singleton_l.
Qed.

(** Registrations with distinct keys: the order does not matter, and every
    entry is found. *)
Lemma registerAll_proj_NoDup {K A} `{Countable K} (π : Enum → gmap K A)
    (k : Z → string → K) (f : Z → string → A) e l :
  (∀ e v n, π (Enum_RegisterValue e v n) = <[k v n := f v n]> (π e)) →
  NoDup ((λ '(v, n), k v n) <$> l) →
  π (registerAll e l) = list_to_map ((λ '(v, n), (k v n, f v n)) <$> l) ∪ π e.
Proof.
  intros Hπ Hnd. rewrite (registerAll_proj π k f) by done. f_equal.
  apply list_to_map_proper; [|by rewrite reverse_Permutation].
  rewrite reverse_Permutation, <- list_fmap_compose.
  erewrite list_fmap_ext; [exact Hnd|]. by intros i [v n] _.
Qed.

Lemma registerAll_entry {K A} `{Countable K} (π : Enum → gmap K A)
    (k : Z → string → K) (f : Z → string → A) e l v n :
  (∀ e v n, π (Enum_RegisterValue e v n) = <[k v n := f v n]> (π e)) →
  NoDup ((λ '(v, n), k v n) <$> l) → (v, n) ∈ l →
  π (registerAll e l) !! k v n = Some (f v n).
Proof.
  intros Hπ Hnd Hin. rewrite (registerAll_proj_NoDup π k f) by done.
  apply lookup_union_Some_l, elem_of_list_to_map_1.
  - rewrite <- list_fmap_compose. erewrite list_fmap_ext; [exact Hnd|]. by intros i [? ?] _.
  - apply list_elem_of_fmap. by exists (v, n).
Qed.

(** The values that end up with a name. *)
Lemma registerAll_name_inv l v nn :
  valuesToName (registerAll NewEnum l) !! v = Some nn →
  ∃ n, (v, n) ∈ l ∧ nn = NormalizeName n.
Proof.
  rewrite (registerAll_proj valuesToName (λ v _, v) (λ _ n, NormalizeName n)) by done.
  simpl. rewrite (right_id_L ∅ (∪)). intros Hin%elem_of_list_to_map_2.
  rewrite elem_of_reverse in Hin. apply list_elem_of_fmap in Hin as ([v' n] & Heq & Hin).
  simplify_eq. eauto.
Qed.
End RegisterAll.

(** The values of an enumeration: the keys of the map, in increasing order. *)
Lemma Enum_Values_spec e v : v ∈ Enum_Values e ↔ is_Some (valuesToName e !! v).
Proof.
  unfold Enum_Values. rewrite merge_sort_Permutation. rewrite list_elem_of_fmap. split.
  - intros ([v' n] & -> & Hin). apply elem_of_map_to_list in Hin. by eexists.
  - intros [n Hn]. exists (v, n). split; [done|]. by apply elem_of_map_to_list.
Qed.

Lemma StronglySorted_le_lt l : NoDup l → StronglySorted Z.le l → StronglySorted Z.lt l.
Proof.
  intros Hnd. induction 1 as [|x l Hs IH Hf]; constructor.
  - apply IH. by apply NoDup_cons in Hnd as [_ ?].
  - apply NoDup_cons in Hnd as [Hx _]. rewrite Forall_forall in *. intros y Hy.
    specialize (Hf y Hy). assert (x ≠ y) by (intros ->; done). lia.
Qed.

Lemma Enum_Values_sorted e : StronglySorted Z.lt (Enum_Values e).
Proof.
  unfold Enum_Values. apply StronglySorted_le_lt.
  - rewrite merge_sort_Permutation. apply NoDup_fst_map_to_list.
  - apply (StronglySorted_merge_sort Z.le).
Qed.

(** An enumeration with nothing registered, of either kind. *)
Definition blankEnum (b : bool) : Enum := mkEnum ∅ ∅ ∅ ∅ b.

Lemma fmap_snd_norm `{TitleCaser} (l : list (Z * string)) :
  NormalizeName <$> l.*2 = (λ '(v, n), NormalizeName n) <$> l.
Proof. rewrite <- list_fmap_compose. apply list_fmap_ext. by intros i [? ?] _. Qed.

Lemma fmap_fst_pair (l : list (Z * string)) : l.*1 = (λ '(v, n), v) <$> l.
Proof. apply list_fmap_ext. by intros i [? ?] _. Qed.

(** A value listed with a name is found under that name. *)
Lemma registerAll_name `{TitleCaser} e l v n :
  NoDup l.*1 → (v, n) ∈ l → valuesToName (registerAll e l) !! v = Some (NormalizeName n).
Proof.
  intros Hnd Hin. rewrite fmap_fst_pair in Hnd.
  by apply (registerAll_entry valuesToName (λ v _, v) (λ _ n, NormalizeName n)).
Qed.

Lemma registerAll_value `{TitleCaser} e l v n :
  NoDup (NormalizeName <$> l.*2) → (v, n) ∈ l →
  nameToValue (registerAll e l) !! NormalizeName n = Some v.
Proof.
  intros Hnd Hin. rewrite fmap_snd_norm in Hnd.
  by apply (registerAll_entry nameToValue (λ _ n, NormalizeName n) (λ v _, v)).
Qed.

Lemma registerAll_blank_inv `{TitleCaser} b l v nn :
  valuesToName (registerAll (blankEnum b) l) !! v = Some nn →
  ∃ n, (v, n) ∈ l ∧ nn = NormalizeName n.
Proof.
  rewrite (registerAll_proj valuesToName (λ v _, v) (λ _ n, NormalizeName n)) by done.
  simpl. rewrite (right_id_L ∅ (∪)). intros Hin%elem_of_list_to_map_2.
  rewrite elem_of_reverse in Hin. apply list_elem_of_fmap in Hin as ([v' n] & Heq & Hin).
  simplify_eq. eauto.
Qed.

Lemma registerAll_laws `{tc : TitleCaser} b l :
  Forall (λ '(v, n), is_u32 v ∧ properName (NormalizeName n) = true) l →
  NoDup l.*1 → NoDup (NormalizeName <$> l.*2) →
  EnumMapLaws (Enum_EnumMap (registerAll (blankEnum b) l)).
Proof.
  rewrite Forall_forall. intros Hr Hv Hn. split; cbn.
  - intros v n Hvn. apply registerAll_blank_inv in Hvn as (n' & Hin & _).
    by apply (Hr (v, n')).
  - intros v. apply Enum_Values_spec.
  - apply Enum_Values_sorted.
  - intros v n Hvn. apply registerAll_blank_inv in Hvn as (n' & Hin & ->).
    by rewrite (registerAll_value _ l v n').
  - intros v n Hvn. apply registerAll_blank_inv in Hvn as (n' & Hin & ->).
    by apply (Hr (v, n')).
Qed.

(** The invariant of an [Enum] under any sequence of registrations. *)
Record Enum_wf `{TitleCaser} (e : Enum) : Prop := {
  wf_canonical : ∀ v n, valuesToName e !! v = Some n ↔
    ∃ c, valuesToCanonicalName e !! v = Some c ∧ n = NormalizeName c;
  wf_names : ∀ v n, valuesToName e !! v = Some n → is_Some (nameToValue e !! n);
  wf_values : ∀ n v, nameToValue e !! n = Some v → is_Some (valuesToName e !! v);
  wf_canonical_values : ∀ c v, canonicalNamesToValue e !! c = Some v →
    is_Some (valuesToName e !! v) ∧ is_Some (nameToValue e !! NormalizeName c);
}.

Lemma Enum_wf_blank `{TitleCaser} b : Enum_wf (blankEnum b).
Proof.
  split; cbn; try (intros *; rewrite lookup_empty; done).
  intros v n. rewrite lookup_empty. split; [done|]. by intros (c & Hc & _).
Qed.

Lemma lookup_insert_is_Some' {K A} `{Countable K} (m : gmap K A) i j x :
  i = j ∨ is_Some (m !! j) → is_Some (<[i := x]> m !! j).
Proof. intros [->|?]; rewrite lookup_insert; by case_decide. Qed.

Lemma Enum_wf_RegisterValue `{TitleCaser} e v name :
  Enum_wf e → Enum_wf (Enum_RegisterValue e v name).
Proof.
  intros [H1 H2 H3 H4]. split; cbn.
  - intros v' n. rewrite !lookup_insert. case_decide; [|apply H1].
    split; [intros [= <-]; eauto|]. by intros (c & [= <-] & ->).
  - intros v' n. rewrite lookup_insert. intros Hv. apply lookup_insert_is_Some'.
    case_decide; [left; congruence|right; eauto].
  - intros n v'. rewrite lookup_insert. intros Hn. apply lookup_insert_is_Some'.
    case_decide; [left; congruence|right; eauto].
  - intros c v'. rewrite lookup_insert. intros Hc.
    split; apply lookup_insert_is_Some'; case_decide; simplify_eq; auto; right; by eapply H4.
Qed.

Lemma registerAll_proj_perm {K A} `{tc : TitleCaser, Countable K} (π : Enum → gmap K A)
    (k : Z → string → K) (f : Z → string → A) e l1 l2 :
  (∀ e v n, π (Enum_RegisterValue e v n) = <[k v n := f v n]> (π e)) →
  l1 ≡ₚ l2 → NoDup ((λ '(v, n), k v n) <$> l1) →
  π (registerAll e l1) = π (registerAll e l2).
Proof.
  intros Hπ Hp Hnd. rewrite !(registerAll_proj_NoDup π k f); try done.
  - f_equal. apply list_to_map_proper; [|by rewrite Hp].
    rewrite <- list_fmap_compose. erewrite list_fmap_ext; [exact Hnd|]. by intros i [v n] _.
  - by rewrite <- Hp.
Qed.

Lemma fmap_snd_pair (l : list (Z * string)) : l.*2 = (λ '(v, n), n) <$> l.
Proof. apply list_fmap_ext. by intros i [? ?] _. Qed.

Lemma Enum_ext e1 e2 :
  valuesToName e1 = valuesToName e2 → valuesToCanonicalName e1 = valuesToCanonicalName e2 →
  nameToValue e1 = nameToValue e2 → canonicalNamesToValue e1 = canonicalNamesToValue e2 →
  bitMask e1 = bitMask e2 → e1 = e2.
Proof. destruct e1, e2; simpl; by intros -> -> -> -> ->. Qed.

(** * Properties *)

(** The name tables of an [Enum] stay consistent under every sequence of
    registrations, name clashes included: the normalized name of a value is
    the normalization of its canonical name, and every name, normalized or
    canonical, leads to a value that has a name. *)
Theorem Enum_registration_invariant (tc : TitleCaser) b l :
  Enum_wf (registerAll (blankEnum b) l) ∧
  Enum_Bitmask (Some (registerAll (blankEnum b) l)) = b.
Proof.
  split; [|apply registerAll_bitMask]. generalize (Enum_wf_blank b).
  generalize (blankEnum b). induction l as [|[v n] l IH]; intros e He; [done|].
  apply IH. by apply Enum_wf_RegisterValue.
Qed.

(** C30. An enumeration whose values and normalized names are distinct, and
    whose names do not start with a digit, obeys the laws of [EnumMap]: its
    values are listed in increasing order and [Value] inverts [Name]. *)
Theorem Enum_implements_EnumMap (tc : TitleCaser) b l :
  Forall (λ '(v, n), is_u32 v ∧ properName (NormalizeName n) = true) l →
  NoDup l.*1 → NoDup (NormalizeName <$> l.*2) →
  EnumMapLaws (Enum_EnumMap (registerAll (blankEnum b) l)).
Proof. apply registerAll_laws. Qed.

Lemma Enum_implements_EnumMap_witness :
  EnumMapLaws (Enum_EnumMap (registerAll (blankEnum false) typeNames)).
Proof.
  apply (Enum_implements_EnumMap asciiCaser).
  - apply (bool_decide_eq_true_1 _). vm_compute. reflexivity.
  - apply (bool_decide_eq_true_1 _). vm_compute. reflexivity.
  - apply (bool_decide_eq_true_1 _). vm_compute. reflexivity.
Defined.

(** The generated code registers the entries of a Go map, whose iteration
    order is unspecified: with distinct values and distinct normalized names,
    the resulting enumeration does not depend on the order. *)
Theorem registerAll_order (tc : TitleCaser) e l1 l2 :
  l1 ≡ₚ l2 → NoDup l1.*1 → NoDup (NormalizeName <$> l1.*2) →
  registerAll e l1 = registerAll e l2.
Proof.
  intros Hp Hv Hn. assert (NoDup l1.*2) as Hc by (by eapply NoDup_fmap_1).
  rewrite fmap_snd_norm in Hn. rewrite fmap_fst_pair in Hv. rewrite fmap_snd_pair in Hc.
  apply Enum_ext.
  - by apply (registerAll_proj_perm valuesToName (λ v _, v) (λ _ n, NormalizeName n)).
  - by apply (registerAll_proj_perm valuesToCanonicalName (λ v _, v) (λ _ n, n)).
  - by apply (registerAll_proj_perm nameToValue (λ _ n, NormalizeName n) (λ v _, v)).
  - by apply (registerAll_proj_perm canonicalNamesToValue (λ _ n, n) (λ v _, v)).
  - by rewrite !registerAll_bitMask.
Qed.

Lemma registerAll_order_witness :
  registerAll NewEnum typeNames = registerAll NewEnum (rev typeNames).
Proof.
  apply (registerAll_order asciiCaser).
  - apply Permutation_rev.
  - apply (bool_decide_eq_true_1 _). vm_compute. reflexivity.
  - apply (bool_decide_eq_true_1 _). vm_compute. reflexivity.
Defined.

(** The enumeration registered for a tag with [registry.Tags()] is the
    registry's own tag table, not a copy: a tag registered afterwards is
    formatted and parsed through it. *)
Theorem Tags_enum_is_live (tc : TitleCaser) r t v name m :
  Registry_EnumForTag (Registry_RegisterTag
    (Registry_RegisterEnum r t (Registry_Tags r)) v name) t = Some m →
  em_Name m v = Some (NormalizeName name) ∧
  em_Value m (NormalizeName name) = Some v ∧
  em_CanonicalName m v = Some name.
Proof.
  unfold Registry_EnumForTag. cbn. rewrite lookup_insert_eq. intros [= <-]. cbn.
  by rewrite !lookup_insert_eq.
Qed.

Lemma Tags_enum_is_live_witness :
  em_Value (Enum_EnumMap (Enum_RegisterValue NewEnum 0x420125 "Attributes")) "Attributes"
    = Some 0x420125.
Proof.
  exact (proj1 (proj2 (Tags_enum_is_live asciiCaser emptyRegistry 0x42013b 0x420125
    "Attributes" _ eq_refl))).
Defined.
