(* ===== verification/Formatting.v ===== *)
(** Text forms of tags, types, enumerations and bitmasks:
    src/ttlv/formatting.go, with the wrappers of src/ttlv/registry.go and the
    String and UnmarshalText methods of src/ttlv/tag.go and src/ttlv/types.go. *)
From Stdlib Require Import ZArith Lia Strings.Byte Ascii String.
From stdpp Require Import base list strings numbers gmap sorting.
From S2P Require Import Prelude Ttlv Hex Names Registry.
Local Open Scope Z_scope.

Inductive perr : Type :=
  | PErrInvalidHexString
  | PErrUnregisteredEnumName (s : string).

(** * Formatting *)

(** The registered name, or hex with [width] digits. *)
Definition nameOr (o : option (option string)) (dflt : string) : string :=
  match o with Some (Some s) => s | _ => dflt end.

Definition FormatType (b : Z) (enumMap : option EnumMap) : string :=
  nameOr ((λ m, em_Name m b) <$> enumMap) (sprintfHex 2 b).

Definition FormatTag (v : Z) (enumMap : option EnumMap) : string :=
  nameOr ((λ m, em_Name m v) <$> enumMap) (sprintfHex 6 v).

Definition FormatTagCanonical (v : Z) (enumMap : option EnumMap) : string :=
  nameOr ((λ m, em_CanonicalName m v) <$> enumMap) (sprintfHex 6 v).

Definition FormatEnum (v : Z) (enumMap : option EnumMap) : string :=
  nameOr ((λ m, em_Name m v) <$> enumMap) (sprintfHex 8 v).

(** [sb.WriteString("|")] when the builder is not empty. *)
Definition withBar (sb : string) : string :=
  match sb with EmptyString => sb | _ => sb +:+ "|" end.

(** The loop of [FormatInt]: the remaining bits and the text so far. *)
Fixpoint formatMask (m : EnumMap) (values : list Z) (v : Z) (sb : string) : Z * string :=
  match values with
  | [] => (v, sb)
  | v1 :: values =>
      let '(v, sb) :=
        if Z.land v1 v =? v1 then
          match em_Name m v1 with
          | Some name => (Z.lxor v v1, withBar sb +:+ name)
          | None => (v, sb)
          end
        else (v, sb) in
      if v =? 0 then (v, sb) else formatMask m values v sb
  end.

Definition FormatInt (i : Z) (enumMap : option EnumMap) : string :=
  match enumMap with
  | None => sprintfHex 8 i
  | Some m =>
      match em_Values m with
      | [] => sprintfHex 8 i
      | values =>
          let '(v, sb) := formatMask m values (u32 i) "" in
          if v =? 0 then sb else withBar sb +:+ sprintfHex 8 v
      end
  end.

(** * Parsing *)

Definition parseHexOrName (s : string) (maxLen : Z) (enumMap : option EnumMap) : res perr Z :=
  match ParseHexValue s maxLen with
  | Err _ => Err PErrInvalidHexString
  | Panic => Panic
  | OutOfFuel => OutOfFuel
  | Ok (Some b) => Ok (DecodeUint32 b)
  | Ok None =>
      match enumMap with
      | Some m => match em_Value m s with Some v => Ok v | None => Err (PErrUnregisteredEnumName s) end
      | None => Err (PErrUnregisteredEnumName s)
      end
  end.

Definition ParseEnum (s : string) (enumMap : option EnumMap) : res perr Z :=
  match parseUint s (2 ^ 32) with
  | Some u => Ok (u32 u)
  | None => parseHexOrName s 4 enumMap
  end.

Definition isBarOrSpace (c : ascii) : bool := (c =? "|")%char || (c =? " ")%char.

(** [strings.ContainsAny(s, "| ")] *)
Definition containsBarOrSpace (s : string) : bool :=
  negb (forallString (λ c, negb (isBarOrSpace c)) s).

Fixpoint snoc (s : string) (c : ascii) : string :=
  match s with EmptyString => String c EmptyString | String c' s => String c' (snoc s c) end.

(** [strings.Split(strings.ReplaceAll(s, "|", " "), " ")] *)
Fixpoint splitMask (s : string) (cur : string) : list string :=
  match s with
  | EmptyString => [cur]
  | String c s => if isBarOrSpace c then cur :: splitMask s "" else splitMask s (snoc cur c)
  end.

(** The loop of [ParseInt] over the parts; empty parts are skipped. *)
Fixpoint parseParts (parts : list string) (v : Z) (enumMap : option EnumMap) : res perr Z :=
  match parts with
  | [] => Ok v
  | EmptyString :: parts => parseParts parts v enumMap
  | part :: parts => i ← parseHexOrName part 4 enumMap; parseParts parts (Z.lor v i) enumMap
  end.

Definition ParseInt (s : string) (enumMap : option EnumMap) : res perr Z :=
  match parseInt s (2 ^ 31) with
  | Some i => Ok (i32 i)
  | None =>
      if negb (containsBarOrSpace s) then i32 <$> parseHexOrName s 4 enumMap
      else i32 <$> parseParts (splitMask s "") 0 enumMap
  end.

Definition ParseTag (s : string) (enumMap : option EnumMap) : res perr Z :=
  parseHexOrName s 3 enumMap.

(** [Type(b[0])]: the first byte of the hex string. *)
Definition ParseType (s : string) (enumMap : option EnumMap) : res perr Z :=
  match ParseHexValue s 1 with
  | Err _ => Err PErrInvalidHexString
  | Panic => Panic
  | OutOfFuel => OutOfFuel
  | Ok (Some b) => b0 ← index b 0; Ok (b2z b0)
  | Ok None =>
      match enumMap with
      | Some m =>
          match em_Value m s with Some v => Ok (u8 v) | None => Err (PErrUnregisteredEnumName s) end
      | None => Err (PErrUnregisteredEnumName s)
      end
  end.

(** * The registry's wrappers *)

Definition Registry_FormatEnum (r : Registry) (t v : Z) : string :=
  FormatEnum v (Registry_EnumForTag r t).
Definition Registry_FormatInt (r : Registry) (t v : Z) : string :=
  FormatInt v (Registry_EnumForTag r t).
Definition Registry_FormatTag (r : Registry) (t : Z) : string :=
  FormatTag t (Some (Enum_EnumMap (tags r))).
Definition Registry_FormatTagCanonical (r : Registry) (t : Z) : string :=
  FormatTagCanonical t (Some (Enum_EnumMap (tags r))).
Definition Registry_FormatType (r : Registry) (t : Z) : string :=
  FormatType t (Some (Enum_EnumMap (types r))).
Definition Registry_ParseEnum (r : Registry) (t : Z) (s : string) : res perr Z :=
  ParseEnum s (Registry_EnumForTag r t).
Definition Registry_ParseInt (r : Registry) (t : Z) (s : string) : res perr Z :=
  ParseInt s (Registry_EnumForTag r t).
Definition Registry_ParseTag (r : Registry) (s : string) : res perr Z :=
  ParseTag s (Some (Enum_EnumMap (tags r))).
Definition Registry_ParseType (r : Registry) (s : string) : res perr Z :=
  ParseType s (Some (Enum_EnumMap (types r))).

(** [Tag.String], [Tag.CanonicalName], [Type.String] and the text
    (un)marshalers, for the registry that is [DefaultRegistry]. *)
Definition Tag_String (dflt : Registry) (t : Z) : string := Registry_FormatTag dflt t.
Definition Tag_CanonicalName (dflt : Registry) (t : Z) : string := Registry_FormatTagCanonical dflt t.
Definition Tag_MarshalText (dflt : Registry) (t : Z) : list byte :=
  String.list_byte_of_string (Tag_String dflt t).
Definition Tag_UnmarshalText (dflt : Registry) (text : list byte) : res perr Z :=
  Registry_ParseTag dflt (String.string_of_list_byte text).
Definition Type_String (dflt : Registry) (t : Z) : string := Registry_FormatType dflt t.
Definition Type_MarshalText (dflt : Registry) (t : Z) : list byte :=
  String.list_byte_of_string (Type_String dflt t).
Definition Type_UnmarshalText (dflt : Registry) (text : list byte) : res perr Z :=
  Registry_ParseType dflt (String.string_of_list_byte text).

(** * Concrete maps *)

Definition usageMask : EnumMap :=
  Enum_EnumMap (registerAll NewBitmask
    [(1, "Sign"); (2, "Verify"); (4, "Encrypt"); (8, "Decrypt"); (1024, "Certificate Sign")]%string).
Example FormatInt_ex : FormatInt 0x100c (Some usageMask) = "Encrypt|Decrypt|0x00001000"%string.
Proof. vm_compute. reflexivity. Qed.
Example ParseInt_ex : ParseInt "Encrypt|Decrypt 0x1000" (Some usageMask) = Ok 0x100c.
Proof. vm_compute. reflexivity. Qed.

(** * Lemmas on strings *)

Lemma snoc_app s c s' : snoc s c +:+ s' = s +:+ String c s'.
Proof. induction s as [|c' s IH]; [done|]. exact (f_equal (String c') IH). Qed.

(** Text without separators: one part of a mask. *)
Definition noBars (s : string) : bool := forallString (λ c, negb (isBarOrSpace c)) s.

Lemma splitMask_noBars s cur rest :
  noBars s = true → splitMask (s +:+ rest) cur = splitMask rest (cur +:+ s).
Proof.
  revert cur. induction s as [|c s IH]; intros cur; cbn [noBars].
  - intros _. by rewrite app_empty_r.
  - intros [Hc Hs]%andb_prop. apply negb_true_iff in Hc.
    change (String c s +:+ rest) with (String c (s +:+ rest)). cbn [splitMask].
    by rewrite Hc, IH, snoc_app by done.
Qed.

Lemma word_noBars s : forallString isWordChar s = true → noBars s = true.
Proof.
  unfold noBars. induction s as [|c s IH]; [done|]. cbn. intros [Hc Hs]%andb_prop.
  rewrite IH, andb_true_r by done. clear -Hc.
  destruct c as [[] [] [] [] [] [] [] []]; vm_compute in *; done.
Qed.

Lemma noBars_app s1 s2 : noBars (s1 +:+ s2) = noBars s1 && noBars s2.
Proof. apply forallString_app. Qed.

Lemma hexChar_noBars d : 0 ≤ d < 16 → isBarOrSpace (hexChar d) = false.
Proof.
  intros Hd. unfold isBarOrSpace. assert (hexVal (hexChar d) = Some d) as Hv by by apply hexVal_hexChar.
  destruct (hexChar d) as [[] [] [] [] [] [] [] []]; vm_compute in Hv |- *; done.
Qed.

Lemma hexNum_noBars w z : noBars (hexNum w z) = true.
Proof.
  unfold hexNum. induction (Nat.max _ _) as [|n IH]; [done|].
  cbn [fixedHex]. unfold noBars in *. cbn [forallString].
  rewrite hexChar_noBars by (apply Z.mod_pos_bound; lia). by rewrite IH.
Qed.

Lemma sprintfHex_noBars w z : noBars (sprintfHex w z) = true.
Proof. unfold sprintfHex. case_match; rewrite noBars_app, hexNum_noBars; done. Qed.

(** * Names are not numbers *)

Lemma parseUint_nondigit c s b : isDigit c = false → parseUint (String c s) b = None.
Proof. intros Hc. unfold parseUint. cbn. by rewrite Hc. Qed.

Lemma parseUint_0x00 s b : parseUint ("0x00" +:+ s) b = None.
Proof. done. Qed.

Lemma properName_inv n :
  properName n = true →
  ∃ c n', n = String c n' ∧ isDigit c = false ∧ isWordChar c = true ∧
    forallString isWordChar n = true.
Proof.
  unfold properName. intros [Hw Hc]%andb_prop. destruct n as [|c n']; [done|].
  apply negb_true_iff in Hc. cbn in Hw. pose proof (andb_prop _ _ Hw) as [? ?]. eauto 10.
Qed.

Lemma parseInt_word c s b : isDigit c = false → isWordChar c = true → parseInt (String c s) b = None.
Proof.
  intros Hd Hw. unfold parseInt. rewrite parseUint_nondigit by done.
  destruct (Ascii.eqb_spec c "+") as [->|]; [done|].
  destruct (Ascii.eqb_spec c "-") as [->|]; done.
Qed.

Lemma hexPrefix_nondigit c s : isDigit c = false → hexPrefix (String c s) = None.
Proof.
  intros Hd. destruct s; [done|]. cbn.
  destruct (Ascii.eqb_spec c "0") as [->|]; [done|]. done.
Qed.

Lemma parseHexOrName_name m n v l :
  properName n = true → em_Value m n = Some v → parseHexOrName n l (Some m) = Ok v.
Proof.
  intros (c & n' & -> & Hd & _ & _)%properName_inv Hv. unfold parseHexOrName, ParseHexValue.
  by rewrite hexPrefix_nondigit, Hv by done.
Qed.

Lemma parseHexOrName_hex n v m :
  (0 < n ≤ 4)%nat → 0 ≤ v < 2 ^ (8 * Z.of_nat n) →
  parseHexOrName (sprintfHex (2 * n) v) (Z.of_nat n) m = Ok v.
Proof.
  intros Hn Hv. unfold parseHexOrName. rewrite ParseHexValue_sprintf by (done || lia).
  rewrite DecodeUint32_short by (rewrite len_be_encode; lia).
  rewrite be_decode_encode, Z.mod_small by done. done.
Qed.

(** The name or the hex text, whichever [nameOr] picks, is read back. *)
Lemma parseHexOrName_nameOr n v m :
  from_option EnumMapLaws True m →
  (0 < n ≤ 4)%nat → 0 ≤ v < 2 ^ (8 * Z.of_nat n) →
  parseHexOrName (nameOr ((λ m, em_Name m v) <$> m) (sprintfHex (2 * n) v)) (Z.of_nat n) m = Ok v.
Proof.
  intros Hm Hn Hv. destruct m as [m|]; cbn in Hm |- *; [|by apply parseHexOrName_hex].
  destruct (em_Name m v) as [nm|] eqn:Hnm; cbn; [|by apply parseHexOrName_hex].
  apply parseHexOrName_name; [by eapply law_name_proper|by apply law_name_value].
Qed.

Lemma parseUint_nameOr w v m b :
  from_option EnumMapLaws True m → 0 ≤ v →
  parseUint (nameOr ((λ m, em_Name m v) <$> m) (sprintfHex w v)) b = None.
Proof.
  intros Hm Hv. assert (parseUint (sprintfHex w v) b = None) as Hh.
  { unfold sprintfHex. by destruct (Z.ltb_spec v 0); [lia|]. }
  destruct m as [m|]; cbn in Hm |- *; [|done].
  destruct (em_Name m v) as [nm|] eqn:Hnm; cbn; [|done].
  apply law_name_proper in Hnm.
  apply properName_inv in Hnm as (c & n' & -> & Hd & _ & _). by apply parseUint_nondigit.
Qed.

(** * Masks *)

Lemma parseParts_snoc_empty l v m : parseParts (l ++ [""%string]) v m = parseParts l v m.
Proof.
  revert v. induction l as [|[|c s] l IH]; intros v; [done|apply IH|].
  cbn [app parseParts]. destruct (parseHexOrName _ _ _); [|done..]. apply IH.
Qed.

Lemma splitMask_bar s cur : splitMask (s +:+ "|") cur = splitMask s cur ++ [""%string].
Proof.
  revert cur. induction s as [|c s IH]; intros cur; [done|].
  change (String c s +:+ "|") with (String c (s +:+ "|")). cbn [splitMask].
  case_match; rewrite IH; done.
Qed.

Lemma withBar_nonempty s : s ≠ ""%string → withBar s = s +:+ "|".
Proof. by destruct s. Qed.

Lemma app_nonempty_r s1 s2 : s2 ≠ ""%string → s1 +:+ s2 ≠ ""%string.
Proof. by destruct s1. Qed.

Lemma splitMask_part p rest :
  noBars p = true → splitMask (p +:+ ("|" +:+ rest)) "" = p :: splitMask rest "".
Proof. intros Hp. by rewrite splitMask_noBars. Qed.

(** [sb] lists parts whose values add up to [acc]. *)
Definition partsUpTo (m : EnumMap) (sb : string) (acc : Z) : Prop :=
  ∀ rest, parseParts (splitMask (withBar sb +:+ rest) "") 0 (Some m)
          = parseParts (splitMask rest "") acc (Some m).

Lemma partsUpTo_last m sb acc :
  partsUpTo m sb acc → parseParts (splitMask sb "") 0 (Some m) = Ok acc.
Proof.
  intros H. specialize (H ""%string). rewrite app_empty_r in H.
  destruct sb as [|c sb]; [exact H|]. cbn [withBar] in H.
  by rewrite splitMask_bar, parseParts_snoc_empty in H.
Qed.

Lemma partsUpTo_app m sb acc p v :
  partsUpTo m sb acc → p ≠ ""%string → noBars p = true → parseHexOrName p 4 (Some m) = Ok v →
  partsUpTo m (withBar sb +:+ p) (Z.lor acc v).
Proof.
  intros H Hne Hp Hv rest. rewrite withBar_nonempty by (by apply app_nonempty_r).
  rewrite !app_assoc_s, H, splitMask_part by done.
  destruct p as [|c p]; [done|]. cbn [parseParts]. by rewrite Hv.
Qed.

Lemma lor_lxor_step acc v v1 :
  Z.land v1 v = v1 → Z.lor (Z.lor acc v1) (Z.lxor v v1) = Z.lor acc v.
Proof.
  intros H. apply Z.bits_inj'. intros n Hn. apply (f_equal (λ z, Z.testbit z n)) in H.
  rewrite !Z.lor_spec, Z.lxor_spec. rewrite Z.land_spec in H.
  destruct (Z.testbit v n), (Z.testbit v1 n), (Z.testbit acc n); done.
Qed.

(** Text that is not a decimal number and not empty. *)
Definition startsWord (s : string) : Prop :=
  match s with
  | EmptyString => False
  | String c _ => isDigit c = false ∧ isWordChar c = true
  end.

Lemma startsWord_app s1 s2 : startsWord s1 → startsWord (s1 +:+ s2).
Proof. by destruct s1. Qed.

Lemma startsWord_withBar_app sb p :
  sb = ""%string ∨ startsWord sb → startsWord p → startsWord (withBar sb +:+ p).
Proof. intros [->|H] Hp; [done|]. by destruct sb. Qed.

Lemma formatMask_spec m values v sb acc v' sb' :
  EnumMapLaws m → (sb = ""%string ∧ acc = 0 ∨ startsWord sb) → partsUpTo m sb acc →
  formatMask m values v sb = (v', sb') →
  ∃ acc', partsUpTo m sb' acc' ∧ Z.lor acc' v' = Z.lor acc v ∧
    (sb' = ""%string ∧ acc' = 0 ∨ startsWord sb').
Proof.
  intros Hm. revert v sb acc. induction values as [|v1 values IH]; intros v sb acc Hsb Hp Hf.
  { simplify_eq/=. eauto. }
  cbn [formatMask] in Hf.
  destruct (Z.eqb_spec (Z.land v1 v) v1) as [Hl|_]; [destruct (em_Name m v1) as [nm|] eqn:Hnm|].
  2,3: destruct (v =? 0); [simplify_eq; eauto|by eapply IH].
  pose proof (law_name_proper _ _ Hnm) as Hpn. pose proof (law_name_value _ _ Hnm) as Hnv.
  pose proof (properName_inv nm Hpn) as (c & n' & Hnn & Hd & Hw & Hall).
  assert (nm ≠ ""%string) as Hne by (by rewrite Hnn).
  assert (startsWord (withBar sb +:+ nm)) as Hs.
  { apply startsWord_withBar_app; [tauto|]. by rewrite Hnn. }
  assert (partsUpTo m (withBar sb +:+ nm) (Z.lor acc v1)) as Hp'.
  { apply partsUpTo_app; [done..|by apply word_noBars|by apply parseHexOrName_name]. }
  rewrite <- (lor_lxor_step acc v v1) by done.
  destruct (Z.lxor v v1 =? 0); [simplify_eq; eauto|by eapply IH; eauto].
Qed.

Lemma formatMask_le m values v sb : 0 ≤ v → 0 ≤ (formatMask m values v sb).1 ≤ v.
Proof.
  revert v sb. induction values as [|v1 values IH]; intros v sb Hv; [cbn; lia|]. cbn [formatMask].
  destruct (Z.eqb_spec (Z.land v1 v) v1) as [Hl|_]; [destruct (em_Name m v1) as [nm|]|].
  2,3: destruct (v =? 0); [cbn; lia|by apply IH].
  assert (0 ≤ v1) by (rewrite <- Hl; apply Z.land_nonneg; lia).
  assert (0 ≤ Z.lxor v v1) by (apply Z.lxor_nonneg; lia).
  assert (Z.lxor v v1 = v - v1) as Hx.
  { rewrite Z.sub_nocarry_ldiff; apply Z.bits_inj'; intros n Hn;
      apply (f_equal (λ z, Z.testbit z n)) in Hl; rewrite Z.land_spec in Hl;
      rewrite ?Z.lxor_spec, Z.ldiff_spec, ?Z.bits_0;
      destruct (Z.testbit v n), (Z.testbit v1 n); done. }
  destruct (Z.lxor v v1 =? 0); [cbn; lia|]. specialize (IH (Z.lxor v v1) (withBar sb +:+ nm)). lia.
Qed.

(** Outside the decimal numbers, [ParseInt] splits the text into parts; a
    single part is the case without separators. *)
Lemma ParseInt_parts s m v :
  startsWord s ∨ hexPrefix s ≠ None → parseParts (splitMask s "") 0 m = Ok v →
  ParseInt s m = Ok (i32 v).
Proof.
  intros Hs Hp. unfold ParseInt.
  assert (parseInt s (2 ^ 31) = None) as ->.
  { destruct s as [|c s]; [naive_solver|]. destruct Hs as [[Hd Hw]|Hx]; [by apply parseInt_word|].
    destruct s as [|c2 s]; [done|]. cbn in Hx. destruct (Ascii.eqb_spec c "0") as [->|]; [|done].
    destruct (Ascii.eqb_spec c2 "x") as [->|]; done. }
  assert (s ≠ ""%string) as Hne by (intros ->; by destruct Hs).
  destruct (containsBarOrSpace s) eqn:Hc; cbn [negb]; [by rewrite Hp|].
  apply negb_false_iff in Hc. rewrite <- (app_empty_r s), splitMask_noBars in Hp by done.
  change ("" +:+ s) with s in Hp. destruct s as [|c s]; [done|].
  cbn [splitMask parseParts] in Hp. destruct (parseHexOrName _ _ _); [|done..].
  cbn in Hp |- *. by rewrite Z.lor_0_l in Hp; simplify_eq.
Qed.

Lemma sprintfHex_pos w z : 0 ≤ z → sprintfHex w z = String "0" (String "x" (hexNum w z)).
Proof. intros Hz. unfold sprintfHex. by destruct (Z.ltb_spec z 0); [lia|]. Qed.

Lemma FormatInt_parts i m :
  EnumMapLaws m → em_Values m ≠ [] → is_i32 i → i ≠ 0 →
  (startsWord (FormatInt i (Some m)) ∨ hexPrefix (FormatInt i (Some m)) ≠ None) ∧
  parseParts (splitMask (FormatInt i (Some m)) "") 0 (Some m) = Ok (u32 i).
Proof.
  intros Hm Hne Hi H0. unfold FormatInt. destruct (em_Values m) as [|x l] eqn:Hv; [done|].
  destruct (formatMask m (x :: l) (u32 i) "") as [v sb] eqn:Hf. rewrite <- Hv in Hf.
  assert (0 ≤ u32 i < 2 ^ 32) as Hu by (wrap_unfold; wrap_lia).
  assert (u32 i ≠ 0) as Hu0 by (revert Hi; wrap_unfold; wrap_lia).
  pose proof (formatMask_le m (em_Values m) (u32 i) "" ltac:(lia)) as Hle. rewrite Hf in Hle. cbn in Hle.
  edestruct (formatMask_spec m) as (acc & Hp & Hor & Hsb);
    [done|by left|by intros rest|exact Hf|]. rewrite Z.lor_0_l in Hor.
  destruct (Z.eqb_spec v 0) as [->|Hnz].
  { rewrite Z.lor_0_r in Hor. subst acc. split; [|by apply partsUpTo_last].
    left. destruct Hsb as [[_ Hz]|?]; [|done]. congruence. }
  split.
  - destruct Hsb as [[-> _]|Hs].
    + right. cbn [withBar]. unfold sprintfHex. by destruct (Z.ltb_spec v 0); [lia|].
    + left. by destruct sb.
  - rewrite <- Hor, Hp, <- (app_empty_r (sprintfHex 8 v)), splitMask_noBars
      by apply sprintfHex_noBars.
    change ("" +:+ sprintfHex 8 v) with (sprintfHex 8 v).
    pose proof (parseHexOrName_hex 4 v (Some m) ltac:(lia) ltac:(lia)) as Hhex.
    rewrite sprintfHex_pos in Hhex |- * by lia.
    cbn [splitMask parseParts]. change (2 * 4)%nat with 8%nat in Hhex.
    change (Z.of_nat 4) with 4 in Hhex. by rewrite Hhex.
Qed.

Lemma formatMask_zero m values sb :
  (∀ v, v ∈ values → v ≠ 0) → formatMask m values 0 sb = (0, sb).
Proof.
  intros Hv. destruct values as [|v1 values]; [done|]. cbn [formatMask].
  rewrite Z.land_0_r. destruct (Z.eqb_spec 0 v1) as [<-|]; [|done].
  exfalso. by apply (Hv 0); [apply list_elem_of_here|].
Qed.

Lemma sprintfHex_neg w z : z < 0 → ∃ s, sprintfHex w z = String "-" (String "0" (String "x" s)).
Proof. intros Hz. unfold sprintfHex. destruct (Z.ltb_spec z 0); [|lia]. by eexists. Qed.

(** A zero byte in front of a full-width number: accepted, because leading
    zeros do not count, and returned with the number. *)
Lemma ParseHexValue_0x00 n v :
  (0 < n)%nat → 0 ≤ v < 2 ^ (8 * Z.of_nat n) →
  ParseHexValue ("0x00" +:+ hexNum (2 * n) v) (Z.of_nat n) = Ok (Some (x00 :: be_encode n v)).
Proof.
  intros Hn Hv. unfold ParseHexValue.
  change (hexPrefix ("0x00" +:+ hexNum (2 * n) v)) with
    (Some (String "0" (String "0" (hexNum (2 * n) v)))).
  cbn iota. cbn [hexDecodeString]. rewrite hexNum_decode by done.
  change (hexVal "0") with (Some 0). cbn [mbind option_bind].
  change (significant (z2b (16 * 0 + 0) :: be_encode n v)) with (significant (be_encode n v)).
  pose proof (significant_le (be_encode n v)) as Hs. rewrite len_be_encode in Hs.
  rewrite (proj2 (Z.ltb_ge (Z.of_nat n) _)) by done. by rewrite andb_false_r.
Qed.

Lemma DecodeUint32_long v : 0 ≤ v < 2 ^ 32 → DecodeUint32 (x00 :: be_encode 4 v) = v / 256.
Proof.
  intros Hv. unfold DecodeUint32. change (take 4 (pad (x00 :: be_encode 4 v) 4)) with
    (x00 :: take 3 (be_encode 4 v)).
  pose proof (be_decode_encode 4 v) as He. rewrite Z.mod_small in He by done.
  rewrite <- (take_drop 3 (be_encode 4 v)), be_decode_app in He.
  pose proof (be_decode_range (drop 3 (be_encode 4 v))) as Hr.
  change (len (drop 3 (be_encode 4 v))) with 1 in *.
  change (be_decode (x00 :: take 3 (be_encode 4 v))) with (be_decode (take 3 (be_encode 4 v))).
  rewrite <- He at 2. rewrite Z.div_add_l, Z.div_small; lia.
Qed.

Lemma ParseEnum_text v m :
  from_option EnumMapLaws True m → is_u32 v → ParseEnum (FormatEnum v m) m = Ok v.
Proof.
  intros Hm Hv. unfold ParseEnum, FormatEnum. unfold is_u32 in Hv.
  rewrite parseUint_nameOr by (done || lia). by apply (parseHexOrName_nameOr 4); [|lia|].
Qed.

Lemma ParseTag_text v m :
  from_option EnumMapLaws True m → 0 ≤ v < 2 ^ 24 → ParseTag (FormatTag v m) m = Ok v.
Proof. intros Hm Hv. by apply (parseHexOrName_nameOr 3); [|lia|]. Qed.

Lemma ParseInt_text i m :
  EnumMapLaws m → em_Values m ≠ [] → is_i32 i → i ≠ 0 →
  ParseInt (FormatInt i (Some m)) (Some m) = Ok i.
Proof.
  intros Hm Hne Hi H0. edestruct FormatInt_parts as [Hs Hp]; [done..|].
  rewrite (ParseInt_parts _ _ (u32 i)) by done. f_equal. revert Hi. wrap_unfold. wrap_lia.
Qed.

Lemma ParseType_text b m :
  from_option EnumMapLaws True m → 0 ≤ b < 256 → ParseType (FormatType b m) m = Ok b.
Proof.
  intros Hm Hb. assert (ParseType (sprintfHex (2 * 1) b) m = Ok b) as Hh.
  { unfold ParseType. rewrite (ParseHexValue_sprintf 1) by lia.
    change (index (be_encode 1 b) 0 : res perr byte) with (Ok (E := perr) (z2b (Z.shiftr b 0))).
    cbn [mbind res_bind]. rewrite b2z_z2b, Z.shiftr_0_r. f_equal. by apply Z.mod_small. }
  unfold FormatType. destruct m as [m|]; cbn in Hm |- *; [|done].
  destruct (em_Name m b) as [nm|] eqn:Hnm; cbn; [|done].
  pose proof (law_name_value _ _ Hnm) as Hnv. apply law_name_proper in Hnm.
  apply properName_inv in Hnm as (c & n' & -> & Hd & _ & _). unfold ParseType, ParseHexValue.
  rewrite hexPrefix_nondigit, Hnv by done. f_equal. unfold u8. by apply Z.mod_small.
Qed.

(** * Properties *)

(** Enumeration text round trip: for every 32-bit value, registered or not,
    [ParseEnum] reads back what [FormatEnum] prints, with any [EnumMap] that
    obeys the laws, and with none. *)
Theorem ParseEnum_FormatEnum v m :
  from_option EnumMapLaws True m → is_u32 v → ParseEnum (FormatEnum v m) m = Ok v.
Proof. apply ParseEnum_text. Qed.

Lemma ParseEnum_FormatEnum_witness :
  ParseEnum (FormatEnum 10 (Some (Enum_EnumMap (registerAll (blankEnum false) typeNames))))
    (Some (Enum_EnumMap (registerAll (blankEnum false) typeNames))) = Ok 10.
Proof.
  apply ParseEnum_FormatEnum; [|unfold is_u32; lia]. apply registerAll_laws;
    apply (bool_decide_eq_true_1 _); vm_compute; reflexivity.
Defined.

(** Tag text round trip: [ParseTag] reads back what [FormatTag] prints for
    every three-byte tag. *)
Theorem ParseTag_FormatTag v m :
  from_option EnumMapLaws True m → 0 ≤ v < 2 ^ 24 → ParseTag (FormatTag v m) m = Ok v.
Proof. apply ParseTag_text. Qed.

Lemma ParseTag_FormatTag_witness : ParseTag (FormatTag 0x54abcd None) None = Ok 0x54abcd.
Proof. apply ParseTag_FormatTag; [exact I|lia]. Defined.

(** C27. Bitmask text round trip: the registered flags joined by bars, with the
    unregistered bits as hex, are recombined by [ParseInt] to the same 32-bit
    signed integer, for every one but zero, negative ones included.  (The
    text of zero is empty and is refused, see [FormatInt_unparseable].) *)
Theorem ParseInt_FormatInt i m :
  EnumMapLaws m → em_Values m ≠ [] → is_i32 i → i ≠ 0 →
  ParseInt (FormatInt i (Some m)) (Some m) = Ok i.
Proof. apply ParseInt_text. Qed.

Lemma ParseInt_FormatInt_witness :
  ParseInt (FormatInt (-4) (Some usageMask)) (Some usageMask) = Ok (-4).
Proof.
  apply ParseInt_FormatInt; [|by vm_compute|unfold is_i32; lia|lia].
  apply (registerAll_laws true); apply (bool_decide_eq_true_1 _); vm_compute; reflexivity.
Defined.

(** The two values of a bitmask field whose text is not readable: zero,
    whose text is empty when no flag is zero, and every negative integer when
    no names are registered, whose text starts with "-0x". [ParseInt] returns
    an error for both. *)
Theorem FormatInt_unparseable m i :
  (∀ v, v ∈ em_Values m → v ≠ 0) → em_Values m ≠ [] → em_Value m "" = None → i < 0 →
  FormatInt 0 (Some m) = ""%string ∧
  ParseInt (FormatInt 0 (Some m)) (Some m) = Err (PErrUnregisteredEnumName "") ∧
  ParseInt (FormatInt i None) None = Err (PErrUnregisteredEnumName (FormatInt i None)).
Proof.
  intros Hz Hne He Hi. assert (FormatInt 0 (Some m) = ""%string) as Hf.
  { unfold FormatInt. destruct (em_Values m) eqn:Hv; [done|]. rewrite <- Hv in *.
    by rewrite formatMask_zero. }
  rewrite Hf. repeat split.
  - unfold ParseInt, parseHexOrName. cbn. by rewrite He.
  - cbn [FormatInt]. unfold FormatInt. pose proof (sprintfHex_noBars 8 i) as Hb.
    destruct (sprintfHex_neg 8 i Hi) as [s Hs]. rewrite Hs in *. unfold ParseInt, containsBarOrSpace.
    unfold noBars in Hb. by rewrite Hb.
Qed.

Lemma FormatInt_unparseable_witness :
  FormatInt 0 (Some usageMask) = ""%string ∧
  ParseInt (FormatInt 0 (Some usageMask)) (Some usageMask) = Err (PErrUnregisteredEnumName "") ∧
  ParseInt (FormatInt (-1) None) None = Err (PErrUnregisteredEnumName (FormatInt (-1) None)).
Proof.
  apply FormatInt_unparseable; [|by vm_compute|by vm_compute|lia].
  intros v Hv. assert (em_Values usageMask = [1; 2; 4; 8; 1024]) as He by (vm_compute; reflexivity).
  rewrite He in Hv. set_unfold. lia.
Defined.

(** Hex with leading zeros: the length check of [ParseHexValue] ignores the
    zeros, but the decoders read the leading bytes, so that an enumeration
    value written with one zero byte more loses its last byte, and a type
    written so is read as zero. The bare prefix is read as the enumeration
    value zero, and [ParseType] panics on it. *)
Theorem leading_zero_hex v m :
  is_u32 v →
  ParseEnum ("0x00" +:+ hexNum 8 v) m = Ok (v / 256) ∧
  (v < 256 → ParseType ("0x00" +:+ hexNum 2 v) m = Ok 0) ∧
  ParseEnum "0x" m = Ok 0 ∧
  ParseType "0x" m = Panic.
Proof.
  unfold is_u32. intros Hv. repeat split.
  - unfold ParseEnum, parseHexOrName. change ("0x00" +:+ hexNum 8 v) with ("0x00" +:+ hexNum (2 * 4) v).
    rewrite parseUint_0x00, (ParseHexValue_0x00 4) by lia. by rewrite DecodeUint32_long.
  - intros Hs. unfold ParseType. change ("0x00" +:+ hexNum 2 v) with ("0x00" +:+ hexNum (2 * 1) v).
    rewrite (ParseHexValue_0x00 1) by lia. done.
Qed.

Lemma leading_zero_hex_witness :
  ParseEnum "0x0000000042" None = Ok 0 ∧ ParseType "0x0002" None = Ok 0 ∧ ParseType "0x" None = Panic.
Proof.
  destruct (leading_zero_hex 2 None) as (_ & H2 & _ & H3); [unfold is_u32; lia|].
  destruct (leading_zero_hex 0x42 None) as (H1 & _); [unfold is_u32; lia|].
  split; [exact H1|]. split; [|exact H3]. apply H2. lia.
Defined.
