(* ===== verification/FormatText.v ===== *)
(** The characters that the text forms of tags, types, enumeration values and
    masks are made of: word characters, bars and a minus sign. *)
From Stdlib Require Import ZArith Lia Strings.Byte Ascii String.
From stdpp Require Import base list strings numbers gmap.
From S2P Require Import Prelude Hex Names Registry Formatting.
Local Open Scope Z_scope.

Lemma sprintfHex_nonempty w z : sprintfHex w z ≠ EmptyString.
Proof. unfold sprintfHex. by case_match. Qed.

Lemma properName_nonempty n : properName n = true → n ≠ EmptyString.
Proof. intros [_ Hn]%andb_prop. by destruct n. Qed.

Lemma nameOr_nonempty m v w : from_option EnumMapLaws True m →
  nameOr ((λ m, em_Name m v) <$> m) (sprintfHex w v) ≠ EmptyString.
Proof.
  pose proof (sprintfHex_nonempty w v). intros Hm. destruct m as [m|]; [|done]. cbn.
  destruct (em_Name m v) as [n|] eqn:E; [|done]. by apply properName_nonempty, (@law_name_proper m Hm v).
Qed.

Section Chars.
Context (P : ascii → bool) (Pword : ∀ c, isWordChar c = true → P c = true).
Context (Pbar : P "|"%char = true) (Pminus : P "-"%char = true).

Lemma all_app a b : forallString P a = true → forallString P b = true → forallString P (a +:+ b) = true.
Proof. intros Ha Hb. by rewrite forallString_app, Ha, Hb. Qed.

Lemma all_word s : forallString isWordChar s = true → forallString P s = true.
Proof.
  induction s as [|c s IH]; [done|]. cbn [forallString]. intros [Hc Hs]%andb_prop. by rewrite (IH Hs), Pword.
Qed.

Lemma all_proper n : properName n = true → forallString P n = true.
Proof. intros [Hw _]%andb_prop. by apply all_word. Qed.

Lemma hexChar_word d : 0 ≤ d < 16 → isWordChar (hexChar d) = true.
Proof.
  intros Hd. unfold isWordChar, isLower, isUpper, isDigit, hexChar, chr.
  destruct (Z.ltb_spec d 10); rewrite N_ascii_embedding, Z2N.id by lia; lia.
Qed.

Lemma all_hex bs : forallString P (hexEncodeToString bs) = true.
Proof.
  apply all_word. induction bs as [|b bs IH]; [done|]. cbn [hexEncodeToString forallString]. pose proof (b2z_range b).
  rewrite !hexChar_word, IH by (Z.div_mod_to_equations; lia). done.
Qed.

Lemma all_fixedHex n z : forallString P (fixedHex n z) = true.
Proof.
  apply all_word. induction n as [|n IH]; [done|]. cbn [fixedHex forallString].
  rewrite hexChar_word, IH by (apply Z.mod_pos_bound; lia). done.
Qed.

Lemma all_sprintfHex w z : forallString P (sprintfHex w z) = true.
Proof.
  unfold sprintfHex, hexNum. case_match; apply all_app; try apply all_fixedHex; [|by apply all_word].
  cbn [forallString]. by rewrite Pminus, !Pword.
Qed.

Lemma all_nameOr m v w : from_option EnumMapLaws True m →
  forallString P (nameOr ((λ m, em_Name m v) <$> m) (sprintfHex w v)) = true.
Proof.
  pose proof (all_sprintfHex w v). intros Hm. destruct m as [m|]; [|done]. cbn.
  destruct (em_Name m v) as [n|] eqn:E; [|done]. by apply all_proper, (@law_name_proper m Hm v).
Qed.

Lemma all_withBar s : forallString P s = true → forallString P (withBar s) = true.
Proof. intros Hs. unfold withBar. destruct s; [done|]. apply all_app; [done|]. cbn [forallString]. by rewrite Pbar. Qed.

Lemma all_formatMask m values v sb : EnumMapLaws m → forallString P sb = true →
  forallString P (formatMask m values v sb).2 = true.
Proof.
  intros Hm. revert v sb. induction values as [|v1 values IH]; intros v sb Hs; [done|]. cbn [formatMask].
  destruct (Z.land v1 v =? v1); [destruct (em_Name m v1) as [n|] eqn:E|].
  - assert (forallString P (withBar sb +:+ n) = true) as Hp.
    { apply all_app; [by apply all_withBar|]. by apply all_proper, (@law_name_proper m Hm v1). }
    case_match; [done|]. by apply IH.
  - case_match; [done|]. by apply IH.
  - case_match; [done|]. by apply IH.
Qed.

Lemma all_FormatInt i m : EnumMapLaws m → forallString P (FormatInt i (Some m)) = true.
Proof.
  intros Hm. unfold FormatInt. pose proof (all_formatMask m (em_Values m) (u32 i) "" Hm eq_refl) as Hp.
  destruct (em_Values m) as [|v l]; [apply all_sprintfHex|].
  destruct (formatMask m (v :: l) (u32 i) "") as [v' sb]. cbn in Hp. case_match; [done|].
  apply all_app; [by apply all_withBar|apply all_sprintfHex].
Qed.

End Chars.
