(* ===== verification/Generated.v ===== *)
(** The shape of the code cmd/kmipgen emits (src/kmip14/kmip_1_4_generated.go
    and src/kmip20/kmip_2_0_additions_generated.go): enumeration types with
    their constants, names and methods, and the registration of a package's
    tags and enumerations.  The tables themselves are in [Kmip14] and
    [Kmip20]. *)
From Stdlib Require Import ZArith Lia Strings.Byte Ascii String.
From stdpp Require Import base list strings numbers gmap sorting.
From S2P Require Import Prelude Ttlv Grammar EncBuf Hex Names Registry Formatting.
Local Open Scope Z_scope.

(** One generated type: its Go name, its const block, the map literal of its
    [New...Enum] function, which refers to the constants by identifier, and
    whether that function starts from [ttlv.NewBitmask()]. *)
Record EnumType := mkEnumType {
  et_name : string;
  et_consts : list (string * Z);
  et_names : list (string * string);
  et_bitmask : bool;
}.

Fixpoint assoc {A} (k : string) (l : list (string * A)) : option A :=
  match l with
  | [] => None
  | (k', a) :: l => if String.eqb k k' then Some a else assoc k l
  end.

(** A map literal with its keys resolved to the values of the constants. *)
Definition resolve (consts : list (string * Z)) (names : list (string * string)) : list (Z * string) :=
  omap (λ '(c, n), (λ v, (v, n)) <$> assoc c consts) names.

Definition et_entries (et : EnumType) : list (Z * string) := resolve (et_consts et) (et_names et).

(** [New<Type>Enum()] *)
Definition et_Enum `{TitleCaser} (et : EnumType) : Enum :=
  registerAll (blankEnum (et_bitmask et)) (et_entries et).

(** The three methods of every generated type. *)
Definition EnumType_String `{TitleCaser} (et : EnumType) (v : Z) : string :=
  if et_bitmask et then FormatInt (i32 v) (Some (Enum_EnumMap (et_Enum et)))
  else FormatEnum v (Some (Enum_EnumMap (et_Enum et))).

Definition EnumType_MarshalText `{TitleCaser} (et : EnumType) (v : Z) : list byte :=
  String.list_byte_of_string (EnumType_String et v).

Definition EnumType_MarshalTTLV (et : EnumType) (h : encBuf) (tag v : Z) : encBuf :=
  if et_bitmask et then encodeInt h tag (i32 v) else encodeEnum h tag v.

(** A generated package: the tags it registers and the enumerations it
    registers for tags, by tag name. *)
Record Package := mkPackage {
  pkg_tagConsts : list (string * Z);
  pkg_tagNames : list (string * string);
  pkg_enums : list (string * EnumType);
}.

Definition pkg_tags (p : Package) : list (Z * string) := resolve (pkg_tagConsts p) (pkg_tagNames p).

(** The second loop of [RegisterGeneratedDefinitions]: the tag name is parsed
    with [ttlv.DefaultRegistry], which is [r] itself when [dflt] is [None]; an
    unknown name panics. *)
Fixpoint registerEnums `{TitleCaser} (dflt : option Registry) (r : Registry)
    (l : list (string * EnumType)) : res perr Registry :=
  match l with
  | [] => Ok r
  | (tagName, et) :: l =>
      match Registry_ParseTag (default r dflt) tagName with
      | Ok tag => registerEnums dflt (Registry_RegisterEnum r tag (RefEnum (et_Enum et))) l
      | Err _ => Panic
      | Panic => Panic
      | OutOfFuel => OutOfFuel
      end
  end.

Definition RegisterGeneratedDefinitions `{TitleCaser} (dflt : option Registry) (p : Package)
    (r : Registry) : res perr Registry :=
  registerEnums dflt (foldl (λ r '(v, name), Registry_RegisterTag r v name) r (pkg_tags p))
    (pkg_enums p).

(** * Checks on the tables

    Everything below is decided by evaluation on the tables, with the ASCII
    caser; [titleCaserOk] carries the result over to the caser of the
    program. *)

(** Every identifier of the literals is a constant of the type, no constant is
    left out, values fit 32 bits, values and normalized names are distinct,
    names are words that do not start with a digit, and the caser is only
    asked about plain words. *)
Definition entriesOk (l : list (Z * string)) : bool :=
  forallb (λ '(v, n), (0 <=? v) && (v <? 2 ^ 32) &&
    properName (@NormalizeName asciiCaser n) && forallb plainWord (nameWords n)) l &&
  bool_decide (NoDup l.*1) && bool_decide (NoDup (@NormalizeName asciiCaser <$> l.*2)).

(** The identifier of a constant is the name of the type and the normalized
    name of the value. *)
Definition namingOk (prefix : string) (names : list (string * string)) : bool :=
  forallb (λ '(c, n), String.eqb c (prefix +:+ @NormalizeName asciiCaser n)) names.

Definition sameKeys (consts : list (string * Z)) (names : list (string * string)) : bool :=
  bool_decide (consts.*1 = names.*1).

Definition et_ok (et : EnumType) : bool :=
  entriesOk (et_entries et) && namingOk (et_name et) (et_names et) &&
  sameKeys (et_consts et) (et_names et).

(** * What the checks give *)

Lemma NormalizeName_fmap (tc : TitleCaser) (l : list (Z * string)) :
  titleCaserOk tc → forallb (λ '(v, n), forallb plainWord (nameWords n)) l = true →
  @NormalizeName tc <$> l.*2 = @NormalizeName asciiCaser <$> l.*2.
Proof.
  intros Htc. induction l as [|[v n] l IH]; [done|]. cbn [forallb]. intros [Hn Hl]%andb_prop.
  cbn [fmap list_fmap snd]. f_equal; [by apply NormalizeName_caser|by apply IH].
Qed.

Lemma entriesOk_inv (tc : TitleCaser) l :
  titleCaserOk tc → entriesOk l = true →
  Forall (λ '(v, n), is_u32 v ∧ properName (@NormalizeName tc n) = true) l ∧
  NoDup l.*1 ∧ NoDup (@NormalizeName tc <$> l.*2).
Proof.
  intros Htc [[Hf Hv%bool_decide_eq_true_1]%andb_prop Hn%bool_decide_eq_true_1]%andb_prop.
  split; [|split; [done|]].
  - rewrite List.forallb_forall in Hf. apply List.Forall_forall. intros [v n] Hin.
    specialize (Hf (v, n) Hin). cbn in Hf. apply andb_prop in Hf as [Hf Hp].
    apply andb_prop in Hf as [Hf Hw]. rewrite NormalizeName_caser by done. split; [|done].
    unfold is_u32. lia.
  - rewrite NormalizeName_fmap; [done..|]. rewrite List.forallb_forall in *.
    intros [v n] Hin. specialize (Hf (v, n) Hin). cbn in Hf. by apply andb_prop in Hf as [_ Hp].
Qed.

Lemma entriesOk_laws (tc : TitleCaser) b l :
  titleCaserOk tc → entriesOk l = true →
  EnumMapLaws (Enum_EnumMap (registerAll (blankEnum b) l)).
Proof. intros Htc Hok. destruct (entriesOk_inv tc l Htc Hok) as (? & ? & ?). by apply registerAll_laws. Qed.

Lemma et_laws (tc : TitleCaser) et :
  titleCaserOk tc → et_ok et = true → EnumMapLaws (Enum_EnumMap (et_Enum et)).
Proof.
  intros Htc [[Hok _]%andb_prop _]%andb_prop. by apply entriesOk_laws.
Qed.

(** * Registering a package *)

(** The tags the enumerations of a package are registered for, looked up by
    normalized name among registered tags. *)
Definition tagByName (l : list (Z * string)) (n : string) : option Z :=
  fst <$> List.find (λ x, String.eqb (@NormalizeName asciiCaser x.2) n) l.

Fixpoint enumTags (l : list (Z * string)) (es : list (string * EnumType))
    : option (list (Z * EnumType)) :=
  match es with
  | [] => Some []
  | (n, et) :: es => t ← tagByName l n; ps ← enumTags l es; Some ((t, et) :: ps)
  end.

(** Entries of [ps] over a map, a later one winning. *)
Definition insertEnums `{TitleCaser} (m : gmap Z EnumRef) (ps : list (Z * EnumType)) : gmap Z EnumRef :=
  foldl (λ m '(t, et), <[t := RefEnum (et_Enum et)]> m) m ps.

Definition lastFor (ps : list (Z * EnumType)) (t : Z) : option EnumType :=
  snd <$> List.find (λ x, x.1 =? t) (rev ps).

Section Register.
Context `{tc : TitleCaser}.

Lemma register_tags r l :
  foldl (λ r '(v, name), Registry_RegisterTag r v name) r l =
  mkRegistry (enums r) (registerAll (tags r) l) (types r).
Proof.
  revert r. induction l as [|[v n] l IH]; intros r; [by destruct r|]. cbn [foldl]. by rewrite IH.
Qed.

(** A registered tag is parsed from its normalized name. *)
Lemma ParseTag_registered r l n t :
  titleCaserOk tc → entriesOk l = true → tags r = registerAll (blankEnum false) l →
  tagByName l n = Some t → Registry_ParseTag r n = Ok t.
Proof.
  intros Htc Hok Htags Hby. unfold tagByName in Hby.
  destruct (List.find _ l) as [[v name]|] eqn:Hf; [|done]. cbn in Hby. injection Hby as ->.
  apply List.find_some in Hf as [Hin Heq]. apply String.eqb_eq in Heq. cbn in Heq.
  destruct (entriesOk_inv tc l Htc Hok) as (Hfa & Hv & Hn).
  pose proof (proj1 (List.Forall_forall _ _) Hfa _ Hin) as [_ Hp].
  assert (@NormalizeName tc name = n) as Hnn.
  { rewrite <- Heq. apply NormalizeName_caser; [done|].
    apply andb_prop in Hok as [[Hall _]%andb_prop _]. rewrite List.forallb_forall in Hall.
    specialize (Hall _ Hin). cbn in Hall. by apply andb_prop in Hall as [_ ?]. }
  unfold Registry_ParseTag, ParseTag. rewrite Htags. apply parseHexOrName_name; [congruence|].
  cbn. rewrite <- Hnn. rewrite (registerAll_value _ l t name); [done..|].
  by apply list_elem_of_In.
Qed.

Lemma registerEnums_eq r l es ps :
  titleCaserOk tc → entriesOk l = true → tags r = registerAll (blankEnum false) l →
  enumTags l es = Some ps →
  registerEnums None r es = Ok (mkRegistry (insertEnums (enums r) ps) (tags r) (types r)).
Proof.
  intros Htc Hok. revert r ps. induction es as [|[n et] es IH]; intros r ps Htags Hps.
  { cbn in Hps. injection Hps as <-. by destruct r. }
  cbn in Hps. destruct (tagByName l n) as [t|] eqn:Ht; [|done]. cbn in Hps.
  destruct (enumTags l es) as [ps'|] eqn:He; [|done]. injection Hps as <-.
  cbn [registerEnums default]. rewrite (ParseTag_registered r l n t) by done.
  by rewrite (IH _ ps').
Qed.

(** Registering a package on top of the tags [l]. *)
Lemma RegisterGeneratedDefinitions_eq p r l ps :
  titleCaserOk tc → tags r = registerAll (blankEnum false) l →
  entriesOk (l ++ pkg_tags p) = true →
  enumTags (l ++ pkg_tags p) (pkg_enums p) = Some ps →
  RegisterGeneratedDefinitions None p r =
  Ok (mkRegistry (insertEnums (enums r) ps) (registerAll (blankEnum false) (l ++ pkg_tags p))
        (types r)).
Proof.
  intros Htc Hr Hok Hps. unfold RegisterGeneratedDefinitions. rewrite register_tags.
  rewrite (registerEnums_eq _ (l ++ pkg_tags p) _ ps); [|done|done| |done];
    cbn [enums tags types]; by rewrite Hr, registerAll_app.
Qed.

Lemma insertEnums_lookup m ps t :
  insertEnums m ps !! t =
  match lastFor ps t with Some et => Some (RefEnum (et_Enum et)) | None => m !! t end.
Proof.
  unfold lastFor. induction ps as [|[t' et] ps IH] using rev_ind; [done|].
  unfold insertEnums in *. rewrite foldl_app, rev_app_distr. cbn.
  rewrite lookup_insert. destruct (Z.eqb_spec t' t); case_decide; try done; congruence.
Qed.

Lemma lastFor_ok ps t et :
  forallb (λ x, et_ok x.2) ps = true → lastFor ps t = Some et → et_ok et = true.
Proof.
  unfold lastFor. intros Hok. destruct (List.find _ _) as [[t' et']|] eqn:Hf; [|done].
  cbn. intros [= <-]. apply List.find_some in Hf as [Hin%List.in_rev _].
  rewrite List.forallb_forall in Hok. by apply (Hok (t', et')).
Qed.

(** A registry with the enumerations of a first package, the tags and the
    types themselves registered for two tags, and a second package on top. *)
Definition layered (ps1 ps2 : list (Z * EnumType)) (tt ty : Z) (tg tp : Enum) : Registry :=
  mkRegistry (insertEnums (<[ty := RefTypes]> (<[tt := RefTags]> (insertEnums ∅ ps1))) ps2) tg tp.

Lemma layered_EnumForTag ps1 ps2 tt ty tg tp t :
  Registry_EnumForTag (layered ps1 ps2 tt ty tg tp) t =
  match lastFor ps2 t with
  | Some et => Some (Enum_EnumMap (et_Enum et))
  | None =>
      if t =? ty then Some (Enum_EnumMap tp)
      else if t =? tt then Some (Enum_EnumMap tg)
      else (λ et, Enum_EnumMap (et_Enum et)) <$> lastFor ps1 t
  end.
Proof.
  unfold Registry_EnumForTag, layered. cbn [enums].
  rewrite insertEnums_lookup. destruct (lastFor ps2 t) as [et|]; [done|].
  rewrite !lookup_insert, insertEnums_lookup, lookup_empty.
  destruct (Z.eqb_spec t ty) as [->|]; [by case_decide|].
  rewrite decide_False by congruence.
  destruct (Z.eqb_spec t tt) as [->|]; [by case_decide|].
  rewrite decide_False by congruence. by destruct (lastFor ps1 t).
Qed.

Lemma layered_laws ps1 ps2 tt ty tg tp t m :
  titleCaserOk tc → forallb (λ x, et_ok x.2) (ps1 ++ ps2) = true →
  EnumMapLaws (Enum_EnumMap tg) → EnumMapLaws (Enum_EnumMap tp) →
  Registry_EnumForTag (layered ps1 ps2 tt ty tg tp) t = Some m → EnumMapLaws m.
Proof.
  intros Htc Hok Hg Hp. rewrite List.forallb_app in Hok. apply andb_prop in Hok as [H1 H2].
  rewrite layered_EnumForTag. destruct (lastFor ps2 t) as [et|] eqn:E2.
  { intros [= <-]. exact (et_laws tc et Htc (lastFor_ok _ _ _ H2 E2)). }
  destruct (t =? ty); [by intros [= <-]|]. destruct (t =? tt); [by intros [= <-]|].
  destruct (lastFor ps1 t) as [et|] eqn:E1; [|done].
  intros [= <-]. exact (et_laws tc et Htc (lastFor_ok _ _ _ H1 E1)).
Qed.

Lemma lastFor_In ps t et : lastFor ps t = Some et → List.In (t, et) ps.
Proof.
  unfold lastFor. destruct (List.find _ _) as [[t' et']|] eqn:Hf; [|done].
  cbn. intros [= <-]. apply List.find_some in Hf as [Hin%List.in_rev Ht].
  apply Z.eqb_eq in Ht. cbn in Ht. by subst t'.
Qed.

(** The name of a value of a generated type. *)
Lemma et_Name et v nn :
  titleCaserOk tc → et_ok et = true →
  Enum_Name (Some (et_Enum et)) v = Some nn ↔
  ∃ n, (v, n) ∈ et_entries et ∧ nn = NormalizeName n.
Proof.
  intros Htc [[Hok _]%andb_prop _]%andb_prop. cbn.
  destruct (entriesOk_inv tc _ Htc Hok) as (_ & Hv & _). split.
  - apply registerAll_blank_inv.
  - intros (n & Hin & ->). by apply registerAll_name.
Qed.

Lemma et_names_In et c n :
  et_ok et = true → (c, n) ∈ et_names et →
  c = et_name et +:+ @NormalizeName asciiCaser n ∧
  ∃ v, assoc c (et_consts et) = Some v ∧ (v, n) ∈ et_entries et.
Proof.
  intros [[_ Hnm]%andb_prop Hk]%andb_prop Hin. split.
  - unfold namingOk in Hnm. rewrite List.forallb_forall in Hnm.
    specialize (Hnm (c, n) (proj1 (list_elem_of_In _ _) Hin)). by apply String.eqb_eq in Hnm.
  - unfold sameKeys in Hk. apply bool_decide_eq_true_1 in Hk.
    assert (c ∈ (et_consts et).*1) as Hc.
    { rewrite Hk. apply list_elem_of_fmap. by exists (c, n). }
    assert (∃ v, assoc c (et_consts et) = Some v) as [v Hv].
    { clear -Hc. induction (et_consts et) as [|[k v] l IH]; cbn in Hc |- *.
      - by apply not_elem_of_nil in Hc.
      - apply elem_of_cons in Hc as [->|Hc]; [rewrite String.eqb_refl; eauto|].
        destruct (String.eqb c k); eauto. }
    exists v. split; [done|]. unfold et_entries, resolve. apply list_elem_of_omap.
    exists (c, n). split; [done|]. by rewrite Hv.
Qed.
End Register.
