(* ===== verification/Kmip14.v ===== *)
(** The KMIP 1.4 tables of src/kmip14/kmip_1_4_generated.go: the tags, the
    enumeration types with their constants and names, and the enumerations
    registered for tags. *)
From Stdlib Require Import ZArith String.
From stdpp Require Import base list strings numbers gmap.
From S2P Require Import Prelude Registry Generated.
Local Open Scope Z_scope.
Local Open Scope string_scope.

(** * Tags *)

Definition tagConsts1 : list (string * Z) := [
    ("TagActivationDate", 0x420001); ("TagApplicationData", 0x420002);
    ("TagApplicationNamespace", 0x420003); ("TagApplicationSpecificInformation", 0x420004);
    ("TagArchiveDate", 0x420005); ("TagAsynchronousCorrelationValue", 0x420006);
    ("TagAsynchronousIndicator", 0x420007); ("TagAttribute", 0x420008);
    ("TagAttributeIndex", 0x420009); ("TagAttributeName", 0x42000a);
    ("TagAttributeValue", 0x42000b); ("TagAuthentication", 0x42000c); ("TagBatchCount", 0x42000d);
    ("TagBatchErrorContinuationOption", 0x42000e); ("TagBatchItem", 0x42000f);
    ("TagBatchOrderOption", 0x420010); ("TagBlockCipherMode", 0x420011);
    ("TagCancellationResult", 0x420012); ("TagCertificate", 0x420013);
    ("TagCertificateIdentifier", 0x420014); ("TagCertificateIssuer", 0x420015);
    ("TagCertificateIssuerAlternativeName", 0x420016);
    ("TagCertificateIssuerDistinguishedName", 0x420017); ("TagCertificateRequest", 0x420018);
    ("TagCertificateRequestType", 0x420019); ("TagCertificateSubject", 0x42001a);
    ("TagCertificateSubjectAlternativeName", 0x42001b);
    ("TagCertificateSubjectDistinguishedName", 0x42001c); ("TagCertificateType", 0x42001d);
    ("TagCertificateValue", 0x42001e); ("TagCommonTemplateAttribute", 0x42001f);
    ("TagCompromiseDate", 0x420020); ("TagCompromiseOccurrenceDate", 0x420021);
    ("TagContactInformation", 0x420022); ("TagCredential", 0x420023);
    ("TagCredentialType", 0x420024); ("TagCredentialValue", 0x420025);
    ("TagCriticalityIndicator", 0x420026); ("TagCRTCoefficient", 0x420027);
    ("TagCryptographicAlgorithm", 0x420028); ("TagCryptographicDomainParameters", 0x420029);
    ("TagCryptographicLength", 0x42002a); ("TagCryptographicParameters", 0x42002b);
    ("TagCryptographicUsageMask", 0x42002c); ("TagCustomAttribute", 0x42002d); ("TagD", 0x42002e);
    ("TagDeactivationDate", 0x42002f); ("TagDerivationData", 0x420030);
    ("TagDerivationMethod", 0x420031); ("TagDerivationParameters", 0x420032);
    ("TagDestroyDate", 0x420033); ("TagDigest", 0x420034); ("TagDigestValue", 0x420035);
    ("TagEncryptionKeyInformation", 0x420036); ("TagG", 0x420037);
    ("TagHashingAlgorithm", 0x420038); ("TagInitialDate", 0x420039);
    ("TagInitializationVector", 0x42003a); ("TagIssuer", 0x42003b);
    ("TagIterationCount", 0x42003c); ("TagIVCounterNonce", 0x42003d); ("TagJ", 0x42003e);
    ("TagKey", 0x42003f); ("TagKeyBlock", 0x420040); ("TagKeyCompressionType", 0x420041);
    ("TagKeyFormatType", 0x420042); ("TagKeyMaterial", 0x420043);
    ("TagKeyPartIdentifier", 0x420044); ("TagKeyValue", 0x420045);
    ("TagKeyWrappingData", 0x420046); ("TagKeyWrappingSpecification", 0x420047);
    ("TagLastChangeDate", 0x420048); ("TagLeaseTime", 0x420049); ("TagLink", 0x42004a);
    ("TagLinkType", 0x42004b); ("TagLinkedObjectIdentifier", 0x42004c);
    ("TagMACSignature", 0x42004d); ("TagMACSignatureKeyInformation", 0x42004e);
    ("TagMaximumItems", 0x42004f); ("TagMaximumResponseSize", 0x420050);
    ("TagMessageExtension", 0x420051); ("TagModulus", 0x420052); ("TagName", 0x420053);
    ("TagNameType", 0x420054); ("TagNameValue", 0x420055); ("TagObjectGroup", 0x420056);
    ("TagObjectType", 0x420057); ("TagOffset", 0x420058); ("TagOpaqueDataType", 0x420059);
    ("TagOpaqueDataValue", 0x42005a); ("TagOpaqueObject", 0x42005b); ("TagOperation", 0x42005c);
    ("TagOperationPolicyName", 0x42005d); ("TagP", 0x42005e); ("TagPaddingMethod", 0x42005f);
    ("TagPrimeExponentP", 0x420060); ("TagPrimeExponentQ", 0x420061);
    ("TagPrimeFieldSize", 0x420062); ("TagPrivateExponent", 0x420063); ("TagPrivateKey", 0x420064);
    ("TagPrivateKeyTemplateAttribute", 0x420065); ("TagPrivateKeyUniqueIdentifier", 0x420066);
    ("TagProcessStartDate", 0x420067); ("TagProtectStopDate", 0x420068);
    ("TagProtocolVersion", 0x420069); ("TagProtocolVersionMajor", 0x42006a);
    ("TagProtocolVersionMinor", 0x42006b); ("TagPublicExponent", 0x42006c);
    ("TagPublicKey", 0x42006d); ("TagPublicKeyTemplateAttribute", 0x42006e);
    ("TagPublicKeyUniqueIdentifier", 0x42006f); ("TagPutFunction", 0x420070); ("TagQ", 0x420071);
    ("TagQString", 0x420072); ("TagQlength", 0x420073); ("TagQueryFunction", 0x420074);
    ("TagRecommendedCurve", 0x420075); ("TagReplacedUniqueIdentifier", 0x420076);
    ("TagRequestHeader", 0x420077); ("TagRequestMessage", 0x420078);
    ("TagRequestPayload", 0x420079); ("TagResponseHeader", 0x42007a);
    ("TagResponseMessage", 0x42007b); ("TagResponsePayload", 0x42007c);
    ("TagResultMessage", 0x42007d); ("TagResultReason", 0x42007e); ("TagResultStatus", 0x42007f);
    ("TagRevocationMessage", 0x420080); ("TagRevocationReason", 0x420081);
    ("TagRevocationReasonCode", 0x420082); ("TagKeyRoleType", 0x420083); ("TagSalt", 0x420084);
    ("TagSecretData", 0x420085); ("TagSecretDataType", 0x420086); ("TagSerialNumber", 0x420087);
    ("TagServerInformation", 0x420088); ("TagSplitKey", 0x420089); ("TagSplitKeyMethod", 0x42008a);
    ("TagSplitKeyParts", 0x42008b); ("TagSplitKeyThreshold", 0x42008c); ("TagState", 0x42008d);
    ("TagStorageStatusMask", 0x42008e); ("TagSymmetricKey", 0x42008f); ("TagTemplate", 0x420090);
    ("TagTemplateAttribute", 0x420091)].

Definition tagConsts2 : list (string * Z) := [
    ("TagTimeStamp", 0x420092); ("TagUniqueBatchItemID", 0x420093);
    ("TagUniqueIdentifier", 0x420094); ("TagUsageLimits", 0x420095);
    ("TagUsageLimitsCount", 0x420096); ("TagUsageLimitsTotal", 0x420097);
    ("TagUsageLimitsUnit", 0x420098); ("TagUsername", 0x420099); ("TagValidityDate", 0x42009a);
    ("TagValidityIndicator", 0x42009b); ("TagVendorExtension", 0x42009c);
    ("TagVendorIdentification", 0x42009d); ("TagWrappingMethod", 0x42009e); ("TagX", 0x42009f);
    ("TagY", 0x4200a0); ("TagPassword", 0x4200a1); ("TagDeviceIdentifier", 0x4200a2);
    ("TagEncodingOption", 0x4200a3); ("TagExtensionInformation", 0x4200a4);
    ("TagExtensionName", 0x4200a5); ("TagExtensionTag", 0x4200a6); ("TagExtensionType", 0x4200a7);
    ("TagFresh", 0x4200a8); ("TagMachineIdentifier", 0x4200a9); ("TagMediaIdentifier", 0x4200aa);
    ("TagNetworkIdentifier", 0x4200ab); ("TagObjectGroupMember", 0x4200ac);
    ("TagCertificateLength", 0x4200ad); ("TagDigitalSignatureAlgorithm", 0x4200ae);
    ("TagCertificateSerialNumber", 0x4200af); ("TagDeviceSerialNumber", 0x4200b0);
    ("TagIssuerAlternativeName", 0x4200b1); ("TagIssuerDistinguishedName", 0x4200b2);
    ("TagSubjectAlternativeName", 0x4200b3); ("TagSubjectDistinguishedName", 0x4200b4);
    ("TagX_509CertificateIdentifier", 0x4200b5); ("TagX_509CertificateIssuer", 0x4200b6);
    ("TagX_509CertificateSubject", 0x4200b7); ("TagKeyValueLocation", 0x4200b8);
    ("TagKeyValueLocationValue", 0x4200b9); ("TagKeyValueLocationType", 0x4200ba);
    ("TagKeyValuePresent", 0x4200bb); ("TagOriginalCreationDate", 0x4200bc);
    ("TagPGPKey", 0x4200bd); ("TagPGPKeyVersion", 0x4200be); ("TagAlternativeName", 0x4200bf);
    ("TagAlternativeNameValue", 0x4200c0); ("TagAlternativeNameType", 0x4200c1);
    ("TagData", 0x4200c2); ("TagSignatureData", 0x4200c3); ("TagDataLength", 0x4200c4);
    ("TagRandomIV", 0x4200c5); ("TagMACData", 0x4200c6); ("TagAttestationType", 0x4200c7);
    ("TagNonce", 0x4200c8); ("TagNonceID", 0x4200c9); ("TagNonceValue", 0x4200ca);
    ("TagAttestationMeasurement", 0x4200cb); ("TagAttestationAssertion", 0x4200cc);
    ("TagIVLength", 0x4200cd); ("TagTagLength", 0x4200ce); ("TagFixedFieldLength", 0x4200cf);
    ("TagCounterLength", 0x4200d0); ("TagInitialCounterValue", 0x4200d1);
    ("TagInvocationFieldLength", 0x4200d2); ("TagAttestationCapableIndicator", 0x4200d3);
    ("TagOffsetItems", 0x4200d4); ("TagLocatedItems", 0x4200d5); ("TagCorrelationValue", 0x4200d6);
    ("TagInitIndicator", 0x4200d7); ("TagFinalIndicator", 0x4200d8);
    ("TagRNGParameters", 0x4200d9); ("TagRNGAlgorithm", 0x4200da); ("TagDRBGAlgorithm", 0x4200db);
    ("TagFIPS186Variation", 0x4200dc); ("TagPredictionResistance", 0x4200dd);
    ("TagRandomNumberGenerator", 0x4200de); ("TagValidationInformation", 0x4200df);
    ("TagValidationAuthorityType", 0x4200e0); ("TagValidationAuthorityCountry", 0x4200e1);
    ("TagValidationAuthorityURI", 0x4200e2); ("TagValidationVersionMajor", 0x4200e3);
    ("TagValidationVersionMinor", 0x4200e4); ("TagValidationType", 0x4200e5);
    ("TagValidationLevel", 0x4200e6); ("TagValidationCertificateIdentifier", 0x4200e7);
    ("TagValidationCertificateURI", 0x4200e8); ("TagValidationVendorURI", 0x4200e9);
    ("TagValidationProfile", 0x4200ea); ("TagProfileInformation", 0x4200eb);
    ("TagProfileName", 0x4200ec); ("TagServerURI", 0x4200ed); ("TagServerPort", 0x4200ee);
    ("TagStreamingCapability", 0x4200ef); ("TagAsynchronousCapability", 0x4200f0);
    ("TagAttestationCapability", 0x4200f1); ("TagUnwrapMode", 0x4200f2);
    ("TagDestroyAction", 0x4200f3); ("TagShreddingAlgorithm", 0x4200f4); ("TagRNGMode", 0x4200f5);
    ("TagClientRegistrationMethod", 0x4200f6); ("TagCapabilityInformation", 0x4200f7);
    ("TagKeyWrapType", 0x4200f8); ("TagBatchUndoCapability", 0x4200f9);
    ("TagBatchContinueCapability", 0x4200fa); ("TagPKCS_12FriendlyName", 0x4200fb);
    ("TagDescription", 0x4200fc); ("TagComment", 0x4200fd);
    ("TagAuthenticatedEncryptionAdditionalData", 0x4200fe);
    ("TagAuthenticatedEncryptionTag", 0x4200ff); ("TagSaltLength", 0x420100);
    ("TagMaskGenerator", 0x420101); ("TagMaskGeneratorHashingAlgorithm", 0x420102);
    ("TagPSource", 0x420103); ("TagTrailerField", 0x420104);
    ("TagClientCorrelationValue", 0x420105); ("TagServerCorrelationValue", 0x420106);
    ("TagDigestedData", 0x420107); ("TagCertificateSubjectCN", 0x420108);
    ("TagCertificateSubjectO", 0x420109); ("TagCertificateSubjectOU", 0x42010a);
    ("TagCertificateSubjectEmail", 0x42010b); ("TagCertificateSubjectC", 0x42010c);
    ("TagCertificateSubjectST", 0x42010d); ("TagCertificateSubjectL", 0x42010e);
    ("TagCertificateSubjectUID", 0x42010f); ("TagCertificateSubjectSerialNumber", 0x420110);
    ("TagCertificateSubjectTitle", 0x420111); ("TagCertificateSubjectDC", 0x420112);
    ("TagCertificateSubjectDNQualifier", 0x420113); ("TagCertificateIssuerCN", 0x420114);
    ("TagCertificateIssuerO", 0x420115); ("TagCertificateIssuerOU", 0x420116);
    ("TagCertificateIssuerEmail", 0x420117); ("TagCertificateIssuerC", 0x420118);
    ("TagCertificateIssuerST", 0x420119); ("TagCertificateIssuerL", 0x42011a);
    ("TagCertificateIssuerUID", 0x42011b); ("TagCertificateIssuerSerialNumber", 0x42011c);
    ("TagCertificateIssuerTitle", 0x42011d); ("TagCertificateIssuerDC", 0x42011e);
    ("TagCertificateIssuerDNQualifier", 0x42011f); ("TagSensitive", 0x420120);
    ("TagAlwaysSensitive", 0x420121); ("TagExtractable", 0x420122)].

Definition tagConsts3 : list (string * Z) := [
    ("TagNeverExtractable", 0x420123); ("TagReplaceExisting", 0x420124)].

Definition tagNames1 : list (string * string) := [
    ("TagActivationDate", "Activation Date"); ("TagApplicationData", "Application Data");
    ("TagApplicationNamespace", "Application Namespace");
    ("TagApplicationSpecificInformation", "Application Specific Information");
    ("TagArchiveDate", "Archive Date");
    ("TagAsynchronousCorrelationValue", "Asynchronous Correlation Value");
    ("TagAsynchronousIndicator", "Asynchronous Indicator"); ("TagAttribute", "Attribute");
    ("TagAttributeIndex", "Attribute Index"); ("TagAttributeName", "Attribute Name");
    ("TagAttributeValue", "Attribute Value"); ("TagAuthentication", "Authentication");
    ("TagBatchCount", "Batch Count");
    ("TagBatchErrorContinuationOption", "Batch Error Continuation Option");
    ("TagBatchItem", "Batch Item"); ("TagBatchOrderOption", "Batch Order Option");
    ("TagBlockCipherMode", "Block Cipher Mode"); ("TagCancellationResult", "Cancellation Result");
    ("TagCertificate", "Certificate"); ("TagCertificateIdentifier", "Certificate Identifier");
    ("TagCertificateIssuer", "Certificate Issuer");
    ("TagCertificateIssuerAlternativeName", "Certificate Issuer Alternative Name");
    ("TagCertificateIssuerDistinguishedName", "Certificate Issuer Distinguished Name");
    ("TagCertificateRequest", "Certificate Request");
    ("TagCertificateRequestType", "Certificate Request Type");
    ("TagCertificateSubject", "Certificate Subject");
    ("TagCertificateSubjectAlternativeName", "Certificate Subject Alternative Name");
    ("TagCertificateSubjectDistinguishedName", "Certificate Subject Distinguished Name");
    ("TagCertificateType", "Certificate Type"); ("TagCertificateValue", "Certificate Value");
    ("TagCommonTemplateAttribute", "Common Template-Attribute");
    ("TagCompromiseDate", "Compromise  Date");
    ("TagCompromiseOccurrenceDate", "Compromise Occurrence Date");
    ("TagContactInformation", "Contact Information"); ("TagCredential", "Credential");
    ("TagCredentialType", "Credential Type"); ("TagCredentialValue", "Credential Value");
    ("TagCriticalityIndicator", "Criticality Indicator"); ("TagCRTCoefficient", "CRT Coefficient");
    ("TagCryptographicAlgorithm", "Cryptographic Algorithm");
    ("TagCryptographicDomainParameters", "Cryptographic Domain Parameters");
    ("TagCryptographicLength", "Cryptographic Length");
    ("TagCryptographicParameters", "Cryptographic Parameters");
    ("TagCryptographicUsageMask", "Cryptographic Usage Mask");
    ("TagCustomAttribute", "Custom Attribute"); ("TagD", "D");
    ("TagDeactivationDate", "Deactivation Date"); ("TagDerivationData", "Derivation Data");
    ("TagDerivationMethod", "Derivation Method");
    ("TagDerivationParameters", "Derivation Parameters"); ("TagDestroyDate", "Destroy Date");
    ("TagDigest", "Digest"); ("TagDigestValue", "Digest Value");
    ("TagEncryptionKeyInformation", "Encryption Key Information"); ("TagG", "G");
    ("TagHashingAlgorithm", "Hashing Algorithm"); ("TagInitialDate", "Initial Date");
    ("TagInitializationVector", "Initialization Vector"); ("TagIssuer", "Issuer");
    ("TagIterationCount", "Iteration Count"); ("TagIVCounterNonce", "IV/Counter/Nonce");
    ("TagJ", "J"); ("TagKey", "Key"); ("TagKeyBlock", "Key Block");
    ("TagKeyCompressionType", "Key Compression Type"); ("TagKeyFormatType", "Key Format Type");
    ("TagKeyMaterial", "Key Material"); ("TagKeyPartIdentifier", "Key Part Identifier");
    ("TagKeyValue", "Key Value"); ("TagKeyWrappingData", "Key Wrapping Data");
    ("TagKeyWrappingSpecification", "Key Wrapping Specification");
    ("TagLastChangeDate", "Last Change Date"); ("TagLeaseTime", "Lease Time"); ("TagLink", "Link");
    ("TagLinkType", "Link Type"); ("TagLinkedObjectIdentifier", "Linked Object Identifier");
    ("TagMACSignature", "MAC/Signature");
    ("TagMACSignatureKeyInformation", "MAC/Signature Key Information");
    ("TagMaximumItems", "Maximum Items"); ("TagMaximumResponseSize", "Maximum Response Size");
    ("TagMessageExtension", "Message Extension"); ("TagModulus", "Modulus"); ("TagName", "Name");
    ("TagNameType", "Name Type"); ("TagNameValue", "Name Value");
    ("TagObjectGroup", "Object Group"); ("TagObjectType", "Object Type"); ("TagOffset", "Offset");
    ("TagOpaqueDataType", "Opaque Data Type"); ("TagOpaqueDataValue", "Opaque Data Value");
    ("TagOpaqueObject", "Opaque Object"); ("TagOperation", "Operation");
    ("TagOperationPolicyName", "Operation Policy Name"); ("TagP", "P");
    ("TagPaddingMethod", "Padding Method"); ("TagPrimeExponentP", "Prime Exponent P");
    ("TagPrimeExponentQ", "Prime Exponent Q"); ("TagPrimeFieldSize", "Prime Field Size");
    ("TagPrivateExponent", "Private Exponent"); ("TagPrivateKey", "Private Key");
    ("TagPrivateKeyTemplateAttribute", "Private Key Template-Attribute");
    ("TagPrivateKeyUniqueIdentifier", "Private Key Unique Identifier");
    ("TagProcessStartDate", "Process Start Date"); ("TagProtectStopDate", "Protect Stop Date");
    ("TagProtocolVersion", "Protocol Version");
    ("TagProtocolVersionMajor", "Protocol Version Major");
    ("TagProtocolVersionMinor", "Protocol Version Minor");
    ("TagPublicExponent", "Public Exponent"); ("TagPublicKey", "Public Key");
    ("TagPublicKeyTemplateAttribute", "Public Key Template-Attribute");
    ("TagPublicKeyUniqueIdentifier", "Public Key Unique Identifier");
    ("TagPutFunction", "Put Function"); ("TagQ", "Q"); ("TagQString", "Q String");
    ("TagQlength", "Qlength"); ("TagQueryFunction", "Query Function");
    ("TagRecommendedCurve", "Recommended Curve");
    ("TagReplacedUniqueIdentifier", "Replaced Unique Identifier");
    ("TagRequestHeader", "Request Header"); ("TagRequestMessage", "Request Message");
    ("TagRequestPayload", "Request Payload"); ("TagResponseHeader", "Response Header");
    ("TagResponseMessage", "Response Message"); ("TagResponsePayload", "Response Payload");
    ("TagResultMessage", "Result Message"); ("TagResultReason", "Result Reason");
    ("TagResultStatus", "Result Status"); ("TagRevocationMessage", "Revocation Message");
    ("TagRevocationReason", "Revocation Reason");
    ("TagRevocationReasonCode", "Revocation Reason Code"); ("TagKeyRoleType", "Key Role Type");
    ("TagSalt", "Salt"); ("TagSecretData", "Secret Data");
    ("TagSecretDataType", "Secret Data Type"); ("TagSerialNumber", "Serial Number");
    ("TagServerInformation", "Server Information"); ("TagSplitKey", "Split Key");
    ("TagSplitKeyMethod", "Split Key Method"); ("TagSplitKeyParts", "Split Key Parts");
    ("TagSplitKeyThreshold", "Split Key Threshold"); ("TagState", "State");
    ("TagStorageStatusMask", "Storage Status Mask"); ("TagSymmetricKey", "Symmetric Key");
    ("TagTemplate", "Template"); ("TagTemplateAttribute", "Template-Attribute")].

Definition tagNames2 : list (string * string) := [
    ("TagTimeStamp", "Time Stamp"); ("TagUniqueBatchItemID", "Unique Batch Item ID");
    ("TagUniqueIdentifier", "Unique Identifier"); ("TagUsageLimits", "Usage Limits");
    ("TagUsageLimitsCount", "Usage Limits Count"); ("TagUsageLimitsTotal", "Usage Limits Total");
    ("TagUsageLimitsUnit", "Usage Limits Unit"); ("TagUsername", "Username");
    ("TagValidityDate", "Validity Date"); ("TagValidityIndicator", "Validity Indicator");
    ("TagVendorExtension", "Vendor Extension");
    ("TagVendorIdentification", "Vendor Identification"); ("TagWrappingMethod", "Wrapping Method");
    ("TagX", "X"); ("TagY", "Y"); ("TagPassword", "Password");
    ("TagDeviceIdentifier", "Device Identifier"); ("TagEncodingOption", "Encoding Option");
    ("TagExtensionInformation", "Extension Information"); ("TagExtensionName", "Extension Name");
    ("TagExtensionTag", "Extension Tag"); ("TagExtensionType", "Extension Type");
    ("TagFresh", "Fresh"); ("TagMachineIdentifier", "Machine Identifier");
    ("TagMediaIdentifier", "Media Identifier"); ("TagNetworkIdentifier", "Network Identifier");
    ("TagObjectGroupMember", "Object Group Member");
    ("TagCertificateLength", "Certificate Length");
    ("TagDigitalSignatureAlgorithm", "Digital Signature Algorithm");
    ("TagCertificateSerialNumber", "Certificate Serial Number");
    ("TagDeviceSerialNumber", "Device Serial Number");
    ("TagIssuerAlternativeName", "Issuer Alternative Name");
    ("TagIssuerDistinguishedName", "Issuer Distinguished Name");
    ("TagSubjectAlternativeName", "Subject Alternative Name");
    ("TagSubjectDistinguishedName", "Subject Distinguished Name");
    ("TagX_509CertificateIdentifier", "X.509 Certificate Identifier");
    ("TagX_509CertificateIssuer", "X.509 Certificate Issuer");
    ("TagX_509CertificateSubject", "X.509 Certificate Subject");
    ("TagKeyValueLocation", "Key Value Location");
    ("TagKeyValueLocationValue", "Key Value Location Value");
    ("TagKeyValueLocationType", "Key Value Location Type");
    ("TagKeyValuePresent", "Key Value Present");
    ("TagOriginalCreationDate", "Original Creation Date"); ("TagPGPKey", "PGP Key");
    ("TagPGPKeyVersion", "PGP Key Version"); ("TagAlternativeName", "Alternative Name");
    ("TagAlternativeNameValue", "Alternative Name Value");
    ("TagAlternativeNameType", "Alternative Name Type"); ("TagData", "Data");
    ("TagSignatureData", "Signature Data"); ("TagDataLength", "Data Length");
    ("TagRandomIV", "Random IV"); ("TagMACData", "MAC Data");
    ("TagAttestationType", "Attestation Type"); ("TagNonce", "Nonce"); ("TagNonceID", "Nonce ID");
    ("TagNonceValue", "Nonce Value"); ("TagAttestationMeasurement", "Attestation Measurement");
    ("TagAttestationAssertion", "Attestation Assertion"); ("TagIVLength", "IV Length");
    ("TagTagLength", "Tag Length"); ("TagFixedFieldLength", "Fixed Field Length");
    ("TagCounterLength", "Counter Length"); ("TagInitialCounterValue", "Initial Counter Value");
    ("TagInvocationFieldLength", "Invocation Field Length");
    ("TagAttestationCapableIndicator", "Attestation Capable Indicator");
    ("TagOffsetItems", "Offset Items"); ("TagLocatedItems", "Located Items");
    ("TagCorrelationValue", "Correlation Value"); ("TagInitIndicator", "Init Indicator");
    ("TagFinalIndicator", "Final Indicator"); ("TagRNGParameters", "RNG Parameters");
    ("TagRNGAlgorithm", "RNG Algorithm"); ("TagDRBGAlgorithm", "DRBG Algorithm");
    ("TagFIPS186Variation", "FIPS186 Variation");
    ("TagPredictionResistance", "Prediction Resistance");
    ("TagRandomNumberGenerator", "Random Number Generator");
    ("TagValidationInformation", "Validation Information");
    ("TagValidationAuthorityType", "Validation Authority Type");
    ("TagValidationAuthorityCountry", "Validation Authority Country");
    ("TagValidationAuthorityURI", "Validation Authority URI");
    ("TagValidationVersionMajor", "Validation Version Major");
    ("TagValidationVersionMinor", "Validation Version Minor");
    ("TagValidationType", "Validation Type"); ("TagValidationLevel", "Validation Level");
    ("TagValidationCertificateIdentifier", "Validation Certificate Identifier");
    ("TagValidationCertificateURI", "Validation Certificate URI");
    ("TagValidationVendorURI", "Validation Vendor URI");
    ("TagValidationProfile", "Validation Profile");
    ("TagProfileInformation", "Profile Information"); ("TagProfileName", "Profile Name");
    ("TagServerURI", "Server URI"); ("TagServerPort", "Server Port");
    ("TagStreamingCapability", "Streaming Capability");
    ("TagAsynchronousCapability", "Asynchronous Capability");
    ("TagAttestationCapability", "Attestation Capability"); ("TagUnwrapMode", "Unwrap Mode");
    ("TagDestroyAction", "Destroy Action"); ("TagShreddingAlgorithm", "Shredding Algorithm");
    ("TagRNGMode", "RNG Mode"); ("TagClientRegistrationMethod", "Client Registration Method");
    ("TagCapabilityInformation", "Capability Information"); ("TagKeyWrapType", "Key Wrap Type");
    ("TagBatchUndoCapability", "Batch Undo Capability");
    ("TagBatchContinueCapability", "Batch Continue Capability");
    ("TagPKCS_12FriendlyName", "PKCS#12 Friendly Name"); ("TagDescription", "Description");
    ("TagComment", "Comment");
    ("TagAuthenticatedEncryptionAdditionalData", "Authenticated Encryption Additional Data");
    ("TagAuthenticatedEncryptionTag", "Authenticated Encryption Tag");
    ("TagSaltLength", "Salt Length"); ("TagMaskGenerator", "Mask Generator");
    ("TagMaskGeneratorHashingAlgorithm", "Mask Generator Hashing Algorithm");
    ("TagPSource", "P Source"); ("TagTrailerField", "Trailer Field");
    ("TagClientCorrelationValue", "Client Correlation Value");
    ("TagServerCorrelationValue", "Server Correlation Value");
    ("TagDigestedData", "Digested Data"); ("TagCertificateSubjectCN", "Certificate Subject CN");
    ("TagCertificateSubjectO", "Certificate Subject O");
    ("TagCertificateSubjectOU", "Certificate Subject OU");
    ("TagCertificateSubjectEmail", "Certificate Subject Email");
    ("TagCertificateSubjectC", "Certificate Subject C");
    ("TagCertificateSubjectST", "Certificate Subject ST");
    ("TagCertificateSubjectL", "Certificate Subject L");
    ("TagCertificateSubjectUID", "Certificate Subject UID");
    ("TagCertificateSubjectSerialNumber", "Certificate Subject Serial Number");
    ("TagCertificateSubjectTitle", "Certificate Subject Title");
    ("TagCertificateSubjectDC", "Certificate Subject DC");
    ("TagCertificateSubjectDNQualifier", "Certificate Subject DN Qualifier");
    ("TagCertificateIssuerCN", "Certificate Issuer CN");
    ("TagCertificateIssuerO", "Certificate Issuer O");
    ("TagCertificateIssuerOU", "Certificate Issuer OU");
    ("TagCertificateIssuerEmail", "Certificate Issuer Email");
    ("TagCertificateIssuerC", "Certificate Issuer C");
    ("TagCertificateIssuerST", "Certificate Issuer ST");
    ("TagCertificateIssuerL", "Certificate Issuer L");
    ("TagCertificateIssuerUID", "Certificate Issuer UID");
    ("TagCertificateIssuerSerialNumber", "Certificate Issuer Serial Number");
    ("TagCertificateIssuerTitle", "Certificate Issuer Title");
    ("TagCertificateIssuerDC", "Certificate Issuer DC");
    ("TagCertificateIssuerDNQualifier", "Certificate Issuer DN Qualifier");
    ("TagSensitive", "Sensitive"); ("TagAlwaysSensitive", "Always Sensitive");
    ("TagExtractable", "Extractable")].

Definition tagNames3 : list (string * string) := [
    ("TagNeverExtractable", "Never Extractable"); ("TagReplaceExisting", "Replace Existing")].

(** * Enumeration types *)

Definition CredentialType : EnumType := {|
  et_name := "CredentialType";
  et_consts := [
    ("CredentialTypeUsernameAndPassword", 0x00000001); ("CredentialTypeDevice", 0x00000002);
    ("CredentialTypeAttestation", 0x00000003)];
  et_names := [
    ("CredentialTypeUsernameAndPassword", "Username and Password");
    ("CredentialTypeDevice", "Device"); ("CredentialTypeAttestation", "Attestation")];
  et_bitmask := false |}.

Definition KeyCompressionType : EnumType := {|
  et_name := "KeyCompressionType";
  et_consts := [
    ("KeyCompressionTypeECPublicKeyTypeUncompressed", 0x00000001);
    ("KeyCompressionTypeECPublicKeyTypeX9_62CompressedPrime", 0x00000002);
    ("KeyCompressionTypeECPublicKeyTypeX9_62CompressedChar2", 0x00000003);
    ("KeyCompressionTypeECPublicKeyTypeX9_62Hybrid", 0x00000004)];
  et_names := [
    ("KeyCompressionTypeECPublicKeyTypeUncompressed", "EC Public Key Type Uncompressed");
    ("KeyCompressionTypeECPublicKeyTypeX9_62CompressedPrime", "EC Public Key Type X9.62 Compressed Prime");
    ("KeyCompressionTypeECPublicKeyTypeX9_62CompressedChar2", "EC Public Key Type X9.62 Compressed Char2");
    ("KeyCompressionTypeECPublicKeyTypeX9_62Hybrid", "EC Public Key Type X9.62 Hybrid")];
  et_bitmask := false |}.

Definition KeyFormatType : EnumType := {|
  et_name := "KeyFormatType";
  et_consts := [
    ("KeyFormatTypeRaw", 0x00000001); ("KeyFormatTypeOpaque", 0x00000002);
    ("KeyFormatTypePKCS_1", 0x00000003); ("KeyFormatTypePKCS_8", 0x00000004);
    ("KeyFormatTypeX_509", 0x00000005); ("KeyFormatTypeECPrivateKey", 0x00000006);
    ("KeyFormatTypeTransparentSymmetricKey", 0x00000007);
    ("KeyFormatTypeTransparentDSAPrivateKey", 0x00000008);
    ("KeyFormatTypeTransparentDSAPublicKey", 0x00000009);
    ("KeyFormatTypeTransparentRSAPrivateKey", 0x0000000a);
    ("KeyFormatTypeTransparentRSAPublicKey", 0x0000000b);
    ("KeyFormatTypeTransparentDHPrivateKey", 0x0000000c);
    ("KeyFormatTypeTransparentDHPublicKey", 0x0000000d);
    ("KeyFormatTypeTransparentECDSAPrivateKey", 0x0000000e);
    ("KeyFormatTypeTransparentECDSAPublicKey", 0x0000000f);
    ("KeyFormatTypeTransparentECDHPrivateKey", 0x00000010);
    ("KeyFormatTypeTransparentECDHPublicKey", 0x00000011);
    ("KeyFormatTypeTransparentECMQVPrivateKey", 0x00000012);
    ("KeyFormatTypeTransparentECMQVPublicKey", 0x00000013);
    ("KeyFormatTypeTransparentECPrivateKey", 0x00000014);
    ("KeyFormatTypeTransparentECPublicKey", 0x00000015); ("KeyFormatTypePKCS_12", 0x00000016)];
  et_names := [
    ("KeyFormatTypeRaw", "Raw"); ("KeyFormatTypeOpaque", "Opaque");
    ("KeyFormatTypePKCS_1", "PKCS#1"); ("KeyFormatTypePKCS_8", "PKCS#8");
    ("KeyFormatTypeX_509", "X.509"); ("KeyFormatTypeECPrivateKey", "ECPrivateKey");
    ("KeyFormatTypeTransparentSymmetricKey", "Transparent Symmetric Key");
    ("KeyFormatTypeTransparentDSAPrivateKey", "Transparent DSA Private Key");
    ("KeyFormatTypeTransparentDSAPublicKey", "Transparent DSA Public Key");
    ("KeyFormatTypeTransparentRSAPrivateKey", "Transparent RSA Private Key");
    ("KeyFormatTypeTransparentRSAPublicKey", "Transparent RSA Public Key");
    ("KeyFormatTypeTransparentDHPrivateKey", "Transparent DH Private Key");
    ("KeyFormatTypeTransparentDHPublicKey", "Transparent DH Public Key");
    ("KeyFormatTypeTransparentECDSAPrivateKey", "Transparent ECDSA Private Key");
    ("KeyFormatTypeTransparentECDSAPublicKey", "Transparent ECDSA Public Key");
    ("KeyFormatTypeTransparentECDHPrivateKey", "Transparent ECDH Private Key");
    ("KeyFormatTypeTransparentECDHPublicKey", "Transparent ECDH Public Key");
    ("KeyFormatTypeTransparentECMQVPrivateKey", "Transparent ECMQV Private Key");
    ("KeyFormatTypeTransparentECMQVPublicKey", "Transparent ECMQV Public Key");
    ("KeyFormatTypeTransparentECPrivateKey", "Transparent EC Private Key");
    ("KeyFormatTypeTransparentECPublicKey", "Transparent EC Public Key");
    ("KeyFormatTypePKCS_12", "PKCS#12")];
  et_bitmask := false |}.

Definition WrappingMethod : EnumType := {|
  et_name := "WrappingMethod";
  et_consts := [
    ("WrappingMethodEncrypt", 0x00000001); ("WrappingMethodMACSign", 0x00000002);
    ("WrappingMethodEncryptThenMACSign", 0x00000003);
    ("WrappingMethodMACSignThenEncrypt", 0x00000004); ("WrappingMethodTR_31", 0x00000005)];
  et_names := [
    ("WrappingMethodEncrypt", "Encrypt"); ("WrappingMethodMACSign", "MAC/sign");
    ("WrappingMethodEncryptThenMACSign", "Encrypt then MAC/sign");
    ("WrappingMethodMACSignThenEncrypt", "MAC/sign then encrypt"); ("WrappingMethodTR_31", "TR-31")];
  et_bitmask := false |}.

Definition RecommendedCurve : EnumType := {|
  et_name := "RecommendedCurve";
  et_consts := [
    ("RecommendedCurveP_192", 0x00000001); ("RecommendedCurveK_163", 0x00000002);
    ("RecommendedCurveB_163", 0x00000003); ("RecommendedCurveP_224", 0x00000004);
    ("RecommendedCurveK_233", 0x00000005); ("RecommendedCurveB_233", 0x00000006);
    ("RecommendedCurveP_256", 0x00000007); ("RecommendedCurveK_283", 0x00000008);
    ("RecommendedCurveB_283", 0x00000009); ("RecommendedCurveP_384", 0x0000000a);
    ("RecommendedCurveK_409", 0x0000000b); ("RecommendedCurveB_409", 0x0000000c);
    ("RecommendedCurveP_521", 0x0000000d); ("RecommendedCurveK_571", 0x0000000e);
    ("RecommendedCurveB_571", 0x0000000f); ("RecommendedCurveSECP112R1", 0x00000010);
    ("RecommendedCurveSECP112R2", 0x00000011); ("RecommendedCurveSECP128R1", 0x00000012);
    ("RecommendedCurveSECP128R2", 0x00000013); ("RecommendedCurveSECP160K1", 0x00000014);
    ("RecommendedCurveSECP160R1", 0x00000015); ("RecommendedCurveSECP160R2", 0x00000016);
    ("RecommendedCurveSECP192K1", 0x00000017); ("RecommendedCurveSECP224K1", 0x00000018);
    ("RecommendedCurveSECP256K1", 0x00000019); ("RecommendedCurveSECT113R1", 0x0000001a);
    ("RecommendedCurveSECT113R2", 0x0000001b); ("RecommendedCurveSECT131R1", 0x0000001c);
    ("RecommendedCurveSECT131R2", 0x0000001d); ("RecommendedCurveSECT163R1", 0x0000001e);
    ("RecommendedCurveSECT193R1", 0x0000001f); ("RecommendedCurveSECT193R2", 0x00000020);
    ("RecommendedCurveSECT239K1", 0x00000021); ("RecommendedCurveANSIX9P192V2", 0x00000022);
    ("RecommendedCurveANSIX9P192V3", 0x00000023); ("RecommendedCurveANSIX9P239V1", 0x00000024);
    ("RecommendedCurveANSIX9P239V2", 0x00000025); ("RecommendedCurveANSIX9P239V3", 0x00000026);
    ("RecommendedCurveANSIX9C2PNB163V1", 0x00000027);
    ("RecommendedCurveANSIX9C2PNB163V2", 0x00000028);
    ("RecommendedCurveANSIX9C2PNB163V3", 0x00000029);
    ("RecommendedCurveANSIX9C2PNB176V1", 0x0000002a);
    ("RecommendedCurveANSIX9C2TNB191V1", 0x0000002b);
    ("RecommendedCurveANSIX9C2TNB191V2", 0x0000002c);
    ("RecommendedCurveANSIX9C2TNB191V3", 0x0000002d);
    ("RecommendedCurveANSIX9C2PNB208W1", 0x0000002e);
    ("RecommendedCurveANSIX9C2TNB239V1", 0x0000002f);
    ("RecommendedCurveANSIX9C2TNB239V2", 0x00000030);
    ("RecommendedCurveANSIX9C2TNB239V3", 0x00000031);
    ("RecommendedCurveANSIX9C2PNB272W1", 0x00000032);
    ("RecommendedCurveANSIX9C2PNB304W1", 0x00000033);
    ("RecommendedCurveANSIX9C2TNB359V1", 0x00000034);
    ("RecommendedCurveANSIX9C2PNB368W1", 0x00000035);
    ("RecommendedCurveANSIX9C2TNB431R1", 0x00000036);
    ("RecommendedCurveBRAINPOOLP160R1", 0x00000037);
    ("RecommendedCurveBRAINPOOLP160T1", 0x00000038);
    ("RecommendedCurveBRAINPOOLP192R1", 0x00000039);
    ("RecommendedCurveBRAINPOOLP192T1", 0x0000003a);
    ("RecommendedCurveBRAINPOOLP224R1", 0x0000003b);
    ("RecommendedCurveBRAINPOOLP224T1", 0x0000003c);
    ("RecommendedCurveBRAINPOOLP256R1", 0x0000003d);
    ("RecommendedCurveBRAINPOOLP256T1", 0x0000003e);
    ("RecommendedCurveBRAINPOOLP320R1", 0x0000003f);
    ("RecommendedCurveBRAINPOOLP320T1", 0x00000040);
    ("RecommendedCurveBRAINPOOLP384R1", 0x00000041);
    ("RecommendedCurveBRAINPOOLP384T1", 0x00000042);
    ("RecommendedCurveBRAINPOOLP512R1", 0x00000043);
    ("RecommendedCurveBRAINPOOLP512T1", 0x00000044)];
  et_names := [
    ("RecommendedCurveP_192", "P-192"); ("RecommendedCurveK_163", "K-163");
    ("RecommendedCurveB_163", "B-163"); ("RecommendedCurveP_224", "P-224");
    ("RecommendedCurveK_233", "K-233"); ("RecommendedCurveB_233", "B-233");
    ("RecommendedCurveP_256", "P-256"); ("RecommendedCurveK_283", "K-283");
    ("RecommendedCurveB_283", "B-283"); ("RecommendedCurveP_384", "P-384");
    ("RecommendedCurveK_409", "K-409"); ("RecommendedCurveB_409", "B-409");
    ("RecommendedCurveP_521", "P-521"); ("RecommendedCurveK_571", "K-571");
    ("RecommendedCurveB_571", "B-571"); ("RecommendedCurveSECP112R1", "SECP112R1");
    ("RecommendedCurveSECP112R2", "SECP112R2"); ("RecommendedCurveSECP128R1", "SECP128R1");
    ("RecommendedCurveSECP128R2", "SECP128R2"); ("RecommendedCurveSECP160K1", "SECP160K1");
    ("RecommendedCurveSECP160R1", "SECP160R1"); ("RecommendedCurveSECP160R2", "SECP160R2");
    ("RecommendedCurveSECP192K1", "SECP192K1"); ("RecommendedCurveSECP224K1", "SECP224K1");
    ("RecommendedCurveSECP256K1", "SECP256K1"); ("RecommendedCurveSECT113R1", "SECT113R1");
    ("RecommendedCurveSECT113R2", "SECT113R2"); ("RecommendedCurveSECT131R1", "SECT131R1");
    ("RecommendedCurveSECT131R2", "SECT131R2"); ("RecommendedCurveSECT163R1", "SECT163R1");
    ("RecommendedCurveSECT193R1", "SECT193R1"); ("RecommendedCurveSECT193R2", "SECT193R2");
    ("RecommendedCurveSECT239K1", "SECT239K1"); ("RecommendedCurveANSIX9P192V2", "ANSIX9P192V2");
    ("RecommendedCurveANSIX9P192V3", "ANSIX9P192V3");
    ("RecommendedCurveANSIX9P239V1", "ANSIX9P239V1");
    ("RecommendedCurveANSIX9P239V2", "ANSIX9P239V2");
    ("RecommendedCurveANSIX9P239V3", "ANSIX9P239V3");
    ("RecommendedCurveANSIX9C2PNB163V1", "ANSIX9C2PNB163V1");
    ("RecommendedCurveANSIX9C2PNB163V2", "ANSIX9C2PNB163V2");
    ("RecommendedCurveANSIX9C2PNB163V3", "ANSIX9C2PNB163V3");
    ("RecommendedCurveANSIX9C2PNB176V1", "ANSIX9C2PNB176V1");
    ("RecommendedCurveANSIX9C2TNB191V1", "ANSIX9C2TNB191V1");
    ("RecommendedCurveANSIX9C2TNB191V2", "ANSIX9C2TNB191V2");
    ("RecommendedCurveANSIX9C2TNB191V3", "ANSIX9C2TNB191V3");
    ("RecommendedCurveANSIX9C2PNB208W1", "ANSIX9C2PNB208W1");
    ("RecommendedCurveANSIX9C2TNB239V1", "ANSIX9C2TNB239V1");
    ("RecommendedCurveANSIX9C2TNB239V2", "ANSIX9C2TNB239V2");
    ("RecommendedCurveANSIX9C2TNB239V3", "ANSIX9C2TNB239V3");
    ("RecommendedCurveANSIX9C2PNB272W1", "ANSIX9C2PNB272W1");
    ("RecommendedCurveANSIX9C2PNB304W1", "ANSIX9C2PNB304W1");
    ("RecommendedCurveANSIX9C2TNB359V1", "ANSIX9C2TNB359V1");
    ("RecommendedCurveANSIX9C2PNB368W1", "ANSIX9C2PNB368W1");
    ("RecommendedCurveANSIX9C2TNB431R1", "ANSIX9C2TNB431R1");
    ("RecommendedCurveBRAINPOOLP160R1", "BRAINPOOLP160R1");
    ("RecommendedCurveBRAINPOOLP160T1", "BRAINPOOLP160T1");
    ("RecommendedCurveBRAINPOOLP192R1", "BRAINPOOLP192R1");
    ("RecommendedCurveBRAINPOOLP192T1", "BRAINPOOLP192T1");
    ("RecommendedCurveBRAINPOOLP224R1", "BRAINPOOLP224R1");
    ("RecommendedCurveBRAINPOOLP224T1", "BRAINPOOLP224T1");
    ("RecommendedCurveBRAINPOOLP256R1", "BRAINPOOLP256R1");
    ("RecommendedCurveBRAINPOOLP256T1", "BRAINPOOLP256T1");
    ("RecommendedCurveBRAINPOOLP320R1", "BRAINPOOLP320R1");
    ("RecommendedCurveBRAINPOOLP320T1", "BRAINPOOLP320T1");
    ("RecommendedCurveBRAINPOOLP384R1", "BRAINPOOLP384R1");
    ("RecommendedCurveBRAINPOOLP384T1", "BRAINPOOLP384T1");
    ("RecommendedCurveBRAINPOOLP512R1", "BRAINPOOLP512R1");
    ("RecommendedCurveBRAINPOOLP512T1", "BRAINPOOLP512T1")];
  et_bitmask := false |}.

Definition CertificateType : EnumType := {|
  et_name := "CertificateType";
  et_consts := [
    ("CertificateTypeX_509", 0x00000001); ("CertificateTypePGP", 0x00000002)];
  et_names := [
    ("CertificateTypeX_509", "X.509"); ("CertificateTypePGP", "PGP")];
  et_bitmask := false |}.

Definition DigitalSignatureAlgorithm : EnumType := {|
  et_name := "DigitalSignatureAlgorithm";
  et_consts := [
    ("DigitalSignatureAlgorithmMD2WithRSAEncryption", 0x00000001);
    ("DigitalSignatureAlgorithmMD5WithRSAEncryption", 0x00000002);
    ("DigitalSignatureAlgorithmSHA_1WithRSAEncryption", 0x00000003);
    ("DigitalSignatureAlgorithmSHA_224WithRSAEncryption", 0x00000004);
    ("DigitalSignatureAlgorithmSHA_256WithRSAEncryption", 0x00000005);
    ("DigitalSignatureAlgorithmSHA_384WithRSAEncryption", 0x00000006);
    ("DigitalSignatureAlgorithmSHA_512WithRSAEncryption", 0x00000007);
    ("DigitalSignatureAlgorithmRSASSA_PSS", 0x00000008);
    ("DigitalSignatureAlgorithmDSAWithSHA_1", 0x00000009);
    ("DigitalSignatureAlgorithmDSAWithSHA224", 0x0000000a);
    ("DigitalSignatureAlgorithmDSAWithSHA256", 0x0000000b);
    ("DigitalSignatureAlgorithmECDSAWithSHA_1", 0x0000000c);
    ("DigitalSignatureAlgorithmECDSAWithSHA224", 0x0000000d);
    ("DigitalSignatureAlgorithmECDSAWithSHA256", 0x0000000e);
    ("DigitalSignatureAlgorithmECDSAWithSHA384", 0x0000000f);
    ("DigitalSignatureAlgorithmECDSAWithSHA512", 0x00000010);
    ("DigitalSignatureAlgorithmSHA3_256WithRSAEncryption", 0x00000011);
    ("DigitalSignatureAlgorithmSHA3_384WithRSAEncryption", 0x00000012);
    ("DigitalSignatureAlgorithmSHA3_512WithRSAEncryption", 0x00000013)];
  et_names := [
    ("DigitalSignatureAlgorithmMD2WithRSAEncryption", "MD2 with RSA Encryption");
    ("DigitalSignatureAlgorithmMD5WithRSAEncryption", "MD5 with RSA Encryption");
    ("DigitalSignatureAlgorithmSHA_1WithRSAEncryption", "SHA-1 with RSA Encryption");
    ("DigitalSignatureAlgorithmSHA_224WithRSAEncryption", "SHA-224 with RSA Encryption");
    ("DigitalSignatureAlgorithmSHA_256WithRSAEncryption", "SHA-256 with RSA Encryption");
    ("DigitalSignatureAlgorithmSHA_384WithRSAEncryption", "SHA-384 with RSA Encryption");
    ("DigitalSignatureAlgorithmSHA_512WithRSAEncryption", "SHA-512 with RSA Encryption");
    ("DigitalSignatureAlgorithmRSASSA_PSS", "RSASSA-PSS");
    ("DigitalSignatureAlgorithmDSAWithSHA_1", "DSA with SHA-1");
    ("DigitalSignatureAlgorithmDSAWithSHA224", "DSA with SHA224");
    ("DigitalSignatureAlgorithmDSAWithSHA256", "DSA with SHA256");
    ("DigitalSignatureAlgorithmECDSAWithSHA_1", "ECDSA with SHA-1");
    ("DigitalSignatureAlgorithmECDSAWithSHA224", "ECDSA with SHA224");
    ("DigitalSignatureAlgorithmECDSAWithSHA256", "ECDSA with SHA256");
    ("DigitalSignatureAlgorithmECDSAWithSHA384", "ECDSA with SHA384");
    ("DigitalSignatureAlgorithmECDSAWithSHA512", "ECDSA with SHA512");
    ("DigitalSignatureAlgorithmSHA3_256WithRSAEncryption", "SHA3-256 with RSA Encryption");
    ("DigitalSignatureAlgorithmSHA3_384WithRSAEncryption", "SHA3-384 with RSA Encryption");
    ("DigitalSignatureAlgorithmSHA3_512WithRSAEncryption", "SHA3-512 with RSA Encryption")];
  et_bitmask := false |}.

Definition SplitKeyMethod : EnumType := {|
  et_name := "SplitKeyMethod";
  et_consts := [
    ("SplitKeyMethodXOR", 0x00000001); ("SplitKeyMethodPolynomialSharingGF2_16", 0x00000002);
    ("SplitKeyMethodPolynomialSharingPrimeField", 0x00000003);
    ("SplitKeyMethodPolynomialSharingGF2_8", 0x00000004)];
  et_names := [
    ("SplitKeyMethodXOR", "XOR");
    ("SplitKeyMethodPolynomialSharingGF2_16", "Polynomial Sharing GF (2^16)");
    ("SplitKeyMethodPolynomialSharingPrimeField", "Polynomial Sharing Prime Field");
    ("SplitKeyMethodPolynomialSharingGF2_8", "Polynomial Sharing GF (2^8)")];
  et_bitmask := false |}.

Definition SecretDataType : EnumType := {|
  et_name := "SecretDataType";
  et_consts := [
    ("SecretDataTypePassword", 0x00000001); ("SecretDataTypeSeed", 0x00000002)];
  et_names := [
    ("SecretDataTypePassword", "Password"); ("SecretDataTypeSeed", "Seed")];
  et_bitmask := false |}.

Definition OpaqueDataType : EnumType := {|
  et_name := "OpaqueDataType";
  et_consts := [];
  et_names := [];
  et_bitmask := false |}.

Definition NameType : EnumType := {|
  et_name := "NameType";
  et_consts := [
    ("NameTypeUninterpretedTextString", 0x00000001); ("NameTypeURI", 0x00000002)];
  et_names := [
    ("NameTypeUninterpretedTextString", "Uninterpreted Text String"); ("NameTypeURI", "URI")];
  et_bitmask := false |}.

Definition ObjectType : EnumType := {|
  et_name := "ObjectType";
  et_consts := [
    ("ObjectTypeCertificate", 0x00000001); ("ObjectTypeSymmetricKey", 0x00000002);
    ("ObjectTypePublicKey", 0x00000003); ("ObjectTypePrivateKey", 0x00000004);
    ("ObjectTypeSplitKey", 0x00000005); ("ObjectTypeTemplate", 0x00000006);
    ("ObjectTypeSecretData", 0x00000007); ("ObjectTypeOpaqueObject", 0x00000008);
    ("ObjectTypePGPKey", 0x00000009)];
  et_names := [
    ("ObjectTypeCertificate", "Certificate"); ("ObjectTypeSymmetricKey", "Symmetric Key");
    ("ObjectTypePublicKey", "Public Key"); ("ObjectTypePrivateKey", "Private Key");
    ("ObjectTypeSplitKey", "Split Key"); ("ObjectTypeTemplate", "Template");
    ("ObjectTypeSecretData", "Secret Data"); ("ObjectTypeOpaqueObject", "Opaque Object");
    ("ObjectTypePGPKey", "PGP Key")];
  et_bitmask := false |}.

Definition CryptographicAlgorithm : EnumType := {|
  et_name := "CryptographicAlgorithm";
  et_consts := [
    ("CryptographicAlgorithmDES", 0x00000001); ("CryptographicAlgorithmDES3", 0x00000002);
    ("CryptographicAlgorithmAES", 0x00000003); ("CryptographicAlgorithmRSA", 0x00000004);
    ("CryptographicAlgorithmDSA", 0x00000005); ("CryptographicAlgorithmECDSA", 0x00000006);
    ("CryptographicAlgorithmHMAC_SHA1", 0x00000007);
    ("CryptographicAlgorithmHMAC_SHA224", 0x00000008);
    ("CryptographicAlgorithmHMAC_SHA256", 0x00000009);
    ("CryptographicAlgorithmHMAC_SHA384", 0x0000000a);
    ("CryptographicAlgorithmHMAC_SHA512", 0x0000000b);
    ("CryptographicAlgorithmHMAC_MD5", 0x0000000c); ("CryptographicAlgorithmDH", 0x0000000d);
    ("CryptographicAlgorithmECDH", 0x0000000e); ("CryptographicAlgorithmECMQV", 0x0000000f);
    ("CryptographicAlgorithmBlowfish", 0x00000010); ("CryptographicAlgorithmCamellia", 0x00000011);
    ("CryptographicAlgorithmCAST5", 0x00000012); ("CryptographicAlgorithmIDEA", 0x00000013);
    ("CryptographicAlgorithmMARS", 0x00000014); ("CryptographicAlgorithmRC2", 0x00000015);
    ("CryptographicAlgorithmRC4", 0x00000016); ("CryptographicAlgorithmRC5", 0x00000017);
    ("CryptographicAlgorithmSKIPJACK", 0x00000018); ("CryptographicAlgorithmTwofish", 0x00000019);
    ("CryptographicAlgorithmEC", 0x0000001a); ("CryptographicAlgorithmOneTimePad", 0x0000001b);
    ("CryptographicAlgorithmChaCha20", 0x0000001c); ("CryptographicAlgorithmPoly1305", 0x0000001d);
    ("CryptographicAlgorithmChaCha20Poly1305", 0x0000001e);
    ("CryptographicAlgorithmSHA3_224", 0x0000001f); ("CryptographicAlgorithmSHA3_256", 0x00000020);
    ("CryptographicAlgorithmSHA3_384", 0x00000021); ("CryptographicAlgorithmSHA3_512", 0x00000022);
    ("CryptographicAlgorithmHMAC_SHA3_224", 0x00000023);
    ("CryptographicAlgorithmHMAC_SHA3_256", 0x00000024);
    ("CryptographicAlgorithmHMAC_SHA3_384", 0x00000025);
    ("CryptographicAlgorithmHMAC_SHA3_512", 0x00000026);
    ("CryptographicAlgorithmSHAKE_128", 0x00000027);
    ("CryptographicAlgorithmSHAKE_256", 0x00000028)];
  et_names := [
    ("CryptographicAlgorithmDES", "DES"); ("CryptographicAlgorithmDES3", "3DES");
    ("CryptographicAlgorithmAES", "AES"); ("CryptographicAlgorithmRSA", "RSA");
    ("CryptographicAlgorithmDSA", "DSA"); ("CryptographicAlgorithmECDSA", "ECDSA");
    ("CryptographicAlgorithmHMAC_SHA1", "HMAC-SHA1");
    ("CryptographicAlgorithmHMAC_SHA224", "HMAC-SHA224");
    ("CryptographicAlgorithmHMAC_SHA256", "HMAC-SHA256");
    ("CryptographicAlgorithmHMAC_SHA384", "HMAC-SHA384");
    ("CryptographicAlgorithmHMAC_SHA512", "HMAC-SHA512");
    ("CryptographicAlgorithmHMAC_MD5", "HMAC-MD5"); ("CryptographicAlgorithmDH", "DH");
    ("CryptographicAlgorithmECDH", "ECDH"); ("CryptographicAlgorithmECMQV", "ECMQV");
    ("CryptographicAlgorithmBlowfish", "Blowfish"); ("CryptographicAlgorithmCamellia", "Camellia");
    ("CryptographicAlgorithmCAST5", "CAST5"); ("CryptographicAlgorithmIDEA", "IDEA");
    ("CryptographicAlgorithmMARS", "MARS"); ("CryptographicAlgorithmRC2", "RC2");
    ("CryptographicAlgorithmRC4", "RC4"); ("CryptographicAlgorithmRC5", "RC5");
    ("CryptographicAlgorithmSKIPJACK", "SKIPJACK"); ("CryptographicAlgorithmTwofish", "Twofish");
    ("CryptographicAlgorithmEC", "EC"); ("CryptographicAlgorithmOneTimePad", "One Time Pad");
    ("CryptographicAlgorithmChaCha20", "ChaCha20"); ("CryptographicAlgorithmPoly1305", "Poly1305");
    ("CryptographicAlgorithmChaCha20Poly1305", "ChaCha20Poly1305");
    ("CryptographicAlgorithmSHA3_224", "SHA3-224"); ("CryptographicAlgorithmSHA3_256", "SHA3-256");
    ("CryptographicAlgorithmSHA3_384", "SHA3-384"); ("CryptographicAlgorithmSHA3_512", "SHA3-512");
    ("CryptographicAlgorithmHMAC_SHA3_224", "HMAC-SHA3-224");
    ("CryptographicAlgorithmHMAC_SHA3_256", "HMAC-SHA3-256");
    ("CryptographicAlgorithmHMAC_SHA3_384", "HMAC-SHA3-384");
    ("CryptographicAlgorithmHMAC_SHA3_512", "HMAC-SHA3-512");
    ("CryptographicAlgorithmSHAKE_128", "SHAKE-128");
    ("CryptographicAlgorithmSHAKE_256", "SHAKE-256")];
  et_bitmask := false |}.

Definition BlockCipherMode : EnumType := {|
  et_name := "BlockCipherMode";
  et_consts := [
    ("BlockCipherModeCBC", 0x00000001); ("BlockCipherModeECB", 0x00000002);
    ("BlockCipherModePCBC", 0x00000003); ("BlockCipherModeCFB", 0x00000004);
    ("BlockCipherModeOFB", 0x00000005); ("BlockCipherModeCTR", 0x00000006);
    ("BlockCipherModeCMAC", 0x00000007); ("BlockCipherModeCCM", 0x00000008);
    ("BlockCipherModeGCM", 0x00000009); ("BlockCipherModeCBC_MAC", 0x0000000a);
    ("BlockCipherModeXTS", 0x0000000b); ("BlockCipherModeAESKeyWrapPadding", 0x0000000c);
    ("BlockCipherModeNISTKeyWrap", 0x0000000d); ("BlockCipherModeX9_102AESKW", 0x0000000e);
    ("BlockCipherModeX9_102TDKW", 0x0000000f); ("BlockCipherModeX9_102AKW1", 0x00000010);
    ("BlockCipherModeX9_102AKW2", 0x00000011); ("BlockCipherModeAEAD", 0x00000012)];
  et_names := [
    ("BlockCipherModeCBC", "CBC"); ("BlockCipherModeECB", "ECB"); ("BlockCipherModePCBC", "PCBC");
    ("BlockCipherModeCFB", "CFB"); ("BlockCipherModeOFB", "OFB"); ("BlockCipherModeCTR", "CTR");
    ("BlockCipherModeCMAC", "CMAC"); ("BlockCipherModeCCM", "CCM"); ("BlockCipherModeGCM", "GCM");
    ("BlockCipherModeCBC_MAC", "CBC-MAC"); ("BlockCipherModeXTS", "XTS");
    ("BlockCipherModeAESKeyWrapPadding", "AESKeyWrapPadding");
    ("BlockCipherModeNISTKeyWrap", "NISTKeyWrap"); ("BlockCipherModeX9_102AESKW", "X9.102 AESKW");
    ("BlockCipherModeX9_102TDKW", "X9.102 TDKW"); ("BlockCipherModeX9_102AKW1", "X9.102 AKW1");
    ("BlockCipherModeX9_102AKW2", "X9.102 AKW2"); ("BlockCipherModeAEAD", "AEAD")];
  et_bitmask := false |}.

Definition PaddingMethod : EnumType := {|
  et_name := "PaddingMethod";
  et_consts := [
    ("PaddingMethodNone", 0x00000001); ("PaddingMethodOAEP", 0x00000002);
    ("PaddingMethodPKCS5", 0x00000003); ("PaddingMethodSSL3", 0x00000004);
    ("PaddingMethodZeros", 0x00000005); ("PaddingMethodANSIX9_23", 0x00000006);
    ("PaddingMethodISO10126", 0x00000007); ("PaddingMethodPKCS1V1_5", 0x00000008);
    ("PaddingMethodX9_31", 0x00000009); ("PaddingMethodPSS", 0x0000000a)];
  et_names := [
    ("PaddingMethodNone", "None"); ("PaddingMethodOAEP", "OAEP"); ("PaddingMethodPKCS5", "PKCS5");
    ("PaddingMethodSSL3", "SSL3"); ("PaddingMethodZeros", "Zeros");
    ("PaddingMethodANSIX9_23", "ANSI X9.23"); ("PaddingMethodISO10126", "ISO 10126");
    ("PaddingMethodPKCS1V1_5", "PKCS1 v1.5"); ("PaddingMethodX9_31", "X9.31");
    ("PaddingMethodPSS", "PSS")];
  et_bitmask := false |}.

Definition HashingAlgorithm : EnumType := {|
  et_name := "HashingAlgorithm";
  et_consts := [
    ("HashingAlgorithmMD2", 0x00000001); ("HashingAlgorithmMD4", 0x00000002);
    ("HashingAlgorithmMD5", 0x00000003); ("HashingAlgorithmSHA_1", 0x00000004);
    ("HashingAlgorithmSHA_224", 0x00000005); ("HashingAlgorithmSHA_256", 0x00000006);
    ("HashingAlgorithmSHA_384", 0x00000007); ("HashingAlgorithmSHA_512", 0x00000008);
    ("HashingAlgorithmRIPEMD_160", 0x00000009); ("HashingAlgorithmTiger", 0x0000000a);
    ("HashingAlgorithmWhirlpool", 0x0000000b); ("HashingAlgorithmSHA_512_224", 0x0000000c);
    ("HashingAlgorithmSHA_512_256", 0x0000000d); ("HashingAlgorithmSHA_3_224", 0x0000000e);
    ("HashingAlgorithmSHA_3_256", 0x0000000f); ("HashingAlgorithmSHA_3_384", 0x00000010);
    ("HashingAlgorithmSHA_3_512", 0x00000011)];
  et_names := [
    ("HashingAlgorithmMD2", "MD2"); ("HashingAlgorithmMD4", "MD4"); ("HashingAlgorithmMD5", "MD5");
    ("HashingAlgorithmSHA_1", "SHA-1"); ("HashingAlgorithmSHA_224", "SHA-224");
    ("HashingAlgorithmSHA_256", "SHA-256"); ("HashingAlgorithmSHA_384", "SHA-384");
    ("HashingAlgorithmSHA_512", "SHA-512"); ("HashingAlgorithmRIPEMD_160", "RIPEMD-160");
    ("HashingAlgorithmTiger", "Tiger"); ("HashingAlgorithmWhirlpool", "Whirlpool");
    ("HashingAlgorithmSHA_512_224", "SHA-512/224"); ("HashingAlgorithmSHA_512_256", "SHA-512/256");
    ("HashingAlgorithmSHA_3_224", "SHA-3-224"); ("HashingAlgorithmSHA_3_256", "SHA-3-256");
    ("HashingAlgorithmSHA_3_384", "SHA-3-384"); ("HashingAlgorithmSHA_3_512", "SHA-3-512")];
  et_bitmask := false |}.

Definition KeyRoleType : EnumType := {|
  et_name := "KeyRoleType";
  et_consts := [
    ("KeyRoleTypeBDK", 0x00000001); ("KeyRoleTypeCVK", 0x00000002); ("KeyRoleTypeDEK", 0x00000003);
    ("KeyRoleTypeMKAC", 0x00000004); ("KeyRoleTypeMKSMC", 0x00000005);
    ("KeyRoleTypeMKSMI", 0x00000006); ("KeyRoleTypeMKDAC", 0x00000007);
    ("KeyRoleTypeMKDN", 0x00000008); ("KeyRoleTypeMKCP", 0x00000009);
    ("KeyRoleTypeMKOTH", 0x0000000a); ("KeyRoleTypeKEK", 0x0000000b);
    ("KeyRoleTypeMAC16609", 0x0000000c); ("KeyRoleTypeMAC97971", 0x0000000d);
    ("KeyRoleTypeMAC97972", 0x0000000e); ("KeyRoleTypeMAC97973", 0x0000000f);
    ("KeyRoleTypeMAC97974", 0x00000010); ("KeyRoleTypeMAC97975", 0x00000011);
    ("KeyRoleTypeZPK", 0x00000012); ("KeyRoleTypePVKIBM", 0x00000013);
    ("KeyRoleTypePVKPVV", 0x00000014); ("KeyRoleTypePVKOTH", 0x00000015);
    ("KeyRoleTypeDUKPT", 0x00000016); ("KeyRoleTypeIV", 0x00000017);
    ("KeyRoleTypeTRKBK", 0x00000018)];
  et_names := [
    ("KeyRoleTypeBDK", "BDK"); ("KeyRoleTypeCVK", "CVK"); ("KeyRoleTypeDEK", "DEK");
    ("KeyRoleTypeMKAC", "MKAC"); ("KeyRoleTypeMKSMC", "MKSMC"); ("KeyRoleTypeMKSMI", "MKSMI");
    ("KeyRoleTypeMKDAC", "MKDAC"); ("KeyRoleTypeMKDN", "MKDN"); ("KeyRoleTypeMKCP", "MKCP");
    ("KeyRoleTypeMKOTH", "MKOTH"); ("KeyRoleTypeKEK", "KEK"); ("KeyRoleTypeMAC16609", "MAC16609");
    ("KeyRoleTypeMAC97971", "MAC97971"); ("KeyRoleTypeMAC97972", "MAC97972");
    ("KeyRoleTypeMAC97973", "MAC97973"); ("KeyRoleTypeMAC97974", "MAC97974");
    ("KeyRoleTypeMAC97975", "MAC97975"); ("KeyRoleTypeZPK", "ZPK");
    ("KeyRoleTypePVKIBM", "PVKIBM"); ("KeyRoleTypePVKPVV", "PVKPVV");
    ("KeyRoleTypePVKOTH", "PVKOTH"); ("KeyRoleTypeDUKPT", "DUKPT"); ("KeyRoleTypeIV", "IV");
    ("KeyRoleTypeTRKBK", "TRKBK")];
  et_bitmask := false |}.

Definition State : EnumType := {|
  et_name := "State";
  et_consts := [
    ("StatePreActive", 0x00000001); ("StateActive", 0x00000002); ("StateDeactivated", 0x00000003);
    ("StateCompromised", 0x00000004); ("StateDestroyed", 0x00000005);
    ("StateDestroyedCompromised", 0x00000006)];
  et_names := [
    ("StatePreActive", "Pre-Active"); ("StateActive", "Active");
    ("StateDeactivated", "Deactivated"); ("StateCompromised", "Compromised");
    ("StateDestroyed", "Destroyed"); ("StateDestroyedCompromised", "Destroyed Compromised")];
  et_bitmask := false |}.

Definition RevocationReasonCode : EnumType := {|
  et_name := "RevocationReasonCode";
  et_consts := [
    ("RevocationReasonCodeUnspecified", 0x00000001);
    ("RevocationReasonCodeKeyCompromise", 0x00000002);
    ("RevocationReasonCodeCACompromise", 0x00000003);
    ("RevocationReasonCodeAffiliationChanged", 0x00000004);
    ("RevocationReasonCodeSuperseded", 0x00000005);
    ("RevocationReasonCodeCessationOfOperation", 0x00000006);
    ("RevocationReasonCodePrivilegeWithdrawn", 0x00000007)];
  et_names := [
    ("RevocationReasonCodeUnspecified", "Unspecified");
    ("RevocationReasonCodeKeyCompromise", "Key Compromise");
    ("RevocationReasonCodeCACompromise", "CA Compromise");
    ("RevocationReasonCodeAffiliationChanged", "Affiliation Changed");
    ("RevocationReasonCodeSuperseded", "Superseded");
    ("RevocationReasonCodeCessationOfOperation", "Cessation of Operation");
    ("RevocationReasonCodePrivilegeWithdrawn", "Privilege Withdrawn")];
  et_bitmask := false |}.

Definition LinkType : EnumType := {|
  et_name := "LinkType";
  et_consts := [
    ("LinkTypeCertificateLink", 0x00000101); ("LinkTypePublicKeyLink", 0x00000102);
    ("LinkTypePrivateKeyLink", 0x00000103); ("LinkTypeDerivationBaseObjectLink", 0x00000104);
    ("LinkTypeDerivedKeyLink", 0x00000105); ("LinkTypeReplacementObjectLink", 0x00000106);
    ("LinkTypeReplacedObjectLink", 0x00000107); ("LinkTypeParentLink", 0x00000108);
    ("LinkTypeChildLink", 0x00000109); ("LinkTypePreviousLink", 0x0000010a);
    ("LinkTypeNextLink", 0x0000010b); ("LinkTypePKCS_12CertificateLink", 0x0000010c);
    ("LinkTypePKCS_12PasswordLink", 0x0000010d)];
  et_names := [
    ("LinkTypeCertificateLink", "Certificate Link"); ("LinkTypePublicKeyLink", "Public Key Link");
    ("LinkTypePrivateKeyLink", "Private Key Link");
    ("LinkTypeDerivationBaseObjectLink", "Derivation Base Object Link");
    ("LinkTypeDerivedKeyLink", "Derived Key Link");
    ("LinkTypeReplacementObjectLink", "Replacement Object Link");
    ("LinkTypeReplacedObjectLink", "Replaced Object Link"); ("LinkTypeParentLink", "Parent Link");
    ("LinkTypeChildLink", "Child Link"); ("LinkTypePreviousLink", "Previous Link");
    ("LinkTypeNextLink", "Next Link");
    ("LinkTypePKCS_12CertificateLink", "PKCS#12 Certificate Link");
    ("LinkTypePKCS_12PasswordLink", "PKCS#12 Password Link")];
  et_bitmask := false |}.

Definition DerivationMethod : EnumType := {|
  et_name := "DerivationMethod";
  et_consts := [
    ("DerivationMethodPBKDF2", 0x00000001); ("DerivationMethodHASH", 0x00000002);
    ("DerivationMethodHMAC", 0x00000003); ("DerivationMethodENCRYPT", 0x00000004);
    ("DerivationMethodNIST800_108_C", 0x00000005); ("DerivationMethodNIST800_108_F", 0x00000006);
    ("DerivationMethodNIST800_108_DPI", 0x00000007); ("DerivationMethodAsymmetricKey", 0x00000008)];
  et_names := [
    ("DerivationMethodPBKDF2", "PBKDF2"); ("DerivationMethodHASH", "HASH");
    ("DerivationMethodHMAC", "HMAC"); ("DerivationMethodENCRYPT", "ENCRYPT");
    ("DerivationMethodNIST800_108_C", "NIST800 - 108 - C");
    ("DerivationMethodNIST800_108_F", "NIST800 - 108 - F");
    ("DerivationMethodNIST800_108_DPI", "NIST800 - 108 - DPI");
    ("DerivationMethodAsymmetricKey", "Asymmetric Key")];
  et_bitmask := false |}.

Definition CertificateRequestType : EnumType := {|
  et_name := "CertificateRequestType";
  et_consts := [
    ("CertificateRequestTypeCRMF", 0x00000001); ("CertificateRequestTypePKCS_10", 0x00000002);
    ("CertificateRequestTypePEM", 0x00000003); ("CertificateRequestTypePGP", 0x00000004)];
  et_names := [
    ("CertificateRequestTypeCRMF", "CRMF"); ("CertificateRequestTypePKCS_10", "PKCS#10");
    ("CertificateRequestTypePEM", "PEM"); ("CertificateRequestTypePGP", "PGP")];
  et_bitmask := false |}.

Definition ValidityIndicator : EnumType := {|
  et_name := "ValidityIndicator";
  et_consts := [
    ("ValidityIndicatorValid", 0x00000001); ("ValidityIndicatorInvalid", 0x00000002);
    ("ValidityIndicatorUnknown", 0x00000003)];
  et_names := [
    ("ValidityIndicatorValid", "Valid"); ("ValidityIndicatorInvalid", "Invalid");
    ("ValidityIndicatorUnknown", "Unknown")];
  et_bitmask := false |}.

Definition QueryFunction : EnumType := {|
  et_name := "QueryFunction";
  et_consts := [
    ("QueryFunctionQueryOperations", 0x00000001); ("QueryFunctionQueryObjects", 0x00000002);
    ("QueryFunctionQueryServerInformation", 0x00000003);
    ("QueryFunctionQueryApplicationNamespaces", 0x00000004);
    ("QueryFunctionQueryExtensionList", 0x00000005);
    ("QueryFunctionQueryExtensionMap", 0x00000006);
    ("QueryFunctionQueryAttestationTypes", 0x00000007); ("QueryFunctionQueryRNGs", 0x00000008);
    ("QueryFunctionQueryValidations", 0x00000009); ("QueryFunctionQueryProfiles", 0x0000000a);
    ("QueryFunctionQueryCapabilities", 0x0000000b);
    ("QueryFunctionQueryClientRegistrationMethods", 0x0000000c)];
  et_names := [
    ("QueryFunctionQueryOperations", "Query Operations");
    ("QueryFunctionQueryObjects", "Query Objects");
    ("QueryFunctionQueryServerInformation", "Query Server Information");
    ("QueryFunctionQueryApplicationNamespaces", "Query Application Namespaces");
    ("QueryFunctionQueryExtensionList", "Query Extension List");
    ("QueryFunctionQueryExtensionMap", "Query Extension Map");
    ("QueryFunctionQueryAttestationTypes", "Query Attestation Types");
    ("QueryFunctionQueryRNGs", "Query RNGs");
    ("QueryFunctionQueryValidations", "Query Validations");
    ("QueryFunctionQueryProfiles", "Query Profiles");
    ("QueryFunctionQueryCapabilities", "Query Capabilities");
    ("QueryFunctionQueryClientRegistrationMethods", "Query Client Registration Methods")];
  et_bitmask := false |}.

Definition CancellationResult : EnumType := {|
  et_name := "CancellationResult";
  et_consts := [
    ("CancellationResultCanceled", 0x00000001); ("CancellationResultUnableToCancel", 0x00000002);
    ("CancellationResultCompleted", 0x00000003); ("CancellationResultFailed", 0x00000004);
    ("CancellationResultUnavailable", 0x00000005)];
  et_names := [
    ("CancellationResultCanceled", "Canceled");
    ("CancellationResultUnableToCancel", "Unable to Cancel");
    ("CancellationResultCompleted", "Completed"); ("CancellationResultFailed", "Failed");
    ("CancellationResultUnavailable", "Unavailable")];
  et_bitmask := false |}.

Definition PutFunction : EnumType := {|
  et_name := "PutFunction";
  et_consts := [
    ("PutFunctionNew", 0x00000001); ("PutFunctionReplace", 0x00000002)];
  et_names := [
    ("PutFunctionNew", "New"); ("PutFunctionReplace", "Replace")];
  et_bitmask := false |}.

Definition Operation : EnumType := {|
  et_name := "Operation";
  et_consts := [
    ("OperationCreate", 0x00000001); ("OperationCreateKeyPair", 0x00000002);
    ("OperationRegister", 0x00000003); ("OperationReKey", 0x00000004);
    ("OperationDeriveKey", 0x00000005); ("OperationCertify", 0x00000006);
    ("OperationReCertify", 0x00000007); ("OperationLocate", 0x00000008);
    ("OperationCheck", 0x00000009); ("OperationGet", 0x0000000a);
    ("OperationGetAttributes", 0x0000000b); ("OperationGetAttributeList", 0x0000000c);
    ("OperationAddAttribute", 0x0000000d); ("OperationModifyAttribute", 0x0000000e);
    ("OperationDeleteAttribute", 0x0000000f); ("OperationObtainLease", 0x00000010);
    ("OperationGetUsageAllocation", 0x00000011); ("OperationActivate", 0x00000012);
    ("OperationRevoke", 0x00000013); ("OperationDestroy", 0x00000014);
    ("OperationArchive", 0x00000015); ("OperationRecover", 0x00000016);
    ("OperationValidate", 0x00000017); ("OperationQuery", 0x00000018);
    ("OperationCancel", 0x00000019); ("OperationPoll", 0x0000001a);
    ("OperationNotify", 0x0000001b); ("OperationPut", 0x0000001c);
    ("OperationReKeyKeyPair", 0x0000001d); ("OperationDiscoverVersions", 0x0000001e);
    ("OperationEncrypt", 0x0000001f); ("OperationDecrypt", 0x00000020);
    ("OperationSign", 0x00000021); ("OperationSignatureVerify", 0x00000022);
    ("OperationMAC", 0x00000023); ("OperationMACVerify", 0x00000024);
    ("OperationRNGRetrieve", 0x00000025); ("OperationRNGSeed", 0x00000026);
    ("OperationHash", 0x00000027); ("OperationCreateSplitKey", 0x00000028);
    ("OperationJoinSplitKey", 0x00000029); ("OperationImport", 0x0000002a);
    ("OperationExport", 0x0000002b)];
  et_names := [
    ("OperationCreate", "Create"); ("OperationCreateKeyPair", "Create Key Pair");
    ("OperationRegister", "Register"); ("OperationReKey", "Re-key");
    ("OperationDeriveKey", "Derive Key"); ("OperationCertify", "Certify");
    ("OperationReCertify", "Re-certify"); ("OperationLocate", "Locate");
    ("OperationCheck", "Check"); ("OperationGet", "Get");
    ("OperationGetAttributes", "Get Attributes");
    ("OperationGetAttributeList", "Get Attribute List");
    ("OperationAddAttribute", "Add Attribute"); ("OperationModifyAttribute", "Modify Attribute");
    ("OperationDeleteAttribute", "Delete Attribute"); ("OperationObtainLease", "Obtain Lease");
    ("OperationGetUsageAllocation", "Get Usage Allocation"); ("OperationActivate", "Activate");
    ("OperationRevoke", "Revoke"); ("OperationDestroy", "Destroy");
    ("OperationArchive", "Archive"); ("OperationRecover", "Recover");
    ("OperationValidate", "Validate"); ("OperationQuery", "Query"); ("OperationCancel", "Cancel");
    ("OperationPoll", "Poll"); ("OperationNotify", "Notify"); ("OperationPut", "Put");
    ("OperationReKeyKeyPair", "Re-key Key Pair");
    ("OperationDiscoverVersions", "Discover Versions"); ("OperationEncrypt", "Encrypt");
    ("OperationDecrypt", "Decrypt"); ("OperationSign", "Sign");
    ("OperationSignatureVerify", "Signature Verify"); ("OperationMAC", "MAC");
    ("OperationMACVerify", "MAC Verify"); ("OperationRNGRetrieve", "RNG Retrieve");
    ("OperationRNGSeed", "RNG Seed"); ("OperationHash", "Hash");
    ("OperationCreateSplitKey", "Create Split Key"); ("OperationJoinSplitKey", "Join Split Key");
    ("OperationImport", "Import"); ("OperationExport", "Export")];
  et_bitmask := false |}.

Definition ResultStatus : EnumType := {|
  et_name := "ResultStatus";
  et_consts := [
    ("ResultStatusSuccess", 0x00000000); ("ResultStatusOperationFailed", 0x00000001);
    ("ResultStatusOperationPending", 0x00000002); ("ResultStatusOperationUndone", 0x00000003)];
  et_names := [
    ("ResultStatusSuccess", "Success"); ("ResultStatusOperationFailed", "Operation Failed");
    ("ResultStatusOperationPending", "Operation Pending");
    ("ResultStatusOperationUndone", "Operation Undone")];
  et_bitmask := false |}.

Definition ResultReason : EnumType := {|
  et_name := "ResultReason";
  et_consts := [
    ("ResultReasonItemNotFound", 0x00000001); ("ResultReasonResponseTooLarge", 0x00000002);
    ("ResultReasonAuthenticationNotSuccessful", 0x00000003);
    ("ResultReasonInvalidMessage", 0x00000004); ("ResultReasonOperationNotSupported", 0x00000005);
    ("ResultReasonMissingData", 0x00000006); ("ResultReasonInvalidField", 0x00000007);
    ("ResultReasonFeatureNotSupported", 0x00000008);
    ("ResultReasonOperationCanceledByRequester", 0x00000009);
    ("ResultReasonCryptographicFailure", 0x0000000a); ("ResultReasonIllegalOperation", 0x0000000b);
    ("ResultReasonPermissionDenied", 0x0000000c); ("ResultReasonObjectArchived", 0x0000000d);
    ("ResultReasonIndexOutOfBounds", 0x0000000e);
    ("ResultReasonApplicationNamespaceNotSupported", 0x0000000f);
    ("ResultReasonKeyFormatTypeNotSupported", 0x00000010);
    ("ResultReasonKeyCompressionTypeNotSupported", 0x00000011);
    ("ResultReasonEncodingOptionError", 0x00000012);
    ("ResultReasonKeyValueNotPresent", 0x00000013);
    ("ResultReasonAttestationRequired", 0x00000014); ("ResultReasonAttestationFailed", 0x00000015);
    ("ResultReasonSensitive", 0x00000016); ("ResultReasonNotExtractable", 0x00000017);
    ("ResultReasonObjectAlreadyExists", 0x00000018); ("ResultReasonGeneralFailure", 0x00000100)];
  et_names := [
    ("ResultReasonItemNotFound", "Item Not Found");
    ("ResultReasonResponseTooLarge", "Response Too Large");
    ("ResultReasonAuthenticationNotSuccessful", "Authentication Not Successful");
    ("ResultReasonInvalidMessage", "Invalid Message");
    ("ResultReasonOperationNotSupported", "Operation Not Supported");
    ("ResultReasonMissingData", "Missing Data"); ("ResultReasonInvalidField", "Invalid Field");
    ("ResultReasonFeatureNotSupported", "Feature Not Supported");
    ("ResultReasonOperationCanceledByRequester", "Operation Canceled By Requester");
    ("ResultReasonCryptographicFailure", "Cryptographic Failure");
    ("ResultReasonIllegalOperation", "Illegal Operation");
    ("ResultReasonPermissionDenied", "Permission Denied");
    ("ResultReasonObjectArchived", "Object archived");
    ("ResultReasonIndexOutOfBounds", "Index Out of Bounds");
    ("ResultReasonApplicationNamespaceNotSupported", "Application Namespace Not Supported");
    ("ResultReasonKeyFormatTypeNotSupported", "Key Format Type Not Supported");
    ("ResultReasonKeyCompressionTypeNotSupported", "Key Compression Type Not Supported");
    ("ResultReasonEncodingOptionError", "Encoding Option Error");
    ("ResultReasonKeyValueNotPresent", "Key Value Not Present");
    ("ResultReasonAttestationRequired", "Attestation Required");
    ("ResultReasonAttestationFailed", "Attestation Failed");
    ("ResultReasonSensitive", "Sensitive"); ("ResultReasonNotExtractable", "Not Extractable");
    ("ResultReasonObjectAlreadyExists", "Object Already Exists");
    ("ResultReasonGeneralFailure", "General Failure")];
  et_bitmask := false |}.

Definition BatchErrorContinuationOption : EnumType := {|
  et_name := "BatchErrorContinuationOption";
  et_consts := [
    ("BatchErrorContinuationOptionContinue", 0x00000001);
    ("BatchErrorContinuationOptionStop", 0x00000002);
    ("BatchErrorContinuationOptionUndo", 0x00000003)];
  et_names := [
    ("BatchErrorContinuationOptionContinue", "Continue");
    ("BatchErrorContinuationOptionStop", "Stop"); ("BatchErrorContinuationOptionUndo", "Undo")];
  et_bitmask := false |}.

Definition UsageLimitsUnit : EnumType := {|
  et_name := "UsageLimitsUnit";
  et_consts := [
    ("UsageLimitsUnitByte", 0x00000001); ("UsageLimitsUnitObject", 0x00000002)];
  et_names := [
    ("UsageLimitsUnitByte", "Byte"); ("UsageLimitsUnitObject", "Object")];
  et_bitmask := false |}.

Definition EncodingOption : EnumType := {|
  et_name := "EncodingOption";
  et_consts := [
    ("EncodingOptionNoEncoding", 0x00000001); ("EncodingOptionTTLVEncoding", 0x00000002)];
  et_names := [
    ("EncodingOptionNoEncoding", "No Encoding"); ("EncodingOptionTTLVEncoding", "TTLV Encoding")];
  et_bitmask := false |}.

Definition ObjectGroupMember : EnumType := {|
  et_name := "ObjectGroupMember";
  et_consts := [
    ("ObjectGroupMemberGroupMemberFresh", 0x00000001);
    ("ObjectGroupMemberGroupMemberDefault", 0x00000002)];
  et_names := [
    ("ObjectGroupMemberGroupMemberFresh", "Group Member Fresh");
    ("ObjectGroupMemberGroupMemberDefault", "Group Member Default")];
  et_bitmask := false |}.

Definition AlternativeNameType : EnumType := {|
  et_name := "AlternativeNameType";
  et_consts := [
    ("AlternativeNameTypeUninterpretedTextString", 0x00000001);
    ("AlternativeNameTypeURI", 0x00000002); ("AlternativeNameTypeObjectSerialNumber", 0x00000003);
    ("AlternativeNameTypeEmailAddress", 0x00000004); ("AlternativeNameTypeDNSName", 0x00000005);
    ("AlternativeNameTypeX_500DistinguishedName", 0x00000006);
    ("AlternativeNameTypeIPAddress", 0x00000007)];
  et_names := [
    ("AlternativeNameTypeUninterpretedTextString", "Uninterpreted Text String");
    ("AlternativeNameTypeURI", "URI");
    ("AlternativeNameTypeObjectSerialNumber", "Object Serial Number");
    ("AlternativeNameTypeEmailAddress", "Email Address");
    ("AlternativeNameTypeDNSName", "DNS Name");
    ("AlternativeNameTypeX_500DistinguishedName", "X.500 Distinguished Name");
    ("AlternativeNameTypeIPAddress", "IP Address")];
  et_bitmask := false |}.

Definition KeyValueLocationType : EnumType := {|
  et_name := "KeyValueLocationType";
  et_consts := [
    ("KeyValueLocationTypeUninterpretedTextString", 0x00000001);
    ("KeyValueLocationTypeURI", 0x00000002)];
  et_names := [
    ("KeyValueLocationTypeUninterpretedTextString", "Uninterpreted Text String");
    ("KeyValueLocationTypeURI", "URI")];
  et_bitmask := false |}.

Definition AttestationType : EnumType := {|
  et_name := "AttestationType";
  et_consts := [
    ("AttestationTypeTPMQuote", 0x00000001); ("AttestationTypeTCGIntegrityReport", 0x00000002);
    ("AttestationTypeSAMLAssertion", 0x00000003)];
  et_names := [
    ("AttestationTypeTPMQuote", "TPM Quote");
    ("AttestationTypeTCGIntegrityReport", "TCG Integrity Report");
    ("AttestationTypeSAMLAssertion", "SAML Assertion")];
  et_bitmask := false |}.

Definition RNGAlgorithm : EnumType := {|
  et_name := "RNGAlgorithm";
  et_consts := [
    ("RNGAlgorithmUnspecified", 0x00000001); ("RNGAlgorithmFIPS186_2", 0x00000002);
    ("RNGAlgorithmDRBG", 0x00000003); ("RNGAlgorithmNRBG", 0x00000004);
    ("RNGAlgorithmANSIX9_31", 0x00000005); ("RNGAlgorithmANSIX9_62", 0x00000006)];
  et_names := [
    ("RNGAlgorithmUnspecified", "Unspecified"); ("RNGAlgorithmFIPS186_2", "FIPS 186-2");
    ("RNGAlgorithmDRBG", "DRBG"); ("RNGAlgorithmNRBG", "NRBG");
    ("RNGAlgorithmANSIX9_31", "ANSI X9.31"); ("RNGAlgorithmANSIX9_62", "ANSI X9.62")];
  et_bitmask := false |}.

Definition DRBGAlgorithm : EnumType := {|
  et_name := "DRBGAlgorithm";
  et_consts := [
    ("DRBGAlgorithmUnspecified", 0x00000001); ("DRBGAlgorithmDual_EC", 0x00000002);
    ("DRBGAlgorithmHash", 0x00000003); ("DRBGAlgorithmHMAC", 0x00000004);
    ("DRBGAlgorithmCTR", 0x00000005)];
  et_names := [
    ("DRBGAlgorithmUnspecified", "Unspecified"); ("DRBGAlgorithmDual_EC", "Dual - EC");
    ("DRBGAlgorithmHash", "Hash"); ("DRBGAlgorithmHMAC", "HMAC"); ("DRBGAlgorithmCTR", "CTR")];
  et_bitmask := false |}.

Definition FIPS186Variation : EnumType := {|
  et_name := "FIPS186Variation";
  et_consts := [
    ("FIPS186VariationUnspecified", 0x00000001); ("FIPS186VariationGPXOriginal", 0x00000002);
    ("FIPS186VariationGPXChangeNotice", 0x00000003); ("FIPS186VariationXOriginal", 0x00000004);
    ("FIPS186VariationXChangeNotice", 0x00000005); ("FIPS186VariationKOriginal", 0x00000006);
    ("FIPS186VariationKChangeNotice", 0x00000007)];
  et_names := [
    ("FIPS186VariationUnspecified", "Unspecified");
    ("FIPS186VariationGPXOriginal", "GP x-Original");
    ("FIPS186VariationGPXChangeNotice", "GP x-Change Notice");
    ("FIPS186VariationXOriginal", "x-Original");
    ("FIPS186VariationXChangeNotice", "x-Change Notice");
    ("FIPS186VariationKOriginal", "k-Original");
    ("FIPS186VariationKChangeNotice", "k-Change Notice")];
  et_bitmask := false |}.

Definition ValidationAuthorityType : EnumType := {|
  et_name := "ValidationAuthorityType";
  et_consts := [
    ("ValidationAuthorityTypeUnspecified", 0x00000001);
    ("ValidationAuthorityTypeNISTCMVP", 0x00000002);
    ("ValidationAuthorityTypeCommonCriteria", 0x00000003)];
  et_names := [
    ("ValidationAuthorityTypeUnspecified", "Unspecified");
    ("ValidationAuthorityTypeNISTCMVP", "NIST CMVP");
    ("ValidationAuthorityTypeCommonCriteria", "Common Criteria")];
  et_bitmask := false |}.

Definition ValidationType : EnumType := {|
  et_name := "ValidationType";
  et_consts := [
    ("ValidationTypeUnspecified", 0x00000001); ("ValidationTypeHardware", 0x00000002);
    ("ValidationTypeSoftware", 0x00000003); ("ValidationTypeFirmware", 0x00000004);
    ("ValidationTypeHybrid", 0x00000005)];
  et_names := [
    ("ValidationTypeUnspecified", "Unspecified"); ("ValidationTypeHardware", "Hardware");
    ("ValidationTypeSoftware", "Software"); ("ValidationTypeFirmware", "Firmware");
    ("ValidationTypeHybrid", "Hybrid")];
  et_bitmask := false |}.

Definition ProfileName : EnumType := {|
  et_name := "ProfileName";
  et_consts := [
    ("ProfileNameBaselineServerBasicKMIPV1_2", 0x00000001);
    ("ProfileNameBaselineServerTLSV1_2KMIPV1_2", 0x00000002);
    ("ProfileNameBaselineClientBasicKMIPV1_2", 0x00000003);
    ("ProfileNameBaselineClientTLSV1_2KMIPV1_2", 0x00000004);
    ("ProfileNameCompleteServerBasicKMIPV1_2", 0x00000005);
    ("ProfileNameCompleteServerTLSV1_2KMIPV1_2", 0x00000006);
    ("ProfileNameTapeLibraryClientKMIPV1_0", 0x00000007);
    ("ProfileNameTapeLibraryClientKMIPV1_1", 0x00000008);
    ("ProfileNameTapeLibraryClientKMIPV1_2", 0x00000009);
    ("ProfileNameTapeLibraryServerKMIPV1_0", 0x0000000a);
    ("ProfileNameTapeLibraryServerKMIPV1_1", 0x0000000b);
    ("ProfileNameTapeLibraryServerKMIPV1_2", 0x0000000c);
    ("ProfileNameSymmetricKeyLifecycleClientKMIPV1_0", 0x0000000d);
    ("ProfileNameSymmetricKeyLifecycleClientKMIPV1_1", 0x0000000e);
    ("ProfileNameSymmetricKeyLifecycleClientKMIPV1_2", 0x0000000f);
    ("ProfileNameSymmetricKeyLifecycleServerKMIPV1_0", 0x00000010);
    ("ProfileNameSymmetricKeyLifecycleServerKMIPV1_1", 0x00000011);
    ("ProfileNameSymmetricKeyLifecycleServerKMIPV1_2", 0x00000012);
    ("ProfileNameAsymmetricKeyLifecycleClientKMIPV1_0", 0x00000013);
    ("ProfileNameAsymmetricKeyLifecycleClientKMIPV1_1", 0x00000014);
    ("ProfileNameAsymmetricKeyLifecycleClientKMIPV1_2", 0x00000015);
    ("ProfileNameAsymmetricKeyLifecycleServerKMIPV1_0", 0x00000016);
    ("ProfileNameAsymmetricKeyLifecycleServerKMIPV1_1", 0x00000017);
    ("ProfileNameAsymmetricKeyLifecycleServerKMIPV1_2", 0x00000018);
    ("ProfileNameBasicCryptographicClientKMIPV1_2", 0x00000019);
    ("ProfileNameBasicCryptographicServerKMIPV1_2", 0x0000001a);
    ("ProfileNameAdvancedCryptographicClientKMIPV1_2", 0x0000001b);
    ("ProfileNameAdvancedCryptographicServerKMIPV1_2", 0x0000001c);
    ("ProfileNameRNGCryptographicClientKMIPV1_2", 0x0000001d);
    ("ProfileNameRNGCryptographicServerKMIPV1_2", 0x0000001e);
    ("ProfileNameBasicSymmetricKeyFoundryClientKMIPV1_0", 0x0000001f);
    ("ProfileNameIntermediateSymmetricKeyFoundryClientKMIPV1_0", 0x00000020);
    ("ProfileNameAdvancedSymmetricKeyFoundryClientKMIPV1_0", 0x00000021);
    ("ProfileNameBasicSymmetricKeyFoundryClientKMIPV1_1", 0x00000022);
    ("ProfileNameIntermediateSymmetricKeyFoundryClientKMIPV1_1", 0x00000023);
    ("ProfileNameAdvancedSymmetricKeyFoundryClientKMIPV1_1", 0x00000024);
    ("ProfileNameBasicSymmetricKeyFoundryClientKMIPV1_2", 0x00000025);
    ("ProfileNameIntermediateSymmetricKeyFoundryClientKMIPV1_2", 0x00000026);
    ("ProfileNameAdvancedSymmetricKeyFoundryClientKMIPV1_2", 0x00000027);
    ("ProfileNameSymmetricKeyFoundryServerKMIPV1_0", 0x00000028);
    ("ProfileNameSymmetricKeyFoundryServerKMIPV1_1", 0x00000029);
    ("ProfileNameSymmetricKeyFoundryServerKMIPV1_2", 0x0000002a);
    ("ProfileNameOpaqueManagedObjectStoreClientKMIPV1_0", 0x0000002b);
    ("ProfileNameOpaqueManagedObjectStoreClientKMIPV1_1", 0x0000002c);
    ("ProfileNameOpaqueManagedObjectStoreClientKMIPV1_2", 0x0000002d);
    ("ProfileNameOpaqueManagedObjectStoreServerKMIPV1_0", 0x0000002e);
    ("ProfileNameOpaqueManagedObjectStoreServerKMIPV1_1", 0x0000002f);
    ("ProfileNameOpaqueManagedObjectStoreServerKMIPV1_2", 0x00000030);
    ("ProfileNameSuiteBMinLOS_128ClientKMIPV1_0", 0x00000031);
    ("ProfileNameSuiteBMinLOS_128ClientKMIPV1_1", 0x00000032);
    ("ProfileNameSuiteBMinLOS_128ClientKMIPV1_2", 0x00000033);
    ("ProfileNameSuiteBMinLOS_128ServerKMIPV1_0", 0x00000034);
    ("ProfileNameSuiteBMinLOS_128ServerKMIPV1_1", 0x00000035);
    ("ProfileNameSuiteBMinLOS_128ServerKMIPV1_2", 0x00000036);
    ("ProfileNameSuiteBMinLOS_192ClientKMIPV1_0", 0x00000037);
    ("ProfileNameSuiteBMinLOS_192ClientKMIPV1_1", 0x00000038);
    ("ProfileNameSuiteBMinLOS_192ClientKMIPV1_2", 0x00000039);
    ("ProfileNameSuiteBMinLOS_192ServerKMIPV1_0", 0x0000003a);
    ("ProfileNameSuiteBMinLOS_192ServerKMIPV1_1", 0x0000003b);
    ("ProfileNameSuiteBMinLOS_192ServerKMIPV1_2", 0x0000003c);
    ("ProfileNameStorageArrayWithSelfEncryptingDriveClientKMIPV1_0", 0x0000003d);
    ("ProfileNameStorageArrayWithSelfEncryptingDriveClientKMIPV1_1", 0x0000003e);
    ("ProfileNameStorageArrayWithSelfEncryptingDriveClientKMIPV1_2", 0x0000003f);
    ("ProfileNameStorageArrayWithSelfEncryptingDriveServerKMIPV1_0", 0x00000040);
    ("ProfileNameStorageArrayWithSelfEncryptingDriveServerKMIPV1_1", 0x00000041);
    ("ProfileNameStorageArrayWithSelfEncryptingDriveServerKMIPV1_2", 0x00000042);
    ("ProfileNameHTTPSClientKMIPV1_0", 0x00000043); ("ProfileNameHTTPSClientKMIPV1_1", 0x00000044);
    ("ProfileNameHTTPSClientKMIPV1_2", 0x00000045); ("ProfileNameHTTPSServerKMIPV1_0", 0x00000046);
    ("ProfileNameHTTPSServerKMIPV1_1", 0x00000047); ("ProfileNameHTTPSServerKMIPV1_2", 0x00000048);
    ("ProfileNameJSONClientKMIPV1_0", 0x00000049); ("ProfileNameJSONClientKMIPV1_1", 0x0000004a);
    ("ProfileNameJSONClientKMIPV1_2", 0x0000004b); ("ProfileNameJSONServerKMIPV1_0", 0x0000004c);
    ("ProfileNameJSONServerKMIPV1_1", 0x0000004d); ("ProfileNameJSONServerKMIPV1_2", 0x0000004e);
    ("ProfileNameXMLClientKMIPV1_0", 0x0000004f); ("ProfileNameXMLClientKMIPV1_1", 0x00000050);
    ("ProfileNameXMLClientKMIPV1_2", 0x00000051); ("ProfileNameXMLServerKMIPV1_0", 0x00000052);
    ("ProfileNameXMLServerKMIPV1_1", 0x00000053); ("ProfileNameXMLServerKMIPV1_2", 0x00000054);
    ("ProfileNameBaselineServerBasicKMIPV1_3", 0x00000055);
    ("ProfileNameBaselineServerTLSV1_2KMIPV1_3", 0x00000056);
    ("ProfileNameBaselineClientBasicKMIPV1_3", 0x00000057);
    ("ProfileNameBaselineClientTLSV1_2KMIPV1_3", 0x00000058);
    ("ProfileNameCompleteServerBasicKMIPV1_3", 0x00000059);
    ("ProfileNameCompleteServerTLSV1_2KMIPV1_3", 0x0000005a);
    ("ProfileNameTapeLibraryClientKMIPV1_3", 0x0000005b);
    ("ProfileNameTapeLibraryServerKMIPV1_3", 0x0000005c);
    ("ProfileNameSymmetricKeyLifecycleClientKMIPV1_3", 0x0000005d);
    ("ProfileNameSymmetricKeyLifecycleServerKMIPV1_3", 0x0000005e);
    ("ProfileNameAsymmetricKeyLifecycleClientKMIPV1_3", 0x0000005f);
    ("ProfileNameAsymmetricKeyLifecycleServerKMIPV1_3", 0x00000060);
    ("ProfileNameBasicCryptographicClientKMIPV1_3", 0x00000061);
    ("ProfileNameBasicCryptographicServerKMIPV1_3", 0x00000062);
    ("ProfileNameAdvancedCryptographicClientKMIPV1_3", 0x00000063);
    ("ProfileNameAdvancedCryptographicServerKMIPV1_3", 0x00000064);
    ("ProfileNameRNGCryptographicClientKMIPV1_3", 0x00000065);
    ("ProfileNameRNGCryptographicServerKMIPV1_3", 0x00000066);
    ("ProfileNameBasicSymmetricKeyFoundryClientKMIPV1_3", 0x00000067);
    ("ProfileNameIntermediateSymmetricKeyFoundryClientKMIPV1_3", 0x00000068);
    ("ProfileNameAdvancedSymmetricKeyFoundryClientKMIPV1_3", 0x00000069);
    ("ProfileNameSymmetricKeyFoundryServerKMIPV1_3", 0x0000006a);
    ("ProfileNameOpaqueManagedObjectStoreClientKMIPV1_3", 0x0000006b);
    ("ProfileNameOpaqueManagedObjectStoreServerKMIPV1_3", 0x0000006c);
    ("ProfileNameSuiteBMinLOS_128ClientKMIPV1_3", 0x0000006d);
    ("ProfileNameSuiteBMinLOS_128ServerKMIPV1_3", 0x0000006e);
    ("ProfileNameSuiteBMinLOS_192ClientKMIPV1_3", 0x0000006f);
    ("ProfileNameSuiteBMinLOS_192ServerKMIPV1_3", 0x00000070);
    ("ProfileNameStorageArrayWithSelfEncryptingDriveClientKMIPV1_3", 0x00000071);
    ("ProfileNameStorageArrayWithSelfEncryptingDriveServerKMIPV1_3", 0x00000072);
    ("ProfileNameHTTPSClientKMIPV1_3", 0x00000073); ("ProfileNameHTTPSServerKMIPV1_3", 0x00000074);
    ("ProfileNameJSONClientKMIPV1_3", 0x00000075); ("ProfileNameJSONServerKMIPV1_3", 0x00000076);
    ("ProfileNameXMLClientKMIPV1_3", 0x00000077); ("ProfileNameXMLServerKMIPV1_3", 0x00000078);
    ("ProfileNameBaselineServerBasicKMIPV1_4", 0x00000079);
    ("ProfileNameBaselineServerTLSV1_2KMIPV1_4", 0x0000007a);
    ("ProfileNameBaselineClientBasicKMIPV1_4", 0x0000007b);
    ("ProfileNameBaselineClientTLSV1_2KMIPV1_4", 0x0000007c);
    ("ProfileNameCompleteServerBasicKMIPV1_4", 0x0000007d);
    ("ProfileNameCompleteServerTLSV1_2KMIPV1_4", 0x0000007e);
    ("ProfileNameTapeLibraryClientKMIPV1_4", 0x0000007f);
    ("ProfileNameTapeLibraryServerKMIPV1_4", 0x00000080);
    ("ProfileNameSymmetricKeyLifecycleClientKMIPV1_4", 0x00000081);
    ("ProfileNameSymmetricKeyLifecycleServerKMIPV1_4", 0x00000082);
    ("ProfileNameAsymmetricKeyLifecycleClientKMIPV1_4", 0x00000083);
    ("ProfileNameAsymmetricKeyLifecycleServerKMIPV1_4", 0x00000084);
    ("ProfileNameBasicCryptographicClientKMIPV1_4", 0x00000085);
    ("ProfileNameBasicCryptographicServerKMIPV1_4", 0x00000086);
    ("ProfileNameAdvancedCryptographicClientKMIPV1_4", 0x00000087);
    ("ProfileNameAdvancedCryptographicServerKMIPV1_4", 0x00000088);
    ("ProfileNameRNGCryptographicClientKMIPV1_4", 0x00000089);
    ("ProfileNameRNGCryptographicServerKMIPV1_4", 0x0000008a);
    ("ProfileNameBasicSymmetricKeyFoundryClientKMIPV1_4", 0x0000008b);
    ("ProfileNameIntermediateSymmetricKeyFoundryClientKMIPV1_4", 0x0000008c);
    ("ProfileNameAdvancedSymmetricKeyFoundryClientKMIPV1_4", 0x0000008d);
    ("ProfileNameSymmetricKeyFoundryServerKMIPV1_4", 0x0000008e);
    ("ProfileNameOpaqueManagedObjectStoreClientKMIPV1_4", 0x0000008f);
    ("ProfileNameOpaqueManagedObjectStoreServerKMIPV1_4", 0x00000090);
    ("ProfileNameSuiteBMinLOS_128ClientKMIPV1_4", 0x00000091);
    ("ProfileNameSuiteBMinLOS_128ServerKMIPV1_4", 0x00000092);
    ("ProfileNameSuiteBMinLOS_192ClientKMIPV1_4", 0x00000093);
    ("ProfileNameSuiteBMinLOS_192ServerKMIPV1_4", 0x00000094);
    ("ProfileNameStorageArrayWithSelfEncryptingDriveClientKMIPV1_4", 0x00000095);
    ("ProfileNameStorageArrayWithSelfEncryptingDriveServerKMIPV1_4", 0x00000096);
    ("ProfileNameHTTPSClientKMIPV1_4", 0x00000097); ("ProfileNameHTTPSServerKMIPV1_4", 0x00000098);
    ("ProfileNameJSONClientKMIPV1_4", 0x00000099); ("ProfileNameJSONServerKMIPV1_4", 0x0000009a);
    ("ProfileNameXMLClientKMIPV1_4", 0x0000009b); ("ProfileNameXMLServerKMIPV1_4", 0x0000009c)];
  et_names := [
    ("ProfileNameBaselineServerBasicKMIPV1_2", "Baseline Server Basic KMIP v1.2");
    ("ProfileNameBaselineServerTLSV1_2KMIPV1_2", "Baseline Server TLS v1.2 KMIP v1.2");
    ("ProfileNameBaselineClientBasicKMIPV1_2", "Baseline Client Basic KMIP v1.2");
    ("ProfileNameBaselineClientTLSV1_2KMIPV1_2", "Baseline Client TLS v1.2 KMIP v1.2");
    ("ProfileNameCompleteServerBasicKMIPV1_2", "Complete Server Basic KMIP v1.2");
    ("ProfileNameCompleteServerTLSV1_2KMIPV1_2", "Complete Server TLS v1.2 KMIP v1.2");
    ("ProfileNameTapeLibraryClientKMIPV1_0", "Tape Library Client KMIP v1.0");
    ("ProfileNameTapeLibraryClientKMIPV1_1", "Tape Library Client KMIP v1.1");
    ("ProfileNameTapeLibraryClientKMIPV1_2", "Tape Library Client KMIP v1.2");
    ("ProfileNameTapeLibraryServerKMIPV1_0", "Tape Library Server KMIP v1.0");
    ("ProfileNameTapeLibraryServerKMIPV1_1", "Tape Library Server KMIP v1.1");
    ("ProfileNameTapeLibraryServerKMIPV1_2", "Tape Library Server KMIP v1.2");
    ("ProfileNameSymmetricKeyLifecycleClientKMIPV1_0", "Symmetric Key Lifecycle Client KMIP v1.0");
    ("ProfileNameSymmetricKeyLifecycleClientKMIPV1_1", "Symmetric Key Lifecycle Client KMIP v1.1");
    ("ProfileNameSymmetricKeyLifecycleClientKMIPV1_2", "Symmetric Key Lifecycle Client KMIP v1.2");
    ("ProfileNameSymmetricKeyLifecycleServerKMIPV1_0", "Symmetric Key Lifecycle Server KMIP v1.0");
    ("ProfileNameSymmetricKeyLifecycleServerKMIPV1_1", "Symmetric Key Lifecycle Server KMIP v1.1");
    ("ProfileNameSymmetricKeyLifecycleServerKMIPV1_2", "Symmetric Key Lifecycle Server KMIP v1.2");
    ("ProfileNameAsymmetricKeyLifecycleClientKMIPV1_0", "Asymmetric Key Lifecycle Client KMIP v1.0");
    ("ProfileNameAsymmetricKeyLifecycleClientKMIPV1_1", "Asymmetric Key Lifecycle Client KMIP v1.1");
    ("ProfileNameAsymmetricKeyLifecycleClientKMIPV1_2", "Asymmetric Key Lifecycle Client KMIP v1.2");
    ("ProfileNameAsymmetricKeyLifecycleServerKMIPV1_0", "Asymmetric Key Lifecycle Server KMIP v1.0");
    ("ProfileNameAsymmetricKeyLifecycleServerKMIPV1_1", "Asymmetric Key Lifecycle Server KMIP v1.1");
    ("ProfileNameAsymmetricKeyLifecycleServerKMIPV1_2", "Asymmetric Key Lifecycle Server KMIP v1.2");
    ("ProfileNameBasicCryptographicClientKMIPV1_2", "Basic Cryptographic Client KMIP v1.2");
    ("ProfileNameBasicCryptographicServerKMIPV1_2", "Basic Cryptographic Server KMIP v1.2");
    ("ProfileNameAdvancedCryptographicClientKMIPV1_2", "Advanced Cryptographic Client KMIP v1.2");
    ("ProfileNameAdvancedCryptographicServerKMIPV1_2", "Advanced Cryptographic Server KMIP v1.2");
    ("ProfileNameRNGCryptographicClientKMIPV1_2", "RNG Cryptographic Client KMIP v1.2");
    ("ProfileNameRNGCryptographicServerKMIPV1_2", "RNG Cryptographic Server KMIP v1.2");
    ("ProfileNameBasicSymmetricKeyFoundryClientKMIPV1_0", "Basic Symmetric Key Foundry Client KMIP v1.0");
    ("ProfileNameIntermediateSymmetricKeyFoundryClientKMIPV1_0", "Intermediate Symmetric Key Foundry Client KMIP v1.0");
    ("ProfileNameAdvancedSymmetricKeyFoundryClientKMIPV1_0", "Advanced Symmetric Key Foundry Client KMIP v1.0");
    ("ProfileNameBasicSymmetricKeyFoundryClientKMIPV1_1", "Basic Symmetric Key Foundry Client KMIP v1.1");
    ("ProfileNameIntermediateSymmetricKeyFoundryClientKMIPV1_1", "Intermediate Symmetric Key Foundry Client KMIP v1.1");
    ("ProfileNameAdvancedSymmetricKeyFoundryClientKMIPV1_1", "Advanced Symmetric Key Foundry Client KMIP v1.1");
    ("ProfileNameBasicSymmetricKeyFoundryClientKMIPV1_2", "Basic Symmetric Key Foundry Client KMIP v1.2");
    ("ProfileNameIntermediateSymmetricKeyFoundryClientKMIPV1_2", "Intermediate Symmetric Key Foundry Client KMIP v1.2");
    ("ProfileNameAdvancedSymmetricKeyFoundryClientKMIPV1_2", "Advanced Symmetric Key Foundry Client KMIP v1.2");
    ("ProfileNameSymmetricKeyFoundryServerKMIPV1_0", "Symmetric Key Foundry Server KMIP v1.0");
    ("ProfileNameSymmetricKeyFoundryServerKMIPV1_1", "Symmetric Key Foundry Server KMIP v1.1");
    ("ProfileNameSymmetricKeyFoundryServerKMIPV1_2", "Symmetric Key Foundry Server KMIP v1.2");
    ("ProfileNameOpaqueManagedObjectStoreClientKMIPV1_0", "Opaque Managed Object Store Client KMIP v1.0");
    ("ProfileNameOpaqueManagedObjectStoreClientKMIPV1_1", "Opaque Managed Object Store Client KMIP v1.1");
    ("ProfileNameOpaqueManagedObjectStoreClientKMIPV1_2", "Opaque Managed Object Store Client KMIP v1.2");
    ("ProfileNameOpaqueManagedObjectStoreServerKMIPV1_0", "Opaque Managed Object Store Server KMIP v1.0");
    ("ProfileNameOpaqueManagedObjectStoreServerKMIPV1_1", "Opaque Managed Object Store Server KMIP v1.1");
    ("ProfileNameOpaqueManagedObjectStoreServerKMIPV1_2", "Opaque Managed Object Store Server KMIP v1.2");
    ("ProfileNameSuiteBMinLOS_128ClientKMIPV1_0", "Suite B minLOS_128 Client KMIP v1.0");
    ("ProfileNameSuiteBMinLOS_128ClientKMIPV1_1", "Suite B minLOS_128 Client KMIP v1.1");
    ("ProfileNameSuiteBMinLOS_128ClientKMIPV1_2", "Suite B minLOS_128 Client KMIP v1.2");
    ("ProfileNameSuiteBMinLOS_128ServerKMIPV1_0", "Suite B minLOS_128 Server KMIP v1.0");
    ("ProfileNameSuiteBMinLOS_128ServerKMIPV1_1", "Suite B minLOS_128 Server KMIP v1.1");
    ("ProfileNameSuiteBMinLOS_128ServerKMIPV1_2", "Suite B minLOS_128 Server KMIP v1.2");
    ("ProfileNameSuiteBMinLOS_192ClientKMIPV1_0", "Suite B minLOS_192 Client KMIP v1.0");
    ("ProfileNameSuiteBMinLOS_192ClientKMIPV1_1", "Suite B minLOS_192 Client KMIP v1.1");
    ("ProfileNameSuiteBMinLOS_192ClientKMIPV1_2", "Suite B minLOS_192 Client KMIP v1.2");
    ("ProfileNameSuiteBMinLOS_192ServerKMIPV1_0", "Suite B minLOS_192 Server KMIP v1.0");
    ("ProfileNameSuiteBMinLOS_192ServerKMIPV1_1", "Suite B minLOS_192 Server KMIP v1.1");
    ("ProfileNameSuiteBMinLOS_192ServerKMIPV1_2", "Suite B minLOS_192 Server KMIP v1.2");
    ("ProfileNameStorageArrayWithSelfEncryptingDriveClientKMIPV1_0", "Storage Array with Self Encrypting Drive Client KMIP v1.0");
    ("ProfileNameStorageArrayWithSelfEncryptingDriveClientKMIPV1_1", "Storage Array with Self Encrypting Drive Client KMIP v1.1");
    ("ProfileNameStorageArrayWithSelfEncryptingDriveClientKMIPV1_2", "Storage Array with Self Encrypting Drive Client KMIP v1.2");
    ("ProfileNameStorageArrayWithSelfEncryptingDriveServerKMIPV1_0", "Storage Array with Self Encrypting Drive Server KMIP v1.0");
    ("ProfileNameStorageArrayWithSelfEncryptingDriveServerKMIPV1_1", "Storage Array with Self Encrypting Drive Server KMIP v1.1");
    ("ProfileNameStorageArrayWithSelfEncryptingDriveServerKMIPV1_2", "Storage Array with Self Encrypting Drive Server KMIP v1.2");
    ("ProfileNameHTTPSClientKMIPV1_0", "HTTPS Client KMIP v1.0");
    ("ProfileNameHTTPSClientKMIPV1_1", "HTTPS Client KMIP v1.1");
    ("ProfileNameHTTPSClientKMIPV1_2", "HTTPS Client KMIP v1.2");
    ("ProfileNameHTTPSServerKMIPV1_0", "HTTPS Server KMIP v1.0");
    ("ProfileNameHTTPSServerKMIPV1_1", "HTTPS Server KMIP v1.1");
    ("ProfileNameHTTPSServerKMIPV1_2", "HTTPS Server KMIP v1.2");
    ("ProfileNameJSONClientKMIPV1_0", "JSON Client KMIP v1.0");
    ("ProfileNameJSONClientKMIPV1_1", "JSON Client KMIP v1.1");
    ("ProfileNameJSONClientKMIPV1_2", "JSON Client KMIP v1.2");
    ("ProfileNameJSONServerKMIPV1_0", "JSON Server KMIP v1.0");
    ("ProfileNameJSONServerKMIPV1_1", "JSON Server KMIP v1.1");
    ("ProfileNameJSONServerKMIPV1_2", "JSON Server KMIP v1.2");
    ("ProfileNameXMLClientKMIPV1_0", "XML Client KMIP v1.0");
    ("ProfileNameXMLClientKMIPV1_1", "XML Client KMIP v1.1");
    ("ProfileNameXMLClientKMIPV1_2", "XML Client KMIP v1.2");
    ("ProfileNameXMLServerKMIPV1_0", "XML Server KMIP v1.0");
    ("ProfileNameXMLServerKMIPV1_1", "XML Server KMIP v1.1");
    ("ProfileNameXMLServerKMIPV1_2", "XML Server KMIP v1.2");
    ("ProfileNameBaselineServerBasicKMIPV1_3", "Baseline Server Basic KMIP v1.3");
    ("ProfileNameBaselineServerTLSV1_2KMIPV1_3", "Baseline Server TLS v1.2 KMIP v1.3");
    ("ProfileNameBaselineClientBasicKMIPV1_3", "Baseline Client Basic KMIP v1.3");
    ("ProfileNameBaselineClientTLSV1_2KMIPV1_3", "Baseline Client TLS v1.2 KMIP v1.3");
    ("ProfileNameCompleteServerBasicKMIPV1_3", "Complete Server Basic KMIP v1.3");
    ("ProfileNameCompleteServerTLSV1_2KMIPV1_3", "Complete Server TLS v1.2 KMIP v1.3");
    ("ProfileNameTapeLibraryClientKMIPV1_3", "Tape Library Client KMIP v1.3");
    ("ProfileNameTapeLibraryServerKMIPV1_3", "Tape Library Server KMIP v1.3");
    ("ProfileNameSymmetricKeyLifecycleClientKMIPV1_3", "Symmetric Key Lifecycle Client KMIP v1.3");
    ("ProfileNameSymmetricKeyLifecycleServerKMIPV1_3", "Symmetric Key Lifecycle Server KMIP v1.3");
    ("ProfileNameAsymmetricKeyLifecycleClientKMIPV1_3", "Asymmetric Key Lifecycle Client KMIP v1.3");
    ("ProfileNameAsymmetricKeyLifecycleServerKMIPV1_3", "Asymmetric Key Lifecycle Server KMIP v1.3");
    ("ProfileNameBasicCryptographicClientKMIPV1_3", "Basic Cryptographic Client KMIP v1.3");
    ("ProfileNameBasicCryptographicServerKMIPV1_3", "Basic Cryptographic Server KMIP v1.3");
    ("ProfileNameAdvancedCryptographicClientKMIPV1_3", "Advanced Cryptographic Client KMIP v1.3");
    ("ProfileNameAdvancedCryptographicServerKMIPV1_3", "Advanced Cryptographic Server KMIP v1.3");
    ("ProfileNameRNGCryptographicClientKMIPV1_3", "RNG Cryptographic Client KMIP v1.3");
    ("ProfileNameRNGCryptographicServerKMIPV1_3", "RNG Cryptographic Server KMIP v1.3");
    ("ProfileNameBasicSymmetricKeyFoundryClientKMIPV1_3", "Basic Symmetric Key Foundry Client KMIP v1.3");
    ("ProfileNameIntermediateSymmetricKeyFoundryClientKMIPV1_3", "Intermediate Symmetric Key Foundry Client KMIP v1.3");
    ("ProfileNameAdvancedSymmetricKeyFoundryClientKMIPV1_3", "Advanced Symmetric Key Foundry Client KMIP v1.3");
    ("ProfileNameSymmetricKeyFoundryServerKMIPV1_3", "Symmetric Key Foundry Server KMIP v1.3");
    ("ProfileNameOpaqueManagedObjectStoreClientKMIPV1_3", "Opaque Managed Object Store Client KMIP v1.3");
    ("ProfileNameOpaqueManagedObjectStoreServerKMIPV1_3", "Opaque Managed Object Store Server KMIP v1.3");
    ("ProfileNameSuiteBMinLOS_128ClientKMIPV1_3", "Suite B minLOS_128 Client KMIP v1.3");
    ("ProfileNameSuiteBMinLOS_128ServerKMIPV1_3", "Suite B minLOS_128 Server KMIP v1.3");
    ("ProfileNameSuiteBMinLOS_192ClientKMIPV1_3", "Suite B minLOS_192 Client KMIP v1.3");
    ("ProfileNameSuiteBMinLOS_192ServerKMIPV1_3", "Suite B minLOS_192 Server KMIP v1.3");
    ("ProfileNameStorageArrayWithSelfEncryptingDriveClientKMIPV1_3", "Storage Array with Self Encrypting Drive Client KMIP v1.3");
    ("ProfileNameStorageArrayWithSelfEncryptingDriveServerKMIPV1_3", "Storage Array with Self Encrypting Drive Server KMIP v1.3");
    ("ProfileNameHTTPSClientKMIPV1_3", "HTTPS Client KMIP v1.3");
    ("ProfileNameHTTPSServerKMIPV1_3", "HTTPS Server KMIP v1.3");
    ("ProfileNameJSONClientKMIPV1_3", "JSON Client KMIP v1.3");
    ("ProfileNameJSONServerKMIPV1_3", "JSON Server KMIP v1.3");
    ("ProfileNameXMLClientKMIPV1_3", "XML Client KMIP v1.3");
    ("ProfileNameXMLServerKMIPV1_3", "XML Server KMIP v1.3");
    ("ProfileNameBaselineServerBasicKMIPV1_4", "Baseline Server Basic KMIP v1.4");
    ("ProfileNameBaselineServerTLSV1_2KMIPV1_4", "Baseline Server TLS v1.2 KMIP v1.4");
    ("ProfileNameBaselineClientBasicKMIPV1_4", "Baseline Client Basic KMIP v1.4");
    ("ProfileNameBaselineClientTLSV1_2KMIPV1_4", "Baseline Client TLS v1.2 KMIP v1.4");
    ("ProfileNameCompleteServerBasicKMIPV1_4", "Complete Server Basic KMIP v1.4");
    ("ProfileNameCompleteServerTLSV1_2KMIPV1_4", "Complete Server TLS v1.2 KMIP v1.4");
    ("ProfileNameTapeLibraryClientKMIPV1_4", "Tape Library Client KMIP v1.4");
    ("ProfileNameTapeLibraryServerKMIPV1_4", "Tape Library Server KMIP v1.4");
    ("ProfileNameSymmetricKeyLifecycleClientKMIPV1_4", "Symmetric Key Lifecycle Client KMIP v1.4");
    ("ProfileNameSymmetricKeyLifecycleServerKMIPV1_4", "Symmetric Key Lifecycle Server KMIP v1.4");
    ("ProfileNameAsymmetricKeyLifecycleClientKMIPV1_4", "Asymmetric Key Lifecycle Client KMIP v1.4");
    ("ProfileNameAsymmetricKeyLifecycleServerKMIPV1_4", "Asymmetric Key Lifecycle Server KMIP v1.4");
    ("ProfileNameBasicCryptographicClientKMIPV1_4", "Basic Cryptographic Client KMIP v1.4");
    ("ProfileNameBasicCryptographicServerKMIPV1_4", "Basic Cryptographic Server KMIP v1.4");
    ("ProfileNameAdvancedCryptographicClientKMIPV1_4", "Advanced Cryptographic Client KMIP v1.4");
    ("ProfileNameAdvancedCryptographicServerKMIPV1_4", "Advanced Cryptographic Server KMIP v1.4");
    ("ProfileNameRNGCryptographicClientKMIPV1_4", "RNG Cryptographic Client KMIP v1.4");
    ("ProfileNameRNGCryptographicServerKMIPV1_4", "RNG Cryptographic Server KMIP v1.4");
    ("ProfileNameBasicSymmetricKeyFoundryClientKMIPV1_4", "Basic Symmetric Key Foundry Client KMIP v1.4");
    ("ProfileNameIntermediateSymmetricKeyFoundryClientKMIPV1_4", "Intermediate Symmetric Key Foundry Client KMIP v1.4");
    ("ProfileNameAdvancedSymmetricKeyFoundryClientKMIPV1_4", "Advanced Symmetric Key Foundry Client KMIP v1.4");
    ("ProfileNameSymmetricKeyFoundryServerKMIPV1_4", "Symmetric Key Foundry Server KMIP v1.4");
    ("ProfileNameOpaqueManagedObjectStoreClientKMIPV1_4", "Opaque Managed Object Store Client KMIP v1.4");
    ("ProfileNameOpaqueManagedObjectStoreServerKMIPV1_4", "Opaque Managed Object Store Server KMIP v1.4");
    ("ProfileNameSuiteBMinLOS_128ClientKMIPV1_4", "Suite B minLOS_128 Client KMIP v1.4");
    ("ProfileNameSuiteBMinLOS_128ServerKMIPV1_4", "Suite B minLOS_128 Server KMIP v1.4");
    ("ProfileNameSuiteBMinLOS_192ClientKMIPV1_4", "Suite B minLOS_192 Client KMIP v1.4");
    ("ProfileNameSuiteBMinLOS_192ServerKMIPV1_4", "Suite B minLOS_192 Server KMIP v1.4");
    ("ProfileNameStorageArrayWithSelfEncryptingDriveClientKMIPV1_4", "Storage Array with Self Encrypting Drive Client KMIP v1.4");
    ("ProfileNameStorageArrayWithSelfEncryptingDriveServerKMIPV1_4", "Storage Array with Self Encrypting Drive Server KMIP v1.4");
    ("ProfileNameHTTPSClientKMIPV1_4", "HTTPS Client KMIP v1.4");
    ("ProfileNameHTTPSServerKMIPV1_4", "HTTPS Server KMIP v1.4");
    ("ProfileNameJSONClientKMIPV1_4", "JSON Client KMIP v1.4");
    ("ProfileNameJSONServerKMIPV1_4", "JSON Server KMIP v1.4");
    ("ProfileNameXMLClientKMIPV1_4", "XML Client KMIP v1.4");
    ("ProfileNameXMLServerKMIPV1_4", "XML Server KMIP v1.4")];
  et_bitmask := false |}.

Definition UnwrapMode : EnumType := {|
  et_name := "UnwrapMode";
  et_consts := [
    ("UnwrapModeUnspecified", 0x00000001); ("UnwrapModeProcessed", 0x00000002);
    ("UnwrapModeNotProcessed", 0x00000003)];
  et_names := [
    ("UnwrapModeUnspecified", "Unspecified"); ("UnwrapModeProcessed", "Processed");
    ("UnwrapModeNotProcessed", "Not Processed")];
  et_bitmask := false |}.

Definition DestroyAction : EnumType := {|
  et_name := "DestroyAction";
  et_consts := [
    ("DestroyActionUnspecified", 0x00000001); ("DestroyActionKeyMaterialDeleted", 0x00000002);
    ("DestroyActionKeyMaterialShredded", 0x00000003); ("DestroyActionMetaDataDeleted", 0x00000004);
    ("DestroyActionMetaDataShredded", 0x00000005); ("DestroyActionDeleted", 0x00000006);
    ("DestroyActionShredded", 0x00000007)];
  et_names := [
    ("DestroyActionUnspecified", "Unspecified");
    ("DestroyActionKeyMaterialDeleted", "Key Material Deleted");
    ("DestroyActionKeyMaterialShredded", "Key Material Shredded");
    ("DestroyActionMetaDataDeleted", "Meta Data Deleted");
    ("DestroyActionMetaDataShredded", "Meta Data Shredded"); ("DestroyActionDeleted", "Deleted");
    ("DestroyActionShredded", "Shredded")];
  et_bitmask := false |}.

Definition ShreddingAlgorithm : EnumType := {|
  et_name := "ShreddingAlgorithm";
  et_consts := [
    ("ShreddingAlgorithmUnspecified", 0x00000001); ("ShreddingAlgorithmCryptographic", 0x00000002);
    ("ShreddingAlgorithmUnsupported", 0x00000003)];
  et_names := [
    ("ShreddingAlgorithmUnspecified", "Unspecified");
    ("ShreddingAlgorithmCryptographic", "Cryptographic");
    ("ShreddingAlgorithmUnsupported", "Unsupported")];
  et_bitmask := false |}.

Definition RNGMode : EnumType := {|
  et_name := "RNGMode";
  et_consts := [
    ("RNGModeUnspecified", 0x00000001); ("RNGModeSharedInstantiation", 0x00000002);
    ("RNGModeNonSharedInstantiation", 0x00000003)];
  et_names := [
    ("RNGModeUnspecified", "Unspecified"); ("RNGModeSharedInstantiation", "Shared Instantiation");
    ("RNGModeNonSharedInstantiation", "Non-Shared Instantiation")];
  et_bitmask := false |}.

Definition ClientRegistrationMethod : EnumType := {|
  et_name := "ClientRegistrationMethod";
  et_consts := [
    ("ClientRegistrationMethodUnspecified", 0x00000001);
    ("ClientRegistrationMethodServerPreGenerated", 0x00000002);
    ("ClientRegistrationMethodServerOnDemand", 0x00000003);
    ("ClientRegistrationMethodClientGenerated", 0x00000004);
    ("ClientRegistrationMethodClientRegistered", 0x00000005)];
  et_names := [
    ("ClientRegistrationMethodUnspecified", "Unspecified");
    ("ClientRegistrationMethodServerPreGenerated", "Server Pre-Generated");
    ("ClientRegistrationMethodServerOnDemand", "Server On-Demand");
    ("ClientRegistrationMethodClientGenerated", "Client Generated");
    ("ClientRegistrationMethodClientRegistered", "Client Registered")];
  et_bitmask := false |}.

Definition KeyWrapType : EnumType := {|
  et_name := "KeyWrapType";
  et_consts := [
    ("KeyWrapTypeNotWrapped", 0x00000001); ("KeyWrapTypeAsRegistered", 0x00000002)];
  et_names := [
    ("KeyWrapTypeNotWrapped", "Not Wrapped"); ("KeyWrapTypeAsRegistered", "As Registered")];
  et_bitmask := false |}.

Definition MaskGenerator : EnumType := {|
  et_name := "MaskGenerator";
  et_consts := [
    ("MaskGeneratorMGF1", 0x00000001)];
  et_names := [
    ("MaskGeneratorMGF1", "MGF1")];
  et_bitmask := false |}.

Definition CryptographicUsageMask : EnumType := {|
  et_name := "CryptographicUsageMask";
  et_consts := [
    ("CryptographicUsageMaskSign", 0x00000001); ("CryptographicUsageMaskVerify", 0x00000002);
    ("CryptographicUsageMaskEncrypt", 0x00000004); ("CryptographicUsageMaskDecrypt", 0x00000008);
    ("CryptographicUsageMaskWrapKey", 0x00000010); ("CryptographicUsageMaskUnwrapKey", 0x00000020);
    ("CryptographicUsageMaskExport", 0x00000040);
    ("CryptographicUsageMaskMACGenerate", 0x00000080);
    ("CryptographicUsageMaskMACVerify", 0x00000100);
    ("CryptographicUsageMaskDeriveKey", 0x00000200);
    ("CryptographicUsageMaskContentCommitment", 0x00000400);
    ("CryptographicUsageMaskKeyAgreement", 0x00000800);
    ("CryptographicUsageMaskCertificateSign", 0x00001000);
    ("CryptographicUsageMaskCRLSign", 0x00002000);
    ("CryptographicUsageMaskGenerateCryptogram", 0x00004000);
    ("CryptographicUsageMaskValidateCryptogram", 0x00008000);
    ("CryptographicUsageMaskTranslateEncrypt", 0x00010000);
    ("CryptographicUsageMaskTranslateDecrypt", 0x00020000);
    ("CryptographicUsageMaskTranslateWrap", 0x00040000);
    ("CryptographicUsageMaskTranslateUnwrap", 0x00080000)];
  et_names := [
    ("CryptographicUsageMaskSign", "Sign"); ("CryptographicUsageMaskVerify", "Verify");
    ("CryptographicUsageMaskEncrypt", "Encrypt"); ("CryptographicUsageMaskDecrypt", "Decrypt");
    ("CryptographicUsageMaskWrapKey", "Wrap Key");
    ("CryptographicUsageMaskUnwrapKey", "Unwrap Key"); ("CryptographicUsageMaskExport", "Export");
    ("CryptographicUsageMaskMACGenerate", "MAC Generate");
    ("CryptographicUsageMaskMACVerify", "MAC Verify");
    ("CryptographicUsageMaskDeriveKey", "Derive Key");
    ("CryptographicUsageMaskContentCommitment", "Content Commitment");
    ("CryptographicUsageMaskKeyAgreement", "Key Agreement");
    ("CryptographicUsageMaskCertificateSign", "Certificate Sign");
    ("CryptographicUsageMaskCRLSign", "CRL Sign");
    ("CryptographicUsageMaskGenerateCryptogram", "Generate Cryptogram");
    ("CryptographicUsageMaskValidateCryptogram", "Validate Cryptogram");
    ("CryptographicUsageMaskTranslateEncrypt", "Translate Encrypt");
    ("CryptographicUsageMaskTranslateDecrypt", "Translate Decrypt");
    ("CryptographicUsageMaskTranslateWrap", "Translate Wrap");
    ("CryptographicUsageMaskTranslateUnwrap", "Translate Unwrap")];
  et_bitmask := true |}.

Definition StorageStatusMask : EnumType := {|
  et_name := "StorageStatusMask";
  et_consts := [
    ("StorageStatusMaskOnLineStorage", 0x00000001);
    ("StorageStatusMaskArchivalStorage", 0x00000002)];
  et_names := [
    ("StorageStatusMaskOnLineStorage", "On-line storage");
    ("StorageStatusMaskArchivalStorage", "Archival storage")];
  et_bitmask := true |}.

(** * Registration *)

Definition enumTable : list (string * EnumType) := [
    ("CredentialType", CredentialType); ("KeyCompressionType", KeyCompressionType);
    ("KeyFormatType", KeyFormatType); ("WrappingMethod", WrappingMethod);
    ("RecommendedCurve", RecommendedCurve); ("CertificateType", CertificateType);
    ("DigitalSignatureAlgorithm", DigitalSignatureAlgorithm); ("SplitKeyMethod", SplitKeyMethod);
    ("SecretDataType", SecretDataType); ("OpaqueDataType", OpaqueDataType); ("NameType", NameType);
    ("ObjectType", ObjectType); ("CryptographicAlgorithm", CryptographicAlgorithm);
    ("BlockCipherMode", BlockCipherMode); ("PaddingMethod", PaddingMethod);
    ("HashingAlgorithm", HashingAlgorithm); ("MaskGeneratorHashingAlgorithm", HashingAlgorithm);
    ("KeyRoleType", KeyRoleType); ("State", State); ("RevocationReasonCode", RevocationReasonCode);
    ("LinkType", LinkType); ("DerivationMethod", DerivationMethod);
    ("CertificateRequestType", CertificateRequestType); ("ValidityIndicator", ValidityIndicator);
    ("QueryFunction", QueryFunction); ("CancellationResult", CancellationResult);
    ("PutFunction", PutFunction); ("Operation", Operation); ("ResultStatus", ResultStatus);
    ("ResultReason", ResultReason); ("BatchErrorContinuationOption", BatchErrorContinuationOption);
    ("UsageLimitsUnit", UsageLimitsUnit); ("EncodingOption", EncodingOption);
    ("ObjectGroupMember", ObjectGroupMember); ("AlternativeNameType", AlternativeNameType);
    ("KeyValueLocationType", KeyValueLocationType); ("AttestationType", AttestationType);
    ("RNGAlgorithm", RNGAlgorithm); ("DRBGAlgorithm", DRBGAlgorithm);
    ("FIPS186Variation", FIPS186Variation); ("ValidationAuthorityType", ValidationAuthorityType);
    ("ValidationType", ValidationType); ("ProfileName", ProfileName); ("UnwrapMode", UnwrapMode);
    ("DestroyAction", DestroyAction); ("ShreddingAlgorithm", ShreddingAlgorithm);
    ("RNGMode", RNGMode); ("ClientRegistrationMethod", ClientRegistrationMethod);
    ("KeyWrapType", KeyWrapType); ("MaskGenerator", MaskGenerator);
    ("CryptographicUsageMask", CryptographicUsageMask); ("StorageStatusMask", StorageStatusMask)].

Definition package : Package := {|
  pkg_tagConsts := tagConsts1 ++ tagConsts2 ++ tagConsts3;
  pkg_tagNames := tagNames1 ++ tagNames2 ++ tagNames3;
  pkg_enums := enumTable |}.

Definition enumTypes : list EnumType := [
    CredentialType; KeyCompressionType; KeyFormatType; WrappingMethod; RecommendedCurve;
    CertificateType; DigitalSignatureAlgorithm; SplitKeyMethod; SecretDataType; OpaqueDataType;
    NameType; ObjectType; CryptographicAlgorithm; BlockCipherMode; PaddingMethod; HashingAlgorithm;
    KeyRoleType; State; RevocationReasonCode; LinkType; DerivationMethod; CertificateRequestType;
    ValidityIndicator; QueryFunction; CancellationResult; PutFunction; Operation; ResultStatus;
    ResultReason; BatchErrorContinuationOption; UsageLimitsUnit; EncodingOption; ObjectGroupMember;
    AlternativeNameType; KeyValueLocationType; AttestationType; RNGAlgorithm; DRBGAlgorithm;
    FIPS186Variation; ValidationAuthorityType; ValidationType; ProfileName; UnwrapMode;
    DestroyAction; ShreddingAlgorithm; RNGMode; ClientRegistrationMethod; KeyWrapType;
    MaskGenerator; CryptographicUsageMask; StorageStatusMask].
