(* ===== verification/Kmip20.v ===== *)
(** The KMIP 2.0 additions of src/kmip20/kmip_2_0_additions_generated.go, in
    the same form as [Kmip14]. *)
From Stdlib Require Import ZArith String.
From stdpp Require Import base list strings numbers gmap.
From S2P Require Import Prelude Registry Generated.
Local Open Scope Z_scope.
Local Open Scope string_scope.

(** * Tags *)

Definition tagConsts1 : list (string * Z) := [
    ("TagAttributes", 0x420125); ("TagCommonAttributes", 0x420126);
    ("TagPrivateKeyAttributes", 0x420127); ("TagPublicKeyAttributes", 0x420128);
    ("TagExtensionEnumeration", 0x420129); ("TagExtensionAttribute", 0x42012a);
    ("TagExtensionParentStructureTag", 0x42012b); ("TagExtensionDescription", 0x42012c);
    ("TagServerName", 0x42012d); ("TagServerSerialNumber", 0x42012e);
    ("TagServerVersion", 0x42012f); ("TagServerLoad", 0x420130); ("TagProductName", 0x420131);
    ("TagBuildLevel", 0x420132); ("TagBuildDate", 0x420133); ("TagClusterInfo", 0x420134);
    ("TagAlternateFailoverEndpoints", 0x420135); ("TagShortUniqueIdentifier", 0x420136);
    ("TagReserved", 0x420137); ("TagTag", 0x420138);
    ("TagCertificateRequestUniqueIdentifier", 0x420139); ("TagNISTKeyType", 0x42013a);
    ("TagAttributeReference", 0x42013b); ("TagCurrentAttribute", 0x42013c);
    ("TagNewAttribute", 0x42013d); ("TagCertificateRequestValue", 0x420140);
    ("TagLogMessage", 0x420141); ("TagProfileVersion", 0x420142);
    ("TagProfileVersionMajor", 0x420143); ("TagProfileVersionMinor", 0x420144);
    ("TagProtectionLevel", 0x420145); ("TagProtectionPeriod", 0x420146);
    ("TagQuantumSafe", 0x420147); ("TagQuantumSafeCapability", 0x420148); ("TagTicket", 0x420149);
    ("TagTicketType", 0x42014a); ("TagTicketValue", 0x42014b); ("TagRequestCount", 0x42014c);
    ("TagRights", 0x42014d); ("TagObjects", 0x42014e); ("TagOperations", 0x42014f);
    ("TagRight", 0x420150); ("TagEndpointRole", 0x420151); ("TagDefaultsInformation", 0x420152);
    ("TagObjectDefaults", 0x420153); ("TagEphemeral", 0x420154);
    ("TagServerHashedPassword", 0x420155); ("TagOneTimePassword", 0x420156);
    ("TagHashedPassword", 0x420157); ("TagAdjustmentType", 0x420158);
    ("TagPKCS_11Interface", 0x420159); ("TagPKCS_11Function", 0x42015a);
    ("TagPKCS_11InputParameters", 0x42015b); ("TagPKCS_11OutputParameters", 0x42015c);
    ("TagPKCS_11ReturnCode", 0x42015d); ("TagProtectionStorageMask", 0x42015e);
    ("TagProtectionStorageMasks", 0x42015f); ("TagInteropFunction", 0x420160);
    ("TagInteropIdentifier", 0x420161); ("TagAdjustmentValue", 0x420162);
    ("TagCommonProtectionStorageMasks", 0x420163); ("TagPrivateProtectionStorageMasks", 0x420164);
    ("TagPublicProtectionStorageMasks", 0x420165)].

Definition tagNames1 : list (string * string) := [
    ("TagAttributes", "Attributes"); ("TagCommonAttributes", "Common Attributes");
    ("TagPrivateKeyAttributes", "Private Key Attributes");
    ("TagPublicKeyAttributes", "Public Key Attributes");
    ("TagExtensionEnumeration", "Extension Enumeration");
    ("TagExtensionAttribute", "Extension Attribute");
    ("TagExtensionParentStructureTag", "Extension Parent Structure Tag");
    ("TagExtensionDescription", "Extension Description"); ("TagServerName", "Server Name");
    ("TagServerSerialNumber", "Server Serial Number"); ("TagServerVersion", "Server Version");
    ("TagServerLoad", "Server Load"); ("TagProductName", "Product Name");
    ("TagBuildLevel", "Build Level"); ("TagBuildDate", "Build Date");
    ("TagClusterInfo", "Cluster Info");
    ("TagAlternateFailoverEndpoints", "Alternate Failover Endpoints");
    ("TagShortUniqueIdentifier", "Short Unique Identifier"); ("TagReserved", "Reserved");
    ("TagTag", "Tag");
    ("TagCertificateRequestUniqueIdentifier", "Certificate Request Unique Identifier");
    ("TagNISTKeyType", "NIST Key Type"); ("TagAttributeReference", "Attribute Reference");
    ("TagCurrentAttribute", "Current Attribute"); ("TagNewAttribute", "New Attribute");
    ("TagCertificateRequestValue", "Certificate Request Value"); ("TagLogMessage", "Log Message");
    ("TagProfileVersion", "Profile Version"); ("TagProfileVersionMajor", "Profile Version Major");
    ("TagProfileVersionMinor", "Profile Version Minor");
    ("TagProtectionLevel", "Protection Level"); ("TagProtectionPeriod", "Protection Period");
    ("TagQuantumSafe", "Quantum Safe"); ("TagQuantumSafeCapability", "Quantum Safe Capability");
    ("TagTicket", "Ticket"); ("TagTicketType", "Ticket Type"); ("TagTicketValue", "Ticket Value");
    ("TagRequestCount", "Request Count"); ("TagRights", "Rights"); ("TagObjects", "Objects");
    ("TagOperations", "Operations"); ("TagRight", "Right"); ("TagEndpointRole", "Endpoint Role");
    ("TagDefaultsInformation", "Defaults Information"); ("TagObjectDefaults", "Object Defaults");
    ("TagEphemeral", "Ephemeral"); ("TagServerHashedPassword", "Server Hashed Password");
    ("TagOneTimePassword", "One Time Password"); ("TagHashedPassword", "Hashed Password");
    ("TagAdjustmentType", "Adjustment Type"); ("TagPKCS_11Interface", "PKCS#11 Interface");
    ("TagPKCS_11Function", "PKCS#11 Function");
    ("TagPKCS_11InputParameters", "PKCS#11 Input Parameters");
    ("TagPKCS_11OutputParameters", "PKCS#11 Output Parameters");
    ("TagPKCS_11ReturnCode", "PKCS#11 Return Code");
    ("TagProtectionStorageMask", "Protection Storage Mask");
    ("TagProtectionStorageMasks", "Protection Storage Masks");
    ("TagInteropFunction", "Interop Function"); ("TagInteropIdentifier", "Interop Identifier");
    ("TagAdjustmentValue", "Adjustment Value");
    ("TagCommonProtectionStorageMasks", "Common Protection Storage Masks");
    ("TagPrivateProtectionStorageMasks", "Private Protection Storage Masks");
    ("TagPublicProtectionStorageMasks", "Public Protection Storage Masks")].

(** * Enumeration types *)

Definition CredentialType : EnumType := {|
  et_name := "CredentialType";
  et_consts := [
    ("CredentialTypeUsernameAndPassword", 0x00000001); ("CredentialTypeDevice", 0x00000002);
    ("CredentialTypeAttestation", 0x00000003); ("CredentialTypeOneTimePassword", 0x00000004);
    ("CredentialTypeHashedPassword", 0x00000005); ("CredentialTypeTicket", 0x00000006)];
  et_names := [
    ("CredentialTypeUsernameAndPassword", "Username and Password");
    ("CredentialTypeDevice", "Device"); ("CredentialTypeAttestation", "Attestation");
    ("CredentialTypeOneTimePassword", "One Time Password");
    ("CredentialTypeHashedPassword", "Hashed Password"); ("CredentialTypeTicket", "Ticket")];
  et_bitmask := false |}.

Definition CryptographicAlgorithm : EnumType := {|
  et_name := "CryptographicAlgorithm";
  et_consts := [
    ("CryptographicAlgorithmDES", 0x00000001); ("CryptographicAlgorithmDES3", 0x00000002);
    ("CryptographicAlgorithmAES", 0x00000003); ("CryptographicAlgorithmRSA", 0x00000004);
    ("CryptographicAlgorithmDSA", 0x00000005); ("CryptographicAlgorithmECDSA", 0x00000006);
    ("CryptographicAlgorithmHMAC_SHA1", 0x00000007);
    ("CryptographicAlgorithmHMAC_SHA224", 0x00000008);
    ("CryptographicAlgorithmHMAC_SHA256", 0x00000009);
    ("CryptographicAlgorithmHMAC_SHA384", 0x0000000a);
    ("CryptographicAlgorithmHMAC_SHA512", 0x0000000b);
    ("CryptographicAlgorithmHMAC_MD5", 0x0000000c); ("CryptographicAlgorithmDH", 0x0000000d);
    ("CryptographicAlgorithmECDH", 0x0000000e); ("CryptographicAlgorithmECMQV", 0x0000000f);
    ("CryptographicAlgorithmBlowfish", 0x00000010); ("CryptographicAlgorithmCamellia", 0x00000011);
    ("CryptographicAlgorithmCAST5", 0x00000012); ("CryptographicAlgorithmIDEA", 0x00000013);
    ("CryptographicAlgorithmMARS", 0x00000014); ("CryptographicAlgorithmRC2", 0x00000015);
    ("CryptographicAlgorithmRC4", 0x00000016); ("CryptographicAlgorithmRC5", 0x00000017);
    ("CryptographicAlgorithmSKIPJACK", 0x00000018); ("CryptographicAlgorithmTwofish", 0x00000019);
    ("CryptographicAlgorithmEC", 0x0000001a); ("CryptographicAlgorithmOneTimePad", 0x0000001b);
    ("CryptographicAlgorithmChaCha20", 0x0000001c); ("CryptographicAlgorithmPoly1305", 0x0000001d);
    ("CryptographicAlgorithmChaCha20Poly1305", 0x0000001e);
    ("CryptographicAlgorithmSHA3_224", 0x0000001f); ("CryptographicAlgorithmSHA3_256", 0x00000020);
    ("CryptographicAlgorithmSHA3_384", 0x00000021); ("CryptographicAlgorithmSHA3_512", 0x00000022);
    ("CryptographicAlgorithmHMAC_SHA3_224", 0x00000023);
    ("CryptographicAlgorithmHMAC_SHA3_256", 0x00000024);
    ("CryptographicAlgorithmHMAC_SHA3_384", 0x00000025);
    ("CryptographicAlgorithmHMAC_SHA3_512", 0x00000026);
    ("CryptographicAlgorithmSHAKE_128", 0x00000027);
    ("CryptographicAlgorithmSHAKE_256", 0x00000028); ("CryptographicAlgorithmARIA", 0x00000029);
    ("CryptographicAlgorithmSEED", 0x0000002a); ("CryptographicAlgorithmSM2", 0x0000002b);
    ("CryptographicAlgorithmSM3", 0x0000002c); ("CryptographicAlgorithmSM4", 0x0000002d);
    ("CryptographicAlgorithmGOSTR34_10_2012", 0x0000002e);
    ("CryptographicAlgorithmGOSTR34_11_2012", 0x0000002f);
    ("CryptographicAlgorithmGOSTR34_13_2015", 0x00000030);
    ("CryptographicAlgorithmGOST28147_89", 0x00000031); ("CryptographicAlgorithmXMSS", 0x00000032);
    ("CryptographicAlgorithmSPHINCS_256", 0x00000033);
    ("CryptographicAlgorithmMcEliece", 0x00000034);
    ("CryptographicAlgorithmMcEliece_6960119", 0x00000035);
    ("CryptographicAlgorithmMcEliece_8192128", 0x00000036);
    ("CryptographicAlgorithmEd25519", 0x00000037); ("CryptographicAlgorithmEd448", 0x00000038)];
  et_names := [
    ("CryptographicAlgorithmDES", "DES"); ("CryptographicAlgorithmDES3", "3DES");
    ("CryptographicAlgorithmAES", "AES"); ("CryptographicAlgorithmRSA", "RSA");
    ("CryptographicAlgorithmDSA", "DSA"); ("CryptographicAlgorithmECDSA", "ECDSA");
    ("CryptographicAlgorithmHMAC_SHA1", "HMAC-SHA1");
    ("CryptographicAlgorithmHMAC_SHA224", "HMAC-SHA224");
    ("CryptographicAlgorithmHMAC_SHA256", "HMAC-SHA256");
    ("CryptographicAlgorithmHMAC_SHA384", "HMAC-SHA384");
    ("CryptographicAlgorithmHMAC_SHA512", "HMAC-SHA512");
    ("CryptographicAlgorithmHMAC_MD5", "HMAC-MD5"); ("CryptographicAlgorithmDH", "DH");
    ("CryptographicAlgorithmECDH", "ECDH"); ("CryptographicAlgorithmECMQV", "ECMQV");
    ("CryptographicAlgorithmBlowfish", "Blowfish"); ("CryptographicAlgorithmCamellia", "Camellia");
    ("CryptographicAlgorithmCAST5", "CAST5"); ("CryptographicAlgorithmIDEA", "IDEA");
    ("CryptographicAlgorithmMARS", "MARS"); ("CryptographicAlgorithmRC2", "RC2");
    ("CryptographicAlgorithmRC4", "RC4"); ("CryptographicAlgorithmRC5", "RC5");
    ("CryptographicAlgorithmSKIPJACK", "SKIPJACK"); ("CryptographicAlgorithmTwofish", "Twofish");
    ("CryptographicAlgorithmEC", "EC"); ("CryptographicAlgorithmOneTimePad", "One Time Pad");
    ("CryptographicAlgorithmChaCha20", "ChaCha20"); ("CryptographicAlgorithmPoly1305", "Poly1305");
    ("CryptographicAlgorithmChaCha20Poly1305", "ChaCha20Poly1305");
    ("CryptographicAlgorithmSHA3_224", "SHA3-224"); ("CryptographicAlgorithmSHA3_256", "SHA3-256");
    ("CryptographicAlgorithmSHA3_384", "SHA3-384"); ("CryptographicAlgorithmSHA3_512", "SHA3-512");
    ("CryptographicAlgorithmHMAC_SHA3_224", "HMAC-SHA3-224");
    ("CryptographicAlgorithmHMAC_SHA3_256", "HMAC-SHA3-256");
    ("CryptographicAlgorithmHMAC_SHA3_384", "HMAC-SHA3-384");
    ("CryptographicAlgorithmHMAC_SHA3_512", "HMAC-SHA3-512");
    ("CryptographicAlgorithmSHAKE_128", "SHAKE-128");
    ("CryptographicAlgorithmSHAKE_256", "SHAKE-256"); ("CryptographicAlgorithmARIA", "ARIA");
    ("CryptographicAlgorithmSEED", "SEED"); ("CryptographicAlgorithmSM2", "SM2");
    ("CryptographicAlgorithmSM3", "SM3"); ("CryptographicAlgorithmSM4", "SM4");
    ("CryptographicAlgorithmGOSTR34_10_2012", "GOST R 34.10-2012");
    ("CryptographicAlgorithmGOSTR34_11_2012", "GOST R 34.11-2012");
    ("CryptographicAlgorithmGOSTR34_13_2015", "GOST R 34.13-2015");
    ("CryptographicAlgorithmGOST28147_89", "GOST 28147-89");
    ("CryptographicAlgorithmXMSS", "XMSS"); ("CryptographicAlgorithmSPHINCS_256", "SPHINCS-256");
    ("CryptographicAlgorithmMcEliece", "McEliece");
    ("CryptographicAlgorithmMcEliece_6960119", "McEliece-6960119");
    ("CryptographicAlgorithmMcEliece_8192128", "McEliece-8192128");
    ("CryptographicAlgorithmEd25519", "Ed25519"); ("CryptographicAlgorithmEd448", "Ed448")];
  et_bitmask := false |}.

Definition DerivationMethod : EnumType := {|
  et_name := "DerivationMethod";
  et_consts := [
    ("DerivationMethodPBKDF2", 0x00000001); ("DerivationMethodHASH", 0x00000002);
    ("DerivationMethodHMAC", 0x00000003); ("DerivationMethodENCRYPT", 0x00000004);
    ("DerivationMethodNIST800_108_C", 0x00000005); ("DerivationMethodNIST800_108_F", 0x00000006);
    ("DerivationMethodNIST800_108_DPI", 0x00000007); ("DerivationMethodAsymmetricKey", 0x00000008);
    ("DerivationMethodAWSSignatureVersion4", 0x00000009); ("DerivationMethodHKDF", 0x0000000a)];
  et_names := [
    ("DerivationMethodPBKDF2", "PBKDF2"); ("DerivationMethodHASH", "HASH");
    ("DerivationMethodHMAC", "HMAC"); ("DerivationMethodENCRYPT", "ENCRYPT");
    ("DerivationMethodNIST800_108_C", "NIST800 - 108 - C");
    ("DerivationMethodNIST800_108_F", "NIST800 - 108 - F");
    ("DerivationMethodNIST800_108_DPI", "NIST800 - 108 - DPI");
    ("DerivationMethodAsymmetricKey", "Asymmetric Key");
    ("DerivationMethodAWSSignatureVersion4", "AWS Signature Version 4");
    ("DerivationMethodHKDF", "HKDF")];
  et_bitmask := false |}.

Definition LinkType : EnumType := {|
  et_name := "LinkType";
  et_consts := [
    ("LinkTypeCertificateLink", 0x00000101); ("LinkTypePublicKeyLink", 0x00000102);
    ("LinkTypePrivateKeyLink", 0x00000103); ("LinkTypeDerivationBaseObjectLink", 0x00000104);
    ("LinkTypeDerivedKeyLink", 0x00000105); ("LinkTypeReplacementObjectLink", 0x00000106);
    ("LinkTypeReplacedObjectLink", 0x00000107); ("LinkTypeParentLink", 0x00000108);
    ("LinkTypeChildLink", 0x00000109); ("LinkTypePreviousLink", 0x0000010a);
    ("LinkTypeNextLink", 0x0000010b); ("LinkTypePKCS_12CertificateLink", 0x0000010c);
    ("LinkTypePKCS_12PasswordLink", 0x0000010d); ("LinkTypeWrappingKeyLink", 0x0000010e)];
  et_names := [
    ("LinkTypeCertificateLink", "Certificate Link"); ("LinkTypePublicKeyLink", "Public Key Link");
    ("LinkTypePrivateKeyLink", "Private Key Link");
    ("LinkTypeDerivationBaseObjectLink", "Derivation Base Object Link");
    ("LinkTypeDerivedKeyLink", "Derived Key Link");
    ("LinkTypeReplacementObjectLink", "Replacement Object Link");
    ("LinkTypeReplacedObjectLink", "Replaced Object Link"); ("LinkTypeParentLink", "Parent Link");
    ("LinkTypeChildLink", "Child Link"); ("LinkTypePreviousLink", "Previous Link");
    ("LinkTypeNextLink", "Next Link");
    ("LinkTypePKCS_12CertificateLink", "PKCS#12 Certificate Link");
    ("LinkTypePKCS_12PasswordLink", "PKCS#12 Password Link");
    ("LinkTypeWrappingKeyLink", "Wrapping Key Link")];
  et_bitmask := false |}.

Definition ObjectType : EnumType := {|
  et_name := "ObjectType";
  et_consts := [
    ("ObjectTypeCertificate", 0x00000001); ("ObjectTypeSymmetricKey", 0x00000002);
    ("ObjectTypePublicKey", 0x00000003); ("ObjectTypePrivateKey", 0x00000004);
    ("ObjectTypeSplitKey", 0x00000005); ("ObjectTypeTemplate", 0x00000006);
    ("ObjectTypeSecretData", 0x00000007); ("ObjectTypeOpaqueObject", 0x00000008);
    ("ObjectTypePGPKey", 0x00000009); ("ObjectTypeCertificateRequest", 0x0000000a)];
  et_names := [
    ("ObjectTypeCertificate", "Certificate"); ("ObjectTypeSymmetricKey", "Symmetric Key");
    ("ObjectTypePublicKey", "Public Key"); ("ObjectTypePrivateKey", "Private Key");
    ("ObjectTypeSplitKey", "Split Key"); ("ObjectTypeTemplate", "Template");
    ("ObjectTypeSecretData", "Secret Data"); ("ObjectTypeOpaqueObject", "Opaque Object");
    ("ObjectTypePGPKey", "PGP Key"); ("ObjectTypeCertificateRequest", "Certificate Request")];
  et_bitmask := false |}.

Definition Operation : EnumType := {|
  et_name := "Operation";
  et_consts := [
    ("OperationCreate", 0x00000001); ("OperationCreateKeyPair", 0x00000002);
    ("OperationRegister", 0x00000003); ("OperationReKey", 0x00000004);
    ("OperationDeriveKey", 0x00000005); ("OperationCertify", 0x00000006);
    ("OperationReCertify", 0x00000007); ("OperationLocate", 0x00000008);
    ("OperationCheck", 0x00000009); ("OperationGet", 0x0000000a);
    ("OperationGetAttributes", 0x0000000b); ("OperationGetAttributeList", 0x0000000c);
    ("OperationAddAttribute", 0x0000000d); ("OperationModifyAttribute", 0x0000000e);
    ("OperationDeleteAttribute", 0x0000000f); ("OperationObtainLease", 0x00000010);
    ("OperationGetUsageAllocation", 0x00000011); ("OperationActivate", 0x00000012);
    ("OperationRevoke", 0x00000013); ("OperationDestroy", 0x00000014);
    ("OperationArchive", 0x00000015); ("OperationRecover", 0x00000016);
    ("OperationValidate", 0x00000017); ("OperationQuery", 0x00000018);
    ("OperationCancel", 0x00000019); ("OperationPoll", 0x0000001a);
    ("OperationNotify", 0x0000001b); ("OperationPut", 0x0000001c);
    ("OperationReKeyKeyPair", 0x0000001d); ("OperationDiscoverVersions", 0x0000001e);
    ("OperationEncrypt", 0x0000001f); ("OperationDecrypt", 0x00000020);
    ("OperationSign", 0x00000021); ("OperationSignatureVerify", 0x00000022);
    ("OperationMAC", 0x00000023); ("OperationMACVerify", 0x00000024);
    ("OperationRNGRetrieve", 0x00000025); ("OperationRNGSeed", 0x00000026);
    ("OperationHash", 0x00000027); ("OperationCreateSplitKey", 0x00000028);
    ("OperationJoinSplitKey", 0x00000029); ("OperationImport", 0x0000002a);
    ("OperationExport", 0x0000002b); ("OperationLog", 0x0000002c); ("OperationLogin", 0x0000002d);
    ("OperationLogout", 0x0000002e); ("OperationDelegatedLogin", 0x0000002f);
    ("OperationAdjustAttribute", 0x00000030); ("OperationSetAttribute", 0x00000031);
    ("OperationSetEndpointRole", 0x00000032); ("OperationPKCS_11", 0x00000033);
    ("OperationInterop", 0x00000034); ("OperationReProvision", 0x00000035)];
  et_names := [
    ("OperationCreate", "Create"); ("OperationCreateKeyPair", "Create Key Pair");
    ("OperationRegister", "Register"); ("OperationReKey", "Re-key");
    ("OperationDeriveKey", "Derive Key"); ("OperationCertify", "Certify");
    ("OperationReCertify", "Re-certify"); ("OperationLocate", "Locate");
    ("OperationCheck", "Check"); ("OperationGet", "Get");
    ("OperationGetAttributes", "Get Attributes");
    ("OperationGetAttributeList", "Get Attribute List");
    ("OperationAddAttribute", "Add Attribute"); ("OperationModifyAttribute", "Modify Attribute");
    ("OperationDeleteAttribute", "Delete Attribute"); ("OperationObtainLease", "Obtain Lease");
    ("OperationGetUsageAllocation", "Get Usage Allocation"); ("OperationActivate", "Activate");
    ("OperationRevoke", "Revoke"); ("OperationDestroy", "Destroy");
    ("OperationArchive", "Archive"); ("OperationRecover", "Recover");
    ("OperationValidate", "Validate"); ("OperationQuery", "Query"); ("OperationCancel", "Cancel");
    ("OperationPoll", "Poll"); ("OperationNotify", "Notify"); ("OperationPut", "Put");
    ("OperationReKeyKeyPair", "Re-key Key Pair");
    ("OperationDiscoverVersions", "Discover Versions"); ("OperationEncrypt", "Encrypt");
    ("OperationDecrypt", "Decrypt"); ("OperationSign", "Sign");
    ("OperationSignatureVerify", "Signature Verify"); ("OperationMAC", "MAC");
    ("OperationMACVerify", "MAC Verify"); ("OperationRNGRetrieve", "RNG Retrieve");
    ("OperationRNGSeed", "RNG Seed"); ("OperationHash", "Hash");
    ("OperationCreateSplitKey", "Create Split Key"); ("OperationJoinSplitKey", "Join Split Key");
    ("OperationImport", "Import"); ("OperationExport", "Export"); ("OperationLog", "Log");
    ("OperationLogin", "Login"); ("OperationLogout", "Logout");
    ("OperationDelegatedLogin", "Delegated Login");
    ("OperationAdjustAttribute", "Adjust Attribute"); ("OperationSetAttribute", "Set Attribute");
    ("OperationSetEndpointRole", "Set Endpoint Role"); ("OperationPKCS_11", "PKCS#11");
    ("OperationInterop", "Interop"); ("OperationReProvision", "Re-Provision")];
  et_bitmask := false |}.

Definition ProfileName : EnumType := {|
  et_name := "ProfileName";
  et_consts := [
    ("ProfileNameBaselineServerBasicKMIPV1_2", 0x00000001);
    ("ProfileNameBaselineServerTLSV1_2KMIPV1_2", 0x00000002);
    ("ProfileNameBaselineClientBasicKMIPV1_2", 0x00000003);
    ("ProfileNameBaselineClientTLSV1_2KMIPV1_2", 0x00000004);
    ("ProfileNameCompleteServerBasicKMIPV1_2", 0x00000005);
    ("ProfileNameCompleteServerTLSV1_2KMIPV1_2", 0x00000006);
    ("ProfileNameTapeLibraryClientKMIPV1_0", 0x00000007);
    ("ProfileNameTapeLibraryClientKMIPV1_1", 0x00000008);
    ("ProfileNameTapeLibraryClientKMIPV1_2", 0x00000009);
    ("ProfileNameTapeLibraryServerKMIPV1_0", 0x0000000a);
    ("ProfileNameTapeLibraryServerKMIPV1_1", 0x0000000b);
    ("ProfileNameTapeLibraryServerKMIPV1_2", 0x0000000c);
    ("ProfileNameSymmetricKeyLifecycleClientKMIPV1_0", 0x0000000d);
    ("ProfileNameSymmetricKeyLifecycleClientKMIPV1_1", 0x0000000e);
    ("ProfileNameSymmetricKeyLifecycleClientKMIPV1_2", 0x0000000f);
    ("ProfileNameSymmetricKeyLifecycleServerKMIPV1_0", 0x00000010);
    ("ProfileNameSymmetricKeyLifecycleServerKMIPV1_1", 0x00000011);
    ("ProfileNameSymmetricKeyLifecycleServerKMIPV1_2", 0x00000012);
    ("ProfileNameAsymmetricKeyLifecycleClientKMIPV1_0", 0x00000013);
    ("ProfileNameAsymmetricKeyLifecycleClientKMIPV1_1", 0x00000014);
    ("ProfileNameAsymmetricKeyLifecycleClientKMIPV1_2", 0x00000015);
    ("ProfileNameAsymmetricKeyLifecycleServerKMIPV1_0", 0x00000016);
    ("ProfileNameAsymmetricKeyLifecycleServerKMIPV1_1", 0x00000017);
    ("ProfileNameAsymmetricKeyLifecycleServerKMIPV1_2", 0x00000018);
    ("ProfileNameBasicCryptographicClientKMIPV1_2", 0x00000019);
    ("ProfileNameBasicCryptographicServerKMIPV1_2", 0x0000001a);
    ("ProfileNameAdvancedCryptographicClientKMIPV1_2", 0x0000001b);
    ("ProfileNameAdvancedCryptographicServerKMIPV1_2", 0x0000001c);
    ("ProfileNameRNGCryptographicClientKMIPV1_2", 0x0000001d);
    ("ProfileNameRNGCryptographicServerKMIPV1_2", 0x0000001e);
    ("ProfileNameBasicSymmetricKeyFoundryClientKMIPV1_0", 0x0000001f);
    ("ProfileNameIntermediateSymmetricKeyFoundryClientKMIPV1_0", 0x00000020);
    ("ProfileNameAdvancedSymmetricKeyFoundryClientKMIPV1_0", 0x00000021);
    ("ProfileNameBasicSymmetricKeyFoundryClientKMIPV1_1", 0x00000022);
    ("ProfileNameIntermediateSymmetricKeyFoundryClientKMIPV1_1", 0x00000023);
    ("ProfileNameAdvancedSymmetricKeyFoundryClientKMIPV1_1", 0x00000024);
    ("ProfileNameBasicSymmetricKeyFoundryClientKMIPV1_2", 0x00000025);
    ("ProfileNameIntermediateSymmetricKeyFoundryClientKMIPV1_2", 0x00000026);
    ("ProfileNameAdvancedSymmetricKeyFoundryClientKMIPV1_2", 0x00000027);
    ("ProfileNameSymmetricKeyFoundryServerKMIPV1_0", 0x00000028);
    ("ProfileNameSymmetricKeyFoundryServerKMIPV1_1", 0x00000029);
    ("ProfileNameSymmetricKeyFoundryServerKMIPV1_2", 0x0000002a);
    ("ProfileNameOpaqueManagedObjectStoreClientKMIPV1_0", 0x0000002b);
    ("ProfileNameOpaqueManagedObjectStoreClientKMIPV1_1", 0x0000002c);
    ("ProfileNameOpaqueManagedObjectStoreClientKMIPV1_2", 0x0000002d);
    ("ProfileNameOpaqueManagedObjectStoreServerKMIPV1_0", 0x0000002e);
    ("ProfileNameOpaqueManagedObjectStoreServerKMIPV1_1", 0x0000002f);
    ("ProfileNameOpaqueManagedObjectStoreServerKMIPV1_2", 0x00000030);
    ("ProfileNameSuiteBMinLOS_128ClientKMIPV1_0", 0x00000031);
    ("ProfileNameSuiteBMinLOS_128ClientKMIPV1_1", 0x00000032);
    ("ProfileNameSuiteBMinLOS_128ClientKMIPV1_2", 0x00000033);
    ("ProfileNameSuiteBMinLOS_128ServerKMIPV1_0", 0x00000034);
    ("ProfileNameSuiteBMinLOS_128ServerKMIPV1_1", 0x00000035);
    ("ProfileNameSuiteBMinLOS_128ServerKMIPV1_2", 0x00000036);
    ("ProfileNameSuiteBMinLOS_192ClientKMIPV1_0", 0x00000037);
    ("ProfileNameSuiteBMinLOS_192ClientKMIPV1_1", 0x00000038);
    ("ProfileNameSuiteBMinLOS_192ClientKMIPV1_2", 0x00000039);
    ("ProfileNameSuiteBMinLOS_192ServerKMIPV1_0", 0x0000003a);
    ("ProfileNameSuiteBMinLOS_192ServerKMIPV1_1", 0x0000003b);
    ("ProfileNameSuiteBMinLOS_192ServerKMIPV1_2", 0x0000003c);
    ("ProfileNameStorageArrayWithSelfEncryptingDriveClientKMIPV1_0", 0x0000003d);
    ("ProfileNameStorageArrayWithSelfEncryptingDriveClientKMIPV1_1", 0x0000003e);
    ("ProfileNameStorageArrayWithSelfEncryptingDriveClientKMIPV1_2", 0x0000003f);
    ("ProfileNameStorageArrayWithSelfEncryptingDriveServerKMIPV1_0", 0x00000040);
    ("ProfileNameStorageArrayWithSelfEncryptingDriveServerKMIPV1_1", 0x00000041);
    ("ProfileNameStorageArrayWithSelfEncryptingDriveServerKMIPV1_2", 0x00000042);
    ("ProfileNameHTTPSClientKMIPV1_0", 0x00000043); ("ProfileNameHTTPSClientKMIPV1_1", 0x00000044);
    ("ProfileNameHTTPSClientKMIPV1_2", 0x00000045); ("ProfileNameHTTPSServerKMIPV1_0", 0x00000046);
    ("ProfileNameHTTPSServerKMIPV1_1", 0x00000047); ("ProfileNameHTTPSServerKMIPV1_2", 0x00000048);
    ("ProfileNameJSONClientKMIPV1_0", 0x00000049); ("ProfileNameJSONClientKMIPV1_1", 0x0000004a);
    ("ProfileNameJSONClientKMIPV1_2", 0x0000004b); ("ProfileNameJSONServerKMIPV1_0", 0x0000004c);
    ("ProfileNameJSONServerKMIPV1_1", 0x0000004d); ("ProfileNameJSONServerKMIPV1_2", 0x0000004e);
    ("ProfileNameXMLClientKMIPV1_0", 0x0000004f); ("ProfileNameXMLClientKMIPV1_1", 0x00000050);
    ("ProfileNameXMLClientKMIPV1_2", 0x00000051); ("ProfileNameXMLServerKMIPV1_0", 0x00000052);
    ("ProfileNameXMLServerKMIPV1_1", 0x00000053); ("ProfileNameXMLServerKMIPV1_2", 0x00000054);
    ("ProfileNameBaselineServerBasicKMIPV1_3", 0x00000055);
    ("ProfileNameBaselineServerTLSV1_2KMIPV1_3", 0x00000056);
    ("ProfileNameBaselineClientBasicKMIPV1_3", 0x00000057);
    ("ProfileNameBaselineClientTLSV1_2KMIPV1_3", 0x00000058);
    ("ProfileNameCompleteServerBasicKMIPV1_3", 0x00000059);
    ("ProfileNameCompleteServerTLSV1_2KMIPV1_3", 0x0000005a);
    ("ProfileNameTapeLibraryClientKMIPV1_3", 0x0000005b);
    ("ProfileNameTapeLibraryServerKMIPV1_3", 0x0000005c);
    ("ProfileNameSymmetricKeyLifecycleClientKMIPV1_3", 0x0000005d);
    ("ProfileNameSymmetricKeyLifecycleServerKMIPV1_3", 0x0000005e);
    ("ProfileNameAsymmetricKeyLifecycleClientKMIPV1_3", 0x0000005f);
    ("ProfileNameAsymmetricKeyLifecycleServerKMIPV1_3", 0x00000060);
    ("ProfileNameBasicCryptographicClientKMIPV1_3", 0x00000061);
    ("ProfileNameBasicCryptographicServerKMIPV1_3", 0x00000062);
    ("ProfileNameAdvancedCryptographicClientKMIPV1_3", 0x00000063);
    ("ProfileNameAdvancedCryptographicServerKMIPV1_3", 0x00000064);
    ("ProfileNameRNGCryptographicClientKMIPV1_3", 0x00000065);
    ("ProfileNameRNGCryptographicServerKMIPV1_3", 0x00000066);
    ("ProfileNameBasicSymmetricKeyFoundryClientKMIPV1_3", 0x00000067);
    ("ProfileNameIntermediateSymmetricKeyFoundryClientKMIPV1_3", 0x00000068);
    ("ProfileNameAdvancedSymmetricKeyFoundryClientKMIPV1_3", 0x00000069);
    ("ProfileNameSymmetricKeyFoundryServerKMIPV1_3", 0x0000006a);
    ("ProfileNameOpaqueManagedObjectStoreClientKMIPV1_3", 0x0000006b);
    ("ProfileNameOpaqueManagedObjectStoreServerKMIPV1_3", 0x0000006c);
    ("ProfileNameSuiteBMinLOS_128ClientKMIPV1_3", 0x0000006d);
    ("ProfileNameSuiteBMinLOS_128ServerKMIPV1_3", 0x0000006e);
    ("ProfileNameSuiteBMinLOS_192ClientKMIPV1_3", 0x0000006f);
    ("ProfileNameSuiteBMinLOS_192ServerKMIPV1_3", 0x00000070);
    ("ProfileNameStorageArrayWithSelfEncryptingDriveClientKMIPV1_3", 0x00000071);
    ("ProfileNameStorageArrayWithSelfEncryptingDriveServerKMIPV1_3", 0x00000072);
    ("ProfileNameHTTPSClientKMIPV1_3", 0x00000073); ("ProfileNameHTTPSServerKMIPV1_3", 0x00000074);
    ("ProfileNameJSONClientKMIPV1_3", 0x00000075); ("ProfileNameJSONServerKMIPV1_3", 0x00000076);
    ("ProfileNameXMLClientKMIPV1_3", 0x00000077); ("ProfileNameXMLServerKMIPV1_3", 0x00000078);
    ("ProfileNameBaselineServerBasicKMIPV1_4", 0x00000079);
    ("ProfileNameBaselineServerTLSV1_2KMIPV1_4", 0x0000007a);
    ("ProfileNameBaselineClientBasicKMIPV1_4", 0x0000007b);
    ("ProfileNameBaselineClientTLSV1_2KMIPV1_4", 0x0000007c);
    ("ProfileNameCompleteServerBasicKMIPV1_4", 0x0000007d);
    ("ProfileNameCompleteServerTLSV1_2KMIPV1_4", 0x0000007e);
    ("ProfileNameTapeLibraryClientKMIPV1_4", 0x0000007f);
    ("ProfileNameTapeLibraryServerKMIPV1_4", 0x00000080);
    ("ProfileNameSymmetricKeyLifecycleClientKMIPV1_4", 0x00000081);
    ("ProfileNameSymmetricKeyLifecycleServerKMIPV1_4", 0x00000082);
    ("ProfileNameAsymmetricKeyLifecycleClientKMIPV1_4", 0x00000083);
    ("ProfileNameAsymmetricKeyLifecycleServerKMIPV1_4", 0x00000084);
    ("ProfileNameBasicCryptographicClientKMIPV1_4", 0x00000085);
    ("ProfileNameBasicCryptographicServerKMIPV1_4", 0x00000086);
    ("ProfileNameAdvancedCryptographicClientKMIPV1_4", 0x00000087);
    ("ProfileNameAdvancedCryptographicServerKMIPV1_4", 0x00000088);
    ("ProfileNameRNGCryptographicClientKMIPV1_4", 0x00000089);
    ("ProfileNameRNGCryptographicServerKMIPV1_4", 0x0000008a);
    ("ProfileNameBasicSymmetricKeyFoundryClientKMIPV1_4", 0x0000008b);
    ("ProfileNameIntermediateSymmetricKeyFoundryClientKMIPV1_4", 0x0000008c);
    ("ProfileNameAdvancedSymmetricKeyFoundryClientKMIPV1_4", 0x0000008d);
    ("ProfileNameSymmetricKeyFoundryServerKMIPV1_4", 0x0000008e);
    ("ProfileNameOpaqueManagedObjectStoreClientKMIPV1_4", 0x0000008f);
    ("ProfileNameOpaqueManagedObjectStoreServerKMIPV1_4", 0x00000090);
    ("ProfileNameSuiteBMinLOS_128ClientKMIPV1_4", 0x00000091);
    ("ProfileNameSuiteBMinLOS_128ServerKMIPV1_4", 0x00000092);
    ("ProfileNameSuiteBMinLOS_192ClientKMIPV1_4", 0x00000093);
    ("ProfileNameSuiteBMinLOS_192ServerKMIPV1_4", 0x00000094);
    ("ProfileNameStorageArrayWithSelfEncryptingDriveClientKMIPV1_4", 0x00000095);
    ("ProfileNameStorageArrayWithSelfEncryptingDriveServerKMIPV1_4", 0x00000096);
    ("ProfileNameHTTPSClientKMIPV1_4", 0x00000097); ("ProfileNameHTTPSServerKMIPV1_4", 0x00000098);
    ("ProfileNameJSONClientKMIPV1_4", 0x00000099); ("ProfileNameJSONServerKMIPV1_4", 0x0000009a);
    ("ProfileNameXMLClientKMIPV1_4", 0x0000009b); ("ProfileNameXMLServerKMIPV1_4", 0x0000009c);
    ("ProfileNameCompleteServerBasic", 0x00000104);
    ("ProfileNameCompleteServerTLSV1_2", 0x00000105); ("ProfileNameTapeLibraryClient", 0x00000106);
    ("ProfileNameTapeLibraryServer", 0x00000107);
    ("ProfileNameSymmetricKeyLifecycleClient", 0x00000108);
    ("ProfileNameSymmetricKeyLifecycleServer", 0x00000109);
    ("ProfileNameAsymmetricKeyLifecycleClient", 0x0000010a);
    ("ProfileNameAsymmetricKeyLifecycleServer", 0x0000010b);
    ("ProfileNameBasicCryptographicClient", 0x0000010c);
    ("ProfileNameBasicCryptographicServer", 0x0000010d);
    ("ProfileNameAdvancedCryptographicClient", 0x0000010e);
    ("ProfileNameAdvancedCryptographicServer", 0x0000010f);
    ("ProfileNameRNGCryptographicClient", 0x00000110);
    ("ProfileNameRNGCryptographicServer", 0x00000111);
    ("ProfileNameBasicSymmetricKeyFoundryClient", 0x00000112);
    ("ProfileNameIntermediateSymmetricKeyFoundryClient", 0x00000113);
    ("ProfileNameAdvancedSymmetricKeyFoundryClient", 0x00000114);
    ("ProfileNameSymmetricKeyFoundryServer", 0x00000115);
    ("ProfileNameOpaqueManagedObjectStoreClient", 0x00000116);
    ("ProfileNameOpaqueManagedObjectStoreServer", 0x00000117);
    ("ProfileNameSuiteBMinLOS_128Client", 0x00000118);
    ("ProfileNameSuiteBMinLOS_128Server", 0x00000119);
    ("ProfileNameSuiteBMinLOS_192Client", 0x0000011a);
    ("ProfileNameSuiteBMinLOS_192Server", 0x0000011b);
    ("ProfileNameStorageArrayWithSelfEncryptingDriveClient", 0x0000011c);
    ("ProfileNameStorageArrayWithSelfEncryptingDriveServer", 0x0000011d);
    ("ProfileNameHTTPSClient", 0x0000011e); ("ProfileNameHTTPSServer", 0x0000011f);
    ("ProfileNameJSONClient", 0x00000120); ("ProfileNameJSONServer", 0x00000121);
    ("ProfileNameXMLClient", 0x00000122); ("ProfileNameXMLServer", 0x00000123);
    ("ProfileNameAESXTSClient", 0x00000124); ("ProfileNameAESXTSServer", 0x00000125);
    ("ProfileNameQuantumSafeClient", 0x00000126); ("ProfileNameQuantumSafeServer", 0x00000127);
    ("ProfileNamePKCS_11Client", 0x00000128); ("ProfileNamePKCS_11Server", 0x00000129);
    ("ProfileNameBaselineClient", 0x0000012a); ("ProfileNameBaselineServer", 0x0000012b);
    ("ProfileNameCompleteServer", 0x0000012c)];
  et_names := [
    ("ProfileNameBaselineServerBasicKMIPV1_2", "Baseline Server Basic KMIP v1.2");
    ("ProfileNameBaselineServerTLSV1_2KMIPV1_2", "Baseline Server TLS v1.2 KMIP v1.2");
    ("ProfileNameBaselineClientBasicKMIPV1_2", "Baseline Client Basic KMIP v1.2");
    ("ProfileNameBaselineClientTLSV1_2KMIPV1_2", "Baseline Client TLS v1.2 KMIP v1.2");
    ("ProfileNameCompleteServerBasicKMIPV1_2", "Complete Server Basic KMIP v1.2");
    ("ProfileNameCompleteServerTLSV1_2KMIPV1_2", "Complete Server TLS v1.2 KMIP v1.2");
    ("ProfileNameTapeLibraryClientKMIPV1_0", "Tape Library Client KMIP v1.0");
    ("ProfileNameTapeLibraryClientKMIPV1_1", "Tape Library Client KMIP v1.1");
    ("ProfileNameTapeLibraryClientKMIPV1_2", "Tape Library Client KMIP v1.2");
    ("ProfileNameTapeLibraryServerKMIPV1_0", "Tape Library Server KMIP v1.0");
    ("ProfileNameTapeLibraryServerKMIPV1_1", "Tape Library Server KMIP v1.1");
    ("ProfileNameTapeLibraryServerKMIPV1_2", "Tape Library Server KMIP v1.2");
    ("ProfileNameSymmetricKeyLifecycleClientKMIPV1_0", "Symmetric Key Lifecycle Client KMIP v1.0");
    ("ProfileNameSymmetricKeyLifecycleClientKMIPV1_1", "Symmetric Key Lifecycle Client KMIP v1.1");
    ("ProfileNameSymmetricKeyLifecycleClientKMIPV1_2", "Symmetric Key Lifecycle Client KMIP v1.2");
    ("ProfileNameSymmetricKeyLifecycleServerKMIPV1_0", "Symmetric Key Lifecycle Server KMIP v1.0");
    ("ProfileNameSymmetricKeyLifecycleServerKMIPV1_1", "Symmetric Key Lifecycle Server KMIP v1.1");
    ("ProfileNameSymmetricKeyLifecycleServerKMIPV1_2", "Symmetric Key Lifecycle Server KMIP v1.2");
    ("ProfileNameAsymmetricKeyLifecycleClientKMIPV1_0", "Asymmetric Key Lifecycle Client KMIP v1.0");
    ("ProfileNameAsymmetricKeyLifecycleClientKMIPV1_1", "Asymmetric Key Lifecycle Client KMIP v1.1");
    ("ProfileNameAsymmetricKeyLifecycleClientKMIPV1_2", "Asymmetric Key Lifecycle Client KMIP v1.2");
    ("ProfileNameAsymmetricKeyLifecycleServerKMIPV1_0", "Asymmetric Key Lifecycle Server KMIP v1.0");
    ("ProfileNameAsymmetricKeyLifecycleServerKMIPV1_1", "Asymmetric Key Lifecycle Server KMIP v1.1");
    ("ProfileNameAsymmetricKeyLifecycleServerKMIPV1_2", "Asymmetric Key Lifecycle Server KMIP v1.2");
    ("ProfileNameBasicCryptographicClientKMIPV1_2", "Basic Cryptographic Client KMIP v1.2");
    ("ProfileNameBasicCryptographicServerKMIPV1_2", "Basic Cryptographic Server KMIP v1.2");
    ("ProfileNameAdvancedCryptographicClientKMIPV1_2", "Advanced Cryptographic Client KMIP v1.2");
    ("ProfileNameAdvancedCryptographicServerKMIPV1_2", "Advanced Cryptographic Server KMIP v1.2");
    ("ProfileNameRNGCryptographicClientKMIPV1_2", "RNG Cryptographic Client KMIP v1.2");
    ("ProfileNameRNGCryptographicServerKMIPV1_2", "RNG Cryptographic Server KMIP v1.2");
    ("ProfileNameBasicSymmetricKeyFoundryClientKMIPV1_0", "Basic Symmetric Key Foundry Client KMIP v1.0");
    ("ProfileNameIntermediateSymmetricKeyFoundryClientKMIPV1_0", "Intermediate Symmetric Key Foundry Client KMIP v1.0");
    ("ProfileNameAdvancedSymmetricKeyFoundryClientKMIPV1_0", "Advanced Symmetric Key Foundry Client KMIP v1.0");
    ("ProfileNameBasicSymmetricKeyFoundryClientKMIPV1_1", "Basic Symmetric Key Foundry Client KMIP v1.1");
    ("ProfileNameIntermediateSymmetricKeyFoundryClientKMIPV1_1", "Intermediate Symmetric Key Foundry Client KMIP v1.1");
    ("ProfileNameAdvancedSymmetricKeyFoundryClientKMIPV1_1", "Advanced Symmetric Key Foundry Client KMIP v1.1");
    ("ProfileNameBasicSymmetricKeyFoundryClientKMIPV1_2", "Basic Symmetric Key Foundry Client KMIP v1.2");
    ("ProfileNameIntermediateSymmetricKeyFoundryClientKMIPV1_2", "Intermediate Symmetric Key Foundry Client KMIP v1.2");
    ("ProfileNameAdvancedSymmetricKeyFoundryClientKMIPV1_2", "Advanced Symmetric Key Foundry Client KMIP v1.2");
    ("ProfileNameSymmetricKeyFoundryServerKMIPV1_0", "Symmetric Key Foundry Server KMIP v1.0");
    ("ProfileNameSymmetricKeyFoundryServerKMIPV1_1", "Symmetric Key Foundry Server KMIP v1.1");
    ("ProfileNameSymmetricKeyFoundryServerKMIPV1_2", "Symmetric Key Foundry Server KMIP v1.2");
    ("ProfileNameOpaqueManagedObjectStoreClientKMIPV1_0", "Opaque Managed Object Store Client KMIP v1.0");
    ("ProfileNameOpaqueManagedObjectStoreClientKMIPV1_1", "Opaque Managed Object Store Client KMIP v1.1");
    ("ProfileNameOpaqueManagedObjectStoreClientKMIPV1_2", "Opaque Managed Object Store Client KMIP v1.2");
    ("ProfileNameOpaqueManagedObjectStoreServerKMIPV1_0", "Opaque Managed Object Store Server KMIP v1.0");
    ("ProfileNameOpaqueManagedObjectStoreServerKMIPV1_1", "Opaque Managed Object Store Server KMIP v1.1");
    ("ProfileNameOpaqueManagedObjectStoreServerKMIPV1_2", "Opaque Managed Object Store Server KMIP v1.2");
    ("ProfileNameSuiteBMinLOS_128ClientKMIPV1_0", "Suite B minLOS_128 Client KMIP v1.0");
    ("ProfileNameSuiteBMinLOS_128ClientKMIPV1_1", "Suite B minLOS_128 Client KMIP v1.1");
    ("ProfileNameSuiteBMinLOS_128ClientKMIPV1_2", "Suite B minLOS_128 Client KMIP v1.2");
    ("ProfileNameSuiteBMinLOS_128ServerKMIPV1_0", "Suite B minLOS_128 Server KMIP v1.0");
    ("ProfileNameSuiteBMinLOS_128ServerKMIPV1_1", "Suite B minLOS_128 Server KMIP v1.1");
    ("ProfileNameSuiteBMinLOS_128ServerKMIPV1_2", "Suite B minLOS_128 Server KMIP v1.2");
    ("ProfileNameSuiteBMinLOS_192ClientKMIPV1_0", "Suite B minLOS_192 Client KMIP v1.0");
    ("ProfileNameSuiteBMinLOS_192ClientKMIPV1_1", "Suite B minLOS_192 Client KMIP v1.1");
    ("ProfileNameSuiteBMinLOS_192ClientKMIPV1_2", "Suite B minLOS_192 Client KMIP v1.2");
    ("ProfileNameSuiteBMinLOS_192ServerKMIPV1_0", "Suite B minLOS_192 Server KMIP v1.0");
    ("ProfileNameSuiteBMinLOS_192ServerKMIPV1_1", "Suite B minLOS_192 Server KMIP v1.1");
    ("ProfileNameSuiteBMinLOS_192ServerKMIPV1_2", "Suite B minLOS_192 Server KMIP v1.2");
    ("ProfileNameStorageArrayWithSelfEncryptingDriveClientKMIPV1_0", "Storage Array with Self Encrypting Drive Client KMIP v1.0");
    ("ProfileNameStorageArrayWithSelfEncryptingDriveClientKMIPV1_1", "Storage Array with Self Encrypting Drive Client KMIP v1.1");
    ("ProfileNameStorageArrayWithSelfEncryptingDriveClientKMIPV1_2", "Storage Array with Self Encrypting Drive Client KMIP v1.2");
    ("ProfileNameStorageArrayWithSelfEncryptingDriveServerKMIPV1_0", "Storage Array with Self Encrypting Drive Server KMIP v1.0");
    ("ProfileNameStorageArrayWithSelfEncryptingDriveServerKMIPV1_1", "Storage Array with Self Encrypting Drive Server KMIP v1.1");
    ("ProfileNameStorageArrayWithSelfEncryptingDriveServerKMIPV1_2", "Storage Array with Self Encrypting Drive Server KMIP v1.2");
    ("ProfileNameHTTPSClientKMIPV1_0", "HTTPS Client KMIP v1.0");
    ("ProfileNameHTTPSClientKMIPV1_1", "HTTPS Client KMIP v1.1");
    ("ProfileNameHTTPSClientKMIPV1_2", "HTTPS Client KMIP v1.2");
    ("ProfileNameHTTPSServerKMIPV1_0", "HTTPS Server KMIP v1.0");
    ("ProfileNameHTTPSServerKMIPV1_1", "HTTPS Server KMIP v1.1");
    ("ProfileNameHTTPSServerKMIPV1_2", "HTTPS Server KMIP v1.2");
    ("ProfileNameJSONClientKMIPV1_0", "JSON Client KMIP v1.0");
    ("ProfileNameJSONClientKMIPV1_1", "JSON Client KMIP v1.1");
    ("ProfileNameJSONClientKMIPV1_2", "JSON Client KMIP v1.2");
    ("ProfileNameJSONServerKMIPV1_0", "JSON Server KMIP v1.0");
    ("ProfileNameJSONServerKMIPV1_1", "JSON Server KMIP v1.1");
    ("ProfileNameJSONServerKMIPV1_2", "JSON Server KMIP v1.2");
    ("ProfileNameXMLClientKMIPV1_0", "XML Client KMIP v1.0");
    ("ProfileNameXMLClientKMIPV1_1", "XML Client KMIP v1.1");
    ("ProfileNameXMLClientKMIPV1_2", "XML Client KMIP v1.2");
    ("ProfileNameXMLServerKMIPV1_0", "XML Server KMIP v1.0");
    ("ProfileNameXMLServerKMIPV1_1", "XML Server KMIP v1.1");
    ("ProfileNameXMLServerKMIPV1_2", "XML Server KMIP v1.2");
    ("ProfileNameBaselineServerBasicKMIPV1_3", "Baseline Server Basic KMIP v1.3");
    ("ProfileNameBaselineServerTLSV1_2KMIPV1_3", "Baseline Server TLS v1.2 KMIP v1.3");
    ("ProfileNameBaselineClientBasicKMIPV1_3", "Baseline Client Basic KMIP v1.3");
    ("ProfileNameBaselineClientTLSV1_2KMIPV1_3", "Baseline Client TLS v1.2 KMIP v1.3");
    ("ProfileNameCompleteServerBasicKMIPV1_3", "Complete Server Basic KMIP v1.3");
    ("ProfileNameCompleteServerTLSV1_2KMIPV1_3", "Complete Server TLS v1.2 KMIP v1.3");
    ("ProfileNameTapeLibraryClientKMIPV1_3", "Tape Library Client KMIP v1.3");
    ("ProfileNameTapeLibraryServerKMIPV1_3", "Tape Library Server KMIP v1.3");
    ("ProfileNameSymmetricKeyLifecycleClientKMIPV1_3", "Symmetric Key Lifecycle Client KMIP v1.3");
    ("ProfileNameSymmetricKeyLifecycleServerKMIPV1_3", "Symmetric Key Lifecycle Server KMIP v1.3");
    ("ProfileNameAsymmetricKeyLifecycleClientKMIPV1_3", "Asymmetric Key Lifecycle Client KMIP v1.3");
    ("ProfileNameAsymmetricKeyLifecycleServerKMIPV1_3", "Asymmetric Key Lifecycle Server KMIP v1.3");
    ("ProfileNameBasicCryptographicClientKMIPV1_3", "Basic Cryptographic Client KMIP v1.3");
    ("ProfileNameBasicCryptographicServerKMIPV1_3", "Basic Cryptographic Server KMIP v1.3");
    ("ProfileNameAdvancedCryptographicClientKMIPV1_3", "Advanced Cryptographic Client KMIP v1.3");
    ("ProfileNameAdvancedCryptographicServerKMIPV1_3", "Advanced Cryptographic Server KMIP v1.3");
    ("ProfileNameRNGCryptographicClientKMIPV1_3", "RNG Cryptographic Client KMIP v1.3");
    ("ProfileNameRNGCryptographicServerKMIPV1_3", "RNG Cryptographic Server KMIP v1.3");
    ("ProfileNameBasicSymmetricKeyFoundryClientKMIPV1_3", "Basic Symmetric Key Foundry Client KMIP v1.3");
    ("ProfileNameIntermediateSymmetricKeyFoundryClientKMIPV1_3", "Intermediate Symmetric Key Foundry Client KMIP v1.3");
    ("ProfileNameAdvancedSymmetricKeyFoundryClientKMIPV1_3", "Advanced Symmetric Key Foundry Client KMIP v1.3");
    ("ProfileNameSymmetricKeyFoundryServerKMIPV1_3", "Symmetric Key Foundry Server KMIP v1.3");
    ("ProfileNameOpaqueManagedObjectStoreClientKMIPV1_3", "Opaque Managed Object Store Client KMIP v1.3");
    ("ProfileNameOpaqueManagedObjectStoreServerKMIPV1_3", "Opaque Managed Object Store Server KMIP v1.3");
    ("ProfileNameSuiteBMinLOS_128ClientKMIPV1_3", "Suite B minLOS_128 Client KMIP v1.3");
    ("ProfileNameSuiteBMinLOS_128ServerKMIPV1_3", "Suite B minLOS_128 Server KMIP v1.3");
    ("ProfileNameSuiteBMinLOS_192ClientKMIPV1_3", "Suite B minLOS_192 Client KMIP v1.3");
    ("ProfileNameSuiteBMinLOS_192ServerKMIPV1_3", "Suite B minLOS_192 Server KMIP v1.3");
    ("ProfileNameStorageArrayWithSelfEncryptingDriveClientKMIPV1_3", "Storage Array with Self Encrypting Drive Client KMIP v1.3");
    ("ProfileNameStorageArrayWithSelfEncryptingDriveServerKMIPV1_3", "Storage Array with Self Encrypting Drive Server KMIP v1.3");
    ("ProfileNameHTTPSClientKMIPV1_3", "HTTPS Client KMIP v1.3");
    ("ProfileNameHTTPSServerKMIPV1_3", "HTTPS Server KMIP v1.3");
    ("ProfileNameJSONClientKMIPV1_3", "JSON Client KMIP v1.3");
    ("ProfileNameJSONServerKMIPV1_3", "JSON Server KMIP v1.3");
    ("ProfileNameXMLClientKMIPV1_3", "XML Client KMIP v1.3");
    ("ProfileNameXMLServerKMIPV1_3", "XML Server KMIP v1.3");
    ("ProfileNameBaselineServerBasicKMIPV1_4", "Baseline Server Basic KMIP v1.4");
    ("ProfileNameBaselineServerTLSV1_2KMIPV1_4", "Baseline Server TLS v1.2 KMIP v1.4");
    ("ProfileNameBaselineClientBasicKMIPV1_4", "Baseline Client Basic KMIP v1.4");
    ("ProfileNameBaselineClientTLSV1_2KMIPV1_4", "Baseline Client TLS v1.2 KMIP v1.4");
    ("ProfileNameCompleteServerBasicKMIPV1_4", "Complete Server Basic KMIP v1.4");
    ("ProfileNameCompleteServerTLSV1_2KMIPV1_4", "Complete Server TLS v1.2 KMIP v1.4");
    ("ProfileNameTapeLibraryClientKMIPV1_4", "Tape Library Client KMIP v1.4");
    ("ProfileNameTapeLibraryServerKMIPV1_4", "Tape Library Server KMIP v1.4");
    ("ProfileNameSymmetricKeyLifecycleClientKMIPV1_4", "Symmetric Key Lifecycle Client KMIP v1.4");
    ("ProfileNameSymmetricKeyLifecycleServerKMIPV1_4", "Symmetric Key Lifecycle Server KMIP v1.4");
    ("ProfileNameAsymmetricKeyLifecycleClientKMIPV1_4", "Asymmetric Key Lifecycle Client KMIP v1.4");
    ("ProfileNameAsymmetricKeyLifecycleServerKMIPV1_4", "Asymmetric Key Lifecycle Server KMIP v1.4");
    ("ProfileNameBasicCryptographicClientKMIPV1_4", "Basic Cryptographic Client KMIP v1.4");
    ("ProfileNameBasicCryptographicServerKMIPV1_4", "Basic Cryptographic Server KMIP v1.4");
    ("ProfileNameAdvancedCryptographicClientKMIPV1_4", "Advanced Cryptographic Client KMIP v1.4");
    ("ProfileNameAdvancedCryptographicServerKMIPV1_4", "Advanced Cryptographic Server KMIP v1.4");
    ("ProfileNameRNGCryptographicClientKMIPV1_4", "RNG Cryptographic Client KMIP v1.4");
    ("ProfileNameRNGCryptographicServerKMIPV1_4", "RNG Cryptographic Server KMIP v1.4");
    ("ProfileNameBasicSymmetricKeyFoundryClientKMIPV1_4", "Basic Symmetric Key Foundry Client KMIP v1.4");
    ("ProfileNameIntermediateSymmetricKeyFoundryClientKMIPV1_4", "Intermediate Symmetric Key Foundry Client KMIP v1.4");
    ("ProfileNameAdvancedSymmetricKeyFoundryClientKMIPV1_4", "Advanced Symmetric Key Foundry Client KMIP v1.4");
    ("ProfileNameSymmetricKeyFoundryServerKMIPV1_4", "Symmetric Key Foundry Server KMIP v1.4");
    ("ProfileNameOpaqueManagedObjectStoreClientKMIPV1_4", "Opaque Managed Object Store Client KMIP v1.4");
    ("ProfileNameOpaqueManagedObjectStoreServerKMIPV1_4", "Opaque Managed Object Store Server KMIP v1.4");
    ("ProfileNameSuiteBMinLOS_128ClientKMIPV1_4", "Suite B minLOS_128 Client KMIP v1.4");
    ("ProfileNameSuiteBMinLOS_128ServerKMIPV1_4", "Suite B minLOS_128 Server KMIP v1.4");
    ("ProfileNameSuiteBMinLOS_192ClientKMIPV1_4", "Suite B minLOS_192 Client KMIP v1.4");
    ("ProfileNameSuiteBMinLOS_192ServerKMIPV1_4", "Suite B minLOS_192 Server KMIP v1.4");
    ("ProfileNameStorageArrayWithSelfEncryptingDriveClientKMIPV1_4", "Storage Array with Self Encrypting Drive Client KMIP v1.4");
    ("ProfileNameStorageArrayWithSelfEncryptingDriveServerKMIPV1_4", "Storage Array with Self Encrypting Drive Server KMIP v1.4");
    ("ProfileNameHTTPSClientKMIPV1_4", "HTTPS Client KMIP v1.4");
    ("ProfileNameHTTPSServerKMIPV1_4", "HTTPS Server KMIP v1.4");
    ("ProfileNameJSONClientKMIPV1_4", "JSON Client KMIP v1.4");
    ("ProfileNameJSONServerKMIPV1_4", "JSON Server KMIP v1.4");
    ("ProfileNameXMLClientKMIPV1_4", "XML Client KMIP v1.4");
    ("ProfileNameXMLServerKMIPV1_4", "XML Server KMIP v1.4");
    ("ProfileNameCompleteServerBasic", "Complete Server Basic");
    ("ProfileNameCompleteServerTLSV1_2", "Complete Server TLS v1.2");
    ("ProfileNameTapeLibraryClient", "Tape Library Client");
    ("ProfileNameTapeLibraryServer", "Tape Library Server");
    ("ProfileNameSymmetricKeyLifecycleClient", "Symmetric Key Lifecycle Client");
    ("ProfileNameSymmetricKeyLifecycleServer", "Symmetric Key Lifecycle Server");
    ("ProfileNameAsymmetricKeyLifecycleClient", "Asymmetric Key Lifecycle Client");
    ("ProfileNameAsymmetricKeyLifecycleServer", "Asymmetric Key Lifecycle Server");
    ("ProfileNameBasicCryptographicClient", "Basic Cryptographic Client");
    ("ProfileNameBasicCryptographicServer", "Basic Cryptographic Server");
    ("ProfileNameAdvancedCryptographicClient", "Advanced Cryptographic Client");
    ("ProfileNameAdvancedCryptographicServer", "Advanced Cryptographic Server");
    ("ProfileNameRNGCryptographicClient", "RNG Cryptographic Client ");
    ("ProfileNameRNGCryptographicServer", "RNG Cryptographic Server ");
    ("ProfileNameBasicSymmetricKeyFoundryClient", "Basic Symmetric Key Foundry Client ");
    ("ProfileNameIntermediateSymmetricKeyFoundryClient", "Intermediate Symmetric Key Foundry Client ");
    ("ProfileNameAdvancedSymmetricKeyFoundryClient", "Advanced Symmetric Key Foundry Client ");
    ("ProfileNameSymmetricKeyFoundryServer", "Symmetric Key Foundry Server");
    ("ProfileNameOpaqueManagedObjectStoreClient", "Opaque Managed Object Store Client ");
    ("ProfileNameOpaqueManagedObjectStoreServer", "Opaque Managed Object Store Server ");
    ("ProfileNameSuiteBMinLOS_128Client", "Suite B minLOS_128 Client ");
    ("ProfileNameSuiteBMinLOS_128Server", "Suite B minLOS_128 Server ");
    ("ProfileNameSuiteBMinLOS_192Client", "Suite B minLOS_192 Client ");
    ("ProfileNameSuiteBMinLOS_192Server", "Suite B minLOS_192 Server ");
    ("ProfileNameStorageArrayWithSelfEncryptingDriveClient", "Storage Array with Self Encrypting Drive Client");
    ("ProfileNameStorageArrayWithSelfEncryptingDriveServer", "Storage Array with Self Encrypting Drive Server");
    ("ProfileNameHTTPSClient", "HTTPS Client "); ("ProfileNameHTTPSServer", "HTTPS Server ");
    ("ProfileNameJSONClient", "JSON Client "); ("ProfileNameJSONServer", "JSON Server ");
    ("ProfileNameXMLClient", "XML Client "); ("ProfileNameXMLServer", "XML Server ");
    ("ProfileNameAESXTSClient", "AES XTS Client"); ("ProfileNameAESXTSServer", "AES XTS Server");
    ("ProfileNameQuantumSafeClient", "Quantum Safe Client");
    ("ProfileNameQuantumSafeServer", "Quantum Safe Server");
    ("ProfileNamePKCS_11Client", "PKCS#11 Client"); ("ProfileNamePKCS_11Server", "PKCS#11 Server");
    ("ProfileNameBaselineClient", "Baseline Client");
    ("ProfileNameBaselineServer", "Baseline Server");
    ("ProfileNameCompleteServer", "Complete Server")];
  et_bitmask := false |}.

Definition QueryFunction : EnumType := {|
  et_name := "QueryFunction";
  et_consts := [
    ("QueryFunctionQueryOperations", 0x00000001); ("QueryFunctionQueryObjects", 0x00000002);
    ("QueryFunctionQueryServerInformation", 0x00000003);
    ("QueryFunctionQueryApplicationNamespaces", 0x00000004);
    ("QueryFunctionQueryExtensionList", 0x00000005);
    ("QueryFunctionQueryExtensionMap", 0x00000006);
    ("QueryFunctionQueryAttestationTypes", 0x00000007); ("QueryFunctionQueryRNGs", 0x00000008);
    ("QueryFunctionQueryValidations", 0x00000009); ("QueryFunctionQueryProfiles", 0x0000000a);
    ("QueryFunctionQueryCapabilities", 0x0000000b);
    ("QueryFunctionQueryClientRegistrationMethods", 0x0000000c);
    ("QueryFunctionQueryDefaultsInformation", 0x0000000d);
    ("QueryFunctionQueryStorageProtectionMasks", 0x0000000e)];
  et_names := [
    ("QueryFunctionQueryOperations", "Query Operations");
    ("QueryFunctionQueryObjects", "Query Objects");
    ("QueryFunctionQueryServerInformation", "Query Server Information");
    ("QueryFunctionQueryApplicationNamespaces", "Query Application Namespaces");
    ("QueryFunctionQueryExtensionList", "Query Extension List");
    ("QueryFunctionQueryExtensionMap", "Query Extension Map");
    ("QueryFunctionQueryAttestationTypes", "Query Attestation Types");
    ("QueryFunctionQueryRNGs", "Query RNGs");
    ("QueryFunctionQueryValidations", "Query Validations");
    ("QueryFunctionQueryProfiles", "Query Profiles");
    ("QueryFunctionQueryCapabilities", "Query Capabilities");
    ("QueryFunctionQueryClientRegistrationMethods", "Query Client Registration Methods");
    ("QueryFunctionQueryDefaultsInformation", "Query Defaults Information");
    ("QueryFunctionQueryStorageProtectionMasks", "Query Storage Protection Masks")];
  et_bitmask := false |}.

Definition RecommendedCurve : EnumType := {|
  et_name := "RecommendedCurve";
  et_consts := [
    ("RecommendedCurveP_192", 0x00000001); ("RecommendedCurveK_163", 0x00000002);
    ("RecommendedCurveB_163", 0x00000003); ("RecommendedCurveP_224", 0x00000004);
    ("RecommendedCurveK_233", 0x00000005); ("RecommendedCurveB_233", 0x00000006);
    ("RecommendedCurveP_256", 0x00000007); ("RecommendedCurveK_283", 0x00000008);
    ("RecommendedCurveB_283", 0x00000009); ("RecommendedCurveP_384", 0x0000000a);
    ("RecommendedCurveK_409", 0x0000000b); ("RecommendedCurveB_409", 0x0000000c);
    ("RecommendedCurveP_521", 0x0000000d); ("RecommendedCurveK_571", 0x0000000e);
    ("RecommendedCurveB_571", 0x0000000f); ("RecommendedCurveSECP112R1", 0x00000010);
    ("RecommendedCurveSECP112R2", 0x00000011); ("RecommendedCurveSECP128R1", 0x00000012);
    ("RecommendedCurveSECP128R2", 0x00000013); ("RecommendedCurveSECP160K1", 0x00000014);
    ("RecommendedCurveSECP160R1", 0x00000015); ("RecommendedCurveSECP160R2", 0x00000016);
    ("RecommendedCurveSECP192K1", 0x00000017); ("RecommendedCurveSECP224K1", 0x00000018);
    ("RecommendedCurveSECP256K1", 0x00000019); ("RecommendedCurveSECT113R1", 0x0000001a);
    ("RecommendedCurveSECT113R2", 0x0000001b); ("RecommendedCurveSECT131R1", 0x0000001c);
    ("RecommendedCurveSECT131R2", 0x0000001d); ("RecommendedCurveSECT163R1", 0x0000001e);
    ("RecommendedCurveSECT193R1", 0x0000001f); ("RecommendedCurveSECT193R2", 0x00000020);
    ("RecommendedCurveSECT239K1", 0x00000021); ("RecommendedCurveANSIX9P192V2", 0x00000022);
    ("RecommendedCurveANSIX9P192V3", 0x00000023); ("RecommendedCurveANSIX9P239V1", 0x00000024);
    ("RecommendedCurveANSIX9P239V2", 0x00000025); ("RecommendedCurveANSIX9P239V3", 0x00000026);
    ("RecommendedCurveANSIX9C2PNB163V1", 0x00000027);
    ("RecommendedCurveANSIX9C2PNB163V2", 0x00000028);
    ("RecommendedCurveANSIX9C2PNB163V3", 0x00000029);
    ("RecommendedCurveANSIX9C2PNB176V1", 0x0000002a);
    ("RecommendedCurveANSIX9C2TNB191V1", 0x0000002b);
    ("RecommendedCurveANSIX9C2TNB191V2", 0x0000002c);
    ("RecommendedCurveANSIX9C2TNB191V3", 0x0000002d);
    ("RecommendedCurveANSIX9C2PNB208W1", 0x0000002e);
    ("RecommendedCurveANSIX9C2TNB239V1", 0x0000002f);
    ("RecommendedCurveANSIX9C2TNB239V2", 0x00000030);
    ("RecommendedCurveANSIX9C2TNB239V3", 0x00000031);
    ("RecommendedCurveANSIX9C2PNB272W1", 0x00000032);
    ("RecommendedCurveANSIX9C2PNB304W1", 0x00000033);
    ("RecommendedCurveANSIX9C2TNB359V1", 0x00000034);
    ("RecommendedCurveANSIX9C2PNB368W1", 0x00000035);
    ("RecommendedCurveANSIX9C2TNB431R1", 0x00000036);
    ("RecommendedCurveBRAINPOOLP160R1", 0x00000037);
    ("RecommendedCurveBRAINPOOLP160T1", 0x00000038);
    ("RecommendedCurveBRAINPOOLP192R1", 0x00000039);
    ("RecommendedCurveBRAINPOOLP192T1", 0x0000003a);
    ("RecommendedCurveBRAINPOOLP224R1", 0x0000003b);
    ("RecommendedCurveBRAINPOOLP224T1", 0x0000003c);
    ("RecommendedCurveBRAINPOOLP256R1", 0x0000003d);
    ("RecommendedCurveBRAINPOOLP256T1", 0x0000003e);
    ("RecommendedCurveBRAINPOOLP320R1", 0x0000003f);
    ("RecommendedCurveBRAINPOOLP320T1", 0x00000040);
    ("RecommendedCurveBRAINPOOLP384R1", 0x00000041);
    ("RecommendedCurveBRAINPOOLP384T1", 0x00000042);
    ("RecommendedCurveBRAINPOOLP512R1", 0x00000043);
    ("RecommendedCurveBRAINPOOLP512T1", 0x00000044); ("RecommendedCurveCURVE25519", 0x00000045);
    ("RecommendedCurveCURVE448", 0x00000046)];
  et_names := [
    ("RecommendedCurveP_192", "P-192"); ("RecommendedCurveK_163", "K-163");
    ("RecommendedCurveB_163", "B-163"); ("RecommendedCurveP_224", "P-224");
    ("RecommendedCurveK_233", "K-233"); ("RecommendedCurveB_233", "B-233");
    ("RecommendedCurveP_256", "P-256"); ("RecommendedCurveK_283", "K-283");
    ("RecommendedCurveB_283", "B-283"); ("RecommendedCurveP_384", "P-384");
    ("RecommendedCurveK_409", "K-409"); ("RecommendedCurveB_409", "B-409");
    ("RecommendedCurveP_521", "P-521"); ("RecommendedCurveK_571", "K-571");
    ("RecommendedCurveB_571", "B-571"); ("RecommendedCurveSECP112R1", "SECP112R1");
    ("RecommendedCurveSECP112R2", "SECP112R2"); ("RecommendedCurveSECP128R1", "SECP128R1");
    ("RecommendedCurveSECP128R2", "SECP128R2"); ("RecommendedCurveSECP160K1", "SECP160K1");
    ("RecommendedCurveSECP160R1", "SECP160R1"); ("RecommendedCurveSECP160R2", "SECP160R2");
    ("RecommendedCurveSECP192K1", "SECP192K1"); ("RecommendedCurveSECP224K1", "SECP224K1");
    ("RecommendedCurveSECP256K1", "SECP256K1"); ("RecommendedCurveSECT113R1", "SECT113R1");
    ("RecommendedCurveSECT113R2", "SECT113R2"); ("RecommendedCurveSECT131R1", "SECT131R1");
    ("RecommendedCurveSECT131R2", "SECT131R2"); ("RecommendedCurveSECT163R1", "SECT163R1");
    ("RecommendedCurveSECT193R1", "SECT193R1"); ("RecommendedCurveSECT193R2", "SECT193R2");
    ("RecommendedCurveSECT239K1", "SECT239K1"); ("RecommendedCurveANSIX9P192V2", "ANSIX9P192V2");
    ("RecommendedCurveANSIX9P192V3", "ANSIX9P192V3");
    ("RecommendedCurveANSIX9P239V1", "ANSIX9P239V1");
    ("RecommendedCurveANSIX9P239V2", "ANSIX9P239V2");
    ("RecommendedCurveANSIX9P239V3", "ANSIX9P239V3");
    ("RecommendedCurveANSIX9C2PNB163V1", "ANSIX9C2PNB163V1");
    ("RecommendedCurveANSIX9C2PNB163V2", "ANSIX9C2PNB163V2");
    ("RecommendedCurveANSIX9C2PNB163V3", "ANSIX9C2PNB163V3");
    ("RecommendedCurveANSIX9C2PNB176V1", "ANSIX9C2PNB176V1");
    ("RecommendedCurveANSIX9C2TNB191V1", "ANSIX9C2TNB191V1");
    ("RecommendedCurveANSIX9C2TNB191V2", "ANSIX9C2TNB191V2");
    ("RecommendedCurveANSIX9C2TNB191V3", "ANSIX9C2TNB191V3");
    ("RecommendedCurveANSIX9C2PNB208W1", "ANSIX9C2PNB208W1");
    ("RecommendedCurveANSIX9C2TNB239V1", "ANSIX9C2TNB239V1");
    ("RecommendedCurveANSIX9C2TNB239V2", "ANSIX9C2TNB239V2");
    ("RecommendedCurveANSIX9C2TNB239V3", "ANSIX9C2TNB239V3");
    ("RecommendedCurveANSIX9C2PNB272W1", "ANSIX9C2PNB272W1");
    ("RecommendedCurveANSIX9C2PNB304W1", "ANSIX9C2PNB304W1");
    ("RecommendedCurveANSIX9C2TNB359V1", "ANSIX9C2TNB359V1");
    ("RecommendedCurveANSIX9C2PNB368W1", "ANSIX9C2PNB368W1");
    ("RecommendedCurveANSIX9C2TNB431R1", "ANSIX9C2TNB431R1");
    ("RecommendedCurveBRAINPOOLP160R1", "BRAINPOOLP160R1");
    ("RecommendedCurveBRAINPOOLP160T1", "BRAINPOOLP160T1");
    ("RecommendedCurveBRAINPOOLP192R1", "BRAINPOOLP192R1");
    ("RecommendedCurveBRAINPOOLP192T1", "BRAINPOOLP192T1");
    ("RecommendedCurveBRAINPOOLP224R1", "BRAINPOOLP224R1");
    ("RecommendedCurveBRAINPOOLP224T1", "BRAINPOOLP224T1");
    ("RecommendedCurveBRAINPOOLP256R1", "BRAINPOOLP256R1");
    ("RecommendedCurveBRAINPOOLP256T1", "BRAINPOOLP256T1");
    ("RecommendedCurveBRAINPOOLP320R1", "BRAINPOOLP320R1");
    ("RecommendedCurveBRAINPOOLP320T1", "BRAINPOOLP320T1");
    ("RecommendedCurveBRAINPOOLP384R1", "BRAINPOOLP384R1");
    ("RecommendedCurveBRAINPOOLP384T1", "BRAINPOOLP384T1");
    ("RecommendedCurveBRAINPOOLP512R1", "BRAINPOOLP512R1");
    ("RecommendedCurveBRAINPOOLP512T1", "BRAINPOOLP512T1");
    ("RecommendedCurveCURVE25519", "CURVE25519"); ("RecommendedCurveCURVE448", "CURVE448")];
  et_bitmask := false |}.

Definition ResultReason : EnumType := {|
  et_name := "ResultReason";
  et_consts := [
    ("ResultReasonItemNotFound", 0x00000001); ("ResultReasonResponseTooLarge", 0x00000002);
    ("ResultReasonAuthenticationNotSuccessful", 0x00000003);
    ("ResultReasonInvalidMessage", 0x00000004); ("ResultReasonOperationNotSupported", 0x00000005);
    ("ResultReasonMissingData", 0x00000006); ("ResultReasonInvalidField", 0x00000007);
    ("ResultReasonFeatureNotSupported", 0x00000008);
    ("ResultReasonOperationCanceledByRequester", 0x00000009);
    ("ResultReasonCryptographicFailure", 0x0000000a); ("ResultReasonIllegalOperation", 0x0000000b);
    ("ResultReasonPermissionDenied", 0x0000000c); ("ResultReasonObjectArchived", 0x0000000d);
    ("ResultReasonIndexOutOfBounds", 0x0000000e);
    ("ResultReasonApplicationNamespaceNotSupported", 0x0000000f);
    ("ResultReasonKeyFormatTypeNotSupported", 0x00000010);
    ("ResultReasonKeyCompressionTypeNotSupported", 0x00000011);
    ("ResultReasonEncodingOptionError", 0x00000012);
    ("ResultReasonKeyValueNotPresent", 0x00000013);
    ("ResultReasonAttestationRequired", 0x00000014); ("ResultReasonAttestationFailed", 0x00000015);
    ("ResultReasonSensitive", 0x00000016); ("ResultReasonNotExtractable", 0x00000017);
    ("ResultReasonObjectAlreadyExists", 0x00000018); ("ResultReasonInvalidTicket", 0x00000019);
    ("ResultReasonUsageLimitExceeded", 0x0000001a); ("ResultReasonNumericRange", 0x0000001b);
    ("ResultReasonInvalidDataType", 0x0000001c); ("ResultReasonReadOnlyAttribute", 0x0000001d);
    ("ResultReasonMultiValuedAttribute", 0x0000001e);
    ("ResultReasonUnsupportedAttribute", 0x0000001f);
    ("ResultReasonAttributeInstanceNotFound", 0x00000020);
    ("ResultReasonAttributeNotFound", 0x00000021); ("ResultReasonAttributeReadOnly", 0x00000022);
    ("ResultReasonAttributeSingleValued", 0x00000023);
    ("ResultReasonBadCryptographicParameters", 0x00000024);
    ("ResultReasonBadPassword", 0x00000025); ("ResultReasonCodecError", 0x00000026);
    ("ResultReasonIllegalObjectType", 0x00000028);
    ("ResultReasonIncompatibleCryptographicUsageMask", 0x00000029);
    ("ResultReasonInternalServerError", 0x0000002a);
    ("ResultReasonInvalidAsynchronousCorrelationValue", 0x0000002b);
    ("ResultReasonInvalidAttribute", 0x0000002c);
    ("ResultReasonInvalidAttributeValue", 0x0000002d);
    ("ResultReasonInvalidCorrelationValue", 0x0000002e); ("ResultReasonInvalidCSR", 0x0000002f);
    ("ResultReasonInvalidObjectType", 0x00000030);
    ("ResultReasonKeyWrapTypeNotSupported", 0x00000032);
    ("ResultReasonMissingInitializationVector", 0x00000034);
    ("ResultReasonNonUniqueNameAttribute", 0x00000035);
    ("ResultReasonObjectDestroyed", 0x00000036); ("ResultReasonObjectNotFound", 0x00000037);
    ("ResultReasonNotAuthorized", 0x00000039); ("ResultReasonServerLimitExceeded", 0x0000003a);
    ("ResultReasonUnknownEnumeration", 0x0000003b);
    ("ResultReasonUnknownMessageExtension", 0x0000003c); ("ResultReasonUnknownTag", 0x0000003d);
    ("ResultReasonUnsupportedCryptographicParameters", 0x0000003e);
    ("ResultReasonUnsupportedProtocolVersion", 0x0000003f);
    ("ResultReasonWrappingObjectArchived", 0x00000040);
    ("ResultReasonWrappingObjectDestroyed", 0x00000041);
    ("ResultReasonWrappingObjectNotFound", 0x00000042);
    ("ResultReasonWrongKeyLifecycleState", 0x00000043);
    ("ResultReasonProtectionStorageUnavailable", 0x00000044);
    ("ResultReasonPKCS_11CodecError", 0x00000045);
    ("ResultReasonPKCS_11InvalidFunction", 0x00000046);
    ("ResultReasonPKCS_11InvalidInterface", 0x00000047); ("ResultReasonGeneralFailure", 0x00000100)];
  et_names := [
    ("ResultReasonItemNotFound", "Item Not Found");
    ("ResultReasonResponseTooLarge", "Response Too Large");
    ("ResultReasonAuthenticationNotSuccessful", "Authentication Not Successful");
    ("ResultReasonInvalidMessage", "Invalid Message");
    ("ResultReasonOperationNotSupported", "Operation Not Supported");
    ("ResultReasonMissingData", "Missing Data"); ("ResultReasonInvalidField", "Invalid Field");
    ("ResultReasonFeatureNotSupported", "Feature Not Supported");
    ("ResultReasonOperationCanceledByRequester", "Operation Canceled By Requester");
    ("ResultReasonCryptographicFailure", "Cryptographic Failure");
    ("ResultReasonIllegalOperation", "Illegal Operation");
    ("ResultReasonPermissionDenied", "Permission Denied");
    ("ResultReasonObjectArchived", "Object archived");
    ("ResultReasonIndexOutOfBounds", "Index Out of Bounds");
    ("ResultReasonApplicationNamespaceNotSupported", "Application Namespace Not Supported");
    ("ResultReasonKeyFormatTypeNotSupported", "Key Format Type Not Supported");
    ("ResultReasonKeyCompressionTypeNotSupported", "Key Compression Type Not Supported");
    ("ResultReasonEncodingOptionError", "Encoding Option Error");
    ("ResultReasonKeyValueNotPresent", "Key Value Not Present");
    ("ResultReasonAttestationRequired", "Attestation Required");
    ("ResultReasonAttestationFailed", "Attestation Failed");
    ("ResultReasonSensitive", "Sensitive"); ("ResultReasonNotExtractable", "Not Extractable");
    ("ResultReasonObjectAlreadyExists", "Object Already Exists");
    ("ResultReasonInvalidTicket", "Invalid Ticket");
    ("ResultReasonUsageLimitExceeded", "Usage Limit Exceeded");
    ("ResultReasonNumericRange", "Numeric Range");
    ("ResultReasonInvalidDataType", "Invalid Data Type");
    ("ResultReasonReadOnlyAttribute", "Read Only Attribute");
    ("ResultReasonMultiValuedAttribute", "Multi Valued Attribute");
    ("ResultReasonUnsupportedAttribute", "Unsupported Attribute");
    ("ResultReasonAttributeInstanceNotFound", "Attribute Instance Not Found");
    ("ResultReasonAttributeNotFound", "Attribute Not Found");
    ("ResultReasonAttributeReadOnly", "Attribute Read Only");
    ("ResultReasonAttributeSingleValued", "Attribute Single Valued");
    ("ResultReasonBadCryptographicParameters", "Bad Cryptographic Parameters");
    ("ResultReasonBadPassword", "Bad Password"); ("ResultReasonCodecError", "Codec Error");
    ("ResultReasonIllegalObjectType", "Illegal Object Type");
    ("ResultReasonIncompatibleCryptographicUsageMask", "Incompatible Cryptographic Usage Mask");
    ("ResultReasonInternalServerError", "Internal Server Error");
    ("ResultReasonInvalidAsynchronousCorrelationValue", "Invalid Asynchronous Correlation Value");
    ("ResultReasonInvalidAttribute", "Invalid Attribute");
    ("ResultReasonInvalidAttributeValue", "Invalid Attribute Value");
    ("ResultReasonInvalidCorrelationValue", "Invalid Correlation Value");
    ("ResultReasonInvalidCSR", "Invalid CSR");
    ("ResultReasonInvalidObjectType", "Invalid Object Type");
    ("ResultReasonKeyWrapTypeNotSupported", "Key Wrap Type Not Supported");
    ("ResultReasonMissingInitializationVector", "Missing Initialization Vector");
    ("ResultReasonNonUniqueNameAttribute", "Non Unique Name Attribute");
    ("ResultReasonObjectDestroyed", "Object Destroyed");
    ("ResultReasonObjectNotFound", "Object Not Found");
    ("ResultReasonNotAuthorized", "Not Authorized");
    ("ResultReasonServerLimitExceeded", "Server Limit Exceeded");
    ("ResultReasonUnknownEnumeration", "Unknown Enumeration");
    ("ResultReasonUnknownMessageExtension", "Unknown Message Extension");
    ("ResultReasonUnknownTag", "Unknown Tag");
    ("ResultReasonUnsupportedCryptographicParameters", "Unsupported Cryptographic Parameters");
    ("ResultReasonUnsupportedProtocolVersion", "Unsupported Protocol Version");
    ("ResultReasonWrappingObjectArchived", "Wrapping Object Archived");
    ("ResultReasonWrappingObjectDestroyed", "Wrapping Object Destroyed");
    ("ResultReasonWrappingObjectNotFound", "Wrapping Object Not Found");
    ("ResultReasonWrongKeyLifecycleState", "Wrong Key Lifecycle State");
    ("ResultReasonProtectionStorageUnavailable", "Protection Storage Unavailable");
    ("ResultReasonPKCS_11CodecError", "PKCS#11 Codec Error ");
    ("ResultReasonPKCS_11InvalidFunction", "PKCS#11 Invalid Function ");
    ("ResultReasonPKCS_11InvalidInterface", "PKCS#11 Invalid Interface");
    ("ResultReasonGeneralFailure", "General Failure")];
  et_bitmask := false |}.

Definition AdjustmentType : EnumType := {|
  et_name := "AdjustmentType";
  et_consts := [
    ("AdjustmentTypeIncrement", 0x00000001); ("AdjustmentTypeDecrement", 0x00000002);
    ("AdjustmentTypeNegate", 0x00000003)];
  et_names := [
    ("AdjustmentTypeIncrement", "Increment"); ("AdjustmentTypeDecrement", "Decrement");
    ("AdjustmentTypeNegate", "Negate")];
  et_bitmask := false |}.

Definition AsynchronousIndicator : EnumType := {|
  et_name := "AsynchronousIndicator";
  et_consts := [
    ("AsynchronousIndicatorMandatory", 0x00000001); ("AsynchronousIndicatorOptional", 0x00000002);
    ("AsynchronousIndicatorProhibited", 0x00000003)];
  et_names := [
    ("AsynchronousIndicatorMandatory", "Mandatory"); ("AsynchronousIndicatorOptional", "Optional");
    ("AsynchronousIndicatorProhibited", "Prohibited")];
  et_bitmask := false |}.

Definition Data : EnumType := {|
  et_name := "Data";
  et_consts := [
    ("DataDecrypt", 0x00000001); ("DataEncrypt", 0x00000002); ("DataHash", 0x00000003);
    ("DataMACMACData", 0x00000004); ("DataRNGRetrieve", 0x00000005);
    ("DataSignSignatureData", 0x00000006); ("DataSignatureVerify", 0x00000007)];
  et_names := [
    ("DataDecrypt", "Decrypt"); ("DataEncrypt", "Encrypt"); ("DataHash", "Hash");
    ("DataMACMACData", "MAC MAC Data"); ("DataRNGRetrieve", "RNG Retrieve");
    ("DataSignSignatureData", "Sign Signature Data"); ("DataSignatureVerify", "Signature Verify")];
  et_bitmask := false |}.

Definition EndpointRole : EnumType := {|
  et_name := "EndpointRole";
  et_consts := [
    ("EndpointRoleClient", 0x00000001); ("EndpointRoleServer", 0x00000002)];
  et_names := [
    ("EndpointRoleClient", "Client"); ("EndpointRoleServer", "Server")];
  et_bitmask := false |}.

Definition InteropFunction : EnumType := {|
  et_name := "InteropFunction";
  et_consts := [
    ("InteropFunctionBegin", 0x00000001); ("InteropFunctionEnd", 0x00000002);
    ("InteropFunctionReset", 0x00000003)];
  et_names := [
    ("InteropFunctionBegin", "Begin"); ("InteropFunctionEnd", "End");
    ("InteropFunctionReset", "Reset")];
  et_bitmask := false |}.

Definition NISTKeyType : EnumType := {|
  et_name := "NISTKeyType";
  et_consts := [
    ("NISTKeyTypePrivateSignatureKey", 0x00000001);
    ("NISTKeyTypePublicSignatureVerificationKey", 0x00000002);
    ("NISTKeyTypeSymmetricAuthenticationKey", 0x00000003);
    ("NISTKeyTypePrivateAuthenticationKey", 0x00000004);
    ("NISTKeyTypePublicAuthenticationKey", 0x00000005);
    ("NISTKeyTypeSymmetricDataEncryptionKey", 0x00000006);
    ("NISTKeyTypeSymmetricKeyWrappingKey", 0x00000007);
    ("NISTKeyTypeSymmetricRandomNumberGenerationKey", 0x00000008);
    ("NISTKeyTypeSymmetricMasterKey", 0x00000009);
    ("NISTKeyTypePrivateKeyTransportKey", 0x0000000a);
    ("NISTKeyTypePublicKeyTransportKey", 0x0000000b);
    ("NISTKeyTypeSymmetricKeyAgreementKey", 0x0000000c);
    ("NISTKeyTypePrivateStaticKeyAgreementKey", 0x0000000d);
    ("NISTKeyTypePublicStaticKeyAgreementKey", 0x0000000e);
    ("NISTKeyTypePrivateEphemeralKeyAgreementKey", 0x0000000f);
    ("NISTKeyTypePublicEphemeralKeyAgreementKey", 0x00000010);
    ("NISTKeyTypeSymmetricAuthorizationKey", 0x00000011);
    ("NISTKeyTypePrivateAuthorizationKey", 0x00000012);
    ("NISTKeyTypePublicAuthorizationKey", 0x00000013)];
  et_names := [
    ("NISTKeyTypePrivateSignatureKey", "Private signature key");
    ("NISTKeyTypePublicSignatureVerificationKey", "Public signature verification key");
    ("NISTKeyTypeSymmetricAuthenticationKey", "Symmetric authentication key");
    ("NISTKeyTypePrivateAuthenticationKey", "Private authentication key");
    ("NISTKeyTypePublicAuthenticationKey", "Public authentication key");
    ("NISTKeyTypeSymmetricDataEncryptionKey", "Symmetric data encryption key");
    ("NISTKeyTypeSymmetricKeyWrappingKey", "Symmetric key wrapping key");
    ("NISTKeyTypeSymmetricRandomNumberGenerationKey", "Symmetric random number generation key");
    ("NISTKeyTypeSymmetricMasterKey", "Symmetric master key");
    ("NISTKeyTypePrivateKeyTransportKey", "Private key transport key");
    ("NISTKeyTypePublicKeyTransportKey", "Public key transport key");
    ("NISTKeyTypeSymmetricKeyAgreementKey", "Symmetric key agreement key");
    ("NISTKeyTypePrivateStaticKeyAgreementKey", "Private static key agreement key");
    ("NISTKeyTypePublicStaticKeyAgreementKey", "Public static key agreement key");
    ("NISTKeyTypePrivateEphemeralKeyAgreementKey", "Private ephemeral key agreement key");
    ("NISTKeyTypePublicEphemeralKeyAgreementKey", "Public ephemeral key agreement key");
    ("NISTKeyTypeSymmetricAuthorizationKey", "Symmetric authorization key");
    ("NISTKeyTypePrivateAuthorizationKey", "Private authorization key");
    ("NISTKeyTypePublicAuthorizationKey", "Public authorization key")];
  et_bitmask := false |}.

Definition PKCS_11Function : EnumType := {|
  et_name := "PKCS_11Function";
  et_consts := [];
  et_names := [];
  et_bitmask := false |}.

Definition PKCS_11ReturnCode : EnumType := {|
  et_name := "PKCS_11ReturnCode";
  et_consts := [];
  et_names := [];
  et_bitmask := false |}.

Definition ProtectionLevel : EnumType := {|
  et_name := "ProtectionLevel";
  et_consts := [
    ("ProtectionLevelHigh", 0x00000001); ("ProtectionLevelLow", 0x00000002)];
  et_names := [
    ("ProtectionLevelHigh", "High"); ("ProtectionLevelLow", "Low")];
  et_bitmask := false |}.

Definition TicketType : EnumType := {|
  et_name := "TicketType";
  et_consts := [
    ("TicketTypeLogin", 0x00000001)];
  et_names := [
    ("TicketTypeLogin", "Login")];
  et_bitmask := false |}.

Definition UniqueIdentifier : EnumType := {|
  et_name := "UniqueIdentifier";
  et_consts := [
    ("UniqueIdentifierIDPlaceholder", 0x00000001); ("UniqueIdentifierCertify", 0x00000002);
    ("UniqueIdentifierCreate", 0x00000003); ("UniqueIdentifierCreateKeyPair", 0x00000004);
    ("UniqueIdentifierCreateKeyPairPrivateKey", 0x00000005);
    ("UniqueIdentifierCreateKeyPairPublicKey", 0x00000006);
    ("UniqueIdentifierCreateSplitKey", 0x00000007); ("UniqueIdentifierDeriveKey", 0x00000008);
    ("UniqueIdentifierImport", 0x00000009); ("UniqueIdentifierJoinSplitKey", 0x0000000a);
    ("UniqueIdentifierLocate", 0x0000000b); ("UniqueIdentifierRegister", 0x0000000c);
    ("UniqueIdentifierReKey", 0x0000000d); ("UniqueIdentifierReCertify", 0x0000000e);
    ("UniqueIdentifierReKeyKeyPair", 0x0000000f);
    ("UniqueIdentifierReKeyKeyPairPrivateKey", 0x00000010);
    ("UniqueIdentifierReKeyKeyPairPublicKey", 0x00000011)];
  et_names := [
    ("UniqueIdentifierIDPlaceholder", "ID Placeholder"); ("UniqueIdentifierCertify", "Certify");
    ("UniqueIdentifierCreate", "Create"); ("UniqueIdentifierCreateKeyPair", "Create Key Pair");
    ("UniqueIdentifierCreateKeyPairPrivateKey", "Create Key Pair Private Key");
    ("UniqueIdentifierCreateKeyPairPublicKey", "Create Key Pair Public Key");
    ("UniqueIdentifierCreateSplitKey", "Create Split Key");
    ("UniqueIdentifierDeriveKey", "Derive Key"); ("UniqueIdentifierImport", "Import");
    ("UniqueIdentifierJoinSplitKey", "Join Split Key"); ("UniqueIdentifierLocate", "Locate");
    ("UniqueIdentifierRegister", "Register"); ("UniqueIdentifierReKey", "Re-key");
    ("UniqueIdentifierReCertify", "Re-certify");
    ("UniqueIdentifierReKeyKeyPair", "Re-key Key Pair");
    ("UniqueIdentifierReKeyKeyPairPrivateKey", "Re-key Key Pair Private Key");
    ("UniqueIdentifierReKeyKeyPairPublicKey", "Re-key Key Pair Public Key")];
  et_bitmask := false |}.

Definition ProtectionStorageMask : EnumType := {|
  et_name := "ProtectionStorageMask";
  et_consts := [
    ("ProtectionStorageMaskSoftware", 0x00000001); ("ProtectionStorageMaskHardware", 0x00000002);
    ("ProtectionStorageMaskOnProcessor", 0x00000004);
    ("ProtectionStorageMaskOnSystem", 0x00000008); ("ProtectionStorageMaskOffSystem", 0x00000010);
    ("ProtectionStorageMaskHypervisor", 0x00000020);
    ("ProtectionStorageMaskOperatingSystem", 0x00000040);
    ("ProtectionStorageMaskContainer", 0x00000080);
    ("ProtectionStorageMaskOnPremises", 0x00000100);
    ("ProtectionStorageMaskOffPremises", 0x00000200);
    ("ProtectionStorageMaskSelfManaged", 0x00000400);
    ("ProtectionStorageMaskOutsourced", 0x00000800);
    ("ProtectionStorageMaskValidated", 0x00001000);
    ("ProtectionStorageMaskSameJurisdiction", 0x00002000)];
  et_names := [
    ("ProtectionStorageMaskSoftware", "Software"); ("ProtectionStorageMaskHardware", "Hardware");
    ("ProtectionStorageMaskOnProcessor", "On Processor");
    ("ProtectionStorageMaskOnSystem", "On System");
    ("ProtectionStorageMaskOffSystem", "Off System");
    ("ProtectionStorageMaskHypervisor", "Hypervisor");
    ("ProtectionStorageMaskOperatingSystem", "Operating System");
    ("ProtectionStorageMaskContainer", "Container");
    ("ProtectionStorageMaskOnPremises", "On Premises");
    ("ProtectionStorageMaskOffPremises", "Off Premises");
    ("ProtectionStorageMaskSelfManaged", "Self Managed");
    ("ProtectionStorageMaskOutsourced", "Outsourced");
    ("ProtectionStorageMaskValidated", "Validated");
    ("ProtectionStorageMaskSameJurisdiction", "Same Jurisdiction")];
  et_bitmask := true |}.

(** * Registration *)

Definition enumTable : list (string * EnumType) := [
    ("CredentialType", CredentialType); ("CryptographicAlgorithm", CryptographicAlgorithm);
    ("DerivationMethod", DerivationMethod); ("LinkType", LinkType); ("ObjectType", ObjectType);
    ("Operation", Operation); ("ProfileName", ProfileName); ("QueryFunction", QueryFunction);
    ("RecommendedCurve", RecommendedCurve); ("ResultReason", ResultReason);
    ("AdjustmentType", AdjustmentType); ("AsynchronousIndicator", AsynchronousIndicator);
    ("Data", Data); ("EndpointRole", EndpointRole); ("InteropFunction", InteropFunction);
    ("NISTKeyType", NISTKeyType); ("PKCS_11Function", PKCS_11Function);
    ("PKCS_11ReturnCode", PKCS_11ReturnCode); ("ProtectionLevel", ProtectionLevel);
    ("TicketType", TicketType); ("UniqueIdentifier", UniqueIdentifier); ("Link", UniqueIdentifier);
    ("ProtectionStorageMask", ProtectionStorageMask)].

Definition package : Package := {|
  pkg_tagConsts := tagConsts1;
  pkg_tagNames := tagNames1;
  pkg_enums := enumTable |}.

Definition enumTypes : list EnumType := [
    CredentialType; CryptographicAlgorithm; DerivationMethod; LinkType; ObjectType; Operation;
    ProfileName; QueryFunction; RecommendedCurve; ResultReason; AdjustmentType;
    AsynchronousIndicator; Data; EndpointRole; InteropFunction; NISTKeyType; PKCS_11Function;
    PKCS_11ReturnCode; ProtectionLevel; TicketType; UniqueIdentifier; ProtectionStorageMask].
