(* ===== verification/DefaultRegistry.v ===== *)
(** The registry the program uses: [ttlv.DefaultRegistry] after the package
    initializers of ttlv, kmip14 and kmip20 (src/ttlv/registry.go,
    src/kmip14/kmip_1_4.go, src/kmip20/kmip_2_0_additions.go). *)
From Stdlib Require Import ZArith Lia Ascii String.
From stdpp Require Import base list strings numbers gmap sorting.
From S2P Require Import Prelude Ttlv Grammar EncBuf Hex Names Registry Formatting Generated.
From S2P Require Import Kmip14.
From S2P Require Import Kmip20.
Local Open Scope Z_scope.

Definition TagAttributeReference : Z := 0x42013b.
Definition TagExtensionType : Z := 0x4200a7.

Example constants_ok :
  assoc "TagAttributeReference" (pkg_tagConsts Kmip20.package) = Some TagAttributeReference ∧
  assoc "TagExtensionType" (pkg_tagConsts Kmip14.package) = Some TagExtensionType.
Proof. vm_compute. done. Qed.

(** [kmip14.Register] and [kmip20.Register] on the default registry. *)
Definition Register14 `{TitleCaser} (r : Registry) : res perr Registry :=
  RegisterGeneratedDefinitions None Kmip14.package r.

Definition Register20 `{TitleCaser} (r : Registry) : res perr Registry :=
  let r := Registry_RegisterEnum r TagAttributeReference (Registry_Tags r) in
  let r := Registry_RegisterEnum r TagExtensionType (Registry_Types r) in
  RegisterGeneratedDefinitions None Kmip20.package r.

(** The initializers, in the order of the imports: ttlv, kmip14, kmip20. *)
Definition initRegistry `{TitleCaser} : res perr Registry :=
  r ← Register14 (RegisterTypes emptyRegistry); Register20 r.

(** * The tables pass the checks *)

Abbreviation allTags := (pkg_tags Kmip14.package ++ pkg_tags Kmip20.package).

Lemma tags14_ok : entriesOk (pkg_tags Kmip14.package) = true.
Proof. vm_compute. reflexivity. Qed.
Lemma allTags_ok : entriesOk allTags = true.
Proof. vm_compute. reflexivity. Qed.
Lemma typeNames_ok : entriesOk typeNames = true.
Proof. vm_compute. reflexivity. Qed.
(** The enumeration and mask types the two generated packages declare. *)
Definition generatedEnums : list EnumType := Kmip14.enumTypes ++ Kmip20.enumTypes.

Lemma enumTypes14_ok : forallb et_ok Kmip14.enumTypes = true.
Proof. vm_compute. reflexivity. Qed.
Lemma enumTypes20_ok : forallb et_ok Kmip20.enumTypes = true.
Proof. vm_compute. reflexivity. Qed.

Lemma tableNames_ok :
  forallb (λ p, namingOk "Tag" (pkg_tagNames p) && sameKeys (pkg_tagConsts p) (pkg_tagNames p))
    [Kmip14.package; Kmip20.package] = true.
Proof. vm_compute. reflexivity. Qed.

(** The tags the two enumeration tables are registered for. *)
Definition enumTags14 : list (Z * EnumType) :=
  default [] (enumTags (pkg_tags Kmip14.package) (pkg_enums Kmip14.package)).
Definition enumTags20 : list (Z * EnumType) :=
  default [] (enumTags allTags (pkg_enums Kmip20.package)).

Lemma enumTags14_ok :
  enumTags (pkg_tags Kmip14.package) (pkg_enums Kmip14.package) = Some enumTags14.
Proof. vm_compute. reflexivity. Qed.
Lemma enumTags20_ok : enumTags allTags (pkg_enums Kmip20.package) = Some enumTags20.
Proof. vm_compute. reflexivity. Qed.

Lemma enumTags_types_ok :
  forallb (λ x, et_ok x.2) (enumTags14 ++ enumTags20) = true.
Proof. vm_compute. reflexivity. Qed.

(** Every enumeration of 1.4 that 2.0 registers again keeps its values. *)
Definition extendsOk (x : Z * EnumType) : bool :=
  match lastFor enumTags20 x.1 with
  | Some et => forallb (λ e, bool_decide (e ∈ et_entries et)) (et_entries x.2)
  | None => negb (x.1 =? TagExtensionType) && negb (x.1 =? TagAttributeReference)
  end.

Lemma extends_ok : forallb extendsOk enumTags14 = true.
Proof. vm_compute. reflexivity. Qed.

(** * The registry after initialization *)

Definition theTags `{TitleCaser} : Enum := registerAll (blankEnum false) allTags.
Definition theTypes `{TitleCaser} : Enum := registerAll (blankEnum false) typeNames.
Definition theRegistry `{TitleCaser} : Registry :=
  layered enumTags14 enumTags20 TagAttributeReference TagExtensionType theTags theTypes.

Section Init.
Context (tc : TitleCaser) (Htc : titleCaserOk tc).

Lemma RegisterTypes_eq : RegisterTypes emptyRegistry = mkRegistry ∅ NewEnum theTypes.
Proof.
  unfold RegisterTypes, theTypes, emptyRegistry. change (blankEnum false) with NewEnum.
  generalize NewEnum at 2 4. induction typeNames as [|[v n] l IH]; intros r; [done|].
  cbn [foldl]. unfold Registry_RegisterType at 2. cbn [types enums tags]. by rewrite IH.
Qed.

Lemma Register14_eq :
  Register14 (RegisterTypes emptyRegistry) =
  Ok (mkRegistry (insertEnums ∅ enumTags14)
        (registerAll (blankEnum false) (pkg_tags Kmip14.package)) theTypes).
Proof.
  unfold Register14. rewrite RegisterTypes_eq.
  rewrite (RegisterGeneratedDefinitions_eq Kmip14.package _ [] enumTags14);
    rewrite ?app_nil_l; [reflexivity|exact Htc|reflexivity|exact tags14_ok|exact enumTags14_ok].
Qed.

Lemma initRegistry_eq : initRegistry = Ok theRegistry.
Proof.
  unfold initRegistry. rewrite Register14_eq. cbn [mbind res_bind]. unfold Register20.
  rewrite (RegisterGeneratedDefinitions_eq Kmip20.package _ (pkg_tags Kmip14.package) enumTags20);
    [|exact Htc|reflexivity|exact allTags_ok|exact enumTags20_ok].
  unfold theRegistry, layered, theTags. cbn [enums types Registry_RegisterEnum].
  reflexivity.
Qed.

Lemma theTags_laws : EnumMapLaws (Enum_EnumMap theTags).
Proof. exact (entriesOk_laws tc false _ Htc allTags_ok). Qed.

Lemma theTypes_laws : EnumMapLaws (Enum_EnumMap theTypes).
Proof. exact (entriesOk_laws tc false _ Htc typeNames_ok). Qed.

Lemma theRegistry_laws t m : Registry_EnumForTag theRegistry t = Some m → EnumMapLaws m.
Proof.
  exact (layered_laws _ _ _ _ _ _ t m Htc enumTags_types_ok theTags_laws theTypes_laws).
Qed.

(** An enumeration of 1.4 under the full registry. *)
Lemma extends_names ps14 ps20 tg t m v n :
  forallb extendsOk ps14 = true → ps20 = enumTags20 →
  forallb (λ x, et_ok x.2) (ps14 ++ ps20) = true →
  Registry_EnumForTag (mkRegistry (insertEnums ∅ ps14) tg theTypes) t = Some m →
  em_Name m v = Some n →
  ∃ m, Registry_EnumForTag (layered ps14 ps20 TagAttributeReference TagExtensionType
         theTags theTypes) t = Some m ∧ em_Name m v = Some n.
Proof.
  intros Hext -> Hok Hm Hn. unfold Registry_EnumForTag in Hm. cbn [enums] in Hm.
  rewrite insertEnums_lookup, lookup_empty in Hm.
  destruct (lastFor ps14 t) as [et|] eqn:Hl; [|done]. cbn in Hm. injection Hm as <-.
  cbn [em_Name Enum_EnumMap] in Hn. rewrite List.forallb_app in Hok. apply andb_prop in Hok as [H1 H2].
  rewrite List.forallb_forall in Hext. specialize (Hext (t, et) (lastFor_In _ _ _ Hl)).
  unfold extendsOk in Hext. cbn [fst snd] in Hext. rewrite layered_EnumForTag.
  destruct (lastFor enumTags20 t) as [et'|] eqn:E2.
  - eexists. split; [done|]. cbn [em_Name Enum_EnumMap].
    pose proof (lastFor_ok _ _ _ H1 Hl) as Hok1. pose proof (lastFor_ok _ _ _ H2 E2) as Hok2.
    apply (et_Name et' v n Htc Hok2). apply (et_Name et v n Htc Hok1) in Hn as (n' & Hin & ->).
    rewrite List.forallb_forall in Hext.
    specialize (Hext _ (proj1 (list_elem_of_In _ _) Hin)). apply bool_decide_eq_true_1 in Hext.
    eauto.
  - apply andb_prop in Hext as [Ha%negb_true_iff Hb%negb_true_iff]. rewrite Ha, Hb, Hl.
    eexists. split; [done|]. done.
Qed.
End Init.

(** * Properties *)

(** C29. Initialization succeeds: registering the types, the 1.4 and the 2.0
    definitions does not panic, and afterwards the tag table, the type table
    and the enumeration of every tag obey the laws of [EnumMap]. *)
Theorem DefaultRegistry_init (tc : TitleCaser) :
  titleCaserOk tc →
  ∃ r, initRegistry = Ok r ∧
    EnumMapLaws (Enum_EnumMap (tags r)) ∧ EnumMapLaws (Enum_EnumMap (types r)) ∧
    ∀ t m, Registry_EnumForTag r t = Some m → EnumMapLaws m.
Proof.
  intros Htc. exists theRegistry. split; [by apply initRegistry_eq|].
  split; [by apply theTags_laws|]. split; [by apply theTypes_laws|]. by apply theRegistry_laws.
Qed.

Lemma DefaultRegistry_init_witness :
  ∃ r, @initRegistry asciiCaser = Ok r ∧
    EnumMapLaws (Enum_EnumMap (tags r)) ∧ EnumMapLaws (Enum_EnumMap (types r)) ∧
    ∀ t m, Registry_EnumForTag r t = Some m → EnumMapLaws m.
Proof. apply DefaultRegistry_init. intros w _. reflexivity. Defined.

(** C28. With the default registry, the text forms are read back: every
    three-byte tag, every one-byte type, every 32-bit enumeration value under
    every tag, and every 32-bit signed integer other than zero under a tag whose
    enumeration has names.  (Zero is excluded: the text of an empty mask is
    empty, and [ParseInt] refuses it, see [FormatInt_unparseable].) *)
Theorem DefaultRegistry_text (tc : TitleCaser) r :
  titleCaserOk tc → initRegistry = Ok r →
  (∀ t, 0 ≤ t < 2 ^ 24 → Tag_UnmarshalText r (Tag_MarshalText r t) = Ok t) ∧
  (∀ t, 0 ≤ t < 256 → Type_UnmarshalText r (Type_MarshalText r t) = Ok t) ∧
  (∀ t v, is_u32 v → Registry_ParseEnum r t (Registry_FormatEnum r t v) = Ok v) ∧
  (∀ t m i, Registry_EnumForTag r t = Some m → em_Values m ≠ [] → is_i32 i → i ≠ 0 →
     Registry_ParseInt r t (Registry_FormatInt r t i) = Ok i).
Proof.
  intros Htc. rewrite initRegistry_eq by done. intros [= <-].
  unfold Tag_UnmarshalText, Tag_MarshalText, Type_UnmarshalText, Type_MarshalText.
  split; [|split; [|split]].
  - intros t Ht. rewrite String.string_of_list_byte_of_string.
    apply ParseTag_text; [by apply theTags_laws|done].
  - intros t Ht. rewrite String.string_of_list_byte_of_string.
    apply ParseType_text; [by apply theTypes_laws|done].
  - intros t v Hv. apply ParseEnum_text; [|done].
    destruct (Registry_EnumForTag theRegistry t) as [m|] eqn:E; [|exact I].
    by apply (theRegistry_laws tc Htc t).
  - intros t m i Hm Hne Hi H0. unfold Registry_ParseInt, Registry_FormatInt. rewrite Hm.
    apply ParseInt_text; [by apply (theRegistry_laws tc Htc t)|done..].
Qed.

Lemma DefaultRegistry_text_witness :
  let r := @theRegistry asciiCaser in
  Tag_UnmarshalText r (Tag_MarshalText r 0x420020) = Ok 0x420020 ∧
  Type_UnmarshalText r (Type_MarshalText r 7) = Ok 7 ∧
  Registry_ParseEnum r 0x420028 (Registry_FormatEnum r 0x420028 3) = Ok 3 ∧
  Registry_ParseInt r 0x42002c (Registry_FormatInt r 0x42002c (-4)) = Ok (-4).
Proof.
  intros r. assert (titleCaserOk asciiCaser) as Htc by (intros w _; reflexivity).
  destruct (DefaultRegistry_text asciiCaser r Htc (initRegistry_eq asciiCaser Htc)) as (Htag & Htype & Henum & Hmask).
  assert (from_option (λ m, 0 <? len (em_Values m)) false (Registry_EnumForTag r 0x42002c) = true) as Hm
    by (vm_compute; reflexivity).
  split_and!; [apply Htag; lia|apply Htype; lia|apply Henum; unfold is_u32; lia|].
  destruct (Registry_EnumForTag r 0x42002c) as [m|] eqn:Hr; [|discriminate Hm].
  apply (Hmask _ m); [exact Hr|intros He; cbn in Hm; by rewrite He in Hm|unfold is_i32; lia|lia].
Defined.

(** The generated constants are named after their values: the identifier
    of a constant is the name of its type followed by the normalized name, and
    for an enumeration [String] of the constant returns that name. *)
Theorem generated_constants (tc : TitleCaser) et c n :
  titleCaserOk tc → et ∈ generatedEnums → (c, n) ∈ et_names et →
  ∃ v, assoc c (et_consts et) = Some v ∧
    c = et_name et +:+ @NormalizeName tc n ∧
    (et_bitmask et = false → EnumType_String et v = @NormalizeName tc n).
Proof.
  intros Htc Het Hin. unfold generatedEnums in Het. assert (et_ok et = true) as Hok.
  { pose proof enumTypes14_ok as H14. pose proof enumTypes20_ok as H20.
    rewrite List.forallb_forall in H14, H20.
    apply elem_of_app in Het as [?%list_elem_of_In|?%list_elem_of_In]; auto. }
  destruct (et_names_In et c n Hok Hin) as (Hc & v & Hv & Hent). exists v. split; [done|].
  assert (Enum_Name (Some (et_Enum et)) v = Some (@NormalizeName tc n)) as Hname.
  { apply et_Name; eauto. }
  split.
  - rewrite NormalizeName_caser; [done..|]. unfold et_ok, entriesOk in Hok.
    apply andb_prop in Hok as [[[[Hall _]%andb_prop _]%andb_prop _]%andb_prop _].
    rewrite List.forallb_forall in Hall. specialize (Hall (v, n) (proj1 (list_elem_of_In _ _) Hent)).
    cbn in Hall. by apply andb_prop in Hall as [_ ?].
  - intros Hm. unfold EnumType_String. rewrite Hm. unfold FormatEnum. cbn [fmap option_fmap option_map].
    change (em_Name (Enum_EnumMap (et_Enum et)) v) with (Enum_Name (Some (et_Enum et)) v).
    by rewrite Hname.
Qed.

Lemma generated_constants_witness :
  ∃ v, assoc "CryptographicAlgorithmDES3" (et_consts Kmip14.CryptographicAlgorithm) = Some v ∧
    "CryptographicAlgorithmDES3"%string = "CryptographicAlgorithm" +:+ @NormalizeName asciiCaser "3DES" ∧
    (false = false → @EnumType_String asciiCaser Kmip14.CryptographicAlgorithm v = "DES3"%string).
Proof.
  apply (generated_constants asciiCaser Kmip14.CryptographicAlgorithm "CryptographicAlgorithmDES3" "3DES").
  - by intros w _.
  - apply (list_elem_of_lookup_2 _ 12). reflexivity.
  - apply (bool_decide_eq_true_1 _). vm_compute. reflexivity.
Defined.

(** Loading the 2.0 definitions on top of the 1.4 ones renames and removes
    nothing: every value that has a name under a tag in 1.4 keeps it. *)
Theorem kmip20_extends_kmip14 (tc : TitleCaser) r14 r t m v n :
  titleCaserOk tc → Register14 (RegisterTypes emptyRegistry) = Ok r14 → initRegistry = Ok r →
  Registry_EnumForTag r14 t = Some m → em_Name m v = Some n →
  ∃ m', Registry_EnumForTag r t = Some m' ∧ em_Name m' v = Some n.
Proof.
  intros Htc. rewrite Register14_eq, initRegistry_eq by done.
  intros <-%Ok_inj <-%Ok_inj Hm Hn.
  exact (extends_names tc Htc _ _ _ t m v n extends_ok eq_refl enumTags_types_ok Hm Hn).
Qed.

Lemma kmip20_extends_kmip14_witness :
  ∃ m', Registry_EnumForTag (@theRegistry asciiCaser) 0x420028 = Some m' ∧
    em_Name m' 3 = Some "AES"%string.
Proof.
  assert (titleCaserOk asciiCaser) as Htc by (intros w _; reflexivity).
  refine (kmip20_extends_kmip14 asciiCaser _ (@theRegistry asciiCaser) 0x420028
    (Enum_EnumMap (et_Enum Kmip14.CryptographicAlgorithm)) 3 "AES"
    Htc (Register14_eq asciiCaser Htc) (initRegistry_eq asciiCaser Htc) _ _).
  - unfold Registry_EnumForTag. cbn [enums]. rewrite insertEnums_lookup.
    replace (lastFor enumTags14 0x420028) with (Some Kmip14.CryptographicAlgorithm)
      by (vm_compute; reflexivity).
    reflexivity.
  - vm_compute. reflexivity.
Defined.
