(* ===== verification/GoTime.v ===== *)
(** Times as text: what src/ttlv/ttlv.go uses of Go's package time, that is the
    calendar, [Time.Format] and [time.Parse] with the layout [time.RFC3339Nano]
    on times in UTC, and [Time.MarshalJSON]. *)
From Stdlib Require Import ZArith Lia Strings.Byte Ascii String.
From stdpp Require Import base list strings numbers pretty.
From S2P Require Import Prelude Hex Ttlv.
Local Open Scope Z_scope.

(** * Digits *)

Definition digit (d : Z) : ascii := ascii_of_N (Z.to_N (48 + d)).

(** The [n] low decimal digits of [z], most significant first. *)
Fixpoint fixDigits (n : nat) (z : Z) : string :=
  match n with
  | O => EmptyString
  | S n => String (digit ((z / 10 ^ Z.of_nat n) mod 10)) (fixDigits n z)
  end.

(** [appendInt(b, z, width)] of package time, for [width = 4]. *)
Definition padYear (y : Z) : string :=
  if y <? 0 then "-" +:+ (if - y <? 10000 then fixDigits 4 (- y) else pretty (- y))
  else if y <? 10000 then fixDigits 4 y else pretty y.

(** Exactly [n] digits. *)
Fixpoint takeDigits (n : nat) (s : string) : option (Z * string) :=
  match n, s with
  | O, _ => Some (0, s)
  | S n, String c s =>
      if isDigit c then
        '(v, rest) ← takeDigits n s; Some ((chr c - 48) * 10 ^ Z.of_nat n + v, rest)
      else None
  | S _, EmptyString => None
  end.

(** [getnum(s, false)]: one or two digits. *)
Definition oneOrTwo (s : string) : option (Z * string) :=
  match takeDigits 2 s with Some r => Some r | None => takeDigits 1 s end.

Definition literal (c : ascii) (s : string) : option string :=
  match s with
  | String c' s => if (c =? c')%char then Some s else None
  | EmptyString => None
  end.

(** * The calendar *)

Definition isLeap (y : Z) : bool := (y mod 4 =? 0) && (negb (y mod 100 =? 0) || (y mod 400 =? 0)).

Definition daysIn (y m : Z) : Z :=
  if m =? 2 then (if isLeap y then 29 else 28)
  else if (m =? 4) || (m =? 6) || (m =? 9) || (m =? 11) then 30 else 31.

(** Days from 1970-01-01 to a date of the proleptic Gregorian calendar; the
    year is counted from March. *)
Definition daysOfCivil (y m d : Z) : Z :=
  let y' := if m <=? 2 then y - 1 else y in
  let mp := (m + 9) mod 12 in
  let yoe := y' mod 400 in
  y' / 400 * 146097 + (yoe * 365 + yoe / 4 - yoe / 100) + ((153 * mp + 2) / 5 + d - 1) - 719468.

(** The date within a cycle of 400 years: year of the cycle, month counted from
    March, day. *)
Definition civilOfCycle (doe : Z) : Z * Z * Z :=
  let yoe := (doe - doe / 1460 + doe / 36524 - doe / 146096) / 365 in
  let doy := doe - (365 * yoe + yoe / 4 - yoe / 100) in
  let mp := (5 * doy + 2) / 153 in
  (yoe, mp, doy - (153 * mp + 2) / 5 + 1).

Definition civilOfDays (days : Z) : Z * Z * Z :=
  let z := days + 719468 in
  let '(yoe, mp, d) := civilOfCycle (z mod 146097) in
  let y := z / 146097 * 400 + yoe in
  let m := if mp <? 10 then mp + 3 else mp - 9 in
  (if m <=? 2 then y + 1 else y, m, d).

(** Seconds from the earliest instant of package time to the Unix epoch; the
    calendar functions compute modulo 2^64 from there. *)
Definition unixToAbsolute : Z := (730692556 * 146097 + 306) * 86400 + 62135596800.

Definition civilSeconds (sec : Z) : Z := u64 (sec + unixToAbsolute) - unixToAbsolute.

(** * Format and Parse *)

Fixpoint stripZeros (s : string) : string :=
  match s with
  | EmptyString => EmptyString
  | String c s =>
      match stripZeros s with
      | EmptyString => if (c =? "0")%char then EmptyString else String c EmptyString
      | s => String c s
      end
  end.

Definition formatNanos (n : Z) : string :=
  if n =? 0 then EmptyString else "." +:+ stripZeros (fixDigits 9 n).

(** [t.Format(time.RFC3339Nano)] for a time in UTC. *)
Definition formatRFC3339Nano (t : gotime) : string :=
  let sec := civilSeconds (time_sec t) in
  let '(y, m, d) := civilOfDays (sec / 86400) in
  let s := sec mod 86400 in
  padYear y +:+ "-" +:+ fixDigits 2 m +:+ "-" +:+ fixDigits 2 d +:+ "T" +:+ fixDigits 2 (s / 3600)
    +:+ ":" +:+ fixDigits 2 (s / 60 mod 60) +:+ ":" +:+ fixDigits 2 (s mod 60)
    +:+ formatNanos (time_nsec t) +:+ "Z".

Definition timeYear (t : gotime) : Z := (civilOfDays (civilSeconds (time_sec t) / 86400)).1.1.

(** [t.MarshalJSON()], without the quotes: the year must have four digits. *)
Definition marshalTime (t : gotime) : option string :=
  if (0 <=? timeYear t) && (timeYear t <=? 9999) then Some (formatRFC3339Nano t) else None.

Fixpoint spanDigits (s : string) : string * string :=
  match s with
  | String c s' =>
      if isDigit c then let '(ds, rest) := spanDigits s' in (String c ds, rest) else (EmptyString, s)
  | EmptyString => (EmptyString, EmptyString)
  end.

(** [parseNanoseconds]: digits after the ninth are dropped. *)
Fixpoint nanos (k : nat) (ds : string) : Z :=
  match k, ds with
  | S k, String c ds => (chr c - 48) * 10 ^ Z.of_nat k + nanos k ds
  | _, _ => 0
  end.

Definition parseFraction (s : string) : Z * string :=
  match s with
  | String c (String c' rest) =>
      if ((c =? ".")%char || (c =? ",")%char) && isDigit c' then
        let '(ds, rest) := spanDigits (String c' rest) in (nanos 9 ds, rest)
      else (0, s)
  | _ => (0, s)
  end.

(** The offset of the zone in seconds. *)
Definition parseZone (s : string) : option (Z * string) :=
  match s with
  | EmptyString => None
  | String c rest =>
      if (c =? "Z")%char then Some (0, rest)
      else
        '(hh, rest) ← takeDigits 2 rest; rest ← literal ":" rest; '(mm, rest) ← takeDigits 2 rest;
        if (24 <? hh) || (60 <? mm) then None
        else if (c =? "+")%char then Some ((hh * 60 + mm) * 60, rest)
        else if (c =? "-")%char then Some (- ((hh * 60 + mm) * 60), rest)
        else None
  end.

(** [time.Parse(time.RFC3339Nano, s)] *)
Definition parseRFC3339Nano (s : string) : option gotime :=
  '(y, s) ← takeDigits 4 s; s ← literal "-" s;
  '(m, s) ← takeDigits 2 s; s ← literal "-" s;
  '(d, s) ← takeDigits 2 s; s ← literal "T" s;
  '(h, s) ← oneOrTwo s; s ← literal ":" s;
  '(mi, s) ← takeDigits 2 s; s ← literal ":" s;
  '(sec, s) ← takeDigits 2 s;
  let '(ns, s) := parseFraction s in
  '(off, s) ← parseZone s;
  if (1 <=? m) && (m <=? 12) && (1 <=? d) && (d <=? daysIn y m) && (h <? 24) && (mi <? 60) && (sec <? 60)
     && (String.length s =? 0)%nat
  then Some (GoTime (daysOfCivil y m d * 86400 + h * 3600 + mi * 60 + sec - off) ns)
  else None.

Example format_ex : formatRFC3339Nano (GoTime 1600000000 120000) = "2020-09-13T12:26:40.00012Z"%string.
Proof. vm_compute. reflexivity. Qed.
Example parse_ex1 : parseRFC3339Nano "2008-03-14T11:56:40+01:00" = Some (GoTime 1205492200 0).
Proof. vm_compute. reflexivity. Qed.
Example parse_ex2 : parseRFC3339Nano "2021-02-29T00:00:00Z" = None.
Proof. vm_compute. reflexivity. Qed.
Example format_ex2 : formatRFC3339Nano (GoTime (-62135596801) 0) = "0000-12-31T23:59:59Z"%string.
Proof. vm_compute. reflexivity. Qed.

(** * The calendar is exact *)

Fixpoint allBelow (n : nat) (z : Z) (p : Z → bool) : bool :=
  match n with O => true | S n => p z && allBelow n (z + 1) p end.

Lemma allBelow_spec n p z i : allBelow n z p = true → z ≤ i < z + Z.of_nat n → p i = true.
Proof.
  revert z. induction n as [|n IH]; intros z H Hi; [lia|]. cbn in H. apply andb_prop in H as [H1 H2].
  destruct (decide (i = z)) as [->|]; [done|]. apply (IH (z + 1)); [done|lia].
Qed.

(** The first day of a year of the cycle, and the year of a day. *)
Definition cycleStart (yoe : Z) : Z := if yoe =? 400 then 146097 else yoe * 365 + yoe / 4 - yoe / 100.
Definition cycleYear (doe : Z) : Z := (doe - doe / 1460 + doe / 36524 - doe / 146096) / 365.

Lemma cycleYear_mono d d' : 0 ≤ d ≤ d' → d' < 146097 → cycleYear d ≤ cycleYear d'.
Proof. intros H1 H2. apply Z.div_le_mono; [lia|]. Z.div_mod_to_equations. lia. Qed.

Lemma cycleYear_ends y : 0 ≤ y < 400 →
  cycleYear (cycleStart y) = y ∧ cycleYear (cycleStart (y + 1) - 1) = y ∧
  0 ≤ cycleStart y < cycleStart (y + 1) ∧ cycleStart (y + 1) ≤ 146097 ∧
  cycleStart (y + 1) - cycleStart y ≤ (if isLeap (y + 1) then 366 else 365).
Proof.
  intros Hy.
  assert (((cycleYear (cycleStart y) =? y) && (cycleYear (cycleStart (y + 1) - 1) =? y) &&
    (0 <=? cycleStart y) && (cycleStart y <? cycleStart (y + 1)) && (cycleStart (y + 1) <=? 146097) &&
    (cycleStart (y + 1) - cycleStart y <=? (if isLeap (y + 1) then 366 else 365))) = true) as H.
  { apply (allBelow_spec 400 (λ y, (cycleYear (cycleStart y) =? y) && (cycleYear (cycleStart (y + 1) - 1) =? y) &&
      (0 <=? cycleStart y) && (cycleStart y <? cycleStart (y + 1)) && (cycleStart (y + 1) <=? 146097) &&
      (cycleStart (y + 1) - cycleStart y <=? (if isLeap (y + 1) then 366 else 365))) 0); [|lia].
    vm_compute. reflexivity. }
  rewrite !andb_true_iff, !Z.leb_le, !Z.ltb_lt, !Z.eqb_eq in H. tauto.
Qed.

Lemma cycleYear_spec doe : 0 ≤ doe < 146097 →
  let y := cycleYear doe in 0 ≤ y < 400 ∧ cycleStart y ≤ doe < cycleStart (y + 1).
Proof.
  intros H y.
  assert (0 ≤ y < 400) as Hy.
  { pose proof (cycleYear_mono 0 doe ltac:(lia) ltac:(lia)) as H0.
    pose proof (cycleYear_mono doe 146096 ltac:(lia) ltac:(lia)) as H1.
    change (cycleYear 0) with 0 in H0. change (cycleYear 146096) with 399 in H1. unfold y. lia. }
  split; [done|]. assert (y = cycleYear doe) as Heq by done. clearbody y.
  destruct (cycleYear_ends y Hy) as (E1 & E2 & E3 & E4 & _). split.
  - destruct (decide (cycleStart y ≤ doe)) as [|Hlt]; [done|].
    assert (0 < y) as Hpos.
    { destruct (decide (y = 0)) as [Hz|]; [|lia]. rewrite Hz in Hlt. change (cycleStart 0) with 0 in Hlt. lia. }
    destruct (cycleYear_ends (y - 1) ltac:(lia)) as (_ & E5 & _).
    replace (y - 1 + 1) with y in E5 by lia.
    pose proof (cycleYear_mono doe (cycleStart y - 1) ltac:(lia) ltac:(lia)) as Hm. lia.
  - destruct (decide (doe < cycleStart (y + 1))) as [|Hge]; [done|].
    destruct (decide (y = 399)) as [Hz|]; [rewrite Hz in Hge; change (cycleStart (399 + 1)) with 146097 in Hge; lia|].
    destruct (cycleYear_ends (y + 1) ltac:(lia)) as (E5 & _).
    pose proof (cycleYear_mono (cycleStart (y + 1)) doe ltac:(lia) ltac:(lia)) as Hm. lia.
Qed.

(** The month, counted from March, and the day of a day of the year. *)
Lemma monthDay doy : 0 ≤ doy < 366 →
  let mp := (5 * doy + 2) / 153 in
  let d := doy - (153 * mp + 2) / 5 + 1 in
  0 ≤ mp < 12 ∧ 1 ≤ d ≤ (if mp =? 11 then (if doy =? 365 then 29 else 28)
                         else daysIn 1 (if mp <? 10 then mp + 3 else mp - 9)).
Proof.
  intros H mp d.
  pose (p := λ doy, let mp := (5 * doy + 2) / 153 in let d := doy - (153 * mp + 2) / 5 + 1 in
    (0 <=? mp) && (mp <? 12) && (1 <=? d) && (d <=? (if mp =? 11 then (if doy =? 365 then 29 else 28)
      else daysIn 1 (if mp <? 10 then mp + 3 else mp - 9)))).
  assert (p doy = true) as Hp by (apply (allBelow_spec 366 p 0); [vm_compute; reflexivity|lia]).
  unfold p in Hp. cbv zeta in Hp. rewrite !andb_true_iff, !Z.leb_le, !Z.ltb_lt in Hp. tauto.
Qed.

Lemma daysIn_period y k m : daysIn (k * 400 + y) m = daysIn y m.
Proof.
  unfold daysIn, isLeap.
  replace ((k * 400 + y) mod 4) with (y mod 4) by (Z.div_mod_to_equations; lia).
  replace ((k * 400 + y) mod 100) with (y mod 100) by (Z.div_mod_to_equations; lia).
  replace ((k * 400 + y) mod 400) with (y mod 400) by (Z.div_mod_to_equations; lia). done.
Qed.

Lemma daysIn_not_Feb y y' m : m ≠ 2 → daysIn y m = daysIn y' m.
Proof. intros H. unfold daysIn. by rewrite (proj2 (Z.eqb_neq m 2) H). Qed.

(** A day of the 400-year cycle and its date. *)
Lemma cycle_correct doe yoe mp d : 0 ≤ doe < 146097 → civilOfCycle doe = (yoe, mp, d) →
  0 ≤ yoe < 400 ∧ 0 ≤ mp < 12 ∧
  1 ≤ d ≤ daysIn (if 10 <=? mp then yoe + 1 else yoe) (if mp <? 10 then mp + 3 else mp - 9) ∧
  yoe * 365 + yoe / 4 - yoe / 100 + ((153 * mp + 2) / 5 + d - 1) = doe.
Proof.
  intros H Hc. destruct (cycleYear_spec doe H) as [Hy Hb]. fold (cycleYear doe) in *.
  unfold civilOfCycle in Hc. fold (cycleYear doe) in Hc. set (y := cycleYear doe) in *.
  destruct (cycleYear_ends y Hy) as (_ & _ & _ & _ & Hl).
  assert (cycleStart y = y * 365 + y / 4 - y / 100) as Hs.
  { unfold cycleStart. by rewrite (proj2 (Z.eqb_neq y 400)) by lia. }
  set (doy := doe - (365 * y + y / 4 - y / 100)) in *.
  assert (0 ≤ doy < 366 ∧ (doy = 365 → isLeap (y + 1) = true)) as [Hd Hleap].
  { destruct (isLeap (y + 1)); unfold doy; split; lia. }
  destruct (monthDay doy Hd) as [Hm Hday]. injection Hc as <- <- <-.
  set (mp := (5 * doy + 2) / 153) in *. split_and!; [lia..| |unfold doy; lia].
  etrans; [exact (proj2 Hday)|]. destruct (mp =? 11) eqn:E11.
  - apply Z.eqb_eq in E11. rewrite E11.
    change (if 11 <? 10 then 11 + 3 else 11 - 9) with 2. change (if 10 <=? 11 then y + 1 else y) with (y + 1).
    change (daysIn (y + 1) 2) with (if isLeap (y + 1) then 29 else 28).
    destruct (doy =? 365) eqn:E; [|destruct (isLeap (y + 1)); lia].
    apply Z.eqb_eq in E. by rewrite (Hleap E).
  - apply Z.eqb_neq in E11. rewrite (daysIn_not_Feb 1 (if 10 <=? mp then y + 1 else y)); [done|].
    destruct (mp <? 10) eqn:E; lia.
Qed.

(** The date of a day is a date of the calendar, and determines the day. *)
Lemma civil_correct days y m d :
  civilOfDays days = (y, m, d) →
  1 ≤ m ≤ 12 ∧ 1 ≤ d ≤ daysIn y m ∧ daysOfCivil y m d = days.
Proof.
  unfold civilOfDays. set (z := days + 719468). pose proof (Z.mod_pos_bound z 146097 ltac:(lia)) as Hz.
  destruct (civilOfCycle (z mod 146097)) as [[yoe mp] d'] eqn:Hc.
  destruct (cycle_correct _ _ _ _ Hz Hc) as (H1 & H2 & H3 & H4).
  pose proof (Z.div_mod z 146097 ltac:(lia)) as Hdm. set (era := z / 146097) in *.
  intros [= <- <- <-].
  destruct (mp <? 10) eqn:E; [apply Z.ltb_lt in E|apply Z.ltb_ge in E].
  - rewrite (proj2 (Z.leb_gt (mp + 3) 2)), (proj2 (Z.leb_gt 10 mp)) in * by lia.
    rewrite daysIn_period. split_and!; [lia..|]. unfold daysOfCivil.
    rewrite (proj2 (Z.leb_gt (mp + 3) 2)) by lia.
    replace ((mp + 3 + 9) mod 12) with mp by (Z.div_mod_to_equations; lia).
    rewrite Z.div_add_l, (Z.add_comm (era * 400)), Z.mod_add, (Z.div_small yoe 400), (Z.mod_small yoe 400)
      by lia. unfold z in *. lia.
  - rewrite (proj2 (Z.leb_le (mp - 9) 2)), (proj2 (Z.leb_le 10 mp)) in * by lia.
    replace (era * 400 + yoe + 1) with (era * 400 + (yoe + 1)) by lia.
    rewrite daysIn_period. split_and!; [lia..|]. unfold daysOfCivil.
    rewrite (proj2 (Z.leb_le (mp - 9) 2)) by lia.
    replace ((mp - 9 + 9) mod 12) with mp by (Z.div_mod_to_equations; lia).
    replace (era * 400 + (yoe + 1) - 1) with (era * 400 + yoe) by lia.
    rewrite Z.div_add_l, (Z.add_comm (era * 400)), Z.mod_add, (Z.div_small yoe 400), (Z.mod_small yoe 400)
      by lia. unfold z in *. lia.
Qed.

(** * Parse reads what Format prints *)

Lemma chr_digit d : 0 ≤ d < 10 → chr (digit d) = 48 + d.
Proof. intros H. unfold chr, digit. rewrite N_ascii_embedding; lia. Qed.

Lemma isDigit_digit d : 0 ≤ d < 10 → isDigit (digit d) = true.
Proof. intros H. unfold isDigit. rewrite chr_digit by done. lia. Qed.

Lemma mod_pow10_S n z :
  ((z / 10 ^ Z.of_nat n) mod 10) * 10 ^ Z.of_nat n + z mod 10 ^ Z.of_nat n = z mod 10 ^ Z.of_nat (S n).
Proof.
  rewrite Nat2Z.inj_succ, Z.pow_succ_r, (Z.mul_comm 10) by lia.
  rewrite Z.rem_mul_r by (try apply Z.pow_nonzero; lia). lia.
Qed.

Lemma takeDigits_fix n z rest : takeDigits n (fixDigits n z +:+ rest) = Some (z mod 10 ^ Z.of_nat n, rest).
Proof.
  induction n as [|n IH]; cbn [takeDigits fixDigits]; [by rewrite Z.mod_1_r|].
  pose proof (Z.mod_pos_bound (z / 10 ^ Z.of_nat n) 10 ltac:(lia)) as Hd.
  rewrite append_cons, isDigit_digit, chr_digit, IH by done. cbn [mbind option_bind]. rewrite <- mod_pow10_S. do 2 f_equal. lia.
Qed.

Lemma takeDigits_fix' n z rest : 0 ≤ z < 10 ^ Z.of_nat n → takeDigits n (fixDigits n z +:+ rest) = Some (z, rest).
Proof. intros H. by rewrite takeDigits_fix, Z.mod_small. Qed.

Lemma nanos_fix n z : nanos n (fixDigits n z) = z mod 10 ^ Z.of_nat n.
Proof.
  induction n as [|n IH]; cbn [nanos fixDigits]; [by rewrite Z.mod_1_r|].
  pose proof (Z.mod_pos_bound (z / 10 ^ Z.of_nat n) 10 ltac:(lia)) as Hd.
  rewrite chr_digit, IH by done. rewrite <- mod_pow10_S. lia.
Qed.

Lemma nanos_strip k s : nanos k (stripZeros s) = nanos k s.
Proof.
  revert k. induction s as [|c s IH]; intros k; [done|]. cbn [stripZeros].
  destruct k as [|k]; [by repeat case_match|]. specialize (IH k).
  destruct (stripZeros s) as [|c' s'] eqn:Hs.
  - destruct (c =? "0")%char eqn:Hc; cbn [nanos].
    + apply Ascii.eqb_eq in Hc as ->. rewrite <- IH. by destruct k.
    + by rewrite <- IH.
  - cbn [nanos]. by rewrite <- IH.
Qed.

(** All characters are digits. *)
Fixpoint allDigits (s : string) : bool :=
  match s with EmptyString => true | String c s => isDigit c && allDigits s end.

Lemma allDigits_fix n z : allDigits (fixDigits n z) = true.
Proof.
  induction n as [|n IH]; cbn [fixDigits allDigits]; [done|]. rewrite IH, isDigit_digit; [done|]. apply Z.mod_pos_bound. lia.
Qed.

Lemma allDigits_strip s : allDigits s = true → allDigits (stripZeros s) = true.
Proof.
  induction s as [|c s IH]; [done|]. cbn [allDigits stripZeros]. intros [Hc Hs]%andb_prop. specialize (IH Hs).
  destruct (stripZeros s); [by case_match; cbn [allDigits]; rewrite ?Hc|]. cbn [allDigits] in *. by rewrite Hc.
Qed.

Lemma spanDigits_app ds c rest : allDigits ds = true → isDigit c = false →
  spanDigits (ds +:+ String c rest) = (ds, String c rest).
Proof.
  intros Hds Hc. induction ds as [|d ds IH]; [by change (EmptyString +:+ ?s) with s; cbn [spanDigits]; rewrite Hc|].
  rewrite append_cons. cbn [spanDigits]. cbn [allDigits] in Hds. apply andb_prop in Hds as [Hd Hds]. rewrite Hd. by rewrite (IH Hds).
Qed.

Lemma stripZeros_nonempty s : nanos 9 s ≠ 0 → stripZeros s ≠ EmptyString.
Proof. intros H E. rewrite <- nanos_strip, E in H. by apply H. Qed.

Lemma parseFraction_format n : 0 ≤ n < 10 ^ 9 → parseFraction (formatNanos n +:+ "Z") = (n, "Z"%string).
Proof.
  intros H. unfold formatNanos. destruct (n =? 0) eqn:E; [apply Z.eqb_eq in E as ->; done|].
  apply Z.eqb_neq in E.
  assert (nanos 9 (fixDigits 9 n) = n) as Hn by (rewrite nanos_fix; apply Z.mod_small; lia).
  pose proof (allDigits_strip _ (allDigits_fix 9 n)) as Hall.
  pose proof (stripZeros_nonempty (fixDigits 9 n) ltac:(by rewrite Hn)) as Hne.
  rewrite <- (nanos_strip 9) in Hn. destruct (stripZeros (fixDigits 9 n)) as [|c ds] eqn:Hs; [done|].
  pose proof Hall as Hall'. cbn [allDigits] in Hall. apply andb_prop in Hall as [Hc _].
  change ((("." +:+ String c ds) +:+ "Z")) with (String "." (String c (ds +:+ "Z"))).
  unfold parseFraction. rewrite Hc. change ((("." =? ".")%char || ("." =? ",")%char) && true) with true. cbv iota.
  change (String c (ds +:+ "Z")) with (String c ds +:+ String "Z" EmptyString).
  by rewrite (spanDigits_app _ "Z" EmptyString Hall' eq_refl), Hn.
Qed.

Lemma literal_head c s : literal c (String c EmptyString +:+ s) = Some s.
Proof. change (String c EmptyString +:+ s) with (String c s). cbn [literal]. by rewrite Ascii.eqb_refl. Qed.

Lemma civilSeconds_id t : is_i64 (time_sec t) → 0 ≤ timeYear t ≤ 9999 → civilSeconds (time_sec t) = time_sec t.
Proof.
  intros Hs Hy. unfold timeYear in Hy. set (c := civilSeconds (time_sec t)) in *.
  destruct (civilOfDays (c / 86400)) as [[y m] d] eqn:Hc. cbn in Hy.
  destruct (civil_correct _ _ _ _ Hc) as (Hm & Hd & Hdays).
  assert (d ≤ 31) as Hd31 by (unfold daysIn in Hd; repeat case_match; lia).
  assert (c / 86400 ≤ 4000000) as Hub.
  { rewrite <- Hdays. unfold daysOfCivil. destruct (m <=? 2); Z.div_mod_to_equations; lia. }
  assert (c < 400000000000) as Hc' by (Z.div_mod_to_equations; lia).
  unfold c, civilSeconds, u64, is_i64 in *. change unixToAbsolute with 9223372028741760000 in *.
  Z.div_mod_to_equations. lia.
Qed.

Lemma parse_format t : is_i64 (time_sec t) → 0 ≤ time_nsec t < 10 ^ 9 → 0 ≤ timeYear t ≤ 9999 →
  parseRFC3339Nano (formatRFC3339Nano t) = Some t.
Proof.
  intros Hs Hn Hy. unfold formatRFC3339Nano. rewrite (civilSeconds_id t Hs Hy).
  unfold timeYear in Hy. rewrite (civilSeconds_id t Hs Hy) in Hy.
  destruct (civilOfDays (time_sec t / 86400)) as [[y m] d] eqn:Hc. cbn in Hy.
  destruct (civil_correct _ _ _ _ Hc) as (Hm & Hd & Hdays).
  set (s := time_sec t mod 86400). pose proof (Z.mod_pos_bound (time_sec t) 86400 ltac:(lia)) as Hsb.
  fold s in Hsb.
  assert (daysIn y m ≤ 31) as Hdi by (unfold daysIn; repeat case_match; lia).
  unfold padYear. rewrite (proj2 (Z.ltb_ge y 0)), (proj2 (Z.ltb_lt y 10000)) by lia.
  unfold parseRFC3339Nano.
  assert (0 ≤ s / 3600 < 24 ∧ 0 ≤ s / 60 mod 60 < 60 ∧ 0 ≤ s mod 60 < 60) as (Hh & Hmi & Hsec)
    by (Z.div_mod_to_equations; lia).
  rewrite (takeDigits_fix' 4) by lia. cbn [mbind option_bind]. rewrite literal_head. cbn [mbind option_bind].
  rewrite (takeDigits_fix' 2 m) by lia. cbn [mbind option_bind]. rewrite literal_head. cbn [mbind option_bind].
  rewrite (takeDigits_fix' 2 d) by lia. cbn [mbind option_bind]. rewrite literal_head. cbn [mbind option_bind].
  unfold oneOrTwo. rewrite (takeDigits_fix' 2 (s / 3600)) by lia. cbn [mbind option_bind].
  rewrite literal_head. cbn [mbind option_bind].
  rewrite (takeDigits_fix' 2 (s / 60 mod 60)) by lia. cbn [mbind option_bind].
  rewrite literal_head. cbn [mbind option_bind].
  rewrite (takeDigits_fix' 2 (s mod 60)) by lia. cbn [mbind option_bind].
  rewrite parseFraction_format by done. cbn [parseZone Ascii.eqb Bool.eqb mbind option_bind].
  rewrite (proj2 (Z.leb_le 1 m)), (proj2 (Z.leb_le m 12)), (proj2 (Z.leb_le 1 d)), (proj2 (Z.leb_le d _)),
    (proj2 (Z.ltb_lt _ 24)), (proj2 (Z.ltb_lt _ 60)), (proj2 (Z.ltb_lt _ 60)) by lia.
  rewrite Hdays. cbn [andb String.length Nat.eqb]. destruct t as [sec ns]. cbn [time_sec time_nsec] in *.
  do 2 f_equal. unfold s. Z.div_mod_to_equations; lia.
Qed.
