(* ===== verification/Json.v ===== *)
(** JSON text: what src/ttlv/ttlv.go uses of Go's packages encoding/json and
    strconv, that is the grammar of values with the decoding of strings and of
    numbers to float64, [json.Marshal] of a string, and decimal numbers. *)
From Stdlib Require Import ZArith Lia Strings.Byte Ascii String.
From stdpp Require Import base list strings numbers.
From S2P Require Import Prelude Hex Names Ttlv GoTime.
Local Open Scope Z_scope.
Set Warnings "-register-all".

(** * Decimal numbers *)

Fixpoint countDigits (fuel : nat) (z : Z) : nat :=
  match fuel with
  | O => 1
  | S fuel => if z <? 10 then 1 else S (countDigits fuel (z / 10))
  end.

(** [strconv.FormatUint(z, 10)] *)
Definition formatUint (z : Z) : string := fixDigits (countDigits (Z.to_nat (Z.log2 z)) z) z.

(** [strconv.FormatInt(z, 10)] and [strconv.Itoa(z)] *)
Definition formatInt (z : Z) : string := if z <? 0 then "-" +:+ formatUint (- z) else formatUint z.

(** * Values *)

(** A number, as written: [± mant * 10^exp]. *)
Record decimal := mkDecimal { dec_neg : bool; dec_mant : Z; dec_exp : Z }.

Inductive json : Type :=
  | JNull
  | JBool (b : bool)
  | JNumber (d : decimal)
  | JString (s : string)
  | JArray (l : list json)
  | JObject (l : list (string * json)).

(** * Numbers as float64 *)

Definition roundHalfEven (n d : Z) : Z :=
  let q := n / d in
  let r := n mod d in
  if 2 * r <? d then q else if d <? 2 * r then q + 1 else if Z.even q then q else q + 1.

(** [n * 2^e], rounded down for [e < 0]. *)
Definition scale (n e : Z) : Z := if 0 <=? e then n * 2 ^ e else n / 2 ^ (- e).

(** The float64 nearest to [n/d], for [0 ≤ n] and [0 < d]: mantissa and binary
    exponent; [None] is an overflow. *)
Definition float64 (n d : Z) : option (Z * Z) :=
  if n =? 0 then Some (0, 0)
  else
    let k := Z.log2 n - Z.log2 d - 52 in
    let small := if 0 <=? k then n <? 2 ^ 52 * d * 2 ^ k else n * 2 ^ (- k) <? 2 ^ 52 * d in
    let e := Z.max (-1074) (if small then k - 1 else k) in
    let m := if 0 <=? e then roundHalfEven n (d * 2 ^ e) else roundHalfEven (n * 2 ^ (- e)) d in
    if 2 ^ 1024 <=? scale m e then None else Some (m, e).

(** The integer part of the float64 nearest to a decimal number: all that the
    conversions of a float64 to an integer type depend on. *)
Definition floatTrunc (x : decimal) : option Z :=
  '(m, e) ← float64 (if 0 <=? dec_exp x then dec_mant x * 10 ^ dec_exp x else dec_mant x)
              (if 0 <=? dec_exp x then 1 else 10 ^ (- dec_exp x));
  Some (if dec_neg x then - scale m e else scale m e).

Example float_ex1 : floatTrunc (mkDecimal true 9007199254740993 0) = Some (-9007199254740992).
Proof. vm_compute. reflexivity. Qed.
Example float_ex2 : floatTrunc (mkDecimal false 29999999999999999999 (-19)) = Some 3.
Proof. vm_compute. reflexivity. Qed.
Example float_ex3 : floatTrunc (mkDecimal false 1 309) = None.
Proof. vm_compute. reflexivity. Qed.

(** * Strings *)

Definition strBytes (s : string) : list Z := map chr (list_ascii_of_string s).
Definition asciiOf (z : Z) : ascii := ascii_of_N (Z.to_N z).

Fixpoint splitString (n : nat) (s : string) : string * string :=
  match n, s with
  | S n, String c s => let '(a, b) := splitString n s in (String c a, b)
  | _, _ => (EmptyString, s)
  end.

(** [utf8.EncodeRune]; invalid runes are U+FFFD. *)
Definition encodeRune (r : Z) : string :=
  let cont (z : Z) := asciiOf (0x80 + z mod 64) in
  let three r := String (asciiOf (0xE0 + r / 4096)) (String (cont (r / 64)) (String (cont r) EmptyString)) in
  if r <? 0x80 then String (asciiOf r) EmptyString
  else if r <? 0x800 then String (asciiOf (0xC0 + r / 64)) (String (cont r) EmptyString)
  else if inRange 0xD800 0xDFFF r || (0x10FFFF <? r) then three runeError
  else if r <? 0x10000 then three r
  else String (asciiOf (0xF0 + r / 262144))
         (String (cont (r / 4096)) (String (cont (r / 64)) (String (cont r) EmptyString))).

Definition hex4 (z : Z) : string := fixedHex 4 z.

(** The escape of an ASCII character in [json.Marshal], [None] for the ones it
    leaves alone; HTML characters are escaped too. *)
Definition escapeASCII (c : ascii) : option string :=
  let z := chr c in
  if (z =? 34) || (z =? 92) then Some (String "\" (String c EmptyString))
  else if z =? 8 then Some "\b"
  else if z =? 12 then Some "\f"
  else if z =? 10 then Some "\n"
  else if z =? 13 then Some "\r"
  else if z =? 9 then Some "\t"
  else if (z <? 32) || (z =? 60) || (z =? 62) || (z =? 38) then Some ("\u" +:+ hex4 z)
  else None.

Fixpoint quoteRunes (n : nat) (s : string) : string :=
  match n, s with
  | S n, String c rest =>
      if chr c <? 0x80 then default (String c EmptyString) (escapeASCII c) +:+ quoteRunes n rest
      else
        let '(r, w) := decodeRune (strBytes s) in
        let '(a, b) := splitString w s in
        (if (r =? runeError) && (w =? 1)%nat then "\ufffd"
         else if (r =? 0x2028) || (r =? 0x2029) then "\u" +:+ hex4 r
         else a) +:+ quoteRunes n b
  | _, _ => EmptyString
  end.

Definition quote : ascii := ascii_of_nat 34.

(** [json.Marshal] of a string. *)
Definition marshalString (s : string) : string :=
  String quote (quoteRunes (String.length s) s +:+ String quote EmptyString).

(** [getu4]: the rune of [\uXXXX]; the text starts after the [u]. *)
Definition getu4 (s : string) : option (Z * string) :=
  match s with
  | String a (String b (String c (String d rest))) =>
      x ← hexVal a; y ← hexVal b; z ← hexVal c; w ← hexVal d;
      Some (((x * 16 + y) * 16 + z) * 16 + w, rest)
  | _ => None
  end.

(** The rune of a [\u] escape and the text after it: a pair of surrogates is
    combined, a lone one is U+FFFD. *)
Definition unescapeU (s : string) : option (Z * string) :=
  '(r, rest) ← getu4 s;
  if inRange 0xD800 0xDFFF r then
    match rest with
    | String c1 (String c2 rest') =>
        match (if (c1 =? "\")%char && (c2 =? "u")%char then getu4 rest' else None) with
        | Some (r1, rest'') =>
            if inRange 0xD800 0xDBFF r && inRange 0xDC00 0xDFFF r1 then
              Some ((r - 0xD800) * 1024 + (r1 - 0xDC00) + 0x10000, rest'')
            else Some (runeError, rest)
        | None => Some (runeError, rest)
        end
    | _ => Some (runeError, rest)
    end
  else Some (r, rest).

Definition unescapeASCII (c : ascii) : option ascii :=
  let z := chr c in
  if (z =? 34) || (z =? 92) || (z =? 47) then Some c
  else if z =? 98 then Some (asciiOf 8)
  else if z =? 102 then Some (asciiOf 12)
  else if z =? 110 then Some (asciiOf 10)
  else if z =? 114 then Some (asciiOf 13)
  else if z =? 116 then Some (asciiOf 9)
  else None.

(** The rest of a string after its opening quote, to the closing one. *)
Fixpoint parseString (n : nat) (s : string) : option (string * string) :=
  match n, s with
  | S n, String c rest =>
      if (c =? quote)%char then Some (EmptyString, rest)
      else if (c =? "\")%char then
        match rest with
        | String e rest =>
            if (e =? "u")%char then
              '(r, rest) ← unescapeU rest; '(v, rest) ← parseString n rest; Some (encodeRune r +:+ v, rest)
            else
              c ← unescapeASCII e; '(v, rest) ← parseString n rest; Some (String c v, rest)
        | EmptyString => None
        end
      else if chr c <? 32 then None
      else if chr c <? 0x80 then '(v, rest) ← parseString n rest; Some (String c v, rest)
      else
        let '(r, w) := decodeRune (strBytes s) in
        let '(a, b) := splitString w s in
        '(v, rest) ← parseString n b;
        Some ((if (r =? runeError) && (w =? 1)%nat then encodeRune runeError else a) +:+ v, rest)
  | _, _ => None
  end.

(** * The grammar *)

Definition isSpace (c : ascii) : bool := (chr c =? 32) || (chr c =? 9) || (chr c =? 13) || (chr c =? 10).

Fixpoint skipSpace (s : string) : string :=
  match s with
  | String c rest => if isSpace c then skipSpace rest else s
  | EmptyString => EmptyString
  end.

Definition digitsValue (s : string) : Z := default 0 (parseDigits s 0).

Definition parseExponent (s : string) : option (Z * string) :=
  match s with
  | String c rest =>
      if (c =? "e")%char || (c =? "E")%char then
        let '(neg, rest) :=
          match rest with
          | String c rest' => if (c =? "-")%char then (true, rest') else
                              if (c =? "+")%char then (false, rest') else (false, rest)
          | EmptyString => (false, rest)
          end in
        let '(ds, rest) := spanDigits rest in
        if (String.length ds =? 0)%nat then None
        else Some (if neg then - digitsValue ds else digitsValue ds, rest)
      else Some (0, s)
  | EmptyString => Some (0, s)
  end.

Definition parseFrac (s : string) : option (string * string) :=
  match s with
  | String c rest =>
      if (c =? ".")%char then
        let '(ds, rest) := spanDigits rest in
        if (String.length ds =? 0)%nat then None else Some (ds, rest)
      else Some (EmptyString, s)
  | EmptyString => Some (EmptyString, s)
  end.

Definition parseNumber (s : string) : option (decimal * string) :=
  let '(neg, s) := match literal "-" s with Some s => (true, s) | None => (false, s) end in
  '(int, s) ← match s with
              | String c rest =>
                  if (c =? "0")%char then Some (String c EmptyString, rest)
                  else if isDigit c then Some (spanDigits s)
                  else None
              | EmptyString => None
              end;
  '(frac, s) ← parseFrac s;
  '(e, s) ← parseExponent s;
  Some (mkDecimal neg (digitsValue (int +:+ frac)) (e - Z.of_nat (String.length frac)), s).

Fixpoint stripPrefix (p s : string) : option string :=
  match p, s with
  | EmptyString, _ => Some s
  | String c p, String c' s => if (c =? c')%char then stripPrefix p s else None
  | String _ _, EmptyString => None
  end.

(** Values, the elements of an array after the opening bracket or a comma, and
    the members of an object.  Every call consumes a character or goes from
    elements to an element, so that twice the length of the text is fuel
    enough; [depth] is what is left of the limit on nesting, 10000. *)
Fixpoint parseValue (fuel depth : nat) (s : string) : option (json * string) :=
  match fuel with
  | O => None
  | S fuel =>
      match skipSpace s with
      | EmptyString => None
      | String c rest =>
          if (c =? quote)%char then
            '(v, rest) ← parseString (String.length rest) rest; Some (JString v, rest)
          else if (c =? "[")%char then
            match depth with
            | O => None
            | S depth =>
                match literal "]" (skipSpace rest) with
                | Some rest => Some (JArray [], rest)
                | None => '(l, rest) ← parseElements fuel depth rest; Some (JArray l, rest)
                end
            end
          else if (c =? "{")%char then
            match depth with
            | O => None
            | S depth =>
                match literal "}" (skipSpace rest) with
                | Some rest => Some (JObject [], rest)
                | None => '(l, rest) ← parseMembers fuel depth rest; Some (JObject l, rest)
                end
            end
          else if (c =? "t")%char then rest ← stripPrefix "rue" rest; Some (JBool true, rest)
          else if (c =? "f")%char then rest ← stripPrefix "alse" rest; Some (JBool false, rest)
          else if (c =? "n")%char then rest ← stripPrefix "ull" rest; Some (JNull, rest)
          else '(d, rest) ← parseNumber (String c rest); Some (JNumber d, rest)
      end
  end
with parseElements (fuel depth : nat) (s : string) : option (list json * string) :=
  match fuel with
  | O => None
  | S fuel =>
      '(v, s) ← parseValue fuel depth s;
      match skipSpace s with
      | String c rest =>
          if (c =? "]")%char then Some ([v], rest)
          else if (c =? ",")%char then '(l, rest) ← parseElements fuel depth rest; Some (v :: l, rest)
          else None
      | EmptyString => None
      end
  end
with parseMembers (fuel depth : nat) (s : string) : option (list (string * json) * string) :=
  match fuel with
  | O => None
  | S fuel =>
      s ← literal quote (skipSpace s);
      '(k, s) ← parseString (String.length s) s;
      s ← literal ":" (skipSpace s);
      '(v, s) ← parseValue fuel depth s;
      match skipSpace s with
      | String c rest =>
          if (c =? "}")%char then Some ([(k, v)], rest)
          else if (c =? ",")%char then '(l, rest) ← parseMembers fuel depth rest; Some ((k, v) :: l, rest)
          else None
      | EmptyString => None
      end
  end.

Definition maxNestingDepth : nat := 100 * 100.

(** The value of a complete text; [None] is a syntax error. *)
Definition parseJSON (s : string) : option json :=
  '(v, rest) ← parseValue (2 * String.length s + 2) maxNestingDepth s;
  if (String.length (skipSpace rest) =? 0)%nat then Some v else None.

Example number_ex : parseJSON "[0,-12.50e+2, 1E-2]" =
  Some (JArray [JNumber (mkDecimal false 0 0); JNumber (mkDecimal true 1250 0); JNumber (mkDecimal false 1 (-2))]).
Proof. vm_compute. reflexivity. Qed.
Example string_ex : parseJSON (marshalString "a<b") = Some (JString "a<b").
Proof. vm_compute. reflexivity. Qed.

(** * Valid UTF-8 *)

(** A sequence of well-formed runes. *)
Inductive utf8 : string → Prop :=
  | utf8_nil : utf8 EmptyString
  | utf8_rune a r b :
      decodeRune (strBytes a) = (r, String.length a) → ¬ (r = runeError ∧ String.length a = 1%nat) →
      utf8 b → utf8 (a +:+ b).

Lemma strBytes_app a b : strBytes (a +:+ b) = strBytes a ++ strBytes b.
Proof.
  unfold strBytes. rewrite <- map_app. f_equal. induction a as [|c a IH]; [done|].
  rewrite append_cons. cbn [list_ascii_of_string]. by rewrite IH.
Qed.

Lemma length_strBytes a : length (strBytes a) = String.length a.
Proof. unfold strBytes. rewrite length_map. induction a; cbn; congruence. Qed.

(** A well-formed rune is decoded from its own bytes. *)
Lemma decodeRune_app l l' r w : decodeRune l = (r, w) → (r, w) ≠ (runeError, 1%nat) → decodeRune (l ++ l') = (r, w).
Proof.
  unfold decodeRune. intros H Hne.
  destruct l as [|b0 [|b1 [|b2 [|b3 l]]]]; cbn [app]; repeat (case_match; simplify_eq; try done); congruence.
Qed.

Lemma splitString_app a b : splitString (String.length a) (a +:+ b) = (a, b).
Proof.
  induction a as [|c a IH]; [by destruct b|]. rewrite append_cons. cbn [String.length splitString]. by rewrite IH.
Qed.

Lemma chr_inj c c' : chr c = chr c' → c = c'.
Proof.
  unfold chr. intros H. rewrite <- (ascii_N_embedding c), <- (ascii_N_embedding c'). f_equal. lia.
Qed.

(** The escape of an ASCII character is read back. *)
Lemma parse_escape c n t : (chr c <? 0x80) = true →
  parseString (S n) (default (String c EmptyString) (escapeASCII c) +:+ t) =
    ('(v, rest) ← parseString n t; Some (String c v, rest)).
Proof.
  intros H. destruct c as [[] [] [] [] [] [] [] []]; try discriminate H; reflexivity.
Qed.

Lemma land_mods x : Z.land x 0x1F = x mod 32 ∧ Z.land x 0x0F = x mod 16 ∧ Z.land x 0x07 = x mod 8 ∧
  Z.land x 0x3F = x mod 64.
Proof.
  split_and!; [apply (Z.land_ones x 5)|apply (Z.land_ones x 4)|apply (Z.land_ones x 3)|apply (Z.land_ones x 6)]; lia.
Qed.

(** The line separators, the only other runes that are escaped. *)
Lemma decode_separator l r : decodeRune l = (r, length l) → r = 0x2028 ∨ r = 0x2029 →
  l = [0xE2; 0x80; r - 0x2028 + 0xA8].
Proof.
  unfold decodeRune, inRange, runeError. intros H Hr.
  destruct l as [|b0 [|b1 [|b2 [|b3 l]]]].
  all: repeat (case_match; try (injection H as H; lia)).
  all: injection H as H; repeat match type of H with
      | context [Z.land ?x 0x1F] => rewrite (proj1 (land_mods x)) in H
      | context [Z.land ?x 0x0F] => rewrite (proj1 (proj2 (land_mods x))) in H
      | context [Z.land ?x 0x07] => rewrite (proj1 (proj2 (proj2 (land_mods x)))) in H
      | context [Z.land ?x 0x3F] => rewrite (proj2 (proj2 (proj2 (land_mods x)))) in H
      end; try (exfalso; Z.div_mod_to_equations; lia).
  all: assert (b0 = 0xE2 ∧ b1 = 0x80 ∧ b2 = r - 0x2028 + 0xA8) as (-> & -> & ->);
    [Z.div_mod_to_equations; lia|done].
Qed.

Lemma parse_separator r n t : r = 0x2028 ∨ r = 0x2029 →
  parseString (S n) (("\u" +:+ hex4 r) +:+ t) = ('(v, rest) ← parseString n t; Some (encodeRune r +:+ v, rest)).
Proof. by intros [-> | ->]. Qed.

Lemma strBytes_inj a b : strBytes a = strBytes b → a = b.
Proof.
  revert b. induction a as [|c a IH]; intros [|c' b]; cbn; try done. intros [= Hc H].
  f_equal; [by apply chr_inj|by apply IH].
Qed.

(** A well-formed rune is not empty, and starts with a byte above 0x7F unless it
    is that byte alone. *)
Lemma rune_cases a r : decodeRune (strBytes a) = (r, String.length a) → ¬ (r = runeError ∧ String.length a = 1%nat) →
  (∃ c, a = String c EmptyString ∧ (chr c <? 0x80) = true) ∨
  (∃ c a', a = String c a' ∧ (chr c <? 0x80) = false ∧ (r =? runeError) && (String.length a =? 1)%nat = false).
Proof.
  intros H Hne. destruct a as [|c a']; [discriminate H|]. cbn in H. destruct (chr c <? 0x80) eqn:Hc.
  - left. exists c. split; [|done]. injection H as _ H. by destruct a'.
  - right. exists c, a'. split_and!; [done..|]. apply andb_false_iff.
    destruct (decide (r = runeError)) as [->|]; [right|left; by apply Z.eqb_neq].
    apply Nat.eqb_neq. intros E. by apply Hne.
Qed.

Lemma parse_quoted s n m rest : utf8 s → (String.length s ≤ n)%nat → (String.length s < m)%nat →
  parseString m (quoteRunes n s +:+ String quote rest) = Some (s, rest).
Proof.
  intros Hs. revert n m. induction Hs as [|a r b Ha Hne Hb IH]; intros n m Hn Hm.
  { destruct m; [lia|]. by destruct n. }
  rewrite length_append in Hn, Hm.
  destruct (rune_cases a r Ha Hne) as [(c & -> & Hc)|(c & a' & -> & Hc & Hbad)];
    cbn [String.length] in *; (destruct n as [|n]; [lia|]); (destruct m as [|m]; [lia|]).
  - change (String c EmptyString +:+ b) with (String c b). cbn [quoteRunes]. rewrite Hc, app_assoc_s.
    rewrite parse_escape by done. rewrite (IH n m) by lia. done.
  - assert (decodeRune (strBytes (String c a' +:+ b)) = (r, S (String.length a'))) as Hd.
    { rewrite strBytes_app. apply decodeRune_app; [exact Ha|]. intros [= -> Hl]. apply Hne. cbn. by rewrite Hl. }
    rewrite append_cons. cbn [quoteRunes]. rewrite Hc.
    change (String c (a' +:+ b)) with (String c a' +:+ b). rewrite Hd.
    change (S (String.length a')) with (String.length (String c a')). rewrite splitString_app. cbn [String.length]. rewrite Hbad.
    destruct ((r =? 0x2028) || (r =? 0x2029)) eqn:Hsep; rewrite app_assoc_s.
    + assert (r = 0x2028 ∨ r = 0x2029) as Hr by lia.
      assert (String c a' = encodeRune r) as ->.
      { apply strBytes_inj. rewrite (decode_separator (strBytes (String c a')) r); [|by rewrite length_strBytes|done].
        by destruct Hr as [->| ->]. }
      rewrite (parse_separator r) by done. by rewrite (IH n m) by lia.
    + rewrite append_cons. cbn [parseString].
      assert ((c =? quote)%char = false ∧ (c =? "\")%char = false ∧ (chr c <? 32) = false) as (-> & -> & ->).
      { split_and!; [apply Ascii.eqb_neq; intros ->; discriminate Hc..|lia]. }
      rewrite Hc. change (String c (a' +:+ quoteRunes n b +:+ String quote rest))
        with (String c a' +:+ (quoteRunes n b +:+ String quote rest)).
      rewrite strBytes_app, (decodeRune_app _ _ r (String.length (String c a')) Ha)
        by (intros [= -> Hl]; apply Hne; cbn; by rewrite Hl).
      rewrite splitString_app, (IH n m) by (cbn in *; lia). cbn [mbind option_bind String.length]. by rewrite Hbad.
Qed.

Lemma length_escape c : (1 ≤ String.length (default (String c EmptyString) (escapeASCII c)))%nat.
Proof. apply Nat.leb_le. by destruct c as [[] [] [] [] [] [] [] []]. Qed.

Lemma length_quoted s n : utf8 s → (String.length s ≤ n)%nat → (String.length s ≤ String.length (quoteRunes n s))%nat.
Proof.
  intros Hs. revert n. induction Hs as [|a r b Ha Hne Hb IH]; intros n Hn; [apply Nat.le_0_l|].
  rewrite length_append in Hn |- *.
  destruct (rune_cases a r Ha Hne) as [(c & -> & Hc)|(c & a' & -> & Hc & Hbad)];
    cbn [String.length] in *; (destruct n as [|n]; [lia|]).
  - change (String c EmptyString +:+ b) with (String c b). cbn [quoteRunes]. rewrite Hc, length_append.
    pose proof (length_escape c). specialize (IH n ltac:(lia)). lia.
  - assert (decodeRune (strBytes (String c a' +:+ b)) = (r, S (String.length a'))) as Hd.
    { rewrite strBytes_app. apply decodeRune_app; [exact Ha|]. intros [= -> Hl]. apply Hne. cbn. by rewrite Hl. }
    rewrite append_cons. cbn [quoteRunes]. rewrite Hc.
    change (String c (a' +:+ b)) with (String c a' +:+ b). rewrite Hd.
    change (S (String.length a')) with (String.length (String c a')). rewrite splitString_app.
    cbn [String.length]. rewrite Hbad, length_append. specialize (IH n ltac:(lia)).
    destruct ((r =? 0x2028) || (r =? 0x2029)) eqn:Hsep; [|cbn; lia].
    assert (r = 0x2028 ∨ r = 0x2029) as Hr by lia.
    pose proof (decode_separator (strBytes (String c a')) r) as Hl. rewrite length_strBytes in Hl.
    specialize (Hl Ha Hr). apply (f_equal length) in Hl. rewrite length_strBytes in Hl. cbn in Hl.
    assert (String.length ("\u" +:+ hex4 r) = 6%nat) as -> by (by destruct Hr as [-> | ->]). lia.
Qed.

(** Printable ASCII text without quotes and backslashes, which is written as it
    is. *)
Definition plainChar (c : ascii) : bool :=
  (32 <=? chr c) && (chr c <? 0x80) && negb (chr c =? 34) && negb (chr c =? 92).

Lemma parse_plain s m rest : forallString plainChar s = true → (String.length s < m)%nat →
  parseString m (s +:+ String quote rest) = Some (s, rest).
Proof.
  revert m. induction s as [|c s IH]; intros m Hs Hm; (destruct m as [|m]; [cbn in Hm; lia|]); [done|].
  cbn [forallString] in Hs. apply andb_prop in Hs as [Hc Hs]. cbn in Hm. unfold plainChar in Hc.
  rewrite append_cons. cbn [parseString].
  assert ((c =? quote)%char = false ∧ (c =? "\")%char = false ∧ (chr c <? 32) = false ∧ (chr c <? 0x80) = true)
    as (-> & -> & -> & ->).
  { split_and!; [apply Ascii.eqb_neq; intros ->; by vm_compute in Hc..|lia|lia]. }
  by rewrite (IH m) by (done || lia).
Qed.

(** * Decimal numbers are read back *)

Lemma countDigits_spec fuel z : 0 ≤ z → Z.log2 z ≤ Z.of_nat fuel →
  z < 10 ^ Z.of_nat (countDigits fuel z) ∧
  ∃ k, countDigits fuel z = S k ∧ (z = 0 ∧ k = 0%nat ∨ 10 ^ Z.of_nat k ≤ z).
Proof.
  revert z. induction fuel as [|fuel IH]; intros z Hz Hf; cbn [countDigits].
  { assert (z < 2) as H2.
    { destruct (decide (z < 2)) as [|Hge]; [done|].
      pose proof (Z.log2_le_mono 2 z ltac:(lia)) as Hl. change (Z.log2 2) with 1 in Hl. lia. }
    split; [cbn; lia|]. exists O. split; [done|]. cbn. lia. }
  destruct (z <? 10) eqn:E; [split; [cbn; lia|]; exists O; split; [done|]; cbn; lia|].
  assert (Z.log2 (z / 10) ≤ Z.of_nat fuel) as Hl.
  { pose proof (Z.log2_le_mono (z / 10) (z / 2) ltac:(Z.div_mod_to_equations; lia)) as Hm.
    change 2 with (2 ^ 1) in Hm at 1. rewrite <- (Z.shiftr_div_pow2 z 1), Z.log2_shiftr in Hm by lia. lia. }
  destruct (IH (z / 10) ltac:(Z.div_mod_to_equations; lia) Hl) as (Hlt & k & Hk & Hle).
  rewrite Nat2Z.inj_succ, Z.pow_succ_r by lia. split; [Z.div_mod_to_equations; lia|].
  rewrite Hk. exists (S k). split; [done|]. right. rewrite Nat2Z.inj_succ, Z.pow_succ_r by lia.
  destruct Hle as [[H0 ->]|Hle]; [|Z.div_mod_to_equations; lia].
  exfalso. apply Z.ltb_ge in E. Z.div_mod_to_equations; lia.
Qed.

Lemma parseDigits_fix n z acc : parseDigits (fixDigits n z) acc = Some (acc * 10 ^ Z.of_nat n + z mod 10 ^ Z.of_nat n).
Proof.
  revert acc. induction n as [|n IH]; intros acc; cbn [fixDigits parseDigits].
  { f_equal. rewrite Z.mod_1_r. cbn. lia. }
  pose proof (Z.mod_pos_bound (z / 10 ^ Z.of_nat n) 10 ltac:(lia)) as Hd.
  rewrite isDigit_digit, chr_digit, IH by done. f_equal. rewrite <- mod_pow10_S.
  rewrite Nat2Z.inj_succ, Z.pow_succ_r by lia. lia.
Qed.

(** The text of a natural number: digits, no leading zero, and its value. *)
Lemma formatUint_spec z : 0 ≤ z →
  ∃ c ds, formatUint z = String c ds ∧ allDigits (String c ds) = true ∧
    parseDigits (String c ds) 0 = Some z ∧ (c = "0"%char → ds = EmptyString).
Proof.
  intros Hz. unfold formatUint.
  destruct (countDigits_spec (Z.to_nat (Z.log2 z)) z Hz ltac:(lia)) as (Hlt & k & Hk & Hle).
  pose proof (allDigits_fix (countDigits (Z.to_nat (Z.log2 z)) z) z) as Hall.
  pose proof (parseDigits_fix (countDigits (Z.to_nat (Z.log2 z)) z) z 0) as Hv.
  rewrite Z.mul_0_l, Z.add_0_l, Z.mod_small in Hv by lia.
  rewrite Hk in *. cbn [fixDigits] in *. eexists _, _. split_and!; [done..|]. intros Hc.
  destruct Hle as [[_ ->]|Hle]; [done|]. exfalso.
  rewrite Nat2Z.inj_succ, Z.pow_succ_r in Hlt by lia.
  assert (1 ≤ z / 10 ^ Z.of_nat k < 10) as Hd.
  { pose proof (Z.pow_pos_nonneg 10 (Z.of_nat k) ltac:(lia) ltac:(lia)).
    split; [apply Z.div_le_lower_bound; lia|apply Z.div_lt_upper_bound; lia]. }
  rewrite (Z.mod_small (z / _) 10) in Hc by lia.
  apply (f_equal chr) in Hc. rewrite chr_digit in Hc by lia. change (chr "0") with 48 in Hc. lia.
Qed.

(** A character that ends a number. *)
Definition endsNumber (c : ascii) : bool :=
  negb (isDigit c) && negb (c =? ".")%char && negb (c =? "e")%char && negb (c =? "E")%char.

Lemma parseFrac_end c rest : endsNumber c = true → parseFrac (String c rest) = Some (EmptyString, String c rest).
Proof. unfold endsNumber. intros H. cbn [parseFrac]. by destruct (c =? ".")%char; [rewrite andb_false_r in H|]. Qed.

Lemma parseExponent_end c rest : endsNumber c = true → parseExponent (String c rest) = Some (0, String c rest).
Proof.
  unfold endsNumber. intros H. cbn [parseExponent].
  destruct (c =? "e")%char; [by rewrite andb_false_r in H|]. by destruct (c =? "E")%char; [rewrite andb_false_r in H|].
Qed.

Lemma parseNumber_unsigned (neg : bool) z c rest t : 0 ≤ z → endsNumber c = true →
  literal "-" t = (if neg then Some (formatUint z +:+ String c rest) else None) →
  (neg = false → t = formatUint z +:+ String c rest) →
  parseNumber t = Some (mkDecimal neg z 0, String c rest).
Proof.
  intros Hz Hc Hl Ht. destruct (formatUint_spec z Hz) as (d & ds & Hf & Hall & Hv & H0).
  assert (parseNumber t =
    mbind (λ '(int, s), '(frac, s) ← parseFrac s; '(e, s) ← parseExponent s;
     Some (mkDecimal neg (digitsValue (int +:+ frac)) (e - Z.of_nat (String.length frac)), s))
    (if (d =? "0")%char then Some (String d EmptyString, ds +:+ String c rest)
     else if isDigit d then Some (spanDigits (String d ds +:+ String c rest)) else None)) as ->.
  { unfold parseNumber. rewrite Hl, Hf. destruct neg; [done|]. rewrite (Ht eq_refl), Hf. done. }
  cbn [allDigits] in Hall. pose proof Hall as Hall'. apply andb_prop in Hall' as [Hd _]. rewrite Hd.
  assert (isDigit c = false) as Hnd.
  { unfold endsNumber in Hc. by destruct (isDigit c). }
  assert ((if (d =? "0")%char then Some (String d EmptyString, ds +:+ String c rest)
           else Some (spanDigits (String d ds +:+ String c rest))) = Some (String d ds, String c rest)) as ->.
  { destruct (d =? "0")%char eqn:E; [apply Ascii.eqb_eq in E; by rewrite (H0 E)|]. by rewrite spanDigits_app. }
  cbn [mbind option_bind]. rewrite parseFrac_end by done. cbn [mbind option_bind].
  rewrite parseExponent_end by done. cbn [mbind option_bind String.length].
  rewrite app_empty_r. unfold digitsValue. by rewrite Hv.
Qed.

Lemma parseNumber_format z c rest : endsNumber c = true →
  parseNumber (formatInt z +:+ String c rest) = Some (mkDecimal (z <? 0) (Z.abs z) 0, String c rest).
Proof.
  intros Hc. unfold formatInt. destruct (z <? 0) eqn:Hz.
  - rewrite (Z.abs_neq z) by lia. apply parseNumber_unsigned; [lia|done|done|done].
  - rewrite (Z.abs_eq z) by lia. apply parseNumber_unsigned; [lia|done| |done].
    destruct (formatUint_spec z ltac:(lia)) as (d & ds & -> & Hall & _).
    rewrite append_cons. cbn [literal]. cbn [allDigits] in Hall.
    destruct ("-" =? d)%char eqn:E; [|done]. by apply Ascii.eqb_eq in E as <-.
Qed.

(** Integers up to 2^53 are exact as float64. *)
Lemma floatTrunc_int (neg : bool) z : 0 ≤ z < 2 ^ 53 → floatTrunc (mkDecimal neg z 0) = Some (if neg then - z else z).
Proof.
  intros Hz. unfold floatTrunc. cbn [dec_exp dec_mant dec_neg]. cbn [Z.leb Z.compare].
  change (10 ^ 0) with 1. rewrite Z.mul_1_r.
  assert (∃ m e, float64 z 1 = Some (m, e) ∧ scale m e = z) as (m & e & -> & Hm); [|cbn [mbind option_bind]; by rewrite Hm].
  unfold float64. destruct (z =? 0) eqn:E0; [apply Z.eqb_eq in E0 as ->; by exists 0, 0|].
  apply Z.eqb_neq in E0. pose proof (Z.log2_spec z ltac:(lia)) as [Hl1 Hl2].
  assert (0 ≤ Z.log2 z ≤ 52) as Hk.
  { split; [apply Z.log2_nonneg|]. pose proof (Z.log2_lt_pow2 z 53 ltac:(lia)). lia. }
  change (Z.log2 1) with 0. set (k := Z.log2 z) in *. rewrite Z.sub_0_r, !Z.mul_1_r.
  assert (2 ^ 52 ≤ z * 2 ^ (52 - k)) as Hge.
  { replace (2 ^ 52) with (2 ^ k * 2 ^ (52 - k)) by (rewrite <- Z.pow_add_r by lia; f_equal; lia).
    apply Z.mul_le_mono_nonneg_r; [apply Z.pow_nonneg; lia|lia]. }
  assert ((if 0 <=? k - 52 then z <? 2 ^ 52 * 2 ^ (k - 52) else z * 2 ^ (- (k - 52)) <? 2 ^ 52) = false) as ->.
  { replace (- (k - 52)) with (52 - k) by lia. destruct (0 <=? k - 52) eqn:E; [|lia].
    apply Z.leb_le in E. assert (k = 52) as Ek by lia. rewrite Ek in *. cbn. lia. }
  rewrite Z.max_r, ?Z.mul_1_l by lia.
  assert (roundHalfEven z (2 ^ (k - 52)) = z ∨ k < 52) as Hr0.
  { destruct (decide (k = 52)) as [->|]; [left|right; lia]. cbn. unfold roundHalfEven.
    rewrite Z.div_1_r, Z.mod_1_r. done. }
  assert (∀ n, roundHalfEven n 1 = n) as Hr1.
  { intros n. unfold roundHalfEven. rewrite Z.div_1_r, Z.mod_1_r. done. }
  assert (scale (z * 2 ^ (52 - k)) (k - 52) = z) as Hsc.
  { unfold scale. destruct (0 <=? k - 52) eqn:E.
    - apply Z.leb_le in E. assert (k = 52) as Ek by lia. rewrite Ek. cbn. lia.
    - replace (- (k - 52)) with (52 - k) by lia. apply Z.div_mul, Z.pow_nonzero; lia. }
  assert ((if 0 <=? k - 52 then roundHalfEven z (2 ^ (k - 52)) else roundHalfEven (z * 2 ^ (- (k - 52))) 1)
          = z * 2 ^ (52 - k)) as ->.
  { destruct (0 <=? k - 52) eqn:E.
    - apply Z.leb_le in E. assert (k = 52) as Ek by lia. destruct Hr0 as [->|]; [|lia]. rewrite Ek. cbn. lia.
    - rewrite Hr1. f_equal. f_equal. lia. }
  rewrite Hsc. rewrite (proj2 (Z.leb_gt _ z)).
  - eexists _, _. done.
  - transitivity (2 ^ 53); [lia|]. apply Z.pow_lt_mono_r; lia.
Qed.
