(* ===== verification/JsonCodec.v ===== *)
(** The JSON encoding of TTLV: [MarshalJSON], [UnmarshalJSON] and
    [unmarshalJSON] of src/ttlv/ttlv.go. *)
From Stdlib Require Import ZArith Lia Strings.Byte Ascii String.
From stdpp Require Import base list strings numbers gmap.
From S2P Require Import Prelude Ttlv Grammar EncBuf Hex Names Registry Formatting Generated Kmip14 Kmip20 DefaultRegistry GoTime Json.
Local Open Scope Z_scope.
Set Warnings "-register-all".

(** * Errors *)

Inductive jerr : Type :=
  | JInvalid (e : terr)          (** [t.Valid()] *)
  | JTime                        (** [Time.MarshalJSON]: the year has not four digits *)
  | JJSON                        (** [json.Unmarshal] *)
  | JTag (e : perr)              (** invalid tag *)
  | JType (e : perr)             (** invalid type *)
  | JHex (e : herr)
  | JHexDecode                   (** [hex.DecodeString] *)
  | JParse (e : perr)
  | JMessage (msg : string)
  | JSyntax (tag tp : Z) (e : jerr).

Definition liftErr {E1 E2 A} (f : E1 → E2) (r : res E1 A) : res E2 A :=
  match r with Ok a => Ok a | Err e => Err (f e) | Panic => Panic | OutOfFuel => OutOfFuel end.

(** [a, _ = f()]: the value on success, zero on an error. *)
Definition orZero {E1 E2} (r : res E1 Z) : res E2 Z :=
  match r with Ok a => Ok a | Err _ => Ok 0 | Panic => Panic | OutOfFuel => OutOfFuel end.

(** Text with a backquote for every double quote. *)
Fixpoint dq (s : string) : string :=
  match s with
  | EmptyString => EmptyString
  | String c s => String (if (c =? "`")%char then quote else c) (dq s)
  end.

Definition quoted (s : string) : string := String quote (s +:+ String quote EmptyString).

(** What a conversion from float64 to an integer type gives: the Go
    specification settles it when the value fits. *)
Inductive intKind : Type := KInt32 | KInt64 | KUint32.
Definition inKind (k : intKind) (z : Z) : Prop :=
  match k with KInt32 => is_i32 z | KInt64 => is_i64 z | KUint32 => is_u32 z end.
Class FloatConv := ofFloat : intKind → Z → Z.
Class FloatConvLaws (fc : FloatConv) : Prop := ofFloat_fits : ∀ k z, inKind k z → ofFloat k z = z.

(** [maxJSONInt] *)
Definition maxJSONInt : Z := Z.shiftl 1 52.

Section Codec.
Context `{TitleCaser} (dflt : Registry).

(** * MarshalJSON *)

(** The tag that an attribute name stands for, if any. *)
Definition attributeTag {E} (name : string) : res E Z :=
  orZero (Registry_ParseTag dflt (NormalizeName name)).

Definition marshalInteger (enumTag i : Z) : string :=
  match Registry_EnumForTag dflt enumTag with
  | Some enum => quoted (FormatInt i (Some enum))
  | None => formatInt i
  end.

(** The loop over the values of a Structure; [n] bounds their number. *)
Fixpoint marshalChildren (marshal : TTLV → res jerr string) (n : nat) (c : TTLV) (attrTag : Z)
    : res jerr string :=
  if len c =? 0 then Ok EmptyString
  else match n with
  | O => OutOfFuel
  | S n =>
      attrTag ← (if TTLV_Tag c =? tagAttributeName then
                   attributeTag (TTLV_ValueTextString c)
                 else Ok attrTag);
      text ←
        (if (TTLV_Tag c =? tagAttributeValue) && (TTLV_Type c =? TypeEnumeration) then
           v ← liftErr JInvalid (TTLV_ValueEnumeration c);
           Ok (dq "{`tag`:`AttributeValue`,`type`:`Enumeration`,`value`:"
                 +:+ quoted (Registry_FormatEnum dflt attrTag (u32 v)) +:+ "}")
         else if (TTLV_Tag c =? tagAttributeValue) && (TTLV_Type c =? TypeInteger) then
           v ← liftErr JInvalid (TTLV_ValueInteger c);
           Ok (dq "{`tag`:`AttributeValue`,`type`:`Integer`,`value`:" +:+ marshalInteger attrTag v +:+ "}")
         else marshal c);
      nx ← liftErr JInvalid (TTLV_Next c);
      rest ← marshalChildren marshal n (bytesOf nx) attrTag;
      Ok (text +:+ (if 0 <? len (bytesOf nx) then "," else "") +:+ rest)
  end.

(** The text of the value, by type. *)
Definition marshalValue (marshal : TTLV → res jerr string) (t : TTLV) : res jerr string :=
  let ty := TTLV_Type t in
  if ty =? TypeBoolean then
    b ← liftErr JInvalid (TTLV_ValueBoolean t); Ok (if b : bool then "true" else "false")%string
  else if ty =? TypeEnumeration then
    v ← liftErr JInvalid (TTLV_ValueEnumeration t);
    Ok (quoted (Registry_FormatEnum dflt (TTLV_Tag t) (u32 v)))
  else if ty =? TypeInteger then
    v ← liftErr JInvalid (TTLV_ValueInteger t); Ok (marshalInteger (TTLV_Tag t) v)
  else if ty =? TypeLongInteger then
    v ← liftErr JInvalid (TTLV_ValueLongInteger t);
    if (v <=? - maxJSONInt) || (maxJSONInt <=? v) then
      Ok (quoted ("0x" +:+ hexEncodeToString (bytesOf (TTLV_ValueRaw t))))
    else Ok (formatInt v)
  else if ty =? TypeBigInteger then
    v ← liftErr JInvalid (TTLV_ValueBigInteger t);
    if bool_decide (is_i64 v) && (Z.abs v <? maxJSONInt) then Ok (formatInt v)
    else Ok (quoted ("0x" +:+ hexEncodeToString (bytesOf (TTLV_ValueRaw t))))
  else if ty =? TypeTextString then
    Ok (marshalString (TTLV_ValueTextString t))
  else if ty =? TypeByteString then
    Ok (quoted (hexEncodeToString (bytesOf (TTLV_ValueRaw t))))
  else if ty =? TypeStructure then
    let c := TTLV_ValueStructure t in
    text ← marshalChildren marshal (length (bytesOf c)) (bytesOf c) TagNone;
    Ok ("[" +:+ text +:+ "]")
  else if (ty =? TypeDateTime) || (ty =? TypeDateTimeExtended) then
    tm ← liftErr JInvalid (TTLV_ValueDateTime t);
    match marshalTime tm with Some s => Ok (quoted s) | None => Err JTime end
  else if ty =? TypeInterval then
    v ← liftErr JInvalid (Uint32 (bytesOf (TTLV_ValueRaw t))); Ok (formatUint v)
  else Ok EmptyString.

Fixpoint marshalJSON (fuel : nat) (t : TTLV) : res jerr string :=
  match fuel with
  | O => OutOfFuel
  | S fuel =>
      if len t =? 0 then Ok "null"%string
      else match TTLV_Valid t with
      | Err e => Err (JInvalid e)
      | Panic => Panic
      | OutOfFuel => OutOfFuel
      | Ok _ =>
          v ← marshalValue (marshalJSON fuel) t;
          Ok (dq "{`tag`:`" +:+ Tag_String dflt (TTLV_Tag t)
                +:+ (if TTLV_Type t =? TypeStructure then EmptyString
                     else dq "`,`type`:`" +:+ Type_String dflt (TTLV_Type t))
                +:+ dq "`,`value`:" +:+ v +:+ "}")
      end
  end.

(** [t.MarshalJSON()]; an enclosed value is shorter. *)
Definition TTLV_MarshalJSON (t : TTLV) : res jerr string := marshalJSON (S (length t)) t.

(** * UnmarshalJSON *)

(** The struct [tval]: an absent value is a nil [json.RawMessage]. *)
Record tval := mkTval { tv_Tag : string; tv_Type : string; tv_Value : option json }.

Definition lowerChar (c : ascii) : ascii := if isUpper c then asciiOf (chr c + 32) else c.
Fixpoint lowerString (s : string) : string :=
  match s with EmptyString => EmptyString | String c s => String (lowerChar c) (lowerString s) end.

(** [json.Unmarshal] into a string field: null leaves it alone. *)
Definition setString (old : string) (j : json) : option string :=
  match j with JString s => Some s | JNull => Some old | _ => None end.

(** One member of the object; names are matched without regard to case, and a
    value of the wrong type is an error. *)
Definition setMember (v : tval) (m : string * json) : option tval :=
  let k := lowerString m.1 in
  if String.eqb k "tag" then s ← setString (tv_Tag v) m.2; Some (mkTval s (tv_Type v) (tv_Value v))
  else if String.eqb k "type" then s ← setString (tv_Type v) m.2; Some (mkTval (tv_Tag v) s (tv_Value v))
  else if String.eqb k "value" then Some (mkTval (tv_Tag v) (tv_Type v) (Some m.2))
  else Some v.

Fixpoint setMembers (v : tval) (l : list (string * json)) : option tval :=
  match l with
  | [] => Some v
  | m :: l => v ← setMember v m; setMembers v l
  end.

(** [json.Unmarshal(b, &ttl)] *)
Definition decodeTval (j : json) : option tval :=
  let zero := mkTval "" "" None in
  match j with
  | JObject l => setMembers zero l
  | JNull => Some zero
  | _ => None
  end.

(** [json.Unmarshal] into an [interface{}]: every number must be in the range
    of float64. *)
Fixpoint decodesAny (j : json) : bool :=
  match j with
  | JNumber d => bool_decide (is_Some (floatTrunc d))
  | JArray l => forallb decodesAny l
  | JObject l => forallb (λ m, decodesAny m.2) l
  | _ => true
  end.

Context `{FloatConv}.

Definition floatTo (k : intKind) (d : decimal) : Z := ofFloat k (default 0 (floatTrunc d)).

(** [time.Time{}.Add(d)] with [d] in nanoseconds. *)
Definition addToZeroTime (d : Z) : gotime := GoTime (-62135596800 + d / 1000000000) (d mod 1000000000).

Definition jsonBoolean (tag : Z) (v : json) : res jerr encBuf :=
  match v with
  | JBool b => Ok (encodeBool [] tag b)
  | JString s =>
      if String.eqb s "0x0000000000000001" then Ok (encodeBool [] tag true)
      else if String.eqb s "0x0000000000000000" then Ok (encodeBool [] tag false)
      else Err (JMessage "hex string for Boolean value must be either 0x0000000000000001 (true) or 0x0000000000000000 (false)")
  | _ => Err (JMessage "must be boolean or hex string")
  end.

Definition jsonTextString (tag : Z) (v : json) : res jerr encBuf :=
  match v with
  | JString s => Ok (encodeTextString [] tag s)
  | _ => Err (JMessage "must be string")
  end.

Definition jsonByteString (tag : Z) (v : json) : res jerr encBuf :=
  match v with
  | JString s =>
      match hexPrefix s, hexDecodeString s with
      | Some _, _ => Err (JMessage "should not have 0x prefix")
      | None, Some b => Ok (encodeByteString [] tag (Some b))
      | None, None => Err JHexDecode
      end
  | _ => Err (JMessage "must be hex string")
  end.

(** A hex string that must start with 0x. *)
Definition jsonHex (s : string) (maxLen : Z) : res jerr (list byte) :=
  b ← liftErr JHex (ParseHexValue s maxLen);
  match b with Some b => Ok b | None => Err (JMessage "hex value must start with 0x") end.

Definition jsonInterval (tag : Z) (v : json) : res jerr encBuf :=
  match v with
  | JString s => b ← jsonHex s 4; Ok (encodeInterval [] tag (i64 (DecodeUint32 b * Second)))
  | JNumber d => Ok (encodeInterval [] tag (i64 (floatTo KInt64 d * Second)))
  | _ => Err (JMessage "must be number or hex string")
  end.

Definition jsonDateTime (tp tag : Z) (v : json) : res jerr encBuf :=
  match v with
  | JString s =>
      b ← liftErr JHex (ParseHexValue s 8);
      tm ← match b with
           | Some b =>
               let u := DecodeUint64 b in
               if tp =? TypeDateTime then Ok (unixTime (i64 u) 0) else Ok (addToZeroTime (i64 (u * 1000)))
           | None =>
               match parseRFC3339Nano s with
               | Some tm => Ok tm
               | None => Err (JMessage "must be ISO8601 format")
               end
           end;
      if tp =? TypeDateTime then Ok (encodeDateTime [] tag tm) else Ok (encodeDateTimeExtended [] tag tm)
  | _ => Err (JMessage "must be string")
  end.

(** The tag that selects the enumeration of an attribute value. *)
Definition enumTagOf (tag attrTag : Z) : Z :=
  if (tag =? tagAttributeValue) && negb (attrTag =? TagNone) then attrTag else tag.

Definition jsonInteger (tag attrTag : Z) (v : json) : res jerr encBuf :=
  match v with
  | JString s =>
      i ← liftErr JParse (Registry_ParseInt dflt (enumTagOf tag attrTag) s); Ok (encodeInt [] tag i)
  | JNumber d => Ok (encodeInt [] tag (floatTo KInt32 d))
  | _ => Err (JMessage "must be number, hex string, or mask value name")
  end.

Definition jsonLongInteger (tag : Z) (v : json) : res jerr encBuf :=
  match v with
  | JString s => b ← jsonHex s 8; Ok (encodeLongInt [] tag (i64 (DecodeUint64 b)))
  | JNumber d => Ok (encodeLongInt [] tag (floatTo KInt64 d))
  | _ => Err (JMessage "must be number or hex string")
  end.

Definition jsonBigInteger (tag : Z) (v : json) : res jerr encBuf :=
  match v with
  | JString s =>
      match hexPrefix s with
      | None => Err (JMessage "hex value must start with 0x")
      | Some s =>
          match hexDecodeString s with
          | None => Err JHexDecode
          | Some b =>
              if negb (len b mod 8 =? 0) then Err (JMessage "must be multiple of 8 bytes (16 hex characters)")
              else Ok (encodeBigInt [] tag (Some (unmarshalBigInt (unpadBigInt b))))
          end
      end
  | JNumber d => Ok (encodeBigInt [] tag (Some (floatTo KInt64 d)))
  | _ => Err (JMessage "must be number or hex string")
  end.

Definition jsonEnumeration (tag attrTag : Z) (v : json) : res jerr encBuf :=
  match v with
  | JString s =>
      u ← liftErr JParse (Registry_ParseEnum dflt (enumTagOf tag attrTag) s); Ok (encodeEnum [] tag u)
  | JNumber d => Ok (encodeEnum [] tag (floatTo KUint32 d))
  | _ => Err (JMessage "must be number or string")
  end.

(** The values other than Structures, by type; a type without a case encodes
    nothing. *)
Definition jsonPrim (tp tag attrTag : Z) (v : json) : res jerr encBuf :=
  if tp =? TypeBoolean then jsonBoolean tag v
  else if tp =? TypeTextString then jsonTextString tag v
  else if tp =? TypeByteString then jsonByteString tag v
  else if tp =? TypeInterval then jsonInterval tag v
  else if (tp =? TypeDateTime) || (tp =? TypeDateTimeExtended) then jsonDateTime tp tag v
  else if tp =? TypeInteger then jsonInteger tag attrTag v
  else if tp =? TypeLongInteger then jsonLongInteger tag v
  else if tp =? TypeBigInteger then jsonBigInteger tag v
  else if tp =? TypeEnumeration then jsonEnumeration tag attrTag v
  else Ok [].

(** The loop over the children of a Structure: [scratch] is encoded into its
    own buffer and appended. *)
Fixpoint jsonChildren (unmarshal : json → Z → res jerr TTLV) (l : list json) (attrTag : Z) (enc : encBuf)
    : res jerr encBuf :=
  match l with
  | [] => Ok enc
  | c :: l =>
      scratch ← unmarshal c attrTag;
      attrTag ← (if tagAttributeName =? TTLV_Tag scratch
                 then attributeTag (TTLV_ValueTextString scratch) else Ok attrTag);
      jsonChildren unmarshal l attrTag (enc ++ scratch)
  end.

(** What [unmarshalJSON] does after [json.Unmarshal(b, &ttl)] and the tag and
    the type are known. *)
Definition jsonBody (children : list json → encBuf → res jerr encBuf) (tag tp attrTag : Z) (value : option json)
    : res jerr encBuf :=
  if tp =? TypeStructure then
    l ← match value with
        | Some (JArray l) => Ok l
        | Some JNull => Ok []
        | _ => Err JJSON
        end;
    let '(enc, s) := encBuf_begin [] tag TypeStructure in
    enc ← children l enc; Ok (encBuf_end enc s)
  else match value with
  | Some v => jsonPrim tp tag attrTag v
  | None => Err JJSON
  end.

(** Nesting depth. *)
Fixpoint jsonDepth (j : json) : nat :=
  match j with
  | JArray l => S (foldr (λ j n, Nat.max (jsonDepth j) n) O l)
  | JObject l => S (foldr (λ m n, Nat.max (jsonDepth m.2) n) O l)
  | _ => 1
  end.

(** [unmarshalJSON] on parsed text.  The raw text of a child is the text of a
    value within the parsed value, so it is passed on parsed. *)
Fixpoint unmarshalTree (fuel : nat) (j : json) (attrTag : Z) : res jerr TTLV :=
  match fuel with
  | O => OutOfFuel
  | S fuel =>
      match decodeTval j with
      | None => Err JJSON
      | Some ttl =>
          tag ← liftErr JTag (Registry_ParseTag dflt (tv_Tag ttl));
          tp ← (if String.eqb (tv_Type ttl) "" then Ok TypeStructure
                else
                  tp ← liftErr JType (Registry_ParseType dflt (tv_Type ttl));
                  if from_option decodesAny false (tv_Value ttl) then Ok tp else Err JJSON);
          liftErr (JSyntax tag tp)
            (jsonBody (λ l, jsonChildren (unmarshalTree fuel) l TagNone) tag tp attrTag (tv_Value ttl))
      end
  end.

(** [t.UnmarshalJSON(b)]: the new value of [t]. *)
Definition TTLV_UnmarshalJSON (t : TTLV) (b : string) : res jerr TTLV :=
  if (String.length b =? 0)%nat then Ok t
  else match parseJSON b with
  | None => Err JJSON
  | Some j => unmarshalTree (jsonDepth j) j TagNone
  end.

End Codec.

(** Example: a mask under its own tag, a name and its attribute value. *)
Definition jsonSample : item :=
  IStructure 0x420008 [IPrim 0x42000a (PTextString (String.list_byte_of_string "Cryptographic Usage Mask"));
                       IPrim 0x42000b (PInteger 12); IPrim 0x420094 (PTextString [x22; x3c; xc3; xa9]);
                       IPrim 0x420001 (PDateTime 1600000000); IPrim 0x420002 (PBigInteger (-2 ^ 70))].
#[export] Instance goConv : FloatConv := λ k z,
  match k with KInt32 => i32 z | KInt64 => i64 z | KUint32 => u32 z end.
(** A small registry: the tags of attributes, one enumeration, one mask. *)
Definition jsonRegistry : Registry :=
  let r := foldl (λ r '(t, n), Registry_RegisterTag r t n) (RegisterTypes emptyRegistry)
    [(0x420008, "Attribute"); (0x42000a, "Attribute Name"); (0x42000b, "Attribute Value");
     (0x42002c, "Cryptographic Usage Mask"); (0x420094, "Unique Identifier"); (0x42005c, "Operation")]%string in
  let r := Registry_RegisterEnum r 0x42002c (RefEnum (registerAll NewBitmask
    [(1, "Sign"); (2, "Verify"); (4, "Encrypt"); (8, "Decrypt")]%string)) in
  Registry_RegisterEnum r 0x42005c (RefEnum (registerAll NewEnum [(1, "Create"); (10, "Get")]%string)).

Example json_roundtrip_ex :
  (s ← TTLV_MarshalJSON jsonRegistry (itemBlock jsonSample); TTLV_UnmarshalJSON jsonRegistry [] s) =
  Ok (itemBlock jsonSample).
Proof. vm_compute. reflexivity. Qed.
