(* ===== verification/JsonRoundtrip.v ===== *)
(** The round trip through the JSON encoding: what [MarshalJSON] writes for an
    item is JSON text, and [UnmarshalJSON] reads it back to the same bytes. *)
From Stdlib Require Import ZArith Lia Strings.Byte Ascii String.
From stdpp Require Import base list strings numbers gmap.
From S2P Require Import Prelude Ttlv Grammar EncBuf Blocks Hex Names Registry Formatting FormatText Generated Kmip14 Kmip20 DefaultRegistry GoTime Json JsonCodec.
Local Open Scope Z_scope.

(** * The JSON of an item *)

Section Spec.
Context `{TitleCaser} (r : Registry).

(** The tag of the last attribute name. *)
Definition nextAttr (attr : Z) (c : item) : Z :=
  if itemTag c =? tagAttributeName then
    match Registry_ParseTag r (NormalizeName (String.string_of_list_byte (segment c))) with Ok t => t | _ => 0 end
  else attr.

(** Does the attribute name decide how the value is written? *)
Definition isAttributeValue (c : item) : bool :=
  match c with
  | IPrim tag (PInteger _) | IPrim tag (PEnumeration _) => tag =? tagAttributeValue
  | _ => false
  end.
Definition childTag (attr : Z) (c : item) : Z := if isAttributeValue c then attr else itemTag c.

(** Visit the values of a Structure, each with the tag that selects its
    enumeration. *)
Definition mapAttr {A} (f : Z → item → A) : Z → list item → list A :=
  fix go attr l :=
    match l with
    | [] => []
    | c :: l => let attr := nextAttr attr c in f (childTag attr c) c :: go attr l
    end.

Definition primText (et : Z) (p : prim) : string :=
  let hex := quoted ("0x" +:+ hexEncodeToString (primSegment p)) in
  match p with
  | PBoolean b => if b then "true" else "false"
  | PEnumeration v => quoted (Registry_FormatEnum r et v)
  | PInteger i => marshalInteger r et i
  | PLongInteger v => if (v <=? - maxJSONInt) || (maxJSONInt <=? v) then hex else formatInt v
  | PBigInteger v => if Z.abs v <? maxJSONInt then formatInt v else hex
  | PTextString s => marshalString (String.string_of_list_byte s)
  | PByteString s => quoted (hexEncodeToString s)
  | PDateTime sec => quoted (formatRFC3339Nano (GoTime sec 0))
  | PDateTimeExtended usec => quoted (formatRFC3339Nano (unixTime 0 (usec * 1000)))
  | PInterval sec => formatUint sec
  end.

Fixpoint commas (l : list string) : string :=
  match l with
  | [] => EmptyString
  | s :: l => s +:+ (match l with [] => EmptyString | _ => "," end) +:+ commas l
  end.

Fixpoint itemText (et : Z) (it : item) : string :=
  match it with
  | IPrim tag p =>
      dq "{`tag`:`" +:+ Tag_String r tag +:+ dq "`,`type`:`" +:+ Type_String r (primType p)
        +:+ dq "`,`value`:" +:+ primText et p +:+ "}"
  | IStructure tag items =>
      dq "{`tag`:`" +:+ Tag_String r tag +:+ dq "`,`value`:" +:+ "[" +:+ commas (mapAttr itemText TagNone items)
        +:+ "]" +:+ "}"
  end.

Definition intTree (z : Z) : json := JNumber (mkDecimal (z <? 0) (Z.abs z) 0).

Definition primTree (et : Z) (p : prim) : json :=
  let hex := JString ("0x" +:+ hexEncodeToString (primSegment p)) in
  match p with
  | PBoolean b => JBool b
  | PEnumeration v => JString (Registry_FormatEnum r et v)
  | PInteger i =>
      match Registry_EnumForTag r et with Some m => JString (FormatInt i (Some m)) | None => intTree i end
  | PLongInteger v => if (v <=? - maxJSONInt) || (maxJSONInt <=? v) then hex else intTree v
  | PBigInteger v => if Z.abs v <? maxJSONInt then intTree v else hex
  | PTextString s => JString (String.string_of_list_byte s)
  | PByteString s => JString (hexEncodeToString s)
  | PDateTime sec => JString (formatRFC3339Nano (GoTime sec 0))
  | PDateTimeExtended usec => JString (formatRFC3339Nano (unixTime 0 (usec * 1000)))
  | PInterval sec => intTree sec
  end.

Fixpoint itemTree (et : Z) (it : item) : json :=
  match it with
  | IPrim tag p =>
      JObject [("tag", JString (Tag_String r tag)); ("type", JString (Type_String r (primType p)));
               ("value", primTree et p)]%string
  | IStructure tag items =>
      JObject [("tag", JString (Tag_String r tag)); ("value", JArray (mapAttr itemTree TagNone items))]%string
  end.

(** The values that survive: text is UTF-8, years have four digits, a mask is
    not empty, microseconds fit into nanoseconds. *)
Definition primJsonOk (et : Z) (p : prim) : Prop :=
  match p with
  | PInteger i =>
      match Registry_EnumForTag r et with Some m => em_Values m ≠ [] ∧ i ≠ 0 | None => True end
  | PTextString s => utf8 (String.string_of_list_byte s)
  | PDateTime sec => 0 ≤ timeYear (GoTime sec 0) ≤ 9999
  | PDateTimeExtended usec => is_i64 (usec * 1000) ∧ 0 ≤ timeYear (unixTime 0 (usec * 1000)) ≤ 9999
  | _ => True
  end.

Fixpoint jsonOk (et : Z) (it : item) : Prop :=
  match it with
  | IPrim _ p => primJsonOk et p
  | IStructure _ items => foldr and True (mapAttr jsonOk TagNone items)
  end.

Fixpoint itemDepth (it : item) : nat :=
  match it with
  | IPrim _ _ => 1
  | IStructure _ items => S (S (foldr (λ it n, Nat.max (itemDepth it) n) O items))
  end.

End Spec.

(** * What the round trip needs of a registry *)

Class RegistryLaws (r : Registry) : Prop := {
  rl_tags : EnumMapLaws (Enum_EnumMap (tags r));
  rl_types : EnumMapLaws (Enum_EnumMap (types r));
  rl_enums : ∀ t m, Registry_EnumForTag r t = Some m → EnumMapLaws m;
  rl_none : Registry_EnumForTag r TagNone = None;
  rl_attributeValue : Tag_String r tagAttributeValue = "AttributeValue"%string;
  rl_integer : Type_String r TypeInteger = "Integer"%string;
  rl_enumeration : Type_String r TypeEnumeration = "Enumeration"%string;
}.

(** * Plain text *)

Abbreviation plain s := (forallString plainChar s = true).

Lemma plainChar_word c : isWordChar c = true → plainChar c = true.
Proof. intros Hc. destruct c as [[] [] [] [] [] [] [] []]; by vm_compute in Hc |- *. Qed.

Lemma plain_app a b : plain a → plain b → plain (a +:+ b).
Proof. apply all_app. Qed.

Lemma plain_hex bs : plain (hexEncodeToString bs).
Proof. apply all_hex, plainChar_word. Qed.

Lemma plain_nameOr m v w : from_option EnumMapLaws True m →
  plain (nameOr ((λ m, em_Name m v) <$> m) (sprintfHex w v)) ∧
  nameOr ((λ m, em_Name m v) <$> m) (sprintfHex w v) ≠ EmptyString.
Proof. intros Hm. split; [by apply all_nameOr; [apply plainChar_word|..]|by apply nameOr_nonempty]. Qed.

Lemma plain_FormatInt i m : EnumMapLaws m → plain (FormatInt i (Some m)).
Proof. intros Hm. by apply (all_FormatInt plainChar plainChar_word). Qed.

Lemma plain_digits s : allDigits s = true → plain s.
Proof.
  induction s as [|c s IH]; [done|]. cbn [allDigits forallString]. intros [Hc Hs]%andb_prop. rewrite (IH Hs), andb_true_r.
  unfold isDigit, plainChar in *. lia.
Qed.

Lemma plain_fixDigits n z : plain (fixDigits n z).
Proof. apply plain_digits, allDigits_fix. Qed.

Lemma plain_time t : 0 ≤ timeYear t ≤ 9999 → plain (formatRFC3339Nano t).
Proof.
  unfold timeYear, formatRFC3339Nano. destruct (civilOfDays _) as [[y m] d]. cbn [fst]. intros Hy.
  unfold padYear. rewrite (proj2 (Z.ltb_ge y 0)), (proj2 (Z.ltb_lt y 10000)) by lia.
  repeat first [apply plain_app | apply plain_fixDigits | done].
  unfold formatNanos. case_match; [done|]. apply plain_app; [done|].
  apply plain_digits, allDigits_strip, allDigits_fix.
Qed.

(** * The text is JSON *)

Lemma quoted_app s rest : quoted s +:+ rest = String quote (s +:+ String quote rest).
Proof. unfold quoted. by rewrite append_cons, app_assoc_s. Qed.

Lemma parseValue_string f depth s t rest : parseString (String.length t) t = Some (s, rest) →
  parseValue (S f) depth (String quote t) = Some (JString s, rest).
Proof.
  intros Hs. cbn [parseValue]. change (skipSpace (String quote t)) with (String quote t).
  cbv iota. change (quote =? quote)%char with true. cbv iota. by rewrite Hs.
Qed.

Lemma parse_quoted_plain f depth s rest : plain s →
  parseValue (S f) depth (quoted s +:+ rest) = Some (JString s, rest).
Proof.
  intros Hs. rewrite quoted_app. apply parseValue_string, parse_plain; [done|].
  rewrite length_append. cbn [String.length]. lia.
Qed.

Lemma parse_marshalString f depth s rest : utf8 s →
  parseValue (S f) depth (marshalString s +:+ rest) = Some (JString s, rest).
Proof.
  intros Hs. unfold marshalString. rewrite append_cons, app_assoc_s. apply parseValue_string.
  apply parse_quoted; [done|lia|]. rewrite length_append. cbn [String.length].
  pose proof (length_quoted s _ Hs (le_n _)). rewrite length_append. cbn [String.length]. lia.
Qed.

(** The first character of a number. *)
Lemma parse_int f depth z c rest : endsNumber c = true →
  parseValue (S f) depth (formatInt z +:+ String c rest) = Some (intTree z, String c rest).
Proof.
  intros Hc. pose proof (parseNumber_format z c rest Hc) as Hn.
  assert (∃ d t, formatInt z +:+ String c rest = String d t ∧ (d = "-"%char ∨ isDigit d = true)) as (d & t & Ht & Hd).
  { unfold formatInt. destruct (z <? 0) eqn:E; [by eexists _, _; split; [|left]|].
    destruct (formatUint_spec z ltac:(lia)) as (d & ds & -> & Hall & _). cbn [allDigits] in Hall.
    apply andb_prop in Hall as [Hd _]. eexists d, _. split; [done|by right]. }
  rewrite Ht in *. cbn [parseValue].
  assert (skipSpace (String d t) = String d t) as ->.
  { cbn [skipSpace]. unfold isSpace. destruct Hd as [-> | Hd]; [done|]. unfold isDigit in Hd.
    destruct (_ || _) eqn:E; [lia|done]. }
  assert (((d =? quote) || (d =? "[") || (d =? "{") || (d =? "t") || (d =? "f") || (d =? "n"))%char = false) as Hne.
  { destruct Hd as [-> | Hd]; [done|]. destruct d as [[] [] [] [] [] [] [] []]; by vm_compute in Hd |- *. }
  rewrite !orb_false_iff in Hne. destruct Hne as (((((-> & ->) & ->) & ->) & ->) & ->). by rewrite Hn.
Qed.

Lemma formatUint_int z : 0 ≤ z → formatUint z = formatInt z.
Proof. intros Hz. unfold formatInt. by rewrite (proj2 (Z.ltb_ge z 0) Hz). Qed.

Lemma parseMembers_step f depth k v j c rest : plain k → isSpace c = false →
  parseValue f depth (v +:+ String c rest) = Some (j, String c rest) →
  parseMembers (S f) depth (quoted k +:+ String ":" (v +:+ String c rest)) =
    if (c =? "}")%char then Some ([(k, j)], rest)
    else if (c =? ",")%char then '(l, rest) ← parseMembers f depth rest; Some ((k, j) :: l, rest)
    else None.
Proof.
  intros Hk Hc Hv. rewrite quoted_app. cbn [parseMembers].
  change (literal quote (skipSpace (String quote ?t))) with (Some t). cbn [mbind option_bind].
  rewrite parse_plain by (done || rewrite length_append; cbn [String.length]; lia). cbn [mbind option_bind].
  change (literal ":" (skipSpace (String ":" ?t))) with (Some t). cbn [mbind option_bind].
  rewrite Hv. cbn [mbind option_bind skipSpace]. by rewrite Hc.
Qed.

Lemma parseElements_step f depth v j c rest : isSpace c = false →
  parseValue f depth (v +:+ String c rest) = Some (j, String c rest) →
  parseElements (S f) depth (v +:+ String c rest) =
    if (c =? "]")%char then Some ([j], rest)
    else if (c =? ",")%char then '(l, rest) ← parseElements f depth rest; Some (j :: l, rest)
    else None.
Proof. intros Hc Hv. cbn [parseElements]. rewrite Hv. cbn [mbind option_bind skipSpace]. by rewrite Hc. Qed.

(** An object starts with a quote, so it is not empty. *)
Lemma parse_object f depth k t l rest : parseMembers f depth (quoted k +:+ t) = Some (l, rest) →
  parseValue (S f) (S depth) (String "{" (quoted k +:+ t)) = Some (JObject l, rest).
Proof.
  intros Hm. cbn [parseValue]. change (skipSpace (String "{" ?t)) with (String "{" t). cbv iota.
  change ("{" =? quote)%char with false. change ("{" =? "[")%char with false. change ("{" =? "{")%char with true.
  cbv iota. rewrite quoted_app in *. change (literal "}" (skipSpace (String quote ?t))) with (@None string).
  cbv iota. by rewrite Hm.
Qed.

Lemma parse_array f depth c t l rest : isSpace c = false → (c =? "]")%char = false →
  parseElements f depth (String c t) = Some (l, rest) →
  parseValue (S f) (S depth) (String "[" (String c t)) = Some (JArray l, rest).
Proof.
  intros Hs Hc Hm. cbn [parseValue]. change (skipSpace (String "[" ?t)) with (String "[" t). cbv iota.
  change ("[" =? quote)%char with false. change ("[" =? "[")%char with true. cbv iota.
  cbn [skipSpace]. rewrite Hs. cbn [literal]. rewrite Ascii.eqb_sym, Hc. by rewrite Hm.
Qed.

Section Parse.
Context {tc : TitleCaser} (r : Registry) `{RegistryLaws r}.

Lemma enum_laws t : from_option EnumMapLaws True (Registry_EnumForTag r t).
Proof. destruct (Registry_EnumForTag r t) as [m|] eqn:E; [|done]. by apply (rl_enums t). Qed.

Lemma plain_Tag t : plain (Tag_String r t).
Proof. apply (plain_nameOr (Some (Enum_EnumMap (tags r))) t 6). apply rl_tags. Qed.
Lemma plain_Type t : plain (Type_String r t) ∧ Type_String r t ≠ EmptyString.
Proof. apply (plain_nameOr (Some (Enum_EnumMap (types r))) t 2). apply rl_types. Qed.
Lemma plain_Enum t v : plain (Registry_FormatEnum r t v).
Proof. apply plain_nameOr, enum_laws. Qed.

Lemma parse_prim f depth et p c rest : primOk p → primJsonOk r et p → endsNumber c = true →
  parseValue (S f) depth (primText r et p +:+ String c rest) = Some (primTree r et p, String c rest).
Proof.
  intros Hok Hj Hc. destruct p; cbn [primText primTree primJsonOk] in *.
  - unfold marshalInteger. destruct (Registry_EnumForTag r et) as [m|] eqn:E; [|by apply parse_int].
    apply parse_quoted_plain, plain_FormatInt. by apply (rl_enums et).
  - case_match; [|by apply parse_int]. apply parse_quoted_plain, plain_app; [done|apply plain_hex].
  - case_match; [by apply parse_int|]. apply parse_quoted_plain, plain_app; [done|apply plain_hex].
  - apply parse_quoted_plain, plain_Enum.
  - by destruct b.
  - by apply parse_marshalString.
  - apply parse_quoted_plain, plain_hex.
  - by apply parse_quoted_plain, plain_time.
  - rewrite formatUint_int by apply Hok. by apply parse_int.
  - apply parse_quoted_plain, plain_time, Hj.
Qed.

(** The text of an item, split into members. *)
Lemma itemText_prim et tag p rest :
  itemText r et (IPrim tag p) +:+ rest =
  String "{" (quoted "tag" +:+ String ":" (quoted (Tag_String r tag) +:+ String ","
    (quoted "type" +:+ String ":" (quoted (Type_String r (primType p)) +:+ String ","
      (quoted "value" +:+ String ":" (primText r et p +:+ String "}" rest)))))).
Proof.
  cbn [itemText]. rewrite !quoted_app, !app_assoc_s. reflexivity.
Qed.

Lemma itemText_structure et tag items rest :
  itemText r et (IStructure tag items) +:+ rest =
  String "{" (quoted "tag" +:+ String ":" (quoted (Tag_String r tag) +:+ String ","
    (quoted "value" +:+ String ":"
      (("[" +:+ commas (mapAttr r (itemText r) TagNone items) +:+ "]") +:+ String "}" rest)))).
Proof.
  cbn [itemText]. rewrite !quoted_app, !app_assoc_s. reflexivity.
Qed.

(** Fuel for the parser, no more than the length of the text. *)
Fixpoint parseNeed (it : item) : nat :=
  match it with
  | IPrim _ _ => 5
  | IStructure _ items => 5 + length items + foldr (λ it n, Nat.max (parseNeed it) n) O items
  end.

Lemma parse_children items attr f depth rest :
  Forall (λ it, ∀ et f depth rest, itemOk it → jsonOk r et it → (parseNeed it ≤ f)%nat → (itemDepth it ≤ depth)%nat →
    parseValue f depth (itemText r et it +:+ rest) = Some (itemTree r et it, rest)) items →
  items ≠ [] → Forall itemOk items → foldr and True (mapAttr r (jsonOk r) attr items) →
  (length items + foldr (λ it n, Nat.max (parseNeed it) n) O items ≤ f)%nat →
  (foldr (λ it n, Nat.max (itemDepth it) n) O items ≤ depth)%nat →
  parseElements f depth (commas (mapAttr r (itemText r) attr items) +:+ String "]" rest) =
    Some (mapAttr r (itemTree r) attr items, rest).
Proof.
  intros Hall. revert attr f. induction Hall as [|it items Hit Hall IH]; [done|].
  intros attr f _ Hok Hj Hf Hd. inversion Hok as [|? ? Hok1 Hok2]; subst.
  cbn [mapAttr foldr length commas] in *. destruct Hj as [Hj1 Hj2].
  destruct f as [|f]; [lia|]. fold (mapAttr r (itemText r)). fold (mapAttr r (itemTree r)).
  fold (mapAttr r (jsonOk r)) in Hj2.
  destruct items as [|it2 items].
  - cbn [mapAttr commas]. rewrite !app_assoc_s. change (EmptyString +:+ ?s) with s.
    change (EmptyString +:+ ?s) with s. erewrite parseElements_step; [done|done|]. apply Hit; [done|done|lia|lia].
  - rewrite !app_assoc_s. change ("," +:+ ?s) with (String "," s).
    destruct (mapAttr r (itemText r) (nextAttr r attr it) (it2 :: items)) as [|s0 l0] eqn:El; [done|].
    rewrite <- El. change ("," +:+ ?s) with (String "," s).
    erewrite parseElements_step; [|done|apply Hit; [done|done|lia|lia]]. cbn [Ascii.eqb Bool.eqb].
    rewrite (IH (nextAttr r attr it) f) by (done || lia). done.
Qed.

Lemma commas_first items attr : items ≠ [] →
  ∃ t, commas (mapAttr r (itemText r) attr items) = String "{" t.
Proof.
  destruct items as [|it items]; [done|]. intros _. cbn [mapAttr commas].
  destruct it; cbn [itemText]; by eexists.
Qed.

Lemma parse_item it et f depth rest : itemOk it → jsonOk r et it → (parseNeed it ≤ f)%nat → (itemDepth it ≤ depth)%nat →
  parseValue f depth (itemText r et it +:+ rest) = Some (itemTree r et it, rest).
Proof.
  revert et f depth rest. induction it as [tag p|tag items IH] using item_ind'; intros et f depth rest Hok Hj Hf Hd.
  - cbn [parseNeed itemDepth] in *. inversion Hok; subst.
    destruct f as [|[|[|[|[|f]]]]]; [lia..|]. destruct depth as [|depth]; [lia|].
    rewrite itemText_prim. apply parse_object.
    erewrite parseMembers_step; [|done..|apply parse_quoted_plain, plain_Tag]. cbn [Ascii.eqb Bool.eqb].
    erewrite parseMembers_step; [|done..|apply parse_quoted_plain, plain_Type]. cbn [Ascii.eqb Bool.eqb].
    erewrite parseMembers_step; [|done..|by apply parse_prim]. done.
  - apply itemOk_inv in Hok as (Ht & Hok & Hl). cbn [parseNeed itemDepth jsonOk itemTree] in *.
    destruct f as [|[|[|[|[|f]]]]]; [lia..|]. destruct depth as [|[|depth]]; [lia..|].
    rewrite itemText_structure. apply parse_object.
    erewrite parseMembers_step; [|done..|apply parse_quoted_plain, plain_Tag]. cbn [Ascii.eqb Bool.eqb].
    assert (∀ rest', parseValue (S (S f)) (S depth) (("[" +:+ commas (mapAttr r (itemText r) TagNone items) +:+ "]")
      +:+ rest') = Some (JArray (mapAttr r (itemTree r) TagNone items), rest')) as Hv.
    { intros rest'. rewrite !app_assoc_s. change ("[" +:+ ?s) with (String "[" s).
      change ("]" +:+ rest') with (String "]" rest').
      destruct items as [|it items]; [done|].
      destruct (commas_first (it :: items) TagNone) as [t Ht']; [done|].
      pose proof (parse_children (it :: items) TagNone (S f) depth rest' IH) as Hc. rewrite Ht' in *.
      rewrite append_cons in *. apply parse_array; [done|done|]. apply Hc; (done || lia). }
    erewrite parseMembers_step; [|done..|apply Hv]. done.
Qed.

(** ** Fuel and depth *)

Lemma quoted_length s : (2 ≤ String.length (quoted s))%nat.
Proof. unfold quoted. cbn [String.length]. rewrite length_append. cbn [String.length]. lia. Qed.

Lemma length_itemText_prim et tag p : (20 ≤ String.length (itemText r et (IPrim tag p)))%nat.
Proof. cbn [itemText]. rewrite !length_append. cbn [String.length dq]. lia. Qed.

Lemma length_itemText_structure et tag items :
  (20 + String.length (commas (mapAttr r (itemText r) TagNone items)) ≤
   String.length (itemText r et (IStructure tag items)))%nat.
Proof. cbn [itemText]. rewrite !length_append. cbn [String.length dq]. lia. Qed.

Lemma parseNeed_length it et : (parseNeed it + 15 ≤ String.length (itemText r et it))%nat.
Proof.
  revert et. induction it as [tag p|tag items IH] using item_ind'; intros et.
  - pose proof (length_itemText_prim et tag p). cbn [parseNeed]. lia.
  - pose proof (length_itemText_structure et tag items) as Hl. cbn [parseNeed].
    assert (∀ attr, (length items + foldr (λ it n, Nat.max (parseNeed it) n) O items ≤
      String.length (commas (mapAttr r (itemText r) attr items)))%nat) as Hc.
    { clear Hl. induction IH as [|it items Hit _ IHi]; intros attr; [apply Nat.le_0_l|].
      cbn [mapAttr commas length foldr]. fold (mapAttr r (itemText r)). rewrite !length_append.
      specialize (IHi (nextAttr r attr it)). specialize (Hit (childTag (nextAttr r attr it) it)). lia. }
    specialize (Hc TagNone). lia.
Qed.

Lemma itemDepth_need it : (itemDepth it ≤ parseNeed it)%nat.
Proof.
  induction it as [tag p|tag items IH] using item_ind'; cbn [itemDepth parseNeed]; [lia|].
  assert (foldr (λ it n, Nat.max (itemDepth it) n) O items ≤ foldr (λ it n, Nat.max (parseNeed it) n) O items)%nat.
  { induction IH; cbn [foldr]; lia. }
  lia.
Qed.

Lemma parseJSON_item it et : itemOk it → jsonOk r et it → (itemDepth it ≤ maxNestingDepth)%nat →
  parseJSON (itemText r et it) = Some (itemTree r et it).
Proof.
  intros Hok Hj Hd. unfold parseJSON. pose proof (parseNeed_length it et) as Hn.
  pose proof (parse_item it et (2 * String.length (itemText r et it) + 2) maxNestingDepth EmptyString Hok Hj) as Hp.
  rewrite app_empty_r in Hp. by rewrite Hp by lia.
Qed.

End Parse.

(** * MarshalJSON writes the text *)

Lemma marshalTime_year t : 0 ≤ timeYear t ≤ 9999 → marshalTime t = Some (formatRFC3339Nano t).
Proof. intros [H0 H1]. unfold marshalTime. by rewrite (proj2 (Z.leb_le _ _) H0), (proj2 (Z.leb_le _ _) H1). Qed.

Section Marshal.
Context {tc : TitleCaser} (r : Registry) `{RegistryLaws r}.

Lemma hexOrName_defined s l m : defined (parseHexOrName s l m).
Proof. unfold parseHexOrName, ParseHexValue. by repeat case_match. Qed.

Lemma attributeTag_eq {E} c rest attr : itemOk c →
  (if TTLV_Tag (itemBlock c ++ rest) =? tagAttributeName
   then attributeTag r (TTLV_ValueTextString (itemBlock c ++ rest)) else Ok (E:=E) attr) = Ok (nextAttr r attr c).
Proof.
  intros Hok. rewrite itemBlock_Tag by done. unfold nextAttr, attributeTag, TTLV_ValueTextString.
  rewrite itemBlock_raw by done. case_match; [|done].
  pose proof (hexOrName_defined (NormalizeName (String.string_of_list_byte (segment c))) 3
    (Some (Enum_EnumMap (tags r)))) as Hd.
  unfold Registry_ParseTag, ParseTag. by destruct (parseHexOrName _ _ _).
Qed.

Lemma marshal_prim marshal tag p rest : Tag_Valid tag = true → primOk p → primJsonOk r tag p →
  marshalValue r marshal (primBlock tag p ++ rest) = Ok (primText r tag p).
Proof.
  intros Ht Hp Hj. unfold marshalValue. rewrite primBlock_Type, primBlock_raw by done.
  pose proof (itemBlock_Tag (IPrim tag p) rest ltac:(by constructor)) as Htag. cbn [itemBlock itemTag] in Htag.
  rewrite Htag.
  assert (∀ A (f : A → goval) get a, Inj (=) (=) f → primGo p = f a →
    TTLV_Value (primBlock tag p ++ rest) = f <$> get (primBlock tag p ++ rest) →
    get (primBlock tag p ++ rest) = Ok a) as Hget by (intros; by eapply block_value).
  unfold TTLV_Value in Hget. rewrite primBlock_Type in Hget.
  destruct p; cbn [primType primGo primText primJsonOk primOk primSegment] in *;
    cbv [TypeBoolean TypeEnumeration TypeInteger TypeLongInteger TypeBigInteger TypeTextString TypeByteString
      TypeStructure TypeDateTime TypeDateTimeExtended TypeInterval Z.eqb Pos.eqb orb] in *.
  - by rewrite (Hget _ GInt32 TTLV_ValueInteger i) by byInj.
  - rewrite (Hget _ GInt64 TTLV_ValueLongInteger i) by byInj. cbn. by case_match.
  - rewrite (Hget _ GBigInt TTLV_ValueBigInteger i) by byInj. cbn [liftErr mbind res_bind].
    destruct (Z.ltb_spec (Z.abs i) maxJSONInt); [|by rewrite andb_false_r].
    rewrite bool_decide_true; [done|]. unfold is_i64, maxJSONInt in *. change (Z.shiftl 1 52) with (2 ^ 52) in *. lia.
  - rewrite (Hget _ GEnumValue TTLV_ValueEnumeration e) by byInj. cbn. by rewrite u32_id.
  - by rewrite (Hget _ GBool TTLV_ValueBoolean b) by byInj.
  - unfold TTLV_ValueTextString. by rewrite primBlock_raw.
  - done.
  - rewrite (Hget _ GTime TTLV_ValueDateTime (GoTime sec 0)) by byInj. cbn [liftErr mbind res_bind].
    by rewrite marshalTime_year.
  - unfold Uint32. rewrite len_be_encode. cbn [Z.ltb Z.compare]. rewrite take_ge by (rewrite length_be_encode; lia).
    by rewrite be_decode_be4.
  - assert (TTLV_ValueDateTime (primBlock tag (PDateTimeExtended usec) ++ rest) =
      Ok (unixTime 0 (i64 (usec * 1000)))) as ->
      by (apply (Hget _ GDateTimeExtended TTLV_ValueDateTime); byInj).
    destruct Hj as [Hi Hy]. rewrite i64_id by done. cbn [liftErr mbind res_bind].
    by rewrite marshalTime_year.
Qed.

(** One value of a Structure, an attribute value included. *)
Lemma marshal_child marshal attr c rest : itemOk c → jsonOk r (childTag attr c) c →
  (childTag attr c = itemTag c → marshal (itemBlock c ++ rest) = Ok (itemText r (itemTag c) c)) →
  (let t := itemBlock c ++ rest in
   if (TTLV_Tag t =? tagAttributeValue) && (TTLV_Type t =? TypeEnumeration) then
     v ← liftErr JInvalid (TTLV_ValueEnumeration t);
     Ok (dq "{`tag`:`AttributeValue`,`type`:`Enumeration`,`value`:"
           +:+ quoted (Registry_FormatEnum r attr (u32 v)) +:+ "}")
   else if (TTLV_Tag t =? tagAttributeValue) && (TTLV_Type t =? TypeInteger) then
     v ← liftErr JInvalid (TTLV_ValueInteger t);
     Ok (dq "{`tag`:`AttributeValue`,`type`:`Integer`,`value`:" +:+ marshalInteger r attr v +:+ "}")
   else marshal t) = Ok (itemText r (childTag attr c) c).
Proof.
  intros Hok Hj Hm. cbv zeta. rewrite itemBlock_Tag, itemBlock_Type by done.
  destruct c as [tag p|tag items]; cbn [itemTag itemType childTag isAttributeValue] in *;
    [|by rewrite !andb_false_r; apply Hm].
  destruct (Z.eqb_spec tag tagAttributeValue) as [->|Hne]; cbn [andb].
  2: { unfold childTag in *. cbn [isAttributeValue itemTag] in *. destruct p; rewrite ?(proj2 (Z.eqb_neq _ _) Hne) in *;
    by apply Hm. }
  inversion Hok as [? ? Ht Hp|]; subst.
  destruct p; unfold childTag in *; cbn [isAttributeValue itemTag primType primOk itemText] in *;
    rewrite ?Z.eqb_refl in *;
    cbv [TypeBoolean TypeEnumeration TypeInteger TypeLongInteger TypeBigInteger TypeTextString TypeByteString
      TypeDateTime TypeDateTimeExtended TypeInterval Z.eqb Pos.eqb] in *; try by apply Hm.
  - cbn [itemBlock].
    rewrite (block_value GInt32 TTLV_ValueInteger tagAttributeValue (PInteger i) i) by byInj || (unfold TTLV_Value; rewrite primBlock_Type; done).
    change (Type_String r 2) with (Type_String r TypeInteger). rewrite rl_attributeValue, rl_integer. done.
  - rewrite (block_value GEnumValue TTLV_ValueEnumeration tagAttributeValue (PEnumeration e) e) by byInj || (unfold TTLV_Value; rewrite primBlock_Type; done).
    cbn [liftErr mbind res_bind]. rewrite u32_id by done.
    change (Type_String r 5) with (Type_String r TypeEnumeration). rewrite rl_attributeValue, rl_enumeration. done.
Qed.

Lemma marshal_children marshal items attr n :
  Forall (λ it, ∀ rest, jsonOk r (itemTag it) it → marshal (itemBlock it ++ rest) = Ok (itemText r (itemTag it) it)) items →
  Forall itemOk items → foldr and True (mapAttr r (jsonOk r) attr items) → (length items ≤ n)%nat →
  marshalChildren r marshal n (concat (map itemBlock items)) attr =
    Ok (commas (mapAttr r (itemText r) attr items)).
Proof.
  intros Hall. revert attr n. induction Hall as [|it items Hit Hall IH]; intros attr n Hok Hj Hn.
  { by destruct n. }
  inversion Hok as [|? ? Hok1 Hok2]; subst. destruct n as [|n]; cbn [length] in Hn; [lia|].
  cbn [mapAttr foldr] in Hj. destruct Hj as [Hj1 Hj2]. fold (mapAttr r (jsonOk r)) in Hj2.
  cbn [map concat marshalChildren mapAttr commas]. fold (mapAttr r (itemText r)).
  pose proof (itemBlock_length it Hok1) as Hl.
  rewrite len_app, (proj2 (Z.eqb_neq _ _)) by (unfold len; lia).
  rewrite attributeTag_eq by done. cbn [mbind res_bind].
  pose proof (marshal_child marshal (nextAttr r attr it) it (concat (map itemBlock items)) Hok1 Hj1) as Hc.
  cbv zeta in Hc. rewrite Hc; [|intros Heq; apply Hit; by rewrite <- Heq]. cbn [mbind res_bind].
  rewrite itemBlock_Next by done. cbn [liftErr mbind res_bind]. rewrite bytesOf_nonNil.
  rewrite (IH (nextAttr r attr it) n) by (done || lia). cbn [mbind res_bind]. do 3 f_equal.
  destruct items as [|it2 items]; [done|]. inversion Hok2 as [|? ? Hok3 _]; subst.
  pose proof (itemBlock_length it2 Hok3). cbn [map concat mapAttr].
  by rewrite (proj2 (Z.ltb_lt _ _)) by (unfold len; rewrite length_app; lia).
Qed.

Lemma marshal_item it fuel rest : itemOk it → jsonOk r (itemTag it) it → (length (itemBlock it) < fuel)%nat →
  marshalJSON r fuel (itemBlock it ++ rest) = Ok (itemText r (itemTag it) it).
Proof.
  revert fuel rest. induction it as [tag p|tag items IH] using item_ind'; intros fuel rest Hok Hj Hf;
    (destruct fuel as [|fuel]; [lia|]); cbn [marshalJSON];
    pose proof (itemBlock_length _ Hok) as Hl;
    rewrite (Valid_block _ _ rest (itemBlock_denotes _ Hok)), itemBlock_Tag, itemBlock_Type by done;
    rewrite len_app, (proj2 (Z.eqb_neq _ _)) by (unfold len; lia).
  - inversion Hok; subst. cbn [itemBlock itemTag itemType jsonOk] in *. rewrite marshal_prim by done.
    cbn [mbind res_bind itemText]. rewrite (proj2 (Z.eqb_neq _ _)) by (by destruct p).
    by rewrite !app_assoc_s.
  - pose proof Hok as Hok'. apply itemOk_inv in Hok' as (Ht & Hoks & Hlen). unfold marshalValue.
    rewrite itemBlock_Type. unfold TTLV_ValueStructure. rewrite itemBlock_raw by done.
    cbn [itemType segment itemTag jsonOk itemText].
    change (?x =? ?y) with (Z.eqb x y). simpl (Z.eqb TypeStructure _).
    cbn [itemBlock] in *. rewrite length_app, length_header in Hf.
    cbv iota.
    cbn [itemTag jsonOk] in Hj. rewrite marshal_children; [..|done|done|by apply items_length].
    + cbn [mbind res_bind]. by rewrite !app_assoc_s.
    + apply Forall_forall. intros it Hin rest' Hj'. apply Forall_forall with (x := it) in IH; [|done].
      apply Forall_forall with (x := it) in Hoks; [|done]. apply IH; [done..|].
      pose proof (length_in_concat it items Hin). lia.
Qed.

Lemma MarshalJSON_item it : itemOk it → jsonOk r (itemTag it) it →
  TTLV_MarshalJSON r (itemBlock it) = Ok (itemText r (itemTag it) it).
Proof.
  intros Hok Hj. unfold TTLV_MarshalJSON.
  pose proof (marshal_item it (S (length (itemBlock it))) [] Hok Hj) as Hm. rewrite app_nil_r in Hm. apply Hm. lia.
Qed.

End Marshal.

(** * UnmarshalJSON reads it back *)

Lemma ParseHexValue_hex b l : len b ≤ l → ParseHexValue ("0x" +:+ hexEncodeToString b) l = Ok (Some b).
Proof.
  intros Hl. unfold ParseHexValue. rewrite hexPrefix_0x, hexDecode_encode. pose proof (significant_le b).
  rewrite (proj2 (Z.ltb_ge l _)) by lia. by rewrite andb_false_r.
Qed.

Lemma hexPrefix_hex b : hexPrefix (hexEncodeToString b) = None.
Proof.
  destruct b as [|b l]; [done|]. cbn [hexEncodeToString hexPrefix].
  assert (∀ d, 0 ≤ d < 16 → (hexChar d =? "x")%char = false) as Hx.
  { intros d Hd. apply Ascii.eqb_neq. intros He. apply (f_equal chr) in He. unfold hexChar, chr in He.
    destruct (Z.ltb_spec d 10); rewrite N_ascii_embedding, Z2N.id in He by lia; change (Z.of_N (N_of_ascii "x")) with 120 in He; lia. }
  rewrite Hx by (apply Z.mod_pos_bound; lia). by rewrite andb_false_r.
Qed.

Lemma hexPrefix_time t : 0 ≤ timeYear t ≤ 9999 → hexPrefix (formatRFC3339Nano t) = None.
Proof.
  unfold timeYear, formatRFC3339Nano. destruct (civilOfDays _) as [[y m] d]. cbn [fst]. intros Hy.
  unfold padYear. rewrite (proj2 (Z.ltb_ge y 0)), (proj2 (Z.ltb_lt y 10000)) by lia.
  cbn [fixDigits]. rewrite !append_cons. cbn [hexPrefix].
  assert ((digit ((y / 10 ^ Z.of_nat 2) mod 10) =? "x")%char = false) as ->; [|by rewrite andb_false_r].
  apply Ascii.eqb_neq. intros He. apply (f_equal chr) in He.
  rewrite chr_digit in He by (apply Z.mod_pos_bound; lia).
  pose proof (Z.mod_pos_bound (y / 10 ^ Z.of_nat 2) 10). change (chr "x") with 120 in He. lia.
Qed.

Lemma unixTime_micro usec : is_i64 (usec * 1000) →
  unixTime 0 (usec * 1000) = GoTime (usec / 1000000) (usec mod 1000000 * 1000).
Proof. unfold unixTime. wrap_unfold. intros Hi. f_equal; Z.div_mod_to_equations; lia. Qed.

Lemma floatTrunc_intTree z : Z.abs z < 2 ^ 53 → floatTrunc (mkDecimal (z <? 0) (Z.abs z) 0) = Some z.
Proof. intros Hz. rewrite floatTrunc_int by lia. f_equal. destruct (Z.ltb_spec z 0); lia. Qed.

Section Unmarshal.
Context {tc : TitleCaser} (r : Registry) `{RegistryLaws r} {fc : FloatConv} `{!FloatConvLaws fc}.

Lemma floatTo_int k z : Z.abs z < 2 ^ 53 → inKind k z → floatTo k (mkDecimal (z <? 0) (Z.abs z) 0) = z.
Proof. intros Hz Hk. unfold floatTo. rewrite floatTrunc_intTree by done. by apply ofFloat_fits. Qed.

(** The numbers that are written as numbers. *)
Lemma small_number (p : prim) : primOk p →
  match p with
  | PInteger z | PInterval z => Z.abs z < 2 ^ 53
  | PLongInteger z => (z <=? - maxJSONInt) || (maxJSONInt <=? z) = false → Z.abs z < 2 ^ 53
  | PBigInteger z => Z.abs z < maxJSONInt → Z.abs z < 2 ^ 53
  | _ => True
  end.
Proof.
  destruct p; cbn [primOk]; unfold is_i32, is_u32, maxJSONInt; change (Z.shiftl 1 52) with (2 ^ 52); try done; lia.
Qed.

Lemma decodesAny_prim et p : primOk p → decodesAny (primTree r et p) = true.
Proof.
  intros Hp. pose proof (small_number p Hp) as Hs. destruct p; cbn [primTree]; repeat case_match; try done;
    cbn [decodesAny intTree]; apply bool_decide_eq_true_2; eexists; apply floatTrunc_intTree; auto.
  apply Hs. lia.
Qed.

(** Does the enumeration of a tag decide how the value is written? *)
Definition namedValue (p : prim) : bool :=
  match p with PInteger _ | PEnumeration _ => true | _ => false end.

Lemma json_integer tag attr et i : is_i32 i → primJsonOk r et (PInteger i) →
  et = enumTagOf tag attr ∨ et = TagNone →
  jsonInteger r tag attr (primTree r et (PInteger i)) = Ok (encodePrim [] tag (PInteger i)).
Proof.
  intros Hi Hj Het. pose proof (small_number (PInteger i) Hi) as Hs. cbn beta iota in Hs. cbn [primTree primJsonOk encodePrim] in *.
  destruct (Registry_EnumForTag r et) as [m|] eqn:E; [|cbn; by rewrite floatTo_int].
  destruct Het as [-> | ->]; [|by rewrite rl_none in E].
  cbn [jsonInteger]. unfold Registry_ParseInt. rewrite E, ParseInt_text; [done|by apply (rl_enums (enumTagOf tag attr))|apply Hj|done|apply Hj].
Qed.

Lemma json_enumeration tag attr et v : is_u32 v → et = enumTagOf tag attr ∨ et = TagNone →
  jsonEnumeration r tag attr (primTree r et (PEnumeration v)) = Ok (encodePrim [] tag (PEnumeration v)).
Proof.
  intros Hv Het. cbn [primTree jsonEnumeration encodePrim]. unfold Registry_ParseEnum, Registry_FormatEnum.
  destruct Het as [-> | ->].
  - rewrite ParseEnum_text; [done|apply (enum_laws r)|done].
  - rewrite rl_none. unfold ParseEnum, FormatEnum. cbn [fmap option_fmap option_map nameOr].
    rewrite (parseUint_nameOr 8 v None) by (done || apply Hv).
    rewrite (parseHexOrName_hex 4 v) by (done || lia || apply Hv). done.
Qed.

Lemma json_long et tag i : is_i64 i →
  jsonLongInteger tag (primTree r et (PLongInteger i)) = Ok (encodePrim [] tag (PLongInteger i)).
Proof.
  intros Hi. pose proof (small_number (PLongInteger i) Hi) as Hs. cbn beta iota in Hs. cbn [primTree encodePrim primSegment].
  case_match; cbn [jsonLongInteger intTree].
  - unfold jsonHex. rewrite ParseHexValue_hex by (by rewrite len_be_encode). cbn [liftErr mbind res_bind].
    rewrite DecodeUint64_short by (by rewrite len_be_encode). rewrite twosComplement_i64, twosComplement_be8; done.
  - by rewrite floatTo_int by auto.
Qed.

Lemma json_big et tag i :
  jsonBigInteger tag (primTree r et (PBigInteger i)) = Ok (encodePrim [] tag (PBigInteger i)).
Proof.
  cbn [primTree encodePrim primSegment]. unfold maxJSONInt. change (Z.shiftl 1 52) with (2 ^ 52).
  destruct (Z.ltb_spec (Z.abs i) (2 ^ 52)); cbn [jsonBigInteger intTree].
  - rewrite floatTo_int; [done|lia|]. unfold inKind, is_i64. lia.
  - destruct (bigIntSegment_spec i) as [Hv Hm]. rewrite hexPrefix_0x, hexDecode_encode, Hm. cbn [negb Z.eqb].
    by rewrite unmarshalBigInt_spec, unpadBigInt_value, Hv.
Qed.

Lemma json_interval et tag i : is_u32 i →
  jsonInterval tag (primTree r et (PInterval i)) = Ok (encodePrim [] tag (PInterval i)).
Proof.
  intros Hi. pose proof (small_number (PInterval i) Hi) as Hs. cbn beta iota in Hs. cbn [primTree jsonInterval intTree encodePrim].
  rewrite floatTo_int; [|done|unfold inKind, is_i64, is_u32 in *; lia].
  by rewrite i64_id by (unfold is_i64, is_u32, Second in *; lia).
Qed.

Lemma json_time (p : prim) et tag : primOk p → primJsonOk r et p → primType p = TypeDateTime ∨ primType p = TypeDateTimeExtended →
  jsonDateTime (primType p) tag (primTree r et p) = Ok (encodePrim [] tag p).
Proof.
  intros Hp Hj Ht. destruct p; try (exfalso; by destruct Ht); cbn [primTree jsonDateTime primOk primJsonOk primType] in *;
    unfold ParseHexValue; rewrite hexPrefix_time by apply Hj; cbn [liftErr mbind res_bind].
  - rewrite parse_format by (cbn; lia || done). done.
  - destruct Hj as [Hi Hy]. rewrite unixTime_micro in * by done.
    rewrite parse_format; [done| |cbn [time_nsec]; Z.div_mod_to_equations; lia|done].
    unfold is_i64 in *. cbn [time_sec]. Z.div_mod_to_equations; lia.
Qed.

Lemma json_prim tag attr et p : primOk p → primJsonOk r et p →
  et = enumTagOf tag attr ∨ et = TagNone ∨ namedValue p = false →
  jsonPrim r (primType p) tag attr (primTree r et p) = Ok (primBlock tag p).
Proof.
  intros Hp Hj Het. rewrite <- (app_nil_l (primBlock tag p)), <- encodePrim_eq by done. unfold jsonPrim.
  destruct p; cbn [namedValue] in *; [..|by apply (json_time (PDateTimeExtended usec) et); auto].
  - apply json_integer; [done|done|by destruct Het as [?|[?|?]]; auto].
  - by apply json_long.
  - apply json_big.
  - apply json_enumeration; [done|by destruct Het as [?|[?|?]]; auto].
  - done.
  - done.
  - cbn [primType primTree encodePrim]. change (jsonByteString tag (JString (hexEncodeToString s)) =
      Ok (encodeByteString [] tag (Some s))). cbn [jsonByteString]. by rewrite hexPrefix_hex, hexDecode_encode.
  - apply (json_time (PDateTime sec) et); auto.
  - by apply json_interval.
Qed.

(** The tag under which the value was written. *)
Definition writtenTag (attr et : Z) (it : item) : Prop :=
  et = childTag attr it ∨ (attr = TagNone ∧ et = itemTag it).

Lemma writtenTag_prim attr et tag p : writtenTag attr et (IPrim tag p) →
  et = enumTagOf tag attr ∨ et = TagNone ∨ namedValue p = false.
Proof.
  unfold writtenTag, childTag, enumTagOf. cbn [itemTag].
  assert (isAttributeValue (IPrim tag p) = namedValue p && (tag =? tagAttributeValue)) as -> by (by destruct p).
  destruct (namedValue p); [|by auto]. cbn [andb].
  destruct (Z.eqb_spec attr TagNone) as [->|]; destruct (tag =? tagAttributeValue); cbn;
    intros [-> | [? ->]]; auto; congruence.
Qed.

Lemma json_children unmarshal items attr enc :
  Forall (λ it, ∀ attr et, writtenTag attr et it → jsonOk r et it →
    unmarshal (itemTree r et it) attr = Ok (itemBlock it)) items →
  Forall itemOk items → foldr and True (mapAttr r (jsonOk r) attr items) →
  jsonChildren r unmarshal (mapAttr r (itemTree r) attr items) attr enc = Ok (enc ++ concat (map itemBlock items)).
Proof.
  intros Hall. revert attr enc. induction Hall as [|it items Hit Hall IH]; intros attr enc Hok Hj.
  { by rewrite app_nil_r. }
  inversion Hok as [|? ? Hok1 Hok2]; subst. cbn [mapAttr foldr] in Hj. destruct Hj as [Hj1 Hj2].
  fold (mapAttr r (jsonOk r)) in Hj2. cbn [map concat mapAttr jsonChildren]. fold (mapAttr r (itemTree r)).
  pose proof (attributeTag_eq r (E:=jerr) it [] attr Hok1) as Ha. rewrite app_nil_r in Ha.
  (* a value is read with the name of the attribute before it *)
  assert (childTag (nextAttr r attr it) it = childTag attr it) as Hc.
  { unfold childTag, nextAttr. destruct (isAttributeValue it) eqn:E; [|done].
    rewrite (proj2 (Z.eqb_neq _ _)); [done|]. destruct it as [tag []|]; try done; cbn in *; by intros ->. }
  rewrite Hc in *. rewrite (Hit attr) by (done || by left). cbn [mbind res_bind].
  rewrite Z.eqb_sym, Ha. cbn [mbind res_bind]. rewrite IH by done. by rewrite <- app_assoc.
Qed.

Lemma json_tag tag : Tag_Valid tag = true → Registry_ParseTag r (Tag_String r tag) = Ok tag.
Proof. intros Ht%Tag_Valid_range. by apply ParseTag_text; [apply rl_tags|]. Qed.

Lemma json_type tp : 0 ≤ tp < 256 → Registry_ParseType r (Type_String r tp) = Ok tp.
Proof. intros Ht. by apply ParseType_text; [apply rl_types|]. Qed.

Lemma depth_tree it et : (itemDepth it ≤ jsonDepth (itemTree r et it))%nat.
Proof.
  revert et. induction it as [tag p|tag items IH] using item_ind'; intros et; cbn [itemDepth itemTree jsonDepth foldr snd];
    [lia|].
  assert (∀ attr, foldr (λ it n, Nat.max (itemDepth it) n) O items ≤
    foldr (λ j n, Nat.max (jsonDepth j) n) O (mapAttr r (itemTree r) attr items))%nat as Hc.
  { induction IH as [|it items Hit _ IHi]; intros attr; [done|]. cbn [mapAttr foldr]. fold (mapAttr r (itemTree r)).
    specialize (IHi (nextAttr r attr it)). specialize (Hit (childTag (nextAttr r attr it) it)). lia. }
  specialize (Hc TagNone). lia.
Qed.

Lemma depth_in it items : it ∈ items → (itemDepth it ≤ foldr (λ it n, Nat.max (itemDepth it) n) O items)%nat.
Proof. induction 1; cbn [foldr]; lia. Qed.

Lemma unmarshal_item it fuel attr et : itemOk it → jsonOk r et it → writtenTag attr et it →
  (itemDepth it ≤ fuel)%nat → unmarshalTree r fuel (itemTree r et it) attr = Ok (itemBlock it).
Proof.
  revert fuel attr et. induction it as [tag p|tag items IH] using item_ind'; intros fuel attr et Hok Hj Hw Hf;
    (destruct fuel as [|fuel]; [cbn in Hf; lia|]); cbn [unmarshalTree itemTree].
  - inversion Hok as [? ? Ht Hp|]; subst.
    match goal with |- context [decodeTval ?j] => change (decodeTval j) with
      (Some (mkTval (Tag_String r tag) (Type_String r (primType p)) (Some (primTree r et p)))) end.
    cbn [tv_Tag tv_Type tv_Value from_option]. rewrite json_tag by done. cbn [liftErr mbind res_bind].
    rewrite (proj2 (String.eqb_neq _ _)) by apply (plain_Type r). rewrite json_type by (by destruct p).
    cbn [liftErr mbind res_bind]. rewrite decodesAny_prim by done. cbn [mbind res_bind]. unfold jsonBody.
    rewrite (proj2 (Z.eqb_neq _ _)) by (by destruct p).
    rewrite json_prim; [done|done|done|by apply (writtenTag_prim _ _ tag p)].
  - apply itemOk_inv in Hok as (Ht & Hok & Hl).
    match goal with |- context [decodeTval ?j] => change (decodeTval j) with
      (Some (mkTval (Tag_String r tag) "" (Some (JArray (mapAttr r (itemTree r) TagNone items))))) end.
    cbn [tv_Tag tv_Type tv_Value]. rewrite json_tag by done. cbn [liftErr mbind res_bind String.eqb].
    unfold jsonBody. cbn [Z.eqb TypeStructure Pos.eqb]. rewrite begin_eq. cbn [jsonOk] in Hj.
    cbn [mbind res_bind]. rewrite json_children; [|clear Ht Hl|done|done].
    + cbn [mbind res_bind liftErr]. rewrite end_begin. cbn [itemBlock].
      rewrite padding_aligned, app_nil_r; [done|].
      apply concat_aligned, Forall_forall. intros it _. apply itemBlock_aligned.
    + apply Forall_forall. intros it Hin attr' et' Hw' Hj'. cbn [itemDepth] in Hf. pose proof (depth_in it items Hin).
      eapply Forall_forall in IH, Hok; [|exact Hin..]. apply IH; [done..|lia].
Qed.

Lemma UnmarshalJSON_item it t : itemOk it → jsonOk r (itemTag it) it → (itemDepth it ≤ maxNestingDepth)%nat →
  TTLV_UnmarshalJSON r t (itemText r (itemTag it) it) = Ok (itemBlock it).
Proof.
  intros Hok Hj Hd. unfold TTLV_UnmarshalJSON. rewrite parseJSON_item by done.
  pose proof (parseNeed_length r it (itemTag it)). rewrite (proj2 (Nat.eqb_neq _ _)) by lia.
  apply unmarshal_item; [done|done|by right|apply depth_tree].
Qed.
End Unmarshal.

(** * The default registry *)

Lemma lastFor_none_ok : lastFor enumTags14 TagNone = None ∧ lastFor enumTags20 TagNone = None.
Proof. by vm_compute. Qed.

Section Default.
Context (tc : TitleCaser) (Htc : titleCaserOk tc).

Lemma table_name l v n s : entriesOk l = true → bool_decide ((v, n) ∈ l) = true →
  forallb plainWord (nameWords n) = true → @NormalizeName asciiCaser n = s →
  em_Name (Enum_EnumMap (registerAll (blankEnum false) l)) v = Some s.
Proof.
  intros Hok Hin%bool_decide_eq_true_1 Hp <-. destruct (entriesOk_inv tc l Htc Hok) as (_ & Hd & _).
  rewrite <- (NormalizeName_caser tc) by done. exact (registerAll_name _ l v n Hd Hin).
Qed.

#[local] Instance theRegistry_RegistryLaws : RegistryLaws theRegistry.
Proof.
  split; [by apply theTags_laws|by apply theTypes_laws|by apply theRegistry_laws|..].
  - unfold theRegistry. rewrite layered_EnumForTag. destruct lastFor_none_ok as [-> ->]. done.
  - unfold Tag_String, Registry_FormatTag, FormatTag. cbn [fmap option_fmap option_map tags theRegistry layered].
    by rewrite (table_name allTags _ "Attribute Value" "AttributeValue" allTags_ok) by (by vm_compute).
  - unfold Type_String, Registry_FormatType, FormatType. cbn [fmap option_fmap option_map types theRegistry layered].
    by rewrite (table_name typeNames _ "Integer" "Integer" typeNames_ok) by (by vm_compute).
  - unfold Type_String, Registry_FormatType, FormatType. cbn [fmap option_fmap option_map types theRegistry layered].
    by rewrite (table_name typeNames _ "Enumeration" "Enumeration" typeNames_ok) by (by vm_compute).
Qed.
End Default.

(** * Properties *)

(** C20. The JSON encoding is faithful on the items that it can represent: with
    the default registry, the text that [MarshalJSON] writes for a well-formed
    item is read back by [UnmarshalJSON] to the same bytes, whatever the
    receiver held, when its text strings are UTF-8, its dates have years of four
    digits and extended ones fit into nanoseconds, its Integers under a tag with
    an enumeration, the masks, are not zero and the enumeration is not empty,
    and it is nested no deeper than encoding/json reads; attribute values keep the enumeration that their
    attribute name selects.  (A zero mask is written as the empty text, which
    is not read back.) *)
Theorem JSON_roundtrip (tc : TitleCaser) (fc : FloatConv) r it t :
  titleCaserOk tc → FloatConvLaws fc → initRegistry = Ok r →
  itemOk it → jsonOk r (itemTag it) it → (itemDepth it ≤ maxNestingDepth)%nat →
  ∃ s, TTLV_MarshalJSON r (itemBlock it) = Ok s ∧ TTLV_UnmarshalJSON r t s = Ok (itemBlock it).
Proof.
  intros Htc Hfc Hr Hok Hj Hd. rewrite initRegistry_eq in Hr by done. injection Hr as <-.
  pose proof (theRegistry_RegistryLaws tc Htc). eexists. split; [by apply MarshalJSON_item|].
  by apply UnmarshalJSON_item.
Qed.

(** A concrete string, rune by rune. *)
Ltac utf8_rune_of w :=
  match goal with |- utf8 ?s =>
    let p := eval vm_compute in (splitString w s) in
    match p with (?a, ?b) => change (utf8 (a +:+ b)); apply (utf8_rune a (decodeRune (strBytes a)).1 b);
      [reflexivity|intros [? ?]; discriminate|] end
  end.
Ltac utf8_concrete := repeat first [exact utf8_nil | utf8_rune_of 1%nat | utf8_rune_of 2%nat].

Lemma mask_only14 : lastFor enumTags20 0x42002c = None.
Proof. by vm_compute. Qed.
Lemma mask_values : from_option (λ et, 0 <? len (em_Values (Enum_EnumMap (@et_Enum asciiCaser et)))) false
  (lastFor enumTags14 0x42002c) = true.
Proof. by vm_compute. Qed.

Lemma sample_attr : nextAttr (@theRegistry asciiCaser) TagNone
  (IPrim 0x42000a (PTextString (String.list_byte_of_string "Cryptographic Usage Mask"))) = 0x42002c.
Proof. by vm_compute. Qed.

Lemma jsonSample_ok : jsonOk (@theRegistry asciiCaser) (itemTag jsonSample) jsonSample.
Proof.
  unfold jsonSample. cbn [jsonOk mapAttr foldr]. rewrite sample_attr. cbn [childTag isAttributeValue itemTag].
  split; [|split; [|split; [|split]]].
  - cbn [primJsonOk]. utf8_concrete.
  - cbn [primJsonOk]. change (childTag (nextAttr _ _ _) _) with 0x42002c.
    unfold theRegistry. rewrite layered_EnumForTag, mask_only14. cbn [Z.eqb Pos.eqb].
    destruct (lastFor enumTags14 0x42002c) as [et|] eqn:E; [|done]. split; [|done].
    intros Hm. pose proof mask_values as Hv. rewrite E in Hv. cbn [from_option] in Hv. by rewrite Hm in Hv.
  - cbn [primJsonOk]. utf8_concrete.
  - cbn [primJsonOk]. split; by vm_compute.
  - done.
Qed.

Lemma JSON_roundtrip_witness :
  ∃ s, TTLV_MarshalJSON (@theRegistry asciiCaser) (itemBlock jsonSample) = Ok s ∧
    TTLV_UnmarshalJSON (@theRegistry asciiCaser) [x01] s = Ok (itemBlock jsonSample).
Proof.
  assert (titleCaserOk asciiCaser) as Htc by (intros w _; reflexivity).
  apply (JSON_roundtrip asciiCaser goConv theRegistry jsonSample [x01]); [done|..].
  - intros k z Hk. destruct k; [by apply i32_id|by apply i64_id|by apply u32_id].
  - by apply initRegistry_eq.
  - unfold jsonSample. repeat first [constructor | by vm_compute].
  - exact jsonSample_ok.
  - unfold maxNestingDepth. apply Nat.leb_le. reflexivity.
Defined.
