(* ===== verification/Printer.v ===== *)
(** The printers of src/ttlv/ttlv.go: [Print], [String], [PrintPrettyHex] and
    [Hex2bytes].  The writer is a [strings.Builder], which takes every write:
    a printer is the text it writes and the error it returns. *)
From Stdlib Require Import ZArith Lia Strings.Byte Ascii String.
From stdpp Require Import base list strings numbers gmap.
From S2P Require Import Prelude Ttlv Grammar EncBuf Blocks Hex Names Registry Formatting GoTime Json.
Local Open Scope Z_scope.

Definition newline : string := String (ascii_of_nat 10) EmptyString.

(** The text written so far and the result. *)
Definition printed : Type := string * res terr unit.

(** [b[lo:hi]] *)
Definition sliceBytes (b : list byte) (lo hi : Z) : res terr (list byte) :=
  if (0 <=? lo) && (lo <=? hi) && (hi <=? len b) then Ok (take (Z.to_nat (hi - lo)) (drop (Z.to_nat lo) b)) else Panic.

(** * The verbs of package fmt *)

(** [%#x] of a byte slice: nothing at all when it is empty. *)
Definition sharpX (b : list byte) : string :=
  match b with [] => EmptyString | _ => "0x" +:+ hexEncodeToString b end.

(** [Time.String] for a time in UTC. *)
Definition timeString (t : gotime) : string :=
  let sec := civilSeconds (time_sec t) in
  let '(y, m, d) := civilOfDays (sec / 86400) in
  let s := sec mod 86400 in
  padYear y +:+ "-" +:+ fixDigits 2 m +:+ "-" +:+ fixDigits 2 d +:+ " " +:+ fixDigits 2 (s / 3600)
    +:+ ":" +:+ fixDigits 2 (s / 60 mod 60) +:+ ":" +:+ fixDigits 2 (s mod 60)
    +:+ formatNanos (time_nsec t) +:+ " +0000 UTC".

(** [Duration.String] for a whole number of seconds. *)
Definition durationString (ns : Z) : string :=
  let u := ns / Second in
  let s := formatUint (u mod 60) +:+ "s" in
  let u := u / 60 in
  if 0 <? u then
    let s := formatUint (u mod 60) +:+ "m" +:+ s in
    let u := u / 60 in
    if 0 <? u then formatUint u +:+ "h" +:+ s else s
  else s.

(** [%v] of the values that reach the last branch of [Print]; the others have
    a branch of their own. *)
Definition fmtV (v : goval) : string :=
  match v with
  | GInt32 i | GInt64 i | GBigInt i => formatInt i
  | GBool b => if b then "true" else "false"
  | GString s => s
  | GTime t | GDateTimeExtended t => timeString t
  | GDuration ns => durationString ns
  | GEnumValue _ | GBytes _ | GTTLV _ => EmptyString
  end.

Section Printer.
Context (dflt : Registry).

(** [verr.Error()]: [merry.Prepend] puts the tag and a colon in front. *)
Fixpoint terr_Error (e : terr) : string :=
  match e with
  | ErrValueTruncated => "value truncated"
  | ErrHeaderTruncated => "header truncated"
  | ErrInvalidLen => "invalid length"
  | ErrInvalidType => "invalid KMIP type"
  | ErrInvalidTag => "invalid tag"
  | Prepend tag e => Tag_String dflt tag +:+ ": " +:+ terr_Error e
  end.

(** * Print *)

(** The loop over the values of a Structure: each is printed on a line of its
    own, the first error ends it. *)
Fixpoint printChildren (print : TTLV → printed) (n : nat) (s : option TTLV) (out : string) : printed :=
  match s with
  | None => (out, Ok tt)
  | Some t =>
      match n with
      | O => (out, OutOfFuel)
      | S n =>
          let '(text, result) := print t in
          let out := out +:+ newline +:+ text in
          match result with
          | Ok _ =>
              match TTLV_Next t with
              | Ok nx => printChildren print n nx out
              | Err e => (out, Err e)
              | Panic => (out, Panic)
              | OutOfFuel => (out, OutOfFuel)
              end
          | _ => (out, result)
          end
      end
  end.

(** The text of a value that has no values inside. *)
Definition printValue (t : TTLV) : res terr string :=
  let tag := TTLV_Tag t in
  let typ := TTLV_Type t in
  if typ =? TypeByteString then Ok (sharpX (bytesOf (TTLV_ValueByteString t)))
  else if typ =? TypeEnumeration then
    v ← TTLV_ValueEnumeration t; Ok (Registry_FormatEnum dflt tag (u32 v))
  else if typ =? TypeInteger then
    match Registry_EnumForTag dflt tag with
    | Some enum => v ← TTLV_ValueInteger t; Ok (FormatInt v (Some enum))
    | None => v ← TTLV_Value t; Ok (fmtV v)
    end
  else v ← TTLV_Value t; Ok (fmtV v).

Definition printHeader (prefix : string) (t : TTLV) : string :=
  prefix +:+ Tag_String dflt (TTLV_Tag t) +:+ " (" +:+ Type_String dflt (TTLV_Type t) +:+ "/"
    +:+ formatInt (TTLV_Len t) +:+ "):".

Definition printInvalid (t : TTLV) (verr : terr) : string :=
  " (" +:+ terr_Error verr +:+ ")" +:+ " " +:+
    (if bool_decide (terr_cause verr = ErrHeaderTruncated) then sharpX t else sharpX (bytesOf (TTLV_ValueRaw t))).

Fixpoint printFuel (fuel : nat) (prefix indent : string) (t : TTLV) : printed :=
  match fuel with
  | O => (EmptyString, OutOfFuel)
  | S fuel =>
      let out := printHeader prefix t in
      match TTLV_Valid t with
      | Err verr => (out +:+ printInvalid t verr, Err verr)
      | Panic => (out, Panic)
      | OutOfFuel => (out, OutOfFuel)
      | Ok _ =>
          if TTLV_Type t =? TypeStructure then
            let s := TTLV_ValueStructure t in
            printChildren (printFuel fuel (prefix +:+ indent) indent) (length (bytesOf s)) s out
          else match printValue t with
          | Ok text => (out +:+ " " +:+ text, Ok tt)
          | Err e => (out, Err e)
          | Panic => (out, Panic)
          | OutOfFuel => (out, OutOfFuel)
          end
      end
  end.

(** An enclosed value is shorter than the one that holds it. *)
Definition Print (prefix indent : string) (t : TTLV) : printed := printFuel (S (length t)) prefix indent t.

Definition TTLV_String (t : TTLV) : string := (Print "" "  " t).1.

End Printer.

(** * PrintPrettyHex *)

Definition hexOf (b : list byte) (lo hi : Z) : res terr string := hexEncodeToString <$> sliceBytes b lo hi.

(** [%s%x | %x | %x] of the indentation and the header. *)
Definition prettyHeader (indent : string) (b : list byte) : res terr string :=
  tag ← hexOf b 0 3; ty ← hexOf b 3 4; l ← hexOf b 4 8;
  Ok (indent +:+ tag +:+ " | " +:+ ty +:+ " | " +:+ l).

Fixpoint prettyChildren (pretty : TTLV → res terr string) (n : nat) (s : option TTLV) (out : string)
    : res terr string :=
  match s with
  | None => Ok out
  | Some t =>
      match n with
      | O => OutOfFuel
      | S n =>
          text ← pretty t; nx ← TTLV_Next t;
          prettyChildren pretty n nx (out +:+ newline +:+ text)
      end
  end.

(** The function returns an error only when the writer does. *)
Fixpoint prettyFuel (fuel : nat) (prefix indent : string) (t : TTLV) : res terr string :=
  match fuel with
  | O => OutOfFuel
  | S fuel =>
      match TTLV_ValidHeader t with
      | Ok _ =>
          out ← prettyHeader prefix t;
          match TTLV_Valid t with
          | Ok _ =>
              if negb (TTLV_Type t =? TypeStructure) then
                fl ← TTLV_FullLen t; v ← hexOf t lenHeader fl; Ok (out +:+ " | " +:+ v)
              else
                let s := TTLV_ValueStructure t in
                prettyChildren (prettyFuel fuel (prefix +:+ indent) indent) (length (bytesOf s)) s out
          | _ => rest ← hexOf t 8 (len t); Ok (out +:+ newline +:+ rest)
          end
      | _ => Ok (hexEncodeToString t)
      end
  end.

Definition PrintPrettyHex (prefix indent : string) (t : TTLV) : res terr string :=
  prettyFuel (S (length t)) prefix indent t.

(** What [Hex2bytes] keeps of a text. *)
Abbreviation stripNonHex := (filterString isHex).

Definition liftHex {A} (r : res herr A) : res terr A :=
  match r with Ok a => Ok a | _ => Panic end.

Example pretty_ex :
  (b ← liftHex (Hex2bytes "42000a 07 00000004 4e616d65 00000000"); PrintPrettyHex "" "  " b) =
  Ok "42000a | 07 | 00000004 | 4e616d6500000000"%string.
Proof. vm_compute. reflexivity. Qed.
Example print_truncated_ex :
  (b ← liftHex (Hex2bytes "42006b0200000004000000000000"); Ok (Print emptyRegistry "" "  " b)) =
  Ok ("0x42006b (0x02/4): (value truncated) 0x00000000"%string, Err ErrValueTruncated).
Proof. vm_compute. reflexivity. Qed.

(** * Print returns the error of Valid *)

Section PrintProofs.
Context (r : Registry).

(** The value of a primitive block is printed without a panic. *)
Lemma printValue_block tag p blk rest : Denotes (IPrim tag p) blk → ∃ s, printValue r (blk ++ rest) = Ok s.
Proof.
  intros Hd. pose proof (Value_prim tag p blk rest Hd) as Hv. unfold printValue. rewrite Hv.
  unfold TTLV_Value in Hv. repeat case_match; eauto; cbn [mbind res_bind]; eauto;
    repeat match goal with H : (_ =? _) = true |- _ => apply Z.eqb_eq in H end; simplify_eq;
    repeat match goal with H : TTLV_Type _ = _ |- _ => rewrite H in * end; try discriminate.
  - destruct (TTLV_ValueEnumeration (blk ++ rest)); cbn in *; eauto; discriminate.
  - destruct (TTLV_ValueInteger (blk ++ rest)); cbn in *; eauto; discriminate.
Qed.

Lemma print_block it blk : Denotes it blk → ∀ fuel prefix indent rest,
  (length blk < fuel)%nat → (printFuel r fuel prefix indent (blk ++ rest)).2 = Ok tt.
Proof.
  intros Hd. induction Hd as [tag ty p raw pad Ht Hp Hl Hpad|tag items body Ht Hseq IH Hl| |it items blk body Hd IHd Hseq IHs]
    using Denotes_mut with (P0 := λ items body _, ∀ fuel prefix indent n out,
      (length body < fuel)%nat → (length body ≤ n)%nat →
      (printChildren (printFuel r fuel prefix indent) n (nonNil body) out).2 = Ok tt).
  - intros fuel prefix indent rest Hf. destruct fuel as [|fuel]; [lia|]. cbn [printFuel].
    pose proof (Denotes_prim tag ty p raw pad Ht Hp Hl Hpad) as Hd. rewrite (Valid_block _ _ rest Hd).
    rewrite (proj2 (Z.eqb_neq _ _) (block_Type_prim _ _ _ rest Hd)).
    by destruct (printValue_block _ _ _ rest Hd) as [s ->].
  - intros fuel prefix indent rest Hf. destruct fuel as [|fuel]; [lia|]. cbn [printFuel].
    pose proof (Denotes_structure tag items body Ht Hseq Hl) as Hd. rewrite (Valid_block _ _ rest Hd).
    rewrite structure_Type, structure_value by done. rewrite bytesOf_nonNil. cbn [Z.eqb TypeStructure Pos.eqb].
    rewrite length_app, length_header in Hf. apply IH; lia.
  - by intros fuel prefix indent [] out Hf Hn.
  - intros fuel prefix indent n out Hf Hn. pose proof (block_length it blk Hd). rewrite length_app in Hf, Hn.
    rewrite (nonNil_block it) by done. destruct n as [|n]; [lia|]. cbn [printChildren].
    specialize (IHd fuel prefix indent body ltac:(lia)).
    destruct (printFuel r fuel prefix indent (blk ++ body)) as [text result]. cbn in IHd. subst result.
    rewrite (block_Next it) by done. apply IHs; lia.
Qed.

(** ** The text of a valid message *)

Definition primPrinted (tag : Z) (p : prim) : string :=
  match p with
  | PByteString s => sharpX s
  | PEnumeration v => Registry_FormatEnum r tag v
  | PInteger i =>
      match Registry_EnumForTag r tag with Some m => FormatInt i (Some m) | None => formatInt i end
  | _ => fmtV (primGo p)
  end.

Definition lineOf (prefix : string) (it : item) : string :=
  prefix +:+ Tag_String r (itemTag it) +:+ " (" +:+ Type_String r (itemType it) +:+ "/"
    +:+ formatInt (len (segment it)) +:+ "):".

(** One line per value, indented by its depth. *)
Fixpoint itemLines (prefix indent : string) (it : item) : list string :=
  match it with
  | IPrim tag p => [lineOf prefix it +:+ " " +:+ primPrinted tag p]
  | IStructure tag items => lineOf prefix it :: concat (map (itemLines (prefix +:+ indent) indent) items)
  end.

Lemma itemBlock_Len it rest : itemOk it → TTLV_Len (itemBlock it ++ rest) = len (segment it).
Proof.
  intros Hok. destruct it as [tag p|tag items]; cbn [itemBlock segment].
  - inversion Hok; subst. pose proof (primSegment_len p ltac:(done)). pose proof (len_nonneg (primSegment p)).
    unfold primBlock. rewrite <- !app_assoc. by apply header_Len.
  - apply itemOk_inv in Hok as (_ & _ & Hl). pose proof (len_nonneg (concat (map itemBlock items))).
    rewrite <- app_assoc. by apply header_Len.
Qed.

Lemma printHeader_item prefix it rest : itemOk it → printHeader r prefix (itemBlock it ++ rest) = lineOf prefix it.
Proof.
  intros Hok. unfold printHeader, lineOf. by rewrite itemBlock_Tag, itemBlock_Type, itemBlock_Len by done.
Qed.

Lemma printValue_prim tag p rest : itemOk (IPrim tag p) → printValue r (primBlock tag p ++ rest) = Ok (primPrinted tag p).
Proof.
  intros Hok. pose proof (itemBlock_Tag _ rest Hok) as Htag. cbn [itemBlock itemTag] in Htag.
  inversion Hok as [? ? Ht Hp|]; subst. unfold printValue, TTLV_ValueByteString.
  rewrite Htag, primBlock_Type, primBlock_raw, primBlock_Value by done.
  destruct p; cbn [primType primSegment primGo primPrinted];
    cbv [TypeBoolean TypeEnumeration TypeInteger TypeLongInteger TypeBigInteger TypeTextString TypeByteString
      TypeDateTime TypeDateTimeExtended TypeInterval Z.eqb Pos.eqb]; [|reflexivity|reflexivity| |reflexivity..].
  - rewrite (block_value GInt32 TTLV_ValueInteger tag (PInteger i) i) by byInj || (unfold TTLV_Value; rewrite primBlock_Type; done).
    by case_match.
  - rewrite (block_value GEnumValue TTLV_ValueEnumeration tag (PEnumeration e) e) by byInj || (unfold TTLV_Value; rewrite primBlock_Type; done).
    cbn [mbind res_bind]. by rewrite u32_id.
Qed.

Definition flow (l : list string) : string := foldr (λ s acc, newline +:+ s +:+ acc) EmptyString l.

Lemma flow_app l1 l2 : flow (l1 ++ l2) = flow l1 +:+ flow l2.
Proof. induction l1 as [|s l1 IH]; [done|]. cbn [flow foldr app]. fold (flow (l1 ++ l2)). rewrite IH. by rewrite !app_assoc_s. Qed.

Lemma concat_flow s l : String.concat newline (s :: l) = s +:+ flow l.
Proof.
  revert s. induction l as [|s' l IH]; intros s; [symmetry; apply app_empty_r|].
  change (String.concat newline (s :: s' :: l)) with (s +:+ newline +:+ String.concat newline (s' :: l)).
  by rewrite IH.
Qed.

Lemma newline_lines prefix indent it : newline +:+ String.concat newline (itemLines prefix indent it) = flow (itemLines prefix indent it).
Proof. destruct it; cbn [itemLines]; by rewrite concat_flow. Qed.

Lemma print_children fuel prefix indent items n out :
  Forall (λ it, ∀ rest, printFuel r fuel prefix indent (itemBlock it ++ rest) =
    (String.concat newline (itemLines prefix indent it), Ok tt)) items →
  Forall itemOk items → (length items ≤ n)%nat →
  printChildren (printFuel r fuel prefix indent) n (nonNil (concat (map itemBlock items))) out =
    (out +:+ flow (concat (map (itemLines prefix indent) items)), Ok tt).
Proof.
  intros Hall. revert n out. induction Hall as [|it items Hit Hall IH]; intros n out Hok Hn.
  { cbn. rewrite app_empty_r. by destruct n. }
  inversion Hok as [|? ? Hok1 Hok2]; subst. destruct n as [|n]; cbn [length] in Hn; [lia|].
  cbn [map concat]. rewrite (nonNil_block it) by (by apply itemBlock_denotes). cbn [printChildren].
  rewrite Hit, itemBlock_Next by done. rewrite IH by (done || lia).
  by rewrite flow_app, newline_lines, app_assoc_s.
Qed.

Lemma print_item it fuel prefix indent rest : itemOk it → (length (itemBlock it) < fuel)%nat →
  printFuel r fuel prefix indent (itemBlock it ++ rest) = (String.concat newline (itemLines prefix indent it), Ok tt).
Proof.
  revert fuel prefix rest. induction it as [tag p|tag items IH] using item_ind'; intros fuel prefix rest Hok Hf;
    (destruct fuel as [|fuel]; [lia|]); cbn [printFuel];
    rewrite (Valid_block _ _ rest (itemBlock_denotes _ Hok)), printHeader_item, itemBlock_Type by done.
  - cbn [itemType itemBlock]. rewrite (proj2 (Z.eqb_neq _ _)) by (by destruct p). by rewrite printValue_prim.
  - cbn [itemType]. pose proof Hok as Hok'. apply itemOk_inv in Hok' as (_ & Hoks & Hl). cbn [itemBlock] in *.
    rewrite structure_value, bytesOf_nonNil by done. rewrite length_app, length_header in Hf.
    change (TypeStructure =? TypeStructure) with true. cbv iota.
    rewrite print_children; [| |done|by apply items_length].
    + cbn [itemLines]. by rewrite concat_flow.
    + apply Forall_forall. intros it Hin rest'. pose proof (length_in_concat it items Hin).
      eapply Forall_forall in IH, Hoks; [|exact Hin..]. apply IH; [done|lia].
Qed.

End PrintProofs.

(** * Hex2bytes undoes PrintPrettyHex *)

Lemma app_empty_l s : EmptyString +:+ s = s.
Proof. done. Qed.

Lemma strip_app a b : stripNonHex (a +:+ b) = stripNonHex a +:+ stripNonHex b.
Proof.
  induction a as [|c a IH]; [done|]. rewrite append_cons. cbn [filterString]. rewrite IH. by case_match.
Qed.

Lemma isHex_hexChar d : 0 ≤ d < 16 → isHex (hexChar d) = true.
Proof.
  intros Hd. unfold isHex, isDigit, hexChar, chr.
  destruct (Z.ltb_spec d 10); rewrite N_ascii_embedding, Z2N.id by lia; lia.
Qed.

Lemma strip_hex b : stripNonHex (hexEncodeToString b) = hexEncodeToString b.
Proof.
  induction b as [|x b IH]; [done|]. cbn [hexEncodeToString filterString]. pose proof (b2z_range x).
  rewrite !isHex_hexChar, IH by (Z.div_mod_to_equations; lia). done.
Qed.

Lemma hexEncode_app a b : hexEncodeToString (a ++ b) = hexEncodeToString a +:+ hexEncodeToString b.
Proof. induction a as [|x a IH]; [done|]. cbn [app hexEncodeToString]. by rewrite IH, !append_cons. Qed.

Lemma sliceBytes_Ok b lo hi : 0 ≤ lo ≤ hi → hi ≤ len b →
  sliceBytes b lo hi = Ok (take (Z.to_nat (hi - lo)) (drop (Z.to_nat lo) b)).
Proof.
  intros [H0 H1] H2. unfold sliceBytes.
  by rewrite (proj2 (Z.leb_le _ _) H0), (proj2 (Z.leb_le _ _) H1), (proj2 (Z.leb_le _ _) H2).
Qed.

Lemma take_split_drop (b : list byte) n m : take n b ++ take m (drop n b) = take (n + m) b.
Proof. apply take_take_drop. Qed.

Lemma prettyHeader_strip prefix b : stripNonHex prefix = EmptyString → 8 ≤ len b →
  ∃ s, prettyHeader prefix b = Ok s ∧ stripNonHex s = hexEncodeToString (take 8 b).
Proof.
  intros Hp Hl. unfold prettyHeader, hexOf. rewrite !sliceBytes_Ok by lia. cbn [fmap res_fmap mbind res_bind].
  eexists. split; [done|]. rewrite !strip_app, !strip_hex, Hp.
  change (stripNonHex " | ") with EmptyString. rewrite ?app_empty_l.
  rewrite <- !hexEncode_app. f_equal.
  change (Z.to_nat (3 - 0)) with 3%nat. change (Z.to_nat (4 - 3)) with 1%nat. change (Z.to_nat (8 - 4)) with 4%nat.
  change (Z.to_nat 0) with 0%nat. change (Z.to_nat 3) with 3%nat. change (Z.to_nat 4) with 4%nat.
  rewrite drop_0, app_assoc, !take_take_drop. done.
Qed.

Lemma header_take tag ty l x : take 8 (header tag ty l ++ x) = header tag ty l.
Proof. by rewrite (take_app_length' _ _ 8) by (by rewrite length_header). Qed.

Definition undoes (result : res terr string) (text : string) : Prop :=
  ∃ s, result = Ok s ∧ stripNonHex s = text.

Lemma pretty_head it blk fuel prefix indent rest : Denotes it blk → stripNonHex prefix = EmptyString →
  ∃ s, stripNonHex s = hexEncodeToString (take 8 blk) ∧
  prettyFuel (S fuel) prefix indent (blk ++ rest) =
    (if negb (TTLV_Type (blk ++ rest) =? TypeStructure) then
       v ← hexOf (blk ++ rest) lenHeader (len blk); Ok (s +:+ " | " +:+ v)
     else
       let c := TTLV_ValueStructure (blk ++ rest) in
       prettyChildren (prettyFuel fuel (prefix +:+ indent) indent) (length (bytesOf c)) c s).
Proof.
  intros Hd Hp. destruct (Denotes_header it blk rest Hd) as (Hh & Hfl & _ & Hl). change lenHeader with 8 in Hl.
  destruct (prettyHeader_strip prefix (blk ++ rest) Hp) as (s & Hs & Hstrip).
  { rewrite len_app. pose proof (len_nonneg rest). lia. }
  exists s. split.
  { rewrite Hstrip. f_equal. rewrite take_app_le by (unfold len in Hl; lia). done. }
  cbn [prettyFuel]. rewrite Hh, Hs. cbn [mbind res_bind]. rewrite (Valid_block it) by done. rewrite Hfl. done.
Qed.

Lemma pretty_block it blk indent : Denotes it blk → stripNonHex indent = EmptyString → ∀ fuel prefix rest,
  (length blk < fuel)%nat → stripNonHex prefix = EmptyString →
  undoes (prettyFuel fuel prefix indent (blk ++ rest)) (hexEncodeToString blk).
Proof.
  intros Hd Hi. induction Hd as [tag ty p raw pad Ht Hp Hl Hpad|tag items body Ht Hseq IH Hl| |it items blk body Hd IHd Hseq IHs]
    using Denotes_mut with (P0 := λ items body _, ∀ fuel prefix n out,
      (length body < fuel)%nat → (length body ≤ n)%nat → stripNonHex prefix = EmptyString →
      undoes (prettyChildren (prettyFuel fuel prefix indent) n (nonNil body) out)
        (stripNonHex out +:+ hexEncodeToString body)).
  - intros fuel prefix rest Hf Hpre. destruct fuel as [|fuel]; [lia|].
    pose proof (Denotes_prim tag ty p raw pad Ht Hp Hl Hpad) as Hd. pose proof (block_length _ _ Hd) as Hlen.
    destruct (pretty_head _ _ fuel prefix indent rest Hd Hpre) as (s & Hs & ->).
    rewrite (proj2 (Z.eqb_neq _ _) (block_Type_prim _ _ _ rest Hd)). cbn [negb]. unfold hexOf.
    set (blk := header _ _ _ ++ _) in *. clearbody blk.
    rewrite sliceBytes_Ok by (change lenHeader with 8; rewrite ?len_app; pose proof (len_nonneg rest); unfold len; lia).
    cbn [fmap res_fmap mbind res_bind]. eexists. split; [done|]. rewrite !strip_app, strip_hex, Hs.
    change (stripNonHex " | ") with EmptyString. rewrite ?app_empty_l. rewrite <- hexEncode_app. f_equal.
    change (Z.to_nat lenHeader) with 8%nat. rewrite drop_app_le by lia.
    rewrite take_app_le by (rewrite length_drop; change lenHeader with 8; unfold len; lia).
    rewrite (take_ge (drop 8 blk)) by (rewrite length_drop; change lenHeader with 8; unfold len; lia). apply take_drop.
  - intros fuel prefix rest Hf Hpre. destruct fuel as [|fuel]; [lia|].
    pose proof (Denotes_structure tag items body Ht Hseq Hl) as Hd.
    destruct (pretty_head _ _ fuel prefix indent rest Hd Hpre) as (s & Hs & ->).
    rewrite structure_Type, structure_value by done. cbv zeta. rewrite bytesOf_nonNil. cbn [Z.eqb TypeStructure Pos.eqb negb].
    rewrite length_app, length_header in Hf. rewrite header_take in Hs. rewrite hexEncode_app, <- Hs.
    apply IH; [lia|lia|]. by rewrite strip_app, Hpre, Hi.
  - intros fuel prefix n out Hf Hn Hpre. eexists. split; [by destruct n|]. by rewrite app_empty_r.
  - intros fuel prefix n out Hf Hn Hpre. pose proof (block_length it blk Hd). rewrite length_app in Hf, Hn.
    rewrite (nonNil_block it) by done. destruct n as [|n]; [lia|]. cbn [prettyChildren].
    destruct (IHd fuel prefix body ltac:(lia) Hpre) as (s & -> & Hs). cbn [mbind res_bind].
    rewrite (block_Next it) by done. cbn [mbind res_bind].
    destruct (IHs fuel prefix n (out +:+ newline +:+ s)) as (s' & -> & Hs'); [lia|lia|done|].
    eexists. split; [done|]. rewrite Hs', !strip_app, Hs, hexEncode_app.
    change (stripNonHex newline) with EmptyString. rewrite ?app_empty_l. by rewrite app_assoc_s.
Qed.

Lemma pretty_invalid prefix indent t : stripNonHex prefix = EmptyString → TTLV_Valid t ≠ Ok tt →
  undoes (PrintPrettyHex prefix indent t) (hexEncodeToString t).
Proof.
  intros Hp Hv. unfold PrintPrettyHex. cbn [prettyFuel].
  destruct (TTLV_ValidHeader t) as [[]| | |] eqn:Hh; [|by eexists; split; [done|apply strip_hex]..].
  destruct (FullLen_valid t Hh) as (_ & _ & _ & Hl). change lenHeader with 8 in Hl.
  destruct (prettyHeader_strip prefix t Hp Hl) as (s & -> & Hs). cbn [mbind res_bind].
  destruct (TTLV_Valid t) as [[]| | |]; [done|..]; unfold hexOf;
    rewrite sliceBytes_Ok by lia; cbn [fmap res_fmap mbind res_bind]; (eexists; split; [done|]);
    rewrite !strip_app, strip_hex, Hs; change (stripNonHex newline) with EmptyString; rewrite app_empty_l, <- hexEncode_app;
    f_equal; rewrite (take_ge (drop _ _)) by (rewrite length_drop; unfold len; lia); apply take_drop.
Qed.

Lemma Hex2bytes_strip s b : stripNonHex s = hexEncodeToString b → Hex2bytes s = Ok b.
Proof. intros Hs. unfold Hex2bytes. by rewrite Hs, hexDecode_encode. Qed.

(** * Properties *)

(** C22. [Print] is safe on every byte slice: it ends, never panics and returns
    exactly the error of [Valid]; a well-formed message is printed in full, one
    line per value, indented by its depth, whatever bytes follow it. *)
Theorem Print_correct r prefix indent :
  (∀ t, (Print r prefix indent t).2 = TTLV_Valid t) ∧
  (∀ it rest, itemOk it →
     Print r prefix indent (itemBlock it ++ rest) = (String.concat newline (itemLines r prefix indent it), Ok tt)).
Proof.
  split; [intros t|intros it rest Hok]; unfold Print.
  - destruct (TTLV_Valid t) as [[]|e| |] eqn:Hv.
    + apply (Valid_block_inv (S (length t))) in Hv as (it & blk & rest & -> & Hd); [|lia].
      apply (print_block r it); [done|]. rewrite length_app. lia.
    + cbn [printFuel]. by rewrite Hv.
    + cbn [printFuel]. by rewrite Hv.
    + cbn [printFuel]. by rewrite Hv.
  - apply print_item; [done|]. rewrite length_app. lia.
Qed.

Lemma Print_correct_witness :
  Print emptyRegistry "" "  " (itemBlock (IStructure 0x420078 [IPrim 0x420001 (PBoolean true)]) ++ [x07]) =
    (("0x420078 (0x01/16):" +:+ newline +:+ "  0x420001 (0x06/8): true")%string, Ok tt).
Proof.
  apply (proj2 (Print_correct emptyRegistry "" "  ") (IStructure 0x420078 [IPrim 0x420001 (PBoolean true)]) [x07]).
  repeat first [constructor | by vm_compute].
Defined.

(** [PrintPrettyHex] never fails and loses no byte: with an indentation
    free of hex digits, [Hex2bytes] of its text is the block at the head of a
    valid slice, and all of an invalid one. *)
Theorem PrintPrettyHex_roundtrip prefix indent t :
  stripNonHex prefix = EmptyString → stripNonHex indent = EmptyString →
  ∃ s, PrintPrettyHex prefix indent t = Ok s ∧
    (∀ it blk rest, t = blk ++ rest → Denotes it blk → Hex2bytes s = Ok blk) ∧
    (TTLV_Valid t ≠ Ok tt → Hex2bytes s = Ok t).
Proof.
  intros Hp Hi.
  assert (TTLV_Valid t = Ok tt ∨ TTLV_Valid t ≠ Ok tt) as [Hv|Hv] by (destruct (TTLV_Valid t) as [[]| | |]; [by left|by right..]).
  - pose proof Hv as Hv'. apply (Valid_block_inv (S (length t))) in Hv' as (it & blk & rest & -> & Hd); [|lia].
    destruct (pretty_block it blk indent Hd Hi (S (length (blk ++ rest))) prefix rest) as (s & Hs & Hstrip);
      [rewrite length_app; lia|done|].
    exists s. split; [done|]. split; [|done]. intros it' blk' rest' Heq Hd'.
    destruct (Denotes_unique _ _ Hd _ _ _ _ Hd' Heq) as (_ & -> & _). by apply Hex2bytes_strip.
  - destruct (pretty_invalid prefix indent t Hp Hv) as (s & Hs & Hstrip). exists s. split; [done|].
    split; [|intros _; by apply Hex2bytes_strip]. intros it blk rest -> Hd. by rewrite (Valid_block it) in Hv.
Qed.

Lemma PrintPrettyHex_roundtrip_witness :
  ∃ s, PrintPrettyHex "" "  " (sampleBlock ++ [x07]) = Ok s ∧
    (∀ it blk rest, sampleBlock ++ [x07] = blk ++ rest → Denotes it blk → Hex2bytes s = Ok blk) ∧
    (TTLV_Valid (sampleBlock ++ [x07]) ≠ Ok tt → Hex2bytes s = Ok (sampleBlock ++ [x07])).
Proof. apply PrintPrettyHex_roundtrip; reflexivity. Defined.
