(* ===== verification/XmlCodec.v ===== *)
(** The XML encoding of TTLV: [MarshalXML], [unmarshalXMLTval] and
    [UnmarshalXML] of src/ttlv/ttlv.go.  The code writes tokens to an
    [xml.Encoder] and reads an element from an [xml.Decoder]; both are modelled
    as sequences of tokens, which is what the two methods see of XML. *)
From Stdlib Require Import ZArith Lia Strings.Byte Ascii String.
From stdpp Require Import base list strings numbers gmap.
From S2P Require Import Prelude Ttlv Grammar EncBuf Hex Names Registry Formatting GoTime Json JsonCodec.
Local Open Scope Z_scope.
Set Warnings "-register-all".

(** * encoding/xml *)

(** [XOther]: character data, comments, processing instructions and
    directives, which have no field in the struct that is read. *)
Inductive xmlToken : Type :=
  | XStart (name : string) (attrs : list (string * string))
  | XEnd (name : string)
  | XOther.

Inductive xerr : Type :=
  | XNoName                      (** a tag without a name *)
  | XUnmatched (name : string)   (** an end tag for another or no start tag *)
  | XNotClosed                   (** [MarshalXML] left an element open *)
  | XEOF
  | XDepth                       (** [errUnmarshalDepth] *)
  | XTag (e : perr)              (** invalid tag *)
  | XType (e : perr)             (** invalid type *)
  | XSyntax (tag tp : Z) (msg : string)
  | XHex (tag tp : Z)            (** [hex.DecodeString] *)
  | XParse (tag tp : Z) (e : perr)
  | XValue (e : terr).

(** [isInCharacterRange] *)
Definition isXMLChar (r : Z) : bool :=
  (r =? 0x09) || (r =? 0x0A) || (r =? 0x0D) || inRange 0x20 0xD7FF r || inRange 0xE000 0xFFFD r
    || inRange 0x10000 0x10FFFF r.

(** What is left of an attribute value once it was escaped: a character that
    XML does not allow is replaced by U+FFFD. *)
Fixpoint xmlRunes (n : nat) (s : string) : string :=
  match n, s with
  | S n, String _ _ =>
      let '(r, w) := decodeRune (strBytes s) in
      let '(a, b) := splitString w s in
      (if negb (isXMLChar r) || ((r =? runeError) && (w =? 1)%nat) then encodeRune runeError else a) +:+ xmlRunes n b
  | _, _ => EmptyString
  end.
Definition xmlText (s : string) : string := xmlRunes (String.length s) s.

(** The encoder: the open elements, the innermost first, and the tokens
    written; [None] marks the start of a nested [MarshalXML]. *)
Record xmlEncoder := mkXmlEncoder { xe_tags : list (option string); xe_out : list xmlToken }.

(** [e.EncodeToken(xml.StartElement{...})] *)
Definition EncodeStart (e : xmlEncoder) (name : string) (attrs : list (string * string)) : res xerr xmlEncoder :=
  if String.eqb name "" then Err XNoName
  else Ok (mkXmlEncoder (Some name :: xe_tags e)
             (xe_out e ++ [XStart name ((λ a, (a.1, xmlText a.2)) <$> attrs)])).

(** [e.EncodeToken(xml.EndElement{...})] *)
Definition EncodeEnd (e : xmlEncoder) (name : string) : res xerr xmlEncoder :=
  if String.eqb name "" then Err XNoName
  else match xe_tags e with
  | Some n :: tags =>
      if String.eqb n name then Ok (mkXmlEncoder tags (xe_out e ++ [XEnd name])) else Err (XUnmatched name)
  | _ => Err (XUnmatched name)
  end.

(** [e.Encode(v)] for a [v] with a [MarshalXML] method. *)
Definition xmlEncode (marshal : xmlEncoder → res xerr xmlEncoder) (e : xmlEncoder) : res xerr xmlEncoder :=
  e' ← marshal (mkXmlEncoder (None :: xe_tags e) (xe_out e));
  match xe_tags e' with
  | None :: tags => Ok (mkXmlEncoder tags (xe_out e'))
  | _ => Err XNotClosed
  end.

(** [omitempty] *)
Definition optAttr (name value : string) : list (string * string) :=
  if String.eqb value "" then [] else [(name, value)].

(** [e.Encode(&out)] for the struct of [MarshalXML] without children. *)
Definition encodeOut (e : xmlEncoder) (name tag tp value : string) : res xerr xmlEncoder :=
  e ← EncodeStart e name (optAttr "tag" tag ++ optAttr "type" tp ++ optAttr "value" value); EncodeEnd e name.

(** * MarshalXML *)

Fixpoint replaceAll (a b : ascii) (s : string) : string :=
  match s with EmptyString => EmptyString | String c s => String (if (c =? a)%char then b else c) (replaceAll a b s) end.

Section Codec.
Context `{TitleCaser} (dflt : Registry).

(** The element name and the tag attribute. *)
Definition xmlNames (tag : Z) : string * string :=
  let tagS := Tag_String dflt tag in
  match hexPrefix tagS with Some _ => ("TTLV"%string, tagS) | None => (tagS, EmptyString) end.

(** The value attribute, by type. *)
Definition xmlValue (t : TTLV) : res xerr string :=
  let ty := TTLV_Type t in
  if ty =? TypeInteger then
    i ← liftErr XValue (TTLV_ValueInteger t);
    match Registry_EnumForTag dflt (TTLV_Tag t) with
    | Some enum => Ok (replaceAll "|" " " (FormatInt i (Some enum)))
    | None => Ok (formatInt i)
    end
  else if ty =? TypeBoolean then
    b ← liftErr XValue (TTLV_ValueBoolean t); Ok (if b : bool then "true" else "false")%string
  else if ty =? TypeLongInteger then
    i ← liftErr XValue (TTLV_ValueLongInteger t); Ok (formatInt i)
  else if ty =? TypeBigInteger then Ok (hexEncodeToString (bytesOf (TTLV_ValueRaw t)))
  else if ty =? TypeEnumeration then
    v ← liftErr XValue (TTLV_ValueEnumeration t); Ok (Registry_FormatEnum dflt (TTLV_Tag t) (u32 v))
  else if ty =? TypeTextString then Ok (TTLV_ValueTextString t)
  else if ty =? TypeByteString then Ok (hexEncodeToString (bytesOf (TTLV_ValueByteString t)))
  else if (ty =? TypeDateTime) || (ty =? TypeDateTimeExtended) then
    tm ← liftErr XValue (TTLV_ValueDateTime t); Ok (formatRFC3339Nano tm)
  else if ty =? TypeInterval then
    d ← liftErr XValue (TTLV_ValueInterval t); Ok (formatUint (u64 (Z.quot d Second)))
  else Ok EmptyString.

(** The element of an attribute value, an Enumeration or an Integer. *)
Definition xmlAttributeValue (e : xmlEncoder) (n : TTLV) (attrTag : Z) : res xerr xmlEncoder :=
  value ← (if TTLV_Type n =? TypeEnumeration then
             v ← liftErr XValue (TTLV_ValueEnumeration n); Ok (Registry_FormatEnum dflt attrTag (u32 v))
           else
             v ← liftErr XValue (TTLV_ValueInteger n); Ok (Registry_FormatInt dflt attrTag v));
  e ← EncodeStart e (Tag_String dflt tagAttributeValue)
        [("type", Type_String dflt (TTLV_Type n)); ("value", value)]%string;
  EncodeEnd e "AttributeValue".

Fixpoint xmlChildren (marshal : TTLV → xmlEncoder → res xerr xmlEncoder) (k : nat) (n : TTLV) (attrTag : Z)
    (e : xmlEncoder) : res xerr xmlEncoder :=
  if len n =? 0 then Ok e
  else match k with
  | O => OutOfFuel
  | S k =>
      attrTag ← (if TTLV_Tag n =? tagAttributeName then attributeTag dflt (TTLV_ValueTextString n) else Ok attrTag);
      e ← (if (TTLV_Tag n =? tagAttributeValue)
              && ((TTLV_Type n =? TypeEnumeration) || (TTLV_Type n =? TypeInteger))
           then xmlAttributeValue e n attrTag
           else xmlEncode (marshal n) e);
      nx ← liftErr XValue (TTLV_Next n);
      xmlChildren marshal k (bytesOf nx) attrTag e
  end.

Fixpoint marshalXML (fuel : nat) (t : TTLV) (e : xmlEncoder) : res xerr xmlEncoder :=
  match fuel with
  | O => OutOfFuel
  | S fuel =>
      if len t =? 0 then Ok e
      else
        let '(name, tagAttr) := xmlNames (TTLV_Tag t) in
        if TTLV_Type t =? TypeStructure then
          e ← EncodeStart e name [];
          let n := TTLV_ValueStructure t in
          e ← xmlChildren (marshalXML fuel) (length (bytesOf n)) (bytesOf n) TagNone e;
          EncodeEnd e name
        else
          value ← xmlValue t;
          encodeOut e name tagAttr (Type_String dflt (TTLV_Type t)) value
  end.

(** [t.MarshalXML(e, _)]; an enclosed value is shorter. *)
Definition TTLV_MarshalXML (t : TTLV) (e : xmlEncoder) : res xerr xmlEncoder := marshalXML (S (length t)) t e.

(** * UnmarshalXML *)

(** The struct [xmltval]. *)
Inductive xmltval : Type :=
  mkXmltval (XMLName Tag Type_ Value : string) (Children : list xmltval).

(** The last attribute of that name, whatever its namespace. *)
Definition attrValue (name : string) (attrs : list (string * string)) : string :=
  foldl (λ v a, if String.eqb a.1 name then a.2 else v) EmptyString attrs.

(** [maxUnmarshalDepth]; an element of a slice is two levels down. *)
Definition maxUnmarshalDepth : nat := Z.to_nat 10000.

(** [d.DecodeElement(&out, &start)]: the struct and the tokens after the
    element; character data and comments have no field. *)
Fixpoint decodeElement (fuel depth : nat) (name : string) (attrs : list (string * string)) (toks : list xmlToken)
    : res xerr (xmltval * list xmlToken) :=
  match fuel with
  | O => OutOfFuel
  | S fuel =>
      if (maxUnmarshalDepth <=? depth)%nat then Err XDepth
      else
        '(children, rest) ← decodeContent fuel depth name toks;
        Ok (mkXmltval name (attrValue "tag" attrs) (attrValue "type" attrs) (attrValue "value" attrs) children, rest)
  end
with decodeContent (fuel depth : nat) (name : string) (toks : list xmlToken)
    : res xerr (list xmltval * list xmlToken) :=
  match fuel with
  | O => OutOfFuel
  | S fuel =>
      match toks with
      | [] => Err XEOF
      | XEnd n :: rest => if String.eqb n name then Ok ([], rest) else Err (XUnmatched n)
      | XOther :: rest => decodeContent fuel depth name rest
      | XStart n attrs :: rest =>
          '(c, rest) ← decodeElement fuel (depth + 2) n attrs rest;
          '(cs, rest) ← decodeContent fuel depth name rest;
          Ok (c :: cs, rest)
      end
  end.

(** [strconv.ParseBool] *)
Definition parseBool (s : string) : option bool :=
  if forallb (negb ∘ String.eqb s) ["1"; "t"; "T"; "TRUE"; "true"; "True"]%string then
    if forallb (negb ∘ String.eqb s) ["0"; "f"; "F"; "FALSE"; "false"; "False"]%string then None else Some false
  else Some true.

(** The values other than Structures, by type. *)
Definition xmlPrim (tp tag attrTag : Z) (value : string) (buf : encBuf) : res xerr encBuf :=
  let syntax {A} (o : option A) (msg : string) : res xerr A :=
    match o with Some a => Ok a | None => Err (XSyntax tag tp msg) end in
  let hexBytes : res xerr (list byte) :=
    match hexPrefix value, hexDecodeString value with
    | Some _, _ => Err (XSyntax tag tp "should not have 0x prefix")
    | None, Some b => Ok b
    | None, None => Err (XHex tag tp)
    end in
  if tp =? TypeBoolean then
    b ← syntax (parseBool value) "must be 0, 1, true, or false"%string; Ok (encodeBool buf tag b)
  else if tp =? TypeTextString then Ok (encodeTextString buf tag value)
  else if tp =? TypeByteString then
    b ← hexBytes; Ok (encodeByteString buf tag (Some b))
  else if tp =? TypeInterval then
    u ← syntax (parseUint value (2 ^ 64)) "must be a number"%string;
    Ok (encodeInterval buf tag (i64 (i64 u * Second)))
  else if (tp =? TypeDateTime) || (tp =? TypeDateTimeExtended) then
    d ← syntax (parseRFC3339Nano value) "must be ISO8601 format"%string;
    if tp =? TypeDateTime then Ok (encodeDateTime buf tag d) else Ok (encodeDateTimeExtended buf tag d)
  else if tp =? TypeInteger then
    i ← liftErr (XParse tag tp) (Registry_ParseInt dflt (enumTagOf tag attrTag) (replaceAll " " "|" value));
    Ok (encodeInt buf tag i)
  else if tp =? TypeLongInteger then
    i ← syntax (parseInt value (2 ^ 63)) "must be number"%string; Ok (encodeLongInt buf tag i)
  else if tp =? TypeBigInteger then
    b ← hexBytes;
    if negb (len b mod 8 =? 0) then Err (XSyntax tag tp "must be multiple of 8 bytes")
    else Ok (encodeBigInt buf tag (Some (unmarshalBigInt b)))
  else if tp =? TypeEnumeration then
    e ← liftErr (XParse tag tp) (Registry_ParseEnum dflt (enumTagOf tag attrTag) value);
    Ok (encodeEnum buf tag e)
  else Ok buf.

(** The loop over the children of a Structure. *)
Definition unmarshalTvals (unmarshal : encBuf → xmltval → Z → res xerr encBuf)
    : list xmltval → Z → encBuf → res xerr encBuf :=
  fix loop l attrTag buf :=
    match l with
    | [] => Ok buf
    | c :: l =>
        let offset := length buf in
        buf ← unmarshal buf c attrTag;
        let ttlv := drop offset buf in
        attrTag ← (if TTLV_Tag ttlv =? tagAttributeName
                   then attributeTag dflt (TTLV_ValueTextString ttlv) else Ok attrTag);
        loop l attrTag buf
    end.

(** [unmarshalXMLTval(buf, tval, attrTag)]: the new contents of the buffer. *)
Fixpoint unmarshalXMLTval (buf : encBuf) (tval : xmltval) (attrTag : Z) {struct tval} : res xerr encBuf :=
  let '(mkXmltval xmlName tagS tpS value children) := tval in
  let tagS := if String.eqb tagS "" then xmlName else tagS in
  tag ← liftErr XTag (Registry_ParseTag dflt tagS);
  tp ← (if String.eqb tpS "" then Ok TypeStructure else liftErr XType (Registry_ParseType dflt tpS));
  if tp =? TypeStructure then
    let '(buf, i) := encBuf_begin buf tag TypeStructure in
    buf ← unmarshalTvals unmarshalXMLTval children TagNone buf;
    Ok (encBuf_end buf i)
  else xmlPrim tp tag attrTag value buf.

(** [t.UnmarshalXML(d, start)]: the new value of [t] and the tokens left. *)
Definition TTLV_UnmarshalXML (name : string) (attrs : list (string * string)) (toks : list xmlToken)
    : res xerr (TTLV * list xmlToken) :=
  '(out, rest) ← decodeElement (2 * length toks + 2) 0 name attrs toks;
  buf ← unmarshalXMLTval [] out TagNone;
  Ok (buf, rest).

End Codec.

Definition newXmlEncoder : xmlEncoder := mkXmlEncoder [] [].

(** Example: through the tokens and back. *)
Example xml_roundtrip_ex :
  (e ← xmlEncode (TTLV_MarshalXML jsonRegistry (itemBlock jsonSample)) newXmlEncoder;
   match xe_out e with
   | XStart name attrs :: toks => TTLV_UnmarshalXML jsonRegistry name attrs (toks ++ [XOther])
   | _ => Err XEOF
   end) =
  Ok (itemBlock (IStructure 0x420008 [IPrim 0x42000a (PTextString (String.list_byte_of_string "Cryptographic Usage Mask"));
       IPrim 0x42000b (PInteger 12); IPrim 0x420094 (PTextString [x22; x3c; xc3; xa9]);
       IPrim 0x420001 (PDateTime 1600000000); IPrim 0x420002 (PBigInteger (-2 ^ 70))]), [XOther]).
Proof. vm_compute. reflexivity. Qed.
