(* ===== verification/XmlRoundtrip.v ===== *)
(** The round trip through the XML encoding: the tokens that [MarshalXML]
    writes for an item are one element, and [UnmarshalXML] reads it back. *)
From Stdlib Require Import ZArith Lia Strings.Byte Ascii String.
From stdpp Require Import base list strings numbers gmap.
From S2P Require Import Prelude Ttlv Grammar EncBuf Blocks Hex Names Registry Formatting FormatText Generated Kmip14 Kmip20 DefaultRegistry GoTime Json JsonCodec JsonRoundtrip XmlCodec.
Local Open Scope Z_scope.

(** * The XML of an item *)

Section Spec.
Context `{TitleCaser} (r : Registry).

(** Visit the values of a Structure; an attribute value comes with the tag of
    its name. *)
Definition mapContext {A} (f : option Z → item → A) : Z → list item → list A :=
  fix go attr l :=
    match l with
    | [] => []
    | c :: l => let attr := nextAttr r attr c in f (if isAttributeValue c then Some attr else None) c :: go attr l
    end.

Definition ctxTag (ctx : option Z) (tag : Z) : Z := match ctx with Some attr => attr | None => tag end.

Definition valueXml (ctx : option Z) (tag : Z) (p : prim) : string :=
  match p with
  | PInteger i =>
      match ctx with
      | Some attr => Registry_FormatInt r attr i
      | None =>
          match Registry_EnumForTag r tag with
          | Some m => replaceAll "|" " " (FormatInt i (Some m))
          | None => formatInt i
          end
      end
  | PLongInteger i => formatInt i
  | PBigInteger _ | PByteString _ => hexEncodeToString (primSegment p)
  | PEnumeration v => Registry_FormatEnum r (ctxTag ctx tag) v
  | PBoolean b => if b then "true" else "false"
  | PTextString s => String.string_of_list_byte s
  | PDateTime sec => formatRFC3339Nano (GoTime sec 0)
  | PInterval sec => formatUint sec
  | PDateTimeExtended usec => formatRFC3339Nano (unixTime 0 (usec * 1000))
  end.

Definition itemName (it : item) : string := (xmlNames r (itemTag it)).1.

Definition itemAttrs (ctx : option Z) (it : item) : list (string * string) :=
  match it with
  | IPrim tag p =>
      optAttr "tag" (xmlNames r tag).2 ++ optAttr "type" (Type_String r (primType p))
        ++ optAttr "value" (valueXml ctx tag p)
  | IStructure _ _ => []
  end.

(** The tokens of an element. *)
Fixpoint itemTokens (ctx : option Z) (it : item) : list xmlToken :=
  XStart (itemName it) (itemAttrs ctx it) ::
  match it with
  | IPrim _ _ => []
  | IStructure _ items => concat (mapContext itemTokens TagNone items)
  end ++ [XEnd (itemName it)].

Fixpoint itemXml (ctx : option Z) (it : item) : xmltval :=
  match it with
  | IPrim tag p =>
      mkXmltval (itemName it) (xmlNames r tag).2 (Type_String r (primType p)) (valueXml ctx tag p) []
  | IStructure tag items => mkXmltval (itemName it) "" "" "" (mapContext itemXml TagNone items)
  end.

(** The values that survive: a Structure has a registered tag, text is made of
    XML characters, years have four digits, a mask is not empty, and an
    attribute value without names is not negative. *)
Definition primXmlOk (ctx : option Z) (tag : Z) (p : prim) : Prop :=
  match p with
  | PInteger i =>
      match Registry_EnumForTag r (ctxTag ctx tag) with
      | Some m => em_Values m ≠ [] ∧ i ≠ 0
      | None => ctx = None ∨ 0 ≤ i
      end
  | PTextString s => xmlText (String.string_of_list_byte s) = String.string_of_list_byte s
  | PDateTime sec => 0 ≤ timeYear (GoTime sec 0) ≤ 9999
  | PDateTimeExtended usec => is_i64 (usec * 1000) ∧ 0 ≤ timeYear (unixTime 0 (usec * 1000)) ≤ 9999
  | _ => True
  end.

Fixpoint xmlOk (ctx : option Z) (it : item) : Prop :=
  match it with
  | IPrim tag p => primXmlOk ctx tag p
  | IStructure tag items =>
      hexPrefix (Tag_String r tag) = None ∧ foldr and True (mapContext xmlOk TagNone items)
  end.

(** Levels of the decoder. *)
Fixpoint xmlLevels (it : item) : nat :=
  match it with
  | IPrim _ _ => 0
  | IStructure _ items => foldr (λ it n, Nat.max (S (xmlLevels it)) n) O items
  end.

End Spec.

(** * Attribute values *)

Lemma xmlRunes_plain s n : plain s → (String.length s ≤ n)%nat → xmlRunes n s = s.
Proof.
  revert n. induction s as [|c s IH]; intros n Hs Hn; [by destruct n|]. cbn [String.length] in Hn.
  destruct n as [|n]; [lia|]. cbn [forallString] in Hs. apply andb_prop in Hs as [Hc Hs]. cbn [xmlRunes].
  unfold plainChar in Hc. assert (decodeRune (strBytes (String c s)) = (chr c, 1%nat)) as ->.
  { unfold decodeRune, strBytes. cbn [list_ascii_of_string map]. by rewrite (proj2 (Z.ltb_lt _ _)) by lia. }
  change (splitString 1 (String c s)) with (String c EmptyString, s).
  assert (isXMLChar (chr c) = true) as ->.
  { unfold isXMLChar, inRange. rewrite (proj2 (Z.leb_le 0x20 _)), (proj2 (Z.leb_le _ 0xD7FF)) by lia.
    by rewrite !orb_true_r. }
  rewrite (proj2 (Z.eqb_neq (chr c) runeError)) by (unfold runeError; lia). cbn [negb orb andb].
  rewrite append_cons. by rewrite IH by (done || lia).
Qed.

Lemma xmlText_plain s : plain s → xmlText s = s.
Proof. intros Hs. by apply xmlRunes_plain. Qed.

Lemma attrValue_opt (k v : string) : attrValue k (optAttr k v) = v.
Proof. unfold optAttr. destruct (String.eqb_spec v "") as [->|]; [done|]. cbn. by rewrite String.eqb_refl. Qed.

Lemma attrs_values a b c (l := optAttr "tag" a ++ optAttr "type" b ++ optAttr "value" c) :
  attrValue "tag" l = a ∧ attrValue "type" l = b ∧ attrValue "value" l = c.
Proof.
  subst l. unfold optAttr.
  destruct (String.eqb_spec a ""), (String.eqb_spec b ""), (String.eqb_spec c ""); subst; done.
Qed.

Lemma forallString_replaceAll (P : ascii → bool) x y s : P y = true → forallString P s = true →
  forallString P (replaceAll x y s) = true.
Proof.
  intros Hy. induction s as [|c s IH]; [done|]. cbn [forallString replaceAll]. intros [Hc Hs]%andb_prop.
  rewrite IH by done. case_match; [by rewrite Hy|by rewrite Hc].
Qed.

Definition noSpace (c : ascii) : bool := negb (c =? " ")%char.

Lemma noSpace_word c : isWordChar c = true → noSpace c = true.
Proof. intros Hc. destruct c as [[] [] [] [] [] [] [] []]; by vm_compute in Hc |- *. Qed.

Lemma replace_none s : forallString noSpace s = true → replaceAll " " "|" s = s.
Proof.
  induction s as [|c s IH]; [done|]. cbn [forallString replaceAll]. intros [Hc Hs]%andb_prop. rewrite IH by done.
  unfold noSpace in Hc. by destruct (c =? " ")%char.
Qed.

Lemma replace_back s : forallString noSpace s = true → replaceAll " " "|" (replaceAll "|" " " s) = s.
Proof.
  induction s as [|c s IH]; [done|]. cbn [forallString replaceAll]. intros [Hc Hs]%andb_prop. rewrite IH by done.
  f_equal. unfold noSpace in Hc. destruct (Ascii.eqb_spec c "|") as [->|]; [done|]. by destruct (c =? " ")%char.
Qed.

Lemma formatInt_chars (P : ascii → bool) z : (∀ c, isDigit c = true → P c = true) → P "-"%char = true →
  forallString P (formatInt z) = true.
Proof.
  intros Hd Hm. assert (∀ s, allDigits s = true → forallString P s = true) as Hall.
  { induction s as [|c s IH]; [done|]. cbn [allDigits forallString]. intros [Hc Hs]%andb_prop. by rewrite Hd, IH. }
  unfold formatInt. case_match.
  - rewrite forallString_app. cbn [forallString]. rewrite Hm. apply Hall, allDigits_fix.
  - apply Hall, allDigits_fix.
Qed.

Lemma plainChar_digit c : isDigit c = true → plainChar c = true.
Proof. unfold isDigit, plainChar. lia. Qed.

Lemma parseDigits_format z : 0 ≤ z → parseDigits (formatUint z) 0 = Some z ∧ formatUint z ≠ EmptyString ∧
  ∀ c s, formatUint z = String c s → isDigit c = true.
Proof.
  intros Hz. destruct (formatUint_spec z Hz) as (c & ds & -> & Hall & Hp & _). split; [done|]. split; [done|].
  intros c' s' [= <- <-]. cbn [allDigits] in Hall. by apply andb_prop in Hall as [Hc _].
Qed.

Lemma parseUint_format z b : 0 ≤ z < b → parseUint (formatUint z) b = Some z.
Proof.
  intros [Hz Hb]. destruct (parseDigits_format z Hz) as (Hp & Hne & _). unfold parseUint.
  destruct (formatUint z); [done|]. rewrite Hp. cbn. by rewrite (proj2 (Z.ltb_lt _ _) Hb).
Qed.

Lemma parseInt_format z half : 0 < half → - half ≤ z < half → parseInt (formatInt z) half = Some z.
Proof.
  intros Hh Hz. unfold formatInt. destruct (Z.ltb_spec z 0).
  - change ("-" +:+ ?s) with (String "-" s). unfold parseInt. cbn [Ascii.eqb Bool.eqb].
    rewrite parseUint_format by lia. cbn. rewrite (proj2 (Z.leb_le _ _)) by lia. f_equal. lia.
  - destruct (parseDigits_format z ltac:(lia)) as (_ & Hne & Hd). unfold parseInt.
    destruct (formatUint z) as [|c s] eqn:E; [done|]. specialize (Hd c s eq_refl). rewrite <- E.
    assert ((c =? "+")%char = false ∧ (c =? "-")%char = false) as [-> ->].
    { split; apply Ascii.eqb_neq; intros ->; by vm_compute in Hd. }
    rewrite parseUint_format by lia. cbn. by rewrite (proj2 (Z.ltb_lt _ _)) by lia.
Qed.

(** * MarshalXML writes the tokens *)

Section Marshal.
Context {tc : TitleCaser} (r : Registry) `{RegistryLaws r}.

Lemma plain_value ctx tag p : primOk p → primXmlOk r ctx tag p →
  xmlText (valueXml r ctx tag p) = valueXml r ctx tag p.
Proof.
  intros Hp Hx. destruct p; cbn [valueXml primXmlOk] in *; try done; try apply xmlText_plain.
  - unfold Registry_FormatInt. destruct ctx as [attr|]; cbn [ctxTag] in Hx.
    + destruct (Registry_EnumForTag r attr) as [m|] eqn:E.
      * by apply plain_FormatInt, (rl_enums attr).
      * apply (all_sprintfHex plainChar plainChar_word). done.
    + destruct (Registry_EnumForTag r tag) as [m|] eqn:E.
      * apply forallString_replaceAll; [done|]. by apply plain_FormatInt, (rl_enums tag).
      * by apply formatInt_chars; [apply plainChar_digit|].
  - by apply formatInt_chars; [apply plainChar_digit|].
  - apply plain_hex.
  - apply (plain_Enum r).
  - by destruct b.
  - apply plain_hex.
  - by apply plain_time.
  - rewrite formatUint_int by apply Hp. by apply formatInt_chars; [apply plainChar_digit|].
  - apply plain_time, Hx.
Qed.

Lemma names_text tag : xmlText (xmlNames r tag).2 = (xmlNames r tag).2 ∧ (xmlNames r tag).1 ≠ EmptyString.
Proof.
  unfold xmlNames. case_match; cbn [fst snd]; (split; [by try apply xmlText_plain, (plain_Tag r)|]); [done|].
  apply (nameOr_nonempty (Some (Enum_EnumMap (tags r))) tag 6), rl_tags.
Qed.

Lemma attrs_text ctx it : itemOk it → xmlOk r ctx it →
  (λ a : string * string, (a.1, xmlText a.2)) <$> itemAttrs r ctx it = itemAttrs r ctx it.
Proof.
  intros Hok Hx. destruct it as [tag p|]; [|done]. inversion Hok; subst. cbn [itemAttrs xmlOk] in *.
  rewrite !fmap_app. assert (∀ k v, xmlText v = v →
    (λ a : string * string, (a.1, xmlText a.2)) <$> optAttr k v = optAttr k v) as Ho.
  { intros k v Hv. unfold optAttr. case_match; [done|]. cbn [fmap list_fmap fst snd]; by rewrite Hv. }
  rewrite !Ho; [done|by apply plain_value|apply xmlText_plain, (plain_Type r)|apply names_text].
Qed.
Lemma xml_value tag p rest : Tag_Valid tag = true → primOk p → primXmlOk r None tag p →
  xmlValue r (primBlock tag p ++ rest) = Ok (valueXml r None tag p).
Proof.
  intros Ht Hp Hx. unfold xmlValue, TTLV_ValueByteString. rewrite primBlock_Type, primBlock_raw by done.
  pose proof (itemBlock_Tag (IPrim tag p) rest ltac:(by constructor)) as Htag. cbn [itemBlock itemTag] in Htag.
  rewrite Htag.
  assert (∀ A (f : A → goval) get a, Inj (=) (=) f → primGo p = f a →
    TTLV_Value (primBlock tag p ++ rest) = f <$> get (primBlock tag p ++ rest) →
    get (primBlock tag p ++ rest) = Ok a) as Hget by (intros A f get a ? ? ?; by apply (block_value f get tag p a rest)).
  unfold TTLV_Value in Hget. rewrite primBlock_Type in Hget.
  destruct p; cbn [primType primGo valueXml primXmlOk primOk primSegment] in *;
    cbv [TypeBoolean TypeEnumeration TypeInteger TypeLongInteger TypeBigInteger TypeTextString TypeByteString
      TypeStructure TypeDateTime TypeDateTimeExtended TypeInterval Z.eqb Pos.eqb orb] in *.
  - rewrite (Hget _ GInt32 TTLV_ValueInteger i) by byInj. cbn [liftErr mbind res_bind]. by destruct (Registry_EnumForTag r tag).
  - by rewrite (Hget _ GInt64 TTLV_ValueLongInteger i) by byInj.
  - done.
  - rewrite (Hget _ GEnumValue TTLV_ValueEnumeration e) by byInj. cbn [liftErr mbind res_bind]. by rewrite u32_id.
  - by rewrite (Hget _ GBool TTLV_ValueBoolean b) by byInj.
  - unfold TTLV_ValueTextString. by rewrite primBlock_raw.
  - done.
  - by rewrite (Hget _ GTime TTLV_ValueDateTime (GoTime sec 0)) by byInj.
  - rewrite (Hget _ GDuration TTLV_ValueInterval (sec * Second)) by byInj. cbn [liftErr mbind res_bind].
    rewrite Z.quot_mul by (unfold Second; lia). by rewrite u64_id by (unfold is_u64, is_u32 in *; lia).
  - assert (TTLV_ValueDateTime (primBlock tag (PDateTimeExtended usec) ++ rest) =
      Ok (unixTime 0 (i64 (usec * 1000)))) as ->
      by (apply (Hget _ GDateTimeExtended TTLV_ValueDateTime); byInj).
    cbn [liftErr mbind res_bind]. by rewrite i64_id by apply Hx.
Qed.

Lemma EncodeEnd_own name tags out : name ≠ EmptyString →
  EncodeEnd (mkXmlEncoder (Some name :: tags) out) name = Ok (mkXmlEncoder tags (out ++ [XEnd name])).
Proof. intros Hn. unfold EncodeEnd. rewrite (proj2 (String.eqb_neq _ _) Hn). cbn. by rewrite String.eqb_refl. Qed.

Lemma EncodeStart_text e name attrs : name ≠ EmptyString →
  (λ a : string * string, (a.1, xmlText a.2)) <$> attrs = attrs →
  EncodeStart e name attrs = Ok (mkXmlEncoder (Some name :: xe_tags e) (xe_out e ++ [XStart name attrs])).
Proof. intros Hn Ha. unfold EncodeStart. by rewrite (proj2 (String.eqb_neq _ _) Hn), Ha. Qed.

Definition written (e : xmlEncoder) (toks : list xmlToken) : xmlEncoder := mkXmlEncoder (xe_tags e) (xe_out e ++ toks).

Lemma xml_prim fuel tag p rest e : itemOk (IPrim tag p) → xmlOk r None (IPrim tag p) →
  marshalXML r (S fuel) (primBlock tag p ++ rest) e = Ok (written e (itemTokens r None (IPrim tag p))).
Proof.
  intros Hok Hx. pose proof (itemBlock_length _ Hok) as Hl. pose proof (itemBlock_Tag _ rest Hok) as Htag.
  pose proof (attrs_text None _ Hok Hx) as Ha. destruct (names_text tag) as [_ Hn].
  inversion Hok; subst. cbn [itemBlock itemTag itemAttrs xmlOk] in *. cbn [marshalXML].
  rewrite len_app, (proj2 (Z.eqb_neq _ _)) by (unfold len; lia).
  rewrite Htag, primBlock_Type, xml_value by done. cbn [mbind res_bind].
  rewrite (proj2 (Z.eqb_neq (primType p) TypeStructure)) by (by destruct p).
  unfold itemTokens, itemName, itemAttrs. cbn [itemTag].
  destruct (xmlNames r tag) as [name tagAttr]. cbn [fst snd] in *. unfold encodeOut.
  rewrite EncodeStart_text by done. cbn [mbind res_bind]. rewrite EncodeEnd_own by done.
  unfold written. by rewrite <- app_assoc.
Qed.

Lemma FormatInt_nonempty attr i : is_i32 i → primXmlOk r (Some attr) tagAttributeValue (PInteger i) →
  Registry_FormatInt r attr i ≠ EmptyString.
Proof.
  unfold Registry_FormatInt. cbn [primXmlOk ctxTag]. intros Hi Hx.
  destruct (Registry_EnumForTag r attr) as [m|] eqn:E; [|apply sprintfHex_nonempty].
  destruct (FormatInt_parts i m) as [Hs _]; [by apply (rl_enums attr)|apply Hx|done|apply Hx|].
  intros He. rewrite He in Hs. by destruct Hs as [Hs|Hs].
Qed.

Lemma attributeValue_names : xmlNames r tagAttributeValue = ("AttributeValue", "")%string.
Proof. unfold xmlNames. by rewrite rl_attributeValue. Qed.

(** An attribute value, written by the Structure that holds it. *)
Lemma xml_attribute attr c rest e : itemOk c → isAttributeValue c = true → xmlOk r (Some attr) c →
  xmlAttributeValue r e (itemBlock c ++ rest) attr = Ok (written e (itemTokens r (Some attr) c)).
Proof.
  intros Hok Hc Hx. pose proof (attrs_text (Some attr) _ Hok Hx) as Ha.
  destruct c as [tag p|]; [|done]. inversion Hok; subst. cbn [itemBlock] in *.
  assert (tag = tagAttributeValue) as -> by (destruct p; cbn in Hc; try done; by apply Z.eqb_eq).
  unfold xmlAttributeValue. rewrite primBlock_Type.
  assert ((if primType p =? TypeEnumeration then
      v ← liftErr XValue (TTLV_ValueEnumeration (primBlock tagAttributeValue p ++ rest)); Ok (Registry_FormatEnum r attr (u32 v))
    else v ← liftErr XValue (TTLV_ValueInteger (primBlock tagAttributeValue p ++ rest)); Ok (Registry_FormatInt r attr v))
    = Ok (valueXml r (Some attr) tagAttributeValue p) ∧ valueXml r (Some attr) tagAttributeValue p ≠ EmptyString)
    as [-> Hne].
  { destruct p; try done; cbn [primOk xmlOk] in *; cbn [primType valueXml ctxTag].
    - rewrite (block_value GInt32 TTLV_ValueInteger tagAttributeValue (PInteger i) i) by byInj || (unfold TTLV_Value; rewrite primBlock_Type; done).
      split; [done|by apply FormatInt_nonempty].
    - rewrite (block_value GEnumValue TTLV_ValueEnumeration tagAttributeValue (PEnumeration e0) e0) by byInj || (unfold TTLV_Value; rewrite primBlock_Type; done).
      change (TypeEnumeration =? TypeEnumeration) with true. cbn [liftErr mbind res_bind]. rewrite u32_id by done.
      split; [done|]. apply nameOr_nonempty, (enum_laws r). }
  cbn [mbind res_bind]. unfold itemTokens, itemName. cbn [itemTag]. cbn [itemAttrs] in *.
  rewrite attributeValue_names in *. cbn [fst snd] in *. rewrite rl_attributeValue.
  assert (optAttr "tag" "" ++ optAttr "type" (Type_String r (primType p)) ++ optAttr "value" (valueXml r (Some attr) tagAttributeValue p)
    = [("type", Type_String r (primType p)); ("value", valueXml r (Some attr) tagAttributeValue p)]%string) as Heq.
  { unfold optAttr. rewrite (proj2 (String.eqb_neq _ _) Hne), (proj2 (String.eqb_neq (Type_String r (primType p)) "")) by apply (plain_Type r). done. }
  rewrite Heq in *. rewrite EncodeStart_text by done. cbn [mbind res_bind]. rewrite EncodeEnd_own by done.
  unfold written. by rewrite <- app_assoc.
Qed.

Lemma written_nil e : written e [] = e.
Proof. unfold written. rewrite app_nil_r. by destruct e. Qed.

Lemma written_app e a b : written (written e a) b = written e (a ++ b).
Proof. unfold written. cbn. by rewrite app_assoc. Qed.

Lemma Encode_written marshal e toks :
  (∀ tags, marshal (mkXmlEncoder tags (xe_out e)) = Ok (mkXmlEncoder tags (xe_out e ++ toks))) →
  xmlEncode marshal e = Ok (written e toks).
Proof. intros Hm. unfold xmlEncode. by rewrite Hm. Qed.

Lemma itemType_attribute c : itemOk c →
  (itemTag c =? tagAttributeValue) && ((itemType c =? TypeEnumeration) || (itemType c =? TypeInteger)) = isAttributeValue c.
Proof.
  intros _. destruct c as [tag p|]; cbn [itemTag itemType isAttributeValue]; [|by rewrite andb_false_r].
  destruct p; cbn; by rewrite ?andb_true_r, ?andb_false_r.
Qed.

Lemma xml_children marshal items attr k e :
  Forall (λ it, ∀ rest e, xmlOk r None it → marshal (itemBlock it ++ rest) e = Ok (written e (itemTokens r None it))) items →
  Forall itemOk items → foldr and True (mapContext r (xmlOk r) attr items) → (length items ≤ k)%nat →
  xmlChildren r marshal k (concat (map itemBlock items)) attr e =
    Ok (written e (concat (mapContext r (itemTokens r) attr items))).
Proof.
  intros Hall. revert attr k e. induction Hall as [|it items Hit Hall IH]; intros attr k e Hok Hj Hn.
  { cbn. rewrite written_nil. by destruct k. }
  inversion Hok as [|? ? Hok1 Hok2]; subst. destruct k as [|k]; cbn [length] in Hn; [lia|].
  cbn [mapContext foldr] in Hj. destruct Hj as [Hj1 Hj2]. fold (mapContext r (xmlOk r)) in Hj2.
  cbn [map concat xmlChildren mapContext]. fold (mapContext r (itemTokens r)).
  pose proof (itemBlock_length it Hok1) as Hl.
  rewrite len_app, (proj2 (Z.eqb_neq _ _)) by (unfold len; lia).
  rewrite attributeTag_eq by done. cbn [mbind res_bind].
  rewrite itemBlock_Tag, itemBlock_Type, itemType_attribute by done.
  assert ((if isAttributeValue it then xmlAttributeValue r e (itemBlock it ++ concat (map itemBlock items)) (nextAttr r attr it)
    else xmlEncode (marshal (itemBlock it ++ concat (map itemBlock items))) e) =
    Ok (written e (itemTokens r (if isAttributeValue it then Some (nextAttr r attr it) else None) it))) as ->.
  { destruct (isAttributeValue it) eqn:E; [by apply xml_attribute|]. apply Encode_written. intros tags. by rewrite Hit. }
  cbn [mbind res_bind]. rewrite itemBlock_Next by done. cbn [liftErr mbind res_bind]. rewrite bytesOf_nonNil.
  rewrite (IH (nextAttr r attr it) k) by (done || lia). by rewrite written_app.
Qed.

Lemma xml_structure fuel tag items rest e : itemOk (IStructure tag items) →
  foldr and True (mapContext r (xmlOk r) TagNone items) →
  Forall (λ it, ∀ rest e, xmlOk r None it →
    marshalXML r fuel (itemBlock it ++ rest) e = Ok (written e (itemTokens r None it))) items →
  marshalXML r (S fuel) (itemBlock (IStructure tag items) ++ rest) e =
    Ok (written e (itemTokens r None (IStructure tag items))).
Proof.
  intros Hok Hx Hall. pose proof (itemBlock_length _ Hok) as Hl. pose proof Hok as Hok'.
  apply itemOk_inv in Hok' as (_ & Hoks & Hlen). destruct (names_text tag) as [_ Hn].
  cbn [marshalXML]. rewrite len_app, (proj2 (Z.eqb_neq _ _)) by (unfold len; lia).
  rewrite itemBlock_Tag, itemBlock_Type by done. cbn [itemTag itemType].
  unfold TTLV_ValueStructure. rewrite itemBlock_raw by done. cbn [segment itemTokens].
  unfold itemName. cbn [itemTag itemAttrs].
  destruct (xmlNames r tag) as [name tagAttr]. cbn [fst snd] in *.
  change (TypeStructure =? TypeStructure) with true. cbv iota zeta.
  rewrite EncodeStart_text by done. cbn [mbind res_bind].
  rewrite xml_children; [|done|done|done|by apply items_length].
  cbn [mbind res_bind]. unfold written. cbn [xe_tags xe_out]. rewrite EncodeEnd_own by done.
  by rewrite <- !app_assoc.
Qed.

Lemma xml_item it fuel rest e : itemOk it → xmlOk r None it → (length (itemBlock it) < fuel)%nat →
  marshalXML r fuel (itemBlock it ++ rest) e = Ok (written e (itemTokens r None it)).
Proof.
  revert fuel rest e. induction it as [tag p|tag items IH] using item_ind'; intros fuel rest e Hok Hx Hf;
    (destruct fuel as [|fuel]; [lia|]); [by apply xml_prim|].
  apply xml_structure; [done|apply Hx|]. apply itemOk_inv in Hok as (_ & Hoks & _).
  cbn [itemBlock] in Hf. rewrite length_app, length_header in Hf.
  apply Forall_forall. intros it Hin rest' e' Hx'. pose proof (length_in_concat it items Hin).
  eapply Forall_forall in IH, Hoks; [|exact Hin..]. apply IH; [done..|lia].
Qed.

End Marshal.

(** * The decoder builds the tree *)

Section Decode.
Context {tc : TitleCaser} (r : Registry).

(** Fuel for the decoder: tokens and levels. *)
Lemma decode_children items attr fuel depth name rest :
  Forall (λ it, ∀ ctx fuel depth rest, (2 * length (itemTokens r ctx it) ≤ fuel)%nat →
    (depth + 2 * xmlLevels it < maxUnmarshalDepth)%nat →
    decodeElement fuel depth (itemName r it) (itemAttrs r ctx it) (tail (itemTokens r ctx it) ++ rest) =
      Ok (itemXml r ctx it, rest)) items →
  (2 * length (concat (mapContext r (itemTokens r) attr items)) < fuel)%nat →
  (depth + 2 * foldr (λ it n, Nat.max (S (xmlLevels it)) n) O items < maxUnmarshalDepth)%nat →
  decodeContent fuel depth name (concat (mapContext r (itemTokens r) attr items) ++ XEnd name :: rest) =
    Ok (mapContext r (itemXml r) attr items, rest).
Proof.
  intros Hall. revert attr fuel. induction Hall as [|it items Hit Hall IH]; intros attr fuel Hf Hd;
    (destruct fuel as [|fuel]; [lia|]).
  { cbn. by rewrite String.eqb_refl. }
  cbn [mapContext concat] in *. fold (mapContext r (itemTokens r)) in *. fold (mapContext r (itemXml r)).
  set (ctx := if isAttributeValue it then Some (nextAttr r attr it) else None) in *.
  assert (itemTokens r ctx it = XStart (itemName r it) (itemAttrs r ctx it) :: tail (itemTokens r ctx it)) as Ht
    by (by destruct it).
  rewrite length_app in Hf. rewrite Ht at 1. rewrite <- app_assoc. cbn [app decodeContent].
  cbn [foldr] in Hd. rewrite Hit by lia. cbn [mbind res_bind].
  assert (1 ≤ length (itemTokens r ctx it))%nat by (rewrite Ht; cbn; lia).
  rewrite IH by lia. done.
Qed.

Lemma decode_item it ctx fuel depth rest : (2 * length (itemTokens r ctx it) ≤ fuel)%nat →
  (depth + 2 * xmlLevels it < maxUnmarshalDepth)%nat →
  decodeElement fuel depth (itemName r it) (itemAttrs r ctx it) (tail (itemTokens r ctx it) ++ rest) =
    Ok (itemXml r ctx it, rest).
Proof.
  revert ctx fuel depth rest. induction it as [tag p|tag items IH] using item_ind'; intros ctx fuel depth rest Hf Hd;
    cbn [itemTokens length app] in Hf; (destruct fuel as [|fuel]; [lia|]); cbn [decodeElement];
    rewrite (proj2 (Nat.leb_gt _ _)) by lia.
  - cbn [itemTokens tail app]. destruct fuel as [|fuel]; [cbn in Hf; lia|]. cbn [decodeContent].
    rewrite String.eqb_refl. cbn [mbind res_bind itemAttrs itemXml].
    by destruct (attrs_values (xmlNames r tag).2 (Type_String r (primType p)) (valueXml r ctx tag p)) as (-> & -> & ->).
  - cbn [itemTokens tail]. rewrite <- app_assoc. cbn [app]. rewrite length_app in Hf. cbn [length] in Hf.
    rewrite decode_children by (done || cbn [xmlLevels] in Hd; lia). done.
Qed.

End Decode.

(** * Indented documents *)

(** Tokens with white space, comments and the like put in front of some of them,
    as [xml.MarshalIndent] does. *)
Inductive padded : list xmlToken → list xmlToken → Prop :=
  | padded_nil : padded [] []
  | padded_keep t l l' : padded l l' → padded (t :: l) (t :: l')
  | padded_other t l l' : padded (t :: l) l' → padded (t :: l) (XOther :: l').

Lemma padded_cons_inv t l l'' : padded (t :: l) l'' →
  ∃ k l', l'' = replicate k XOther ++ t :: l' ∧ padded l l'.
Proof.
  remember (t :: l) as l0 eqn:E. intros Hp. induction Hp as [|t0 l0 l' Hp _|t0 l0 l' _ IH]; simplify_eq.
  - by exists O, l'.
  - destruct IH as (k & l1 & -> & Hp); [done|]. by exists (S k), l1.
Qed.

Lemma padded_app_inv a b l'' : padded (a ++ b) l'' → ∃ a' b', l'' = a' ++ b' ∧ padded a a' ∧ padded b b'.
Proof.
  revert l''. induction a as [|t a IH]; intros l'' Hp; [exists [], l''; by repeat constructor|].
  apply padded_cons_inv in Hp as (k & l' & -> & Hp). destruct (IH _ Hp) as (a' & b' & -> & Ha & Hb).
  exists (replicate k XOther ++ t :: a'), b'. split_and!; [by rewrite <- app_assoc| |done].
  clear -Ha. induction k as [|k IH]; cbn; by constructor.
Qed.

Lemma padded_length l l' : padded l l' → (length l ≤ length l')%nat.
Proof. induction 1; cbn in *; lia. Qed.

Lemma decodeContent_others k f depth name l rest : (k < f)%nat →
  decodeContent f depth name ((replicate k XOther ++ l) ++ rest) = decodeContent (S (f - k - 1)) depth name (l ++ rest).
Proof.
  revert f. induction k as [|k IH]; intros [|f] Hf; try lia; cbn [replicate app]; [by rewrite Nat.sub_0_r; cbn; rewrite Nat.sub_0_r|].
  cbn [decodeContent]. rewrite IH by lia. by destruct k.
Qed.

(** The decoder reads a padded element like the element, and stops behind it;
    every token put in takes one more unit of fuel. *)
Definition readsPadded {A} (dec : nat → list xmlToken → res xerr (A * list xmlToken)) (f : nat) (x : A) (body : list xmlToken) : Prop :=
  ∀ body' rest' f', padded body body' → (f + (length body' - length body) ≤ f')%nat → dec f' (body' ++ rest') = Ok (x, rest').

Lemma decode_padded f :
  (∀ depth name attrs toks x rest, decodeElement f depth name attrs toks = Ok (x, rest) →
    ∃ body, toks = body ++ rest ∧ readsPadded (λ f, decodeElement f depth name attrs) f x body) ∧
  (∀ depth name toks x rest, decodeContent f depth name toks = Ok (x, rest) →
    ∃ body, toks = body ++ rest ∧ readsPadded (λ f, decodeContent f depth name) f x body).
Proof.
  induction f as [|f [IHe IHc]]; [done|]. split.
  - intros depth name attrs toks x rest. cbn [decodeElement]. destruct (_ <=? _)%nat eqn:Hd; [done|].
    intros ([cs rest0] & Hc & [= <- <-])%bind_Ok_inv. destruct (IHc _ _ _ _ _ Hc) as (body & -> & Hb).
    exists body. split; [done|]. intros body' rest' [|f'] Hp Hf; [lia|]. cbn [decodeElement]. rewrite Hd.
    by rewrite Hb by (done || lia).
  - intros depth name toks x rest. cbn [decodeContent]. destruct toks as [|[n attrs|n|] toks]; [done|..].
    + intros ([c rest1] & He & Hc)%bind_Ok_inv. apply bind_Ok_inv in Hc as ([cs rest2] & Hc & [= <- <-]).
      destruct (IHe _ _ _ _ _ _ He) as (b1 & -> & H1). destruct (IHc _ _ _ _ _ Hc) as (b2 & -> & H2).
      exists (XStart n attrs :: b1 ++ b2). split; [by cbn; rewrite <- app_assoc|].
      intros body' rest' f' (k & l' & -> & (b1' & b2' & -> & Hp1 & Hp2)%padded_app_inv)%padded_cons_inv Hf.
      pose proof (padded_length _ _ Hp1). pose proof (padded_length _ _ Hp2).
      rewrite length_app, length_replicate in Hf. cbn [length] in Hf. rewrite !length_app in Hf.
      rewrite decodeContent_others by lia. cbn [app decodeContent].
      rewrite <- app_assoc, H1 by (done || lia). cbn [mbind res_bind]. by rewrite H2 by (done || lia).
    + destruct (String.eqb n name) eqn:Hn; [|done]. intros [= <- <-]. exists [XEnd n]. split; [done|].
      intros body' rest' f' (k & l' & -> & Hp)%padded_cons_inv Hf. inversion Hp; subst.
      rewrite length_app, length_replicate in Hf. cbn [length] in Hf.
      rewrite decodeContent_others by lia. cbn [app decodeContent].
      by rewrite Hn.
    + intros Hc. destruct (IHc _ _ _ _ _ Hc) as (b & -> & Hb). exists (XOther :: b). split; [done|].
      intros body' rest' f' (k & l' & -> & Hp)%padded_cons_inv Hf. pose proof (padded_length _ _ Hp).
      rewrite length_app, length_replicate in Hf. cbn [length] in Hf.
      rewrite decodeContent_others by lia. cbn [app decodeContent].
      by apply Hb; [|lia].
Qed.

(** * UnmarshalXML reads it back *)

Lemma ParseInt_hex i m : is_i32 i → 0 ≤ i → ParseInt (sprintfHex 8 i) m = Ok i.
Proof.
  intros Hi H0. unfold ParseInt. pose proof (sprintfHex_noBars 8 i) as Hb.
  assert (parseInt (sprintfHex 8 i) (2 ^ 31) = None) as -> by (by rewrite sprintfHex_pos).
  unfold containsBarOrSpace. unfold noBars in Hb. rewrite Hb. cbn [negb].
  rewrite (parseHexOrName_hex 4 i) by (lia || (unfold is_i32 in Hi; lia)). cbn. by rewrite i32_id.
Qed.

Section Unmarshal.
Context {tc : TitleCaser} (r : Registry) `{RegistryLaws r}.

(** The attribute tag that the reader is given. *)
Definition readTag (ctx : option Z) (attrTag : Z) (it : item) : Prop :=
  match ctx with
  | Some attr => attrTag = attr ∧ isAttributeValue it = true
  | None => isAttributeValue it = false ∨ attrTag = TagNone
  end.

Lemma read_integer ctx attrTag tag i : is_i32 i → primXmlOk r ctx tag (PInteger i) →
  readTag ctx attrTag (IPrim tag (PInteger i)) →
  Registry_ParseInt r (enumTagOf tag attrTag) (replaceAll " " "|" (valueXml r ctx tag (PInteger i))) = Ok i.
Proof.
  intros Hi Hx Hr. unfold Registry_ParseInt. destruct ctx as [attr|]; cbn [readTag isAttributeValue valueXml primXmlOk ctxTag] in *.
  - destruct Hr as [-> ->%Z.eqb_eq]. unfold Registry_FormatInt, enumTagOf.
    destruct (Registry_EnumForTag r attr) as [m|] eqn:E.
    + rewrite replace_none by (apply (all_FormatInt noSpace noSpace_word); [done..|by apply (rl_enums attr)]).
      destruct (Z.eqb_spec attr TagNone) as [->|]; [by rewrite rl_none in E|]. cbn [negb andb Z.eqb tagAttributeValue Pos.eqb].
      rewrite E. apply ParseInt_text; [by apply (rl_enums attr)|apply Hx|done|apply Hx].
    + destruct Hx as [|Hx]; [done|]. rewrite replace_none by (by apply (all_sprintfHex noSpace noSpace_word)).
      by apply ParseInt_hex.
  - assert (enumTagOf tag attrTag = tag) as ->.
    { unfold enumTagOf. destruct Hr as [-> | ->]; [done|]. by rewrite andb_false_r. }
    destruct (Registry_EnumForTag r tag) as [m|] eqn:E.
    + rewrite replace_back by (apply (all_FormatInt noSpace noSpace_word); [done..|by apply (rl_enums tag)]).
      apply ParseInt_text; [by apply (rl_enums tag)|apply Hx|done|apply Hx].
    + rewrite replace_none.
      2: { apply formatInt_chars; [|done]. intros c Hc. apply noSpace_word. unfold isWordChar. by rewrite Hc, !orb_true_r. }
      unfold ParseInt. rewrite parseInt_format by (done || apply Hi). by rewrite i32_id.
Qed.

Lemma read_enumeration ctx attrTag tag v : is_u32 v → readTag ctx attrTag (IPrim tag (PEnumeration v)) →
  Registry_ParseEnum r (enumTagOf tag attrTag) (valueXml r ctx tag (PEnumeration v)) = Ok v.
Proof.
  intros Hv Hr. cbn [valueXml]. unfold Registry_ParseEnum, Registry_FormatEnum.
  assert (ctxTag ctx tag = enumTagOf tag attrTag ∨ ctxTag ctx tag = TagNone) as [-> | ->].
  { unfold enumTagOf. destruct ctx as [attr|]; cbn [readTag isAttributeValue ctxTag] in *.
    - destruct Hr as [-> ->]. destruct (Z.eqb_spec attr TagNone) as [->|]; [by right|by left].
    - left. destruct Hr as [-> | ->]; [done|]. by rewrite andb_false_r. }
  - apply ParseEnum_text; [apply (enum_laws r)|done].
  - rewrite rl_none. unfold ParseEnum, FormatEnum. cbn [fmap option_fmap option_map nameOr].
    rewrite (parseUint_nameOr 8 v None) by (done || apply Hv).
    by rewrite (parseHexOrName_hex 4 v) by (done || lia || apply Hv).
Qed.

Lemma xml_read_prim ctx attrTag tag p buf : primOk p → primXmlOk r ctx tag p → readTag ctx attrTag (IPrim tag p) →
  xmlPrim r (primType p) tag attrTag (valueXml r ctx tag p) buf = Ok (encodePrim buf tag p).
Proof.
  intros Hp Hx Hr. unfold xmlPrim.
  destruct p; cbn [primType primOk primXmlOk] in *;
    cbv [TypeBoolean TypeEnumeration TypeInteger TypeLongInteger TypeBigInteger TypeTextString TypeByteString
      TypeStructure TypeDateTime TypeDateTimeExtended TypeInterval Z.eqb Pos.eqb orb].
  - by rewrite read_integer.
  - cbn [valueXml]. by rewrite parseInt_format by (done || apply Hp).
  - cbn [valueXml]. rewrite hexPrefix_hex, hexDecode_encode. cbn [mbind res_bind primSegment encodePrim].
    destruct (bigIntSegment_spec i) as [Hv Hm]. rewrite Hm. cbn [Z.eqb negb]. by rewrite unmarshalBigInt_spec, Hv.
  - by rewrite read_enumeration.
  - by destruct b.
  - done.
  - cbn [valueXml primSegment]. by rewrite hexPrefix_hex, hexDecode_encode.
  - cbn [valueXml]. by rewrite parse_format by (cbn; lia || done).
  - cbn [valueXml encodePrim]. rewrite parseUint_format by (unfold is_u32 in *; lia). cbn [mbind res_bind].
    by rewrite !i64_id by (unfold is_i64, is_u32, Second in *; rewrite ?i64_id; unfold is_i64; lia).
  - cbn [valueXml]. destruct Hx as [Hi Hy]. rewrite unixTime_micro in * by done.
    rewrite parse_format; [done| |cbn [time_nsec]; Z.div_mod_to_equations; lia|done].
    unfold is_i64 in *. cbn [time_sec]. Z.div_mod_to_equations; lia.
Qed.

Lemma xml_read_children items attr buf :
  Forall (λ it, ∀ ctx attrTag buf, xmlOk r ctx it → readTag ctx attrTag it →
    unmarshalXMLTval r buf (itemXml r ctx it) attrTag = Ok (buf ++ itemBlock it)) items →
  Forall itemOk items → foldr and True (mapContext r (xmlOk r) attr items) →
  unmarshalTvals r (unmarshalXMLTval r) (mapContext r (itemXml r) attr items) attr buf =
    Ok (buf ++ concat (map itemBlock items)).
Proof.
  intros Hall. revert attr buf. induction Hall as [|it items Hit Hall IH]; intros attr buf Hok Hj.
  { by rewrite app_nil_r. }
  inversion Hok as [|? ? Hok1 Hok2]; subst. cbn [mapContext foldr] in Hj. destruct Hj as [Hj1 Hj2].
  fold (mapContext r (xmlOk r)) in Hj2. cbn [map concat mapContext unmarshalTvals].
  fold (mapContext r (itemXml r)). fold (unmarshalTvals r (unmarshalXMLTval r)).
  pose proof (attributeTag_eq r (E:=xerr) it [] attr Hok1) as Ha. rewrite app_nil_r in Ha.
  (* a value is read with the name of the attribute before it *)
  assert (isAttributeValue it = true → nextAttr r attr it = attr) as Hc.
  { intros E. unfold nextAttr. rewrite (proj2 (Z.eqb_neq _ _)); [done|].
    destruct it as [tag []|]; try done; cbn in *; by intros ->. }
  rewrite Hit; [|done|destruct (isAttributeValue it) eqn:E; cbn; [by rewrite Hc|by left]].
  cbn [mbind res_bind]. rewrite drop_app_length, Ha. cbn [mbind res_bind]. rewrite IH by done. by rewrite <- app_assoc.
Qed.

Lemma xml_tag tag : Tag_Valid tag = true →
  Registry_ParseTag r (if String.eqb (xmlNames r tag).2 "" then (xmlNames r tag).1 else (xmlNames r tag).2) = Ok tag.
Proof.
  intros Ht. rewrite <- (json_tag r tag Ht). f_equal. unfold xmlNames.
  destruct (hexPrefix (Tag_String r tag)) eqn:E; [|done]. cbn [fst snd]. by destruct (Tag_String r tag).
Qed.

Lemma xml_read_item it ctx attrTag buf : itemOk it → xmlOk r ctx it → readTag ctx attrTag it →
  unmarshalXMLTval r buf (itemXml r ctx it) attrTag = Ok (buf ++ itemBlock it).
Proof.
  revert ctx attrTag buf. induction it as [tag p|tag items IH] using item_ind'; intros ctx attrTag buf Hok Hx Hr.
  - inversion Hok as [? ? Ht Hp|]; subst. cbn [itemXml unmarshalXMLTval]. unfold itemName. cbn [itemTag].
    rewrite xml_tag by done. cbn [liftErr mbind res_bind].
    rewrite (proj2 (String.eqb_neq (Type_String r (primType p)) "")) by apply (plain_Type r).
    rewrite json_type by (by destruct p). cbn [liftErr mbind res_bind].
    rewrite (proj2 (Z.eqb_neq _ _)) by (by destruct p). rewrite xml_read_prim by done.
    by rewrite encodePrim_eq.
  - apply itemOk_inv in Hok as (Ht & Hok & Hl). destruct Hx as [Hpre Hx]. cbn [itemXml unmarshalXMLTval].
    unfold itemName. cbn [itemTag].
    assert (Registry_ParseTag r (xmlNames r tag).1 = Ok tag) as Htag.
    { rewrite <- (json_tag r tag Ht). unfold xmlNames. by rewrite Hpre. }
    change (String.eqb "" "") with true. cbv iota. rewrite Htag. cbn [liftErr mbind res_bind].
    change (TypeStructure =? TypeStructure) with true. cbv iota. rewrite begin_eq. cbv iota zeta.
    rewrite xml_read_children; [|clear Ht Hl|done|done].
    + cbn [mbind res_bind]. rewrite end_begin. cbn [itemBlock].
      rewrite padding_aligned, app_nil_r; [done|].
      apply concat_aligned, Forall_forall. intros it _. apply itemBlock_aligned.
    + apply Forall_forall. intros it Hin ctx' attr' buf' Hx' Hr'.
      eapply Forall_forall in IH, Hok; [|exact Hin..]. by apply IH.
Qed.

End Unmarshal.

(** * Properties *)

(** C21. The XML encoding is faithful on the items that it can represent: with
    the default registry, [MarshalXML] writes one element for a well-formed item
    and [UnmarshalXML] reads it back to the same bytes and stops behind it, also
    when white space and comments are put between its tokens, as they are in an
    indented document, when every Structure has a tag with a registered name,
    text strings are made of XML characters, dates have years of four digits and
    extended ones fit into nanoseconds, Integers under a tag with an enumeration
    are not zero and the enumeration is not empty, Integers that are attribute
    values without an enumeration are not negative, and the nesting stays below
    the limit of encoding/xml.  (A Structure whose tag has no name loses its tag,
    and a zero mask is written as the empty text.) *)
Theorem XML_roundtrip (tc : TitleCaser) r it :
  titleCaserOk tc → initRegistry = Ok r →
  itemOk it → xmlOk r None it → (2 * xmlLevels it < maxUnmarshalDepth)%nat →
  ∃ name attrs toks,
    xmlEncode (TTLV_MarshalXML r (itemBlock it)) newXmlEncoder = Ok (mkXmlEncoder [] (XStart name attrs :: toks)) ∧
    ∀ toks' rest, padded toks toks' → TTLV_UnmarshalXML r name attrs (toks' ++ rest) = Ok (itemBlock it, rest).
Proof.
  intros Htc Hr Hok Hx Hd. rewrite initRegistry_eq in Hr by done. injection Hr as <-.
  pose proof (theRegistry_RegistryLaws tc Htc).
  exists (itemName theRegistry it), (itemAttrs theRegistry None it), (tail (itemTokens theRegistry None it)). split.
  - rewrite (Encode_written _ _ (itemTokens theRegistry None it)); [by destruct it|].
    intros tags. unfold TTLV_MarshalXML. rewrite <- (app_nil_r (itemBlock it)) at 2.
    by rewrite xml_item by (done || lia).
  - intros toks' rest Hp. unfold TTLV_UnmarshalXML. pose proof (padded_length _ _ Hp).
    assert (length (itemTokens theRegistry None it) = S (length (tail (itemTokens theRegistry None it)))) as Hl
      by (by destruct it).
    pose proof (decode_item theRegistry it None (2 * length (itemTokens theRegistry None it)) 0 [] ltac:(done) ltac:(lia)) as Hdec.
    apply (proj1 (decode_padded _)) in Hdec as (body & Hbody & Hreads). rewrite !app_nil_r in Hbody. subst body.
    rewrite Hreads by (done || rewrite length_app; lia).
    cbn [mbind res_bind]. rewrite xml_read_item; [done|done|done|done|cbn [readTag]; by right].
Qed.

(** The sample of the JSON encoding, without the BigInteger. *)
Lemma xmlSample_ok : xmlOk (@theRegistry asciiCaser) None jsonSample.
Proof.
  unfold jsonSample. cbn [xmlOk]. split; [by vm_compute|]. cbn [mapContext foldr]. rewrite sample_attr.
  cbn [isAttributeValue itemTag xmlOk primXmlOk ctxTag].
  split; [by vm_compute|]. split; [|split; [by vm_compute|split; [split; by vm_compute|done]]].
  change (isAttributeValue (IPrim 0x42000b (PInteger 12))) with true. cbv iota.
  assert (nextAttr (@theRegistry asciiCaser) 0x42002c (IPrim 0x42000b (PInteger 12)) = 0x42002c) as -> by done.
  change (4325387 =? tagAttributeValue) with true. cbn [ctxTag]. unfold theRegistry. rewrite layered_EnumForTag, mask_only14. cbn [Z.eqb Pos.eqb ctxTag].
  destruct (lastFor enumTags14 0x42002c) as [et|] eqn:E; [|by right]. split; [|done].
  intros Hm. pose proof mask_values as Hv. rewrite E in Hv. cbn [from_option] in Hv. by rewrite Hm in Hv.
Qed.

Lemma XML_roundtrip_witness :
  ∃ name attrs toks,
    xmlEncode (TTLV_MarshalXML (@theRegistry asciiCaser) (itemBlock jsonSample)) newXmlEncoder =
      Ok (mkXmlEncoder [] (XStart name attrs :: toks)) ∧
    ∀ toks' rest, padded toks toks' →
      TTLV_UnmarshalXML (@theRegistry asciiCaser) name attrs (toks' ++ rest) = Ok (itemBlock jsonSample, rest).
Proof.
  assert (titleCaserOk asciiCaser) as Htc by (intros w _; reflexivity).
  apply (XML_roundtrip asciiCaser theRegistry jsonSample Htc).
  - by apply initRegistry_eq.
  - unfold jsonSample. repeat first [constructor | by vm_compute].
  - exact xmlSample_ok.
  - apply Nat.ltb_lt. reflexivity.
Defined.

(** ** Structures without a registered tag *)

Lemma no_value {tc : TitleCaser} l s e : titleCaserOk tc →
  forallb (λ '(_, n), negb (String.eqb (@NormalizeName asciiCaser n) s) && negb (String.eqb n s)
    && forallb plainWord (nameWords n)) l = true →
  nameToValue e !! s = None → canonicalNamesToValue e !! s = None →
  Enum_Value (Some (registerAll e l)) s = None.
Proof.
  intros Htc. revert e. induction l as [|[v n] l IH]; intros e Hl Hn Hc.
  { cbn. by rewrite Hn. }
  cbn [forallb] in Hl. apply andb_prop in Hl as [[[H1 H2]%andb_prop H3]%andb_prop Hl].
  apply negb_true_iff, String.eqb_neq in H1, H2. rewrite <- (NormalizeName_caser tc) in H1 by done.
  apply (IH (Enum_RegisterValue e v n) Hl); cbn [Enum_RegisterValue nameToValue canonicalNamesToValue];
    by rewrite lookup_insert_ne.
Qed.

Lemma no_TTLV_tag (tc : TitleCaser) : titleCaserOk tc →
  Registry_ParseTag theRegistry "TTLV" = Err (PErrUnregisteredEnumName "TTLV").
Proof.
  intros Htc. unfold Registry_ParseTag, ParseTag, parseHexOrName. cbn [ParseHexValue hexPrefix Ascii.eqb Bool.eqb andb].
  cbn [em_Value Enum_EnumMap tags theRegistry layered]. unfold theTags.
  rewrite no_value; [done|done|by vm_compute|done|done].
Qed.

Lemma unregistered_structure {tc : TitleCaser} r tag items : RegistryLaws r →
  Registry_ParseTag r "TTLV" = Err (PErrUnregisteredEnumName "TTLV") →
  itemOk (IStructure tag items) → hexPrefix (Tag_String r tag) ≠ None →
  foldr and True (mapContext r (xmlOk r) TagNone items) →
  (2 * xmlLevels (IStructure tag items) < maxUnmarshalDepth)%nat →
  ∃ toks,
    xmlEncode (TTLV_MarshalXML r (itemBlock (IStructure tag items))) newXmlEncoder =
      Ok (mkXmlEncoder [] (XStart "TTLV" [] :: toks)) ∧
    ∀ rest, TTLV_UnmarshalXML r "TTLV" [] (toks ++ rest) = Err (XTag (PErrUnregisteredEnumName "TTLV")).
Proof.
  intros Hlaws Hno Hok Hp Hx Hd. set (it := IStructure tag items) in *.
  assert (itemName r it = "TTLV"%string) as Hn.
  { unfold itemName, xmlNames. cbn [it itemTag]. by destruct (hexPrefix (Tag_String r tag)). }
  exists (tail (itemTokens r None it)). split.
  - rewrite (Encode_written _ _ (itemTokens r None it)); [by rewrite <- Hn|].
    intros tags. unfold TTLV_MarshalXML. rewrite <- (app_nil_r (itemBlock it)) at 2.
    unfold it. rewrite xml_structure; [done|done|done|done|]. apply itemOk_inv in Hok as (_ & Hoks & _).
    apply Forall_forall. intros c Hin rest e Hc. eapply Forall_forall in Hoks; [|exact Hin].
    apply xml_item; [done|done|done|]. pose proof (length_in_concat c items Hin). cbn [it itemBlock].
    rewrite length_app, length_header. lia.
  - intros rest. unfold TTLV_UnmarshalXML.
    assert (length (itemTokens r None it) = S (length (tail (itemTokens r None it)))) as Hl by done.
    pose proof (decode_item r it None (2 * length (tail (itemTokens r None it) ++ rest) + 2) 0 rest)
      as Hdec. rewrite Hn in Hdec. cbn [itemAttrs it] in Hdec. rewrite Hdec by (rewrite ?length_app; lia || done).
    unfold it in Hn |- *. cbn [mbind res_bind itemXml unmarshalXMLTval]. rewrite Hn.
    change (String.eqb "" "") with true. cbv iota. by rewrite Hno.
Qed.

(** A Structure whose tag is not registered does not survive XML: its
    element is called TTLV and, unlike that of a primitive value, does not name
    the tag, so that reading back what [MarshalXML] wrote is an error. *)
Theorem XML_unregistered_Structure (tc : TitleCaser) r tag items :
  titleCaserOk tc → initRegistry = Ok r →
  itemOk (IStructure tag items) → hexPrefix (Tag_String r tag) ≠ None →
  foldr and True (mapContext r (xmlOk r) TagNone items) →
  (2 * xmlLevels (IStructure tag items) < maxUnmarshalDepth)%nat →
  ∃ toks,
    xmlEncode (TTLV_MarshalXML r (itemBlock (IStructure tag items))) newXmlEncoder =
      Ok (mkXmlEncoder [] (XStart "TTLV" [] :: toks)) ∧
    ∀ rest, TTLV_UnmarshalXML r "TTLV" [] (toks ++ rest) = Err (XTag (PErrUnregisteredEnumName "TTLV")).
Proof.
  intros Htc Hr. rewrite initRegistry_eq in Hr by done. injection Hr as <-.
  apply unregistered_structure; [by apply theRegistry_RegistryLaws|by apply no_TTLV_tag].
Qed.

Lemma XML_unregistered_Structure_witness :
  ∃ toks,
    xmlEncode (TTLV_MarshalXML (@theRegistry asciiCaser) (itemBlock (IStructure 0x54abcd [IPrim 0x420001 (PBoolean true)])))
      newXmlEncoder = Ok (mkXmlEncoder [] (XStart "TTLV" [] :: toks)) ∧
    ∀ rest, TTLV_UnmarshalXML (@theRegistry asciiCaser) "TTLV" [] (toks ++ rest) =
      Err (XTag (PErrUnregisteredEnumName "TTLV")).
Proof.
  assert (titleCaserOk asciiCaser) as Htc by (intros w _; reflexivity).
  apply (XML_unregistered_Structure asciiCaser theRegistry 0x54abcd [IPrim 0x420001 (PBoolean true)] Htc).
  - by apply initRegistry_eq.
  - repeat first [constructor | by vm_compute].
  - intros Hx. vm_compute in Hx. discriminate.
  - by cbn.
  - apply Nat.ltb_lt. reflexivity.
Defined.
