(* ===== verification/Specs.v ===== *)
(** The specifications that cmd/kmipgen reads: src/kmip14/kmip_1_4.json and
    src/kmip20/kmip_2_0_additions.json, as JSON values. *)
From Stdlib Require Import ZArith String.
From stdpp Require Import base list strings numbers.
From S2P Require Import Prelude Json.
Local Open Scope Z_scope.
Local Open Scope string_scope.

Local Abbreviation S s := (JString s).
Local Abbreviation N z := (JNumber (mkDecimal false z 0)).

Definition kmip_1_4_enums : json := JArray [
  JObject [
    ("name", S "Credential Type");
    ("comment", S "9.1.3.2.1 Table 289");
    ("values", JObject [
      ("Attestation", N 3); ("Device", N 2); ("Username and Password", N 1)]);
    ("tags", JArray [S "Credential Type"])];
  JObject [
    ("name", S "Key Compression Type");
    ("comment", S "9.1.3.2.2 Table 290");
    ("values", JObject [
      ("EC Public Key Type Uncompressed", N 1); ("EC Public Key Type X9.62 Compressed Char2", N 3);
      ("EC Public Key Type X9.62 Compressed Prime", N 2); ("EC Public Key Type X9.62 Hybrid", N 4)]);
    ("tags", JArray [S "Key Compression Type"])];
  JObject [
    ("name", S "Key Format Type");
    ("comment", S "9.1.3.2.3 Table 291");
    ("values", JObject [
      ("ECPrivateKey", N 6); ("Opaque", N 2); ("PKCS#1", N 3); ("PKCS#12", N 22); ("PKCS#8", N 4);
      ("Raw", N 1); ("Transparent DH Private Key", N 12); ("Transparent DH Public Key", N 13);
      ("Transparent DSA Private Key", N 8); ("Transparent DSA Public Key", N 9);
      ("Transparent EC Private Key", N 20); ("Transparent EC Public Key", N 21);
      ("Transparent ECDH Private Key", N 16); ("Transparent ECDH Public Key", N 17);
      ("Transparent ECDSA Private Key", N 14); ("Transparent ECDSA Public Key", N 15);
      ("Transparent ECMQV Private Key", N 18); ("Transparent ECMQV Public Key", N 19);
      ("Transparent RSA Private Key", N 10); ("Transparent RSA Public Key", N 11);
      ("Transparent Symmetric Key", N 7); ("X.509", N 5)]);
    ("tags", JArray [S "Key Format Type"])];
  JObject [
    ("name", S "Wrapping Method");
    ("comment", S "9.1.3.2.4 Table 292");
    ("values", JObject [
      ("Encrypt", N 1); ("Encrypt then MAC/sign", N 3); ("MAC/sign", N 2);
      ("MAC/sign then encrypt", N 4); ("TR-31", N 5)]);
    ("tags", JArray [S "Wrapping Method"])];
  JObject [
    ("name", S "Recommended Curve");
    ("comment", S "9.1.3.2.5 Table 293");
    ("values", JObject [
      ("ANSIX9C2PNB163V1", N 39); ("ANSIX9C2PNB163V2", N 40); ("ANSIX9C2PNB163V3", N 41);
      ("ANSIX9C2PNB176V1", N 42); ("ANSIX9C2PNB208W1", N 46); ("ANSIX9C2PNB272W1", N 50);
      ("ANSIX9C2PNB304W1", N 51); ("ANSIX9C2PNB368W1", N 53); ("ANSIX9C2TNB191V1", N 43);
      ("ANSIX9C2TNB191V2", N 44); ("ANSIX9C2TNB191V3", N 45); ("ANSIX9C2TNB239V1", N 47);
      ("ANSIX9C2TNB239V2", N 48); ("ANSIX9C2TNB239V3", N 49); ("ANSIX9C2TNB359V1", N 52);
      ("ANSIX9C2TNB431R1", N 54); ("ANSIX9P192V2", N 34); ("ANSIX9P192V3", N 35);
      ("ANSIX9P239V1", N 36); ("ANSIX9P239V2", N 37); ("ANSIX9P239V3", N 38); ("B-163", N 3);
      ("B-233", N 6); ("B-283", N 9); ("B-409", N 12); ("B-571", N 15); ("BRAINPOOLP160R1", N 55);
      ("BRAINPOOLP160T1", N 56); ("BRAINPOOLP192R1", N 57); ("BRAINPOOLP192T1", N 58);
      ("BRAINPOOLP224R1", N 59); ("BRAINPOOLP224T1", N 60); ("BRAINPOOLP256R1", N 61);
      ("BRAINPOOLP256T1", N 62); ("BRAINPOOLP320R1", N 63); ("BRAINPOOLP320T1", N 64);
      ("BRAINPOOLP384R1", N 65); ("BRAINPOOLP384T1", N 66); ("BRAINPOOLP512R1", N 67);
      ("BRAINPOOLP512T1", N 68); ("K-163", N 2); ("K-233", N 5); ("K-283", N 8); ("K-409", N 11);
      ("K-571", N 14); ("P-192", N 1); ("P-224", N 4); ("P-256", N 7); ("P-384", N 10); ("P-521", N 13);
      ("SECP112R1", N 16); ("SECP112R2", N 17); ("SECP128R1", N 18); ("SECP128R2", N 19);
      ("SECP160K1", N 20); ("SECP160R1", N 21); ("SECP160R2", N 22); ("SECP192K1", N 23);
      ("SECP224K1", N 24); ("SECP256K1", N 25); ("SECT113R1", N 26); ("SECT113R2", N 27);
      ("SECT131R1", N 28); ("SECT131R2", N 29); ("SECT163R1", N 30); ("SECT193R1", N 31);
      ("SECT193R2", N 32); ("SECT239K1", N 33)]);
    ("tags", JArray [S "Recommended Curve"])];
  JObject [
    ("name", S "Certificate Type");
    ("comment", S "9.1.3.2.6 Table 294");
    ("values", JObject [
      ("PGP", N 2); ("X.509", N 1)]);
    ("tags", JArray [S "Certificate Type"])];
  JObject [
    ("name", S "Digital Signature Algorithm");
    ("comment", S "9.1.3.2.7 Table 295");
    ("values", JObject [
      ("DSA with SHA-1", N 9); ("DSA with SHA224", N 10); ("DSA with SHA256", N 11);
      ("ECDSA with SHA-1", N 12); ("ECDSA with SHA224", N 13); ("ECDSA with SHA256", N 14);
      ("ECDSA with SHA384", N 15); ("ECDSA with SHA512", N 16); ("MD2 with RSA Encryption", N 1);
      ("MD5 with RSA Encryption", N 2); ("RSASSA-PSS", N 8); ("SHA-1 with RSA Encryption", N 3);
      ("SHA-224 with RSA Encryption", N 4); ("SHA-256 with RSA Encryption", N 5);
      ("SHA-384 with RSA Encryption", N 6); ("SHA-512 with RSA Encryption", N 7);
      ("SHA3-256 with RSA Encryption", N 17); ("SHA3-384 with RSA Encryption", N 18);
      ("SHA3-512 with RSA Encryption", N 19)]);
    ("tags", JArray [S "Digital Signature Algorithm"])];
  JObject [
    ("name", S "Split Key Method");
    ("comment", S "9.1.3.2.8 Table 296");
    ("values", JObject [
      ("Polynomial Sharing GF (2^16)", N 2); ("Polynomial Sharing GF (2^8)", N 4);
      ("Polynomial Sharing Prime Field", N 3); ("XOR", N 1)]);
    ("tags", JArray [S "Split Key Method"])];
  JObject [
    ("name", S "Secret Data Type");
    ("comment", S "9.1.3.2.9 Table 9");
    ("values", JObject [
      ("Password", N 1); ("Seed", N 2)]);
    ("tags", JArray [S "Secret Data Type"])];
  JObject [
    ("name", S "Opaque Data Type");
    ("comment", S "9.1.3.2.10 Table 298");
    ("values", JObject [
]);
    ("tags", JArray [S "Opaque Data Type"])];
  JObject [
    ("name", S "Name Type");
    ("comment", S "9.1.3.2.11 Table 299");
    ("values", JObject [
      ("URI", N 2); ("Uninterpreted Text String", N 1)]);
    ("tags", JArray [S "Name Type"])];
  JObject [
    ("name", S "Object Type");
    ("comment", S "9.1.3.2.12 Table 300");
    ("values", JObject [
      ("Certificate", N 1); ("Opaque Object", N 8); ("PGP Key", N 9); ("Private Key", N 4);
      ("Public Key", N 3); ("Secret Data", N 7); ("Split Key", N 5); ("Symmetric Key", N 2);
      ("Template", N 6)]);
    ("tags", JArray [S "Object Type"])];
  JObject [
    ("name", S "Cryptographic Algorithm");
    ("comment", S "9.1.3.2.13 Table 301");
    ("values", JObject [
      ("3DES", N 2); ("AES", N 3); ("Blowfish", N 16); ("CAST5", N 18); ("Camellia", N 17);
      ("ChaCha20", N 28); ("ChaCha20Poly1305", N 30); ("DES", N 1); ("DH", N 13); ("DSA", N 5);
      ("EC", N 26); ("ECDH", N 14); ("ECDSA", N 6); ("ECMQV", N 15); ("HMAC-MD5", N 12);
      ("HMAC-SHA1", N 7); ("HMAC-SHA224", N 8); ("HMAC-SHA256", N 9); ("HMAC-SHA3-224", N 35);
      ("HMAC-SHA3-256", N 36); ("HMAC-SHA3-384", N 37); ("HMAC-SHA3-512", N 38); ("HMAC-SHA384", N 10);
      ("HMAC-SHA512", N 11); ("IDEA", N 19); ("MARS", N 20); ("One Time Pad", N 27); ("Poly1305", N 29);
      ("RC2", N 21); ("RC4", N 22); ("RC5", N 23); ("RSA", N 4); ("SHA3-224", N 31); ("SHA3-256", N 32);
      ("SHA3-384", N 33); ("SHA3-512", N 34); ("SHAKE-128", N 39); ("SHAKE-256", N 40);
      ("SKIPJACK", N 24); ("Twofish", N 25)]);
    ("tags", JArray [S "Cryptographic Algorithm"])];
  JObject [
    ("name", S "Block Cipher Mode");
    ("comment", S "9.1.3.2.14 Table 302");
    ("values", JObject [
      ("AEAD", N 18); ("AESKeyWrapPadding", N 12); ("CBC", N 1); ("CBC-MAC", N 10); ("CCM", N 8);
      ("CFB", N 4); ("CMAC", N 7); ("CTR", N 6); ("ECB", N 2); ("GCM", N 9); ("NISTKeyWrap", N 13);
      ("OFB", N 5); ("PCBC", N 3); ("X9.102 AESKW", N 14); ("X9.102 AKW1", N 16); ("X9.102 AKW2", N 17);
      ("X9.102 TDKW", N 15); ("XTS", N 11)]);
    ("tags", JArray [S "Block Cipher Mode"])];
  JObject [
    ("name", S "Padding Method");
    ("comment", S "9.1.3.2.15 Table 303");
    ("values", JObject [
      ("ANSI X9.23", N 6); ("ISO 10126", N 7); ("None", N 1); ("OAEP", N 2); ("PKCS1 v1.5", N 8);
      ("PKCS5", N 3); ("PSS", N 10); ("SSL3", N 4); ("X9.31", N 9); ("Zeros", N 5)]);
    ("tags", JArray [S "Padding Method"])];
  JObject [
    ("name", S "Hashing Algorithm");
    ("comment", S "9.1.3.2.16 Table 304");
    ("values", JObject [
      ("MD2", N 1); ("MD4", N 2); ("MD5", N 3); ("RIPEMD-160", N 9); ("SHA-1", N 4); ("SHA-224", N 5);
      ("SHA-256", N 6); ("SHA-3-224", N 14); ("SHA-3-256", N 15); ("SHA-3-384", N 16);
      ("SHA-3-512", N 17); ("SHA-384", N 7); ("SHA-512", N 8); ("SHA-512/224", N 12);
      ("SHA-512/256", N 13); ("Tiger", N 10); ("Whirlpool", N 11)]);
    ("tags", JArray [S "Hashing Algorithm"; S "Mask Generator Hashing Algorithm"])];
  JObject [
    ("name", S "Key Role Type");
    ("comment", S "9.1.3.2.17 Table 305");
    ("values", JObject [
      ("BDK", N 1); ("CVK", N 2); ("DEK", N 3); ("DUKPT", N 22); ("IV", N 23); ("KEK", N 11);
      ("MAC16609", N 12); ("MAC97971", N 13); ("MAC97972", N 14); ("MAC97973", N 15);
      ("MAC97974", N 16); ("MAC97975", N 17); ("MKAC", N 4); ("MKCP", N 9); ("MKDAC", N 7);
      ("MKDN", N 8); ("MKOTH", N 10); ("MKSMC", N 5); ("MKSMI", N 6); ("PVKIBM", N 19);
      ("PVKOTH", N 21); ("PVKPVV", N 20); ("TRKBK", N 24); ("ZPK", N 18)]);
    ("tags", JArray [S "Key Role Type"])];
  JObject [
    ("name", S "State");
    ("comment", S "9.1.3.2.18 Table 306");
    ("values", JObject [
      ("Active", N 2); ("Compromised", N 4); ("Deactivated", N 3); ("Destroyed", N 5);
      ("Destroyed Compromised", N 6); ("Pre-Active", N 1)]);
    ("tags", JArray [S "State"])];
  JObject [
    ("name", S "Revocation Reason Code");
    ("comment", S "9.1.3.2.19 Table 307");
    ("values", JObject [
      ("Affiliation Changed", N 4); ("CA Compromise", N 3); ("Cessation of Operation", N 6);
      ("Key Compromise", N 2); ("Privilege Withdrawn", N 7); ("Superseded", N 5); ("Unspecified", N 1)]);
    ("tags", JArray [S "Revocation Reason Code"])];
  JObject [
    ("name", S "Link Type");
    ("comment", S "9.1.3.2.20 Table 308");
    ("values", JObject [
      ("Certificate Link", N 257); ("Child Link", N 265); ("Derivation Base Object Link", N 260);
      ("Derived Key Link", N 261); ("Next Link", N 267); ("PKCS#12 Certificate Link", N 268);
      ("PKCS#12 Password Link", N 269); ("Parent Link", N 264); ("Previous Link", N 266);
      ("Private Key Link", N 259); ("Public Key Link", N 258); ("Replaced Object Link", N 263);
      ("Replacement Object Link", N 262)]);
    ("tags", JArray [S "Link Type"])];
  JObject [
    ("name", S "Derivation Method");
    ("comment", S "9.1.3.2.21 Table 309");
    ("values", JObject [
      ("Asymmetric Key", N 8); ("ENCRYPT", N 4); ("HASH", N 2); ("HMAC", N 3);
      ("NIST800 - 108 - C", N 5); ("NIST800 - 108 - DPI", N 7); ("NIST800 - 108 - F", N 6);
      ("PBKDF2", N 1)]);
    ("tags", JArray [S "Derivation Method"])];
  JObject [
    ("name", S "Certificate Request Type");
    ("comment", S "9.1.3.2.22 Table 310");
    ("values", JObject [
      ("CRMF", N 1); ("PEM", N 3); ("PGP", N 4); ("PKCS#10", N 2)]);
    ("tags", JArray [S "Certificate Request Type"])];
  JObject [
    ("name", S "Validity Indicator");
    ("comment", S "9.1.3.2.23 Table 311");
    ("values", JObject [
      ("Invalid", N 2); ("Unknown", N 3); ("Valid", N 1)]);
    ("tags", JArray [S "Validity Indicator"])];
  JObject [
    ("name", S "Query Function");
    ("comment", S "9.1.3.2.24 Table 312");
    ("values", JObject [
      ("Query Application Namespaces", N 4); ("Query Attestation Types", N 7);
      ("Query Capabilities", N 11); ("Query Client Registration Methods", N 12);
      ("Query Extension List", N 5); ("Query Extension Map", N 6); ("Query Objects", N 2);
      ("Query Operations", N 1); ("Query Profiles", N 10); ("Query RNGs", N 8);
      ("Query Server Information", N 3); ("Query Validations", N 9)]);
    ("tags", JArray [S "Query Function"])];
  JObject [
    ("name", S "Cancellation Result");
    ("comment", S "9.1.3.2.25 Table 313");
    ("values", JObject [
      ("Canceled", N 1); ("Completed", N 3); ("Failed", N 4); ("Unable to Cancel", N 2);
      ("Unavailable", N 5)]);
    ("tags", JArray [S "Cancellation Result"])];
  JObject [
    ("name", S "Put Function");
    ("comment", S "9.1.3.2.26 Table 314");
    ("values", JObject [
      ("New", N 1); ("Replace", N 2)]);
    ("tags", JArray [S "Put Function"])];
  JObject [
    ("name", S "Operation");
    ("comment", S "9.1.3.2.27 Table 315");
    ("values", JObject [
      ("Activate", N 18); ("Add Attribute", N 13); ("Archive", N 21); ("Cancel", N 25);
      ("Certify", N 6); ("Check", N 9); ("Create", N 1); ("Create Key Pair", N 2);
      ("Create Split Key", N 40); ("Decrypt", N 32); ("Delete Attribute", N 15); ("Derive Key", N 5);
      ("Destroy", N 20); ("Discover Versions", N 30); ("Encrypt", N 31); ("Export", N 43);
      ("Get", N 10); ("Get Attribute List", N 12); ("Get Attributes", N 11);
      ("Get Usage Allocation", N 17); ("Hash", N 39); ("Import", N 42); ("Join Split Key", N 41);
      ("Locate", N 8); ("MAC", N 35); ("MAC Verify", N 36); ("Modify Attribute", N 14);
      ("Notify", N 27); ("Obtain Lease", N 16); ("Poll", N 26); ("Put", N 28); ("Query", N 24);
      ("RNG Retrieve", N 37); ("RNG Seed", N 38); ("Re-certify", N 7); ("Re-key", N 4);
      ("Re-key Key Pair", N 29); ("Recover", N 22); ("Register", N 3); ("Revoke", N 19); ("Sign", N 33);
      ("Signature Verify", N 34); ("Validate", N 23)]);
    ("tags", JArray [S "Operation"])];
  JObject [
    ("name", S "Result Status");
    ("comment", S "9.1.3.2.28 Table 316");
    ("values", JObject [
      ("Operation Failed", N 1); ("Operation Pending", N 2); ("Operation Undone", N 3); ("Success", N 0)]);
    ("tags", JArray [S "Result Status"])];
  JObject [
    ("name", S "Result Reason");
    ("comment", S "9.1.3.2.29 Table 317");
    ("values", JObject [
      ("Application Namespace Not Supported", N 15); ("Attestation Failed", N 21);
      ("Attestation Required", N 20); ("Authentication Not Successful", N 3);
      ("Cryptographic Failure", N 10); ("Encoding Option Error", N 18); ("Feature Not Supported", N 8);
      ("General Failure", N 256); ("Illegal Operation", N 11); ("Index Out of Bounds", N 14);
      ("Invalid Field", N 7); ("Invalid Message", N 4); ("Item Not Found", N 1);
      ("Key Compression Type Not Supported", N 17); ("Key Format Type Not Supported", N 16);
      ("Key Value Not Present", N 19); ("Missing Data", N 6); ("Not Extractable", N 23);
      ("Object Already Exists", N 24); ("Object archived", N 13);
      ("Operation Canceled By Requester", N 9); ("Operation Not Supported", N 5);
      ("Permission Denied", N 12); ("Response Too Large", N 2); ("Sensitive", N 22)]);
    ("tags", JArray [S "Result Reason"])];
  JObject [
    ("name", S "Batch Error Continuation Option");
    ("comment", S "9.1.3.2.30 Table 318");
    ("values", JObject [
      ("Continue", N 1); ("Stop", N 2); ("Undo", N 3)]);
    ("tags", JArray [S "Batch Error Continuation Option"])];
  JObject [
    ("name", S "Usage Limits Unit");
    ("comment", S "9.1.3.2.31 Table 319");
    ("values", JObject [
      ("Byte", N 1); ("Object", N 2)]);
    ("tags", JArray [S "Usage Limits Unit"])];
  JObject [
    ("name", S "Encoding Option");
    ("comment", S "9.1.3.2.32 Table 320");
    ("values", JObject [
      ("No Encoding", N 1); ("TTLV Encoding", N 2)]);
    ("tags", JArray [S "Encoding Option"])];
  JObject [
    ("name", S "Object Group Member");
    ("comment", S "9.1.3.2.33 Table 321");
    ("values", JObject [
      ("Group Member Default", N 2); ("Group Member Fresh", N 1)]);
    ("tags", JArray [S "Object Group Member"])];
  JObject [
    ("name", S "Alternative Name Type");
    ("comment", S "9.1.3.2.34 Table 322");
    ("values", JObject [
      ("DNS Name", N 5); ("Email Address", N 4); ("IP Address", N 7); ("Object Serial Number", N 3);
      ("URI", N 2); ("Uninterpreted Text String", N 1); ("X.500 Distinguished Name", N 6)]);
    ("tags", JArray [S "Alternative Name Type"])];
  JObject [
    ("name", S "Key Value Location Type");
    ("comment", S "9.1.3.2.35 Table 323");
    ("values", JObject [
      ("URI", N 2); ("Uninterpreted Text String", N 1)]);
    ("tags", JArray [S "Key Value Location Type"])];
  JObject [
    ("name", S "Attestation Type");
    ("comment", S "9.1.3.2.36 Table 324");
    ("values", JObject [
      ("SAML Assertion", N 3); ("TCG Integrity Report", N 2); ("TPM Quote", N 1)]);
    ("tags", JArray [S "Attestation Type"])];
  JObject [
    ("name", S "RNG Algorithm");
    ("comment", S "9.1.3.2.37 Table ");
    ("values", JObject [
      ("ANSI X9.31", N 5); ("ANSI X9.62", N 6); ("DRBG", N 3); ("FIPS 186-2", N 2); ("NRBG", N 4);
      ("Unspecified", N 1)]);
    ("tags", JArray [S "RNG Algorithm"])];
  JObject [
    ("name", S "DRBG Algorithm");
    ("comment", S "9.1.3.2.38");
    ("values", JObject [
      ("CTR", N 5); ("Dual - EC", N 2); ("HMAC", N 4); ("Hash", N 3); ("Unspecified", N 1)]);
    ("tags", JArray [S "DRBG Algorithm"])];
  JObject [
    ("name", S "FIPS186 Variation");
    ("comment", S "9.1.3.2.39");
    ("values", JObject [
      ("GP x-Change Notice", N 3); ("GP x-Original", N 2); ("Unspecified", N 1);
      ("k-Change Notice", N 7); ("k-Original", N 6); ("x-Change Notice", N 5); ("x-Original", N 4)]);
    ("tags", JArray [S "FIPS186 Variation"])];
  JObject [
    ("name", S "Validation Authority Type");
    ("comment", S "9.1.3.2.40");
    ("values", JObject [
      ("Common Criteria", N 3); ("NIST CMVP", N 2); ("Unspecified", N 1)]);
    ("tags", JArray [S "Validation Authority Type"])];
  JObject [
    ("name", S "Validation Type");
    ("comment", S "9.1.3.2.41");
    ("values", JObject [
      ("Firmware", N 4); ("Hardware", N 2); ("Hybrid", N 5); ("Software", N 3); ("Unspecified", N 1)]);
    ("tags", JArray [S "Validation Type"])];
  JObject [
    ("name", S "Profile Name");
    ("comment", S "9.1.3.2.42");
    ("values", JObject [
      ("Advanced Cryptographic Client KMIP v1.2", N 27);
      ("Advanced Cryptographic Client KMIP v1.3", N 99);
      ("Advanced Cryptographic Client KMIP v1.4", N 135);
      ("Advanced Cryptographic Server KMIP v1.2", N 28);
      ("Advanced Cryptographic Server KMIP v1.3", N 100);
      ("Advanced Cryptographic Server KMIP v1.4", N 136);
      ("Advanced Symmetric Key Foundry Client KMIP v1.0", N 33);
      ("Advanced Symmetric Key Foundry Client KMIP v1.1", N 36);
      ("Advanced Symmetric Key Foundry Client KMIP v1.2", N 39);
      ("Advanced Symmetric Key Foundry Client KMIP v1.3", N 105);
      ("Advanced Symmetric Key Foundry Client KMIP v1.4", N 141);
      ("Asymmetric Key Lifecycle Client KMIP v1.0", N 19);
      ("Asymmetric Key Lifecycle Client KMIP v1.1", N 20);
      ("Asymmetric Key Lifecycle Client KMIP v1.2", N 21);
      ("Asymmetric Key Lifecycle Client KMIP v1.3", N 95);
      ("Asymmetric Key Lifecycle Client KMIP v1.4", N 131);
      ("Asymmetric Key Lifecycle Server KMIP v1.0", N 22);
      ("Asymmetric Key Lifecycle Server KMIP v1.1", N 23);
      ("Asymmetric Key Lifecycle Server KMIP v1.2", N 24);
      ("Asymmetric Key Lifecycle Server KMIP v1.3", N 96);
      ("Asymmetric Key Lifecycle Server KMIP v1.4", N 132); ("Baseline Client Basic KMIP v1.2", N 3);
      ("Baseline Client Basic KMIP v1.3", N 87); ("Baseline Client Basic KMIP v1.4", N 123);
      ("Baseline Client TLS v1.2 KMIP v1.2", N 4); ("Baseline Client TLS v1.2 KMIP v1.3", N 88);
      ("Baseline Client TLS v1.2 KMIP v1.4", N 124); ("Baseline Server Basic KMIP v1.2", N 1);
      ("Baseline Server Basic KMIP v1.3", N 85); ("Baseline Server Basic KMIP v1.4", N 121);
      ("Baseline Server TLS v1.2 KMIP v1.2", N 2); ("Baseline Server TLS v1.2 KMIP v1.3", N 86);
      ("Baseline Server TLS v1.2 KMIP v1.4", N 122); ("Basic Cryptographic Client KMIP v1.2", N 25);
      ("Basic Cryptographic Client KMIP v1.3", N 97); ("Basic Cryptographic Client KMIP v1.4", N 133);
      ("Basic Cryptographic Server KMIP v1.2", N 26); ("Basic Cryptographic Server KMIP v1.3", N 98);
      ("Basic Cryptographic Server KMIP v1.4", N 134);
      ("Basic Symmetric Key Foundry Client KMIP v1.0", N 31);
      ("Basic Symmetric Key Foundry Client KMIP v1.1", N 34);
      ("Basic Symmetric Key Foundry Client KMIP v1.2", N 37);
      ("Basic Symmetric Key Foundry Client KMIP v1.3", N 103);
      ("Basic Symmetric Key Foundry Client KMIP v1.4", N 139); ("Complete Server Basic KMIP v1.2", N 5);
      ("Complete Server Basic KMIP v1.3", N 89); ("Complete Server Basic KMIP v1.4", N 125);
      ("Complete Server TLS v1.2 KMIP v1.2", N 6); ("Complete Server TLS v1.2 KMIP v1.3", N 90);
      ("Complete Server TLS v1.2 KMIP v1.4", N 126); ("HTTPS Client KMIP v1.0", N 67);
      ("HTTPS Client KMIP v1.1", N 68); ("HTTPS Client KMIP v1.2", N 69);
      ("HTTPS Client KMIP v1.3", N 115); ("HTTPS Client KMIP v1.4", N 151);
      ("HTTPS Server KMIP v1.0", N 70); ("HTTPS Server KMIP v1.1", N 71);
      ("HTTPS Server KMIP v1.2", N 72); ("HTTPS Server KMIP v1.3", N 116);
      ("HTTPS Server KMIP v1.4", N 152); ("Intermediate Symmetric Key Foundry Client KMIP v1.0", N 32);
      ("Intermediate Symmetric Key Foundry Client KMIP v1.1", N 35);
      ("Intermediate Symmetric Key Foundry Client KMIP v1.2", N 38);
      ("Intermediate Symmetric Key Foundry Client KMIP v1.3", N 104);
      ("Intermediate Symmetric Key Foundry Client KMIP v1.4", N 140); ("JSON Client KMIP v1.0", N 73);
      ("JSON Client KMIP v1.1", N 74); ("JSON Client KMIP v1.2", N 75);
      ("JSON Client KMIP v1.3", N 117); ("JSON Client KMIP v1.4", N 153);
      ("JSON Server KMIP v1.0", N 76); ("JSON Server KMIP v1.1", N 77); ("JSON Server KMIP v1.2", N 78);
      ("JSON Server KMIP v1.3", N 118); ("JSON Server KMIP v1.4", N 154);
      ("Opaque Managed Object Store Client KMIP v1.0", N 43);
      ("Opaque Managed Object Store Client KMIP v1.1", N 44);
      ("Opaque Managed Object Store Client KMIP v1.2", N 45);
      ("Opaque Managed Object Store Client KMIP v1.3", N 107);
      ("Opaque Managed Object Store Client KMIP v1.4", N 143);
      ("Opaque Managed Object Store Server KMIP v1.0", N 46);
      ("Opaque Managed Object Store Server KMIP v1.1", N 47);
      ("Opaque Managed Object Store Server KMIP v1.2", N 48);
      ("Opaque Managed Object Store Server KMIP v1.3", N 108);
      ("Opaque Managed Object Store Server KMIP v1.4", N 144);
      ("RNG Cryptographic Client KMIP v1.2", N 29); ("RNG Cryptographic Client KMIP v1.3", N 101);
      ("RNG Cryptographic Client KMIP v1.4", N 137); ("RNG Cryptographic Server KMIP v1.2", N 30);
      ("RNG Cryptographic Server KMIP v1.3", N 102); ("RNG Cryptographic Server KMIP v1.4", N 138);
      ("Storage Array with Self Encrypting Drive Client KMIP v1.0", N 61);
      ("Storage Array with Self Encrypting Drive Client KMIP v1.1", N 62);
      ("Storage Array with Self Encrypting Drive Client KMIP v1.2", N 63);
      ("Storage Array with Self Encrypting Drive Client KMIP v1.3", N 113);
      ("Storage Array with Self Encrypting Drive Client KMIP v1.4", N 149);
      ("Storage Array with Self Encrypting Drive Server KMIP v1.0", N 64);
      ("Storage Array with Self Encrypting Drive Server KMIP v1.1", N 65);
      ("Storage Array with Self Encrypting Drive Server KMIP v1.2", N 66);
      ("Storage Array with Self Encrypting Drive Server KMIP v1.3", N 114);
      ("Storage Array with Self Encrypting Drive Server KMIP v1.4", N 150);
      ("Suite B minLOS_128 Client KMIP v1.0", N 49); ("Suite B minLOS_128 Client KMIP v1.1", N 50);
      ("Suite B minLOS_128 Client KMIP v1.2", N 51); ("Suite B minLOS_128 Client KMIP v1.3", N 109);
      ("Suite B minLOS_128 Client KMIP v1.4", N 145); ("Suite B minLOS_128 Server KMIP v1.0", N 52);
      ("Suite B minLOS_128 Server KMIP v1.1", N 53); ("Suite B minLOS_128 Server KMIP v1.2", N 54);
      ("Suite B minLOS_128 Server KMIP v1.3", N 110); ("Suite B minLOS_128 Server KMIP v1.4", N 146);
      ("Suite B minLOS_192 Client KMIP v1.0", N 55); ("Suite B minLOS_192 Client KMIP v1.1", N 56);
      ("Suite B minLOS_192 Client KMIP v1.2", N 57); ("Suite B minLOS_192 Client KMIP v1.3", N 111);
      ("Suite B minLOS_192 Client KMIP v1.4", N 147); ("Suite B minLOS_192 Server KMIP v1.0", N 58);
      ("Suite B minLOS_192 Server KMIP v1.1", N 59); ("Suite B minLOS_192 Server KMIP v1.2", N 60);
      ("Suite B minLOS_192 Server KMIP v1.3", N 112); ("Suite B minLOS_192 Server KMIP v1.4", N 148);
      ("Symmetric Key Foundry Server KMIP v1.0", N 40);
      ("Symmetric Key Foundry Server KMIP v1.1", N 41);
      ("Symmetric Key Foundry Server KMIP v1.2", N 42);
      ("Symmetric Key Foundry Server KMIP v1.3", N 106);
      ("Symmetric Key Foundry Server KMIP v1.4", N 142);
      ("Symmetric Key Lifecycle Client KMIP v1.0", N 13);
      ("Symmetric Key Lifecycle Client KMIP v1.1", N 14);
      ("Symmetric Key Lifecycle Client KMIP v1.2", N 15);
      ("Symmetric Key Lifecycle Client KMIP v1.3", N 93);
      ("Symmetric Key Lifecycle Client KMIP v1.4", N 129);
      ("Symmetric Key Lifecycle Server KMIP v1.0", N 16);
      ("Symmetric Key Lifecycle Server KMIP v1.1", N 17);
      ("Symmetric Key Lifecycle Server KMIP v1.2", N 18);
      ("Symmetric Key Lifecycle Server KMIP v1.3", N 94);
      ("Symmetric Key Lifecycle Server KMIP v1.4", N 130); ("Tape Library Client KMIP v1.0", N 7);
      ("Tape Library Client KMIP v1.1", N 8); ("Tape Library Client KMIP v1.2", N 9);
      ("Tape Library Client KMIP v1.3", N 91); ("Tape Library Client KMIP v1.4", N 127);
      ("Tape Library Server KMIP v1.0", N 10); ("Tape Library Server KMIP v1.1", N 11);
      ("Tape Library Server KMIP v1.2", N 12); ("Tape Library Server KMIP v1.3", N 92);
      ("Tape Library Server KMIP v1.4", N 128); ("XML Client KMIP v1.0", N 79);
      ("XML Client KMIP v1.1", N 80); ("XML Client KMIP v1.2", N 81); ("XML Client KMIP v1.3", N 119);
      ("XML Client KMIP v1.4", N 155); ("XML Server KMIP v1.0", N 82); ("XML Server KMIP v1.1", N 83);
      ("XML Server KMIP v1.2", N 84); ("XML Server KMIP v1.3", N 120); ("XML Server KMIP v1.4", N 156)]);
    ("tags", JArray [S "Profile Name"])];
  JObject [
    ("name", S "Unwrap Mode");
    ("comment", S "9.1.3.2.43");
    ("values", JObject [
      ("Not Processed", N 3); ("Processed", N 2); ("Unspecified", N 1)]);
    ("tags", JArray [S "Unwrap Mode"])];
  JObject [
    ("name", S "Destroy Action");
    ("comment", S "9.1.3.2.44");
    ("values", JObject [
      ("Deleted", N 6); ("Key Material Deleted", N 2); ("Key Material Shredded", N 3);
      ("Meta Data Deleted", N 4); ("Meta Data Shredded", N 5); ("Shredded", N 7); ("Unspecified", N 1)]);
    ("tags", JArray [S "Destroy Action"])];
  JObject [
    ("name", S "Shredding Algorithm");
    ("comment", S "9.1.3.2.45");
    ("values", JObject [
      ("Cryptographic", N 2); ("Unspecified", N 1); ("Unsupported", N 3)]);
    ("tags", JArray [S "Shredding Algorithm"])];
  JObject [
    ("name", S "RNG Mode");
    ("comment", S "9.1.3.2.46");
    ("values", JObject [
      ("Non-Shared Instantiation", N 3); ("Shared Instantiation", N 2); ("Unspecified", N 1)]);
    ("tags", JArray [S "RNG Mode"])];
  JObject [
    ("name", S "Client Registration Method");
    ("comment", S "9.1.3.2.47");
    ("values", JObject [
      ("Client Generated", N 4); ("Client Registered", N 5); ("Server On-Demand", N 3);
      ("Server Pre-Generated", N 2); ("Unspecified", N 1)]);
    ("tags", JArray [S "Client Registration Method"])];
  JObject [
    ("name", S "Key Wrap Type");
    ("comment", S "9.1.3.2.48");
    ("values", JObject [
      ("As Registered", N 2); ("Not Wrapped", N 1)]);
    ("tags", JArray [S "Key Wrap Type"])];
  JObject [
    ("name", S "Mask Generator");
    ("comment", S "9.1.3.2.49");
    ("values", JObject [
      ("MGF1", N 1)]);
    ("tags", JArray [S "Mask Generator"])]].

Definition kmip_1_4_masks : json := JArray [
  JObject [
    ("name", S "Cryptographic Usage Mask");
    ("comment", S "9.1.3.3.1");
    ("values", JObject [
      ("CRL Sign", N 8192); ("Certificate Sign", N 4096); ("Content Commitment", N 1024);
      ("Decrypt", N 8); ("Derive Key", N 512); ("Encrypt", N 4); ("Export", N 64);
      ("Generate Cryptogram", N 16384); ("Key Agreement", N 2048); ("MAC Generate", N 128);
      ("MAC Verify", N 256); ("Sign", N 1); ("Translate Decrypt", N 131072);
      ("Translate Encrypt", N 65536); ("Translate Unwrap", N 524288); ("Translate Wrap", N 262144);
      ("Unwrap Key", N 32); ("Validate Cryptogram", N 32768); ("Verify", N 2); ("Wrap Key", N 16)]);
    ("tags", JArray [S "Cryptographic Usage Mask"])];
  JObject [
    ("name", S "Storage Status Mask");
    ("comment", S "9.1.3.3.2");
    ("values", JObject [
      ("Archival storage", N 2); ("On-line storage", N 1)]);
    ("tags", JArray [S "Storage Status Mask"])]].

Definition kmip_1_4_tags : json := JObject [
    ("Activation Date", S "0x420001"); ("Alternative Name", N 4325567);
    ("Alternative Name Type", N 4325569); ("Alternative Name Value", N 4325568);
    ("Always Sensitive", N 4325665); ("Application Data", N 4325378);
    ("Application Namespace", N 4325379); ("Application Specific Information", N 4325380);
    ("Archive Date", N 4325381); ("Asynchronous Capability", N 4325616);
    ("Asynchronous Correlation Value", N 4325382); ("Asynchronous Indicator", N 4325383);
    ("Attestation Assertion", N 4325580); ("Attestation Capability", N 4325617);
    ("Attestation Capable Indicator", N 4325587); ("Attestation Measurement", N 4325579);
    ("Attestation Type", N 4325575); ("Attribute", N 4325384); ("Attribute Index", N 4325385);
    ("Attribute Name", N 4325386); ("Attribute Value", N 4325387);
    ("Authenticated Encryption Additional Data", N 4325630);
    ("Authenticated Encryption Tag", N 4325631); ("Authentication", N 4325388);
    ("Batch Continue Capability", N 4325626); ("Batch Count", N 4325389);
    ("Batch Error Continuation Option", N 4325390); ("Batch Item", N 4325391);
    ("Batch Order Option", N 4325392); ("Batch Undo Capability", N 4325625);
    ("Block Cipher Mode", N 4325393); ("CRT Coefficient", N 4325415);
    ("Cancellation Result", N 4325394); ("Capability Information", N 4325623);
    ("Certificate", N 4325395); ("Certificate Identifier", N 4325396);
    ("Certificate Issuer", N 4325397); ("Certificate Issuer Alternative Name", N 4325398);
    ("Certificate Issuer C", N 4325656); ("Certificate Issuer CN", N 4325652);
    ("Certificate Issuer DC", N 4325662); ("Certificate Issuer DN Qualifier", N 4325663);
    ("Certificate Issuer Distinguished Name", N 4325399); ("Certificate Issuer Email", N 4325655);
    ("Certificate Issuer L", N 4325658); ("Certificate Issuer O", N 4325653);
    ("Certificate Issuer OU", N 4325654); ("Certificate Issuer ST", N 4325657);
    ("Certificate Issuer Serial Number", N 4325660); ("Certificate Issuer Title", N 4325661);
    ("Certificate Issuer UID", N 4325659); ("Certificate Length", N 4325549);
    ("Certificate Request", N 4325400); ("Certificate Request Type", N 4325401);
    ("Certificate Serial Number", N 4325551); ("Certificate Subject", N 4325402);
    ("Certificate Subject Alternative Name", N 4325403); ("Certificate Subject C", N 4325644);
    ("Certificate Subject CN", N 4325640); ("Certificate Subject DC", N 4325650);
    ("Certificate Subject DN Qualifier", N 4325651);
    ("Certificate Subject Distinguished Name", N 4325404); ("Certificate Subject Email", N 4325643);
    ("Certificate Subject L", N 4325646); ("Certificate Subject O", N 4325641);
    ("Certificate Subject OU", N 4325642); ("Certificate Subject ST", N 4325645);
    ("Certificate Subject Serial Number", N 4325648); ("Certificate Subject Title", N 4325649);
    ("Certificate Subject UID", N 4325647); ("Certificate Type", N 4325405);
    ("Certificate Value", N 4325406); ("Client Correlation Value", N 4325637);
    ("Client Registration Method", N 4325622); ("Comment", N 4325629);
    ("Common Template-Attribute", N 4325407); ("Compromise  Date", N 4325408);
    ("Compromise Occurrence Date", N 4325409); ("Contact Information", N 4325410);
    ("Correlation Value", N 4325590); ("Counter Length", N 4325584); ("Credential", N 4325411);
    ("Credential Type", N 4325412); ("Credential Value", N 4325413);
    ("Criticality Indicator", N 4325414); ("Cryptographic Algorithm", N 4325416);
    ("Cryptographic Domain Parameters", N 4325417); ("Cryptographic Length", N 4325418);
    ("Cryptographic Parameters", N 4325419); ("Cryptographic Usage Mask", N 4325420);
    ("Custom Attribute", N 4325421); ("D", N 4325422); ("DRBG Algorithm", N 4325595);
    ("Data", N 4325570); ("Data Length", N 4325572); ("Deactivation Date", N 4325423);
    ("Derivation Data", N 4325424); ("Derivation Method", N 4325425);
    ("Derivation Parameters", N 4325426); ("Description", N 4325628); ("Destroy Action", N 4325619);
    ("Destroy Date", N 4325427); ("Device Identifier", N 4325538); ("Device Serial Number", N 4325552);
    ("Digest", N 4325428); ("Digest Value", N 4325429); ("Digested Data", N 4325639);
    ("Digital Signature Algorithm", N 4325550); ("Encoding Option", N 4325539);
    ("Encryption Key Information", N 4325430); ("Extension Information", N 4325540);
    ("Extension Name", N 4325541); ("Extension Tag", N 4325542); ("Extension Type", N 4325543);
    ("Extractable", N 4325666); ("FIPS186 Variation", N 4325596); ("Final Indicator", N 4325592);
    ("Fixed Field Length", N 4325583); ("Fresh", N 4325544); ("G", N 4325431);
    ("Hashing Algorithm", N 4325432); ("IV Length", N 4325581); ("IV/Counter/Nonce", N 4325437);
    ("Init Indicator", N 4325591); ("Initial Counter Value", N 4325585); ("Initial Date", N 4325433);
    ("Initialization Vector", N 4325434); ("Invocation Field Length", N 4325586); ("Issuer", N 4325435);
    ("Issuer Alternative Name", N 4325553); ("Issuer Distinguished Name", N 4325554);
    ("Iteration Count", N 4325436); ("J", N 4325438); ("Key", N 4325439); ("Key Block", N 4325440);
    ("Key Compression Type", N 4325441); ("Key Format Type", N 4325442); ("Key Material", N 4325443);
    ("Key Part Identifier", N 4325444); ("Key Role Type", N 4325507); ("Key Value", N 4325445);
    ("Key Value Location", N 4325560); ("Key Value Location Type", N 4325562);
    ("Key Value Location Value", N 4325561); ("Key Value Present", N 4325563);
    ("Key Wrap Type", N 4325624); ("Key Wrapping Data", N 4325446);
    ("Key Wrapping Specification", N 4325447); ("Last Change Date", N 4325448);
    ("Lease Time", N 4325449); ("Link", N 4325450); ("Link Type", N 4325451);
    ("Linked Object Identifier", N 4325452); ("Located Items", N 4325589); ("MAC Data", N 4325574);
    ("MAC/Signature", N 4325453); ("MAC/Signature Key Information", N 4325454);
    ("Machine Identifier", N 4325545); ("Mask Generator", N 4325633);
    ("Mask Generator Hashing Algorithm", N 4325634); ("Maximum Items", N 4325455);
    ("Maximum Response Size", N 4325456); ("Media Identifier", N 4325546);
    ("Message Extension", N 4325457); ("Modulus", N 4325458); ("Name", N 4325459);
    ("Name Type", N 4325460); ("Name Value", N 4325461); ("Network Identifier", N 4325547);
    ("Never Extractable", N 4325667); ("Nonce", N 4325576); ("Nonce ID", N 4325577);
    ("Nonce Value", N 4325578); ("Object Group", N 4325462); ("Object Group Member", N 4325548);
    ("Object Type", N 4325463); ("Offset", N 4325464); ("Offset Items", N 4325588);
    ("Opaque Data Type", N 4325465); ("Opaque Data Value", N 4325466); ("Opaque Object", N 4325467);
    ("Operation", N 4325468); ("Operation Policy Name", N 4325469);
    ("Original Creation Date", N 4325564); ("P", N 4325470); ("P Source", N 4325635);
    ("PGP Key", N 4325565); ("PGP Key Version", N 4325566); ("PKCS#12 Friendly Name", N 4325627);
    ("Padding Method", N 4325471); ("Password", N 4325537); ("Prediction Resistance", N 4325597);
    ("Prime Exponent P", N 4325472); ("Prime Exponent Q", N 4325473); ("Prime Field Size", N 4325474);
    ("Private Exponent", N 4325475); ("Private Key", N 4325476);
    ("Private Key Template-Attribute", N 4325477); ("Private Key Unique Identifier", N 4325478);
    ("Process Start Date", N 4325479); ("Profile Information", N 4325611); ("Profile Name", N 4325612);
    ("Protect Stop Date", N 4325480); ("Protocol Version", N 4325481);
    ("Protocol Version Major", N 4325482); ("Protocol Version Minor", N 4325483);
    ("Public Exponent", N 4325484); ("Public Key", N 4325485);
    ("Public Key Template-Attribute", N 4325486); ("Public Key Unique Identifier", N 4325487);
    ("Put Function", N 4325488); ("Q", N 4325489); ("Q String", N 4325490); ("Qlength", N 4325491);
    ("Query Function", N 4325492); ("RNG Algorithm", N 4325594); ("RNG Mode", N 4325621);
    ("RNG Parameters", N 4325593); ("Random IV", N 4325573); ("Random Number Generator", N 4325598);
    ("Recommended Curve", N 4325493); ("Replace Existing", N 4325668);
    ("Replaced Unique Identifier", N 4325494); ("Request Header", N 4325495);
    ("Request Message", N 4325496); ("Request Payload", N 4325497); ("Response Header", N 4325498);
    ("Response Message", N 4325499); ("Response Payload", N 4325500); ("Result Message", N 4325501);
    ("Result Reason", N 4325502); ("Result Status", N 4325503); ("Revocation Message", N 4325504);
    ("Revocation Reason", N 4325505); ("Revocation Reason Code", N 4325506); ("Salt", N 4325508);
    ("Salt Length", N 4325632); ("Secret Data", N 4325509); ("Secret Data Type", N 4325510);
    ("Sensitive", N 4325664); ("Serial Number", N 4325511); ("Server Correlation Value", N 4325638);
    ("Server Information", N 4325512); ("Server Port", N 4325614); ("Server URI", N 4325613);
    ("Shredding Algorithm", N 4325620); ("Signature Data", N 4325571); ("Split Key", N 4325513);
    ("Split Key Method", N 4325514); ("Split Key Parts", N 4325515); ("Split Key Threshold", N 4325516);
    ("State", N 4325517); ("Storage Status Mask", N 4325518); ("Streaming Capability", N 4325615);
    ("Subject Alternative Name", N 4325555); ("Subject Distinguished Name", N 4325556);
    ("Symmetric Key", N 4325519); ("Tag Length", N 4325582); ("Template", N 4325520);
    ("Template-Attribute", N 4325521); ("Time Stamp", N 4325522); ("Trailer Field", N 4325636);
    ("Unique Batch Item ID", N 4325523); ("Unique Identifier", N 4325524); ("Unwrap Mode", N 4325618);
    ("Usage Limits", N 4325525); ("Usage Limits Count", N 4325526); ("Usage Limits Total", N 4325527);
    ("Usage Limits Unit", N 4325528); ("Username", N 4325529);
    ("Validation Authority Country", N 4325601); ("Validation Authority Type", N 4325600);
    ("Validation Authority URI", N 4325602); ("Validation Certificate Identifier", N 4325607);
    ("Validation Certificate URI", N 4325608); ("Validation Information", N 4325599);
    ("Validation Level", N 4325606); ("Validation Profile", N 4325610); ("Validation Type", N 4325605);
    ("Validation Vendor URI", N 4325609); ("Validation Version Major", N 4325603);
    ("Validation Version Minor", N 4325604); ("Validity Date", N 4325530);
    ("Validity Indicator", N 4325531); ("Vendor Extension", N 4325532);
    ("Vendor Identification", N 4325533); ("Wrapping Method", N 4325534); ("X", N 4325535);
    ("X.509 Certificate Identifier", N 4325557); ("X.509 Certificate Issuer", N 4325558);
    ("X.509 Certificate Subject", N 4325559); ("Y", N 4325536)].

Definition kmip_1_4 : json := JObject [("enums", kmip_1_4_enums); ("masks", kmip_1_4_masks); ("tags", kmip_1_4_tags)].

Definition kmip_2_0_additions_tags : json := JObject [
    ("Attributes", S "0x420125"); ("Common Attributes", S "0x420126");
    ("Private Key Attributes", S "0x420127"); ("Public Key Attributes", S "0x420128");
    ("Extension Enumeration", S "0x420129"); ("Extension Attribute", S "0x42012A");
    ("Extension Parent Structure Tag", S "0x42012B"); ("Extension Description", S "0x42012C");
    ("Server Name", S "0x42012D"); ("Server Serial Number", S "0x42012E");
    ("Server Version", S "0x42012F"); ("Server Load", S "0x420130"); ("Product Name", S "0x420131");
    ("Build Level", S "0x420132"); ("Build Date", S "0x420133"); ("Cluster Info", S "0x420134");
    ("Alternate Failover Endpoints", S "0x420135"); ("Short Unique Identifier", S "0x420136");
    ("Reserved", S "0x420137"); ("Tag", S "0x420138");
    ("Certificate Request Unique Identifier", S "0x420139"); ("NIST Key Type", S "0x42013A");
    ("Attribute Reference", S "0x42013B"); ("Current Attribute", S "0x42013C");
    ("New Attribute", S "0x42013D"); ("Certificate Request Value", S "0x420140");
    ("Log Message", S "0x420141"); ("Profile Version", S "0x420142");
    ("Profile Version Major", S "0x420143"); ("Profile Version Minor", S "0x420144");
    ("Protection Level", S "0x420145"); ("Protection Period", S "0x420146");
    ("Quantum Safe", S "0x420147"); ("Quantum Safe Capability", S "0x420148"); ("Ticket", S "0x420149");
    ("Ticket Type", S "0x42014A"); ("Ticket Value", S "0x42014B"); ("Request Count", S "0x42014C");
    ("Rights", S "0x42014D"); ("Objects", S "0x42014E"); ("Operations", S "0x42014F");
    ("Right", S "0x420150"); ("Endpoint Role", S "0x420151"); ("Defaults Information", S "0x420152");
    ("Object Defaults", S "0x420153"); ("Ephemeral", S "0x420154");
    ("Server Hashed Password", S "0x420155"); ("One Time Password", S "0x420156");
    ("Hashed Password", S "0x420157"); ("Adjustment Type", S "0x420158");
    ("PKCS#11 Interface", S "0x420159"); ("PKCS#11 Function", S "0x42015A");
    ("PKCS#11 Input Parameters", S "0x42015B"); ("PKCS#11 Output Parameters", S "0x42015C");
    ("PKCS#11 Return Code", S "0x42015D"); ("Protection Storage Mask", S "0x42015E");
    ("Protection Storage Masks", S "0x42015F"); ("Interop Function", S "0x420160");
    ("Interop Identifier", S "0x420161"); ("Adjustment Value", S "0x420162");
    ("Common Protection Storage Masks", S "0x420163");
    ("Private Protection Storage Masks", S "0x420164"); ("Public Protection Storage Masks", S "0x420165")].

Definition kmip_2_0_additions_enums : json := JArray [
  JObject [
    ("name", S "Credential Type");
    ("comment", S "9.1.3.2.1 Table 289");
    ("values", JObject [
      ("Username and Password", S "0x00000001"); ("Device", S "0x00000002");
      ("Attestation", S "0x00000003"); ("One Time Password", S "0x00000004");
      ("Hashed Password", S "0x00000005"); ("Ticket", S "0x00000006")]);
    ("tags", JArray [S "Credential Type"])];
  JObject [
    ("name", S "Cryptographic Algorithm");
    ("comment", S "9.1.3.2.13 Table 301");
    ("values", JObject [
      ("DES", N 1); ("3DES", N 2); ("AES", N 3); ("RSA", N 4); ("DSA", N 5); ("ECDSA", N 6);
      ("HMAC-SHA1", N 7); ("HMAC-SHA224", N 8); ("HMAC-SHA256", N 9); ("HMAC-SHA384", N 10);
      ("HMAC-SHA512", N 11); ("HMAC-MD5", N 12); ("DH", N 13); ("ECDH", N 14); ("ECMQV", N 15);
      ("Blowfish", N 16); ("Camellia", N 17); ("CAST5", N 18); ("IDEA", N 19); ("MARS", N 20);
      ("RC2", N 21); ("RC4", N 22); ("RC5", N 23); ("SKIPJACK", N 24); ("Twofish", N 25); ("EC", N 26);
      ("One Time Pad", N 27); ("ChaCha20", N 28); ("Poly1305", N 29); ("ChaCha20Poly1305", N 30);
      ("SHA3-224", N 31); ("SHA3-256", N 32); ("SHA3-384", N 33); ("SHA3-512", N 34);
      ("HMAC-SHA3-224", N 35); ("HMAC-SHA3-256", N 36); ("HMAC-SHA3-384", N 37);
      ("HMAC-SHA3-512", N 38); ("SHAKE-128", N 39); ("SHAKE-256", N 40); ("ARIA", S "0x00000029");
      ("SEED", S "0x0000002A"); ("SM2", S "0x0000002B"); ("SM3", S "0x0000002C");
      ("SM4", S "0x0000002D"); ("GOST R 34.10-2012", S "0x0000002E");
      ("GOST R 34.11-2012", S "0x0000002F"); ("GOST R 34.13-2015", S "0x00000030");
      ("GOST 28147-89", S "0x00000031"); ("XMSS", S "0x00000032"); ("SPHINCS-256", S "0x00000033");
      ("McEliece", S "0x00000034"); ("McEliece-6960119", S "0x00000035");
      ("McEliece-8192128", S "0x00000036"); ("Ed25519", S "0x00000037"); ("Ed448", S "0x00000038")]);
    ("tags", JArray [S "Cryptographic Algorithm"])];
  JObject [
    ("name", S "Derivation Method");
    ("comment", S "9.1.3.2.21 Table 309");
    ("values", JObject [
      ("PBKDF2", N 1); ("HASH", N 2); ("HMAC", N 3); ("ENCRYPT", N 4); ("NIST800 - 108 - C", N 5);
      ("NIST800 - 108 - F", N 6); ("NIST800 - 108 - DPI", N 7); ("Asymmetric Key", N 8);
      ("AWS Signature Version 4", N 9); ("HKDF", N 10)]);
    ("tags", JArray [S "Derivation Method"])];
  JObject [
    ("name", S "Link Type");
    ("comment", S "9.1.3.2.20 Table 308");
    ("values", JObject [
      ("Certificate Link", N 257); ("Child Link", N 265); ("Derivation Base Object Link", N 260);
      ("Derived Key Link", N 261); ("Next Link", N 267); ("PKCS#12 Certificate Link", N 268);
      ("PKCS#12 Password Link", N 269); ("Parent Link", N 264); ("Previous Link", N 266);
      ("Private Key Link", N 259); ("Public Key Link", N 258); ("Replaced Object Link", N 263);
      ("Replacement Object Link", N 262); ("Wrapping Key Link", S "0x0000010E")]);
    ("tags", JArray [S "Link Type"])];
  JObject [
    ("name", S "Object Type");
    ("comment", S "9.1.3.2.12 Table 300");
    ("values", JObject [
      ("Certificate", N 1); ("Opaque Object", N 8); ("PGP Key", N 9); ("Private Key", N 4);
      ("Public Key", N 3); ("Secret Data", N 7); ("Split Key", N 5); ("Symmetric Key", N 2);
      ("Template", N 6); ("Certificate Request", S "0x0000000A")]);
    ("tags", JArray [S "Object Type"])];
  JObject [
    ("name", S "Operation");
    ("comment", S "9.1.3.2.27 Table 315");
    ("values", JObject [
      ("Activate", N 18); ("Add Attribute", N 13); ("Archive", N 21); ("Cancel", N 25);
      ("Certify", N 6); ("Check", N 9); ("Create", N 1); ("Create Key Pair", N 2);
      ("Create Split Key", N 40); ("Decrypt", N 32); ("Delete Attribute", N 15); ("Derive Key", N 5);
      ("Destroy", N 20); ("Discover Versions", N 30); ("Encrypt", N 31); ("Export", N 43);
      ("Get", N 10); ("Get Attribute List", N 12); ("Get Attributes", N 11);
      ("Get Usage Allocation", N 17); ("Hash", N 39); ("Import", N 42); ("Join Split Key", N 41);
      ("Locate", N 8); ("MAC", N 35); ("MAC Verify", N 36); ("Modify Attribute", N 14);
      ("Notify", N 27); ("Obtain Lease", N 16); ("Poll", N 26); ("Put", N 28); ("Query", N 24);
      ("RNG Retrieve", N 37); ("RNG Seed", N 38); ("Re-certify", N 7); ("Re-key", N 4);
      ("Re-key Key Pair", N 29); ("Recover", N 22); ("Register", N 3); ("Revoke", N 19); ("Sign", N 33);
      ("Signature Verify", N 34); ("Validate", N 23); ("Log", S "0x0000002C");
      ("Login", S "0x0000002D"); ("Logout", S "0x0000002E"); ("Delegated Login", S "0x0000002F");
      ("Adjust Attribute", S "0x00000030"); ("Set Attribute", S "0x00000031");
      ("Set Endpoint Role", S "0x00000032"); ("PKCS#11", S "0x00000033"); ("Interop", S "0x00000034");
      ("Re-Provision", S "0x00000035")]);
    ("tags", JArray [S "Operation"])];
  JObject [
    ("name", S "Profile Name");
    ("comment", S "9.1.3.2.42");
    ("values", JObject [
      ("Advanced Cryptographic Client KMIP v1.2", N 27);
      ("Advanced Cryptographic Client KMIP v1.3", N 99);
      ("Advanced Cryptographic Client KMIP v1.4", N 135);
      ("Advanced Cryptographic Server KMIP v1.2", N 28);
      ("Advanced Cryptographic Server KMIP v1.3", N 100);
      ("Advanced Cryptographic Server KMIP v1.4", N 136);
      ("Advanced Symmetric Key Foundry Client KMIP v1.0", N 33);
      ("Advanced Symmetric Key Foundry Client KMIP v1.1", N 36);
      ("Advanced Symmetric Key Foundry Client KMIP v1.2", N 39);
      ("Advanced Symmetric Key Foundry Client KMIP v1.3", N 105);
      ("Advanced Symmetric Key Foundry Client KMIP v1.4", N 141);
      ("Asymmetric Key Lifecycle Client KMIP v1.0", N 19);
      ("Asymmetric Key Lifecycle Client KMIP v1.1", N 20);
      ("Asymmetric Key Lifecycle Client KMIP v1.2", N 21);
      ("Asymmetric Key Lifecycle Client KMIP v1.3", N 95);
      ("Asymmetric Key Lifecycle Client KMIP v1.4", N 131);
      ("Asymmetric Key Lifecycle Server KMIP v1.0", N 22);
      ("Asymmetric Key Lifecycle Server KMIP v1.1", N 23);
      ("Asymmetric Key Lifecycle Server KMIP v1.2", N 24);
      ("Asymmetric Key Lifecycle Server KMIP v1.3", N 96);
      ("Asymmetric Key Lifecycle Server KMIP v1.4", N 132); ("Baseline Client Basic KMIP v1.2", N 3);
      ("Baseline Client Basic KMIP v1.3", N 87); ("Baseline Client Basic KMIP v1.4", N 123);
      ("Baseline Client TLS v1.2 KMIP v1.2", N 4); ("Baseline Client TLS v1.2 KMIP v1.3", N 88);
      ("Baseline Client TLS v1.2 KMIP v1.4", N 124); ("Baseline Server Basic KMIP v1.2", N 1);
      ("Baseline Server Basic KMIP v1.3", N 85); ("Baseline Server Basic KMIP v1.4", N 121);
      ("Baseline Server TLS v1.2 KMIP v1.2", N 2); ("Baseline Server TLS v1.2 KMIP v1.3", N 86);
      ("Baseline Server TLS v1.2 KMIP v1.4", N 122); ("Basic Cryptographic Client KMIP v1.2", N 25);
      ("Basic Cryptographic Client KMIP v1.3", N 97); ("Basic Cryptographic Client KMIP v1.4", N 133);
      ("Basic Cryptographic Server KMIP v1.2", N 26); ("Basic Cryptographic Server KMIP v1.3", N 98);
      ("Basic Cryptographic Server KMIP v1.4", N 134);
      ("Basic Symmetric Key Foundry Client KMIP v1.0", N 31);
      ("Basic Symmetric Key Foundry Client KMIP v1.1", N 34);
      ("Basic Symmetric Key Foundry Client KMIP v1.2", N 37);
      ("Basic Symmetric Key Foundry Client KMIP v1.3", N 103);
      ("Basic Symmetric Key Foundry Client KMIP v1.4", N 139); ("Complete Server Basic KMIP v1.2", N 5);
      ("Complete Server Basic KMIP v1.3", N 89); ("Complete Server Basic KMIP v1.4", N 125);
      ("Complete Server TLS v1.2 KMIP v1.2", N 6); ("Complete Server TLS v1.2 KMIP v1.3", N 90);
      ("Complete Server TLS v1.2 KMIP v1.4", N 126); ("HTTPS Client KMIP v1.0", N 67);
      ("HTTPS Client KMIP v1.1", N 68); ("HTTPS Client KMIP v1.2", N 69);
      ("HTTPS Client KMIP v1.3", N 115); ("HTTPS Client KMIP v1.4", N 151);
      ("HTTPS Server KMIP v1.0", N 70); ("HTTPS Server KMIP v1.1", N 71);
      ("HTTPS Server KMIP v1.2", N 72); ("HTTPS Server KMIP v1.3", N 116);
      ("HTTPS Server KMIP v1.4", N 152); ("Intermediate Symmetric Key Foundry Client KMIP v1.0", N 32);
      ("Intermediate Symmetric Key Foundry Client KMIP v1.1", N 35);
      ("Intermediate Symmetric Key Foundry Client KMIP v1.2", N 38);
      ("Intermediate Symmetric Key Foundry Client KMIP v1.3", N 104);
      ("Intermediate Symmetric Key Foundry Client KMIP v1.4", N 140); ("JSON Client KMIP v1.0", N 73);
      ("JSON Client KMIP v1.1", N 74); ("JSON Client KMIP v1.2", N 75);
      ("JSON Client KMIP v1.3", N 117); ("JSON Client KMIP v1.4", N 153);
      ("JSON Server KMIP v1.0", N 76); ("JSON Server KMIP v1.1", N 77); ("JSON Server KMIP v1.2", N 78);
      ("JSON Server KMIP v1.3", N 118); ("JSON Server KMIP v1.4", N 154);
      ("Opaque Managed Object Store Client KMIP v1.0", N 43);
      ("Opaque Managed Object Store Client KMIP v1.1", N 44);
      ("Opaque Managed Object Store Client KMIP v1.2", N 45);
      ("Opaque Managed Object Store Client KMIP v1.3", N 107);
      ("Opaque Managed Object Store Client KMIP v1.4", N 143);
      ("Opaque Managed Object Store Server KMIP v1.0", N 46);
      ("Opaque Managed Object Store Server KMIP v1.1", N 47);
      ("Opaque Managed Object Store Server KMIP v1.2", N 48);
      ("Opaque Managed Object Store Server KMIP v1.3", N 108);
      ("Opaque Managed Object Store Server KMIP v1.4", N 144);
      ("RNG Cryptographic Client KMIP v1.2", N 29); ("RNG Cryptographic Client KMIP v1.3", N 101);
      ("RNG Cryptographic Client KMIP v1.4", N 137); ("RNG Cryptographic Server KMIP v1.2", N 30);
      ("RNG Cryptographic Server KMIP v1.3", N 102); ("RNG Cryptographic Server KMIP v1.4", N 138);
      ("Storage Array with Self Encrypting Drive Client KMIP v1.0", N 61);
      ("Storage Array with Self Encrypting Drive Client KMIP v1.1", N 62);
      ("Storage Array with Self Encrypting Drive Client KMIP v1.2", N 63);
      ("Storage Array with Self Encrypting Drive Client KMIP v1.3", N 113);
      ("Storage Array with Self Encrypting Drive Client KMIP v1.4", N 149);
      ("Storage Array with Self Encrypting Drive Server KMIP v1.0", N 64);
      ("Storage Array with Self Encrypting Drive Server KMIP v1.1", N 65);
      ("Storage Array with Self Encrypting Drive Server KMIP v1.2", N 66);
      ("Storage Array with Self Encrypting Drive Server KMIP v1.3", N 114);
      ("Storage Array with Self Encrypting Drive Server KMIP v1.4", N 150);
      ("Suite B minLOS_128 Client KMIP v1.0", N 49); ("Suite B minLOS_128 Client KMIP v1.1", N 50);
      ("Suite B minLOS_128 Client KMIP v1.2", N 51); ("Suite B minLOS_128 Client KMIP v1.3", N 109);
      ("Suite B minLOS_128 Client KMIP v1.4", N 145); ("Suite B minLOS_128 Server KMIP v1.0", N 52);
      ("Suite B minLOS_128 Server KMIP v1.1", N 53); ("Suite B minLOS_128 Server KMIP v1.2", N 54);
      ("Suite B minLOS_128 Server KMIP v1.3", N 110); ("Suite B minLOS_128 Server KMIP v1.4", N 146);
      ("Suite B minLOS_192 Client KMIP v1.0", N 55); ("Suite B minLOS_192 Client KMIP v1.1", N 56);
      ("Suite B minLOS_192 Client KMIP v1.2", N 57); ("Suite B minLOS_192 Client KMIP v1.3", N 111);
      ("Suite B minLOS_192 Client KMIP v1.4", N 147); ("Suite B minLOS_192 Server KMIP v1.0", N 58);
      ("Suite B minLOS_192 Server KMIP v1.1", N 59); ("Suite B minLOS_192 Server KMIP v1.2", N 60);
      ("Suite B minLOS_192 Server KMIP v1.3", N 112); ("Suite B minLOS_192 Server KMIP v1.4", N 148);
      ("Symmetric Key Foundry Server KMIP v1.0", N 40);
      ("Symmetric Key Foundry Server KMIP v1.1", N 41);
      ("Symmetric Key Foundry Server KMIP v1.2", N 42);
      ("Symmetric Key Foundry Server KMIP v1.3", N 106);
      ("Symmetric Key Foundry Server KMIP v1.4", N 142);
      ("Symmetric Key Lifecycle Client KMIP v1.0", N 13);
      ("Symmetric Key Lifecycle Client KMIP v1.1", N 14);
      ("Symmetric Key Lifecycle Client KMIP v1.2", N 15);
      ("Symmetric Key Lifecycle Client KMIP v1.3", N 93);
      ("Symmetric Key Lifecycle Client KMIP v1.4", N 129);
      ("Symmetric Key Lifecycle Server KMIP v1.0", N 16);
      ("Symmetric Key Lifecycle Server KMIP v1.1", N 17);
      ("Symmetric Key Lifecycle Server KMIP v1.2", N 18);
      ("Symmetric Key Lifecycle Server KMIP v1.3", N 94);
      ("Symmetric Key Lifecycle Server KMIP v1.4", N 130); ("Tape Library Client KMIP v1.0", N 7);
      ("Tape Library Client KMIP v1.1", N 8); ("Tape Library Client KMIP v1.2", N 9);
      ("Tape Library Client KMIP v1.3", N 91); ("Tape Library Client KMIP v1.4", N 127);
      ("Tape Library Server KMIP v1.0", N 10); ("Tape Library Server KMIP v1.1", N 11);
      ("Tape Library Server KMIP v1.2", N 12); ("Tape Library Server KMIP v1.3", N 92);
      ("Tape Library Server KMIP v1.4", N 128); ("XML Client KMIP v1.0", N 79);
      ("XML Client KMIP v1.1", N 80); ("XML Client KMIP v1.2", N 81); ("XML Client KMIP v1.3", N 119);
      ("XML Client KMIP v1.4", N 155); ("XML Server KMIP v1.0", N 82); ("XML Server KMIP v1.1", N 83);
      ("XML Server KMIP v1.2", N 84); ("XML Server KMIP v1.3", N 120); ("XML Server KMIP v1.4", N 156);
      ("Complete Server Basic", S "0x00000104"); ("Complete Server TLS v1.2", S "0x00000105");
      ("Tape Library Client", S "0x00000106"); ("Tape Library Server", S "0x00000107");
      ("Symmetric Key Lifecycle Client", S "0x00000108");
      ("Symmetric Key Lifecycle Server", S "0x00000109");
      ("Asymmetric Key Lifecycle Client", S "0x0000010A");
      ("Asymmetric Key Lifecycle Server", S "0x0000010B");
      ("Basic Cryptographic Client", S "0x0000010C"); ("Basic Cryptographic Server", S "0x0000010D");
      ("Advanced Cryptographic Client", S "0x0000010E");
      ("Advanced Cryptographic Server", S "0x0000010F"); ("RNG Cryptographic Client ", S "0x00000110");
      ("RNG Cryptographic Server ", S "0x00000111");
      ("Basic Symmetric Key Foundry Client ", S "0x00000112");
      ("Intermediate Symmetric Key Foundry Client ", S "0x00000113");
      ("Advanced Symmetric Key Foundry Client ", S "0x00000114");
      ("Symmetric Key Foundry Server", S "0x00000115");
      ("Opaque Managed Object Store Client ", S "0x00000116");
      ("Opaque Managed Object Store Server ", S "0x00000117");
      ("Suite B minLOS_128 Client ", S "0x00000118"); ("Suite B minLOS_128 Server ", S "0x00000119");
      ("Suite B minLOS_192 Client ", S "0x0000011A"); ("Suite B minLOS_192 Server ", S "0x0000011B");
      ("Storage Array with Self Encrypting Drive Client", S "0x0000011C");
      ("Storage Array with Self Encrypting Drive Server", S "0x0000011D");
      ("HTTPS Client ", S "0x0000011E"); ("HTTPS Server ", S "0x0000011F");
      ("JSON Client ", S "0x00000120"); ("JSON Server ", S "0x00000121");
      ("XML Client ", S "0x00000122"); ("XML Server ", S "0x00000123");
      ("AES XTS Client", S "0x00000124"); ("AES XTS Server", S "0x00000125");
      ("Quantum Safe Client", S "0x00000126"); ("Quantum Safe Server", S "0x00000127");
      ("PKCS#11 Client", S "0x00000128"); ("PKCS#11 Server", S "0x00000129");
      ("Baseline Client", S "0x0000012A"); ("Baseline Server", S "0x0000012B");
      ("Complete Server", S "0x0000012C")]);
    ("tags", JArray [S "Profile Name"])];
  JObject [
    ("name", S "Query Function");
    ("comment", S "9.1.3.2.24 Table 312");
    ("values", JObject [
      ("Query Application Namespaces", N 4); ("Query Attestation Types", N 7);
      ("Query Capabilities", N 11); ("Query Client Registration Methods", N 12);
      ("Query Extension List", N 5); ("Query Extension Map", N 6); ("Query Objects", N 2);
      ("Query Operations", N 1); ("Query Profiles", N 10); ("Query RNGs", N 8);
      ("Query Server Information", N 3); ("Query Validations", N 9);
      ("Query Defaults Information", S "0x0000000D"); ("Query Storage Protection Masks", S "0x0000000E")]);
    ("tags", JArray [S "Query Function"])];
  JObject [
    ("name", S "Recommended Curve");
    ("comment", S "9.1.3.2.5 Table 293");
    ("values", JObject [
      ("ANSIX9C2PNB163V1", N 39); ("ANSIX9C2PNB163V2", N 40); ("ANSIX9C2PNB163V3", N 41);
      ("ANSIX9C2PNB176V1", N 42); ("ANSIX9C2PNB208W1", N 46); ("ANSIX9C2PNB272W1", N 50);
      ("ANSIX9C2PNB304W1", N 51); ("ANSIX9C2PNB368W1", N 53); ("ANSIX9C2TNB191V1", N 43);
      ("ANSIX9C2TNB191V2", N 44); ("ANSIX9C2TNB191V3", N 45); ("ANSIX9C2TNB239V1", N 47);
      ("ANSIX9C2TNB239V2", N 48); ("ANSIX9C2TNB239V3", N 49); ("ANSIX9C2TNB359V1", N 52);
      ("ANSIX9C2TNB431R1", N 54); ("ANSIX9P192V2", N 34); ("ANSIX9P192V3", N 35);
      ("ANSIX9P239V1", N 36); ("ANSIX9P239V2", N 37); ("ANSIX9P239V3", N 38); ("B-163", N 3);
      ("B-233", N 6); ("B-283", N 9); ("B-409", N 12); ("B-571", N 15); ("BRAINPOOLP160R1", N 55);
      ("BRAINPOOLP160T1", N 56); ("BRAINPOOLP192R1", N 57); ("BRAINPOOLP192T1", N 58);
      ("BRAINPOOLP224R1", N 59); ("BRAINPOOLP224T1", N 60); ("BRAINPOOLP256R1", N 61);
      ("BRAINPOOLP256T1", N 62); ("BRAINPOOLP320R1", N 63); ("BRAINPOOLP320T1", N 64);
      ("BRAINPOOLP384R1", N 65); ("BRAINPOOLP384T1", N 66); ("BRAINPOOLP512R1", N 67);
      ("BRAINPOOLP512T1", N 68); ("K-163", N 2); ("K-233", N 5); ("K-283", N 8); ("K-409", N 11);
      ("K-571", N 14); ("P-192", N 1); ("P-224", N 4); ("P-256", N 7); ("P-384", N 10); ("P-521", N 13);
      ("SECP112R1", N 16); ("SECP112R2", N 17); ("SECP128R1", N 18); ("SECP128R2", N 19);
      ("SECP160K1", N 20); ("SECP160R1", N 21); ("SECP160R2", N 22); ("SECP192K1", N 23);
      ("SECP224K1", N 24); ("SECP256K1", N 25); ("SECT113R1", N 26); ("SECT113R2", N 27);
      ("SECT131R1", N 28); ("SECT131R2", N 29); ("SECT163R1", N 30); ("SECT193R1", N 31);
      ("SECT193R2", N 32); ("SECT239K1", N 33); ("CURVE25519", S "0x00000045");
      ("CURVE448", S "0x00000046")]);
    ("tags", JArray [S "Recommended Curve"])];
  JObject [
    ("name", S "Result Reason");
    ("comment", S "9.1.3.2.29 Table 317");
    ("values", JObject [
      ("Application Namespace Not Supported", N 15); ("Attestation Failed", N 21);
      ("Attestation Required", N 20); ("Authentication Not Successful", N 3);
      ("Cryptographic Failure", N 10); ("Encoding Option Error", N 18); ("Feature Not Supported", N 8);
      ("General Failure", N 256); ("Illegal Operation", N 11); ("Index Out of Bounds", N 14);
      ("Invalid Field", N 7); ("Invalid Message", N 4); ("Item Not Found", N 1);
      ("Key Compression Type Not Supported", N 17); ("Key Format Type Not Supported", N 16);
      ("Key Value Not Present", N 19); ("Missing Data", N 6); ("Not Extractable", N 23);
      ("Object Already Exists", N 24); ("Object archived", N 13);
      ("Operation Canceled By Requester", N 9); ("Operation Not Supported", N 5);
      ("Permission Denied", N 12); ("Response Too Large", N 2); ("Sensitive", N 22);
      ("Invalid Ticket", S "0x00000019"); ("Usage Limit Exceeded", S "0x0000001A");
      ("Numeric Range", S "0x0000001B"); ("Invalid Data Type", S "0x0000001C");
      ("Read Only Attribute", S "0x0000001D"); ("Multi Valued Attribute", S "0x0000001E");
      ("Unsupported Attribute", S "0x0000001F"); ("Attribute Instance Not Found", S "0x00000020");
      ("Attribute Not Found", S "0x00000021"); ("Attribute Read Only", S "0x00000022");
      ("Attribute Single Valued", S "0x00000023"); ("Bad Cryptographic Parameters", S "0x00000024");
      ("Bad Password", S "0x00000025"); ("Codec Error", S "0x00000026");
      ("Illegal Object Type", S "0x00000028");
      ("Incompatible Cryptographic Usage Mask", S "0x00000029");
      ("Internal Server Error", S "0x0000002A");
      ("Invalid Asynchronous Correlation Value", S "0x0000002B"); ("Invalid Attribute", S "0x0000002C");
      ("Invalid Attribute Value", S "0x0000002D"); ("Invalid Correlation Value", S "0x0000002E");
      ("Invalid CSR", S "0x0000002F"); ("Invalid Object Type", S "0x00000030");
      ("Key Wrap Type Not Supported", S "0x00000032");
      ("Missing Initialization Vector", S "0x00000034"); ("Non Unique Name Attribute", S "0x00000035");
      ("Object Destroyed", S "0x00000036"); ("Object Not Found", S "0x00000037");
      ("Not Authorized", S "0x00000039"); ("Server Limit Exceeded", S "0x0000003A");
      ("Unknown Enumeration", S "0x0000003B"); ("Unknown Message Extension", S "0x0000003C");
      ("Unknown Tag", S "0x0000003D"); ("Unsupported Cryptographic Parameters", S "0x0000003E");
      ("Unsupported Protocol Version", S "0x0000003F"); ("Wrapping Object Archived", S "0x00000040");
      ("Wrapping Object Destroyed", S "0x00000041"); ("Wrapping Object Not Found", S "0x00000042");
      ("Wrong Key Lifecycle State", S "0x00000043"); ("Protection Storage Unavailable", S "0x00000044");
      ("PKCS#11 Codec Error ", S "0x00000045"); ("PKCS#11 Invalid Function ", S "0x00000046");
      ("PKCS#11 Invalid Interface", S "0x00000047")]);
    ("tags", JArray [S "Result Reason"])];
  JObject [
    ("name", S "Adjustment Type");
    ("comment", S "11.1");
    ("tags", JArray [S "Adjustment Type"]);
    ("values", JObject [
      ("Increment", S "0x00000001"); ("Decrement", S "0x00000002"); ("Negate", S "0x00000003")])];
  JObject [
    ("name", S "Asynchronous Indicator");
    ("comment", S "11.3");
    ("tags", JArray [S "Asynchronous Indicator"]);
    ("values", JObject [
      ("Mandatory", S "0x00000001"); ("Optional", S "0x00000002"); ("Prohibited", S "0x00000003")])];
  JObject [
    ("name", S "Data");
    ("comment", S "11.13");
    ("tags", JArray [S "Data"]);
    ("values", JObject [
      ("Decrypt", S "0x00000001"); ("Encrypt", S "0x00000002"); ("Hash", S "0x00000003");
      ("MAC MAC Data", S "0x00000004"); ("RNG Retrieve", S "0x00000005");
      ("Sign Signature Data", S "0x00000006"); ("Signature Verify", S "0x00000007")])];
  JObject [
    ("name", S "Endpoint Role");
    ("comment", S "11.19");
    ("tags", JArray [S "Endpoint Role"]);
    ("values", JObject [
      ("Client", S "0x00000001"); ("Server", S "0x00000002")])];
  JObject [
    ("name", S "Interop Function");
    ("comment", S "11.22");
    ("tags", JArray [S "Interop Function"]);
    ("values", JObject [
      ("Begin", S "0x00000001"); ("End", S "0x00000002"); ("Reset", S "0x00000003")])];
  JObject [
    ("name", S "NIST Key Type");
    ("tags", JArray [S "NIST Key Type"]);
    ("values", JObject [
      ("Private signature key", S "0x00000001"); ("Public signature verification key", S "0x00000002");
      ("Symmetric authentication key", S "0x00000003"); ("Private authentication key", S "0x00000004");
      ("Public authentication key", S "0x00000005"); ("Symmetric data encryption key", S "0x00000006");
      ("Symmetric key wrapping key", S "0x00000007");
      ("Symmetric random number generation key", S "0x00000008");
      ("Symmetric master key", S "0x00000009"); ("Private key transport key", S "0x0000000A");
      ("Public key transport key", S "0x0000000B"); ("Symmetric key agreement key", S "0x0000000C");
      ("Private static key agreement key", S "0x0000000D");
      ("Public static key agreement key", S "0x0000000E");
      ("Private ephemeral key agreement key", S "0x0000000F");
      ("Public ephemeral key agreement key", S "0x00000010");
      ("Symmetric authorization key", S "0x00000011"); ("Private authorization key", S "0x00000012");
      ("Public authorization key", S "0x00000013")])];
  JObject [
    ("name", S "PKCS#11 Function");
    ("tags", JArray [S "PKCS#11 Function"])];
  JObject [
    ("name", S "PKCS#11 Return Code");
    ("tags", JArray [S "PKCS#11 Return Code"])];
  JObject [
    ("name", S "Protection Level");
    ("values", JObject [
      ("High", S "0x00000001"); ("Low", S "0x00000002")]);
    ("tags", JArray [S "Protection Level"])];
  JObject [
    ("name", S "Ticket Type");
    ("tags", JArray [S "Ticket Type"]);
    ("values", JObject [
      ("Login", S "0x00000001")])];
  JObject [
    ("name", S "Unique Identifier");
    ("tags", JArray [S "Unique Identifier"; S "Link"]);
    ("values", JObject [
      ("ID Placeholder", S "0x00000001"); ("Certify", S "0x00000002"); ("Create", S "0x00000003");
      ("Create Key Pair", S "0x00000004"); ("Create Key Pair Private Key", S "0x00000005");
      ("Create Key Pair Public Key", S "0x00000006"); ("Create Split Key", S "0x00000007");
      ("Derive Key", S "0x00000008"); ("Import", S "0x00000009"); ("Join Split Key", S "0x0000000A");
      ("Locate", S "0x0000000B"); ("Register", S "0x0000000C"); ("Re-key", S "0x0000000D");
      ("Re-certify", S "0x0000000E"); ("Re-key Key Pair", S "0x0000000F");
      ("Re-key Key Pair Private Key", S "0x00000010"); ("Re-key Key Pair Public Key", S "0x00000011")])]].

Definition kmip_2_0_additions_masks : json := JArray [
  JObject [
    ("name", S "Protection Storage Mask");
    ("values", JObject [
      ("Software", S "0x00000001"); ("Hardware", S "0x00000002"); ("On Processor", S "0x00000004");
      ("On System", S "0x00000008"); ("Off System", S "0x00000010"); ("Hypervisor", S "0x00000020");
      ("Operating System", S "0x00000040"); ("Container", S "0x00000080");
      ("On Premises", S "0x00000100"); ("Off Premises", S "0x00000200");
      ("Self Managed", S "0x00000400"); ("Outsourced", S "0x00000800"); ("Validated", S "0x00001000");
      ("Same Jurisdiction", S "0x00002000")]);
    ("tags", JArray [S "Protection Storage Mask"])]].

Definition kmip_2_0_additions : json := JObject [("tags", kmip_2_0_additions_tags); ("enums", kmip_2_0_additions_enums); ("masks", kmip_2_0_additions_masks)].
