(* ===== verification/Kmipgen.v ===== *)
(** The code generator src/cmd/kmipgen/main.go: reading a specification,
    preparing the template's input and what the templates declare.  The
    generated text is modelled by its declarations, the [Package] of
    [Generated]. *)
From Stdlib Require Import ZArith Lia Strings.Byte Ascii String.
From stdpp Require Import base list strings numbers gmap sorting.
From S2P Require Import Prelude Hex Names Registry Formatting Generated Kmip14 Kmip20 Json JsonCodec Specs.
Local Open Scope Z_scope.

(** * Specifications *)

(** A Go map is a list of its entries in the order in which a loop over it
    visits them; that order is not specified. *)
Record EnumDef := mkEnumDef {
  ed_Name : string;
  ed_Comment : string;
  ed_Values : list (string * json);
  ed_Tags : list string;
}.

Record Specifications := mkSpecifications {
  sp_Enums : list EnumDef;
  sp_Masks : list EnumDef;
  sp_Tags : list (string * json);
  sp_Package : string;
}.

(** [json.Decode] into a map: the last of equal keys wins. *)
Fixpoint mapSet (k : string) (v : json) (l : list (string * json)) : list (string * json) :=
  match l with
  | [] => [(k, v)]
  | (k', v') :: l => if String.eqb k k' then (k, v) :: l else (k', v') :: mapSet k v l
  end.

Definition decodeMap (old : list (string * json)) (j : json) : option (list (string * json)) :=
  match j with
  | JObject l =>
      if forallb (λ m, decodesAny m.2) l then Some (foldl (λ acc m, mapSet m.1 m.2 acc) old l) else None
  | JNull => Some []
  | _ => None
  end.

(** [json.Decode] into a slice: elements that are there are decoded into. *)
Definition decodeSlice {A} (f : A → json → option A) (zero : A) (old : list A) (j : json) : option (list A) :=
  match j with
  | JArray l => mapM (λ '(i, v), f (default zero (old !! i)) v) (imap pair l)
  | JNull => Some []
  | _ => None
  end.

Definition decodeField {A} (v : A) (l : list (string * json)) (set : A → string → json → option A) : option A :=
  foldl (λ acc m, v ← acc; set v (lowerString m.1) m.2) (Some v) l.

Definition zeroEnumDef : EnumDef := mkEnumDef "" "" [] [].

Definition decodeEnumDef (old : EnumDef) (j : json) : option EnumDef :=
  match j with
  | JNull => Some old
  | JObject l =>
      decodeField old l (λ d k v,
        if String.eqb k "name" then s ← setString (ed_Name d) v; Some (mkEnumDef s (ed_Comment d) (ed_Values d) (ed_Tags d))
        else if String.eqb k "comment" then
          s ← setString (ed_Comment d) v; Some (mkEnumDef (ed_Name d) s (ed_Values d) (ed_Tags d))
        else if String.eqb k "values" then
          m ← decodeMap (ed_Values d) v; Some (mkEnumDef (ed_Name d) (ed_Comment d) m (ed_Tags d))
        else if String.eqb k "tags" then
          ts ← decodeSlice setString EmptyString (ed_Tags d) v; Some (mkEnumDef (ed_Name d) (ed_Comment d) (ed_Values d) ts)
        else Some d)
  | _ => None
  end.

Definition decodeSpecifications (packageName : string) (j : json) : option Specifications :=
  let zero := mkSpecifications [] [] [] packageName in
  match j with
  | JNull => Some zero
  | JObject l =>
      decodeField zero l (λ s k v,
        if String.eqb k "enums" then
          es ← decodeSlice decodeEnumDef zeroEnumDef (sp_Enums s) v; Some (mkSpecifications es (sp_Masks s) (sp_Tags s) (sp_Package s))
        else if String.eqb k "masks" then
          ms ← decodeSlice decodeEnumDef zeroEnumDef (sp_Masks s) v; Some (mkSpecifications (sp_Enums s) ms (sp_Tags s) (sp_Package s))
        else if String.eqb k "tags" then
          m ← decodeMap (sp_Tags s) v; Some (mkSpecifications (sp_Enums s) (sp_Masks s) m (sp_Package s))
        else Some s)
  | _ => None
  end.

(** * Preparing the input of the templates *)

Record tagVal := mkTagVal { tg_FullName : string; tg_Name : string; tg_Value : Z }.

Record enumVal := mkEnumVal {
  ev_Name : string;
  ev_Comment : string;
  ev_Var : string;
  ev_TypeName : string;
  ev_Vals : list tagVal;
  ev_Tags : list string;
  ev_BitMask : bool;
}.

Record inputs := mkInputs {
  in_Tags : list tagVal;
  in_Package : string;
  in_Imports : list string;
  in_TTLVPackage : string;
  in_Enums : list enumVal;
  in_Masks : list enumVal;
}.

Inductive generr : Type :=
  | GenJSON                       (** error reading input file *)
  | GenHex (e : herr)
  | GenInteger (s : string)       (** invalid integer value *)
  | GenNumber                     (** neither a number nor a string *)
  | GenTag (v : json) (e : generr)
  | GenEnum (name : string) (e : generr)
  | GenMask (name : string) (e : generr).

Definition wrapErr {A} (f : generr → generr) (r : res generr A) : res generr A := liftErr f r.

Definition byValue (a b : tagVal) : Prop := tg_Value a ≤ tg_Value b.
#[export] Instance byValue_dec a b : Decision (byValue a b) := Z_le_dec _ _.

(** [sort.Slice] by value; it is not stable, which matters only for equal
    values. *)
Definition sortVals (l : list tagVal) : list tagVal := merge_sort byValue l.

Section Generator.
Context `{TitleCaser} `{FloatConv}.

Definition parseUint32 (v : json) : res generr Z :=
  match v with
  | JString n =>
      b ← liftErr GenHex (ParseHexValue n 4);
      match b with
      | Some b => Ok (DecodeUint32 b)
      | None => match parseUint n (2 ^ 32) with Some i => Ok (u32 i) | None => Err (GenInteger n) end
      end
  | JNumber d => Ok (floatTo KUint32 d)
  | _ => Err GenNumber
  end.

(** The loops over the maps of names and values. *)
Fixpoint tagVals (m : list (string * json)) : res generr (list tagVal) :=
  match m with
  | [] => Ok []
  | (key, value) :: m =>
      i ← wrapErr (GenTag value) (parseUint32 value);
      l ← tagVals m;
      Ok (mkTagVal key (NormalizeName key) i :: l)
  end.

Definition toEnumVal (bitMask : bool) (v : EnumDef) : res generr enumVal :=
  let typeName := NormalizeName (ed_Name v) in
  match typeName with
  | EmptyString => Panic
  | String c _ =>
      vals ← tagVals (ed_Values v);
      Ok (mkEnumVal (ed_Name v) (ed_Comment v) (String (lowerChar c) EmptyString) typeName (sortVals vals)
            (NormalizeName <$> ed_Tags v) bitMask)
  end.

Fixpoint toEnumVals (wrap : string → generr → generr) (bitMask : bool) (l : list EnumDef) : res generr (list enumVal) :=
  match l with
  | [] => Ok []
  | v :: l =>
      ev ← wrapErr (wrap (ed_Name v)) (toEnumVal bitMask v);
      evs ← toEnumVals wrap bitMask l;
      Ok (ev :: evs)
  end.

Definition prepareInput (s : Specifications) : res generr inputs :=
  let own := String.eqb (sp_Package s) "ttlv" in
  tags ← tagVals (sp_Tags s);
  enums ← toEnumVals GenEnum false (sp_Enums s);
  masks ← toEnumVals GenMask true (sp_Masks s);
  Ok (mkInputs (sortVals tags) (sp_Package s) (if own then [] else ["github.com/gemalto/kmip-go/ttlv"%string])
        (if own then EmptyString else "ttlv."%string) enums masks).

(** * What the templates declare *)

(** Template "base": the const block, the map literal and the constructor. *)
Definition declareEnum (ev : enumVal) : EnumType := {|
  et_name := ev_TypeName ev;
  et_consts := (λ v, (ev_TypeName ev +:+ tg_Name v, tg_Value v)) <$> ev_Vals ev;
  et_names := (λ v, (ev_TypeName ev +:+ tg_Name v, tg_FullName v)) <$> ev_Vals ev;
  et_bitmask := ev_BitMask ev;
|}.

(** Template "global": the tags, and the enumerations by tag name. *)
Definition declarePackage (i : inputs) : Package := {|
  pkg_tagConsts := (λ v, ("Tag" +:+ tg_Name v, tg_Value v)) <$> in_Tags i;
  pkg_tagNames := (λ v, ("Tag" +:+ tg_Name v, tg_FullName v)) <$> in_Tags i;
  pkg_enums := concat ((λ ev, (λ t, (t, declareEnum ev)) <$> ev_Tags ev) <$> (in_Enums i ++ in_Masks i));
|}.

Definition genCode (s : Specifications) : res generr Package := declarePackage <$> prepareInput s.

(** [run]: an error of the generator is printed, and an empty file is written. *)
Definition run (packageName : string) (j : json) : res generr (option Package) :=
  match decodeSpecifications packageName j with
  | None => Err GenJSON
  | Some s =>
      match genCode s with
      | Ok p => Ok (Some p)
      | Err _ => Ok None
      | Panic => Panic
      | OutOfFuel => OutOfFuel
      end
  end.

End Generator.

(** * The order of the maps does not matter *)

Lemma sorted_unique (l1 l2 : list tagVal) : StronglySorted byValue l1 → StronglySorted byValue l2 →
  l1 ≡ₚ l2 → NoDup (tg_Value <$> l1) → l1 = l2.
Proof.
  revert l2. induction l1 as [|a l1 IH]; intros l2 H1 H2 Hp Hnd.
  { by apply Permutation_nil_l in Hp. }
  destruct l2 as [|b l2]; [by apply Permutation_nil_r in Hp|].
  inversion H1 as [|? ? Hs1 Ha]; subst. inversion H2 as [|? ? Hs2 Hb]; subst. cbn [fmap list_fmap] in Hnd.
  inversion Hnd as [|? ? Hna Hnd']; subst.
  assert (b ∈ a :: l1) as Hin by (rewrite Hp; left). assert (a ∈ b :: l2) as Hin' by (rewrite <- Hp; left).
  apply elem_of_cons in Hin as [->|Hin].
  { f_equal. apply IH; [done..| |done]. by apply Permutation_cons_inv in Hp. }
  exfalso. apply elem_of_cons in Hin' as [->|Hin'].
  { apply Hna. by apply list_elem_of_fmap_2. }
  eapply Forall_forall in Ha; [|exact Hin]. eapply Forall_forall in Hb; [|exact Hin']. unfold byValue in *.
  apply Hna. apply list_elem_of_fmap. exists b. split; [lia|done].
Qed.

Lemma sortVals_perm l1 l2 : l1 ≡ₚ l2 → NoDup (tg_Value <$> l1) → sortVals l1 = sortVals l2.
Proof.
  intros Hp Hnd. unfold sortVals. assert (Transitive byValue) by (intros ? ? ?; unfold byValue; lia).
  assert (Total byValue) by (intros ? ?; unfold byValue; lia).
  apply sorted_unique; [by apply StronglySorted_merge_sort..| |].
  - by rewrite !merge_sort_Permutation.
  - by rewrite merge_sort_Permutation.
Qed.

Section Order.
Context `{TitleCaser} `{FloatConv}.

Lemma tagVals_perm m1 m2 l1 : m1 ≡ₚ m2 → tagVals m1 = Ok l1 → ∃ l2, tagVals m2 = Ok l2 ∧ l1 ≡ₚ l2.
Proof.
  intros Hp. revert l1. induction Hp as [|[k v] m1 m2 Hp IH|[k1 v1] [k2 v2] m|m1 m2 m3 _ IH1 _ IH2]; intros l1 Hl.
  - by exists l1.
  - cbn [tagVals] in *. apply bind_Ok_inv in Hl as (i & -> & Hl). apply bind_Ok_inv in Hl as (l & Hl & [= <-]).
    destruct (IH l Hl) as (l2 & -> & Hl2). eexists. split; [done|]. by constructor.
  - cbn [tagVals] in *. apply bind_Ok_inv in Hl as (i1 & -> & Hl). apply bind_Ok_inv in Hl as (l & Hl & [= <-]).
    apply bind_Ok_inv in Hl as (i2 & -> & Hl). apply bind_Ok_inv in Hl as (l' & -> & [= <-]).
    eexists. split; [done|]. constructor.
  - destruct (IH1 l1 Hl) as (l2 & Hl2 & Hp2). destruct (IH2 l2 Hl2) as (l3 & Hl3 & Hp3).
    exists l3. split; [done|]. by rewrite Hp2.
Qed.

(** No two names have the same value. *)
Definition distinct (m : list (string * json)) : bool :=
  match tagVals m with Ok l => bool_decide (NoDup (tg_Value <$> l)) | _ => false end.

Lemma distinct_sort m1 m2 : m1 ≡ₚ m2 → distinct m2 = true →
  ∃ l1 l2, tagVals m1 = Ok l1 ∧ tagVals m2 = Ok l2 ∧ sortVals l1 = sortVals l2.
Proof.
  intros Hp Hd. unfold distinct in Hd. destruct (tagVals m2) as [l2| | |] eqn:E; try done.
  apply bool_decide_eq_true_1 in Hd.
  destruct (tagVals_perm m2 m1 l2) as (l1 & Hl1 & Hpl); [by symmetry|done|].
  exists l1, l2. split; [done|]. split; [done|]. symmetry. by apply sortVals_perm.
Qed.

(** The same definition, whatever the order of its map. *)
Definition sameEnumDef (d1 d2 : EnumDef) : Prop :=
  ed_Name d1 = ed_Name d2 ∧ ed_Comment d1 = ed_Comment d2 ∧ ed_Tags d1 = ed_Tags d2 ∧ ed_Values d1 ≡ₚ ed_Values d2.

Definition sameSpec (s1 s2 : Specifications) : Prop :=
  Forall2 sameEnumDef (sp_Enums s1) (sp_Enums s2) ∧ Forall2 sameEnumDef (sp_Masks s1) (sp_Masks s2) ∧
  sp_Tags s1 ≡ₚ sp_Tags s2 ∧ sp_Package s1 = sp_Package s2.

Lemma toEnumVal_perm b d1 d2 : sameEnumDef d1 d2 → distinct (ed_Values d2) = true → toEnumVal b d1 = toEnumVal b d2.
Proof.
  intros (Hn & Hc & Ht & Hp) Hd. destruct (distinct_sort _ _ Hp Hd) as (l1 & l2 & H1 & H2 & Hs).
  unfold toEnumVal. rewrite Hn, Hc, Ht, H1, H2. cbn [mbind res_bind]. by rewrite Hs.
Qed.

Lemma toEnumVals_perm wrap b l1 l2 : Forall2 sameEnumDef l1 l2 → forallb (λ d, distinct (ed_Values d)) l2 = true →
  toEnumVals wrap b l1 = toEnumVals wrap b l2.
Proof.
  induction 1 as [|d1 d2 l1 l2 Hd _ IH]; [done|]. cbn [forallb toEnumVals]. intros [H1 H2]%andb_prop.
  rewrite (toEnumVal_perm b d1 d2), IH by done. by destruct Hd as [-> _].
Qed.

Definition specDistinct (s : Specifications) : bool :=
  distinct (sp_Tags s) && forallb (λ d, distinct (ed_Values d)) (sp_Enums s) &&
  forallb (λ d, distinct (ed_Values d)) (sp_Masks s).

Lemma genCode_perm s1 s2 : sameSpec s1 s2 → specDistinct s2 = true → genCode s1 = genCode s2.
Proof.
  intros (He & Hm & Ht & Hp) [[Hd1 Hd2]%andb_prop Hd3]%andb_prop.
  destruct (distinct_sort _ _ Ht Hd1) as (l1 & l2 & H1 & H2 & Hs).
  unfold genCode, prepareInput. rewrite H1, H2, Hp. cbn [mbind res_bind].
  by rewrite (toEnumVals_perm _ _ _ _ He Hd2), (toEnumVals_perm _ _ _ _ Hm Hd3), Hs.
Qed.

End Order.

(** * Plain specifications *)

(** Numbers fit 32 bits, names are made of plain words: neither the caser nor
    the conversion of other numbers matters. *)
Definition plainName (n : string) : bool := forallb plainWord (nameWords n).
Definition plainNumber (j : json) : bool :=
  match j with
  | JNumber d => from_option (λ z, (0 <=? z) && (z <? 2 ^ 32)) false (floatTrunc d)
  | _ => true
  end.
Definition plainMap (m : list (string * json)) : bool := forallb (λ e, plainName e.1 && plainNumber e.2) m.
Definition plainDef (d : EnumDef) : bool :=
  plainName (ed_Name d) && plainMap (ed_Values d) && forallb plainName (ed_Tags d).
Definition plainSpec (s : Specifications) : bool :=
  plainMap (sp_Tags s) && forallb plainDef (sp_Enums s) && forallb plainDef (sp_Masks s).

Section Plain.
Context (tc : TitleCaser) (fc : FloatConv) (Htc : titleCaserOk tc) (Hfc : FloatConvLaws fc).

Lemma parseUint32_plain j : plainNumber j = true → @parseUint32 fc j = @parseUint32 goConv j.
Proof.
  destruct j; try done. cbn [plainNumber parseUint32]. unfold floatTo.
  destruct (floatTrunc d) as [z|]; [|done]. cbn [from_option default]. intros [H1 H2]%andb_prop.
  assert (is_u32 z) as Hz by (unfold is_u32; lia). cbn. f_equal.
  rewrite (Hfc KUint32 z) by done. unfold ofFloat, goConv. by rewrite u32_id.
Qed.

Lemma tagVals_plain m : plainMap m = true → @tagVals tc fc m = @tagVals asciiCaser goConv m.
Proof.
  induction m as [|[k v] m IH]; [done|]. cbn [plainMap forallb fst snd tagVals]. intros [[H1 H2]%andb_prop Hm]%andb_prop.
  by rewrite parseUint32_plain, IH, (NormalizeName_caser tc) by done.
Qed.

Lemma distinct_plain m : plainMap m = true → @distinct tc fc m = @distinct asciiCaser goConv m.
Proof. intros Hm. unfold distinct. by rewrite tagVals_plain. Qed.

Lemma toEnumVal_plain b d : plainDef d = true → @toEnumVal tc fc b d = @toEnumVal asciiCaser goConv b d.
Proof.
  intros [[H1 H2]%andb_prop H3]%andb_prop. unfold toEnumVal.
  rewrite (NormalizeName_caser tc), tagVals_plain by done.
  assert (@NormalizeName tc <$> ed_Tags d = @NormalizeName asciiCaser <$> ed_Tags d) as ->; [|done].
  clear H1 H2. induction (ed_Tags d) as [|t l IH]; [done|]. cbn [forallb] in H3. apply andb_prop in H3 as [Ht Hl].
  cbn [fmap list_fmap]. f_equal; [by apply NormalizeName_caser|by apply IH].
Qed.

Lemma toEnumVals_plain wrap b l : forallb plainDef l = true →
  @toEnumVals tc fc wrap b l = @toEnumVals asciiCaser goConv wrap b l.
Proof.
  induction l as [|d l IH]; [done|]. cbn [forallb toEnumVals]. intros [Hd Hl]%andb_prop.
  by rewrite toEnumVal_plain, IH.
Qed.

Lemma genCode_plain s : plainSpec s = true → @genCode tc fc s = @genCode asciiCaser goConv s.
Proof.
  intros [[H1 H2]%andb_prop H3]%andb_prop. unfold genCode, prepareInput.
  by rewrite tagVals_plain, !toEnumVals_plain by done.
Qed.

Lemma specDistinct_plain s : plainSpec s = true → @specDistinct tc fc s = @specDistinct asciiCaser goConv s.
Proof.
  intros [[H1 H2]%andb_prop H3]%andb_prop. unfold specDistinct. rewrite distinct_plain by done.
  assert (∀ l, forallb plainDef l = true → forallb (λ d, @distinct tc fc (ed_Values d)) l =
    forallb (λ d, @distinct asciiCaser goConv (ed_Values d)) l) as Hl.
  { induction l as [|d l IH]; [done|]. cbn [forallb]. intros [[[_ Hd]%andb_prop _]%andb_prop Hl]%andb_prop.
    by rewrite distinct_plain, IH. }
  by rewrite !Hl.
Qed.

(** A specification whose output was computed once. *)
Lemma generated name j p : @run asciiCaser goConv name j = Ok (Some p) →
  from_option (λ s, plainSpec s && @specDistinct asciiCaser goConv s) false (decodeSpecifications name j) = true →
  ∃ e, decodeSpecifications name j = Some e ∧ ∀ s, sameSpec s e → @genCode tc fc s = Ok p.
Proof.
  unfold run. destruct (decodeSpecifications name j) as [e|]; [|done]. cbn [from_option].
  intros Hr [Hp Hd]%andb_prop. exists e. split; [done|]. intros s Hs.
  rewrite (genCode_perm s e), genCode_plain; [|done|done|by rewrite specDistinct_plain].
  destruct (@genCode asciiCaser goConv e); [congruence|done..].
Qed.

End Plain.

Lemma run_kmip14 : @run asciiCaser goConv "kmip14" kmip_1_4 = Ok (Some Kmip14.package).
Proof. vm_compute. reflexivity. Qed.
Lemma run_kmip20 : @run asciiCaser goConv "kmip20" kmip_2_0_additions = Ok (Some Kmip20.package).
Proof. vm_compute. reflexivity. Qed.
Lemma plain_kmip14 : from_option (λ s, plainSpec s && @specDistinct asciiCaser goConv s) false
  (decodeSpecifications "kmip14" kmip_1_4) = true.
Proof. vm_compute. reflexivity. Qed.
Lemma plain_kmip20 : from_option (λ s, plainSpec s && @specDistinct asciiCaser goConv s) false
  (decodeSpecifications "kmip20" kmip_2_0_additions) = true.
Proof. vm_compute. reflexivity. Qed.

(** * Properties *)

(** C23. The generated packages are what the generator makes of the
    specifications: from kmip_1_4.json and kmip_2_0_additions.json, and whatever
    order the maps are visited in, [genCode] declares exactly the constants,
    names and registrations of the packages kmip14 and kmip20. *)
Theorem genCode_generated (tc : TitleCaser) (fc : FloatConv) :
  titleCaserOk tc → FloatConvLaws fc →
  (∃ e, decodeSpecifications "kmip14" kmip_1_4 = Some e ∧ ∀ s, sameSpec s e → genCode s = Ok Kmip14.package) ∧
  (∃ e, decodeSpecifications "kmip20" kmip_2_0_additions = Some e ∧ ∀ s, sameSpec s e → genCode s = Ok Kmip20.package).
Proof.
  intros Htc Hfc. split; [exact (generated tc fc Htc Hfc _ _ _ run_kmip14 plain_kmip14)|].
  exact (generated tc fc Htc Hfc _ _ _ run_kmip20 plain_kmip20).
Qed.

Lemma genCode_generated_witness :
  (∃ e, decodeSpecifications "kmip14" kmip_1_4 = Some e ∧
    ∀ s, sameSpec s e → @genCode asciiCaser goConv s = Ok Kmip14.package) ∧
  (∃ e, decodeSpecifications "kmip20" kmip_2_0_additions = Some e ∧
    ∀ s, sameSpec s e → @genCode asciiCaser goConv s = Ok Kmip20.package).
Proof.
  apply genCode_generated; [intros w _; reflexivity|].
  intros k z Hk. destruct k; [by apply i32_id|by apply i64_id|by apply u32_id].
Defined.
