(* ===== verification/Ppkmip.v ===== *)
(** The pretty printer src/cmd/ppkmip/main.go: from the flags and the file,
    argument or standard input to standard output and the exit status. *)
From Stdlib Require Import ZArith Lia Strings.Byte Ascii String.
From stdpp Require Import base list strings numbers gmap.
From S2P Require Import Prelude Ttlv Grammar EncBuf Blocks Hex Names Registry Formatting Json JsonCodec Printer XmlCodec.
Local Open Scope Z_scope.

(** The errors that end the program with status 1. *)
Inductive pperr : Type :=
  | FailParseJSON
  | FailParseXML
  | FailPrint (e : terr)
  | FailPrintJSON (e : jerr)
  | FailPrintXML (e : xerr)
  | FailFormat (inFormat : string)
  | FailReadFile
  | FailReadStdin.

(** What the program wrote, and how it ended. *)
Definition outcome : Type := string * res pperr unit.

(** The text form of XML tokens is the business of encoding/xml: reading gives
    the tokens up to the end or to a syntax error, writing is
    [xml.MarshalIndent]. *)
Class XmlText := {
  readTokens : string → list xmlToken * bool;
  writeTokens : list xmlToken → string;
}.

(** [json.Indent(b, "", "  ")] of a compact text. *)
Fixpoint indentJSON (depth : nat) (inString needIndent : bool) (s : string) : string :=
  let spaces n := String.concat "" (replicate n "  "%string) in
  match s with
  | EmptyString => EmptyString
  | String c s =>
      let close := (c =? "]")%char || (c =? "}")%char in
      if inString then
        if (c =? "\")%char then
          match s with
          | String c' s => String c (String c' (indentJSON depth true false s))
          | EmptyString => String c EmptyString
          end
        else String c (indentJSON depth (negb (c =? quote)%char) false s)
      else
        let depth := if needIndent && negb close then S depth else depth in
        (if needIndent && negb close then newline +:+ spaces depth else EmptyString) +:+
        (if (c =? "{")%char || (c =? "[")%char then String c (indentJSON depth false true s)
         else if (c =? ",")%char then String c (newline +:+ spaces depth +:+ indentJSON depth false false s)
         else if (c =? ":")%char then String c (String " " (indentJSON depth false false s))
         else if close then
           if needIndent then String c (indentJSON depth false false s)
           else newline +:+ spaces (pred depth) +:+ String c (indentJSON (pred depth) false false s)
         else String c (indentJSON depth (c =? quote)%char false s))
  end.

Example indent_ex : indentJSON 0 false false (dq "{`tag`:`X:,`,`value`:[]}") =
  dq ("{" +:+ newline +:+ "  `tag`: `X:,`," +:+ newline +:+ "  `value`: []" +:+ newline +:+ "}").
Proof. vm_compute. reflexivity. Qed.

Section Ppkmip.
Context `{TitleCaser} `{FloatConv} `{XmlText} (dflt : Registry).

Definition ofResult {E} (f : E → pperr) (r : res E string) : outcome :=
  match r with
  | Ok s => (s, Ok tt)
  | Err e => (EmptyString, Err (f e))
  | Panic => (EmptyString, Panic)
  | OutOfFuel => (EmptyString, OutOfFuel)
  end.

(** [printTTLV(outFormat, raw, count)]; a format it does not know prints
    nothing. *)
Definition printTTLV (outFormat : string) (raw : TTLV) (count : Z) : outcome :=
  let '(text, result) :=
    if String.eqb outFormat "text" then
      let '(text, result) := Print dflt "" "  " raw in (text, liftErr FailPrint result)
    else if String.eqb outFormat "json" then
      ofResult FailPrintJSON (indentJSON 0 false false <$> TTLV_MarshalJSON dflt raw)
    else if String.eqb outFormat "xml" then
      ofResult FailPrintXML ((λ e, writeTokens (xe_out e)) <$> xmlEncode (TTLV_MarshalXML dflt raw) newXmlEncoder)
    else if String.eqb outFormat "hex" then (hexEncodeToString raw, Ok tt)
    else if String.eqb outFormat "prettyhex" then ofResult FailPrint (PrintPrettyHex "" "  " raw)
    else (EmptyString, Ok tt) in
  ((if 0 <? count then newline else EmptyString) +:+ text, result).

(** A message, then the rest of the loop. *)
Definition andThen (o : outcome) (rest : unit → outcome) : outcome :=
  match o with
  | (text, Ok _) => let '(text', result) := rest tt in (text +:+ text', result)
  | _ => o
  end.

(** [for len(raw) > 0]: the slice goes on to the end of the input. *)
Fixpoint hexLoop (fuel : nat) (outFormat : string) (raw : TTLV) (count : Z) : outcome :=
  if len raw =? 0 then (EmptyString, Ok tt)
  else match fuel with
  | O => (EmptyString, OutOfFuel)
  | S fuel =>
      andThen (printTTLV outFormat raw count) (λ _,
        match TTLV_Next raw with
        | Ok nx => hexLoop fuel outFormat (bytesOf nx) (count + 1)
        | Err e => (EmptyString, Err (FailPrint e))
        | Panic => (EmptyString, Panic)
        | OutOfFuel => (EmptyString, OutOfFuel)
        end)
  end.

(** The values of a JSON stream, one after the other. *)
Fixpoint jsonLoop (fuel : nat) (outFormat input : string) (count : Z) : outcome :=
  match skipSpace input with
  | EmptyString => (EmptyString, Ok tt)
  | _ =>
      match fuel with
      | O => (EmptyString, OutOfFuel)
      | S fuel =>
          match parseValue (2 * String.length input + 2) maxNestingDepth input with
          | None => (EmptyString, Err FailParseJSON)
          | Some (j, rest) =>
              match unmarshalTree dflt (jsonDepth j) j TagNone with
              | Ok raw => andThen (printTTLV outFormat raw count) (λ _, jsonLoop fuel outFormat rest (count + 1))
              | Err _ => (EmptyString, Err FailParseJSON)
              | Panic => (EmptyString, Panic)
              | OutOfFuel => (EmptyString, OutOfFuel)
              end
          end
      end
  end.

(** The elements of an XML document, one after the other. *)
Fixpoint xmlLoop (fuel : nat) (outFormat : string) (toks : list xmlToken) (broken : bool) (count : Z) : outcome :=
  match fuel with
  | O => (EmptyString, OutOfFuel)
  | S fuel =>
      match toks with
      | [] => (EmptyString, if broken then Err FailParseXML else Ok tt)
      | XStart name attrs :: rest =>
          match TTLV_UnmarshalXML dflt name attrs rest with
          | Ok (raw, rest) => andThen (printTTLV outFormat raw count) (λ _, xmlLoop fuel outFormat rest broken (count + 1))
          | Err _ => (EmptyString, Err FailParseXML)
          | Panic => (EmptyString, Panic)
          | OutOfFuel => (EmptyString, OutOfFuel)
          end
      | XOther :: rest => xmlLoop fuel outFormat rest broken count
      | XEnd _ :: _ => (EmptyString, Err FailParseXML)
      end
  end.

(** [buf.Bytes()[0]] panics when there is no input. *)
Definition detect (input : string) : res pperr string :=
  match input with
  | EmptyString => Panic
  | String c _ =>
      if (c =? "[")%char || (c =? "{")%char then Ok "json"%string
      else if (c =? "<")%char then Ok "xml"%string else Ok "hex"%string
  end.

Definition ppkmip (inFormat outFormat input : string) : outcome :=
  let outFormat := lowerString outFormat in
  let outFormat := if String.eqb outFormat "" then "text"%string else outFormat in
  match (if String.eqb inFormat "" then detect input else Ok inFormat) with
  | Ok format =>
      if String.eqb (lowerString format) "json" then jsonLoop (String.length input) outFormat input 0
      else if String.eqb (lowerString format) "xml" then
        let '(toks, broken) := readTokens input in xmlLoop (S (length toks)) outFormat toks broken 0
      else if String.eqb (lowerString format) "hex" then
        match Hex2bytes input with
        | Ok raw => hexLoop (length raw) outFormat raw 0
        | _ => (EmptyString, Panic)
        end
      else (EmptyString, Err (FailFormat format))
  | Err e => (EmptyString, Err e)
  | Panic => (EmptyString, Panic)
  | OutOfFuel => (EmptyString, OutOfFuel)
  end.

(** * Where the input comes from *)

(** A line as [bufio.ScanLines] hands it out: without a carriage return at its
    end. *)
Fixpoint dropCR (s : string) : string :=
  match s with
  | EmptyString => EmptyString
  | String c EmptyString => if (c =? ascii_of_nat 13)%char then EmptyString else s
  | String c s => String c (dropCR s)
  end.

(** [bufio.MaxScanTokenSize]: a line that fills the buffer is an error. *)
Definition MaxScanTokenSize : Z := 64 * 1024.

(** [for scanner.Scan() { buf.Write(scanner.Bytes()) }]: the lines without
    their ends, one behind the other; [line] is what was read of the line, [n]
    its length.  [None] is [bufio.ErrTooLong]. *)
Fixpoint scanLines (line : string) (n : Z) (s : string) : option string :=
  match s with
  | EmptyString => Some (dropCR line)
  | String c s =>
      if (c =? ascii_of_nat 10)%char then rest ← scanLines EmptyString 0 s; Some (dropCR line +:+ rest)
      else if n + 1 <? MaxScanTokenSize then scanLines (snoc line c) (n + 1) s
      else None
  end.

(** The parsed command line: [-i], [-o], [-f] and the argument. *)
Record flags := mkFlags {
  fl_inFormat : string;
  fl_outFormat : string;
  fl_inFile : string;
  fl_arg : string;
}.

(** [files] is what [os.ReadFile] finds, [stdin] standard input. *)
Definition readInput (fl : flags) (files : string → option string) (stdin : string) : res pperr string :=
  if negb (String.eqb (fl_inFile fl) "") then
    match files (fl_inFile fl) with Some text => Ok text | None => Err FailReadFile end
  else if negb (String.eqb (fl_arg fl) "") then Ok (fl_arg fl)
  else match scanLines EmptyString 0 stdin with Some text => Ok text | None => Err FailReadStdin end.

Definition main (fl : flags) (files : string → option string) (stdin : string) : outcome :=
  match readInput fl files stdin with
  | Ok input => ppkmip (fl_inFormat fl) (fl_outFormat fl) input
  | Err e => (EmptyString, Err e)
  | Panic => (EmptyString, Panic)
  | OutOfFuel => (EmptyString, OutOfFuel)
  end.

End Ppkmip.

Section Proofs.
Context {tc : TitleCaser} {fc : FloatConv} {xt : XmlText} (r : Registry).

(** The loop over the messages of a hex input. *)
Lemma hexLoop_block it blk body outFormat count fuel : Denotes it blk →
  hexLoop r (S fuel) outFormat (blk ++ body) count =
  andThen (printTTLV r outFormat (blk ++ body) count) (λ _, hexLoop r fuel outFormat body (count + 1)).
Proof.
  intros Hd. cbn [hexLoop]. pose proof (block_length it blk Hd).
  rewrite len_app, (proj2 (Z.eqb_neq _ _)) by (unfold len; lia). rewrite (block_Next it) by done.
  by rewrite bytesOf_nonNil.
Qed.

Lemma hexLoop_end outFormat count fuel : hexLoop r fuel outFormat [] count = (EmptyString, Ok tt).
Proof. by destruct fuel. Qed.

Lemma prettyhex_loop items body count fuel : DenotesSeq items body → (length body ≤ fuel)%nat →
  ∃ text, hexLoop r fuel "prettyhex" body count = (text, Ok tt) ∧ stripNonHex text = hexEncodeToString body.
Proof.
  intros Hs. revert count fuel. induction Hs as [|it items blk body Hd Hs IH]; intros count fuel Hf.
  { rewrite hexLoop_end. by eexists. }
  pose proof (block_length it blk Hd). rewrite length_app in Hf. destruct fuel as [|fuel]; [lia|].
  rewrite (hexLoop_block it) by done.
  destruct (pretty_block it blk "  " Hd eq_refl (S (length (blk ++ body))) "" body) as (s & Hp & Hstrip);
    [rewrite length_app; lia|done|].
  destruct (IH (count + 1) fuel ltac:(lia)) as (text & Hl & Ht).
  unfold printTTLV. cbn [String.eqb Ascii.eqb Bool.eqb]. unfold PrintPrettyHex. rewrite Hp. cbn [ofResult andThen].
  rewrite Hl. eexists. split; [done|]. rewrite !strip_app, Hstrip, Ht, hexEncode_app.
  by destruct (0 <? count).
Qed.

Lemma ppkmip_hex outFormat input raw : Hex2bytes input = Ok raw →
  ppkmip r "hex" outFormat input =
  hexLoop r (length raw) (if String.eqb (lowerString outFormat) "" then "text" else lowerString outFormat)%string raw 0.
Proof. intros Hx. unfold ppkmip. cbn [lowerString String.eqb]. by rewrite Hx. Qed.

Lemma hex_two it1 blk1 it2 blk2 : Denotes it1 blk1 → Denotes it2 blk2 →
  hexLoop r (length (blk1 ++ blk2)) "hex" (blk1 ++ blk2) 0 =
    (hexEncodeToString (blk1 ++ blk2) +:+ newline +:+ hexEncodeToString blk2, Ok tt).
Proof.
  intros H1 H2. pose proof (block_length it1 blk1 H1). pose proof (block_length it2 blk2 H2). rewrite length_app.
  destruct (length blk1 + length blk2)%nat as [|[|n]] eqn:E; [lia..|].
  rewrite (hexLoop_block it1) by done. pose proof (hexLoop_block it2 blk2 [] "hex" 1 n H2) as Hb.
  rewrite app_nil_r, hexLoop_end in Hb. unfold printTTLV in *.
  cbn [String.eqb Ascii.eqb Bool.eqb andThen Z.ltb Z.compare] in *. change (0 + 1) with 1. rewrite Hb.
  by rewrite app_empty_r, app_empty_l.
Qed.

End Proofs.

(** * Standard input *)

Lemma strip_snoc s c : stripNonHex (snoc s c) = stripNonHex s +:+ stripNonHex (String c EmptyString).
Proof. rewrite <- strip_app. f_equal. induction s as [|a s IH]; [done|]. cbn. by rewrite IH. Qed.

Lemma strip_dropCR s : stripNonHex (dropCR s) = stripNonHex s.
Proof.
  induction s as [|c s IH]; [done|]. destruct s as [|c' s].
  - cbn [dropCR]. destruct (c =? ascii_of_nat 13)%char eqn:Hc; [|done]. by apply Ascii.eqb_eq in Hc as ->.
  - change (dropCR (String c (String c' s))) with (String c (dropCR (String c' s))).
    revert IH. unfold stripNonHex. cbn [filterString]. by intros ->.
Qed.

(** Reading line by line keeps the hex digits. *)
Lemma scanLines_strip line n s text : scanLines line n s = Some text →
  stripNonHex text = stripNonHex line +:+ stripNonHex s.
Proof.
  revert line n text. induction s as [|c s IH]; intros line n text; cbn [scanLines].
  { intros [= <-]. by rewrite strip_dropCR, app_empty_r. }
  destruct (c =? ascii_of_nat 10)%char eqn:Hc.
  - apply Ascii.eqb_eq in Hc as ->. intros (rest & Hr & [= <-])%bind_Some. apply IH in Hr.
    by rewrite strip_app, strip_dropCR, Hr.
  - destruct (n + 1 <? MaxScanTokenSize); [|done]. intros Hs%IH. rewrite Hs, strip_snoc.
    change (String c s) with (String c EmptyString +:+ s). by rewrite strip_app, app_assoc_s.
Qed.

(** The length of the longest line. *)
Fixpoint longestLine (n : Z) (s : string) : Z :=
  match s with
  | EmptyString => n
  | String c s => if (c =? ascii_of_nat 10)%char then Z.max n (longestLine 0 s) else longestLine (n + 1) s
  end.

Lemma longestLine_ge n s : n ≤ longestLine n s.
Proof.
  revert n. induction s as [|c s IH]; intros n; cbn [longestLine]; [lia|].
  destruct (_ =? _)%char; [lia|]. specialize (IH (n + 1)). lia.
Qed.

Lemma scanLines_defined line n s : n < MaxScanTokenSize →
  is_Some (scanLines line n s) ↔ longestLine n s < MaxScanTokenSize.
Proof.
  revert line n. induction s as [|c s IH]; intros line n Hn; cbn [scanLines longestLine]; [split; eauto|].
  destruct (_ =? _)%char.
  - specialize (IH EmptyString 0 ltac:(done)). destruct (scanLines EmptyString 0 s).
    + split; [intros _; apply Z.max_lub_lt; [done|by apply IH]|by eexists].
    + split; [by intros []|]. intros Hl. assert (longestLine 0 s < MaxScanTokenSize) as Hx%IH by lia. by destruct Hx.
  - destruct (n + 1 <? MaxScanTokenSize) eqn:Hl; [apply IH; lia|].
    split; [by intros []|]. pose proof (longestLine_ge (n + 1) s). lia.
Qed.

(** * Properties *)

(** C38. The prettyhex output is valid hex input, as the usage text says, as
    long as its lines are short: for any sequence of messages the program
    prints it without an error, and piped into the program it gives, in every
    output format, what the original input gives, unless a line is 64 KB or
    longer, as it is for a value of 32 KB, on which reading standard input fails. *)
Theorem prettyhex_pipeline (tc : TitleCaser) (fc : FloatConv) (xt : XmlText) r items body input fl files stdin :
  readInput fl files stdin = Ok input → fl_inFormat fl = "hex"%string → fl_outFormat fl = "prettyhex"%string →
  Hex2bytes input = Ok body → DenotesSeq items body →
  ∃ text, main r fl files stdin = (text, Ok tt) ∧
    ∀ outFormat files', main r (mkFlags "hex" outFormat "" "") files' text =
      if longestLine 0 text <? MaxScanTokenSize then ppkmip r "hex" outFormat input
      else (EmptyString, Err FailReadStdin).
Proof.
  intros Hin Hi Ho Hx Hs. destruct (prettyhex_loop r items body 0 (length body) Hs) as (text & Hl & Ht); [lia|].
  exists text. unfold main at 1. rewrite Hin, Hi, Ho. split; [by rewrite (ppkmip_hex r _ _ _ Hx)|].
  intros outFormat files'. unfold main, readInput. cbn [fl_inFile fl_arg fl_inFormat fl_outFormat String.eqb negb].
  pose proof (scanLines_defined EmptyString 0 text ltac:(done)) as Hdef.
  destruct (scanLines EmptyString 0 text) as [text'|] eqn:Hscan.
  - rewrite (proj2 (Z.ltb_lt _ _)) by (apply Hdef; by eexists). apply scanLines_strip in Hscan.
    by rewrite (ppkmip_hex r _ _ _ Hx), (ppkmip_hex r _ _ body) by (apply Hex2bytes_strip; by rewrite Hscan).
  - destruct (longestLine 0 text <? MaxScanTokenSize) eqn:Hlong; [|done].
    apply Z.ltb_lt, Hdef in Hlong as []. done.
Qed.

#[local] Instance noXml : XmlText := {| readTokens := λ _, ([], false); writeTokens := λ _, EmptyString |}.

Lemma prettyhex_pipeline_witness :
  let input := hexEncodeToString (sampleBlock ++ sampleInt) in
  ∃ text, @main asciiCaser goConv noXml emptyRegistry (mkFlags "hex" "prettyhex" "" input) (λ _, None) "" = (text, Ok tt) ∧
    ∀ outFormat files', @main asciiCaser goConv noXml emptyRegistry (mkFlags "hex" outFormat "" "") files' text =
      if longestLine 0 text <? MaxScanTokenSize then @ppkmip asciiCaser goConv noXml emptyRegistry "hex" outFormat input
      else (EmptyString, Err FailReadStdin).
Proof.
  apply (prettyhex_pipeline asciiCaser goConv noXml emptyRegistry [sampleItem; IPrim 0x42006a (PInteger (-2))]
    (sampleBlock ++ sampleInt)); [reflexivity|reflexivity|reflexivity|..].
  - apply Hex2bytes_strip, strip_hex.
  - rewrite <- (app_nil_r sampleInt). constructor; [exact sampleBlock_denotes|].
    constructor; [exact sampleInt_denotes|constructor].
Defined.

(** The hex output repeats messages: each message is printed together
    with all the messages behind it, so that two messages come out as the two
    of them and then the second one again. *)
Theorem hex_output_repeats (tc : TitleCaser) (fc : FloatConv) (xt : XmlText) r it1 blk1 it2 blk2 input :
  Denotes it1 blk1 → Denotes it2 blk2 → Hex2bytes input = Ok (blk1 ++ blk2) →
  ppkmip r "hex" "hex" input =
    (hexEncodeToString (blk1 ++ blk2) +:+ newline +:+ hexEncodeToString blk2, Ok tt).
Proof. intros H1 H2 Hx. rewrite (ppkmip_hex r _ _ _ Hx). by apply (hex_two r it1 blk1 it2 blk2). Qed.

Lemma hex_output_repeats_witness :
  @ppkmip asciiCaser goConv noXml emptyRegistry "hex" "hex" (hexEncodeToString (sampleBlock ++ sampleInt)) =
    (hexEncodeToString (sampleBlock ++ sampleInt) +:+ newline +:+ hexEncodeToString sampleInt, Ok tt).
Proof.
  apply (hex_output_repeats asciiCaser goConv noXml emptyRegistry sampleItem sampleBlock
    (IPrim 0x42006a (PInteger (-2))) sampleInt).
  - exact sampleBlock_denotes.
  - exact sampleInt_denotes.
  - apply Hex2bytes_strip, strip_hex.
Defined.
