(* ===== verification/PpkmipJson.v ===== *)
(** JSON through the printer: the indented text that src/cmd/ppkmip writes is
    read back by it, as an argument, from a file or line by line from standard
    input.  A JSON text is cut into tokens; white space between them, put there
    by [json.Indent] or taken away by the line scanner, does not matter. *)
From Stdlib Require Import ZArith Lia Strings.Byte Ascii String.
From stdpp Require Import base list strings numbers gmap.
From S2P Require Import Prelude Ttlv Grammar EncBuf Blocks Hex Names Registry Formatting FormatText DefaultRegistry GoTime Json JsonCodec JsonRoundtrip Printer XmlCodec Ppkmip.
Local Open Scope Z_scope.

(** * Tokens *)

Abbreviation spaces w := (forallString isSpace w = true).

(** The tokens in order, with white space in front of each. *)
Inductive spaced : list string → string → Prop :=
  | spaced_nil : spaced [] EmptyString
  | spaced_cons w t toks s : spaces w → spaced toks s → spaced (t :: toks) (w +:+ t +:+ s).

Lemma spaces_app a b : spaces a → spaces b → spaces (a +:+ b).
Proof. intros Ha Hb. by rewrite forallString_app, Ha, Hb. Qed.

Lemma spaced_app a b s : spaced (a ++ b) s → ∃ s1 s2, s = s1 +:+ s2 ∧ spaced a s1 ∧ spaced b s2.
Proof.
  revert s. induction a as [|t a IH]; intros s Hs; cbn [app] in Hs.
  { exists EmptyString, s. split_and!; [done|constructor|done]. }
  inversion Hs as [|w ? ? s' Hw Hs']; subst. destruct (IH s' Hs') as (s1 & s2 & -> & H1 & H2).
  exists (w +:+ t +:+ s1), s2. split_and!; [by rewrite !app_assoc_s|by constructor|done].
Qed.

Lemma spaced_join a b s1 s2 : spaced a s1 → spaced b s2 → spaced (a ++ b) (s1 +:+ s2).
Proof. intros Ha Hb. induction Ha as [|w t a s1 Hw _ IH]; [done|]. rewrite !app_assoc_s. by constructor. Qed.

Lemma spaced_front toks w s : toks ≠ [] → spaces w → spaced toks s → spaced toks (w +:+ s).
Proof.
  intros Hne Hw Hs. inversion Hs as [|w' t toks' s' Hw' Hs']; subst; [done|]. rewrite <- app_assoc_s.
  constructor; [by apply spaces_app|done].
Qed.

Section Tokens.
Context {tc : TitleCaser} (r : Registry).

Fixpoint commaTokens (l : list (list string)) : list string :=
  match l with
  | [] => []
  | toks :: l => toks ++ match l with [] => [] | _ => ["," : string]%string end ++ commaTokens l
  end.

Fixpoint itemTokens (et : Z) (it : item) : list string :=
  match it with
  | IPrim tag p =>
      ["{"; quoted "tag"; ":"; quoted (Tag_String r tag); ","; quoted "type"; ":"; quoted (Type_String r (primType p));
       ","; quoted "value"; ":"; primText r et p; "}"]%string
  | IStructure tag items =>
      ["{"; quoted "tag"; ":"; quoted (Tag_String r tag); ","; quoted "value"; ":"; "["]%string ++
      commaTokens (mapAttr r itemTokens TagNone items) ++ ["]"; "}"]%string
  end.

Definition concatTokens : list string → string := foldr String.append EmptyString.

Lemma concatTokens_app a b : concatTokens (a ++ b) = concatTokens a +:+ concatTokens b.
Proof. induction a as [|t a IH]; [done|]. cbn. rewrite app_assoc_s. f_equal. exact IH. Qed.

Lemma commaTokens_text items attr :
  Forall (λ it, ∀ et, concatTokens (itemTokens et it) = itemText r et it) items →
  concatTokens (commaTokens (mapAttr r itemTokens attr items)) = commas (mapAttr r (itemText r) attr items).
Proof.
  intros Hall. revert attr. induction Hall as [|it items Hit Hall IH]; intros attr; [done|].
  cbn [mapAttr commaTokens commas]. fold (mapAttr r itemTokens). fold (mapAttr r (itemText r)).
  rewrite !concatTokens_app, Hit, IH. f_equal. f_equal. by destruct items.
Qed.

Lemma itemTokens_text it et : concatTokens (itemTokens et it) = itemText r et it.
Proof.
  revert et. induction it as [tag p|tag items IH] using item_ind'; intros et.
  - rewrite <- (app_empty_r (itemText r et _)), itemText_prim. cbn [itemTokens concatTokens foldr]. by rewrite !quoted_app.
  - rewrite <- (app_empty_r (itemText r et _)), itemText_structure. cbn [itemTokens].
    rewrite !concatTokens_app, commaTokens_text by done. cbn [concatTokens foldr]. rewrite !app_assoc_s. by rewrite !quoted_app.
Qed.
End Tokens.

(** * Parsing spaced tokens *)

Lemma skipSpace_app w s : spaces w → skipSpace (w +:+ s) = skipSpace s.
Proof.
  intros Hw. induction w as [|c w IH]; [done|]. cbn in Hw. apply andb_prop in Hw as [Hc Hw].
  rewrite append_cons. cbn [skipSpace]. rewrite Hc. by apply IH.
Qed.

Lemma parseValue_front f depth w s : spaces w → parseValue f depth (w +:+ s) = parseValue f depth s.
Proof. intros Hw. destruct f; [done|]. cbn [parseValue]. by rewrite skipSpace_app. Qed.

Lemma parseElements_front f depth w s : spaces w → parseElements f depth (w +:+ s) = parseElements f depth s.
Proof. intros Hw. destruct f; [done|]. cbn [parseElements]. by rewrite parseValue_front. Qed.

Lemma parseMembers_front f depth w s : spaces w → parseMembers f depth (w +:+ s) = parseMembers f depth s.
Proof. intros Hw. destruct f; [done|]. cbn [parseMembers]. by rewrite skipSpace_app. Qed.

(** A member and what follows it. *)
Lemma parseMembers_spaced f depth w0 k w1 wv v j w2 c rest :
  spaces w0 → plain k → spaces w1 → spaces wv → spaces w2 → isSpace c = false →
  parseValue f depth (v +:+ w2 +:+ String c rest) = Some (j, w2 +:+ String c rest) →
  parseMembers (S f) depth (w0 +:+ quoted k +:+ w1 +:+ String ":" (wv +:+ v +:+ w2 +:+ String c rest)) =
    if (c =? "}")%char then Some ([(k, j)], rest)
    else if (c =? ",")%char then '(l, rest) ← parseMembers f depth rest; Some ((k, j) :: l, rest)
    else None.
Proof.
  intros Hw0 Hk Hw1 Hwv Hw2 Hc Hv. rewrite parseMembers_front by done. rewrite quoted_app. cbn [parseMembers].
  change (literal quote (skipSpace (String quote ?t))) with (Some t). cbn [mbind option_bind].
  rewrite parse_plain by (done || rewrite length_append; cbn [String.length]; lia). cbn [mbind option_bind].
  rewrite skipSpace_app by done. change (literal ":" (skipSpace (String ":" ?t))) with (Some t). cbn [mbind option_bind].
  rewrite parseValue_front, Hv by done. cbn [mbind option_bind]. rewrite skipSpace_app by done. cbn [skipSpace]. by rewrite Hc.
Qed.

Lemma parseElements_spaced f depth v j w c rest : spaces w → isSpace c = false →
  parseValue f depth (v +:+ w +:+ String c rest) = Some (j, w +:+ String c rest) →
  parseElements (S f) depth (v +:+ w +:+ String c rest) =
    if (c =? "]")%char then Some ([j], rest)
    else if (c =? ",")%char then '(l, rest) ← parseElements f depth rest; Some (j :: l, rest)
    else None.
Proof.
  intros Hw Hc Hv. cbn [parseElements]. rewrite Hv. cbn [mbind option_bind]. rewrite skipSpace_app by done.
  cbn [skipSpace]. by rewrite Hc.
Qed.

Lemma parse_object_spaced f depth w k t l rest : spaces w → parseMembers f depth (w +:+ quoted k +:+ t) = Some (l, rest) →
  parseValue (S f) (S depth) (String "{" (w +:+ quoted k +:+ t)) = Some (JObject l, rest).
Proof.
  intros Hw Hm. cbn [parseValue]. change (skipSpace (String "{" ?t)) with (String "{" t). cbv iota.
  change ("{" =? quote)%char with false. change ("{" =? "[")%char with false. change ("{" =? "{")%char with true.
  cbv iota. rewrite skipSpace_app by done. rewrite quoted_app in *.
  change (literal "}" (skipSpace (String quote ?t))) with (@None string). cbv iota. by rewrite Hm.
Qed.

Lemma parse_array_spaced f depth w c t l rest : spaces w → isSpace c = false → (c =? "]")%char = false →
  parseElements f depth (String c t) = Some (l, rest) →
  parseValue (S f) (S depth) (String "[" (w +:+ String c t)) = Some (JArray l, rest).
Proof.
  intros Hw Hs Hc Hm. cbn [parseValue]. change (skipSpace (String "[" ?t)) with (String "[" t). cbv iota.
  change ("[" =? quote)%char with false. change ("[" =? "[")%char with true. cbv iota.
  rewrite skipSpace_app by done. cbn [skipSpace]. rewrite Hs. cbn [literal]. rewrite Ascii.eqb_sym, Hc.
  by rewrite parseElements_front, Hm.
Qed.

Lemma parse_array_empty f depth w rest : spaces w →
  parseValue (S f) (S depth) (String "[" (w +:+ String "]" rest)) = Some (JArray [], rest).
Proof.
  intros Hw. cbn [parseValue]. change (skipSpace (String "[" ?t)) with (String "[" t). cbv iota.
  change ("[" =? quote)%char with false. change ("[" =? "[")%char with true. cbv iota.
  by rewrite skipSpace_app.
Qed.

(** White space ends a number. *)
Lemma ends_spaced w c rest : spaces w → endsNumber c = true → ∃ c' t, w +:+ String c rest = String c' t ∧ endsNumber c' = true.
Proof.
  intros Hw Hc. destruct w as [|d w]; [by eexists _, _|]. eexists d, _. split; [done|].
  cbn in Hw. apply andb_prop in Hw as [Hd _]. destruct d as [[] [] [] [] [] [] [] []]; by vm_compute in Hd |- *.
Qed.

Lemma spaced_cons_inv t toks s : spaced (t :: toks) s → ∃ w s', s = w +:+ t +:+ s' ∧ spaces w ∧ spaced toks s'.
Proof. inversion 1; subst. by eexists _, _. Qed.
Lemma spaced_nil_inv s : spaced [] s → s = EmptyString.
Proof. by inversion 1. Qed.

Lemma char_app c t : String c EmptyString +:+ t = String c t.
Proof. done. Qed.

(** [tokens_of H] takes a text of known tokens apart. *)
Ltac tokens_of H :=
  repeat (let w := fresh "w" in let s := fresh "s" in let Hw := fresh "Hw" in
          apply spaced_cons_inv in H as (w & s & -> & Hw & H));
  try apply spaced_nil_inv in H as ->;
  rewrite ?app_assoc_s, ?char_app; change (EmptyString +:+ ?t) with t.

Section Parse.
Context {tc : TitleCaser} (r : Registry) `{RegistryLaws r}.

Lemma parse_prim_spaced f depth et p w c rest : primOk p → primJsonOk r et p → spaces w → endsNumber c = true →
  parseValue (S f) depth (primText r et p +:+ w +:+ String c rest) = Some (primTree r et p, w +:+ String c rest).
Proof. intros Hok Hj Hw Hc. destruct (ends_spaced w c rest Hw Hc) as (c' & t & -> & Hc'). by apply parse_prim. Qed.

Lemma parse_prim_item et tag p s f depth rest : itemOk (IPrim tag p) → primJsonOk r et p →
  spaced (itemTokens r et (IPrim tag p)) s →
  parseValue (S (S (S (S (S f))))) (S depth) (s +:+ rest) = Some (itemTree r et (IPrim tag p), rest).
Proof.
  intros Hok Hj Hs. inversion Hok; subst. cbn [itemTokens] in Hs. tokens_of Hs.
  rewrite parseValue_front by done. apply parse_object_spaced; [done|].
  erewrite parseMembers_spaced; [|done..|by apply parse_quoted_plain, plain_Tag]. cbn [Ascii.eqb Bool.eqb].
  erewrite parseMembers_spaced; [|done..|by apply parse_quoted_plain, plain_Type]. cbn [Ascii.eqb Bool.eqb].
  erewrite parseMembers_spaced; [|done..|by apply parse_prim_spaced]. done.
Qed.

Definition parsesSpaced (it : item) : Prop := ∀ et f depth s rest,
  itemOk it → jsonOk r et it → (parseNeed it ≤ f)%nat → (itemDepth it ≤ depth)%nat → spaced (itemTokens r et it) s →
  parseValue f depth (s +:+ rest) = Some (itemTree r et it, rest).

Lemma parse_children_spaced items attr f depth s w rest : Forall parsesSpaced items → items ≠ [] →
  Forall itemOk items → foldr and True (mapAttr r (jsonOk r) attr items) →
  (length items + foldr (λ it n, Nat.max (parseNeed it) n) O items ≤ f)%nat →
  (foldr (λ it n, Nat.max (itemDepth it) n) O items ≤ depth)%nat →
  spaced (commaTokens (mapAttr r (itemTokens r) attr items)) s → spaces w →
  parseElements f depth (s +:+ w +:+ String "]" rest) = Some (mapAttr r (itemTree r) attr items, rest).
Proof.
  intros Hall. revert attr f s. induction Hall as [|it items Hit Hall IH]; [done|].
  intros attr f s _ Hok Hj Hf Hd Hs Hw. apply Forall_cons in Hok as [Hok1 Hok2].
  cbn [mapAttr foldr length commaTokens] in *. destruct Hj as [Hj1 Hj2].
  destruct f as [|f]; [lia|]. fold (mapAttr r (itemTokens r)) in Hs. fold (mapAttr r (itemTree r)).
  fold (mapAttr r (jsonOk r)) in Hj2. apply spaced_app in Hs as (s1 & s2 & -> & Hs1 & Hs2).
  destruct items as [|it2 items].
  - cbn [mapAttr commaTokens app] in Hs2. apply spaced_nil_inv in Hs2 as ->. rewrite app_empty_r.
    erewrite parseElements_spaced; [done|done|done|]. apply Hit; [done|done|lia|lia|done].
  - change (match mapAttr r (itemTokens r) (nextAttr r attr it) (it2 :: items) with [] => [] | _ => [","%string] end)
      with [","%string] in Hs2. cbn [app] in Hs2. apply spaced_cons_inv in Hs2 as (w1 & s3 & -> & Hw1 & Hs3).
    rewrite !app_assoc_s, char_app.
    erewrite parseElements_spaced; [|done|done|apply Hit; [done|done|lia|lia|done]]. cbn [Ascii.eqb Bool.eqb].
    rewrite (IH (nextAttr r attr it) f s3) by (done || lia). done.
Qed.

Lemma commaTokens_first items attr : items ≠ [] →
  ∃ toks, commaTokens (mapAttr r (itemTokens r) attr items) = "{"%string :: toks.
Proof. destruct items as [|[] items]; [done|..]; intros _; cbn; by eexists. Qed.

(** The value of a structure: its items in brackets. *)
Lemma parse_items_spaced items f depth s w rest : Forall parsesSpaced items →
  Forall itemOk items → foldr and True (mapAttr r (jsonOk r) TagNone items) →
  (length items + foldr (λ it n, Nat.max (parseNeed it) n) O items ≤ f)%nat →
  (foldr (λ it n, Nat.max (itemDepth it) n) O items ≤ depth)%nat →
  spaced (commaTokens (mapAttr r (itemTokens r) TagNone items)) s → spaces w →
  parseValue (S f) (S depth) (String "[" (s +:+ w +:+ String "]" rest)) =
    Some (JArray (mapAttr r (itemTree r) TagNone items), rest).
Proof.
  intros Hall Hok Hj Hf Hd Hs Hw. destruct (decide (items = [])) as [->|Hne].
  { cbn in Hs. apply spaced_nil_inv in Hs as ->. by apply parse_array_empty. }
  pose proof (parse_children_spaced items TagNone f depth s w rest Hall Hne Hok Hj Hf Hd Hs Hw) as Hp.
  destruct (commaTokens_first items TagNone Hne) as [toks Ht]. rewrite Ht in Hs.
  apply spaced_cons_inv in Hs as (w1 & s' & -> & Hw1 & _). rewrite !app_assoc_s, char_app in *.
  rewrite parseElements_front in Hp by done. by apply parse_array_spaced.
Qed.

Lemma parse_spaced it : parsesSpaced it.
Proof.
  induction it as [tag p|tag items IH] using item_ind'; intros et f depth s rest Hok Hj Hf Hd Hs;
    cbn [parseNeed itemDepth] in *.
  - destruct f as [|[|[|[|[|f]]]]]; [lia..|]. destruct depth as [|depth]; [lia|]. by apply parse_prim_item.
  - apply itemOk_inv in Hok as (Ht & Hok & Hl). cbn [jsonOk itemTree itemTokens] in *.
    destruct f as [|[|[|[|[|f]]]]]; [lia..|]. destruct depth as [|[|depth]]; [lia..|].
    apply spaced_app in Hs as (s1 & s2 & -> & Hs1 & Hs2). apply spaced_app in Hs2 as (s3 & s4 & -> & Hs3 & Hs4).
    tokens_of Hs1. tokens_of Hs4. rewrite parseValue_front by done. apply parse_object_spaced; [done|].
    erewrite parseMembers_spaced; [|done..|by apply parse_quoted_plain, plain_Tag]. cbn [Ascii.eqb Bool.eqb].
    pose proof (parse_items_spaced items (S f) depth s3 w7 (w8 +:+ String "}" rest) IH Hok Hj
      ltac:(lia) ltac:(lia) Hs3 Hw7) as Hp.
    assert (String "[" (s3 +:+ w7 +:+ String "]" (w8 +:+ String "}" rest)) =
      String "[" (s3 +:+ w7 +:+ String "]" EmptyString) +:+ w8 +:+ String "}" rest) as Hv.
    { rewrite append_cons, !app_assoc_s. done. }
    rewrite Hv in *. erewrite parseMembers_spaced; [|done..|exact Hp]. done.
Qed.
End Parse.

(** * Indentation *)

(** A piece of a string literal that [json.Indent] leaves alone. *)
Definition copied (p : string) : Prop :=
  ∀ d s, indentJSON d true false (p +:+ s) = p +:+ indentJSON d true false s.

Lemma copied_app a b : copied a → copied b → copied (a +:+ b).
Proof. intros Ha Hb d s. by rewrite !app_assoc_s, Ha, Hb. Qed.

Definition literalChar (c : ascii) : bool := negb (c =? quote)%char && negb (c =? "\")%char.

Lemma copied_char c : literalChar c = true → copied (String c EmptyString).
Proof.
  intros [Hq%negb_true_iff Hb%negb_true_iff]%andb_prop d s. rewrite !char_app. cbn [indentJSON]. by rewrite Hb, Hq.
Qed.
Lemma copied_literal s : forallString literalChar s = true → copied s.
Proof.
  induction s as [|c s IH]; [by intros _ d s|]. cbn [forallString]. intros [Hc Hs]%andb_prop.
  change (String c s) with (String c EmptyString +:+ s). apply copied_app; [by apply copied_char|by apply IH].
Qed.
Lemma copied_escape c : copied (String "\" (String c EmptyString)).
Proof. intros d s. done. Qed.

(** The characters of numbers and of true and false. *)
Definition bareChar (c : ascii) : bool :=
  negb ((c =? quote) || (c =? "{") || (c =? "[") || (c =? "]") || (c =? "}") || (c =? ",") || (c =? ":"))%char.

Inductive tokenOk : string → Prop :=
  | tok_open c : ((c =? "{") || (c =? "["))%char = true → tokenOk (String c EmptyString)
  | tok_close c : ((c =? "]") || (c =? "}"))%char = true → tokenOk (String c EmptyString)
  | tok_comma : tokenOk ","
  | tok_colon : tokenOk ":"
  | tok_string b : copied b → tokenOk (String quote (b +:+ String quote EmptyString))
  | tok_bare c t : forallString bareChar (String c t) = true → tokenOk (String c t).

Lemma spaces_indent n : spaces (newline +:+ String.concat "" (replicate n "  "%string)).
Proof. apply spaces_app; [done|]. rewrite forallString_concat. by induction n. Qed.

(** The characters of a bare token, after the first. *)
Lemma bareChar_inv c : bareChar c = true →
  (c =? quote)%char = false ∧ (c =? "{")%char = false ∧ (c =? "[")%char = false ∧ (c =? "]")%char = false ∧
  (c =? "}")%char = false ∧ (c =? ",")%char = false ∧ (c =? ":")%char = false.
Proof. unfold bareChar. rewrite negb_true_iff, !orb_false_iff. tauto. Qed.

Lemma indent_bare d t s : forallString bareChar t = true → indentJSON d false false (t +:+ s) = t +:+ indentJSON d false false s.
Proof.
  induction t as [|c t IH]; [done|]. cbn [forallString]. intros [Hc Ht]%andb_prop. specialize (IH Ht).
  apply bareChar_inv in Hc as (Hq & H1 & H2 & H3 & H4 & H5 & H6).
  rewrite !append_cons. cbn [indentJSON andb negb]. rewrite H1, H2, H3, H4, H5, H6, Hq. cbn [orb]. by rewrite IH.
Qed.

Lemma indent_token t d ni s : tokenOk t → ∃ w w' d' ni', spaces w ∧ spaces w' ∧
  indentJSON d false ni (t +:+ s) = w +:+ t +:+ w' +:+ indentJSON d' false ni' s.
Proof.
  intros Ht. pose proof (spaces_indent (S d)) as Hi. set (ind := newline +:+ _) in Hi.
  set (w := if ni then ind else EmptyString). set (d1 := if ni then S d else d).
  assert (spaces w) as Hw by (unfold w; by destruct ni). destruct Ht as [c Hc|c Hc| | |b Hb|c t Ht].
  - exists w, EmptyString, d1, true. split_and!; [done..|]. unfold w, d1.
    destruct c as [[] [] [] [] [] [] [] []]; try discriminate Hc; by destruct ni.
  - destruct ni.
    + exists EmptyString, EmptyString, d, false. split_and!; [done..|].
      destruct c as [[] [] [] [] [] [] [] []]; try discriminate Hc; done.
    + exists (newline +:+ String.concat "" (replicate (pred d) "  "%string)), EmptyString, (pred d), false.
      split_and!; [apply spaces_indent|done|]. rewrite app_assoc_s.
      destruct c as [[] [] [] [] [] [] [] []]; try discriminate Hc; done.
  - exists w, (newline +:+ String.concat "" (replicate d1 "  "%string)), d1, false.
    split_and!; [done|apply spaces_indent|]. rewrite app_assoc_s. unfold w, d1. by destruct ni.
  - exists w, " "%string, d1, false. split_and!; [done..|]. unfold w, d1. by destruct ni.
  - exists w, EmptyString, d1, false. split_and!; [done..|].
    assert (∀ d, indentJSON d true false (b +:+ String quote s) = b +:+ String quote (indentJSON d false false s)) as Hq.
    { intros d'. by rewrite Hb. }
    rewrite append_cons, app_assoc_s, char_app. unfold w, d1.
    destruct ni; cbn [indentJSON]; cbn -[indentJSON]; rewrite Hq; rewrite ?append_cons, ?app_assoc_s, ?char_app; done.
  - exists w, EmptyString, d1, false. split_and!; [done..|].
    cbn [forallString] in Ht. apply andb_prop in Ht as [Hc Ht]. apply bareChar_inv in Hc as (Hq & H1 & H2 & H3 & H4 & H5 & H6).
    rewrite !append_cons. cbn [indentJSON]. rewrite H1, H2, H3, H4, H5, H6, Hq. cbn [orb negb]. rewrite !andb_true_r.
    unfold w, d1. destruct ni; by rewrite indent_bare by done.
Qed.

(** An indented text is its tokens, spaced. *)
Lemma indent_spaced toks d ni : Forall tokenOk toks →
  ∃ s w, indentJSON d false ni (concatTokens toks) = s +:+ w ∧ spaced toks s ∧ spaces w.
Proof.
  intros Hall. revert d ni. induction Hall as [|t toks Ht _ IH]; intros d ni.
  { exists EmptyString, EmptyString. split_and!; [done|constructor|done]. }
  cbn [concatTokens foldr]. destruct (indent_token t d ni (concatTokens toks) Ht) as (w & w' & d' & ni' & Hw & Hw' & ->).
  destruct (IH d' ni') as (s & we & -> & Hs & Hwe). destruct (decide (toks = [])) as [->|Hne].
  - apply spaced_nil_inv in Hs as ->. exists (w +:+ t +:+ EmptyString), (w' +:+ we).
    split_and!; [by rewrite !app_assoc_s|by repeat constructor|by apply spaces_app].
  - exists (w +:+ t +:+ (w' +:+ s)), we. split_and!; [by rewrite !app_assoc_s|constructor; [done|by apply spaced_front]|done].
Qed.

(** * The tokens of an item *)

(** No line break: what the scanner does not touch. *)
Definition lineChar (c : ascii) : bool := negb (c =? ascii_of_nat 10)%char && negb (c =? ascii_of_nat 13)%char.
Abbreviation oneLine s := (forallString lineChar s = true).

Definition safe (p : string) : Prop := copied p ∧ oneLine p.

Lemma safe_app a b : safe a → safe b → safe (a +:+ b).
Proof. intros [Ha Hla] [Hb Hlb]. split; [by apply copied_app|by rewrite forallString_app, Hla, Hlb]. Qed.

(** Escapes and characters that are neither quotes nor backslashes. *)
Fixpoint copiedb (s : string) : bool :=
  match s with
  | EmptyString => true
  | String c s' =>
      if (c =? "\")%char then match s' with String _ s'' => copiedb s'' | EmptyString => false end
      else negb (c =? quote)%char && copiedb s'
  end.

Lemma copiedb_copied n s : (String.length s ≤ n)%nat → copiedb s = true → copied s.
Proof.
  revert s. induction n as [|n IH]; intros [|c s] Hn; cbn [copiedb String.length] in *; try lia; try (by intros _ d s).
  destruct (c =? "\")%char eqn:Hb.
  - destruct s as [|c' s]; [done|]. intros Hs. apply Ascii.eqb_eq in Hb as ->.
    change (String "\" (String c' s)) with (String "\" (String c' EmptyString) +:+ s).
    apply copied_app; [apply copied_escape|]. apply IH; [cbn in Hn; lia|done].
  - intros [Hq Hs]%andb_prop. change (String c s) with (String c EmptyString +:+ s).
    apply copied_app; [|apply IH; [lia|done]]. apply copied_char. unfold literalChar. by rewrite Hq, Hb.
Qed.

Lemma safe_compute s : copiedb s && forallString lineChar s = true → safe s.
Proof. intros [Hc Hl]%andb_prop. split; [by eapply copiedb_copied|done]. Qed.

Lemma safe_chars (p : ascii → bool) s : (∀ c, p c = true → literalChar c && lineChar c = true) →
  forallString p s = true → safe s.
Proof.
  intros Hp Hs. split; [apply copied_literal|]; revert Hs; (induction s as [|c s IH]; [done|]);
    cbn [forallString]; intros [Hc Hs]%andb_prop; apply Hp, andb_prop in Hc as [H1 H2]; by rewrite ?H1, ?H2, IH.
Qed.

Lemma safe_plain s : plain s → safe s.
Proof. apply safe_chars. intros c. destruct c as [[] [] [] [] [] [] [] []]; by vm_compute. Qed.

Lemma safe_escape c : (chr c <? 0x80) = true → safe (default (String c EmptyString) (escapeASCII c)).
Proof.
  intros Hc. apply safe_compute. revert Hc. destruct c as [[] [] [] [] [] [] [] []]; by vm_compute.
Qed.

(** The bytes of a rune of more than one byte. *)
Lemma rune_high a r : decodeRune (strBytes a) = (r, String.length a) → (r =? runeError) && (String.length a =? 1)%nat = false →
  from_option (λ c, (chr c <? 0x80) = false) True (String.get 0 a) → forallString (λ c, 0x80 <=? chr c) a = true.
Proof.
  intros Hd Hne Hf. destruct a as [|c0 [|c1 [|c2 [|c3 [|c4 a]]]]]; cbn in Hd, Hf |- *; [done|..];
    rewrite ?Hf in Hd; repeat case_match; simplify_eq; try done; unfold inRange in *;
    rewrite ?andb_true_iff, ?Z.leb_le in *; lia.
Qed.

Lemma safe_quoteRunes s n : utf8 s → (String.length s ≤ n)%nat → safe (quoteRunes n s).
Proof.
  intros Hs. revert n. induction Hs as [|a r b Ha Hne Hb IH]; intros n Hn.
  { destruct n; by apply safe_compute. }
  rewrite length_append in Hn.
  destruct (rune_cases a r Ha Hne) as [(c & -> & Hc)|(c & a' & -> & Hc & Hbad)];
    cbn [String.length] in *; (destruct n as [|n]; [lia|]).
  - rewrite char_app. cbn [quoteRunes]. rewrite Hc. apply safe_app; [by apply safe_escape|apply IH; lia].
  - assert (decodeRune (strBytes (String c a' +:+ b)) = (r, S (String.length a'))) as Hd.
    { rewrite strBytes_app. apply decodeRune_app; [exact Ha|]. intros [= -> Hl]. apply Hne. cbn. by rewrite Hl. }
    rewrite append_cons. cbn [quoteRunes]. rewrite Hc.
    change (String c (a' +:+ b)) with (String c a' +:+ b). rewrite Hd.
    change (S (String.length a')) with (String.length (String c a')). rewrite splitString_app. cbn [String.length]. rewrite Hbad.
    apply safe_app; [|apply IH; lia]. destruct ((r =? 0x2028) || (r =? 0x2029)) eqn:Hsep.
    + assert (r = 0x2028 ∨ r = 0x2029) as [-> | ->] by lia; by apply safe_compute.
    + apply (safe_chars (λ c, 0x80 <=? chr c)); [|by eapply rune_high].
      intros c'. destruct c' as [[] [] [] [] [] [] [] []]; by vm_compute.
Qed.

Definition goodToken (t : string) : Prop := tokenOk t ∧ oneLine t.

Lemma good_string b : safe b → goodToken (String quote (b +:+ String quote EmptyString)).
Proof.
  intros [Hc Hl]. split; [by apply tok_string|]. cbn [forallString]. by rewrite forallString_app, Hl.
Qed.

Lemma good_quoted s : plain s → goodToken (quoted s).
Proof. intros Hs. by apply good_string, safe_plain. Qed.

Lemma good_bare c t : forallString (λ c, bareChar c && lineChar c) (String c t) = true → goodToken (String c t).
Proof.
  intros Hs. split; [apply tok_bare|]; revert Hs; generalize (String c t);
    (induction s as [|c' s IH]; [done|]); cbn [forallString]; intros [[H1 H2]%andb_prop Hs]%andb_prop; by rewrite ?H1, ?H2, IH.
Qed.

Lemma digit_bare c : isDigit c = true → bareChar c && lineChar c = true.
Proof. destruct c as [[] [] [] [] [] [] [] []]; by vm_compute. Qed.

Lemma digits_bare s : allDigits s = true → forallString (λ c, bareChar c && lineChar c) s = true.
Proof.
  induction s as [|c s IH]; [done|]. cbn [allDigits forallString]. intros [Hc Hs]%andb_prop.
  by rewrite (digit_bare c Hc), IH.
Qed.

Lemma good_int z : goodToken (formatInt z).
Proof.
  unfold formatInt. destruct (z <? 0) eqn:E.
  - destruct (formatUint_spec (- z) ltac:(lia)) as (d & ds & -> & Hall & _). change ("-" +:+ ?t) with (String "-" t).
    apply good_bare. pose proof (digits_bare _ Hall) as Hd. cbn [forallString] in Hd |- *. by rewrite Hd.
  - destruct (formatUint_spec z ltac:(lia)) as (d & ds & -> & Hall & _). apply good_bare. by rewrite digits_bare.
Qed.

Section Good.
Context {tc : TitleCaser} (r : Registry) `{RegistryLaws r}.

Lemma good_prim et p : primOk p → primJsonOk r et p → goodToken (primText r et p).
Proof.
  intros Hok Hj. destruct p; cbn [primText primJsonOk] in *.
  - unfold marshalInteger. destruct (Registry_EnumForTag r et) as [m|] eqn:E; [|by apply good_int].
    apply good_quoted, plain_FormatInt. by apply (rl_enums et).
  - case_match; [|by apply good_int]. apply good_quoted, plain_app; [done|apply plain_hex].
  - case_match; [by apply good_int|]. apply good_quoted, plain_app; [done|apply plain_hex].
  - by apply good_quoted, plain_Enum.
  - destruct b; by apply good_bare.
  - apply good_string. by apply safe_quoteRunes.
  - apply good_quoted, plain_hex.
  - by apply good_quoted, plain_time.
  - rewrite formatUint_int by apply Hok. by apply good_int.
  - apply good_quoted, plain_time, Hj.
Qed.

Ltac good_tokens :=
  repeat (apply Forall_cons; split);
  first [apply Forall_nil; done | by apply good_quoted, plain_Tag | by apply good_quoted, plain_Type | by apply good_quoted
        | by apply good_prim
        | split; [first [by apply tok_open | by apply tok_close | apply tok_comma | apply tok_colon]|reflexivity]].

Lemma good_item it et : itemOk it → jsonOk r et it → Forall goodToken (itemTokens r et it).
Proof.
  revert et. induction it as [tag p|tag items IH] using item_ind'; intros et Hok Hj; cbn [itemTokens].
  - inversion Hok; subst. good_tokens.
  - apply itemOk_inv in Hok as (_ & Hok & _). cbn [jsonOk] in Hj. rewrite !Forall_app. split_and!; [good_tokens| |good_tokens].
    revert Hj. generalize TagNone. induction IH as [|it items Hit _ IHi]; intros attr Hj; [constructor|].
    apply Forall_cons in Hok as [Hok1 Hok2]. cbn [mapAttr commaTokens foldr] in *. destruct Hj as [Hj1 Hj2].
    rewrite !Forall_app. split_and!; [by apply Hit| |by apply IHi].
    destruct items; [constructor|]. change (Forall goodToken [","%string]). good_tokens.
Qed.
End Good.

(** * Line by line *)

(** The text without some of its line breaks. *)
Inductive sheds : string → string → Prop :=
  | sheds_nil : sheds EmptyString EmptyString
  | sheds_keep c s t : sheds s t → sheds (String c s) (String c t)
  | sheds_drop c s t : lineChar c = false → sheds s t → sheds (String c s) t.

Lemma sheds_app a a' b b' : sheds a a' → sheds b b' → sheds (a +:+ b) (a' +:+ b').
Proof. intros Ha Hb. induction Ha; [done|by apply sheds_keep|by apply sheds_drop]. Qed.

Lemma sheds_app_inv a b t : sheds (a +:+ b) t → ∃ a' b', t = a' +:+ b' ∧ sheds a a' ∧ sheds b b'.
Proof.
  revert t. induction a as [|c a IH]; intros t Hs; [exists EmptyString, t; by repeat constructor|].
  rewrite append_cons in Hs. inversion Hs as [|? ? t' Hs'|? ? ? Hc Hs']; subst;
    destruct (IH _ Hs') as (a' & b' & -> & Ha & Hb).
  - exists (String c a'), b'. split_and!; [done|by constructor|done].
  - exists a', b'. split_and!; [done|by apply sheds_drop|done].
Qed.

Lemma sheds_oneLine s t : oneLine s → sheds s t → t = s.
Proof.
  intros Hs Ht. induction Ht as [|c s t _ IH|c s t Hc _ _]; [done|..]; cbn [forallString] in Hs;
    apply andb_prop in Hs as [Hl Hs]; [by rewrite IH|congruence].
Qed.

Lemma sheds_spaces w t : spaces w → sheds w t → spaces t.
Proof.
  intros Hw Ht. induction Ht as [|c s t _ IH|c s t Hc _ IH]; [done|..]; cbn [forallString] in *;
    apply andb_prop in Hw as [Hl Hw]; [by rewrite Hl, IH|by apply IH].
Qed.

Lemma sheds_spaced toks s t : Forall (λ t, oneLine t) toks → spaced toks s → sheds s t → spaced toks t.
Proof.
  intros Hall Hs. revert t Hall. induction Hs as [|w tok toks s Hw _ IH]; intros t Hall Ht.
  { inversion Ht; constructor. }
  apply Forall_cons in Hall as [Htok Hall]. apply sheds_app_inv in Ht as (w' & t1 & -> & Hw' & Ht).
  apply sheds_app_inv in Ht as (tok' & t2 & -> & Htok' & Ht). apply sheds_oneLine in Htok' as ->; [|done].
  constructor; [by eapply sheds_spaces|by apply IH].
Qed.

Lemma sheds_refl s : sheds s s.
Proof. induction s; by constructor. Qed.

Lemma sheds_dropCR s : sheds s (dropCR s).
Proof.
  induction s as [|c s IH]; [constructor|]. destruct s as [|c' s].
  - cbn [dropCR]. destruct (c =? ascii_of_nat 13)%char eqn:Hc; [|apply sheds_refl].
    apply Ascii.eqb_eq in Hc as ->. by apply sheds_drop; [|constructor].
  - by apply sheds_keep.
Qed.

Lemma scanLines_sheds line n s t : scanLines line n s = Some t → sheds (line +:+ s) t.
Proof.
  revert line n t. induction s as [|c s IH]; intros line n t; cbn [scanLines].
  { intros [= <-]. rewrite app_empty_r. apply sheds_dropCR. }
  destruct (c =? ascii_of_nat 10)%char eqn:Hc.
  - apply Ascii.eqb_eq in Hc as ->. intros (rest & Hr & [= <-])%bind_Some. apply IH in Hr.
    apply sheds_app; [apply sheds_dropCR|by apply sheds_drop].
  - destruct (n + 1 <? MaxScanTokenSize); [|done]. intros Hs%IH. by rewrite snoc_app in Hs.
Qed.

(** * The loop *)

Lemma spaced_length toks s : spaced toks s → (String.length (concatTokens toks) ≤ String.length s)%nat.
Proof.
  induction 1 as [|w t toks s _ _ IH]; [done|]. change (concatTokens (t :: toks)) with (t +:+ concatTokens toks).
  rewrite !length_append. lia.
Qed.

Lemma skipSpace_spaces w : spaces w → skipSpace w = EmptyString.
Proof. intros Hw. by rewrite <- (app_empty_r w), skipSpace_app. Qed.

Section Loop.
Context {tc : TitleCaser} (r : Registry) `{RegistryLaws r} {fc : FloatConv} `{!FloatConvLaws fc} {xt : XmlText}.

(** The messages the JSON encoding represents, with its limit on nesting. *)
Definition jsonMessage (it : item) : Prop :=
  itemOk it ∧ jsonOk r (itemTag it) it ∧ (itemDepth it ≤ maxNestingDepth)%nat.

(** The tokens of several messages, one after the other. *)
Definition messageTokens (items : list item) : list string := concat ((λ it, itemTokens r (itemTag it) it) <$> items).

(** The texts that spell the messages: their tokens, with any white space around them. *)
Definition spells (items : list item) (text : string) : Prop :=
  ∃ s w, text = s +:+ w ∧ spaced (messageTokens items) s ∧ spaces w.

(** Each message printed on its own, in order. *)
Fixpoint printAll (outFormat : string) (items : list item) (count : Z) : outcome :=
  match items with
  | [] => (EmptyString, Ok tt)
  | it :: items => andThen (printTTLV r outFormat (itemBlock it) count) (λ _, printAll outFormat items (count + 1))
  end.

Lemma itemTokens_brace et it : ∃ toks, itemTokens r et it = "{"%string :: toks.
Proof. by destruct it; eexists. Qed.

(** The first message of a text, in any spelling. *)
Lemma jsonLoop_item it fuel outFormat s rest count : jsonMessage it → spaced (itemTokens r (itemTag it) it) s →
  jsonLoop r (S fuel) outFormat (s +:+ rest) count =
    andThen (printTTLV r outFormat (itemBlock it) count) (λ _, jsonLoop r fuel outFormat rest (count + 1)).
Proof.
  intros (Hok & Hj & Hd) Hs. pose proof (spaced_length _ _ Hs) as Hl. rewrite itemTokens_text in Hl.
  pose proof (parseNeed_length r it (itemTag it)) as Hn.
  assert (∃ c t, skipSpace (s +:+ rest) = String c t) as (c & t & Ht).
  { destruct (itemTokens_brace (itemTag it) it) as [toks Htoks]. rewrite Htoks in Hs. apply spaced_cons_inv in Hs as (w0 & s' & -> & Hw0 & _).
    rewrite !app_assoc_s, skipSpace_app by done. by eexists _, _. }
  pose proof (parse_spaced r it (itemTag it) (2 * String.length (s +:+ rest) + 2)%nat maxNestingDepth s rest Hok Hj) as Hp.
  rewrite length_append in *. cbn [jsonLoop]. rewrite Ht, length_append, Hp by (done || lia).
  by rewrite unmarshal_item; [|done..|by right|apply depth_tree].
Qed.

Lemma itemTokens_long it et s : spaced (itemTokens r et it) s → (0 < String.length s)%nat.
Proof.
  destruct (itemTokens_brace et it) as [toks ->]. intros (w0 & s' & -> & _)%spaced_cons_inv. rewrite !length_append. cbn. lia.
Qed.

Lemma jsonLoop_items outFormat items s w fuel count : Forall jsonMessage items → spaced (messageTokens items) s →
  spaces w → (String.length s ≤ fuel)%nat → jsonLoop r fuel outFormat (s +:+ w) count = printAll outFormat items count.
Proof.
  intros Hall. revert s fuel count. induction Hall as [|it items Hit _ IH]; intros s fuel count Hs Hw Hf.
  { apply spaced_nil_inv in Hs as ->. rewrite app_empty_l. by destruct fuel; cbn [jsonLoop]; rewrite skipSpace_spaces. }
  apply spaced_app in Hs as (s1 & s2 & -> & Hs1 & Hs2). pose proof (itemTokens_long _ _ _ Hs1) as Hlong.
  rewrite length_append in Hf. destruct fuel as [|fuel]; [lia|].
  rewrite app_assoc_s, (jsonLoop_item it) by done. cbn [printAll].
  destruct (printTTLV r outFormat (itemBlock it) count) as [text [[]| | |]]; try done. cbn [andThen].
  by rewrite IH by (done || lia).
Qed.

Lemma print_json it rest count : jsonMessage it → printTTLV r "json" (itemBlock it ++ rest) count =
  ((if 0 <? count then newline else EmptyString) +:+ indentJSON 0 false false (itemText r (itemTag it) it), Ok tt).
Proof.
  intros (Hok & Hj & _). unfold printTTLV, TTLV_MarshalJSON. cbn [String.eqb Ascii.eqb Bool.eqb].
  rewrite marshal_item by (done || rewrite length_app; lia). done.
Qed.

Lemma item_text it : jsonMessage it →
  ∃ s w, indentJSON 0 false false (itemText r (itemTag it) it) = s +:+ w ∧ spaced (itemTokens r (itemTag it) it) s ∧ spaces w.
Proof.
  intros (Hok & Hj & _). rewrite <- itemTokens_text. apply indent_spaced.
  eapply Forall_impl; [by apply good_item|by intros ? []].
Qed.

Lemma itemTokens_nonempty et it : itemTokens r et it ≠ [].
Proof. by destruct it. Qed.

Lemma spells_cons it items w0 s w text : spaces w0 → spaced (itemTokens r (itemTag it) it) s → spaces w →
  spells items text → spells (it :: items) (w0 +:+ s +:+ w +:+ text).
Proof.
  intros Hw0 Hs Hw (s' & w' & -> & Hs' & Hw'). unfold spells. destruct items as [|it' items].
  - apply spaced_nil_inv in Hs' as ->. exists (w0 +:+ s), (w +:+ w'). split_and!; [by rewrite !app_assoc_s| |by apply spaces_app].
    unfold messageTokens. cbn [fmap list_fmap concat]. rewrite app_nil_r. apply spaced_front; [apply itemTokens_nonempty|done..].
  - exists ((w0 +:+ s) +:+ w +:+ s'), w'. split_and!; [by rewrite !app_assoc_s| |done].
    apply spaced_join; [apply spaced_front; [apply itemTokens_nonempty|done..]|].
    apply spaced_front; [|done|done]. unfold messageTokens. cbn [fmap list_fmap concat].
    destruct (itemTokens _ _ it') eqn:E; [by apply itemTokens_nonempty in E|done].
Qed.

Lemma hexLoop_items items fuel count : Forall jsonMessage items → (length (concat (itemBlock <$> items)) ≤ fuel)%nat →
  ∃ text, hexLoop r fuel "json" (concat (itemBlock <$> items)) count = (text, Ok tt) ∧ spells items text.
Proof.
  intros Hall. revert fuel count. induction Hall as [|it items Hit _ IH]; intros fuel count Hf.
  { exists EmptyString. split; [by rewrite hexLoop_end|]. exists EmptyString, EmptyString. by repeat constructor. }
  destruct Hit as (Hok & Hit). pose proof (itemBlock_denotes it Hok) as Hden. pose proof (block_length _ _ Hden) as Hl.
  rewrite fmap_cons in *. cbn [concat] in *. rewrite length_app in Hf. destruct fuel as [|fuel]; [lia|].
  destruct (IH fuel (count + 1) ltac:(lia)) as (text & Ht & Hsp).
  destruct (item_text it (conj Hok Hit)) as (s & w & Hi & Hs & Hw).
  rewrite (hexLoop_block r it), (print_json it) by done. cbn [andThen]. rewrite Ht, Hi. eexists. split; [done|].
  rewrite !app_assoc_s. apply spells_cons; [by destruct (0 <? count)|done..].
Qed.

Lemma ppkmip_json outFormat items text : Forall jsonMessage items → spells items text →
  ppkmip r "json" outFormat text =
    printAll (if String.eqb (lowerString outFormat) "" then "text" else lowerString outFormat)%string items 0.
Proof.
  intros Hall (s & w & -> & Hs & Hw). unfold ppkmip. cbn [lowerString String.eqb Ascii.eqb Bool.eqb].
  apply jsonLoop_items; [done..|]. rewrite length_append. lia.
Qed.

Lemma tokens_oneLine items : Forall jsonMessage items → Forall (λ t, oneLine t) (messageTokens items).
Proof.
  induction 1 as [|it items (Hok & Hj & _) _ IH]; [constructor|]. apply Forall_app. split; [|exact IH].
  eapply Forall_impl; [by apply good_item|by intros ? []].
Qed.

Lemma main_json outFormat files items text : Forall jsonMessage items → spells items text →
  main r (mkFlags "json" outFormat "" "") files text =
    if longestLine 0 text <? MaxScanTokenSize then ppkmip r "json" outFormat text
    else (EmptyString, Err FailReadStdin).
Proof.
  intros Hall Hsp. unfold main, readInput. cbn [fl_inFile fl_arg fl_inFormat fl_outFormat String.eqb negb].
  pose proof (scanLines_defined EmptyString 0 text ltac:(done)) as Hdef.
  destruct (scanLines EmptyString 0 text) as [text'|] eqn:Hscan.
  - rewrite (proj2 (Z.ltb_lt _ _)) by (apply Hdef; by eexists). apply scanLines_sheds in Hscan.
    change (EmptyString +:+ ?t) with t in Hscan. rewrite (ppkmip_json outFormat items text) by done.
    apply ppkmip_json; [done|]. destruct Hsp as (s & w & -> & Hs & Hw).
    apply sheds_app_inv in Hscan as (s' & w' & -> & Hs' & Hw'). exists s', w'. split_and!; [done| |exact (sheds_spaces w w' Hw Hw')].
    eapply sheds_spaced; [by apply tokens_oneLine|done|done].
  - destruct (longestLine 0 text <? MaxScanTokenSize) eqn:Hlong; [|done].
    apply Z.ltb_lt, Hdef in Hlong as []. done.
Qed.
End Loop.

(** * Properties *)

(** C39. JSON through the program: messages that MarshalJSON can represent, any
    number of them, are printed without an error as a text that spells their JSON
    tokens; and every text that spells them, whatever the white space around the
    tokens, given to the program as an argument or a file, gives in every output
    format what printing the messages one after the other gives; so it does from
    standard input, where the line breaks are lost, unless a line is 64 KB or
    longer, which is an error. *)
Theorem json_pipeline (tc : TitleCaser) (fc : FloatConv) (xt : XmlText) r items input :
  titleCaserOk tc → FloatConvLaws fc → initRegistry = Ok r → Forall (jsonMessage r) items →
  Hex2bytes input = Ok (concat (itemBlock <$> items)) →
  (∃ text, ppkmip r "hex" "json" input = (text, Ok tt) ∧ spells r items text) ∧
  ∀ text outFormat, spells r items text → lowerString outFormat ≠ EmptyString →
    ppkmip r "json" outFormat text = printAll r (lowerString outFormat) items 0 ∧
    ∀ files, main r (mkFlags "json" outFormat "" "") files text =
      if longestLine 0 text <? MaxScanTokenSize then printAll r (lowerString outFormat) items 0
      else (EmptyString, Err FailReadStdin).
Proof.
  intros Htc Hfc Hr Hall Hx. rewrite initRegistry_eq in Hr by done. injection Hr as <-.
  pose proof (theRegistry_RegistryLaws tc Htc) as Hlaws. split.
  - rewrite (ppkmip_hex _ _ _ _ Hx). by apply hexLoop_items.
  - intros text outFormat Hsp Hne. pose proof (ppkmip_json theRegistry outFormat items text Hall Hsp) as Hp.
    rewrite (proj2 (String.eqb_neq _ _) Hne) in Hp. split; [done|]. intros files.
    by rewrite (main_json theRegistry outFormat files items text Hall Hsp), Hp.
Qed.

#[local] Instance noXmlText : XmlText := {| readTokens := λ _, ([], false); writeTokens := λ _, EmptyString |}.

Lemma json_pipeline_witness :
  let items := [jsonSample; jsonSample] in
  let input := hexEncodeToString (concat (itemBlock <$> items)) in
  (∃ text, @ppkmip asciiCaser goConv noXmlText (@theRegistry asciiCaser) "hex" "json" input = (text, Ok tt) ∧
     spells (@theRegistry asciiCaser) items text) ∧
  ∀ text outFormat, spells (@theRegistry asciiCaser) items text → lowerString outFormat ≠ EmptyString →
    @ppkmip asciiCaser goConv noXmlText (@theRegistry asciiCaser) "json" outFormat text =
      @printAll asciiCaser (@theRegistry asciiCaser) noXmlText (lowerString outFormat) items 0 ∧
    ∀ files, @main asciiCaser goConv noXmlText (@theRegistry asciiCaser) (mkFlags "json" outFormat "" "") files text =
      if longestLine 0 text <? MaxScanTokenSize
      then @printAll asciiCaser (@theRegistry asciiCaser) noXmlText (lowerString outFormat) items 0
      else (EmptyString, Err FailReadStdin).
Proof.
  assert (titleCaserOk asciiCaser) as Htc by (intros w _; reflexivity).
  assert (jsonMessage (@theRegistry asciiCaser) jsonSample) as Hm.
  { split; [unfold jsonSample; repeat first [constructor | by vm_compute]|]. split; [exact jsonSample_ok|].
    unfold maxNestingDepth. apply Nat.leb_le. reflexivity. }
  apply (json_pipeline asciiCaser goConv noXmlText theRegistry [jsonSample; jsonSample]); [exact Htc|..].
  - intros k z Hk. destruct k; [by apply i32_id|by apply i64_id|by apply u32_id].
  - exact (initRegistry_eq _ Htc).
  - exact (Forall_cons_2 _ _ _ Hm (Forall_cons_2 _ _ _ Hm (Forall_nil_2 _))).
  - apply Hex2bytes_strip, strip_hex.
Defined.
