(* ===== verification/Reflect.v ===== *)
(** Go types and values as the encoder and the decoder see them through
    package reflect, and the type information of src/ttlv/encoder.go
    ([getTypeInfo], [getFieldInfo], [getFieldsInfo], [tagForMarshal],
    [indirect], [isEmptyValue]). *)
From Stdlib Require Import ZArith Lia Strings.Byte Ascii String.
From stdpp Require Import base list strings numbers gmap.
From S2P Require Import Prelude Ttlv Hex Names Registry Formatting.
Local Open Scope Z_scope.
Set Warnings "-register-all".

(** * Types *)

Inductive kind : Type :=
  | KInvalid | KBool
  | KInt | KInt8 | KInt16 | KInt32 | KInt64
  | KUint | KUint8 | KUint16 | KUint32 | KUint64 | KUintptr
  | KFloat32 | KFloat64 | KComplex64 | KComplex128
  | KArray | KChan | KFunc | KInterface | KMap | KPtr | KSlice | KString | KStruct
  | KUnsafePointer.

#[export] Instance kind_eq_dec : EqDecision kind.
Proof. solve_decision. Defined.

(** The [MarshalTTLV] and [UnmarshalTTLV] methods the packages define; all the
    former have value receivers, all the latter pointer receivers. *)
Inductive marshalMethod : Type :=
  | MEnumeration          (** generated enumerations and [ttlv.EnumValue] *)
  | MBitmask              (** generated bitmasks *)
  | MDateTimeExtended     (** [ttlv.DateTimeExtended] *)
  | MValue                (** [ttlv.Value] *)
  | MUniqueIdentifier.    (** [kmip20.UniqueIdentifierValue] *)

Inductive unmarshalMethod : Type :=
  | UTTLV
  | UDateTimeExtended
  | UValue
  | UUniqueIdentifier.

(** The name of a type: its package path, what [Name()] returns (empty for an
    unnamed type) and the methods declared on it. *)
Record tname := mkName {
  tn_pkg : string;
  tn_name : string;
  tn_marshal : option marshalMethod;
  tn_unmarshal : option unmarshalMethod;
}.

Definition unnamed : tname := mkName "" "" None None.
Definition predeclared (n : string) : tname := mkName "" n None None.
Definition named (pkg n : string) : tname := mkName pkg n None None.

(** A struct field: its name, its type, the value of its "ttlv" tag, whether
    it is embedded and whether it is exported.  Types are finite: a type that
    contains itself is not represented.  An interface type has no methods, as
    all those of the packages' structs; its variables hold any value. *)
Inductive gotype : Type :=
  | TBasic (n : tname) (k : kind)
  | TSlice (n : tname) (elem : gotype)
  | TArray (n : tname) (size : nat) (elem : gotype)
  | TPtr (elem : gotype)
  | TInterface (n : tname)
  | TStruct (n : tname) (fields : list sfield)
  | TOpaque (n : tname) (k : kind)
with sfield : Type :=
  | SField (name : string) (typ : gotype) (tag : string) (anonymous exported : bool).

Definition sf_name (f : sfield) : string := let 'SField n _ _ _ _ := f in n.
Definition sf_type (f : sfield) : gotype := let 'SField _ t _ _ _ := f in t.
Definition sf_tag (f : sfield) : string := let 'SField _ _ t _ _ := f in t.
Definition sf_anonymous (f : sfield) : bool := let 'SField _ _ _ a _ := f in a.
Definition sf_exported (f : sfield) : bool := let 'SField _ _ _ _ e := f in e.

Definition typeName (t : gotype) : tname :=
  match t with
  | TBasic n _ | TSlice n _ | TArray n _ _ | TInterface n | TStruct n _ | TOpaque n _ => n
  | TPtr _ => unnamed
  end.

Definition Kind (t : gotype) : kind :=
  match t with
  | TBasic _ k | TOpaque _ k => k
  | TSlice _ _ => KSlice
  | TArray _ _ _ => KArray
  | TPtr _ => KPtr
  | TInterface _ => KInterface
  | TStruct _ _ => KStruct
  end.

(** [typ.Implements(marshalerType)]: the methods of [T] belong to [*T] too. *)
Definition marshalMethodOf (t : gotype) : option marshalMethod :=
  match t with
  | TPtr t => tn_marshal (typeName t)
  | _ => tn_marshal (typeName t)
  end.

(** The types the code compares with: [byteType], [timeType], [bigIntType],
    [durationType], [ttlvType], [tagType].  Named types are the same when
    their package and name are. *)
Definition isNamed (pkg n : string) (t : gotype) : bool :=
  String.eqb (tn_pkg (typeName t)) pkg && String.eqb (tn_name (typeName t)) n.

Definition pkgTTLV : string := "github.com/gemalto/kmip-go/ttlv".

Definition byteType : gotype := TBasic (predeclared "uint8") KUint8.
Definition timeType : gotype := TStruct (named "time" "Time") [].
Definition bigIntType : gotype := TStruct (named "math/big" "Int") [].
Definition durationType : gotype := TBasic (named "time" "Duration") KInt64.
Definition ttlvType : gotype := TSlice (mkName pkgTTLV "TTLV" None (Some UTTLV)) byteType.
Definition tagType : gotype := TBasic (named pkgTTLV "Tag") KUint32.

Definition is_byteType (t : gotype) : bool := isNamed "" "uint8" t.
Definition is_timeType (t : gotype) : bool := isNamed "time" "Time" t.
Definition is_bigIntType (t : gotype) : bool := isNamed "math/big" "Int" t.
Definition is_durationType (t : gotype) : bool := isNamed "time" "Duration" t.
Definition is_ttlvType (t : gotype) : bool := isNamed pkgTTLV "TTLV" t.
Definition is_tagType (t : gotype) : bool := isNamed pkgTTLV "Tag" t.
Definition is_bigIntPtrType (t : gotype) : bool :=
  match t with TPtr t => is_bigIntType t | _ => false end.

(** * Values *)

(** A nil slice, pointer or interface is [None]; an interface holds its
    dynamic type with the value; a slice of bytes is [VBytes].  Values are
    finite trees: a slice or pointer is represented by what it leads to, so
    that sharing is not visible and a value that leads back to itself, as a
    [[]interface{}] that has itself as an element, is not represented (its
    finite unfoldings are, see [Marshal_cycle]). *)
Inductive gov : Type :=
  | VBool (b : bool)
  | VInt (z : Z)
  | VUint (z : Z)
  | VFloat (zero : bool)
  | VString (s : string)
  | VBytes (o : option (list byte))
  | VSlice (o : option (list gov))
  | VArray (l : list gov)
  | VPtr (o : option gov)
  | VIface (o : option (gotype * gov))
  | VStruct (l : list gov)
  | VTime (t : gotime)
  | VBig (z : Z)
  | VOpaque (isNil : bool).

(** A [reflect.Value]; the invalid value is [None]. *)
Abbreviation rvalue := (gotype * gov)%type.

(** [indirect]: one interface, then one pointer; nil is the invalid value. *)
Definition elemIface (v : rvalue) : option rvalue :=
  match v with
  | (TInterface _, VIface o) => o
  | _ => Some v
  end.

Definition elemPtr (v : rvalue) : option rvalue :=
  match v with
  | (TPtr t, VPtr o) => (λ x, (t, x)) <$> o
  | _ => Some v
  end.

Definition isNilKind (k : kind) : bool :=
  match k with
  | KFunc | KSlice | KMap | KChan | KPtr | KInterface => true
  | _ => false
  end.

Definition isNil (v : gov) : bool :=
  match v with
  | VBytes None | VSlice None | VPtr None | VIface None | VOpaque true => true
  | _ => false
  end.

Definition indirect (v : option rvalue) : option rvalue :=
  v ← v; v ← elemIface v; v ← elemPtr v;
  if isNilKind (Kind v.1) && isNil v.2 then None else Some v.

(** Go's zero [time.Time] is January 1 of year 1. *)
Definition zeroTime : gotime := GoTime (-62135596800) 0.

Definition isEmptyValue (v : rvalue) : bool :=
  match v.2 with
  | VArray l => (length l =? 0)%nat
  | VSlice o => match o with Some l => (length l =? 0)%nat | None => true end
  | VBytes o => match o with Some l => (length l =? 0)%nat | None => true end
  | VString s => match s with EmptyString => true | _ => false end
  | VOpaque n => match Kind v.1 with KMap => n | _ => false end
  | VBool b => negb b
  | VInt z => z =? 0
  | VUint z => z =? 0
  | VFloat zero => zero
  | VIface o => match o with None => true | _ => false end
  | VPtr o => match o with None => true | _ => false end
  | VTime t => bool_decide (t = zeroTime)
  | VBig z => z =? 0
  | VStruct _ => false
  end.

(** * Struct tags *)

Definition fOmitEmpty : Z := 1.
Definition fEnum : Z := 2.
Definition fDateTimeExtended : Z := 4.
Definition fAny : Z := 8.
Definition fBitBask : Z := 16.

Definition flags_omitEmpty (f : Z) : bool := negb (Z.land f fOmitEmpty =? 0).
Definition flags_any (f : Z) : bool := negb (Z.land f fAny =? 0).
Definition flags_dateTimeExt (f : Z) : bool := negb (Z.land f fDateTimeExtended =? 0).
Definition flags_enum (f : Z) : bool := negb (Z.land f fEnum =? 0).
Definition flags_bitmask (f : Z) : bool := negb (Z.land f fBitBask =? 0).

(** [strings.Split(s, ",")] and [strings.ToLower] on ASCII. *)
Fixpoint splitComma (s cur : string) : list string :=
  match s with
  | EmptyString => [cur]
  | String c s => if (c =? ",")%char then cur :: splitComma s "" else splitComma s (snoc cur c)
  end.

Fixpoint toLower (s : string) : string :=
  match s with
  | EmptyString => EmptyString
  | String c s =>
      String (if isUpper c then ascii_of_N (N_of_ascii c + 32) else c) (toLower s)
  end.

Definition flagOf (s : string) : Z :=
  let s := toLower s in
  if String.eqb s "enum" then fEnum
  else if String.eqb s "omitempty" then fOmitEmpty
  else if String.eqb s "datetimeextended" then fDateTimeExtended
  else if String.eqb s "bitmask" then fBitBask
  else if String.eqb s "any" then fAny
  else 0.

(** The flags after the first part of the tag. *)
Definition flagsOf (parts : list string) : Z := foldl (λ f s, Z.lor f (flagOf s)) 0 parts.

(** * Type information *)

Inductive typeInfo : Type :=
  | TI (typ : gotype) (inferredTag : Z) (tagField : option fieldInfo) (valueFields : list fieldInfo)
with fieldInfo : Type :=
  | FI (structType : string) (explicitTag tag : Z) (name : string) (index : nat) (flags : Z)
       (ti : typeInfo).

Definition ti_typ (t : typeInfo) : gotype := let 'TI x _ _ _ := t in x.
Definition ti_inferredTag (t : typeInfo) : Z := let 'TI _ x _ _ := t in x.
Definition ti_tagField (t : typeInfo) : option fieldInfo := let 'TI _ _ x _ := t in x.
Definition ti_valueFields (t : typeInfo) : list fieldInfo := let 'TI _ _ _ x := t in x.
Definition fi_explicitTag (f : fieldInfo) : Z := let 'FI _ x _ _ _ _ _ := f in x.
Definition fi_tag (f : fieldInfo) : Z := let 'FI _ _ x _ _ _ _ := f in x.
Definition fi_name (f : fieldInfo) : string := let 'FI _ _ _ x _ _ _ := f in x.
Definition fi_index (f : fieldInfo) : nat := let 'FI _ _ _ _ x _ _ := f in x.
Definition fi_flags (f : fieldInfo) : Z := let 'FI _ _ _ _ _ x _ := f in x.
Definition fi_ti (f : fieldInfo) : typeInfo := let 'FI _ _ _ _ _ _ x := f in x.

Inductive tierr : Type :=
  | TIErrTagConflict (field : string)
  | TIErrParse (e : perr).

Section TypeInfo.
(** [DefaultRegistry] *)
Context (dflt : Registry).

(** [DefaultRegistry.ParseTag(s)] where the code ignores the error. *)
Definition parseTagOrNone (s : string) : Z :=
  match Registry_ParseTag dflt s with Ok t => t | _ => TagNone end.

(** The tag and flags written on a field: [None] skips the field. *)
Definition parseFieldTag (tag : string) : res tierr (option (Z * Z)) :=
  match splitComma tag "" with
  | [] => Ok (Some (TagNone, 0))
  | first :: flags =>
      if String.eqb first "-" then Ok None
      else
        let flags := flagsOf flags in
        if String.eqb first "" then Ok (Some (TagNone, flags))
        else match Registry_ParseTag dflt first with
             | Ok t => Ok (Some (t, flags))
             | Err e => Err (TIErrParse e)
             | Panic => Panic
             | OutOfFuel => OutOfFuel
             end
  end.

(** The intrinsic tag of a field's type: the tag on its TTLVTag field. *)
Definition intrinsicTag (ti : typeInfo) : Z :=
  match ti_tagField ti with Some f => fi_explicitTag f | None => TagNone end.

(** [getFieldInfo], given the type information of the field's type; [None]
    is [errSkip]. *)
Definition getFieldInfo (structName : string) (index : nat) (sf : sfield)
    (getTypeInfo : res tierr typeInfo) : res tierr (option fieldInfo) :=
  if sf_anonymous sf || negb (sf_exported sf) then Ok None
  else
    pt ← parseFieldTag (sf_tag sf);
    match pt with
    | None => Ok None
    | Some (explicitTag, flags) =>
        if flags_any flags && negb (explicitTag =? TagNone)
        then Err (TIErrTagConflict (sf_name sf))
        else
          ti ← getTypeInfo;
          let intrinsic := intrinsicTag ti in
          if negb (intrinsic =? TagNone) && negb (explicitTag =? TagNone) &&
             negb (explicitTag =? intrinsic)
          then Err (TIErrTagConflict (sf_name sf))
          else
            let tag := intrinsic in
            let tag := if tag =? TagNone then explicitTag else tag in
            let tag := if tag =? TagNone then parseTagOrNone (sf_name sf) else tag in
            Ok (Some (FI structName explicitTag tag (sf_name sf) index flags ti))
    end.

(** The check that no two fields resolve to the same tag. *)
Fixpoint tagConflict (names : gmap Z string) (fields : list fieldInfo) : option tierr :=
  match fields with
  | [] => None
  | f :: fields =>
      if flags_any (fi_flags f) then tagConflict names fields
      else if fi_tag f =? TagNone then tagConflict names fields
      else match names !! fi_tag f with
           | Some _ => Some (TIErrTagConflict (fi_name f))
           | None => tagConflict (<[fi_tag f := fi_name f]> names) fields
           end
  end.

(** The loop of [getFieldsInfo] over the fields of a struct. *)
Section Fields.
Context (getTypeInfo : gotype → res tierr typeInfo) (structName : string).

Fixpoint fieldsLoop (i : nat) (fs : list sfield) (tagField : option fieldInfo)
    (vals : list fieldInfo) : res tierr (option fieldInfo * list fieldInfo) :=
  match fs with
  | [] => Ok (tagField, vals)
  | SField n ft tag anon exp :: fs =>
      fi ← getFieldInfo structName i (SField n ft tag anon exp) (getTypeInfo ft);
      match fi with
      | None => fieldsLoop (S i) fs tagField vals
      | Some fi =>
          if String.eqb (fi_name fi) "TTLVTag" then fieldsLoop (S i) fs (Some fi) vals
          else fieldsLoop (S i) fs tagField (vals ++ [fi])
      end
  end.
End Fields.

(** [getTypeInfo] and [getFieldsInfo]: only structs have fields. *)
Fixpoint getTypeInfo (t : gotype) : res tierr typeInfo :=
  let inferred := parseTagOrNone (tn_name (typeName t)) in
  match t with
  | TStruct n fields =>
      '(tagField, vals) ← fieldsLoop getTypeInfo (tn_name n) O fields None [];
      match tagConflict ∅ vals with
      | Some e => Err e
      | None => Ok (TI t inferred tagField vals)
      end
  | _ => Ok (TI t inferred None [])
  end.

(** [tagForMarshal] *)
Definition tagForMarshal (v : gov) (ti : typeInfo) (fi : option fieldInfo) : Z :=
  let dynamic :=
    match ti_tagField ti, v with
    | Some f, VStruct fs =>
        if is_tagType (ti_typ (fi_ti f)) then
          match fs !! fi_index f with Some (VUint t) => t | _ => TagNone end
        else TagNone
    | _, _ => TagNone
    end in
  if negb (intrinsicTag ti =? TagNone) then intrinsicTag ti
  else if negb (dynamic =? TagNone) then dynamic
  else match fi with Some fi => fi_tag fi | None => ti_inferredTag ti end.
End TypeInfo.

(** * Fields of a type have distinct tags *)

Definition taggedFields (fields : list fieldInfo) : list Z :=
  omap (λ f, if flags_any (fi_flags f) || (fi_tag f =? TagNone) then None else Some (fi_tag f)) fields.

Lemma tagConflict_NoDup names fields :
  tagConflict names fields = None →
  NoDup (taggedFields fields) ∧ ∀ t, t ∈ taggedFields fields → names !! t = None.
Proof.
  revert names. induction fields as [|f fields IH]; intros names Hc; cbn in *.
  { split; [constructor|]. intros t Ht. by apply not_elem_of_nil in Ht. }
  destruct (flags_any (fi_flags f)); [by apply IH|]. cbn.
  destruct (fi_tag f =? TagNone); [by apply IH|].
  destruct (names !! fi_tag f) as [x|] eqn:Hn; [done|].
  destruct (IH _ Hc) as [Hnd Hfr]. split.
  - constructor; [|done]. intros Hin. specialize (Hfr _ Hin). by rewrite lookup_insert_eq in Hfr.
  - intros t [->|Hin]%elem_of_cons; [done|]. specialize (Hfr _ Hin).
    by apply lookup_insert_None in Hfr as [? _].
Qed.

(** * The types of package ttlv that have methods *)

Definition emptyInterface : gotype := TInterface unnamed.

Definition valueType : gotype :=
  TStruct (mkName pkgTTLV "Value" (Some MValue) (Some UValue))
    [SField "Tag" tagType "" false true; SField "Value" emptyInterface "" false true].
Definition valuesType : gotype := TSlice (named pkgTTLV "Values") valueType.
Definition enumValueType : gotype :=
  TBasic (mkName pkgTTLV "EnumValue" (Some MEnumeration) None) KUint32.
Definition dateTimeExtendedType : gotype :=
  TStruct (mkName pkgTTLV "DateTimeExtended" (Some MDateTimeExtended) (Some UDateTimeExtended))
    [SField "Time" timeType "" true true].

Definition is_valuesType (t : gotype) : bool := isNamed pkgTTLV "Values" t.

(** [NewValue] and [NewStruct]; without arguments the variadic slice is nil. *)
Definition NewValue (tag : Z) (val : option rvalue) : gov := VStruct [VUint tag; VIface val].
Definition NewStruct (tag : Z) (vals : list gov) : gov :=
  NewValue tag (Some (valuesType, VSlice (match vals with [] => None | _ => Some vals end))).

(** * Properties *)

(** Type information never maps two fields of a struct to the same tag:
    a struct for which [getTypeInfo] succeeds has pairwise distinct tags on
    its fields, those without a tag and the "any" fields apart. *)
Lemma getTypeInfo_distinct dflt t ti :
  getTypeInfo dflt t = Ok ti → NoDup (taggedFields (ti_valueFields ti)).
Proof.
  destruct t as [| | | | |n fields|]; try (intros [= <-]; constructor). cbn [getTypeInfo].
  intros H. apply bind_Ok_inv in H as ([tf vals] & _ & H).
  destruct (tagConflict ∅ vals) as [e|] eqn:Hc; [done|]. injection H as <-.
  exact (proj1 (tagConflict_NoDup ∅ vals Hc)).
Qed.
