(* ===== verification/Encoder.v ===== *)
(** The reflection-driven encoder of src/ttlv/encoder.go: [Encoder], [Marshal],
    [encode], [EncodeStructure], [Flush], with the [MarshalTTLV] methods of
    src/ttlv/types.go, src/kmip20/unique_identifier.go and the generated
    enumerations. *)
From Stdlib Require Import ZArith Lia Strings.Byte Ascii String.
From stdpp Require Import base list strings numbers gmap pretty.
From S2P Require Import Prelude Ttlv Grammar EncBuf Hex Names Registry Formatting Reflect.
Local Open Scope Z_scope.
Set Warnings "-register-all".

(** * State and errors *)

(** [w] is what has been written to the io.Writer; writing to it does not fail
    (the writers of the package are byte buffers). *)
Record Encoder := mkEncoder {
  encodeDepth : Z;
  w : list byte;
  buf : encBuf;
  currStruct : string;
  currField : string;
}.

Inductive mcause : Type :=
  | ErrIntOverflow
  | ErrUnsupportedEnumTypeError
  | ErrUnsupportedTypeError
  | ErrNoTag
  | ErrParse (e : perr).

Inductive merr : Type :=
  | MarshalerError (typ : gotype) (struct field : string) (tag : Z) (cause : mcause)
  | MTypeInfo (e : tierr).

Definition enc (A : Type) : Type := Encoder → Encoder * res merr A.

#[export] Instance enc_ret : MRet enc := λ A a e, (e, Ok a).
#[export] Instance enc_bind : MBind enc := λ A B f m e,
  let '(e, r) := m e in
  match r with
  | Ok a => f a e
  | Err x => (e, Err x)
  | Panic => (e, Panic)
  | OutOfFuel => (e, OutOfFuel)
  end.

Definition lift {A} (r : res merr A) : enc A := λ e, (e, r).
Definition modify (f : Encoder → Encoder) : enc unit := λ e, (f e, Ok tt).
Definition onBuf (f : encBuf → encBuf) : enc unit :=
  modify (λ e, mkEncoder (encodeDepth e) (w e) (f (buf e)) (currStruct e) (currField e)).
(** Push the name of a struct or of a field for error messages, run [m], and
    pop it again. *)
Definition withStruct (s : string) (m : enc unit) : enc unit := λ e,
  let saved := currStruct e in
  let '(e, r) := m (mkEncoder (encodeDepth e) (w e) (buf e) s (currField e)) in
  (mkEncoder (encodeDepth e) (w e) (buf e) saved (currField e), r).
Definition withField (s : string) (m : enc unit) : enc unit := λ e,
  let saved := currField e in
  let '(e, r) := m (mkEncoder (encodeDepth e) (w e) (buf e) (currStruct e) s) in
  (mkEncoder (encodeDepth e) (w e) (buf e) (currStruct e) saved, r).

Definition NewEncoder : Encoder := mkEncoder 0 [] [] "" "".

Definition marshalingError {A} (tag : Z) (t : gotype) (cause : mcause) : enc A :=
  λ e, (e, Err (MarshalerError t (currStruct e) (currField e) tag cause)).

(** [String] of a [reflect.Type]: [pkgName] is the name of the package with an
    import path, [literal] the text of a struct, map, function or channel type
    without a name. *)
Fixpoint typeString (pkgName : string → string) (literal : gotype → string) (t : gotype) : string :=
  let named n := if String.eqb (tn_pkg n) "" then tn_name n else (pkgName (tn_pkg n) +:+ "." +:+ tn_name n)%string in
  let anonymous n := String.eqb (tn_name n) "" in
  match t with
  | TBasic n _ => named n
  | TPtr t => ("*" +:+ typeString pkgName literal t)%string
  | TSlice n t => if anonymous n then ("[]" +:+ typeString pkgName literal t)%string else named n
  | TArray n k t => if anonymous n then ("[" +:+ pretty k +:+ "]" +:+ typeString pkgName literal t)%string else named n
  | TInterface n => if anonymous n then "interface {}"%string else named n
  | TStruct n _ | TOpaque n _ => if anonymous n then literal t else named n
  end.

(** [MarshalerError.Error]; the errors of type information have texts of their own. *)
Definition MarshalerError_Error (pkgName : string → string) (literal : gotype → string) (e : merr) : option string :=
  match e with
  | MarshalerError typ struct field _ _ =>
      Some ("kmip: error marshaling value of type " +:+ typeString pkgName literal typ
              +:+ if String.eqb struct "" then "" else " in struct field " +:+ struct +:+ "." +:+ field)%string
  | MTypeInfo _ => None
  end.

Definition liftTI (r : res tierr typeInfo) : enc typeInfo :=
  lift (match r with
        | Ok ti => Ok ti
        | Err x => Err (MTypeInfo x)
        | Panic => Panic
        | OutOfFuel => OutOfFuel
        end).

(** * Structures and flushing *)

(** [f] runs between [begin] and [end]; both run whatever [f] returns. *)
Definition EncodeStructure (tag : Z) (f : enc unit) : enc unit := λ e,
  let e := mkEncoder (encodeDepth e + 1) (w e) (buf e) (currStruct e) (currField e) in
  let '(h, i) := encBuf_begin (buf e) tag TypeStructure in
  let e := mkEncoder (encodeDepth e) (w e) h (currStruct e) (currField e) in
  let '(e, r) := f e in
  (mkEncoder (encodeDepth e - 1) (w e) (encBuf_end (buf e) i) (currStruct e) (currField e), r).

Definition Flush : enc unit := λ e,
  if 0 <? encodeDepth e then (e, Ok tt)
  else (mkEncoder (encodeDepth e) (w e ++ buf e) [] (currStruct e) (currField e), Ok tt).

(** Run [f] for each element, stopping at the first error. *)
Fixpoint forEach {A} (l : list A) (f : A → enc unit) : enc unit :=
  match l with
  | [] => mret tt
  | x :: l => _ ← f x; forEach l f
  end.

(** * Encoding *)

Definition unsupportedKind (k : kind) : bool :=
  match k with
  | KChan | KMap | KFunc | KPtr | KUnsafePointer | KUintptr | KFloat32 | KFloat64
  | KComplex64 | KComplex128 | KInterface => true
  | _ => false
  end.

Definition smallInt (k : kind) : bool :=
  match k with KInt | KInt8 | KInt16 | KInt32 => true | _ => false end.
Definition smallUint (k : kind) : bool :=
  match k with KUint | KUint8 | KUint16 | KUint32 => true | _ => false end.

Section Encode.
Context (dflt : Registry).

(** The enumerations and bitmasks: [Some] when the value was encoded or is an
    error, [None] to go on with the type-based encoding. *)
Definition encodeEnumOrMask (tag : Z) (typ : gotype) (v : gov) (flags : Z) : option (enc unit) :=
  let enumMap := Registry_EnumForTag dflt tag in
  let isMask := flags_bitmask flags ||
                match enumMap with Some m => em_Bitmask m | None => false end in
  if flags_enum flags || flags_bitmask flags || bool_decide (is_Some enumMap) then
    match v with
    | VInt i =>
        if smallInt (Kind typ) then
          Some (if isMask then onBuf (λ h, encodeInt h tag (i32 i))
                else onBuf (λ h, encodeEnum h tag (u32 i)))
        else if flags_enum flags || flags_bitmask flags
        then Some (marshalingError tag typ ErrUnsupportedEnumTypeError) else None
    | VUint i =>
        if smallUint (Kind typ) then
          Some (if isMask then onBuf (λ h, encodeInt h tag (i32 i))
                else onBuf (λ h, encodeEnum h tag (u32 i)))
        else if flags_enum flags || flags_bitmask flags
        then Some (marshalingError tag typ ErrUnsupportedEnumTypeError) else None
    | VString s =>
        if isMask then
          match ParseInt s enumMap with
          | Ok i => Some (onBuf (λ h, encodeInt h tag i))
          | Err x => if flags_bitmask flags then Some (marshalingError tag typ (ErrParse x)) else None
          | Panic => Some (lift Panic)
          | OutOfFuel => Some (lift OutOfFuel)
          end
        else
          match ParseEnum s enumMap with
          | Ok i => Some (onBuf (λ h, encodeEnum h tag i))
          | Err x => if flags_enum flags then Some (marshalingError tag typ (ErrParse x)) else None
          | Panic => Some (lift Panic)
          | OutOfFuel => Some (lift OutOfFuel)
          end
    | _ =>
        if flags_enum flags || flags_bitmask flags
        then Some (marshalingError tag typ ErrUnsupportedEnumTypeError) else None
    end
  else None.

(** The special types and the kinds other than struct. *)
Definition encodeScalar (tag : Z) (typ : gotype) (v : gov) (flags : Z) : enc unit :=
  match v with
  | VTime t =>
      if flags_dateTimeExt flags then onBuf (λ h, encodeDateTimeExtended h tag t)
      else onBuf (λ h, encodeDateTime h tag t)
  | VBig z => onBuf (λ h, encodeBigInt h tag (Some z))
  | VString s => onBuf (λ h, encodeTextString h tag s)
  | VBytes o => onBuf (λ h, encodeByteString h tag o)
  | VInt i =>
      if is_durationType typ then onBuf (λ h, encodeInterval h tag i)
      else if smallInt (Kind typ) then
        if 2147483647 <? i then marshalingError tag typ ErrIntOverflow
        else onBuf (λ h, encodeInt h tag (i32 i))
      else onBuf (λ h, encodeLongInt h tag i)
  | VUint u =>
      if smallUint (Kind typ) then
        if 2147483647 <? u then marshalingError tag typ ErrIntOverflow
        else onBuf (λ h, encodeInt h tag (i32 u))
      else onBuf (λ h, encodeLongInt h tag (i64 u))
  | VBool b => onBuf (λ h, encodeBool h tag b)
  | _ => lift Panic
  end.

Definition deref (v : rvalue) : rvalue :=
  match v with (TPtr t, VPtr (Some x)) => (t, x) | _ => v end.

(** [UniqueIdentifierValue.MarshalTTLV] of package kmip20. *)
Definition UniqueIdentifierValue_MarshalTTLV (text : string) (enum idx tag : Z) : enc unit :=
  if negb (String.eqb text "") then onBuf (λ h, encodeTextString h tag text)
  else if negb (enum =? 0) then onBuf (λ h, encodeEnum h tag enum)
  else if negb (idx =? 0) then onBuf (λ h, encodeInt h tag idx)
  else mret tt.

(** [encode]; [fuel] bounds the nesting of the value. *)
Fixpoint encode (fuel : nat) (tag : Z) (v : option rvalue) (fi : option fieldInfo) : enc unit :=
  match fuel with
  | O => lift OutOfFuel
  | S fuel =>
      match indirect v with
      | None => mret tt
      | Some (typ, val) =>
          if is_ttlvType typ then
            match val with VBytes o => onBuf (λ h, h ++ bytesOf o) | _ => lift Panic end
          else
            ti ← liftTI (getTypeInfo dflt typ);
            let tag := if tag =? TagNone then tagForMarshal val ti fi else tag in
            let flags := match fi with Some fi => fi_flags fi | None => 0 end in
            let skip := flags_omitEmpty flags && isEmptyValue (typ, val) in
            match marshalMethodOf typ with
            | Some m => if skip then mret tt else MarshalTTLV fuel m (deref (typ, val)) tag
            | None =>
                if unsupportedKind (Kind typ) then marshalingError tag typ ErrUnsupportedTypeError
                else if skip then mret tt
                else
                  let each elem l :=
                    let fi2 := match fi with
                               | Some (FI s x t n i f ti) => Some (FI s x t n i (Z.ldiff f fOmitEmpty) ti)
                               | None => None
                               end in
                    forEach l (λ x, encode fuel tag (Some (elem, x)) fi2) in
                  match typ, val with
                  | TSlice _ elem, VSlice (Some l) => each elem l
                  | TArray _ _ elem, VArray l => each elem l
                  | _, _ =>
                      if tag =? TagNone then marshalingError tag typ ErrNoTag
                      else
                        match encodeEnumOrMask tag typ val flags with
                        | Some m => m
                        | None =>
                            match val with
                            | VStruct fs => encodeStruct fuel tag typ ti fs
                            | _ => encodeScalar tag typ val flags
                            end
                        end
                  end
            end
      end
  end

(** The struct case of [encode]. *)
with encodeStruct (fuel : nat) (tag : Z) (typ : gotype) (ti : typeInfo) (fs : list gov)
    {struct fuel} : enc unit :=
  match fuel with
  | O => lift OutOfFuel
  | S fuel =>
      withStruct (tn_name (typeName typ))
        (EncodeStructure tag (forEach (ti_valueFields ti) (λ f,
           match fs !! fi_index f with
           | None => lift Panic
           | Some fv =>
               withField (fi_name f) (encode fuel TagNone (Some (ti_typ (fi_ti f), fv)) (Some f))
           end)))
  end

(** The [MarshalTTLV] methods. *)
with MarshalTTLV (fuel : nat) (m : marshalMethod) (v : rvalue) (tag : Z) {struct fuel} : enc unit :=
  match fuel with
  | O => lift OutOfFuel
  | S fuel =>
      match m, v.2 with
      | MEnumeration, VUint z => onBuf (λ h, encodeEnum h tag z)
      | MBitmask, VUint z => onBuf (λ h, encodeInt h tag (i32 z))
      | MDateTimeExtended, VStruct [VTime t] => onBuf (λ h, encodeDateTimeExtended h tag t)
      | MUniqueIdentifier, VStruct [VString text; VUint enum; VInt idx] =>
          UniqueIdentifierValue_MarshalTTLV text enum idx tag
      | MValue, VStruct [VUint vtag; VIface val] =>
          let tag := if negb (vtag =? TagNone) then vtag else tag in
          match val with
          | Some (t, VSlice o) =>
              if is_valuesType t then
                EncodeStructure tag (forEach (default [] o) (λ x,
                  _ ← encode fuel TagNone (Some (valueType, x)) None; Flush))
              else _ ← encode fuel tag val None; Flush
          | _ => _ ← encode fuel tag val None; Flush
          end
      | _, _ => lift Panic
      end
  end.

(** [EncodeValue], [Encode] and [Marshal]. *)
Definition EncodeValue (fuel : nat) (tag : Z) (v : option rvalue) : enc unit :=
  _ ← encode fuel tag v None; Flush.

Definition Encode (fuel : nat) (v : option rvalue) : enc unit := EncodeValue fuel TagNone v.

Definition Marshal (fuel : nat) (v : option rvalue) : res merr (list byte) :=
  let '(e, r) := Encode fuel v NewEncoder in
  match r with
  | Ok _ => Ok (w e)
  | Err x => Err x
  | Panic => Panic
  | OutOfFuel => OutOfFuel
  end.
End Encode.

(** * Well-typed values *)

Definition intKind (k : kind) (z : Z) : Prop :=
  match k with
  | KInt | KInt64 => is_i64 z
  | KInt32 => is_i32 z
  | KInt16 => - 2 ^ 15 ≤ z < 2 ^ 15
  | KInt8 => - 2 ^ 7 ≤ z < 2 ^ 7
  | _ => False
  end.
Definition uintKind (k : kind) (z : Z) : Prop :=
  match k with
  | KUint | KUint64 | KUintptr => is_u64 z
  | KUint32 => is_u32 z
  | KUint16 => 0 ≤ z < 2 ^ 16
  | KUint8 => 0 ≤ z < 2 ^ 8
  | _ => False
  end.

(** The shape of the type a method is declared on. *)
Definition methodShape (t : gotype) : Prop :=
  match tn_marshal (typeName t), t with
  | None, _ => True
  | Some (MEnumeration | MBitmask), TBasic _ KUint32 => True
  | Some MDateTimeExtended, TStruct _ [SField _ t' _ _ _] => is_timeType t' = true
  | Some MValue, TStruct _ [SField _ (TBasic _ KUint32) _ _ _; SField _ (TInterface _) _ _ _] => True
  | Some MUniqueIdentifier,
    TStruct _ [SField _ (TBasic _ KString) _ _ _; SField _ (TBasic _ KUint32) _ _ _;
               SField _ (TBasic _ KInt32) _ _ _] => True
  | _, _ => False
  end.

(** The names the code compares types with belong to types of that shape. *)
Definition reservedOk (t : gotype) : bool :=
  implb (is_ttlvType t) match t with TSlice _ e => is_byteType e | _ => false end &&
  implb (is_timeType t) match t with TStruct _ _ => true | _ => false end.

Definition declOk (t : gotype) : Prop :=
  methodShape t ∧ reservedOk t = true ∧ (is_valuesType t = true → ∃ n, t = TSlice n valueType).

(** [hasType raw t v]: [v] is a value of the static type [t], as Go's type
    system guarantees it; the bytes of every [ttlv.TTLV] in it satisfy [raw]. *)
Inductive hasType (raw : list byte → Prop) : gotype → gov → Prop :=
  | ht_bool n b : declOk (TBasic n KBool) → hasType raw (TBasic n KBool) (VBool b)
  | ht_int n k z : declOk (TBasic n k) → intKind k z → hasType raw (TBasic n k) (VInt z)
  | ht_uint n k z : declOk (TBasic n k) → uintKind k z → hasType raw (TBasic n k) (VUint z)
  | ht_float n k z : declOk (TBasic n k) →
      k = KFloat32 ∨ k = KFloat64 ∨ k = KComplex64 ∨ k = KComplex128 →
      hasType raw (TBasic n k) (VFloat z)
  | ht_string n s : declOk (TBasic n KString) → hasType raw (TBasic n KString) (VString s)
  | ht_bytes n t o : declOk (TSlice n t) → is_byteType t = true →
      (is_ttlvType (TSlice n t) = true → raw (bytesOf o)) → hasType raw (TSlice n t) (VBytes o)
  | ht_nil_slice n t : declOk (TSlice n t) → is_byteType t = false →
      hasType raw (TSlice n t) (VSlice None)
  | ht_slice n t l : declOk (TSlice n t) → is_byteType t = false → Forall (hasType raw t) l →
      hasType raw (TSlice n t) (VSlice (Some l))
  | ht_array n k t l : declOk (TArray n k t) → length l = k → Forall (hasType raw t) l →
      hasType raw (TArray n k t) (VArray l)
  | ht_nil_ptr t : hasType raw (TPtr t) (VPtr None)
  | ht_ptr t v : hasType raw t v → hasType raw (TPtr t) (VPtr (Some v))
  | ht_nil_iface n : declOk (TInterface n) → hasType raw (TInterface n) (VIface None)
  | ht_iface n t v : declOk (TInterface n) → hasType raw t v → Kind t ≠ KInterface →
      hasType raw (TInterface n) (VIface (Some (t, v)))
  | ht_struct n fs l : declOk (TStruct n fs) → is_timeType (TStruct n fs) = false →
      Forall2 (λ f v, hasType raw (sf_type f) v) fs l → hasType raw (TStruct n fs) (VStruct l)
  | ht_time t : hasType raw timeType (VTime t)
  | ht_big z : hasType raw bigIntType (VBig z)
  | ht_opaque n k b : declOk (TOpaque n k) →
      k = KChan ∨ k = KMap ∨ k = KFunc ∨ k = KUnsafePointer → tn_marshal n = None →
      hasType raw (TOpaque n k) (VOpaque b).

(** The nesting depth of a value, and the fuel it needs: two calls for each
    level. *)
Fixpoint gdepth (v : gov) : nat :=
  match v with
  | VSlice (Some l) | VArray l | VStruct l => S (list_max (map gdepth l))
  | VPtr (Some v) => S (gdepth v)
  | VIface (Some (_, v)) => S (gdepth v)
  | _ => O
  end.

Definition need (v : gov) : nat := 2 + 2 * gdepth v.

Lemma gdepth_In l v : v ∈ l → (gdepth v ≤ list_max (map gdepth l))%nat.
Proof.
  intros Hin. pose proof (proj1 (list_max_le (map gdepth l) _) (le_n _)) as Hf.
  rewrite List.Forall_forall in Hf. apply Hf. apply in_map. by apply list_elem_of_In.
Qed.

(** * Type information of well-typed values *)

Section TypeInfoLemmas.
Context (dflt : Registry).

Lemma parseHexOrName_defined s l m : defined (parseHexOrName s l m).
Proof.
  unfold parseHexOrName, ParseHexValue. repeat (case_match; try done); simplify_eq.
Qed.

Lemma parseFieldTag_defined s : defined (parseFieldTag dflt s).
Proof.
  unfold parseFieldTag. case_match; [done|]. case_match; [done|]. case_match; [done|].
  pose proof (parseHexOrName_defined s0 3 (Some (Enum_EnumMap (tags dflt)))) as Hd.
  unfold Registry_ParseTag, ParseTag. by destruct (parseHexOrName _ _ _).
Qed.

Lemma getFieldInfo_defined sn i sf r : defined r → defined (getFieldInfo dflt sn i sf r).
Proof.
  intros Hr. unfold getFieldInfo. case_match; [done|].
  apply bind_defined; [apply parseFieldTag_defined|]. intros [[x f]|] _; [|done].
  case_match; [done|]. apply bind_defined; [done|]. intros ti _. by case_match.
Qed.

(** A field that [getFieldInfo] returns carries its index and the type
    information it was given. *)
Lemma getFieldInfo_inv sn i sf r fi :
  getFieldInfo dflt sn i sf r = Ok (Some fi) → fi_index fi = i ∧ r = Ok (fi_ti fi).
Proof.
  unfold getFieldInfo. case_match; [done|]. intros Hg.
  apply bind_Ok_inv in Hg as ([[x f]|] & _ & Hg); [|done].
  case_match; [done|]. apply bind_Ok_inv in Hg as (ti & Hti & Hg). case_match; [done|].
  by simplify_eq/=.
Qed.

(** Induction over types with the hypothesis for the type of every field. *)
Lemma gotype_ind' (P : gotype → Prop) :
  (∀ n k, P (TBasic n k)) → (∀ n t, P t → P (TSlice n t)) → (∀ n k t, P t → P (TArray n k t)) →
  (∀ t, P t → P (TPtr t)) → (∀ n, P (TInterface n)) →
  (∀ n fs, Forall (λ f, P (sf_type f)) fs → P (TStruct n fs)) → (∀ n k, P (TOpaque n k)) →
  ∀ t, P t.
Proof.
  intros HB HS HA HP HI HT HO. fix IH 1. intros [n k|n t|n k t|t|n|n fs|n k].
  - apply HB.
  - apply HS, IH.
  - apply HA, IH.
  - apply HP, IH.
  - apply HI.
  - apply HT. induction fs as [|[fn ft tg a e] fs IHf]; constructor; [apply IH|apply IHf].
  - apply HO.
Qed.

Lemma fieldsLoop_defined gti sn i fs tf vals :
  Forall (λ f, defined (gti (sf_type f))) fs → defined (fieldsLoop dflt gti sn i fs tf vals).
Proof.
  revert i tf vals. induction fs as [|[fn ft tg a e] fs IH]; intros i tf vals Hf; [done|].
  inversion Hf; subst. cbn [fieldsLoop].
  apply bind_defined; [by apply getFieldInfo_defined|]. intros [fi|] _; [|by apply IH].
  case_match; by apply IH.
Qed.

Lemma getTypeInfo_defined t : defined (getTypeInfo dflt t).
Proof.
  induction t as [| | | | |n fs IH|] using gotype_ind'; try done. cbn [getTypeInfo].
  apply bind_defined; [by apply fieldsLoop_defined|]. intros [tf vals] _. by case_match.
Qed.

Lemma getTypeInfo_typ t ti : getTypeInfo dflt t = Ok ti → ti_typ ti = t.
Proof.
  destruct t; try (by intros [= <-]). cbn [getTypeInfo]. intros Hg.
  apply bind_Ok_inv in Hg as ([tf vals] & _ & Hg). case_match; [done|]. by simplify_eq.
Qed.

(** The fields it lists are fields of the struct, with their types. *)
Definition fieldsOf (fs : list sfield) (f : fieldInfo) : Prop :=
  ∃ sf, fs !! fi_index f = Some sf ∧ ti_typ (fi_ti f) = sf_type sf.

Lemma fieldsLoop_fields sn pre fs tf vals tf' vals' :
  Forall (fieldsOf (pre ++ fs)) vals →
  fieldsLoop dflt (getTypeInfo dflt) sn (length pre) fs tf vals = Ok (tf', vals') →
  Forall (fieldsOf (pre ++ fs)) vals'.
Proof.
  revert pre tf vals. induction fs as [|[fn ft tg a e] fs IH]; intros pre tf vals Hv Hl.
  { cbn in Hl. by simplify_eq. }
  cbn [fieldsLoop] in Hl. apply bind_Ok_inv in Hl as (fi & Hfi & Hl).
  replace (S (length pre)) with (length (pre ++ [SField fn ft tg a e])) in Hl
    by (rewrite length_app; simpl; lia).
  assert (pre ++ SField fn ft tg a e :: fs = (pre ++ [SField fn ft tg a e]) ++ fs) as Happ
    by (rewrite <- app_assoc; done).
  rewrite Happ in *. destruct fi as [fi|]; [|by eapply IH].
  case_match; [by eapply IH|]. eapply IH; [|exact Hl]. apply Forall_app. split; [done|].
  constructor; [|done]. apply getFieldInfo_inv in Hfi as [Hi Hti].
  exists (SField fn ft tg a e). rewrite Hi, <- app_assoc, lookup_app_r, Nat.sub_diag by lia.
  split; [done|]. by apply getTypeInfo_typ in Hti.
Qed.

Lemma getTypeInfo_fields n fs ti :
  getTypeInfo dflt (TStruct n fs) = Ok ti → Forall (fieldsOf fs) (ti_valueFields ti).
Proof.
  cbn [getTypeInfo]. intros Hg. apply bind_Ok_inv in Hg as ([tf vals] & Hl & Hg).
  case_match; [done|]. simplify_eq/=. by apply (fieldsLoop_fields _ [] _ _ [] _ _) in Hl.
Qed.
End TypeInfoLemmas.

(** * What every encoding step does to the encoder *)

(** The prim an encoder writes for a Go value of any size: the value is
    reduced to the width of the wire format. *)
Definition primRange (p : prim) : Prop :=
  match p with
  | PInteger i => is_i32 i
  | PLongInteger i | PDateTime i | PDateTimeExtended i => is_i64 i
  | PEnumeration i | PInterval i => is_u32 i
  | _ => True
  end.

Lemma be4_mod a b : u32 a = u32 b → be_encode 4 a = be_encode 4 b.
Proof. intros H. rewrite <- (u32_be a), <- (u32_be b). by rewrite H. Qed.
Lemma be8_mod a b : u64 a = u64 b → be_encode 8 a = be_encode 8 b.
Proof. intros H. rewrite <- (u64_be a), <- (u64_be b). by rewrite H. Qed.

Lemma writeIntVal_block h tag p v :
  primSegment p = be_encode 4 v → writeIntVal h tag (primType p) v = h ++ primBlock tag p.
Proof. intros Hs. unfold primBlock. by rewrite Hs, len_be_encode, writeIntVal_eq. Qed.

Lemma writeLongIntVal_block h tag p v :
  primSegment p = be_encode 8 v → writeLongIntVal h tag (primType p) v = h ++ primBlock tag p.
Proof. intros Hs. unfold primBlock. by rewrite Hs, len_be_encode, writeLongIntVal_eq, u64_be. Qed.

(** A buffer operation that appends one primitive block. *)
Definition appendsPrim (tag : Z) (f : encBuf → encBuf) : Prop :=
  ∃ p, primRange p ∧ ∀ h, f h = h ++ primBlock tag p.

Lemma ap_int tag i : appendsPrim tag (λ h, encodeInt h tag i).
Proof.
  exists (PInteger (i32 i)). split; [apply i32_range|]. intros h.
  apply (writeIntVal_block h tag (PInteger (i32 i))), be4_mod. wrap_lia.
Qed.
Lemma ap_enum tag i : appendsPrim tag (λ h, encodeEnum h tag i).
Proof.
  exists (PEnumeration (u32 i)). split; [apply u32_range|]. intros h.
  apply (writeIntVal_block h tag (PEnumeration (u32 i))), be4_mod. wrap_lia.
Qed.
Lemma ap_interval tag d : appendsPrim tag (λ h, encodeInterval h tag d).
Proof.
  exists (PInterval (u32 (Z.quot d Second))). split; [apply u32_range|]. intros h.
  by apply (writeIntVal_block h tag (PInterval _)).
Qed.
Lemma ap_long tag i : appendsPrim tag (λ h, encodeLongInt h tag i).
Proof.
  exists (PLongInteger (i64 i)). split; [apply i64_range|]. intros h.
  apply (writeLongIntVal_block h tag (PLongInteger (i64 i))), be8_mod. wrap_lia.
Qed.
Lemma ap_date tag t : appendsPrim tag (λ h, encodeDateTime h tag t).
Proof.
  exists (PDateTime (i64 (time_sec t))). split; [apply i64_range|]. intros h.
  apply (writeLongIntVal_block h tag (PDateTime _)), be8_mod. wrap_lia.
Qed.
Lemma ap_datex tag t : appendsPrim tag (λ h, encodeDateTimeExtended h tag t).
Proof.
  eexists (PDateTimeExtended _). split; [|intros h; by apply (writeLongIntVal_block h tag (PDateTimeExtended _))].
  apply i64_range.
Qed.
Lemma ap_bool tag b : appendsPrim tag (λ h, encodeBool h tag b).
Proof.
  exists (PBoolean b). split; [done|]. intros h.
  destruct b; by apply (writeLongIntVal_block h tag (PBoolean _)).
Qed.
Lemma ap_big tag z : appendsPrim tag (λ h, encodeBigInt h tag (Some z)).
Proof. exists (PBigInteger z). split; [done|]. intros h. apply encodeBigInt_eq. Qed.
Lemma ap_text tag s : appendsPrim tag (λ h, encodeTextString h tag s).
Proof. exists (PTextString (String.list_byte_of_string s)). split; [done|]. intros h. apply encodeBytes_eq. Qed.
Lemma ap_bytes tag b : appendsPrim tag (λ h, encodeByteString h tag (Some b)).
Proof. exists (PByteString b). split; [done|]. intros h. apply encodeBytes_eq. Qed.

#[export] Hint Resolve ap_int ap_enum ap_interval ap_long ap_date ap_datex ap_bool ap_big
  ap_text ap_bytes : kmip.

Section Behaviour.
(** A property of byte sequences that holds of primitive blocks and is kept
    by concatenation and by enclosing in a Structure. *)
Context (P : list byte → Prop).
Context (P_nil : P []) (P_app : ∀ a b, P a → P b → P (a ++ b)).
Context (P_prim : ∀ tag p, primRange p → P (primBlock tag p)).
Context (P_struct : ∀ tag body, P body →
  P (header tag TypeStructure (len body) ++ body ++ padding (len body))).

(** [m] returns, restores the depth and the names, only appends bytes that
    satisfy [P] to the output, and writes nothing while inside a
    Structure. *)
Definition steps (e e' : Encoder) : Prop :=
  encodeDepth e' = encodeDepth e ∧ currStruct e' = currStruct e ∧ currField e' = currField e ∧
  (0 < encodeDepth e → w e' = w e) ∧
  ∃ bs, P bs ∧ w e' ++ buf e' = (w e ++ buf e) ++ bs.

Definition behaves {A} (m : enc A) : Prop :=
  ∀ e, 0 ≤ encodeDepth e → defined (m e).2 ∧ steps e (m e).1.

Lemma steps_refl e : steps e e.
Proof. split_and!; try done. exists []. by rewrite app_nil_r. Qed.

Lemma steps_trans e1 e2 e3 : steps e1 e2 → steps e2 e3 → steps e1 e3.
Proof.
  intros (Hd & Hs & Hf & Hw & b1 & Hp1 & H1) (Hd' & Hs' & Hf' & Hw' & b2 & Hp2 & H2).
  split_and!; try congruence.
  - intros Hpos. rewrite Hw', Hw; [done..|]. lia.
  - exists (b1 ++ b2). split; [auto|]. by rewrite H2, H1, <- !app_assoc.
Qed.

Lemma behaves_lift {A} (r : res merr A) : defined r → behaves (lift r).
Proof. intros Hr e _. split; [done|apply steps_refl]. Qed.

Lemma behaves_error {A} tag t c : behaves (marshalingError (A := A) tag t c).
Proof. intros e _. split; [done|apply steps_refl]. Qed.

Lemma behaves_bind {A B} (m : enc A) (f : A → enc B) :
  behaves m → (∀ a, behaves (f a)) → behaves (m ≫= f).
Proof.
  intros Hm Hf e He. destruct (Hm e He) as [Hd Hs]. unfold mbind, enc_bind.
  destruct (m e) as [e' r]. cbn in Hd, Hs. destruct r as [a|x| |]; try done.
  assert (0 ≤ encodeDepth e') as He' by (destruct Hs as (-> & _); done).
  destruct (Hf a e' He') as [Hd2 Hs2]. split; [done|by eapply steps_trans].
Qed.

Lemma behaves_liftTI (f : typeInfo → enc unit) ti :
  behaves (f ti) → behaves (liftTI (Ok ti) ≫= f).
Proof. done. Qed.

Lemma behaves_forEach {A} (l : list A) f : (∀ x, x ∈ l → behaves (f x)) → behaves (forEach l f).
Proof.
  induction l as [|x l IH]; intros Hf; cbn [forEach]; [by apply behaves_lift|].
  apply behaves_bind; [apply Hf; by left|]. intros _. apply IH. intros y Hy. apply Hf. by right.
Qed.

Lemma behaves_append f bs : P bs → (∀ h, f h = h ++ bs) → behaves (onBuf f).
Proof.
  intros HP Hf e He. split; [done|]. split_and!; try done. exists bs. split; [done|]. cbn.
  by rewrite Hf, app_assoc.
Qed.

Lemma behaves_prim tag f : appendsPrim tag f → behaves (onBuf f).
Proof. intros (p & Hp & Hf). apply (behaves_append f (primBlock tag p)); auto. Qed.

Lemma behaves_flush : behaves Flush.
Proof.
  intros e He. unfold Flush. case_match; (split; [done|]); [apply steps_refl|].
  split_and!; try done; [cbn; lia|]. exists []. split; [done|]. by rewrite !app_nil_r.
Qed.

Lemma behaves_withStruct s m : behaves m → behaves (withStruct s m).
Proof.
  intros Hm e He. unfold withStruct.
  destruct (Hm (mkEncoder (encodeDepth e) (w e) (buf e) s (currField e)) He) as [Hd Hs].
  destruct (m _) as [e' r]. cbn in *. split; [done|].
  destruct Hs as (? & ? & ? & ? & ?). by split_and!.
Qed.

Lemma behaves_withField s m : behaves m → behaves (withField s m).
Proof.
  intros Hm e He. unfold withField.
  destruct (Hm (mkEncoder (encodeDepth e) (w e) (buf e) (currStruct e) s) He) as [Hd Hs].
  destruct (m _) as [e' r]. cbn in *. split; [done|].
  destruct Hs as (? & ? & ? & ? & ?). by split_and!.
Qed.

Lemma behaves_EncodeStructure tag m : behaves m → behaves (EncodeStructure tag m).
Proof.
  intros Hm e He. unfold EncodeStructure. cbn [buf encodeDepth w currStruct currField].
  rewrite begin_eq.
  set (e1 := mkEncoder _ _ _ _ _). destruct (Hm e1) as [Hd Hs]; [cbn; lia|].
  destruct (m e1) as [e2 r]. cbn [fst snd] in *. split; [done|].
  destruct Hs as (Hd2 & Hs2 & Hf2 & Hw2 & bs & HP & Hb). cbn in Hd2, Hs2, Hf2, Hw2.
  rewrite Hw2 in Hb by lia. unfold e1 in Hb. cbn [w buf] in Hb. rewrite <- app_assoc in Hb. apply app_inv_head in Hb.
  split_and!; cbn [encodeDepth w buf currStruct currField]; try done; [lia|by rewrite Hw2 by lia|].
  exists (header tag TypeStructure (len bs) ++ bs ++ padding (len bs)). split; [auto|].
  rewrite Hw2 by lia. rewrite Hb, end_begin. by rewrite !app_assoc.
Qed.

Context (dflt : Registry).

Lemma parseParts_defined parts v m : defined (parseParts parts v m).
Proof.
  revert v. induction parts as [|[|c p] parts IH]; intros v; [done|apply IH|].
  cbn [parseParts]. apply bind_defined; [apply parseHexOrName_defined|]. intros i _. apply IH.
Qed.

Lemma ParseEnum_defined s m : defined (ParseEnum s m).
Proof. unfold ParseEnum. case_match; [done|apply parseHexOrName_defined]. Qed.

Lemma ParseInt_defined s m : defined (ParseInt s m).
Proof.
  unfold ParseInt. case_match; [done|]. case_match.
  - pose proof (parseHexOrName_defined s 4 m). by destruct (parseHexOrName s 4 m).
  - pose proof (parseParts_defined (splitMask s "") 0 m). by destruct (parseParts _ _ _).
Qed.

Lemma encodeEnumOrMask_behaves tag typ v flags m :
  encodeEnumOrMask dflt tag typ v flags = Some m → behaves m.
Proof.
  unfold encodeEnumOrMask. case_match; [|done].
  set (em := Registry_EnumForTag dflt tag).
  generalize (flags_bitmask flags || match em with Some m => em_Bitmask m | None => false end).
  intros isMask Hm.
  assert (∀ x : option (enc unit), x = Some m →
    (if flags_enum flags || flags_bitmask flags
     then Some (marshalingError tag typ ErrUnsupportedEnumTypeError) else None) = x →
    behaves m) as Hdflt.
  { intros x -> Hx. case_match; [|done]. injection Hx as <-. apply behaves_error. }
  assert (∀ i, Some (if isMask then onBuf (λ h, encodeInt h tag (i32 i))
                     else onBuf (λ h, encodeEnum h tag (u32 i))) = Some m → behaves m) as Hint.
  { intros i [= <-]. destruct isMask; eapply behaves_prim; eauto with kmip. }
  destruct v as [b|z|z|z|s| | | | | | | | |]; try (by eapply Hdflt).
  - destruct (smallInt (Kind typ)); [by eapply Hint|by eapply Hdflt].
  - destruct (smallUint (Kind typ)); [by eapply Hint|by eapply Hdflt].
  - pose proof (ParseInt_defined s em). pose proof (ParseEnum_defined s em).
    destruct isMask; [destruct (ParseInt s em)|destruct (ParseEnum s em)]; try done;
      [|destruct (flags_bitmask flags)| |destruct (flags_enum flags)]; simplify_eq;
      try apply behaves_error; eapply behaves_prim; eauto with kmip.
Qed.

(** The values [encodeScalar] is for. *)
Definition scalar (v : gov) : bool :=
  match v with
  | VTime _ | VBig _ | VString _ | VBytes (Some _) | VInt _ | VUint _ | VBool _ => true
  | _ => false
  end.

Lemma encodeScalar_behaves tag typ v flags : scalar v = true → behaves (encodeScalar tag typ v flags).
Proof.
  intros Hv. unfold encodeScalar. destruct v as [| | | | |[b|]| | | | | | | |]; try done;
    repeat case_match; try apply behaves_error; eapply behaves_prim; eauto with kmip.
Qed.

Lemma indirect_inv t v t' v' :
  hasType P t v → indirect (Some (t, v)) = Some (t', v') →
  hasType P t' v' ∧ (gdepth v' ≤ gdepth v)%nat ∧ isNilKind (Kind t') && isNil v' = false.
Proof.
  intros Ht. unfold indirect. cbn [mbind option_bind].
  destruct (elemIface (t, v)) as [[t1 v1]|] eqn:E1; [|done]. cbn [mbind option_bind].
  assert (hasType P t1 v1 ∧ (gdepth v1 ≤ gdepth v)%nat) as [H1 Hd1].
  { destruct t; cbn in E1; simplify_eq; try done. destruct v; simplify_eq; try done.
    inversion Ht; subst. split; [done|cbn; lia]. }
  destruct (elemPtr (t1, v1)) as [[t2 v2]|] eqn:E2; [|intros Hx; by cbn in Hx].
  assert (hasType P t2 v2 ∧ (gdepth v2 ≤ gdepth v1)%nat) as [H2 Hd2].
  { destruct t1; cbn in E2; simplify_eq; try done.
    destruct v1 as [| | | | | | | |[x|]| | | | |]; simplify_eq/=; try done.
    inversion H1; subst. split; [done|lia]. }
  cbn [mbind option_bind fst snd].
  destruct (isNilKind (Kind t2) && isNil v2) eqn:En; [done|]. intros [= <- <-].
  split_and!; [done|lia|done].
Qed.

Lemma hasType_elems n fs l i sf v :
  hasType P (TStruct n fs) (VStruct l) → fs !! i = Some sf → l !! i = Some v →
  hasType P (sf_type sf) v.
Proof.
  inversion 1 as [| | | | | | | | | | | | |? ? ? _ _ Hf| | |]; subst. intros Hs Hv.
  by eapply Forall2_lookup_lr in Hf.
Qed.

Lemma hasType_length n fs l :
  hasType P (TStruct n fs) (VStruct l) → length fs = length l.
Proof.
  inversion 1 as [| | | | | | | | | | | | |? ? ? _ _ Hf| | |]; subst. by eapply Forall2_length.
Qed.

(** What the three functions are proved to satisfy at a given fuel. *)
Definition encodeSpec (fuel : nat) : Prop := ∀ tag t v fi,
  hasType P t v → (need v ≤ fuel)%nat → behaves (encode dflt fuel tag (Some (t, v)) fi).
Definition structSpec (fuel : nat) : Prop := ∀ tag n fs ti l,
  hasType P (TStruct n fs) (VStruct l) → getTypeInfo dflt (TStruct n fs) = Ok ti →
  (1 + 2 * gdepth (VStruct l) ≤ fuel)%nat →
  behaves (encodeStruct dflt fuel tag (TStruct n fs) ti l).
Definition methodSpec (fuel : nat) : Prop := ∀ m t v tag,
  hasType P t v → tn_marshal (typeName t) = Some m → (1 + 2 * gdepth v ≤ fuel)%nat →
  behaves (MarshalTTLV dflt fuel m (t, v) tag).

Lemma structSpec_step fuel : encodeSpec fuel → structSpec (S fuel).
Proof.
  intros IH tag n fs ti l Ht Hti Hf. cbn [encodeStruct].
  apply behaves_withStruct, behaves_EncodeStructure, behaves_forEach. intros f Hin.
  pose proof (getTypeInfo_fields dflt n fs ti Hti) as Hfs. rewrite Forall_forall in Hfs.
  destruct (Hfs f Hin) as (sf & Hsf & Htyp).
  assert (is_Some (l !! fi_index f)) as [fv Hfv].
  { apply lookup_lt_is_Some. rewrite <- (hasType_length n fs l Ht). by eapply lookup_lt_Some. }
  rewrite Hfv. apply behaves_withField. apply IH.
  - rewrite Htyp. by eapply hasType_elems.
  - pose proof (gdepth_In l fv (list_elem_of_lookup_2 _ _ _ Hfv)). unfold need.
    cbn [gdepth] in Hf. lia.
Qed.

Lemma encode_None fuel tag fi : behaves (encode dflt (S fuel) tag None fi).
Proof. by apply behaves_lift. Qed.

Lemma encode_opt fuel tag v fi :
  encodeSpec fuel → (0 < fuel)%nat →
  match v with Some (t, x) => hasType P t x ∧ (need x ≤ fuel)%nat | None => True end →
  behaves (_ ← encode dflt fuel tag v fi; Flush).
Proof.
  intros IH Hf Hv. apply behaves_bind; [|intros _; apply behaves_flush].
  destruct v as [[t x]|]; [apply IH; tauto|]. destruct fuel; [lia|]. apply encode_None.
Qed.

(** The values inside a [ttlv.Values]. *)
Lemma hasType_values t o :
  is_valuesType t = true → hasType P t (VSlice o) → Forall (hasType P valueType) (default [] o).
Proof.
  intros Hv. inversion 1 as [| | | | | |? ? (_ & _ & Hd)|? ? l (_ & _ & Hd) _ Hl| | | | | | | | |];
    subst; [done|]. destruct (Hd Hv) as [n' [= -> ->]]. done.
Qed.

Lemma hasType_time t v : is_timeType t = true → hasType P t v → ∃ x, v = VTime x.
Proof.
  intros Ht Hv. inversion Hv; subst; eauto; try congruence; try done;
    match goal with H : declOk _ |- _ => destruct H as (_ & Hr & _) end;
    unfold reservedOk in Hr; rewrite Ht, andb_false_r in Hr; done.
Qed.

(** The shape of the values of a type with a method. *)
Definition methodValue (m : marshalMethod) (v : gov) : Prop :=
  match m with
  | MEnumeration | MBitmask => ∃ z, v = VUint z
  | MDateTimeExtended => ∃ t, v = VStruct [VTime t]
  | MUniqueIdentifier => ∃ s e i, v = VStruct [VString s; VUint e; VInt i]
  | MValue => ∃ tag o, v = VStruct [VUint tag; VIface o] ∧
      match o with Some (t, x) => hasType P t x | None => True end
  end.

Ltac basic_kinds := cbn in *; try done; destruct_or!; done.

Lemma hasType_uint n k v : uintKind k 0 → hasType P (TBasic n k) v → ∃ z, v = VUint z.
Proof. intros Hk. inversion 1; subst; eauto; try destruct k; basic_kinds. Qed.
Lemma hasType_int n v : hasType P (TBasic n KInt32) v → ∃ z, v = VInt z.
Proof. inversion 1; subst; eauto; basic_kinds. Qed.
Lemma hasType_string n v : hasType P (TBasic n KString) v → ∃ s, v = VString s.
Proof. inversion 1; subst; eauto; basic_kinds. Qed.
Lemma hasType_iface n v : hasType P (TInterface n) v →
  ∃ o, v = VIface o ∧ match o with Some (t, x) => hasType P t x | None => True end.
Proof. inversion 1; subst; eexists; by split. Qed.

Lemma hasType_fields n fs v :
  tn_marshal n ≠ None → hasType P (TStruct n fs) v →
  ∃ l, v = VStruct l ∧ Forall2 (λ f v, hasType P (sf_type f) v) fs l.
Proof. intros Hn. inversion 1; subst; eauto; done. Qed.

Ltac fields_inv :=
  repeat match goal with
  | F : Forall2 _ (_ :: _) _ |- _ => apply Forall2_cons_inv_l in F as (? & ? & ? & F & ->)
  | F : Forall2 _ [] _ |- _ => apply Forall2_nil_inv_l in F; subst
  end; cbn [sf_type] in *.

Lemma methodValue_ok m t v :
  tn_marshal (typeName t) = Some m → methodShape t → hasType P t v → methodValue m v.
Proof.
  unfold methodShape. intros Hm Hs Ht. rewrite Hm in Hs.
  destruct m; repeat case_match; try done; subst;
    try (by eapply hasType_uint in Ht; [|done]);
    (apply hasType_fields in Ht as (l & -> & Hl); [|cbn in Hm; congruence]); fields_inv.
  all: repeat match goal with
    | T : is_timeType ?t = true, H : hasType P ?t ?v |- _ =>
        destruct (hasType_time t v T H) as [? ->]; clear H
    | H : hasType P (TBasic _ KUint32) _ |- _ =>
        apply hasType_uint in H as [? ->]; [|by vm_compute]
    | H : hasType P (TBasic _ KString) _ |- _ => apply hasType_string in H as [? ->]
    | H : hasType P (TBasic _ KInt32) _ |- _ => apply hasType_int in H as [? ->]
    | H : hasType P (TInterface _) _ |- _ => apply hasType_iface in H as (? & -> & ?)
    end; cbn; eauto 10.
Qed.

Lemma methodSpec_step fuel : encodeSpec fuel → methodSpec (S fuel).
Proof.
  intros IH m t v tag Ht Hm Hf. assert (methodShape t) as Hs.
  { destruct Ht; try done; match goal with H : declOk _ |- _ => by destruct H end. }
  pose proof (methodValue_ok m t v Hm Hs Ht) as Hv. cbn [MarshalTTLV snd].
  destruct m; cbn in Hv.
  - destruct Hv as [z ->]. eapply behaves_prim; eauto with kmip.
  - destruct Hv as [z ->]. eapply behaves_prim; eauto with kmip.
  - destruct Hv as [x ->]. eapply behaves_prim; eauto with kmip.
  - destruct Hv as (vt & o & -> & Ho). cbn [gdepth map list_max foldr] in Hf.
    assert (behaves (_ ← encode dflt fuel (if negb (vt =? TagNone) then vt else tag) o None; Flush)).
    { apply encode_opt; [done|lia|]. destruct o as [[t' x]|]; [|done]. split; [done|].
      unfold need. cbn in Hf. lia. }
    destruct o as [[t' x]|]; [|done].
    destruct x as [| | | | | |o| | | | | | |]; try done. destruct (is_valuesType t') eqn:Hvt; [|done].
    apply behaves_EncodeStructure, behaves_forEach. intros x Hx.
    pose proof (hasType_values _ _ Hvt Ho) as Hall. rewrite Forall_forall in Hall.
    destruct o as [l|]; [|by apply not_elem_of_nil in Hx].
    apply encode_opt; [done|lia|]. split; [by apply Hall|].
    pose proof (gdepth_In l x Hx). unfold need. cbn in Hf. lia.
  - destruct Hv as (s & en & i & ->). cbn [snd]. unfold UniqueIdentifierValue_MarshalTTLV.
    destruct (negb (String.eqb s "")); [eapply behaves_prim; eauto with kmip|].
    destruct (negb (en =? 0)); [eapply behaves_prim; eauto with kmip|].
    destruct (negb (i =? 0)); [eapply behaves_prim; eauto with kmip|by apply behaves_lift].
Qed.

Lemma forEach_elems fuel tag elem l fi :
  encodeSpec fuel → Forall (hasType P elem) l → (2 * S (list_max (map gdepth l)) ≤ fuel)%nat →
  behaves (forEach l (λ x, encode dflt fuel tag (Some (elem, x)) fi)).
Proof.
  intros IH Hl Hf. apply behaves_forEach. intros x Hx. rewrite Forall_forall in Hl.
  apply IH; [by apply Hl|]. pose proof (gdepth_In l x Hx). unfold need. lia.
Qed.

Lemma hasType_ttlv t v :
  is_ttlvType t = true → hasType P t v → ∃ o, v = VBytes o ∧ P (bytesOf o).
Proof.
  intros Ht Hv. inversion Hv; subst; eauto; try done;
    match goal with H : declOk _ |- _ => destruct H as (_ & Hr & _) end;
    unfold reservedOk in Hr; rewrite Ht in Hr; cbn in Hr;
    try (apply andb_prop in Hr as [? _]; congruence); done.
Qed.

(** The part of [encode] after the slices: enumerations, structs, scalars. *)
Lemma encode_rest_behaves fuel tag typ ti val flags :
  structSpec fuel → hasType P typ val → getTypeInfo dflt typ = Ok ti →
  (1 + 2 * gdepth val ≤ fuel)%nat →
  (scalar val = true ∨ ∃ fs, val = VStruct fs) →
  behaves
    (if tag =? TagNone then marshalingError tag typ ErrNoTag
     else match encodeEnumOrMask dflt tag typ val flags with
          | Some m => m
          | None => match val with
                    | VStruct fs => encodeStruct dflt fuel tag typ ti fs
                    | _ => encodeScalar tag typ val flags
                    end
          end).
Proof.
  intros IH Ht Hti Hf Hv. destruct (tag =? TagNone); [apply behaves_error|].
  destruct (encodeEnumOrMask dflt tag typ val flags) as [m|] eqn:He.
  { by eapply encodeEnumOrMask_behaves. }
  destruct Hv as [Hv|[fs ->]].
  - destruct val; try done; by apply encodeScalar_behaves.
  - assert (∃ n sfs, typ = TStruct n sfs) as (n & sfs & ->) by (inversion Ht; eauto).
    by apply IH.
Qed.

Lemma encodeSpec_step fuel :
  encodeSpec fuel → structSpec fuel → methodSpec fuel → encodeSpec (S fuel).
Proof.
  intros IHe IHs IHm tag t v fi Ht Hf. cbn [encode].
  destruct (indirect (Some (t, v))) as [[typ val]|] eqn:Hi; [|by apply behaves_lift].
  destruct (indirect_inv t v typ val Ht Hi) as (Hty & Hd & Hnil).
  assert (1 + 2 * gdepth val ≤ fuel)%nat as Hf' by (unfold need in Hf; lia). clear Hf Ht Hi Hd t v.
  destruct (is_ttlvType typ) eqn:Htt.
  { destruct (hasType_ttlv _ _ Htt Hty) as (o & -> & Ho). by apply (behaves_append _ (bytesOf o)). }
  pose proof (getTypeInfo_defined dflt typ) as Hgd.
  destruct (getTypeInfo dflt typ) as [ti|x| |] eqn:Hti; try done;
    [|intros e He; split; [done|apply steps_refl]].
  apply behaves_liftTI. cbv zeta.
  set (tag' := if tag =? TagNone then tagForMarshal val ti fi else tag).
  set (flags := match fi with Some fi => fi_flags fi | None => 0 end).
  destruct (marshalMethodOf typ) as [m|] eqn:Hm.
  { destruct (flags_omitEmpty flags && _); [by apply behaves_lift|].
    destruct Hty; try (by apply IHm; [by econstructor|..]); try done.
    apply IHm; [done..|]. cbn in Hf'. lia. }
  destruct (unsupportedKind (Kind typ)) eqn:Huns; [apply behaves_error|].
  destruct (flags_omitEmpty flags && _); [by apply behaves_lift|]. clearbody tag' flags.
  pose proof (encode_rest_behaves fuel tag' typ ti val flags IHs Hty Hti Hf') as Hrest.
  destruct Hty; try discriminate;
    try exact (Hrest (or_introl eq_refl)); try exact (Hrest (or_intror (ex_intro _ _ eq_refl)));
    try (apply forEach_elems; [exact IHe|assumption|cbn [gdepth] in Hf'; lia]).
  - exfalso. by destruct_or!; subst.
  - destruct o as [b|]; [exact (Hrest (or_introl eq_refl))|discriminate].
  - exfalso. by destruct_or!; subst.
Qed.

Lemma encode_behaves fuel : encodeSpec fuel ∧ structSpec fuel ∧ methodSpec fuel.
Proof.
  induction fuel as [|fuel (IHe & IHs & IHm)].
  - split_and!; intros ?**; unfold need in *; lia.
  - split_and!; [by apply encodeSpec_step|by apply structSpec_step|by apply methodSpec_step].
Qed.

Lemma EncodeValue_behaves fuel tag t v :
  hasType P t v → (need v ≤ fuel)%nat → behaves (EncodeValue dflt fuel tag (Some (t, v))).
Proof.
  intros Ht Hf. apply encode_opt; [apply encode_behaves| |done]. unfold need in Hf. lia.
Qed.
End Behaviour.

(** * The two instances *)

(** Sequences of blocks of items whose primitive values are in range. *)
Inductive itemRange : item → Prop :=
  | ir_prim tag p : primRange p → itemRange (IPrim tag p)
  | ir_structure tag items : Forall itemRange items → itemRange (IStructure tag items).

Definition blocksOf (items : list item) : list byte := concat (map itemBlock items).

Definition isBlocks (bs : list byte) : Prop :=
  ∃ items, Forall itemRange items ∧ bs = blocksOf items.

Lemma blocksOf_aligned items : len (blocksOf items) mod 8 = 0.
Proof. apply concat_aligned. apply Forall_true. apply itemBlock_aligned. Qed.

Lemma isBlocks_nil : isBlocks [].
Proof. by exists []. Qed.
Lemma isBlocks_app a b : isBlocks a → isBlocks b → isBlocks (a ++ b).
Proof.
  intros (i & Hi & ->) (j & Hj & ->). exists (i ++ j). split; [by apply Forall_app|].
  unfold blocksOf. by rewrite map_app, concat_app.
Qed.
Lemma isBlocks_prim tag p : primRange p → isBlocks (primBlock tag p).
Proof.
  intros Hp. exists [IPrim tag p]. split; [by repeat constructor|].
  unfold blocksOf. cbn. by rewrite app_nil_r.
Qed.
Lemma isBlocks_struct tag body :
  isBlocks body → isBlocks (header tag TypeStructure (len body) ++ body ++ padding (len body)).
Proof.
  intros (items & Hi & ->). exists [IStructure tag items]. split; [by repeat constructor|].
  rewrite padding_aligned by apply blocksOf_aligned. unfold blocksOf. cbn. by rewrite !app_nil_r.
Qed.

(** Tags in the ranges of the specification, throughout an item. *)
Inductive itemTags : item → Prop :=
  | it_prim tag p : Tag_Valid tag = true → itemTags (IPrim tag p)
  | it_structure tag items :
      Tag_Valid tag = true → Forall itemTags items → itemTags (IStructure tag items).

Lemma itemBlock_In it items : it ∈ items → len (itemBlock it) ≤ len (blocksOf items).
Proof.
  intros Hin. induction items as [|x items IH]; [by apply not_elem_of_nil in Hin|].
  unfold blocksOf in *. cbn. rewrite len_app.
  pose proof (len_nonneg (itemBlock x)). pose proof (len_nonneg (concat (map itemBlock items))).
  apply elem_of_cons in Hin as [->|Hin]; [lia|]. specialize (IH Hin). lia.
Qed.

Lemma primRange_ok tag p : primRange p → len (primBlock tag p) < 2 ^ 32 → primOk p.
Proof.
  unfold primBlock. rewrite len_header, len_app. intros Hp Hl.
  pose proof (len_nonneg (padding (len (primSegment p)))). unfold_types.
  destruct p; cbn [primRange primOk] in *; try done; lia.
Qed.

Lemma itemRange_ok it : itemRange it → itemTags it → len (itemBlock it) < 2 ^ 32 → itemOk it.
Proof.
  induction it as [tag p|tag items IH] using item_ind'; intros Hr Ht Hl;
    inversion Hr; inversion Ht; subst.
  - constructor; [done|by eapply primRange_ok].
  - cbn [itemBlock] in Hl. rewrite len_header in Hl. unfold_types.
    change (concat (map itemBlock items)) with (blocksOf items) in Hl.
    constructor; [done| |unfold blocksOf in Hl; lia].
    rewrite !Forall_forall in *. intros x Hx. apply IH; auto.
    pose proof (itemBlock_In x items Hx). lia.
Qed.

Lemma blocks_denote items :
  Forall itemRange items → Forall itemTags items → len (blocksOf items) < 2 ^ 32 →
  DenotesSeq items (blocksOf items).
Proof.
  intros Hr Ht Hl. apply DenotesSeq_concat. rewrite !Forall_forall in *. intros it Hit.
  apply itemBlock_denotes, itemRange_ok; auto. pose proof (itemBlock_In it items Hit). lia.
Qed.

(** The instance without a condition on embedded bytes. *)
Definition anyBytes (bs : list byte) : Prop := True.

Lemma EncodeValue_any dflt fuel tag t v :
  hasType anyBytes t v → (need v ≤ fuel)%nat →
  behaves anyBytes (EncodeValue dflt fuel tag (Some (t, v))).
Proof. apply EncodeValue_behaves; done. Qed.

Lemma EncodeValue_blocks dflt fuel tag t v :
  hasType isBlocks t v → (need v ≤ fuel)%nat →
  behaves isBlocks (EncodeValue dflt fuel tag (Some (t, v))).
Proof.
  apply EncodeValue_behaves;
    [apply isBlocks_nil|apply isBlocks_app|apply isBlocks_prim|apply isBlocks_struct].
Qed.

(** After a successful [EncodeValue] outside Structures the buffer is empty. *)
Lemma EncodeValue_flushed dflt fuel tag v e e' :
  EncodeValue dflt fuel tag v e = (e', Ok tt) → encodeDepth e' ≤ 0 → buf e' = [].
Proof.
  unfold EncodeValue, mbind, enc_bind. destruct (encode dflt fuel tag v None e) as [e1 r].
  destruct r as [[]|x| |]; try done. unfold Flush. case_match; intros [= <-]; cbn; [lia|done].
Qed.

Definition intType : gotype := TBasic (predeclared "int") KInt.
Definition stringType : gotype := TBasic (predeclared "string") KString.
Definition float64Type : gotype := TBasic (predeclared "float64") KFloat64.

Lemma intType_decl : declOk intType.
Proof. split_and!; [exact I|reflexivity|by vm_compute]. Qed.
Lemma stringType_decl : declOk stringType.
Proof. split_and!; [exact I|reflexivity|by vm_compute]. Qed.

(** A struct with two fields, the second of a type that cannot be encoded. *)
Definition badStruct : gotype :=
  TStruct (named "main" "T")
    [SField "A" stringType "0x420001" false true; SField "B" float64Type "0x420002" false true].
Definition badValue : gov := VStruct [VString "stale"; VFloat false].
Definition badEncoder : Encoder :=
  (EncodeValue emptyRegistry 10 0x420078 (Some (badStruct, badValue)) NewEncoder).1.

(** The value [s] of [s := make([]interface{}, 1); s[0] = s], unfolded [n]
    times; [x] stands for the rest. *)
Definition cycleType : gotype := TSlice unnamed emptyInterface.
Fixpoint cycle (n : nat) (x : gov) : gov :=
  match n with
  | O => x
  | S n => VSlice (Some [VIface (Some (cycleType, cycle n x))])
  end.

Lemma encode_cycle dflt fuel n x tag fi v e : (fuel ≤ n)%nat →
  indirect (Some v) = Some (cycleType, cycle (S n) x) → (encode dflt fuel tag (Some v) fi e).2 = OutOfFuel.
Proof.
  revert n tag fi v e. induction fuel as [|fuel IH]; intros n tag fi v e Hf Hv; [done|]. destruct n as [|n]; [lia|].
  cbn [encode]. rewrite Hv. change (is_ttlvType cycleType) with false. cbv iota.
  unfold mbind, enc_bind. cbn [liftTI lift getTypeInfo cycleType].
  change (marshalMethodOf cycleType) with (@None marshalMethod). change (unsupportedKind (Kind cycleType)) with false. cbv iota.
  change (isEmptyValue (_, cycle _ _)) with false. rewrite andb_false_r. cbn [cycle forEach].
  unfold mbind, enc_bind. lazymatch goal with |- context [encode dflt fuel ?t ?w ?f e] =>
    pose proof (IH n t f (emptyInterface, VIface (Some (cycleType, cycle (S n) x))) e ltac:(lia) eq_refl) as Hr end.
  cbn [cycle] in Hr. destruct (encode _ _ _ _ _ _) as [e1 r]. cbn in Hr. by subst.
Qed.

(** A value that leads back to itself is not one of the values above, and the
    code does not return for it: with any fuel the recursion uses it up before
    it sees where the unfolding ends. *)
Theorem Marshal_cycle dflt fuel n x :
  (fuel < n)%nat → Marshal dflt fuel (Some (cycleType, cycle n x)) = OutOfFuel.
Proof.
  intros Hf. destruct n as [|n]; [lia|].
  pose proof (encode_cycle dflt fuel n x TagNone None (cycleType, cycle (S n) x) NewEncoder ltac:(lia) eq_refl) as He.
  unfold Marshal, Encode, EncodeValue, mbind, enc_bind. destruct (encode _ _ _ _ _ _) as [e r]. cbn in He. by subst.
Qed.

(** * Properties *)

(** C13. [Marshal] terminates on acyclic values: for every Go value that is a
    finite tree, of a type that does not contain itself and whose [MarshalTTLV]
    methods are those of the packages, it returns a result or an error, and the
    code that is meant to be unreachable is.  The depth of the value bounds the
    recursion.  (On a value that leads back to itself the code does not return:
    [Marshal_cycle].) *)
Theorem Marshal_total dflt t v fuel :
  hasType anyBytes t v → (need v ≤ fuel)%nat → defined (Marshal dflt fuel (Some (t, v))).
Proof.
  intros Ht Hf. destruct (EncodeValue_any dflt fuel TagNone t v Ht Hf NewEncoder) as [Hd _]; [done|].
  unfold Marshal, Encode. by destruct (EncodeValue _ _ _ _ _) as [e [| | |]].
Qed.

Lemma Marshal_total_witness :
  defined (Marshal emptyRegistry (need (VInt 7)) (Some (intType, VInt 7))).
Proof.
  apply Marshal_total; [|lia]. apply ht_int; [apply intType_decl|]. cbn. unfold is_i64. lia.
Defined.

(** C14. What [Marshal] returns is a sequence of TTLV blocks: when embedded
    [ttlv.TTLV] values are, the output is the concatenation of the blocks of
    some items, and it denotes them whenever their tags are in the valid
    ranges and it is shorter than 4 GiB. *)
Theorem Marshal_blocks dflt t v fuel bs :
  hasType isBlocks t v → (need v ≤ fuel)%nat → Marshal dflt fuel (Some (t, v)) = Ok bs →
  ∃ items, bs = blocksOf items ∧
    (Forall itemTags items → len bs < 2 ^ 32 → DenotesSeq items bs).
Proof.
  intros Ht Hf Hm.
  destruct (EncodeValue_blocks dflt fuel TagNone t v Ht Hf NewEncoder) as [_ Hs]; [done|].
  unfold Marshal, Encode in Hm.
  destruct (EncodeValue dflt fuel TagNone (Some (t, v)) NewEncoder) as [e r] eqn:He.
  destruct r as [[]|x| |]; try done. injection Hm as <-.
  destruct Hs as (Hd & _ & _ & _ & b & (items & Hr & ->) & Hb). cbn in Hd, Hb.
  rewrite (EncodeValue_flushed _ _ _ _ _ _ He), app_nil_r in Hb by lia.
  exists items. split; [done|]. rewrite Hb. intros Htags Hl. by apply blocks_denote.
Qed.

Lemma Marshal_blocks_witness :
  ∃ items, primBlock 0x42000d (PInteger 7) = blocksOf items ∧
    (Forall itemTags items → len (primBlock 0x42000d (PInteger 7)) < 2 ^ 32 →
     DenotesSeq items (primBlock 0x42000d (PInteger 7))).
Proof.
  apply (Marshal_blocks emptyRegistry valueType (NewValue 0x42000d (Some (intType, VInt 7))) 10);
    [|vm_compute; lia|vm_compute; reflexivity].
  apply ht_struct; [split_and!; [exact I|reflexivity|by vm_compute]|reflexivity|].
  repeat constructor; try done; cbn; unfold is_u32, is_i64; lia.
Defined.

(** C31. The encoder keeps its bookkeeping through every [EncodeValue], failed
    or not, at any depth: the nesting depth and the names for error messages
    are restored, the output only grows, and nothing reaches the writer while
    a Structure is open. *)
Theorem EncodeValue_state dflt t v fuel tag e :
  hasType anyBytes t v → (need v ≤ fuel)%nat → 0 ≤ encodeDepth e →
  let e' := (EncodeValue dflt fuel tag (Some (t, v)) e).1 in
  encodeDepth e' = encodeDepth e ∧ currStruct e' = currStruct e ∧ currField e' = currField e ∧
  (0 < encodeDepth e → w e' = w e) ∧ ∃ bs, w e' ++ buf e' = (w e ++ buf e) ++ bs.
Proof.
  intros Ht Hf He. destruct (EncodeValue_any dflt fuel tag t v Ht Hf e He) as [_ Hs].
  destruct Hs as (? & ? & ? & ? & bs & _ & ?). cbv zeta. split_and!; eauto.
Qed.

Lemma EncodeValue_state_witness :
  let e' := (EncodeValue emptyRegistry 2 0x42000d (Some (intType, VInt 7)) NewEncoder).1 in
  encodeDepth e' = 0 ∧ currStruct e' = ""%string ∧ currField e' = ""%string ∧
  (0 < 0 → w e' = []) ∧ ∃ bs, w e' ++ buf e' = ([] ++ []) ++ bs.
Proof.
  apply (EncodeValue_state emptyRegistry intType (VInt 7) 2 0x42000d NewEncoder);
    [|cbn; lia|cbn; lia]. apply ht_int; [apply intType_decl|]. cbn. unfold is_i64. lia.
Defined.

(** A failed [Encode] leaves the part it had encoded in the buffer: the
    next value encoded with the same Encoder is written after those bytes. *)
Theorem Encode_after_error :
  (∃ x, (EncodeValue emptyRegistry 10 0x420078 (Some (badStruct, badValue)) NewEncoder).2 = Err x) ∧
  w badEncoder = [] ∧
  let '(e, r) := EncodeValue emptyRegistry 10 0x42000d (Some (intType, VInt 7)) badEncoder in
  r = Ok tt ∧
  w e = itemBlock (IStructure 0x420078
          [IPrim 0x420001 (PTextString (String.list_byte_of_string "stale"))])
        ++ primBlock 0x42000d (PInteger 7).
Proof. vm_compute. split; [by eexists|done]. Qed.


