(* ===== verification/Stream.v ===== *)
(** Reading messages off a connection: [Decoder.NextTTLV] of
    src/ttlv/decoder.go over a [bufio.Reader], which may return fewer bytes
    than asked for. *)
From Stdlib Require Import ZArith Lia Strings.Byte.
From stdpp Require Import base list numbers.
From S2P Require Import Prelude Ttlv Grammar.
Local Open Scope Z_scope.

(** The bytes still to come, and how many bytes the next calls of [Read] find
    available (at least one each; everything once the list runs out). *)
Record reader := mkReader { pending : list byte; chunks : list nat }.

Inductive rerr : Type :=
  | EOF
  | InvalidHeader (e : terr).

(** [bufr.Peek(n)]: the bytes stay pending; fewer than [n] is an error. *)
Definition peek (r : reader) (n : Z) : res rerr (list byte) :=
  if len (pending r) <? n then Err EOF else Ok (take (Z.to_nat n) (pending r)).

(** [bufr.Read(p)] with [len(p) = n > 0]: what is available, at most [n]. *)
Definition read (r : reader) (n : Z) : reader * res rerr (list byte) :=
  match pending r with
  | [] => (r, Err EOF)
  | _ =>
      let avail := match chunks r with c :: _ => Nat.max 1 c | [] => length (pending r) end in
      let k := Nat.min avail (Z.to_nat n) in
      (mkReader (drop k (pending r)) (tail (chunks r)), Ok (take k (pending r)))
  end.

(** The loop of [NextTTLV]: [got] is [buf[:totRead]]. *)
Fixpoint readLoop (fuel : nat) (r : reader) (fullLen : Z) (got : list byte)
    : reader * res rerr TTLV :=
  match fuel with
  | O => (r, OutOfFuel)
  | S fuel =>
      let '(r, n) := read r (fullLen - len got) in
      match n with
      | Ok bs =>
          let got := got ++ bs in
          if fullLen <=? len got then (r, Ok got) else readLoop fuel r fullLen got
      | Err e => (r, Err e)
      | Panic => (r, Panic)
      | OutOfFuel => (r, OutOfFuel)
      end
  end.

Definition NextTTLV (r : reader) : reader * res rerr TTLV :=
  match peek r 8 with
  | Ok header =>
      match TTLV_ValidHeader header with
      | Ok _ =>
          match TTLV_FullLen header with
          | Ok fullLen => readLoop (Z.to_nat fullLen) r fullLen []
          | _ => (r, Panic)
          end
      | Err e => (r, Err (InvalidHeader e))
      | Panic => (r, Panic)
      | OutOfFuel => (r, OutOfFuel)
      end
  | Err e => (r, Err e)
  | Panic => (r, Panic)
  | OutOfFuel => (r, OutOfFuel)
  end.

(** * Lemmas *)

Lemma read_spec r n :
  pending r ≠ [] → 0 < n →
  ∃ k r', read r n = (r', Ok (take k (pending r))) ∧ pending r' = drop k (pending r) ∧
    (0 < k)%nat ∧ Z.of_nat k ≤ n.
Proof.
  intros Hp Hn. unfold read. destruct (pending r) as [|b bs]; [done|].
  eexists _, _. split; [done|]. split; [done|].
  destruct (chunks r); simpl length; lia.
Qed.

(** With the whole message pending, the loop returns it, however the reads are
    split. *)
Lemma readLoop_spec fuel r n got msg rest :
  pending r = msg ++ rest → len got + len msg = n → 0 < len msg → (length msg ≤ fuel)%nat →
  ∃ r', readLoop fuel r n got = (r', Ok (got ++ msg)) ∧ pending r' = rest.
Proof.
  revert r got msg. induction fuel as [|fuel IH]; intros r got msg Hp Hl Hm Hf;
    [unfold len in Hm; lia|].
  cbn [readLoop]. destruct (read_spec r (n - len got)) as (k & r1 & -> & Hp1 & Hk & Hkn);
    [rewrite Hp; by destruct msg|lia|].
  assert (k ≤ length msg)%nat as Hkm by (unfold len in *; lia).
  rewrite Hp in *. rewrite take_app_le in * by done. rewrite drop_app_le in Hp1 by done.
  rewrite len_app, len_take. unfold len in *.
  destruct (Z.leb_spec n (Z.of_nat (length got) + Z.min (Z.of_nat k) (Z.of_nat (length msg)))).
  - assert (k = length msg) as -> by lia. exists r1. rewrite take_ge, drop_ge in * by lia. done.
  - destruct (IH r1 (got ++ take k msg) (drop k msg)) as (r' & -> & Hr');
      rewrite ?length_app, ?length_take, ?length_drop in *; try lia; [done|].
    exists r'. by rewrite <- app_assoc, take_drop.
Qed.

(** With less than the message pending, the loop ends with EOF. *)
Lemma readLoop_short fuel r n got :
  len got + len (pending r) < n → (length (pending r) < fuel)%nat →
  ∃ r', readLoop fuel r n got = (r', Err EOF).
Proof.
  revert r got. induction fuel as [|fuel IH]; intros r got Hl Hf; [lia|]. cbn [readLoop].
  destruct (pending r) as [|b bs] eqn:E.
  { unfold read. rewrite E. eauto. }
  pose proof (len_nonneg (pending r)) as Hn.
  destruct (read_spec r (n - len got)) as (k & r1 & -> & Hp1 & Hk & Hkn);
    [by rewrite E|rewrite <- E in Hl; lia|].
  rewrite <- E in *. rewrite len_app, len_take. unfold len in *.
  destruct (Z.leb_spec n (Z.of_nat (length got) + Z.min (Z.of_nat k) (Z.of_nat (length (pending r)))));
    [lia|].
  apply IH; rewrite Hp1, ?length_app, ?length_take, ?length_drop in *;
    rewrite E in *; simpl length in *; lia.
Qed.

Lemma TTLV_Type_range t : 0 ≤ TTLV_Type t < 256.
Proof.
  unfold TTLV_Type, byteAt. case_match; [lia|]. case_match; [apply b2z_range|lia].
Qed.

(** The header accessors only look at the first eight bytes. *)
Lemma header_of_prefix t :
  lenHeader ≤ len t →
  TTLV_ValidHeader (take 8 t) = TTLV_ValidHeader t ∧ TTLV_FullLen (take 8 t) = TTLV_FullLen t.
Proof.
  intros Hl. pose proof (header_split t Hl) as Ht.
  pose proof (TTLV_Type_range t) as Hty. pose proof (TTLV_Len_range t) as Hlen.
  set (h := header (TTLV_Tag t) (TTLV_Type t) (TTLV_Len t)) in *.
  assert (take 8 t = h ++ []) as ->.
  { rewrite Ht, take_app_length' by (unfold h; by rewrite length_header). by rewrite app_nil_r. }
  assert (TTLV_Type (h ++ []) = TTLV_Type t) as E1 by (by apply header_Type).
  assert (TTLV_Len (h ++ []) = TTLV_Len t) as E2 by (by apply header_Len).
  split; [|by unfold TTLV_FullLen; rewrite E1, E2].
  unfold TTLV_ValidHeader. rewrite E1, E2. unfold h at 1. rewrite len_header.
  rewrite !(proj2 (Z.ltb_ge _ _)) by (rewrite ?len_nil; unfold_types; lia).
  assert (∀ x, TTLV_validTag (h ++ x) = TTLV_validTag (h ++ [])) as Hv by reflexivity.
  rewrite <- (Hv (drop 8 t)), <- Ht. reflexivity.
Qed.

(** The four things [NextTTLV] can do. *)
Variant nextOutcome (bs : list byte) (cs : list nat) : Prop :=
  | next_no_header : len bs < 8 → NextTTLV (mkReader bs cs) = (mkReader bs cs, Err EOF) →
      nextOutcome bs cs
  | next_bad_header e : 8 ≤ len bs → TTLV_ValidHeader bs = Err e →
      NextTTLV (mkReader bs cs) = (mkReader bs cs, Err (InvalidHeader e)) → nextOutcome bs cs
  | next_no_body fl r' : TTLV_ValidHeader bs = Ok tt → TTLV_FullLen bs = Ok fl → len bs < fl →
      NextTTLV (mkReader bs cs) = (r', Err EOF) → nextOutcome bs cs
  | next_message fl r' : TTLV_ValidHeader bs = Ok tt → TTLV_FullLen bs = Ok fl → 8 ≤ fl ≤ len bs →
      NextTTLV (mkReader bs cs) = (r', Ok (take (Z.to_nat fl) bs)) →
      pending r' = drop (Z.to_nat fl) bs → nextOutcome bs cs.

Lemma NextTTLV_outcome bs cs : nextOutcome bs cs.
Proof.
  destruct (Z.lt_ge_cases (len bs) 8) as [Hl|Hl].
  { apply next_no_header; [done|]. unfold NextTTLV, peek. cbn [pending]. by rewrite (proj2 (Z.ltb_lt _ _)). }
  assert (NextTTLV (mkReader bs cs) =
    match TTLV_ValidHeader bs with
    | Ok _ => match TTLV_FullLen bs with
              | Ok fl => readLoop (Z.to_nat fl) (mkReader bs cs) fl []
              | _ => (mkReader bs cs, Panic)
              end
    | Err e => (mkReader bs cs, Err (InvalidHeader e))
    | Panic => (mkReader bs cs, Panic)
    | OutOfFuel => (mkReader bs cs, OutOfFuel)
    end) as Hn.
  { unfold NextTTLV, peek. cbn [pending]. rewrite (proj2 (Z.ltb_ge _ _)) by done.
    destruct (header_of_prefix bs Hl) as [E1 E2]. change (Z.to_nat 8) with 8%nat. by rewrite E1, E2. }
  pose proof (ValidHeader_defined bs) as Hd.
  destruct (TTLV_ValidHeader bs) as [[]|e| |] eqn:Hh; [|by eapply next_bad_header|done..].
  destruct (FullLen_valid bs Hh) as (fl & Hfl & Hge). rewrite Hfl in Hn.
  pose proof (TTLV_Len_range bs).
  destruct (Z.lt_ge_cases (len bs) fl) as [Hs|Hs].
  - destruct (readLoop_short (Z.to_nat fl) (mkReader bs cs) fl []) as [r' Hr];
      cbn [pending]; rewrite ?len_nil; unfold len in *; try lia.
    eapply next_no_body; try done. by rewrite Hn.
  - destruct (readLoop_spec (Z.to_nat fl) (mkReader bs cs) fl [] (take (Z.to_nat fl) bs)
      (drop (Z.to_nat fl) bs)) as (r' & Hr & Hp); cbn [pending];
      rewrite ?take_drop, ?len_take, ?len_nil, ?length_take; unfold len in *; unfold_types; try lia; try done.
    eapply next_message; try done; [unfold len; lia|]. by rewrite Hn.
Qed.

Lemma NextTTLV_of_block it blk rest cs :
  Denotes it blk →
  ∃ r', NextTTLV (mkReader (blk ++ rest) cs) = (r', Ok blk) ∧ pending r' = rest.
Proof.
  intros Hd. destruct (Denotes_header it blk rest Hd) as (Hh & Hfl & _ & Hl).
  pose proof (len_nonneg rest). destruct (NextTTLV_outcome (blk ++ rest) cs) as
    [Hs _|e _ He _|fl r' _ Hf Hs _|fl r' _ Hf _ Hn Hp]; rewrite ?len_app in *.
  - unfold_types. lia.
  - by rewrite Hh in He.
  - rewrite Hfl in Hf. injection Hf as <-. lia.
  - rewrite Hfl in Hf. injection Hf as <-. exists r'. unfold len in *. rewrite Nat2Z.id in *.
    by rewrite take_app_length, drop_app_length in *.
Qed.

(** * Properties *)

(** C19. Message framing does not depend on how the connection delivers the
    bytes: with a complete block pending, [NextTTLV] returns exactly that block
    and leaves what follows it, whatever the sizes of the reads. *)
Theorem NextTTLV_block it blk rest cs :
  Denotes it blk →
  ∃ r', NextTTLV (mkReader (blk ++ rest) cs) = (r', Ok blk) ∧ pending r' = rest.
Proof. apply NextTTLV_of_block. Qed.

Lemma NextTTLV_block_witness :
  ∃ r', NextTTLV (mkReader (sampleBlock ++ [x42; x00]) [3; 1; 7]%nat) = (r', Ok sampleBlock) ∧
    pending r' = [x42; x00].
Proof. apply (NextTTLV_block sampleItem), sampleBlock_denotes. Defined.

(** C33. A connection that ends inside a message gives EOF, also inside the
    header, and a header that is not valid is reported without reading on; in
    no case does [NextTTLV] panic or read for ever. *)
Theorem NextTTLV_truncated bs cs :
  defined (NextTTLV (mkReader bs cs)).2 ∧
  (len bs < 8 → NextTTLV (mkReader bs cs) = (mkReader bs cs, Err EOF)) ∧
  (∀ e, 8 ≤ len bs → TTLV_ValidHeader bs = Err e →
     NextTTLV (mkReader bs cs) = (mkReader bs cs, Err (InvalidHeader e))) ∧
  (∀ fl, TTLV_ValidHeader bs = Ok tt → TTLV_FullLen bs = Ok fl → len bs < fl →
     ∃ r', NextTTLV (mkReader bs cs) = (r', Err EOF)).
Proof.
  assert (∀ t, TTLV_ValidHeader t = Ok tt → 8 ≤ len t) as H8 by by intros t [? _]%ValidHeader_spec.
  destruct (NextTTLV_outcome bs cs) as [Hs Hn|e ? He Hn|fl r' Hh Hf ? Hn|fl r' Hh Hf ? Hn _];
    rewrite Hn; split_and!; try done; try lia; intros; eauto; try congruence;
    exfalso; try congruence; try match goal with H : TTLV_ValidHeader _ = Ok _ |- _ => apply H8 in H; lia end.
  assert (fl0 = fl) by congruence. lia.
Qed.
