(* ===== verification/Decoder.v ===== *)
(** The reflection-driven decoder of src/ttlv/decoder.go: [Decoder], [Reset],
    [Decode], [DecodeValue], [unmarshal], [unmarshalStructure], with the
    [UnmarshalTTLV] methods of src/ttlv/types.go, src/ttlv/ttlv.go and
    src/kmip20/unique_identifier.go. *)
From Stdlib Require Import ZArith Lia Strings.Byte Ascii String.
From stdpp Require Import base list strings numbers gmap.
From S2P Require Import Prelude Ttlv Grammar EncBuf Hex Names Registry Formatting Printer Reflect Encoder Stream.
Local Open Scope Z_scope.
Set Warnings "-register-all".

Inductive dcause : Type :=
  | DErrUnsupportedTypeError
  | DErrIntOverflow
  | DErrUintOverflow
  | DErrInvalidType
  | DErrUnexpectedValue
  | DErrTypeInfo (e : tierr).

Inductive derr : Type :=
  | UnmarshalerError (struct : option string) (field : string) (tag type : Z) (val : string)
      (cause : dcause)
  | DNonPointer
  | DStream (e : rerr)
  | DValue (e : terr)
  | DErrorf (msg : string).      (** an error without a sentinel *)

(** The decoder's configuration and position; the reader is threaded apart. *)
Record Decoder := mkDecoder {
  DisallowExtraValues : bool;
  d_currStruct : option string;
  d_currField : string;
}.

Definition NewDecoder : Decoder := mkDecoder false None "".

(** [Reset]: [*dec = Decoder{r: r, bufr: dec.bufr}]. *)
Definition Decoder_Reset (d : Decoder) : Decoder := mkDecoder false None "".

(** * Values *)

Fixpoint zeroValue (t : gotype) : gov :=
  match t with
  | TBasic _ k =>
      match k with
      | KBool => VBool false
      | KInt | KInt8 | KInt16 | KInt32 | KInt64 => VInt 0
      | KUint | KUint8 | KUint16 | KUint32 | KUint64 | KUintptr => VUint 0
      | KString => VString ""
      | _ => VFloat true
      end
  | TSlice _ e => if is_byteType e then VBytes None else VSlice None
  | TArray _ n e => VArray (replicate n (zeroValue e))
  | TPtr _ => VPtr None
  | TInterface _ => VIface None
  | TStruct n fs =>
      if is_timeType (TStruct n fs) then VTime zeroTime
      else if is_bigIntType (TStruct n fs) then VBig 0
      else VStruct (map (λ f, let 'SField _ ft _ _ _ := f in zeroValue ft) fs)
  | TOpaque _ _ => VOpaque true
  end.

(** [val.OverflowInt] and [val.OverflowUint]. *)
Definition inInt (k : kind) (z : Z) : bool :=
  match k with
  | KInt | KInt64 => (- 2 ^ 63 <=? z) && (z <? 2 ^ 63)
  | KInt32 => (- 2 ^ 31 <=? z) && (z <? 2 ^ 31)
  | KInt16 => (- 2 ^ 15 <=? z) && (z <? 2 ^ 15)
  | KInt8 => (- 2 ^ 7 <=? z) && (z <? 2 ^ 7)
  | _ => false
  end.
Definition inUint (k : kind) (z : Z) : bool :=
  match k with
  | KUint | KUint64 | KUintptr => (0 <=? z) && (z <? 2 ^ 64)
  | KUint32 => (0 <=? z) && (z <? 2 ^ 32)
  | KUint16 => (0 <=? z) && (z <? 2 ^ 16)
  | KUint8 => (0 <=? z) && (z <? 2 ^ 8)
  | _ => false
  end.

(** The Go value that [ttlv.Value()] returns, with its dynamic type. *)
Definition ofGoval (v : goval) : rvalue :=
  match v with
  | GInt32 z => (TBasic (predeclared "int32") KInt32, VInt z)
  | GInt64 z => (TBasic (predeclared "int64") KInt64, VInt z)
  | GBigInt z => (TPtr bigIntType, VPtr (Some (VBig z)))
  | GEnumValue z => (enumValueType, VUint z)
  | GBool b => (TBasic (predeclared "bool") KBool, VBool b)
  | GString s => (stringType, VString s)
  | GBytes o => (TSlice unnamed byteType, VBytes o)
  | GTime t => (timeType, VTime t)
  | GDateTimeExtended t => (dateTimeExtendedType, VStruct [VTime t])
  | GDuration d => (durationType, VInt d)
  | GTTLV o => (ttlvType, VBytes o)
  end.

(** Result of an operation that stores into a value: the value as it is left,
    also when there is an error. *)
Definition stored : Type := gov * res derr unit.

(** Store what [r] yields; on failure the value stays as it was. *)
Definition store {A} (v : gov) (r : res terr A) (f : A → stored) : stored :=
  match r with
  | Ok a => f a
  | Err e => (v, Err (DValue e))
  | Panic => (v, Panic)
  | OutOfFuel => (v, OutOfFuel)
  end.

Section Decode.
Context (dflt : Registry).

Definition newUnmarshalerError (d : Decoder) (t : TTLV) (typ : gotype) (c : dcause) : derr :=
  UnmarshalerError (d_currStruct d) (d_currField d) (TTLV_Tag t) (TTLV_Type t)
    (tn_name (typeName typ)) c.

(** [UnmarshalerError.Error]; the other errors have texts of their own. *)
Definition UnmarshalerError_Error (dflt : Registry) (e : derr) : option string :=
  match e with
  | UnmarshalerError struct field tag type val _ =>
      Some ("kmip: error unmarshaling " +:+ Tag_String dflt tag +:+ " with type " +:+ Type_String dflt type
              +:+ " into value of type " +:+ val
              +:+ match struct with
                  | Some s => " in struct field " +:+ s +:+ "." +:+ field
                  | None => EmptyString
                  end)%string
  | _ => None
  end.

(** An Enumeration or Integer into an integer kind: the value [get] is read once
    the kind is known to be one of them, [asUint] converts it to [uint64]. *)
Definition setNumber (d : Decoder) (t : TTLV) (typ : gotype) (v : gov) (get : res terr Z) (asUint : Z → Z) : stored :=
  let overflow := (v, Err (newUnmarshalerError d t typ DErrIntOverflow)) in
  if smallInt (Kind typ) then
    store v get (λ i, if inInt (Kind typ) i then (VInt i, Ok tt) else overflow)
  else if smallUint (Kind typ) then
    store v get (λ i, if inUint (Kind typ) (asUint i) then (VUint (asUint i), Ok tt) else overflow)
  else (v, Err (newUnmarshalerError d t typ DErrUnsupportedTypeError)).

(** [val.Type().Elem()] panics on a kind without elements; the elements of
    channels and maps are not represented and taken not to be bytes. *)
Definition typeElem (t : gotype) : res derr gotype :=
  match t with
  | TSlice _ e | TArray _ _ e | TPtr e => Ok e
  | TOpaque _ (KChan | KMap) => Ok t
  | _ => Panic
  end.

(** The type switch of [unmarshal], Structure apart. *)
Definition unmarshalPrim (d : Decoder) (t : TTLV) (typ : gotype) (v : gov) : stored :=
  let mismatch := (v, Err (newUnmarshalerError d t typ DErrUnsupportedTypeError)) in
  let ty := TTLV_Type t in
  if ty =? TypeInterval then
    if bool_decide (Kind typ = KInt64)
    then store v (TTLV_ValueInterval t) (λ i, (VInt i, Ok tt)) else mismatch
  else if (ty =? TypeDateTime) || (ty =? TypeDateTimeExtended) then
    if is_timeType typ then store v (TTLV_ValueDateTime t) (λ x, (VTime x, Ok tt)) else mismatch
  else if ty =? TypeByteString then
    if bool_decide (Kind typ = KSlice) then (VBytes (TTLV_ValueByteString t), Ok tt)
    else match typeElem typ with
         | Ok e => if is_byteType e then (v, Panic) else mismatch
         | _ => (v, Panic)
         end
  else if ty =? TypeTextString then
    if bool_decide (Kind typ = KString) then (VString (TTLV_ValueTextString t), Ok tt) else mismatch
  else if ty =? TypeBoolean then
    if bool_decide (Kind typ = KBool)
    then store v (TTLV_ValueBoolean t) (λ b, (VBool b, Ok tt)) else mismatch
  else if ty =? TypeEnumeration then
    setNumber d t typ v (TTLV_ValueEnumeration t) id
  else if ty =? TypeInteger then
    setNumber d t typ v (TTLV_ValueInteger t) u64
  else if ty =? TypeLongInteger then
    match Kind typ with
    | KInt64 => store v (TTLV_ValueLongInteger t) (λ i, (VInt i, Ok tt))
    | KUint64 => store v (TTLV_ValueLongInteger t) (λ i, (VUint (u64 i), Ok tt))
    | _ => mismatch
    end
  else if ty =? TypeBigInteger then
    if is_bigIntType typ then store v (TTLV_ValueBigInteger t) (λ z, (VBig z, Ok tt)) else mismatch
  else (v, Err (newUnmarshalerError d t typ DErrInvalidType)).

(** The field a value goes to: the one with its tag, else the first "any"
    field. *)
Fixpoint findField (fields : list fieldInfo) (tag : Z) (cand : option fieldInfo) : option fieldInfo :=
  match fields with
  | [] => cand
  | f :: fields =>
      if flags_any (fi_flags f) then
        findField fields tag (match cand with None => Some f | _ => cand end)
      else if fi_tag f =? tag then Some f
      else findField fields tag cand
  end.

(** [for n := first; n != nil; n = n.Next()], [k] bounds the iterations. *)
Fixpoint eachValue (k : nat) (n : option TTLV) (v : gov) (f : TTLV → gov → stored) : stored :=
  match n with
  | None => (v, Ok tt)
  | Some t =>
      match k with
      | O => (v, OutOfFuel)
      | S k =>
          let '(v, r) := f t v in
          match r with
          | Ok _ =>
              match TTLV_Next t with
              | Ok n => eachValue k n v f
              | Err e => (v, Err (DValue e))
              | Panic => (v, Panic)
              | OutOfFuel => (v, OutOfFuel)
              end
          | _ => (v, r)
          end
      end
  end.

(** [for ttlv.Valid() == nil], of [Value.UnmarshalTTLV]. *)
Fixpoint whileValid (k : nat) (t : option TTLV) (v : gov) (f : TTLV → gov → stored) : stored :=
  match k with
  | O => (v, OutOfFuel)
  | S k =>
      match TTLV_Valid (bytesOf t) with
      | Ok _ =>
          let '(v, r) := f (bytesOf t) v in
          match r with
          | Ok _ =>
              match TTLV_Next (bytesOf t) with
              | Ok n => whileValid k n v f
              | Err e => (v, Err (DValue e))
              | Panic => (v, Panic)
              | OutOfFuel => (v, OutOfFuel)
              end
          | _ => (v, r)
          end
      | Err _ => (v, Ok tt)
      | Panic => (v, Panic)
      | OutOfFuel => (v, OutOfFuel)
      end
  end.

(** [UniqueIdentifierValue.UnmarshalTTLV] of package kmip20, on a receiver that
    holds [text], [enum] and [idx]. *)
Definition UniqueIdentifierValue_UnmarshalTTLV (text : string) (enum idx : Z) (t : TTLV) : stored :=
  let value text enum idx := VStruct [VString text; VUint enum; VInt idx] in
  let old := value text enum idx in
  if len t =? 0 then (old, Ok tt)
  else if TTLV_Type t =? TypeTextString then (value (TTLV_String dflt t) enum idx, Ok tt)
  else if TTLV_Type t =? TypeEnumeration then
    match TTLV_ValueEnumeration t with
    | Ok e => (value text e idx, Ok tt)
    | _ => (old, Panic)
    end
  else if TTLV_Type t =? TypeInteger then
    match TTLV_ValueInteger t with
    | Ok i => (value text enum i, Ok tt)
    | _ => (old, Panic)
    end
  else (old, Err (DErrorf ("invalid type for UniqueIdentifier: " +:+ Type_String dflt (TTLV_Type t)))).

Definition setField (v : gov) (i : nat) (x : gov) : gov :=
  match v with VStruct fs => VStruct (<[i := x]> fs) | _ => v end.

(** [unmarshal]: [fuel] bounds the nesting. *)
Fixpoint unmarshal (fuel : nat) (d : Decoder) (typ : gotype) (v : gov) (t : TTLV) : stored :=
  match fuel with
  | O => (v, OutOfFuel)
  | S fuel =>
      if len t =? 0 then (v, Ok tt)
      else match typ, v with
      | TInterface _, VIface (Some (TPtr pt, VPtr (Some x))) =>
          let '(x, r) := unmarshalElem fuel d pt x t in
          (VIface (Some (TPtr pt, VPtr (Some x))), r)
      | TPtr pt, VPtr o =>
          let '(x, r) := unmarshalElem fuel d pt (default (zeroValue pt) o) t in
          (VPtr (Some x), r)
      | _, _ => unmarshalElem fuel d typ v t
      end
  end

(** After the pointer: the methods, interfaces, slices and the type switch.  An
    interface type is one without methods, so that [Set] takes any value. *)
with unmarshalElem (fuel : nat) (d : Decoder) (typ : gotype) (v : gov) (t : TTLV) {struct fuel} : stored :=
  match fuel with
  | O => (v, OutOfFuel)
  | S fuel =>
      let viaPtr := match typ with TPtr pt => tn_unmarshal (typeName pt) | _ => None end in
      match viaPtr, v with
      | Some m, VPtr (Some x) =>
          let '(x, r) := UnmarshalTTLV fuel m d x t in (VPtr (Some x), r)
      | Some _, _ => (v, Panic)
      | None, _ =>
          match tn_unmarshal (typeName typ) with
          | Some m => UnmarshalTTLV fuel m d v t
          | None =>
              match typ, v with
              | TInterface _, _ =>
                  if TTLV_Type t =? TypeStructure then (VIface (Some (ttlvType, VBytes (Some t))), Ok tt)
                  else store v (TTLV_Value t) (λ g, (VIface (Some (ofGoval g)), Ok tt))
              | TSlice _ e, VSlice o =>
                  let '(x, r) := unmarshal fuel d e (zeroValue e) t in
                  match r with
                  | Ok _ => (VSlice (Some (default [] o ++ [x])), Ok tt)
                  | _ => (VSlice (Some (default [] o)), r)
                  end
              | _, _ =>
                  if TTLV_Type t =? TypeStructure then
                    if bool_decide (Kind typ = KStruct) then unmarshalStructure fuel d typ v t
                    else (v, Err (newUnmarshalerError d t typ DErrUnsupportedTypeError))
                  else unmarshalPrim d t typ v
              end
          end
      end
  end

with unmarshalStructure (fuel : nat) (d : Decoder) (typ : gotype) (v : gov) (t : TTLV)
    {struct fuel} : stored :=
  match fuel with
  | O => (v, OutOfFuel)
  | S fuel =>
      match getTypeInfo dflt typ with
      | Err e => (v, Err (newUnmarshalerError d t typ (DErrTypeInfo e)))
      | Panic => (v, Panic)
      | OutOfFuel => (v, OutOfFuel)
      | Ok ti =>
          let v := match ti_tagField ti with
                   | Some f => if is_tagType (ti_typ (fi_ti f))
                               then setField v (fi_index f) (VUint (TTLV_Tag t)) else v
                   | None => v
                   end in
          let d' := mkDecoder (DisallowExtraValues d) (Some (tn_name (typeName typ))) (d_currField d) in
          eachValue (S (length t)) (TTLV_ValueStructure t) v (λ n v,
            match findField (ti_valueFields ti) (TTLV_Tag n) None with
            | Some f =>
                match v with
                | VStruct fs =>
                    match fs !! fi_index f with
                    | Some fv =>
                        let '(x, r) :=
                          unmarshal fuel (mkDecoder (DisallowExtraValues d') (d_currStruct d') (fi_name f))
                            (ti_typ (fi_ti f)) fv n in
                        (setField v (fi_index f) x, r)
                    | None => (v, Panic)
                    end
                | _ => (v, Panic)
                end
            | None =>
                if DisallowExtraValues d
                then (v, Err (newUnmarshalerError d' t typ DErrUnexpectedValue))
                else (v, Ok tt)
            end)
      end
  end

(** The [UnmarshalTTLV] methods, on the value the pointer receiver points to. *)
with UnmarshalTTLV (fuel : nat) (m : unmarshalMethod) (d : Decoder) (v : gov) (t : TTLV)
    {struct fuel} : stored :=
  match fuel with
  | O => (v, OutOfFuel)
  | S fuel =>
      match m, v with
      | UTTLV, _ => (VBytes (Some t), Ok tt)
      | UDateTimeExtended, VStruct [tm] =>
          if len t =? 0 then (v, Ok tt)
          else let '(x, r) := unmarshal fuel d (TPtr timeType) (VPtr (Some tm)) t in
               (VStruct [match x with VPtr (Some tm) => tm | _ => tm end], r)
      | UValue, VStruct [_; old] =>
          if TTLV_Type t =? TypeStructure then
            let '(vals, r) :=
              whileValid (S (length t)) (TTLV_ValueStructure t) (VSlice None) (λ n vals,
                let '(x, r) := unmarshal fuel d (TPtr valuesType) (VPtr (Some vals)) n in
                (match x with VPtr (Some x) => x | _ => vals end, r)) in
            match r with
            | Ok _ => (VStruct [VUint (TTLV_Tag t); VIface (Some (valuesType, vals))], Ok tt)
            | _ => (VStruct [VUint (TTLV_Tag t); old], r)
            end
          else
            match TTLV_Value t with
            | Ok g => (VStruct [VUint (TTLV_Tag t); VIface (Some (ofGoval g))], Ok tt)
            | Err e => (VStruct [VUint (TTLV_Tag t); old], Err (DValue e))
            | Panic => (v, Panic)
            | OutOfFuel => (v, OutOfFuel)
            end
      | UUniqueIdentifier, VStruct [VString text; VUint enum; VInt idx] =>
          UniqueIdentifierValue_UnmarshalTTLV text enum idx t
      | _, _ => (v, Panic)
      end
  end.

(** [DecodeValue] into a pointer to a value of type [typ], [Decode] from the
    reader, and [Unmarshal]. *)
Definition DecodeValue (fuel : nat) (d : Decoder) (typ : gotype) (v : gov) (t : TTLV) : stored :=
  match unmarshal fuel d (TPtr typ) (VPtr (Some v)) t with
  | (VPtr (Some x), r) => (x, r)
  | (_, r) => (v, r)
  end.

Definition Decode (fuel : nat) (d : Decoder) (r : reader) (typ : gotype) (v : gov) : reader * stored :=
  let '(r, t) := NextTTLV r in
  match t with
  | Ok t => (r, DecodeValue fuel d typ v t)
  | Err e => (r, (v, Err (DStream e)))
  | Panic => (r, (v, Panic))
  | OutOfFuel => (r, (v, OutOfFuel))
  end.

Definition Unmarshal (fuel : nat) (bs : list byte) (typ : gotype) (v : gov) : stored :=
  (Decode fuel NewDecoder (mkReader bs []) typ v).2.
End Decode.

(** * Decoding into [ttlv.Value] *)

(** The Go value a [ttlv.Value] holds for an item. *)
Fixpoint valueOf (it : item) : gov :=
  match it with
  | IPrim tag p => NewValue tag (Some (ofGoval (primGo p)))
  | IStructure tag items =>
      NewStruct tag (map valueOf items)
  end.

Fixpoint itemDepth (it : item) : nat :=
  match it with
  | IPrim _ _ => 1
  | IStructure _ items => S (list_max (map itemDepth items))
  end.

Section ValueDecode.
Context (dflt : Registry) (d : Decoder).

Definition decodesTo (it : item) (blk : list byte) : Prop := ∀ fuel rest x y,
  (5 * itemDepth it ≤ fuel)%nat →
  UnmarshalTTLV dflt fuel UValue d (VStruct [x; y]) (blk ++ rest) = (valueOf it, Ok tt).

Lemma unmarshal_ptr fuel typ v t :
  len t ≠ 0 →
  unmarshal dflt (S fuel) d (TPtr typ) (VPtr (Some v)) t =
  let '(x, r) := unmarshalElem dflt fuel d typ v t in (VPtr (Some x), r).
Proof. intros Hl. cbn [unmarshal]. by rewrite (proj2 (Z.eqb_neq _ _)). Qed.

Lemma unmarshal_struct fuel n fs v t :
  len t ≠ 0 →
  unmarshal dflt (S fuel) d (TStruct n fs) v t = unmarshalElem dflt fuel d (TStruct n fs) v t.
Proof. intros Hl. cbn [unmarshal]. by rewrite (proj2 (Z.eqb_neq _ _)). Qed.

Lemma unmarshalElem_slice fuel n e o t :
  tn_unmarshal n = None →
  unmarshalElem dflt (S fuel) d (TSlice n e) (VSlice o) t =
  let '(x, r) := unmarshal dflt fuel d e (zeroValue e) t in
  match r with
  | Ok _ => (VSlice (Some (default [] o ++ [x])), Ok tt)
  | _ => (VSlice (Some (default [] o)), r)
  end.
Proof. intros Hn. cbn [unmarshalElem typeName]. by rewrite Hn. Qed.

Lemma unmarshalElem_method fuel n fs m v t :
  tn_unmarshal n = Some m →
  unmarshalElem dflt (S fuel) d (TStruct n fs) v t = UnmarshalTTLV dflt fuel m d v t.
Proof. intros Hn. cbn [unmarshalElem typeName]. by rewrite Hn. Qed.

(** One element appended to a [ttlv.Values]. *)
Lemma unmarshal_values fuel o it blk rest :
  decodesTo it blk → Denotes it blk → (4 + 5 * itemDepth it ≤ fuel)%nat →
  unmarshal dflt fuel d (TPtr valuesType) (VPtr (Some (VSlice o))) (blk ++ rest) =
  (VPtr (Some (VSlice (Some (default [] o ++ [valueOf it])))), Ok tt).
Proof.
  intros Hdec Hd Hf. destruct (Denotes_header it blk rest Hd) as (_ & _ & _ & Hl).
  assert (len (blk ++ rest) ≠ 0) as Hne.
  { rewrite len_app. pose proof (len_nonneg rest). unfold_types. lia. }
  destruct fuel as [|[|[|[|fuel]]]]; [lia..|].
  rewrite unmarshal_ptr by done. unfold valuesType. rewrite unmarshalElem_slice by done.
  unfold valueType at 1. rewrite unmarshal_struct, (unmarshalElem_method _ _ _ UValue) by done.
  change (zeroValue valueType) with (VStruct [VUint 0; VIface None]).
  by rewrite Hdec by lia.
Qed.

(** The loop over the enclosed values. *)
Lemma whileValid_seq fuel items body :
  DenotesSeq items body →
  (∀ it blk, it ∈ items → Denotes it blk → decodesTo it blk) →
  (∀ it, it ∈ items → 4 + 5 * itemDepth it ≤ fuel)%nat →
  ∀ k o, (length body < k)%nat →
  whileValid k (match body with [] => None | _ => Some body end) (VSlice o) (λ n vals,
    let '(x, r) := unmarshal dflt fuel d (TPtr valuesType) (VPtr (Some vals)) n in
    (match x with VPtr (Some x) => x | _ => vals end, r)) =
  (VSlice (match items with [] => o | _ => Some (default [] o ++ map valueOf items) end), Ok tt).
Proof.
  induction 1 as [|it items blk body Hd Hseq IH]; intros Hdec Hfuel k o Hk.
  { destruct k; [simpl in Hk; lia|]. reflexivity. }
  destruct k as [|k]; [lia|]. pose proof (Denotes_header it blk body Hd) as (_ & _ & _ & Hl).
  assert (match blk ++ body with [] => None | _ => Some (blk ++ body) end = Some (blk ++ body)) as ->.
  { destruct blk; [by vm_compute in Hl|done]. }
  cbn [whileValid]. change (bytesOf (Some (blk ++ body))) with (blk ++ body).
  rewrite (Valid_block it) by done.
  rewrite (unmarshal_values fuel o it blk body);
    [|apply Hdec; [by left|done]|done|apply Hfuel; by left].
  change (TTLV_Next (blk ++ body)) with (nextWith TTLV_Valid (blk ++ body)).
  rewrite (nextWith_block it) by (done || by apply (Valid_block it)).
  rewrite length_app in Hk. unfold len in Hl. unfold_types.
  rewrite IH; [|intros; apply Hdec; [by right|done]|intros; apply Hfuel; by right|lia].
  destruct items; [done|]. simpl. by rewrite <- app_assoc.
Qed.

Lemma decodesTo_all it blk : Denotes it blk → decodesTo it blk.
Proof.
  revert blk. induction it as [tag p|tag items IH] using item_ind'; intros blk Hd fuel rest x y Hf;
    (destruct fuel as [|fuel]; [cbn in Hf; lia|]); cbn [UnmarshalTTLV].
  - pose proof (Value_prim tag p blk rest Hd) as Hv.
    destruct (Denotes_header _ _ rest Hd) as (_ & _ & Ht & _).
    assert ((TTLV_Type (blk ++ rest) =? TypeStructure) = false) as ->.
    { inversion Hd as [? ty ? raw pad Htag Hp Hl Hpad|]; subst.
      destruct (primDecode_shape _ _ _ Hp) as (_ & Hns & Hty). rewrite <- !app_assoc, header_Type by done.
      by apply Z.eqb_neq. }
    by rewrite Hv, Ht.
  - destruct (Denotes_header _ _ rest Hd) as (_ & _ & Ht & _).
    inversion Hd as [|? ? body Htag Hseq Hl]; subst. rewrite Ht, <- !app_assoc.
    rewrite header_Type by (unfold_types; lia). change (TypeStructure =? TypeStructure) with true.
    cbn iota. unfold TTLV_ValueStructure. rewrite header_ValueRaw by done.
    rewrite Forall_forall in IH. cbn [itemDepth] in Hf.
    rewrite (whileValid_seq fuel items body Hseq).
    + cbn [valueOf itemTag]. by destruct items.
    + intros it blk Hin Hdi. by apply IH.
    + intros it Hin. pose proof (proj1 (list_max_le (map itemDepth items) _) (le_n _)) as Hm.
      rewrite List.Forall_forall in Hm.
      specialize (Hm (itemDepth it) (in_map _ _ _ (proj1 (list_elem_of_In _ _) Hin))). lia.
    + rewrite !length_app. lia.
Qed.
End ValueDecode.

(** * Encoding a [ttlv.Value] *)

(** The items whose Go values keep everything: no empty byte string (its Go
    value is the nil slice), times whose nanoseconds fit 64 bits, and no
    enumeration registered for the tag of a value. *)
Definition primKeeps (p : prim) : Prop :=
  match p with
  | PByteString s => s ≠ []
  | PDateTimeExtended usec => is_i64 (usec * 1000)
  | _ => True
  end.

Inductive itemKeeps (dflt : Registry) : item → Prop :=
  | ik_prim tag p :
      Tag_Valid tag = true → primOk p → primKeeps p → Registry_EnumForTag dflt tag = None →
      itemKeeps dflt (IPrim tag p)
  | ik_structure tag items :
      Tag_Valid tag = true → Forall (itemKeeps dflt) items → itemKeeps dflt (IStructure tag items).

Definition push (e : Encoder) (bs : list byte) : Encoder :=
  mkEncoder (encodeDepth e) (w e) (buf e ++ bs) (currStruct e) (currField e).

Lemma Tag_Valid_nonzero tag : Tag_Valid tag = true → tag ≠ TagNone.
Proof. intros Ht ->. by vm_compute in Ht. Qed.

Section ValueEncode.
Context (dflt : Registry).

Lemma onBuf_push f bs e : f (buf e) = buf e ++ bs → onBuf f e = (push e bs, Ok tt).
Proof. intros Hf. unfold onBuf, modify, push. by rewrite Hf. Qed.

Lemma bind_liftTI {A} ti (f : typeInfo → enc A) e : (liftTI (Ok ti) ≫= f) e = f ti e.
Proof. reflexivity. Qed.

(** The common path of [encode] for a value without methods that is neither a
    slice of values nor an enumeration. *)
Lemma encode_plain fuel tag v t x :
  indirect (Some v) = Some (t, x) → is_ttlvType t = false → marshalMethodOf t = None →
  unsupportedKind (Kind t) = false → tag ≠ TagNone → Registry_EnumForTag dflt tag = None →
  (∃ n k, t = TBasic n k) ∨ t = timeType ∨ t = bigIntType ∨ (∃ n, t = TSlice n byteType) →
  scalar x = true →
  encode dflt (S fuel) tag (Some v) None = encodeScalar tag t x 0.
Proof.
  intros Hi Htt Hm Hu Ht Hem Hty Hs. cbn [encode]. rewrite Hi, Htt.
  assert (∃ ti, getTypeInfo dflt t = Ok ti) as [ti Hti].
  { destruct Hty as [(n & k & ->)|[->|[->|(n & ->)]]]; cbn; eauto. }
  rewrite Hti. unfold liftTI, lift. unfold mbind, enc_bind. rewrite (proj2 (Z.eqb_neq _ _)) by done.
  rewrite Hm, Hu. change (flags_omitEmpty 0) with false. cbn [andb].
  rewrite (proj2 (Z.eqb_neq _ _)) by done.
  assert (encodeEnumOrMask dflt tag t x 0 = None) as ->.
  { unfold encodeEnumOrMask. rewrite Hem. change (flags_enum 0) with false.
    change (flags_bitmask 0) with false. cbn [orb].
    by rewrite bool_decide_eq_false_2 by (by intros []). }
  destruct Hty as [(n & k & ->)|[->|[->|(n & ->)]]]; destruct x; try done.
Qed.

Lemma encode_prim fuel tag p e :
  tag ≠ TagNone → primOk p → primKeeps p → Registry_EnumForTag dflt tag = None →
  encode dflt (S (S fuel)) tag (Some (ofGoval (primGo p))) None e = (push e (primBlock tag p), Ok tt).
Proof.
  intros Ht Hok Hk Hem. destruct p as [i|i|i|i|b|s|s|sec|sec|usec]; cbn [primGo ofGoval].
  - erewrite encode_plain; [|reflexivity|done..|eauto|done]. cbn [primOk] in Hok.
    unfold encodeScalar. change (is_durationType _) with false. cbn [smallInt Kind]. cbn iota.
    rewrite (proj2 (Z.ltb_ge _ _)), i32_id by (done || unfold is_i32 in Hok; lia).
    apply onBuf_push. by apply (encodePrim_eq _ tag (PInteger i)).
  - erewrite encode_plain; [|reflexivity|done..|eauto|done]. unfold encodeScalar.
    change (is_durationType _) with false. cbn [smallInt Kind]. cbn iota.
    apply onBuf_push. by apply (encodePrim_eq _ tag (PLongInteger i)).
  - erewrite encode_plain; [|reflexivity|done..|by right; right; left|done].
    apply onBuf_push. by apply (encodePrim_eq _ tag (PBigInteger i)).
  - cbn [encode]. change (indirect (Some (enumValueType, VUint i))) with (Some (enumValueType, VUint i)).
    cbn iota beta. change (is_ttlvType enumValueType) with false.
    cbn -[encodeEnum primBlock]. rewrite bind_liftTI, (proj2 (Z.eqb_neq tag TagNone)) by done.
    change (flags_omitEmpty 0) with false. cbn [andb].
    apply onBuf_push. by apply (encodePrim_eq _ tag (PEnumeration i)).
  - erewrite encode_plain; [|reflexivity|done..|eauto|done].
    apply onBuf_push. by apply (encodePrim_eq _ tag (PBoolean b)).
  - erewrite encode_plain; [|reflexivity|done..|eauto|done].
    apply onBuf_push. by apply (encodePrim_eq _ tag (PTextString s)).
  - destruct s as [|b s]; [done|]. erewrite encode_plain; [|reflexivity|done..|eauto 10|done].
    apply onBuf_push. by apply (encodePrim_eq _ tag (PByteString (b :: s))).
  - erewrite encode_plain; [|reflexivity|done..|by right; left|done].
    apply onBuf_push. by apply (encodePrim_eq _ tag (PDateTime sec)).
  - erewrite encode_plain; [|reflexivity|done..|eauto|done].
    apply onBuf_push. by apply (encodePrim_eq _ tag (PInterval sec)).
  - cbn [encode]. set (x := VStruct _).
    change (indirect (Some (dateTimeExtendedType, x))) with (Some (dateTimeExtendedType, x)).
    cbn iota beta. change (is_ttlvType dateTimeExtendedType) with false. subst x.
    cbn -[encodeDateTimeExtended primBlock unixTime].
    rewrite bind_liftTI, (proj2 (Z.eqb_neq tag TagNone)) by done.
    change (flags_omitEmpty 0) with false. cbn [andb].
    apply onBuf_push. cbn [primOk primKeeps] in *. rewrite i64_id by done.
    rewrite <- (encodePrim_eq _ tag (PDateTimeExtended usec)) by done.
    cbn [encodePrim]. f_equal. unfold unixTime. f_equal; [|wrap_unfold; Z.div_mod_to_equations; lia].
    wrap_unfold. Z.div_mod_to_equations; lia.
Qed.

Context (ti : typeInfo) (Hti : getTypeInfo dflt valueType = Ok ti).

(** [encode] of a [ttlv.Value] calls its method with the tag it carries. *)
Lemma encode_Value fuel vtag o e :
  vtag ≠ TagNone →
  encode dflt (S (S fuel)) TagNone (Some (valueType, VStruct [VUint vtag; VIface o])) None e =
  match o with
  | Some (t, VSlice l) =>
      if is_valuesType t then
        EncodeStructure vtag (forEach (default [] l) (λ x,
          _ ← encode dflt fuel TagNone (Some (valueType, x)) None; Flush)) e
      else (_ ← encode dflt fuel vtag o None; Flush) e
  | _ => (_ ← encode dflt fuel vtag o None; Flush) e
  end.
Proof.
  intros Hv. set (v := VStruct _). cbn [encode].
  change (indirect (Some (valueType, v))) with (Some (valueType, v)). cbn iota beta.
  change (is_ttlvType valueType) with false. cbn iota. rewrite Hti, bind_liftTI.
  change (flags_omitEmpty 0) with false. cbn [andb].
  change (marshalMethodOf valueType) with (Some MValue). cbn iota.
  change (deref (valueType, v)) with (valueType, v). subst v. cbn [MarshalTTLV snd].
  rewrite (proj2 (Z.eqb_neq vtag TagNone)) by done. cbn [negb].
  destruct o as [[t x]|]; [|done]. destruct x; try done. by destruct (is_valuesType t).
Qed.

Definition encodesAs (it : item) : Prop := ∀ fuel e,
  (2 + 2 * itemDepth it ≤ fuel)%nat → 0 < encodeDepth e →
  encode dflt fuel TagNone (Some (valueType, valueOf it)) None e = (push e (itemBlock it), Ok tt).

Lemma Flush_inside e : 0 < encodeDepth e → Flush e = (e, Ok tt).
Proof. intros He. unfold Flush. by rewrite (proj2 (Z.ltb_lt _ _)). Qed.

Lemma push_push e a b : push (push e a) b = push e (a ++ b).
Proof. unfold push. cbn. by rewrite app_assoc. Qed.

Lemma forEach_values fuel items e :
  Forall encodesAs items → (∀ it, it ∈ items → 2 + 2 * itemDepth it ≤ fuel)%nat →
  0 < encodeDepth e →
  forEach (map valueOf items) (λ x,
    _ ← encode dflt fuel TagNone (Some (valueType, x)) None; Flush) e =
  (push e (blocksOf items), Ok tt).
Proof.
  intros Hall. revert e. induction Hall as [|it items Hit Hall IH]; intros e Hf He.
  { unfold push, blocksOf. cbn. rewrite app_nil_r. by destruct e. }
  cbn [map forEach]. unfold mbind, enc_bind. rewrite Hit by (done || apply Hf; by left).
  rewrite Flush_inside by done. unfold mbind, enc_bind in IH.
  rewrite IH; [|intros; apply Hf; by right|done]. by rewrite push_push.
Qed.

Lemma EncodeStructure_push tag m e bs :
  (∀ e1, 0 < encodeDepth e1 → m e1 = (push e1 bs, Ok tt)) → 0 ≤ encodeDepth e →
  EncodeStructure tag m e =
  (push e (header tag TypeStructure (len bs) ++ bs ++ padding (len bs)), Ok tt).
Proof.
  intros Hm He. unfold EncodeStructure. cbn [buf encodeDepth w currStruct currField].
  rewrite begin_eq, Hm by (cbn; lia). unfold push. cbn [encodeDepth w buf currStruct currField].
  rewrite end_begin. do 2 f_equal. lia.
Qed.

Lemma encode_Structure fuel tag items e :
  Tag_Valid tag = true → Forall encodesAs items →
  (2 + 2 * itemDepth (IStructure tag items) ≤ fuel)%nat → 0 ≤ encodeDepth e →
  encode dflt fuel TagNone (Some (valueType, valueOf (IStructure tag items))) None e =
  (push e (itemBlock (IStructure tag items)), Ok tt).
Proof.
  intros Ht Hall Hf He. destruct fuel as [|[|fuel]]; [lia..|]. cbn [valueOf]. unfold NewStruct, NewValue.
  rewrite encode_Value by by apply Tag_Valid_nonzero.
  change (is_valuesType valuesType) with true. cbn iota.
  assert (default [] (match map valueOf items with [] => None | _ => Some (map valueOf items) end)
    = map valueOf items) as -> by by destruct items.
  rewrite (EncodeStructure_push tag _ e (blocksOf items)); [|intros e1 He1|done].
  - rewrite padding_aligned, app_nil_r by apply blocksOf_aligned. done.
  - apply forEach_values; [done| |done]. intros it Hin.
    pose proof (proj1 (list_max_le (map itemDepth items) _) (le_n _)) as Hm.
    rewrite List.Forall_forall in Hm. cbn [itemDepth] in Hf.
    specialize (Hm (itemDepth it) (in_map _ _ _ (proj1 (list_elem_of_In _ _) Hin))). lia.
Qed.

Lemma ofGoval_prim p : ∃ t x, ofGoval (primGo p) = (t, x) ∧ ∀ l, x ≠ VSlice l.
Proof. destruct p; eexists _, _; (split; [reflexivity|done]). Qed.

Lemma encodesAs_all it : itemKeeps dflt it → encodesAs it.
Proof.
  induction it as [tag p|tag items IH] using item_ind'; intros Hk fuel e Hf He;
    inversion Hk as [? ? Ht Hok Hkp Hem|? ? Ht Hall]; subst.
  - destruct fuel as [|[|[|[|fuel]]]]; [cbn in Hf; lia..|]. cbn [valueOf]. unfold NewStruct, NewValue.
    rewrite encode_Value by by apply Tag_Valid_nonzero.
    destruct (ofGoval_prim p) as (t & x & Hx & Hns).
    pose proof (encode_prim fuel tag p e (Tag_Valid_nonzero _ Ht) Hok Hkp Hem) as Henc.
    rewrite Hx in *. assert (match x with VSlice l => False | _ => True end) as Hm.
    { destruct x; try done. by destruct (Hns o). }
    unfold mbind, enc_bind. rewrite Henc, Flush_inside by done. by destruct x.
  - apply encode_Structure; [done| |done|lia]. rewrite Forall_forall in *. auto.
Qed.
End ValueEncode.

Lemma Marshal_valueOf dflt ti it fuel :
  getTypeInfo dflt valueType = Ok ti → itemKeeps dflt it → (2 + 2 * itemDepth it ≤ fuel)%nat →
  Marshal dflt fuel (Some (valueType, valueOf it)) = Ok (itemBlock it).
Proof.
  intros Hti Hk Hf. unfold Marshal, Encode, EncodeValue. unfold mbind at 1, enc_bind at 1.
  destruct Hk as [tag p Ht Hok Hkp Hem|tag items Ht Hall].
  - destruct fuel as [|[|[|[|fuel]]]]; [cbn in Hf; lia..|]. cbn [valueOf]. unfold NewStruct, NewValue.
    rewrite (encode_Value dflt ti Hti) by by apply Tag_Valid_nonzero.
    destruct (ofGoval_prim p) as (t & x & Hx & Hns).
    pose proof (encode_prim dflt fuel tag p NewEncoder (Tag_Valid_nonzero _ Ht) Hok Hkp Hem) as Henc.
    rewrite Hx in *. assert (match x with VSlice l => False | _ => True end) as Hm.
    { destruct x; try done. by destruct (Hns o). }
    unfold mbind, enc_bind. rewrite Henc.
    destruct x; try done; cbn -[itemBlock primBlock]; by rewrite app_nil_r.
  - rewrite (encode_Structure dflt ti Hti fuel tag items NewEncoder); [done|done| |done|done].
    eapply Forall_impl; [exact Hall|]. intros it Hit. by apply (encodesAs_all dflt ti).
Qed.

(** What [NextTTLV] hands to the decoder. *)
Lemma Unmarshal_block dflt fuel it blk rest typ v :
  Denotes it blk →
  Unmarshal dflt fuel (blk ++ rest) typ v = DecodeValue dflt fuel NewDecoder typ v blk.
Proof.
  intros Hd. unfold Unmarshal, Decode.
  by destruct (NextTTLV_of_block it blk rest [] Hd) as (r' & -> & _).
Qed.

Lemma Unmarshal_value dflt fuel it blk rest x y :
  Denotes it blk → (2 + 5 * itemDepth it ≤ fuel)%nat →
  Unmarshal dflt fuel (blk ++ rest) valueType (VStruct [x; y]) = (valueOf it, Ok tt).
Proof.
  intros Hd Hf. rewrite (Unmarshal_block _ _ it) by done. unfold DecodeValue.
  destruct (Denotes_header it blk [] Hd) as (_ & _ & _ & Hl).
  destruct fuel as [|[|fuel]]; [lia..|]. rewrite unmarshal_ptr by (unfold_types; lia).
  unfold valueType. rewrite (unmarshalElem_method _ _ _ _ _ UValue) by done.
  rewrite <- (app_nil_r blk). by rewrite (decodesTo_all dflt NewDecoder it blk Hd) by lia.
Qed.

(** The kinds into which a ByteString cannot even be rejected. *)
Definition noElem (t : gotype) : bool :=
  match t with TBasic _ k => negb (bool_decide (k = KSlice)) | TStruct _ _ => true | _ => false end.

(** A structure with an interface field followed by another field. *)
Definition anyThenInt : gotype :=
  TStruct (named "main" "T")
    [SField "A" emptyInterface "0x420008" false true; SField "B" intType "0x42000d" false true].
Definition innerA : list byte := itemBlock (IStructure 0x420008 [IPrim 0x42000a (PInteger 5)]).
Definition innerB : list byte := itemBlock (IPrim 0x42000d (PInteger 9)).
Definition twoFields : list byte :=
  itemBlock (IStructure 0x420078 [IStructure 0x420008 [IPrim 0x42000a (PInteger 5)];
                                  IPrim 0x42000d (PInteger 9)]).

(** * Properties *)

(** C15. [Unmarshal] into a [ttlv.Value] reads any valid message: for every
    block of the grammar, with anything after it, the result is the tree of Go
    values of the item the block denotes. *)
Theorem Unmarshal_into_Value dflt fuel it blk rest x y :
  Denotes it blk → (2 + 5 * itemDepth it ≤ fuel)%nat →
  Unmarshal dflt fuel (blk ++ rest) valueType (VStruct [x; y]) = (valueOf it, Ok tt).
Proof. apply Unmarshal_value. Qed.

Lemma Unmarshal_into_Value_witness :
  Unmarshal emptyRegistry 20 (sampleBlock ++ [x07]) valueType (VStruct [VUint 0; VIface None])
  = (valueOf sampleItem, Ok tt).
Proof. apply Unmarshal_into_Value; [apply sampleBlock_denotes|vm_compute; lia]. Defined.

(** C25. Round trip through [ttlv.Value]: the tree of Go values of an item is
    marshaled to a block that denotes the item and is unmarshaled to the same
    tree, when no tag of a primitive value is registered as an enumeration, no
    byte string is empty and the extended times fit into nanoseconds. *)
Theorem Value_roundtrip dflt ti it fuel x y :
  getTypeInfo dflt valueType = Ok ti → itemOk it → itemKeeps dflt it →
  (2 + 5 * itemDepth it ≤ fuel)%nat →
  ∃ bs, Marshal dflt fuel (Some (valueType, valueOf it)) = Ok bs ∧ Denotes it bs ∧
    Unmarshal dflt fuel bs valueType (VStruct [x; y]) = (valueOf it, Ok tt).
Proof.
  intros Hti Hok Hk Hf. exists (itemBlock it). pose proof (itemBlock_denotes it Hok) as Hd.
  split; [by apply (Marshal_valueOf dflt ti); [..|lia]|]. split; [done|].
  rewrite <- (app_nil_r (itemBlock it)). by apply Unmarshal_value.
Qed.

Lemma Value_roundtrip_witness :
  ∃ bs, Marshal emptyRegistry 20 (Some (valueType, valueOf (IStructure 0x420078
          [IPrim 0x42006a (PInteger (-2)); IPrim 0x420020 (PBigInteger (2 ^ 70))]))) = Ok bs ∧
    Denotes (IStructure 0x420078
          [IPrim 0x42006a (PInteger (-2)); IPrim 0x420020 (PBigInteger (2 ^ 70))]) bs ∧
    Unmarshal emptyRegistry 20 bs valueType (VStruct [VUint 0; VIface None]) =
      (valueOf (IStructure 0x420078
          [IPrim 0x42006a (PInteger (-2)); IPrim 0x420020 (PBigInteger (2 ^ 70))]), Ok tt).
Proof.
  eapply Value_roundtrip; [vm_compute; reflexivity| | |vm_compute; lia];
    repeat constructor; cbn; unfold is_i32; lia.
Defined.

(** [Reset] clears [DisallowExtraValues]: a decoder configured to reject
    a Structure with a value that has no field rejects it, and accepts it after
    [Reset]. *)
Theorem Reset_forgets_DisallowExtraValues d :
  Decoder_Reset d = NewDecoder ∧
  let extra := itemBlock (IStructure 0x420078 [IPrim 0x42000d (PInteger 9); IPrim 0x42000a (PInteger 5)]) in
  let strict := mkDecoder true None "" in
  let v0 := VStruct [VIface None; VInt 0] in
  (∃ e, (DecodeValue emptyRegistry 10 strict anyThenInt v0 extra).2 = Err e) ∧
  DecodeValue emptyRegistry 10 (Decoder_Reset strict) anyThenInt v0 extra =
    (VStruct [VIface None; VInt 9], Ok tt).
Proof. split; [done|]. vm_compute. split; [by eexists|done]. Qed.

(** A ByteString decoded into a number, a string or a struct without
    methods panics instead of being reported as a type mismatch. *)
Theorem ByteString_mismatch_panics dflt fuel d typ v tag s blk :
  Denotes (IPrim tag (PByteString s)) blk → noElem typ = true →
  tn_unmarshal (typeName typ) = None → (2 ≤ fuel)%nat →
  (DecodeValue dflt fuel d typ v blk).2 = Panic.
Proof.
  intros Hd He Hn Hf. destruct (Denotes_header _ _ [] Hd) as (_ & _ & _ & Hl).
  inversion Hd as [? ty ? raw pad Ht Hp _ _|]; subst.
  assert (ty = TypeByteString) as ->.
  { unfold primDecode in Hp. unfold_types. repeat (case_match; try discriminate); lia. }
  set (blk := header _ _ _ ++ _) in *.
  assert (TTLV_Type blk = TypeByteString) as Hty by (apply header_Type; unfold_types; lia).
  unfold DecodeValue. destruct fuel as [|[|fuel]]; [lia..|].
  rewrite unmarshal_ptr by (unfold_types; lia).
  assert (bool_decide (Kind typ = KSlice) = false) as Hk.
  { destruct typ as [n k| | | | | |]; try done. by apply negb_true_iff in He. }
  assert (unmarshalPrim d blk typ v = (v, Panic)) as Hprim.
  { unfold unmarshalPrim. rewrite Hty. change (TypeByteString =? TypeInterval) with false.
    change (TypeByteString =? TypeByteString) with true. cbn iota. cbn [orb].
    rewrite Hk. by destruct typ. }
  assert (unmarshalElem dflt (S fuel) d typ v blk = (v, Panic)) as ->; [|done].
  destruct typ; try done; cbn [unmarshalElem]; rewrite Hn, Hty;
    change (TypeByteString =? TypeStructure) with false; cbn iota; by destruct v.
Qed.

Lemma ByteString_mismatch_panics_witness :
  (DecodeValue emptyRegistry 2 NewDecoder intType (VInt 0)
     (itemBlock (IPrim 0x42000d (PByteString [x01])))).2 = Panic.
Proof.
  apply (ByteString_mismatch_panics emptyRegistry 2 NewDecoder intType (VInt 0) 0x42000d [x01]);
    [|done..|lia]. apply itemBlock_denotes. constructor; [done|]. cbn. vm_compute. done.
Defined.

(** A Structure decoded into an interface field keeps the bytes of the
    values after it: the field holds them too, and marshaling the result again
    writes them twice. *)
Theorem interface_field_keeps_siblings :
  Unmarshal emptyRegistry 10 twoFields anyThenInt (VStruct [VIface None; VInt 0]) =
    (VStruct [VIface (Some (ttlvType, VBytes (Some (innerA ++ innerB)))); VInt 9], Ok tt) ∧
  (EncodeValue emptyRegistry 10 0x420078
     (Some (anyThenInt, (Unmarshal emptyRegistry 10 twoFields anyThenInt (VStruct [VIface None; VInt 0])).1))
     NewEncoder).1 =
    mkEncoder 0 (header 0x420078 TypeStructure (len (innerA ++ innerB ++ innerB))
      ++ innerA ++ innerB ++ innerB) [] "" "".
Proof. vm_compute. done. Qed.

(** Values inside a Structure are not validated before they are read: an
    Integer of length zero in a Structure makes [Unmarshal] panic. *)
Theorem Unmarshal_malformed_panics :
  let bad := header 0x420078 TypeStructure 8 ++ header 0x42000d TypeInteger 0 in
  TTLV_Valid bad = Err (Prepend 0x420078 ErrInvalidLen) ∧
  (Unmarshal emptyRegistry 10 bad anyThenInt (VStruct [VIface None; VInt 0])).2 = Panic.
Proof. vm_compute. done. Qed.
