(* ===== verification/Slices.v ===== *)
(** The one place where decoding writes into memory it did not allocate:
    [TTLV.UnmarshalTTLV] of src/ttlv/ttlv.go reuses the array of its
    destination.  Slices are modelled with their arrays, so that two slices
    may share bytes. *)
From Stdlib Require Import ZArith Lia Strings.Byte.
From stdpp Require Import base list numbers.
From S2P Require Import Prelude Ttlv Grammar EncBuf Hex Names Registry Formatting Reflect Encoder Stream Decoder.

(** * Slices in memory *)

(** The arrays that were allocated, by number. *)
Abbreviation heap := (list (list byte)).

(** [cap] counts from [off]. *)
Record slice := mkSlice { s_arr : nat; s_off : nat; s_len : nat; s_cap : nat }.

Definition sliceOk (h : heap) (s : slice) : Prop :=
  s_len s ≤ s_cap s ∧ ∃ a, h !! s_arr s = Some a ∧ s_off s + s_cap s ≤ length a.

Definition arrayOf (h : heap) (s : slice) : list byte := default [] (h !! s_arr s).
Definition contents (h : heap) (s : slice) : list byte := take (s_len s) (drop (s_off s) (arrayOf h s)).
(** [len] of a slice that may be nil. *)
Definition sliceLen (o : option slice) : nat := from_option s_len 0 o.

(** [make([]byte, n)] *)
Definition makeBytes (h : heap) (n : nat) : heap * slice := (h ++ [replicate n x00], mkSlice (length h) 0 n n).
(** [s[:n]] *)
Definition reslice (s : slice) (n : nat) : slice := mkSlice (s_arr s) (s_off s) n (s_cap s).

(** Bytes written over an array from an index on. *)
Definition overwrite (i : nat) (bs a : list byte) : list byte := take i a ++ bs ++ drop (i + length bs) a.
(** [copy(dst, src)]: the bytes are as they were before the call also where the
    two overlap. *)
Definition copyBytes (h : heap) (dst : slice) (bs : list byte) : heap :=
  let bs := take (s_len dst) bs in
  <[s_arr dst := overwrite (s_off dst) bs (arrayOf h dst)]> h.

(** [t.UnmarshalTTLV(_, ttlv)]: memory and [*t] afterwards. *)
Definition TTLV_UnmarshalTTLV (h : heap) (t ttlv : option slice) : heap * option slice :=
  match ttlv with
  | None => (h, None)
  | Some src =>
      let l := s_len src in
      if sliceLen t <? l then
        let '(h, dst) := makeBytes h l in (copyBytes h dst (contents h src), Some dst)
      else match t with
      | None => (h, None)
      | Some t => let dst := reslice t l in (copyBytes h dst (contents h src), Some dst)
      end
  end.

(** * What changes *)

Lemma contents_length h s : sliceOk h s → length (contents h s) = s_len s.
Proof.
  intros (Hl & a & Ha & Hb). unfold contents, arrayOf. rewrite Ha, length_take, length_drop. cbn. lia.
Qed.

Lemma arrayOf_app h a s : s_arr s < length h → arrayOf (h ++ [a]) s = arrayOf h s.
Proof. intros Hs. unfold arrayOf. by rewrite lookup_app_l. Qed.

Lemma sliceOk_arr h s : sliceOk h s → s_arr s < length h.
Proof. intros (_ & a & Ha & _). by eapply lookup_lt_Some. Qed.

Lemma overwrite_length i bs a : i + length bs ≤ length a → length (overwrite i bs a) = length a.
Proof. intros Hl. unfold overwrite. rewrite !length_app, length_take, length_drop. lia. Qed.

(** What a range of the array holds afterwards: behind, in front of, and from
    the start of the bytes written. *)
Lemma overwrite_before i bs a j n : j + n ≤ i → i ≤ length a → take n (drop j (overwrite i bs a)) = take n (drop j a).
Proof.
  intros Hj Hi. unfold overwrite. rewrite drop_app_le by (rewrite length_take; lia).
  rewrite take_app_le by (rewrite length_drop, length_take; lia).
  rewrite skipn_firstn_comm, take_take. f_equal. lia.
Qed.

Lemma overwrite_after i bs a j n : i + length bs ≤ j → i + length bs ≤ length a →
  take n (drop j (overwrite i bs a)) = take n (drop j a).
Proof.
  intros Hj Hi. unfold overwrite. rewrite app_assoc, drop_app_ge by (rewrite length_app, length_take; lia).
  rewrite length_app, length_take, drop_drop. f_equal. f_equal. lia.
Qed.

Lemma overwrite_at i bs a n : length bs ≤ n → i + length bs ≤ length a →
  take n (drop i (overwrite i bs a)) = bs ++ drop (length bs) (take n (drop i a)).
Proof.
  intros Hn Hi. unfold overwrite. rewrite drop_app_length' by (rewrite length_take; lia).
  rewrite take_app_ge by done. f_equal. rewrite <- drop_drop, skipn_firstn_comm. done.
Qed.

Lemma copy_contents h dst bs s : sliceOk h dst → s_arr s ≠ s_arr dst → contents (copyBytes h dst bs) s = contents h s.
Proof. intros _ Hs. unfold contents, arrayOf, copyBytes. by rewrite list_lookup_insert_ne. Qed.

Lemma copy_array h dst bs s : sliceOk h dst → length bs = s_len dst → s_arr s = s_arr dst →
  arrayOf (copyBytes h dst bs) s = overwrite (s_off dst) bs (arrayOf h dst).
Proof.
  intros Hd Hbs Hs. unfold arrayOf at 1, copyBytes. rewrite Hs, list_lookup_insert_eq by (by apply sliceOk_arr).
  cbn. by rewrite take_ge by lia.
Qed.

(** The slices that share no byte with the first [l] of [t]. *)
Definition disjointFrom (l : nat) (t s : slice) : Prop :=
  s_arr s ≠ s_arr t ∨ s_off s + s_len s ≤ s_off t ∨ s_off t + l ≤ s_off s.

Lemma copy_disjoint h dst bs s : sliceOk h dst → length bs = s_len dst → disjointFrom (s_len dst) dst s →
  contents (copyBytes h dst bs) s = contents h s.
Proof.
  intros Hd Hbs Hs. destruct (decide (s_arr s = s_arr dst)) as [Ha|Ha]; [|by apply copy_contents].
  pose proof Hd as (Hl & a & Harr & Hcap). unfold contents. rewrite copy_array by done.
  unfold arrayOf. rewrite Ha, Harr. cbn [default from_option id].
  destruct Hs as [?|[Hs|Hs]]; [done| |].
  - apply overwrite_before; lia.
  - apply overwrite_after; lia.
Qed.

Lemma copy_same h dst bs s : sliceOk h dst → length bs = s_len dst →
  s_arr s = s_arr dst → s_off s = s_off dst → s_len dst ≤ s_len s →
  contents (copyBytes h dst bs) s = bs ++ drop (s_len dst) (contents h s).
Proof.
  intros Hd Hbs Ha Ho Hn. pose proof Hd as (Hl & a & Harr & Hcap). unfold contents. rewrite copy_array by done.
  unfold arrayOf. rewrite Ha, Harr, Ho. cbn [default from_option id].
  rewrite <- Hbs. apply overwrite_at; lia.
Qed.

Lemma makeBytes_ok h n h' s : makeBytes h n = (h', s) →
  sliceOk h' s ∧ s_len s = n ∧ ∀ s0, sliceOk h s0 → sliceOk h' s0 ∧ s_arr s0 ≠ s_arr s ∧ contents h' s0 = contents h s0.
Proof.
  intros [= <- <-]. split_and!; [|done|].
  - split; [done|]. exists (replicate n x00). rewrite lookup_app_r, Nat.sub_diag by done.
    by rewrite length_replicate.
  - intros s0 Hs. pose proof (sliceOk_arr h s0 Hs) as Hl. destruct Hs as (? & a & Ha & ?). split_and!.
    + split; [done|]. exists a. by rewrite lookup_app_l.
    + cbn. lia.
    + unfold contents. by rewrite arrayOf_app.
Qed.

Lemma reslice_ok h s n : n ≤ s_len s → sliceOk h s → sliceOk h (reslice s n).
Proof. intros Hn (Hl & Ha). split; [cbn; lia|done]. Qed.

Lemma copy_ok h dst bs s : sliceOk h dst → length bs = s_len dst → sliceOk h s → sliceOk (copyBytes h dst bs) s.
Proof.
  intros Hd Hbs (Hl & a & Ha & Hc). split; [done|]. destruct (decide (s_arr s = s_arr dst)) as [He|He].
  - exists (overwrite (s_off dst) bs (arrayOf h dst)). unfold copyBytes. rewrite He, take_ge by lia.
    rewrite list_lookup_insert_eq by (by apply sliceOk_arr). split; [done|].
    destruct Hd as (? & b & Hb & ?). unfold arrayOf. rewrite Hb. rewrite overwrite_length by (cbn; lia).
    rewrite He, Hb in Ha. by injection Ha as ->.
  - exists a. unfold copyBytes. by rewrite list_lookup_insert_ne.
Qed.

Lemma UnmarshalTTLV_alloc h t src : sliceLen t < s_len src → sliceOk h src →
  ∃ h' t', TTLV_UnmarshalTTLV h t (Some src) = (h', Some t') ∧ sliceOk h' t' ∧ contents h' t' = contents h src ∧
    ∀ s, sliceOk h s → contents h' s = contents h s.
Proof.
  intros Ht Hs. pose proof (contents_length h src Hs) as Hlen. unfold TTLV_UnmarshalTTLV.
  rewrite (proj2 (Nat.ltb_lt _ _)) by done. destruct (makeBytes h (s_len src)) as [h1 dst] eqn:Hm.
  apply makeBytes_ok in Hm as (Hd & Hl & Hall). destruct (Hall src Hs) as (_ & _ & Hc). rewrite Hc.
  eexists _, _. split; [done|]. split_and!.
  - apply copy_ok; [done|lia|done].
  - rewrite copy_same by (done || lia). rewrite drop_ge, app_nil_r by (rewrite contents_length by done; lia). done.
  - intros s Hok. destruct (Hall s Hok) as (_ & Hne & <-). by apply copy_contents.
Qed.

Lemma UnmarshalTTLV_reuse h t src : s_len src ≤ s_len t → sliceOk h t → sliceOk h src →
  ∃ h' t', TTLV_UnmarshalTTLV h (Some t) (Some src) = (h', Some t') ∧ sliceOk h' t' ∧ contents h' t' = contents h src ∧
    contents h' t = contents h src ++ drop (s_len src) (contents h t) ∧
    ∀ s, sliceOk h s → disjointFrom (s_len src) t s → contents h' s = contents h s.
Proof.
  intros Hl Ht Hs. pose proof (contents_length h src Hs) as Hlen. unfold TTLV_UnmarshalTTLV. cbn [sliceLen from_option].
  rewrite (proj2 (Nat.ltb_ge _ _)) by done. pose proof (reslice_ok h t (s_len src) Hl Ht) as Hr.
  eexists _, _. split; [done|]. split_and!.
  - apply copy_ok; [done|done|done].
  - rewrite copy_same by (done || cbn; lia). rewrite drop_ge, app_nil_r by (rewrite contents_length by done; cbn; lia). done.
  - by rewrite copy_same by (done || cbn; lia).
  - intros s Hok Hd. by apply copy_disjoint.
Qed.

(** Two messages in arrays of their own, and a destination. *)
Definition twoMessages : heap := [[x01; x02; x03; x04]; [x0a; x0b]].
Definition firstMessage : slice := mkSlice 0 0 4 4.
Definition secondMessage : slice := mkSlice 1 0 2 2.

(** * Properties *)

(** C37. [UnmarshalTTLV] leaves the bytes of the source in the destination, as
    the decoder's model has it, but it does not always allocate as its comment
    says: when the destination is as long as the source, the bytes go into the
    destination's own array.  A slice that was taken from the destination before,
    such as a message decoded earlier into the same variable, then begins with
    the new bytes; the slices that share no byte with the destination are
    unchanged, and in the other case all slices are. *)
Theorem UnmarshalTTLV_aliasing h t src :
  from_option (sliceOk h) True t → sliceOk h src → 0 < s_len src →
  ∃ h' t', TTLV_UnmarshalTTLV h t (Some src) = (h', Some t') ∧ sliceOk h' t' ∧ contents h' t' = contents h src ∧
    (∀ dflt fuel d v, UnmarshalTTLV dflt (S fuel) UTTLV d v (contents h src) = (VBytes (Some (contents h' t')), Ok tt)) ∧
    match t with
    | Some old =>
        if s_len old <? s_len src then ∀ s, sliceOk h s → contents h' s = contents h s
        else contents h' old = contents h src ++ drop (s_len src) (contents h old) ∧
             ∀ s, sliceOk h s → disjointFrom (s_len src) old s → contents h' s = contents h s
    | None => ∀ s, sliceOk h s → contents h' s = contents h s
    end.
Proof.
  intros Ht Hs Hpos. destruct (decide (sliceLen t < s_len src)) as [Hl|Hl].
  - destruct (UnmarshalTTLV_alloc h t src Hl Hs) as (h' & t' & Hu & Hok & Hc & Hall). exists h', t'.
    split_and!; [done..|by rewrite Hc|]. destruct t as [old|]; [|done]. cbn in Hl. by rewrite (proj2 (Nat.ltb_lt _ _)).
  - destruct t as [old|]; cbn in Hl; [|lia].
    destruct (UnmarshalTTLV_reuse h old src) as (h' & t' & Hu & Hok & Hc & Ho & Hall); [lia|done..|]. exists h', t'.
    split_and!; [done..|by rewrite Hc|]. by rewrite (proj2 (Nat.ltb_ge _ _)) by lia.
Qed.

Lemma UnmarshalTTLV_aliasing_witness :
  ∃ h' t', TTLV_UnmarshalTTLV twoMessages (Some firstMessage) (Some secondMessage) = (h', Some t') ∧
    contents h' t' = [x0a; x0b] ∧ contents h' firstMessage = [x0a; x0b; x03; x04].
Proof.
  destruct (UnmarshalTTLV_aliasing twoMessages (Some firstMessage) secondMessage) as (h' & t' & Hu & _ & Hc & _ & Ho & _).
  - split; [exact (le_n 4)|]. exists [x01; x02; x03; x04]. split; [reflexivity|exact (le_n 4)].
  - split; [exact (le_n 2)|]. exists [x0a; x0b]. split; [reflexivity|exact (le_n 2)].
  - cbn. lia.
  - exists h', t'. split; [exact Hu|]. split; [exact Hc|exact Ho].
Defined.
