(* ===== verification/DecoderSound.v ===== *)
(** Type soundness and termination of the decoder, for destinations of every
    type and for every byte string: what is stored into the destination is
    again a value of its type, and the recursion ends. *)
From Stdlib Require Import ZArith Lia Strings.Byte Ascii String.
From stdpp Require Import base list strings numbers gmap.
From S2P Require Import Prelude Ttlv Grammar EncBuf Hex Names Registry Formatting Reflect Encoder Stream Decoder.
Local Open Scope Z_scope.
Set Warnings "-register-all".

(** * Well-formed types *)

(** The shape of the type an [UnmarshalTTLV] method is declared on. *)
Definition unmarshalShape (t : gotype) : Prop :=
  match tn_unmarshal (typeName t), t with
  | None, _ => True
  | Some UTTLV, TSlice _ e => is_byteType e = true
  | Some UDateTimeExtended, TStruct _ [SField _ t' _ _ _] => t' = timeType
  | Some UValue, TStruct _ [SField _ (TBasic _ KUint32) _ _ _; SField _ (TInterface _) _ _ _] => True
  | Some UUniqueIdentifier,
    TStruct _ [SField _ (TBasic _ KString) _ _ _; SField _ (TBasic _ KUint32) _ _ _;
               SField _ (TBasic _ KInt32) _ _ _] => True
  | _, _ => False
  end.

Definition basicKind (k : kind) : bool :=
  match k with
  | KBool | KInt | KInt8 | KInt16 | KInt32 | KInt64 | KUint | KUint8 | KUint16 | KUint32 | KUint64
  | KUintptr | KFloat32 | KFloat64 | KComplex64 | KComplex128 | KString => true
  | _ => false
  end.

(** The declaration of one type is consistent: methods sit on types of their
    shape, and the reserved names belong to their types. *)
Record localOk (t : gotype) : Prop := {
  lo_decl : declOk t;
  lo_unmarshal : unmarshalShape t;
  lo_time : is_timeType t = true → t = timeType;
  lo_big : is_bigIntType t = true → t = bigIntType;
  lo_tag : is_tagType t = true → ∃ n, t = TBasic n KUint32;
}.

Inductive typeOk : gotype → Prop :=
  | to_basic n k : localOk (TBasic n k) → basicKind k = true → typeOk (TBasic n k)
  | to_slice n e : localOk (TSlice n e) → typeOk e → typeOk (TSlice n e)
  | to_array n k e : localOk (TArray n k e) → typeOk e → typeOk (TArray n k e)
  | to_ptr e : typeOk e → typeOk (TPtr e)
  | to_iface n : localOk (TInterface n) → typeOk (TInterface n)
  | to_struct n fs : localOk (TStruct n fs) → Forall (λ f, typeOk (sf_type f)) fs →
      typeOk (TStruct n fs)
  | to_opaque n k : localOk (TOpaque n k) →
      k = KChan ∨ k = KMap ∨ k = KFunc ∨ k = KUnsafePointer → tn_marshal n = None →
      typeOk (TOpaque n k).

Fixpoint tdepth (t : gotype) : nat :=
  match t with
  | TBasic _ _ | TInterface _ | TOpaque _ _ => 1
  | TSlice _ e | TArray _ _ e | TPtr e => S (tdepth e)
  | TStruct _ fs => S (list_max (map (λ f, let 'SField _ t _ _ _ := f in tdepth t) fs))
  end.

Lemma tdepth_field n fs f : f ∈ fs → (tdepth (sf_type f) < tdepth (TStruct n fs))%nat.
Proof.
  intros Hin. cbn [tdepth].
  pose proof (proj1 (list_max_le (map (λ f, let 'SField _ t _ _ _ := f in tdepth t) fs) _) (le_n _)) as Hm.
  rewrite List.Forall_forall in Hm.
  assert (tdepth (sf_type f) = (let 'SField _ t _ _ _ := f in tdepth t)) as -> by by destruct f.
  apply Nat.lt_succ_r, Hm. apply (in_map (λ f, let 'SField _ t _ _ _ := f in tdepth t)).
  by apply list_elem_of_In.
Qed.

Lemma typeOk_local t : typeOk t → match t with TPtr _ => True | _ => localOk t end.
Proof. by destruct 1. Qed.

Lemma typeOk_fields n fs : typeOk (TStruct n fs) → Forall (λ f, typeOk (sf_type f)) fs.
Proof. by inversion 1. Qed.
Lemma typeOk_elem t e : typeOk t → (∃ n, t = TSlice n e) ∨ (∃ n k, t = TArray n k e) ∨ t = TPtr e → typeOk e.
Proof. intros Ht [[n ->]|[(n & k & ->)| -> ]]; by inversion Ht. Qed.

(** The zero value of a type is a value of the type. *)
Lemma zeroValue_hasType t : typeOk t → hasType anyBytes t (zeroValue t).
Proof.
  induction t as [n k|n e IH|n k e IH|e IH|n|n fs IH|n k] using gotype_ind'; intros Hok;
    pose proof (typeOk_local _ Hok) as Hl; try (pose proof (lo_decl _ Hl) as Hd); cbn [zeroValue].
  - inversion Hok as [? ? _ Hk| | | | | |]; subst. destruct k; try done;
      constructor; try done; cbn; unfold is_i64, is_i32, is_u32, is_u64; lia || auto.
  - destruct (is_byteType e) eqn:He; by constructor.
  - constructor; [done|by rewrite length_replicate|]. apply Forall_replicate, IH. by inversion Hok.
  - constructor.
  - by constructor.
  - destruct (is_timeType (TStruct n fs)) eqn:Ht.
    { apply (lo_time _ Hl) in Ht. rewrite Ht. constructor. }
    destruct (is_bigIntType (TStruct n fs)) eqn:Hb.
    { apply (lo_big _ Hl) in Hb. rewrite Hb. constructor. }
    constructor; [done..|]. apply typeOk_fields in Hok. clear Hl Hd Ht Hb.
    induction fs as [|[fn ft tg a e] fs IHf]; [constructor|].
    apply Forall_cons in IH as [IH1 IH2], Hok as [Ho1 Ho2]. cbn [map]. constructor; auto.
  - inversion Hok; subst. by constructor.
Qed.

(** [type_ok] proves [typeOk] of a concrete type. *)
Ltac local_ok :=
  constructor;
  [ split_and!; [vm_compute; exact I || reflexivity | vm_compute; reflexivity
                | first [done | intros _; eexists; reflexivity] ]
  | vm_compute; exact I || reflexivity
  | first [done | intros _; reflexivity] | first [done | intros _; reflexivity]
  | first [done | intros _; eexists; reflexivity] ].

Ltac type_ok :=
  repeat first
    [ apply to_basic; [local_ok|reflexivity]
    | apply to_slice; [local_ok|]
    | apply to_array; [local_ok|]
    | apply to_ptr
    | apply to_iface; local_ok
    | apply to_struct; [local_ok|]
    | apply Forall_cons; split
    | apply Forall_nil; exact I ].

Lemma typeOk_time : typeOk timeType.
Proof. type_ok. Qed.
Lemma typeOk_values : typeOk valuesType.
Proof. type_ok. Qed.

(** * Values held by interfaces *)

(** The types of the values that interfaces hold are well formed and of depth
    at most [D]. *)
Fixpoint ifaceOk (D : nat) (v : gov) : Prop :=
  match v with
  | VSlice (Some l) | VArray l | VStruct l => foldr (λ x P, ifaceOk D x ∧ P) True l
  | VPtr (Some x) => ifaceOk D x
  | VIface (Some (t, x)) => typeOk t ∧ (tdepth t ≤ D)%nat ∧ ifaceOk D x
  | _ => True
  end.

Lemma ifaceOk_list D l : foldr (λ x P, ifaceOk D x ∧ P) True l ↔ Forall (ifaceOk D) l.
Proof. induction l; cbn; [by split; constructor|]. by rewrite Forall_cons, IHl. Qed.

Lemma ifaceOk_zero D t : ifaceOk D (zeroValue t).
Proof.
  induction t as [n k|n e IH|n k e IH|e IH|n|n fs IH|n k] using gotype_ind'; cbn [zeroValue]; try done.
  - by destruct k.
  - by case_match.
  - cbn [ifaceOk]. rewrite ifaceOk_list. by apply Forall_replicate.
  - repeat case_match; try done. cbn [ifaceOk]. rewrite ifaceOk_list.
    clear -IH. induction IH as [|[fn ft tg a e] fs Hx Hf IHf]; by constructor.
Qed.

(** * The values the accessors return *)

Lemma be_decode_u32 l : length l = 4%nat → is_u32 (be_decode l).
Proof. intros Hl. pose proof (be_decode_range l). unfold is_u32, len in *. rewrite Hl in *. lia. Qed.

Lemma Uint32_Ok b z : Uint32 b = Ok z → is_u32 z.
Proof.
  unfold Uint32, len. case_match eqn:Hl; [done|]. intros [= <-]. apply be_decode_u32.
  rewrite length_take. lia.
Qed.

Lemma ValueInteger_Ok t z : TTLV_ValueInteger t = Ok z → is_i32 z.
Proof. intros (u & _ & Hu)%bind_Ok_inv. injection Hu as <-. apply i32_range. Qed.
Lemma ValueLongInteger_Ok t z : TTLV_ValueLongInteger t = Ok z → is_i64 z.
Proof. intros (u & _ & Hu)%bind_Ok_inv. injection Hu as <-. apply i64_range. Qed.
Lemma ValueInterval_Ok t z : TTLV_ValueInterval t = Ok z → is_i64 z.
Proof. intros (u & _ & Hu)%bind_Ok_inv. injection Hu as <-. apply i64_range. Qed.

Lemma Uint32_fuel b : Uint32 b ≠ OutOfFuel.
Proof. unfold Uint32. by case_match. Qed.
Lemma Uint64_fuel b : Uint64 b ≠ OutOfFuel.
Proof. unfold Uint64. by case_match. Qed.
Lemma bind_fuel {E A B} (r : res E A) (f : A → res E B) :
  r ≠ OutOfFuel → (∀ a, f a ≠ OutOfFuel) → (r ≫= f) ≠ OutOfFuel.
Proof. destruct r; cbn; auto; done. Qed.

#[local] Hint Resolve Uint32_fuel Uint64_fuel : kmip.

Lemma ValueInteger_fuel t : TTLV_ValueInteger t ≠ OutOfFuel.
Proof. by apply bind_fuel; [auto with kmip|]. Qed.
Lemma ValueLongInteger_fuel t : TTLV_ValueLongInteger t ≠ OutOfFuel.
Proof. by apply bind_fuel; [auto with kmip|]. Qed.
Lemma ValueInterval_fuel t : TTLV_ValueInterval t ≠ OutOfFuel.
Proof. by apply bind_fuel; [auto with kmip|]. Qed.
Lemma ValueBoolean_fuel t : TTLV_ValueBoolean t ≠ OutOfFuel.
Proof. apply bind_fuel; [|done]. unfold index. by repeat case_match. Qed.
Lemma ValueDateTime_fuel t : TTLV_ValueDateTime t ≠ OutOfFuel.
Proof. apply bind_fuel; [apply ValueLongInteger_fuel|]. intros a. by case_match. Qed.

#[local] Hint Resolve ValueInteger_fuel ValueLongInteger_fuel ValueInterval_fuel ValueBoolean_fuel
  ValueDateTime_fuel : kmip.

Lemma fmap_fuel {E A B} (f : A → B) (r : res E A) : r ≠ OutOfFuel → f <$> r ≠ OutOfFuel.
Proof. by destruct r. Qed.

Lemma Value_fuel t : TTLV_Value t ≠ OutOfFuel.
Proof.
  assert (TTLV_ValueDateTimeExtended t ≠ OutOfFuel).
  { apply bind_fuel; [apply ValueLongInteger_fuel|]. intros a. by case_match. }
  unfold TTLV_Value. repeat case_match; try done; apply fmap_fuel; auto with kmip; apply Uint32_fuel.
Qed.

(** The value that [Value] returns is of its dynamic type. *)
Definition govalOk (g : goval) : Prop :=
  match g with
  | GInt32 z => is_i32 z
  | GInt64 z | GDuration z => is_i64 z
  | GEnumValue z => is_u32 z
  | _ => True
  end.

Lemma fmap_Ok_inv {E A B} (f : A → B) (r : res E A) b : f <$> r = Ok b → ∃ a, r = Ok a ∧ f a = b.
Proof. destruct r; cbn; try done. intros [= <-]. eauto. Qed.

Lemma Value_range t g : TTLV_Value t = Ok g → govalOk g.
Proof.
  unfold TTLV_Value. repeat case_match; try done; try (by intros [= <-]);
    intros (a & Ha & <-)%fmap_Ok_inv; cbn; eauto using ValueInteger_Ok, ValueLongInteger_Ok,
      ValueInterval_Ok, Uint32_Ok.
Qed.

Lemma ofGoval_typed g :
  govalOk g →
  hasType anyBytes (ofGoval g).1 (ofGoval g).2 ∧ typeOk (ofGoval g).1 ∧
  (tdepth (ofGoval g).1 ≤ 3)%nat ∧ Kind (ofGoval g).1 ≠ KInterface ∧
  ∀ D, ifaceOk D (ofGoval g).2.
Proof.
  intros Hv.
  assert (typeOk (ofGoval g).1) as Ht by (destruct g; cbn [ofGoval fst]; type_ok).
  split_and!; [|done|destruct g; cbn; lia|by destruct g|by destruct g].
  destruct g; cbn [ofGoval fst snd] in *; try (pose proof (lo_decl _ (typeOk_local _ Ht)) as Hd);
    repeat constructor; try done; try apply Hd; apply Hv.
Qed.

(** * Loops over the values of a Structure *)

Lemma eachValue_inv (I : gov → Prop) L k n v f :
  I v → (length (bytesOf n) ≤ L)%nat → n = None ∨ (length (bytesOf n) < k)%nat →
  (∀ t v, (length t ≤ L)%nat → I v → I (f t v).1 ∧ (f t v).2 ≠ OutOfFuel) →
  I (eachValue k n v f).1 ∧ (eachValue k n v f).2 ≠ OutOfFuel.
Proof.
  intros Hv HL Hk Hf. revert n v Hv HL Hk. induction k as [|k IH]; intros n v Hv HL Hk.
  { destruct n; [destruct Hk; [done|lia]|done]. }
  destruct n as [t|]; cbn [eachValue]; [|done]. change (bytesOf (Some t)) with t in *.
  destruct Hk as [|Hk]; [done|].
  pose proof (Hf t v HL Hv) as Hft. destruct (f t v) as [v' r]. cbn in Hft. destruct Hft as [Hv' Hr].
  destruct r; try done. destruct (Next_shorter t) as (o & Ho & Hlt). rewrite Ho.
  apply IH; [done|..]; destruct Hlt as [Hlt| -> ]; cbn; auto; unfold len in *; unfold_types; try right; lia.
Qed.

Lemma whileValid_inv (I : gov → Prop) L k n v f :
  I v → (length (bytesOf n) ≤ L)%nat → (length (bytesOf n) < k)%nat →
  (∀ t v, (length t ≤ L)%nat → I v → I (f t v).1 ∧ (f t v).2 ≠ OutOfFuel) →
  I (whileValid k n v f).1 ∧ (whileValid k n v f).2 ≠ OutOfFuel.
Proof.
  intros Hv HL Hk Hf. revert n v Hv HL Hk. induction k as [|k IH]; intros n v Hv HL Hk; [lia|].
  cbn [whileValid]. destruct (Valid_sound (bytesOf n)) as [Hd Hs].
  destruct (TTLV_Valid (bytesOf n)) as [[]|e| |]; try done.
  destruct (Hs eq_refl) as (fl & _ & Hfl).
  pose proof (Hf (bytesOf n) v HL Hv) as Hft. destruct (f (bytesOf n) v) as [v' r].
  cbn in Hft. destruct Hft as [Hv' Hr]. destruct r; try done.
  destruct (Next_shorter (bytesOf n)) as (o & -> & Hlt).
  apply IH; [done|..]; destruct Hlt as [Hlt| -> ]; cbn; unfold len in *; unfold_types; lia.
Qed.

Lemma ValueStructure_length t :
  TTLV_ValueStructure t = None ∨ (length (bytesOf (TTLV_ValueStructure t)) + 8 ≤ length t)%nat.
Proof.
  destruct (Z.lt_ge_cases (len t) lenHeader) as [Hl|Hl]; [left|right; by apply ValueRaw_length].
  unfold TTLV_ValueStructure, TTLV_ValueRaw, TTLV_Len. by rewrite (proj2 (Z.ltb_lt _ _) Hl).
Qed.

Section Sound.
Context (dflt : Registry) (D K : nat) (HD : (4 ≤ D)%nat) (HK : (D ≤ K)%nat).

(** What is known of the destination after an operation on it. *)
Definition good (typ : gotype) (s : stored) : Prop :=
  hasType anyBytes typ s.1 ∧ ifaceOk D s.1 ∧ s.2 ≠ OutOfFuel.

(** The cost of a byte, and the type that [unmarshal] hands on. *)
Definition perByte : nat := 6 * K + 12.
Definition target (typ : gotype) (v : gov) : gotype :=
  match typ, v with
  | TInterface _, VIface (Some (TPtr pt, VPtr (Some _))) => pt
  | TPtr pt, _ => pt
  | _, _ => typ
  end.

Definition destOk (typ : gotype) (v : gov) : Prop :=
  typeOk typ ∧ hasType anyBytes typ v ∧ ifaceOk D v ∧ (tdepth typ ≤ K)%nat.

Definition unmarshalSpec (fuel : nat) : Prop := ∀ d typ v t,
  destOk typ v → (length t * perByte + 6 * tdepth (target typ v) + 3 ≤ fuel)%nat →
  good typ (unmarshal dflt fuel d typ v t).
Definition elemSpec (fuel : nat) : Prop := ∀ d typ v t,
  destOk typ v → (length t * perByte + 6 * tdepth typ + 2 ≤ fuel)%nat →
  good typ (unmarshalElem dflt fuel d typ v t).
Definition structureSpec (fuel : nat) : Prop := ∀ d n fs v t,
  destOk (TStruct n fs) v → (length t * perByte + 1 ≤ fuel)%nat →
  good (TStruct n fs) (unmarshalStructure dflt fuel d (TStruct n fs) v t).
Definition unmarshalTTLVSpec (fuel : nat) : Prop := ∀ d m typ v t,
  destOk typ v → tn_unmarshal (typeName typ) = Some m →
  (length t * perByte + 6 * tdepth typ + 1 ≤ fuel)%nat →
  good typ (UnmarshalTTLV dflt fuel m d v t).

Lemma good_same typ v r : destOk typ v → r ≠ OutOfFuel → good typ (v, r).
Proof. by intros (_ & ? & ? & _) ?. Qed.

Lemma good_store {A} typ v (r : res terr A) f :
  destOk typ v → r ≠ OutOfFuel → (∀ a, r = Ok a → good typ (f a)) → good typ (store v r f).
Proof. intros Hv Hr Hf. destruct r; cbn; auto; by apply good_same. Qed.

Lemma setNumber_good d t typ v get f :
  destOk typ v → get ≠ OutOfFuel → (∀ i, get = Ok i → is_i64 i) → good typ (setNumber d t typ v get f).
Proof.
  intros Hv Hg Ha. pose proof Hv as (Hok & _). unfold setNumber.
  repeat case_match; try (by apply good_same); (apply good_store; [done..|]); intros i Hi%Ha;
    case_match; try by apply good_same.
  - destruct typ; try done; [|by inversion Hok; subst; destruct_or!; subst].
    split_and!; [|done..]. constructor; [apply (lo_decl _ (typeOk_local _ Hok))|].
    cbn [Kind] in *. destruct k; try done; cbn in *; unfold is_i64, is_i32 in *; lia.
  - destruct typ; try done; [|by inversion Hok; subst; destruct_or!; subst].
    split_and!; [|done..]. constructor; [apply (lo_decl _ (typeOk_local _ Hok))|].
    cbn [Kind] in *. destruct k; try done; cbn in *; unfold is_u64, is_u32 in *; lia.
Qed.

Lemma kind_basic typ k : typeOk typ → Kind typ = k → basicKind k = true →
  ∃ n, typ = TBasic n k ∧ declOk (TBasic n k).
Proof.
  intros Hok Hk Hb. pose proof (typeOk_local _ Hok) as Hl.
  destruct typ; cbn in Hk; subst; try done.
  - eexists. split; [done|]. apply (lo_decl _ Hl).
  - inversion Hok; subst. by destruct_or!; subst.
Qed.

Lemma time_type typ : typeOk typ → is_timeType typ = true → typ = timeType.
Proof. intros Hok Ht. pose proof (typeOk_local _ Hok) as Hl. destruct typ; try done; by apply (lo_time _ Hl). Qed.
Lemma big_type typ : typeOk typ → is_bigIntType typ = true → typ = bigIntType.
Proof. intros Hok Ht. pose proof (typeOk_local _ Hok) as Hl. destruct typ; try done; by apply (lo_big _ Hl). Qed.

Lemma good_basic n k v : declOk (TBasic n k) → hasType anyBytes (TBasic n k) v →
  good (TBasic n k) (v, Ok tt).
Proof. intros Hd Ht. split_and!; [done| |done]. by inversion Ht. Qed.

Lemma unmarshalPrim_good d t typ v :
  destOk typ v → (∀ o, v ≠ VSlice o) → good typ (unmarshalPrim d t typ v).
Proof.
  intros Hv Hns. pose proof Hv as (Hok & Ht & _). unfold unmarshalPrim.
  case_match; [case_bool_decide as Hk; [|by apply good_same]|].
  { apply good_store; [done|auto with kmip|]. intros i Hi%ValueInterval_Ok.
    destruct (kind_basic typ _ Hok Hk eq_refl) as (n & -> & Hd). apply good_basic; [done|by constructor]. }
  case_match; [case_match; [|by apply good_same]|].
  { apply good_store; [done|auto with kmip|]. intros i _. rewrite (time_type typ) by done.
    split_and!; [by constructor|done..]. }
  case_match; [case_bool_decide as Hk|].
  { destruct typ as [| n e | | | | |]; try done; cbn in Hk; subst.
    - by inversion Hok.
    - split_and!; [|done..]. inversion Ht; subst; try by edestruct Hns. by constructor.
    - inversion Hok; subst. by destruct_or!; subst. }
  { repeat case_match; by apply good_same. }
  case_match; [case_bool_decide as Hk; [|by apply good_same]|].
  { destruct (kind_basic typ _ Hok Hk eq_refl) as (n & -> & Hd). apply good_basic; [done|by constructor]. }
  case_match; [case_bool_decide as Hk; [|by apply good_same]|].
  { apply good_store; [done|auto with kmip|]. intros i _.
    destruct (kind_basic typ _ Hok Hk eq_refl) as (n & -> & Hd). apply good_basic; [done|by constructor]. }
  case_match.
  { apply setNumber_good; [done|apply Uint32_fuel|]. intros i Hi%Uint32_Ok. unfold is_u32, is_i64 in *. lia. }
  case_match.
  { apply setNumber_good; [done|auto with kmip|]. intros i Hi%ValueInteger_Ok. unfold is_i32, is_i64 in *. lia. }
  case_match.
  { case_match eqn:Hk; try (by apply good_same);
      (apply good_store; [done|auto with kmip|]); intros i Hi%ValueLongInteger_Ok;
      destruct (kind_basic typ _ Hok Hk eq_refl) as (n & -> & Hd); apply good_basic; try done;
      constructor; try done. apply u64_range. }
  case_match; [case_match; [|by apply good_same]|by apply good_same].
  apply good_store; [done|done|]. intros i _. rewrite (big_type typ) by done.
  split_and!; [by constructor|done..].
Qed.

Lemma perByte_eq n m : (n + 8 ≤ m)%nat → (n * perByte + 8 * perByte ≤ m * perByte)%nat.
Proof. intros. rewrite <- Nat.mul_add_distr_r. by apply Nat.mul_le_mono_r. Qed.

Lemma destOk_zero e : typeOk e → (tdepth e ≤ K)%nat → destOk e (zeroValue e).
Proof. intros. split_and!; auto using zeroValue_hasType, ifaceOk_zero. Qed.

Lemma unmarshalSpec_step fuel : elemSpec fuel → unmarshalSpec (S fuel).
Proof.
  intros IH d typ v t Hv Hf. pose proof Hv as (Hok & Ht & Hi & Hd). cbn [unmarshal].
  case_match; [by apply good_same|].
  assert (∀ typ', typ' = target typ v → typ' = typ →
    good typ (unmarshalElem dflt fuel d typ v t)) as Hsame.
  { intros typ' -> He. rewrite He in Hf. apply IH; [done|lia]. }
  destruct typ as [n k|n e|n k e|pt|n|n fs|n k]; try (by eapply Hsame).
  - clear Hsame. inversion Ht; subst.
    + destruct (IH d pt (zeroValue pt) t) as (G1 & G2 & G3).
      { inversion Hok; subst. apply destOk_zero; [done|cbn in Hd; lia]. }
      { cbn [target] in Hf. lia. }
      cbn [default]. destruct (unmarshalElem _ _ _ _ _ _) as [x r]. split_and!; [by constructor|done..].
    + destruct (IH d pt v0 t) as (G1 & G2 & G3).
      { inversion Hok; subst. split_and!; try done. cbn in Hd; lia. }
      { cbn [target] in Hf. lia. }
      cbn [default]. destruct (unmarshalElem _ _ _ _ _ _) as [x r]. split_and!; [by constructor|done..].
  - destruct v as [| | | | | | | | |[[t' x]|]| | | |]; try (by eapply Hsame).
    destruct t' as [| | |pt| | |]; try (by eapply Hsame).
    destruct x as [| | | | | | | |[x|]| | | | |]; try (by eapply Hsame).
    inversion Ht as [| | | | | | | | | | | |? ? ? Hdi Hx Hki| | | |]; subst.
    inversion Hx; subst. destruct Hi as (Hto & Htd & Hxi). inversion Hto; subst.
    clear Hsame. destruct (IH d pt x t) as (G1 & G2 & G3).
    { split_and!; try done. cbn [tdepth] in Htd. lia. }
    { cbn [target] in Hf. lia. }
    destruct (unmarshalElem _ _ _ _ _ _) as [x' r]. cbn in *.
    split_and!; try done. constructor; [done|by constructor|done].
Qed.

Lemma Value_iface n t g r :
  declOk (TInterface n) → TTLV_Value t = Ok g → r ≠ OutOfFuel →
  good (TInterface n) (VIface (Some (ofGoval g)), r).
Proof.
  intros Hd Hg%Value_range Hr. destruct (ofGoval_typed g Hg) as (H1 & H2 & H3 & H4 & H5).
  destruct (ofGoval g) as [tg vg]. cbn in *.
  split_and!; cbn; [by apply ht_iface| |done]. split_and!; [done|lia|apply H5].
Qed.

Lemma good_slice n e l r :
  localOk (TSlice n e) → is_byteType e = false → Forall (hasType anyBytes e) l →
  Forall (ifaceOk D) l → r ≠ OutOfFuel → good (TSlice n e) (VSlice (Some l), r).
Proof.
  intros Hl He Ht Hi Hr. split_and!; [|by apply ifaceOk_list|done]. apply ht_slice; try done.
  apply (lo_decl _ Hl).
Qed.

Lemma elemSpec_step fuel :
  unmarshalSpec fuel → structureSpec fuel → unmarshalTTLVSpec fuel → elemSpec (S fuel).
Proof.
  intros IHu IHs IHm d typ v t Hv Hf. pose proof Hv as (Hok & Ht & Hi & Hd). cbn [unmarshalElem].
  destruct (match typ with TPtr pt => tn_unmarshal (typeName pt) | _ => None end) as [m|] eqn:Hm.
  { destruct typ as [| | |pt| | |]; try done. destruct v as [| | | | | | | |[x|]| | | | |];
      try by apply good_same. inversion Ht; subst. inversion Hok; subst. cbn [tdepth] in *.
    destruct (IHm d m pt x t) as (G1 & G2 & G3); [split_and!; try done; lia|done|lia|].
    destruct (UnmarshalTTLV _ _ _ _ _ _) as [x' r]. split_and!; [by constructor|done..]. }
  clear Hm. destruct (tn_unmarshal (typeName typ)) as [m|] eqn:Hm; [apply IHm; [done..|lia]|].
  pose proof (typeOk_local _ Hok) as Hl.
  assert (∀ s, (∀ o, v ≠ VSlice o) → Kind typ ≠ KStruct → s = unmarshalPrim d t typ v →
     good typ (if TTLV_Type t =? TypeStructure then
       if bool_decide (Kind typ = KStruct) then unmarshalStructure dflt fuel d typ v t
       else (v, Err (newUnmarshalerError d t typ DErrUnsupportedTypeError)) else s)) as Hrest.
  { intros s Hns Hk ->. destruct (_ =? TypeStructure); [|by apply unmarshalPrim_good].
    rewrite bool_decide_eq_false_2 by done. by apply good_same. }
  destruct typ as [n k|n e|n k e|pt|n|n fs|n k].
  - apply Hrest; [by inversion Ht| |done]. cbn. intros ->. by inversion Hok.
  - destruct v as [| | | | | |o| | | | | | |]; try by apply Hrest.
    assert (is_byteType e = false ∧ Forall (hasType anyBytes e) (default [] o)) as [He Hall]
      by by inversion Ht; subst.
    inversion Hok; subst. cbn [tdepth] in *. pose proof (ifaceOk_zero D e).
    destruct (IHu d e (zeroValue e) t) as (G1 & G2 & G3); [apply destOk_zero; [done|lia]| |].
    { assert (tdepth (target e (zeroValue e)) ≤ tdepth e)%nat; [|lia].
      destruct e; cbn [target tdepth zeroValue]; try done; lia. }
    assert (Forall (ifaceOk D) (default [] o)) as Hio.
    { destruct o; cbn; [|done]. by apply ifaceOk_list. }
    destruct (unmarshal _ _ _ _ _ _) as [x r]. cbn in G1, G2, G3.
    destruct r; apply good_slice; try done; apply Forall_app; auto.
  - apply Hrest; by inversion Ht.
  - apply Hrest; by inversion Ht.
  - assert (declOk (TInterface n)) as Hdi by apply (lo_decl _ Hl).
    case_match; [|apply good_store; [done|apply Value_fuel|]; intros g Hg; by apply Value_iface with t].
    assert (typeOk ttlvType) as Hto by type_ok.
    split_and!; cbn; [|split_and!; [done|lia|done]|done]. apply ht_iface; try done.
    apply ht_bytes; [apply (lo_decl _ (typeOk_local _ Hto))|done..].
  - case_match; [|by apply unmarshalPrim_good; [|inversion Ht]].
    rewrite bool_decide_eq_true_2 by done. apply IHs; [done|lia].
  - apply Hrest; [by inversion Ht| |done]. inversion Hok; subst. cbn. intros ->. by destruct_or!.
Qed.

Lemma fieldsLoop_tagField sn pre fs tf vals tf' vals' :
  from_option (fieldsOf (pre ++ fs)) True tf →
  fieldsLoop dflt (getTypeInfo dflt) sn (length pre) fs tf vals = Ok (tf', vals') →
  from_option (fieldsOf (pre ++ fs)) True tf'.
Proof.
  revert pre tf vals. induction fs as [|[fn ft tg a e] fs IH]; intros pre tf vals Hv Hl.
  { cbn in Hl. by simplify_eq. }
  cbn [fieldsLoop] in Hl. apply bind_Ok_inv in Hl as (fi & Hfi & Hl).
  replace (S (length pre)) with (length (pre ++ [SField fn ft tg a e])) in Hl
    by (rewrite length_app; simpl; lia).
  rewrite (cons_middle _ pre fs), app_assoc in *. destruct fi as [fi|]; [|by eapply IH].
  case_match; [|by eapply IH]. eapply IH; [|exact Hl]. cbn.
  apply getFieldInfo_inv in Hfi as [Hi Hti].
  exists (SField fn ft tg a e). rewrite Hi, <- app_assoc, lookup_app_r, Nat.sub_diag by lia.
  split; [done|]. by apply getTypeInfo_typ in Hti.
Qed.

Lemma getTypeInfo_tagField n fs ti :
  getTypeInfo dflt (TStruct n fs) = Ok ti → from_option (fieldsOf fs) True (ti_tagField ti).
Proof.
  cbn [getTypeInfo]. intros Hg. apply bind_Ok_inv in Hg as ([tf vals] & Hl & Hg).
  case_match; [done|]. simplify_eq/=. by apply (fieldsLoop_tagField _ [] _ None) in Hl.
Qed.

(** What the loop of [unmarshalStructure] maintains. *)
Definition structInv (n : tname) (fs : list sfield) (v : gov) : Prop :=
  hasType anyBytes (TStruct n fs) v ∧ ifaceOk D v.

Lemma setField_inv n fs v i sf x :
  structInv n fs v → fs !! i = Some sf → hasType anyBytes (sf_type sf) x → ifaceOk D x →
  structInv n fs (setField v i x).
Proof.
  intros [Hv Hi] Hsf Hx Hix. inversion Hv; subst; cbn [setField]; try done. split.
  - apply ht_struct; try done. rewrite <- (list_insert_id fs i sf Hsf). by apply Forall2_insert.
  - cbn [ifaceOk] in *. rewrite ifaceOk_list in *. by apply Forall_insert.
Qed.

Lemma findField_In fields tag cand f :
  findField fields tag cand = Some f → f ∈ fields ∨ cand = Some f.
Proof.
  revert cand. induction fields as [|g fields IH]; intros cand Hf; cbn in Hf; [by right|].
  rewrite elem_of_cons. case_match; [|case_match; simplify_eq; auto; destruct (IH _ Hf); auto].
  destruct (IH _ Hf) as [?|Hc]; auto. destruct cand; simplify_eq; auto.
Qed.

(** The tag that a Structure leaves in the field for it. *)
Lemma setTag_inv n fs ti v t : typeOk (TStruct n fs) → getTypeInfo dflt (TStruct n fs) = Ok ti → structInv n fs v →
  structInv n fs (match ti_tagField ti with
    | Some f => if is_tagType (ti_typ (fi_ti f)) then setField v (fi_index f) (VUint (TTLV_Tag t)) else v
    | None => v end).
Proof.
  intros Hok Hti Hv. pose proof (getTypeInfo_tagField n fs ti Hti) as Htf. destruct (ti_tagField ti) as [f|]; [|done].
  case_match eqn:Hit; [|done]. destruct Htf as (sf & Hsf & Hty). rewrite Hty in Hit.
  apply setField_inv with sf; try done.
  pose proof (Forall_lookup_1 _ _ _ _ (typeOk_fields _ _ Hok) Hsf) as Hso.
  pose proof (typeOk_local _ Hso) as Hl. destruct (sf_type sf) eqn:Hs; try done;
    destruct (lo_tag _ Hl Hit) as [n' He]; try done. injection He as -> ->.
  apply ht_uint; [apply (lo_decl _ Hl)|]. pose proof (TTLV_Tag_range t). cbn. unfold is_u32. lia.
Qed.

Lemma target_depth typ v : ifaceOk D v → (tdepth typ ≤ K)%nat → (tdepth (target typ v) ≤ K)%nat.
Proof.
  intros Hi Hd. destruct typ; cbn [target tdepth] in *; try lia.
  destruct v as [| | | | | | | | |[[[] x]|]| | | |]; cbn [tdepth]; try lia.
  destruct x as [| | | | | | | |[x|]| | | | |]; cbn [tdepth]; try lia.
  destruct Hi as (_ & Hdd & _). cbn [tdepth] in Hdd. lia.
Qed.

Lemma structureSpec_step fuel : unmarshalSpec fuel → structureSpec (S fuel).
Proof.
  intros IH d n fs v t (Hok & Ht & Hi & Hd) Hf. cbn [unmarshalStructure].
  pose proof (getTypeInfo_defined dflt (TStruct n fs)) as Hdef.
  destruct (getTypeInfo dflt (TStruct n fs)) as [ti|e| |] eqn:Hti; [|by apply good_same|done..].
  pose proof (setTag_inv n fs ti v t Hok Hti (conj Ht Hi)) as Hv.
  destruct (ValueStructure_length t) as [-> |Hvs]; [by destruct Hv|].
  match goal with |- good _ (eachValue ?k ?o ?v0 ?f) =>
    destruct (eachValue_inv (structInv n fs) (length t - 8) k o v0 f) as [[H1 H2] H3]; auto end.
  - lia.
  - right. lia.
  - intros t' v' Hlt [Hv1 Hv2].
    destruct (findField (ti_valueFields ti) (TTLV_Tag t') None) as [f|] eqn:Hff.
    2: { by destruct (DisallowExtraValues d). }
    destruct (findField_In _ _ _ _ Hff) as [Hin|]; [|done].
    pose proof (getTypeInfo_fields dflt n fs ti Hti) as Hfs. rewrite Forall_forall in Hfs.
    destruct (Hfs f Hin) as (sf & Hsf & Hty).
    destruct v' as [| | | | | | | | | |l| | |]; try done.
    destruct (l !! fi_index f) as [fv|] eqn:Hfv; [|done].
    pose proof (Forall_lookup_1 _ _ _ _ (typeOk_fields _ _ Hok) Hsf) as Hso. cbn in Hso.
    pose proof (tdepth_field n fs sf (list_elem_of_lookup_2 _ _ _ Hsf)) as Htd.
    assert (ifaceOk D fv) as Hifv.
    { cbn [ifaceOk] in Hv2. rewrite ifaceOk_list in Hv2. by eapply Forall_lookup_1 in Hfv. }
    assert (hasType anyBytes (sf_type sf) fv) as Htv by by eapply hasType_elems.
    rewrite Hty. match goal with |- context [unmarshal dflt fuel ?d' _ _ _] => set (d1 := d') end.
    destruct (IH d1 (sf_type sf) fv t') as (G1 & G2 & G3).
    { split_and!; try done. lia. }
    { pose proof (target_depth (sf_type sf) fv Hifv ltac:(lia)).
      assert (length t' + 8 ≤ length t)%nat as Hp%perByte_eq by lia. unfold perByte in *. nia. }
    destruct (unmarshal _ _ _ _ _ _) as [x r]. cbn in G1, G2, G3 |- *. split; [|done].
    by apply (setField_inv n fs (VStruct l) (fi_index f) sf x).
  - by split_and!.
Qed.

Lemma destOk_values vals :
  hasType anyBytes valuesType vals → ifaceOk D vals → destOk (TPtr valuesType) (VPtr (Some vals)).
Proof.
  intros. split_and!; [apply to_ptr, typeOk_values|by constructor|done|].
  change (tdepth (TPtr valuesType)) with 4%nat. lia.
Qed.

(** The value that [Value.UnmarshalTTLV] leaves. *)
Lemma good_value n f1 f2 n1 n2 x1 x2 x3 x4 y1 y2 a o r :
  let typ := TStruct n [SField f1 (TBasic n1 KUint32) x1 x2 x3; SField f2 (TInterface n2) x4 y1 y2] in
  typeOk typ → is_u32 a → hasType anyBytes (TInterface n2) (VIface o) → ifaceOk D (VIface o) →
  r ≠ OutOfFuel → good typ (VStruct [VUint a; VIface o], r).
Proof.
  intros typ Hok Ha Ho Hio Hr. pose proof (typeOk_local _ Hok) as Hl.
  pose proof (typeOk_fields _ _ Hok) as Hfs. apply Forall_cons in Hfs as [Hf1 _]. cbn in Hf1.
  split_and!; [|done..]. apply ht_struct; [apply (lo_decl _ Hl)|..].
  - destruct (is_timeType typ) eqn:Ht; [|done]. by apply (lo_time _ Hl) in Ht.
  - constructor; [|by constructor]. apply ht_uint; [apply (lo_decl _ (typeOk_local _ Hf1))|done].
Qed.

Lemma tag_u32 t : is_u32 (TTLV_Tag t).
Proof. pose proof (TTLV_Tag_range t). unfold is_u32. lia. Qed.

Lemma Enumeration_u32 t e : TTLV_ValueEnumeration t = Ok e → is_u32 e.
Proof.
  unfold TTLV_ValueEnumeration, Uint32. case_match; [done|]. intros [= <-]. unfold is_u32.
  pose proof (be_decode_range (take 4 (bytesOf (TTLV_ValueRaw t)))) as Hr. rewrite len_take in Hr. unfold len in *.
  rewrite Z.min_l in Hr by lia. change (8 * Z.of_nat 4) with 32 in Hr. lia.
Qed.

Lemma Integer_i32 t i : TTLV_ValueInteger t = Ok i → is_i32 i.
Proof.
  unfold TTLV_ValueInteger. destruct (Uint32 _) as [u| | |]; [|done..]. cbn. intros [= <-]. apply i32_range.
Qed.

Lemma string_inv n v : hasType anyBytes (TBasic n KString) v → ∃ s, v = VString s.
Proof. intros Hv. inversion Hv; subst; try done; try (by eexists); intuition discriminate. Qed.

Lemma uint32_inv n v : hasType anyBytes (TBasic n KUint32) v → ∃ e, v = VUint e ∧ is_u32 e.
Proof. intros Hv. inversion Hv; subst; try done; try (by eexists); intuition discriminate. Qed.

Lemma int32_inv n v : hasType anyBytes (TBasic n KInt32) v → ∃ i, v = VInt i ∧ is_i32 i.
Proof. intros Hv. inversion Hv; subst; try done; try (by eexists); intuition discriminate. Qed.

(** The value that [UniqueIdentifierValue.UnmarshalTTLV] leaves. *)
Lemma good_uid n f1 f2 f3 n1 n2 n3 x1 x2 x3 y1 y2 y3 z1 z2 z3 s e i r :
  let typ := TStruct n [SField f1 (TBasic n1 KString) x1 x2 x3; SField f2 (TBasic n2 KUint32) y1 y2 y3;
                        SField f3 (TBasic n3 KInt32) z1 z2 z3] in
  typeOk typ → is_u32 e → is_i32 i → r ≠ OutOfFuel → good typ (VStruct [VString s; VUint e; VInt i], r).
Proof.
  intros typ Hok He Hi Hr. pose proof (typeOk_local _ Hok) as Hl.
  pose proof (typeOk_fields _ _ Hok) as Hfs. apply Forall_cons in Hfs as [Hf1 Hfs].
  apply Forall_cons in Hfs as [Hf2 Hfs]. apply Forall_cons in Hfs as [Hf3 _]. cbn in Hf1, Hf2, Hf3.
  split_and!; [|done..]. apply ht_struct; [apply (lo_decl _ Hl)|..].
  - destruct (is_timeType typ) eqn:Ht; [|done]. by apply (lo_time _ Hl) in Ht.
  - constructor; [|constructor; [|constructor; [|constructor]]].
    + apply ht_string, (lo_decl _ (typeOk_local _ Hf1)).
    + apply ht_uint; [apply (lo_decl _ (typeOk_local _ Hf2))|done].
    + apply ht_int; [apply (lo_decl _ (typeOk_local _ Hf3))|done].
Qed.

(** [DateTimeExtended.UnmarshalTTLV] *)
Lemma UnmarshalTTLV_time fuel d n f x y z v t : unmarshalSpec fuel →
  let typ := TStruct n [SField f timeType x y z] in
  destOk typ v → (length t * perByte + 6 * tdepth typ + 1 ≤ S fuel)%nat →
  good typ (UnmarshalTTLV dflt (S fuel) UDateTimeExtended d v t).
Proof.
  intros IH typ Hv Hf. pose proof Hv as (Hok & Ht & Hi & Hd). cbn [UnmarshalTTLV].
  inversion Ht as [| | | | | | | | | | | | |? ? l Hdl Htm Hf2| | |]; subst; try by destruct n.
  apply Forall2_cons_inv_l in Hf2 as (tm & l' & Htm' & Hnil & ->). apply Forall2_nil_inv_l in Hnil as ->.
  case_match; [by apply good_same|]. destruct Hi as [Hi _]. cbn in Htm'.
  destruct (IH d (TPtr timeType) (VPtr (Some tm)) t) as (G1 & G2 & G3).
  { split_and!; [apply to_ptr, typeOk_time|by constructor|done|]. change (tdepth (TPtr timeType)) with 2%nat. lia. }
  { cbn [target]. change (tdepth timeType) with 1%nat. cbn [typ tdepth map list_max foldr] in Hf.
    change (tdepth timeType) with 1%nat in Hf. lia. }
  destruct (unmarshal _ _ _ _ _ _) as [x' r]. cbn in G1, G2, G3. inversion G1; subst.
  - by split_and!.
  - split_and!; [|done..]. apply ht_struct; try done. by constructor.
Qed.

(** [Value.UnmarshalTTLV] *)
Lemma UnmarshalTTLV_value fuel d n f1 n1 x1 x2 x3 f2 n2 x4 y1 y2 v t : unmarshalSpec fuel →
  let typ := TStruct n [SField f1 (TBasic n1 KUint32) x1 x2 x3; SField f2 (TInterface n2) x4 y1 y2] in
  destOk typ v → (length t * perByte + 6 * tdepth typ + 1 ≤ S fuel)%nat →
  good typ (UnmarshalTTLV dflt (S fuel) UValue d v t).
Proof.
  intros IH typ Hv Hf. pose proof Hv as (Hok & Ht & Hi & Hd). cbn [UnmarshalTTLV].
  inversion Ht as [| | | | | | | | | | | | |? ? l Hdl Htm Hf2| | |]; subst; try by destruct n.
  apply Forall2_cons_inv_l in Hf2 as (tg & l1 & Htg & Hf2 & ->).
  apply Forall2_cons_inv_l in Hf2 as (old & l2 & Hold & Hnil & ->).
  apply Forall2_nil_inv_l in Hnil as ->. cbn in Htg, Hold. destruct Hi as (_ & Hi & _).
  assert (∃ o, old = VIface o) as [o ->] by (inversion Hold; eauto).
  pose proof (tag_u32 t) as Htag. case_match.
  - destruct (ValueStructure_length t) as [-> |Hvs].
    { apply good_value; try done; cbn.
      * apply ht_iface; [by inversion Hold|apply (zeroValue_hasType valuesType), typeOk_values|done].
      * split_and!; [apply typeOk_values| |done]. change (tdepth valuesType) with 3%nat. lia. }
    match goal with |- context [whileValid ?k ?n ?v ?f] =>
      destruct (whileValid_inv (λ vals, hasType anyBytes valuesType vals ∧ ifaceOk D vals)
        (length t - 8) k n v f) as [[H1 H2] H3] end.
    + split; [|done]. apply (zeroValue_hasType valuesType), typeOk_values.
    + lia.
    + lia.
    + intros t' vals Hlt [Hva Hvi].
      destruct (IH d (TPtr valuesType) (VPtr (Some vals)) t') as (G1 & G2 & G3).
      { by apply destOk_values. }
      { cbn [target]. change (tdepth valuesType) with 3%nat. cbn [tdepth] in Hf.
        assert (length t' + 8 ≤ length t)%nat as Hp%perByte_eq by lia. unfold perByte in *. lia. }
      destruct (unmarshal _ _ _ _ _ _) as [x r]. cbn in G1, G2, G3 |- *.
      split; [|done]. by inversion G1; subst.
    + destruct (whileValid _ _ _ _) as [vals r]. cbn in H1, H2, H3.
      destruct r; [|by apply good_value|by apply good_value|done].
      apply good_value; try done; cbn.
      { apply ht_iface; try done. by inversion Hold. }
      split_and!; [apply typeOk_values| |done]. change (tdepth valuesType) with 3%nat. lia.
  - pose proof (Value_fuel t). destruct (TTLV_Value t) as [g|e| |] eqn:Hg; try done; try by apply good_same.
    + destruct (Value_iface n2 t g (Ok tt)) as (G1 & G2 & _); [by inversion Hold|done..|]. by apply good_value.
    + by apply good_value.
Qed.

(** [UniqueIdentifierValue.UnmarshalTTLV] *)
Lemma UnmarshalTTLV_uid fuel d n f1 n1 x1 x2 x3 f2 n2 y1 y2 y3 f3 n3 z1 z2 z3 v t :
  let typ := TStruct n [SField f1 (TBasic n1 KString) x1 x2 x3; SField f2 (TBasic n2 KUint32) y1 y2 y3;
                        SField f3 (TBasic n3 KInt32) z1 z2 z3] in
  destOk typ v → good typ (UnmarshalTTLV dflt (S fuel) UUniqueIdentifier d v t).
Proof.
  intros typ Hv. pose proof Hv as (Hok & Ht & Hi & Hd). cbn [UnmarshalTTLV].
  inversion Ht as [| | | | | | | | | | | | |? ? l Hdl Htm Hf2| | |]; subst; try by destruct n.
  apply Forall2_cons_inv_l in Hf2 as (v1 & l1 & Hv1 & Hf2 & ->).
  apply Forall2_cons_inv_l in Hf2 as (v2 & l2 & Hv2 & Hf2 & ->).
  apply Forall2_cons_inv_l in Hf2 as (v3 & l3 & Hv3 & Hnil & ->).
  apply Forall2_nil_inv_l in Hnil as ->. cbn in Hv1, Hv2, Hv3.
  apply string_inv in Hv1 as [s ->]. apply uint32_inv in Hv2 as (e & -> & He). apply int32_inv in Hv3 as (i & -> & Hi3).
  unfold UniqueIdentifierValue_UnmarshalTTLV.
  repeat case_match; first [by apply good_same | by apply good_uid; eauto using Enumeration_u32, Integer_i32].
Qed.

Lemma unmarshalTTLVSpec_step fuel : unmarshalSpec fuel → unmarshalTTLVSpec (S fuel).
Proof.
  intros IH d m typ v t Hv Hm Hf. pose proof Hv as (Hok & Ht & Hi & Hd).
  assert (localOk typ) as Hl by (pose proof (typeOk_local _ Hok); by destruct typ).
  pose proof (lo_unmarshal _ Hl) as Hs. unfold unmarshalShape in Hs. rewrite Hm in Hs. destruct m.
  - cbn [UnmarshalTTLV]. destruct typ as [|n e| | | | |]; try done. split_and!; [|done..].
    apply ht_bytes; [apply (lo_decl _ Hl)|done..].
  - destruct typ as [| | | | |n [|[fn ft x y z] [|]]|]; try done. subst ft. by apply UnmarshalTTLV_time.
  - destruct typ as [| | | | |n [|[f1 [n1 []| | | | | |] x1 x2 x3] [|[f2 [| | | |n2| |] x4 y1 y2] [|]]]|];
      try done. by apply UnmarshalTTLV_value.
  - destruct typ as [| | | | |n fs|]; try done. destruct fs as [|[f1 t1 x1 x2 x3] fs]; [done|].
    destruct t1 as [n1 k1| | | | | |]; try done. destruct k1; try done. destruct fs as [|[f2 t2 y1 y2 y3] fs]; [done|].
    destruct t2 as [n2 k2| | | | | |]; try done. destruct k2; try done. destruct fs as [|[f3 t3 z1 z2 z3] fs]; [done|].
    destruct t3 as [n3 k3| | | | | |]; try done. destruct k3; try done. destruct fs; [|done]. by apply UnmarshalTTLV_uid.
Qed.

Lemma unmarshal_sound fuel :
  unmarshalSpec fuel ∧ elemSpec fuel ∧ structureSpec fuel ∧ unmarshalTTLVSpec fuel.
Proof.
  induction fuel as [|fuel (IHu & IHe & IHs & IHm)].
  { split_and!; repeat intro; lia. }
  auto using unmarshalSpec_step, elemSpec_step, structureSpec_step, unmarshalTTLVSpec_step.
Qed.
End Sound.

(** The fuel that decoding [bs] into a destination of type [typ] takes, when
    the interfaces in it hold values of types of depth at most [D]. *)
Definition decodeFuel (D : nat) (typ : gotype) (bs : list byte) : nat :=
  length bs * perByte (Nat.max D (S (tdepth typ))) + 6 * tdepth typ + 3.

Lemma DecodeValue_sound dflt D d typ v t fuel :
  (4 ≤ D)%nat → typeOk typ → hasType anyBytes typ v → ifaceOk D v → (decodeFuel D typ t ≤ fuel)%nat →
  hasType anyBytes typ (DecodeValue dflt fuel d typ v t).1 ∧
  ifaceOk D (DecodeValue dflt fuel d typ v t).1 ∧
  (DecodeValue dflt fuel d typ v t).2 ≠ OutOfFuel.
Proof.
  intros HD Hok Ht Hi Hf.
  destruct (unmarshal_sound dflt D (Nat.max D (S (tdepth typ))) HD (Nat.le_max_l _ _) fuel) as [Hu _].
  destruct (Hu d (TPtr typ) (VPtr (Some v)) t) as (G1 & G2 & G3).
  { split_and!; [by apply to_ptr|by constructor|done|cbn; lia]. }
  { done. }
  unfold DecodeValue. destruct (unmarshal _ _ _ _ _ _) as [x r]. cbn in G1, G2, G3.
  inversion G1; by subst.
Qed.

Lemma Decode_sound dflt D d bs cs typ v fuel :
  (4 ≤ D)%nat → typeOk typ → hasType anyBytes typ v → ifaceOk D v → (decodeFuel D typ bs ≤ fuel)%nat →
  let s := (Decode dflt fuel d (mkReader bs cs) typ v).2 in
  hasType anyBytes typ s.1 ∧ ifaceOk D s.1 ∧ s.2 ≠ OutOfFuel.
Proof.
  intros HD Hok Ht Hi Hf. unfold Decode.
  destruct (NextTTLV_outcome bs cs) as [? Hn|e ? He Hn|fl r' Hh Hfl ? Hn|fl r' Hh Hfl ? Hn _];
    rewrite Hn; try done.
  apply DecodeValue_sound; try done. etrans; [|exact Hf]. unfold decodeFuel.
  apply Nat.add_le_mono_r, Nat.add_le_mono_r, Nat.mul_le_mono_r. rewrite length_take. lia.
Qed.

(** * Properties *)

(** C11. [Unmarshal] is type safe and terminates, on every byte string,
    well-formed or not, and into every destination: whether it succeeds, fails
    or panics, the destination still holds a value of its type, and the
    recursion ends within fuel linear in the number of bytes. *)
Theorem Unmarshal_sound dflt D bs typ v fuel :
  (4 ≤ D)%nat → typeOk typ → hasType anyBytes typ v → ifaceOk D v → (decodeFuel D typ bs ≤ fuel)%nat →
  hasType anyBytes typ (Unmarshal dflt fuel bs typ v).1 ∧
  (Unmarshal dflt fuel bs typ v).2 ≠ OutOfFuel.
Proof.
  intros HD Hok Ht Hi Hf.
  by destruct (Decode_sound dflt D NewDecoder bs [] typ v fuel HD Hok Ht Hi Hf) as (? & _ & ?).
Qed.

Lemma Unmarshal_sound_witness :
  hasType anyBytes valueType (Unmarshal emptyRegistry 2000 sampleBytes valueType (zeroValue valueType)).1 ∧
  (Unmarshal emptyRegistry 2000 sampleBytes valueType (zeroValue valueType)).2 ≠ OutOfFuel.
Proof.
  assert (typeOk valueType) as Hok by type_ok.
  apply (Unmarshal_sound emptyRegistry 4); [lia|done|by apply zeroValue_hasType|by vm_compute|].
  apply (bool_decide_eq_true_1 _). vm_compute. reflexivity.
Defined.
