(* ===== verification/GoRoundtrip.v ===== *)
(** The encoding of Go values as items, stated apart from the encoder: [wire]
    gives the items of the wire format for a Go value of a type, or [None] when
    the value is not determined by what is written.  The encoder of
    src/ttlv/encoder.go writes exactly these items, and the decoder of
    src/ttlv/decoder.go restores the value from them.

    A flag [dyn] admits values that are restored only in part: times lose their
    fractions, the leaves held by interfaces come back with the types of
    [ttlv.Value()], and the structs held by interfaces as TTLV; the relation
    [agrees] says what becomes of them. *)
From Stdlib Require Import ZArith Lia Strings.Byte Ascii String.
From stdpp Require Import base list strings numbers gmap.
From S2P Require Import Prelude Ttlv Grammar EncBuf Blocks Hex Names Registry Formatting Reflect Encoder Stream Decoder DecoderSound.
Local Open Scope Z_scope.
Set Warnings "-register-all".

#[export] Instance marshalMethod_eq_dec : EqDecision marshalMethod.
Proof. solve_decision. Defined.
#[export] Instance unmarshalMethod_eq_dec : EqDecision unmarshalMethod.
Proof. solve_decision. Defined.
#[export] Instance tname_eq_dec : EqDecision tname.
Proof. solve_decision. Defined.

(** * Zero values *)

(** Equality with a zero value. *)
Fixpoint zeroEqb (a b : gov) {struct a} : bool :=
  match a, b with
  | VBool x, VBool y => eqb x y
  | VInt x, VInt y | VUint x, VUint y | VBig x, VBig y => x =? y
  | VString x, VString y => String.eqb x y
  | VBytes None, VBytes None | VSlice None, VSlice None | VPtr None, VPtr None | VIface None, VIface None => true
  | VTime x, VTime y => bool_decide (x = y)
  | VStruct l, VStruct l' =>
      (fix go (l l' : list gov) : bool :=
         match l, l' with
         | [], [] => true
         | x :: l, y :: l' => zeroEqb x y && go l l'
         | _, _ => false
         end) l l'
  | _, _ => false
  end.

(** * The items of a value *)

Section Wire.
Context (dflt : Registry) (dyn : bool).

(** A string is written as such unless it can be read as a value of an
    enumeration that its tag has. *)
Definition textOk (tag : Z) (s : string) : bool :=
  match Registry_EnumForTag dflt tag with
  | None => true
  | Some m =>
      match (if em_Bitmask m then ParseInt s (Some m) else ParseEnum s (Some m)) with Err _ => true | _ => false end
  end.

(** A value that is written as one primitive and read back from it. *)
Definition leaf (flags tag : Z) (typ : gotype) (v : gov) : option prim :=
  let noEnum := bool_decide (Registry_EnumForTag dflt tag = None) in
  if flags_enum flags || flags_bitmask flags then None
  else match tn_unmarshal (typeName typ), tn_marshal (typeName typ), typ, v with
  | None, Some MEnumeration, TBasic _ KUint32, VUint z => Some (PEnumeration z)
  | None, Some MBitmask, TBasic _ KUint32, VUint z =>
      if (0 <=? z) && (z <? 2 ^ 31) then Some (PInteger z) else None
  | None, None, TBasic _ KBool, VBool b => Some (PBoolean b)
  | None, None, TBasic _ KString, VString s =>
      if textOk tag s then Some (PTextString (String.list_byte_of_string s)) else None
  | None, None, TBasic _ (KInt | KInt32), VInt i =>
      if noEnum && negb (is_durationType typ) then Some (PInteger i) else None
  | None, None, TBasic _ KInt64, VInt i => if is_durationType typ then None else Some (PLongInteger i)
  | None, None, TSlice _ e, VBytes (Some (b :: l)) => if is_byteType e then Some (PByteString (b :: l)) else None
  | None, None, TStruct _ [], VTime t =>
      if is_timeType typ && negb (flags_dateTimeExt flags) && (dyn || (time_nsec t =? 0))
      then Some (PDateTime (time_sec t)) else None
  | None, None, TStruct _ [], VBig z => if is_bigIntType typ then Some (PBigInteger z) else None
  | _, _, _, _ => None
  end.

(** An interface is read back as the value of [ttlv.Value()]: without [dyn] its
    dynamic type must be the one that has. *)
Fixpoint sameType (a b : gotype) : bool :=
  match a, b with
  | TBasic n k, TBasic n' k' => bool_decide (n = n') && bool_decide (k = k')
  | TSlice n a, TSlice n' b => bool_decide (n = n') && sameType a b
  | TStruct n [], TStruct n' [] => bool_decide (n = n')
  | _, _ => false
  end.

Definition dynamicLeaf (flags tag : Z) (typ : gotype) (v : gov) : option prim :=
  p ← leaf flags tag typ v;
  if negb (is_ttlvType typ) && (dyn || sameType typ (ofGoval (primGo p)).1) then Some p else None.

(** Nothing is written for nil, and for an empty value with omitempty. *)
Definition omitted (flags : Z) (typ : gotype) (v : gov) : bool :=
  match indirect (Some (typ, v)) with
  | None => true
  | Some x => flags_omitEmpty flags && isEmptyValue x
  end.

(** An omitted value is still looked at: its type must be known. *)
Definition silent (typ : gotype) (v : gov) : bool :=
  match indirect (Some (typ, v)) with
  | None => true
  | Some (t, _) =>
      negb (unsupportedKind (Kind t)) && negb (is_ttlvType t) &&
      match getTypeInfo dflt t with Ok _ => true | _ => false end
  end.

(** The tag the encoder finds for a value when it is not given one. *)
Definition resolvedTag (fi : option fieldInfo) (typ : gotype) (v : gov) : option Z :=
  match indirect (Some (typ, v)) with
  | None => None
  | Some (t, x) => match getTypeInfo dflt t with Ok ti => Some (tagForMarshal x ti fi) | _ => None end
  end.

Definition isInterface (t : gotype) : bool := match t with TInterface _ => true | _ => false end.
Definition isDirect (t : gotype) : bool := match t with TPtr _ | TInterface _ => false | _ => true end.
Definition noMethods (n : tname) : bool :=
  match tn_marshal n, tn_unmarshal n with None, None => true | _, _ => false end.

(** The fields of a struct: a field the encoder does not write holds its zero
    value. *)
Section Fields.
Context (wire : gotype → Z → Z → gov → option (list item)).

Fixpoint wireFields (i : nat) (fields : list sfield) (vals : list fieldInfo) (vs : list gov) {struct vs}
    : option (list item) :=
  match fields, vs with
  | [], [] => match vals with [] => Some [] | _ => None end
  | SField _ ft _ _ _ :: fields, v :: vs =>
      let skipped := if zeroEqb (zeroValue ft) v then wireFields (S i) fields vals vs else None in
      match vals with
      | f :: vals' =>
          if (fi_index f =? i)%nat then
            if flags_any (fi_flags f) then None
            else if omitted (fi_flags f) ft v || bool_decide (resolvedTag (Some f) ft v = Some (fi_tag f)) then
              its ← wire ft (fi_flags f) (fi_tag f) v;
              rest ← wireFields (S i) fields vals' vs;
              Some (its ++ rest)
            else None
          else skipped
      | [] => skipped
      end
  | _, _ => None
  end.
End Fields.

Definition single (o : option (list item)) : option item := match o with Some [it] => Some it | _ => None end.
Definition dynamicTag (ti : typeInfo) : bool :=
  match ti_tagField ti with Some f => is_tagType (ti_typ (fi_ti f)) | None => false end.

(** With [dyn] an interface may also hold a struct, which is read back as its
    TTLV. *)
Fixpoint wire (typ : gotype) (flags tag : Z) (v : gov) {struct v} : option (list item) :=
  if is_ttlvType typ then None
  else if omitted flags typ v then if zeroEqb (zeroValue typ) v && silent typ v then Some [] else None
  else match typ, v with
  | TPtr t, VPtr (Some x) => if isDirect t then wire t flags tag x else None
  | TInterface n, VIface (Some (t, x)) =>
      if noMethods n then
        match dynamicLeaf flags tag t x with
        | Some p => Some [IPrim tag p]
        | None =>
            if dyn && negb (isInterface t) then
              match wire t flags tag x with Some [IStructure tg its] => Some [IStructure tg its] | _ => None end
            else None
        end
      else None
  | TSlice n e, VSlice (Some l) =>
      if noMethods n && negb (is_byteType e) && negb (bool_decide (l = []))
           && negb (flags_enum flags || flags_bitmask flags)
      then mapM (λ x, single (wire e (Z.ldiff flags fOmitEmpty) tag x)) l else None
  | TStruct n fields, VStruct vs =>
      if noMethods n && negb (is_timeType typ) && negb (is_bigIntType typ)
           && negb (flags_enum flags || flags_bitmask flags) then
        match getTypeInfo dflt typ with
        | Ok ti =>
            if dynamicTag ti then None
            else items ← wireFields wire O fields (ti_valueFields ti) vs; Some [IStructure tag items]
        | _ => None
        end
      else None
  | _, _ => (λ p, [IPrim tag p]) <$> leaf flags tag typ v
  end.
End Wire.

(** Induction over values, with the hypothesis for everything they hold. *)
Definition atomic (v : gov) : Prop :=
  match v with VSlice (Some _) | VPtr (Some _) | VIface (Some _) | VStruct _ => False | _ => True end.

Lemma gov_ind' (P : gov → Prop) :
  (∀ v, atomic v → P v) → (∀ l, Forall P l → P (VSlice (Some l))) → (∀ v, P v → P (VPtr (Some v))) →
  (∀ t v, P v → P (VIface (Some (t, v)))) → (∀ l, Forall P l → P (VStruct l)) → ∀ v, P v.
Proof.
  intros HA HS HP HI HT. fix IH 1. intros v.
  destruct v as [| | | | | |[l|]| |[v|]|[[t v]|]|l| | |]; try (by apply HA).
  - apply HS. induction l as [|x l IHl]; constructor; [apply IH|apply IHl].
  - apply HP, IH.
  - apply HI, IH.
  - apply HT. induction l as [|x l IHl]; constructor; [apply IH|apply IHl].
Qed.

Lemma zeroEqb_eq a b : zeroEqb a b = true → a = b.
Proof.
  revert b. induction a as [a Ha|l _|a _|t a _|l IH] using gov_ind'; intros b; try done.
  - destruct a as [| | | | |[]|[]| |[]|[]| | | |]; try done; destruct b as [| | | | |[]|[]| |[]|[]| | | |]; cbn; try done;
      intros Hb; f_equal;
      first [by apply Z.eqb_eq in Hb | by apply String.eqb_eq in Hb | by apply eqb_prop in Hb
            | by apply bool_decide_eq_true in Hb].
  - destruct b; try done. cbn. intros Hb. f_equal. revert l0 Hb.
    induction IH as [|x l Hx _ IHl]; intros [|y l']; try done. intros [H1 H2]%andb_prop.
    f_equal; [by apply Hx|by apply IHl].
Qed.

(** * What the encoder writes *)

Section Encoding.
Context (dflt : Registry) (dyn : bool).

Definition flagsOfField (fi : option fieldInfo) : Z := match fi with Some f => fi_flags f | None => 0 end.

(** [tag] is the tag of the value, given as [tag0] or found. *)
Definition tagged (tag0 : Z) (fi : option fieldInfo) (typ : gotype) (v : gov) (tag : Z) : Prop :=
  if tag0 =? TagNone then resolvedTag dflt fi typ v = Some tag else tag0 = tag.

Lemma encode_indirect fuel tag a b fi : indirect a = indirect b → encode dflt fuel tag a fi = encode dflt fuel tag b fi.
Proof. intros Hi. destruct fuel; [done|]. cbn [encode]. by rewrite Hi. Qed.

Lemma encode_omitted fuel tag0 fi typ v e :
  omitted (flagsOfField fi) typ v = true → silent dflt typ v = true →
  encode dflt (S fuel) tag0 (Some (typ, v)) fi e = (e, Ok tt).
Proof.
  unfold omitted, silent. intros Ho Hs. cbn [encode]. destruct (indirect (Some (typ, v))) as [[t x]|]; [|done].
  apply andb_prop in Hs as [[Hk%negb_true_iff Ht%negb_true_iff]%andb_prop Hti].
  destruct (getTypeInfo dflt t) as [ti| | |]; try done. rewrite Ht, bind_liftTI.
  unfold flagsOfField in Ho. rewrite Ho, Hk. by destruct (marshalMethodOf t).
Qed.

(** The path of [encode] to a value that is written. *)
Definition encodeBody (fuel : nat) (tag : Z) (fi : option fieldInfo) (ti : typeInfo) (typ : gotype) (v : gov) : enc unit :=
  match marshalMethodOf typ with
  | Some m => MarshalTTLV dflt fuel m (typ, v) tag
  | None =>
      let fi2 := match fi with
                 | Some (FI s x t n i f ti) => Some (FI s x t n i (Z.ldiff f fOmitEmpty) ti)
                 | None => None
                 end in
      match typ, v with
      | TSlice _ elem, VSlice (Some l) => forEach l (λ x, encode dflt fuel tag (Some (elem, x)) fi2)
      | _, VStruct fs => encodeStruct dflt fuel tag typ ti fs
      | _, _ => encodeScalar tag typ v (flagsOfField fi)
      end
  end.

Definition plainValue (v : gov) : Prop := match v with VArray _ => False | _ => True end.

Lemma encode_written fuel tag0 tag fi typ v ti e :
  indirect (Some (typ, v)) = Some (typ, v) → isDirect typ = true → is_ttlvType typ = false → plainValue v →
  omitted (flagsOfField fi) typ v = false → getTypeInfo dflt typ = Ok ti →
  unsupportedKind (Kind typ) = false → tagged tag0 fi typ v tag → tag ≠ TagNone →
  is_Some (marshalMethodOf typ) ∨ encodeEnumOrMask dflt tag typ v (flagsOfField fi) = None →
  encode dflt (S fuel) tag0 (Some (typ, v)) fi e = encodeBody fuel tag fi ti typ v e.
Proof.
  intros Hi Hd Htt Hv Ho Hti Hk Htag Hne Hem. cbn [encode]. unfold omitted, tagged, resolvedTag in *. rewrite Hi in *.
  rewrite Hti, Htt in *. rewrite bind_liftTI. unfold encodeBody, flagsOfField in *. rewrite Ho, Hk.
  assert ((if tag0 =? TagNone then tagForMarshal v ti fi else tag0) = tag) as ->.
  { destruct (tag0 =? TagNone); [by simplify_eq|done]. }
  assert (deref (typ, v) = (typ, v)) as -> by (destruct typ; done).
  destruct (marshalMethodOf typ); [done|]. destruct Hem as [[? ?]|Hem]; [done|].
  rewrite (proj2 (Z.eqb_neq _ _)) by done. rewrite Hem.
  destruct typ, v as [| | | | | |[]| | | | | | |]; try done.
Qed.

(** Enumerations and masks do not interfere. *)
Lemma enumOrMask_none tag typ v flags : flags_enum flags || flags_bitmask flags = false →
  Registry_EnumForTag dflt tag = None ∨ match v with VInt _ => smallInt (Kind typ) = false | VUint _ => smallUint (Kind typ) = false | VString _ => False | _ => True end →
  encodeEnumOrMask dflt tag typ v flags = None.
Proof.
  intros [He Hb]%orb_false_elim Hv. unfold encodeEnumOrMask. rewrite He, Hb. cbn [orb].
  destruct Hv as [->|Hv]; [by rewrite bool_decide_eq_false_2 by (by intros [])|].
  destruct (bool_decide _); [|done]. destruct v; try done; by rewrite Hv.
Qed.

Lemma enumOrMask_text tag typ s flags : flags_enum flags || flags_bitmask flags = false → textOk dflt tag s = true →
  encodeEnumOrMask dflt tag typ (VString s) flags = None.
Proof.
  intros [He Hb]%orb_false_elim Ht. unfold encodeEnumOrMask, textOk in *. rewrite He, Hb. cbn [orb].
  destruct (Registry_EnumForTag dflt tag) as [m|]; [|done]. rewrite bool_decide_eq_true_2 by by eexists.
  by destruct (em_Bitmask m); [destruct (ParseInt s (Some m))|destruct (ParseEnum s (Some m))].
Qed.

Lemma leaf_flags flags tag typ v p : leaf dflt dyn flags tag typ v = Some p → flags_enum flags || flags_bitmask flags = false.
Proof. unfold leaf. by destruct (_ || _). Qed.

(** The cases of [leaf]. *)
Inductive leafCase (flags tag : Z) : gotype → gov → prim → Prop :=
  | lc_enum n z : tn_marshal n = Some MEnumeration → leafCase flags tag (TBasic n KUint32) (VUint z) (PEnumeration z)
  | lc_mask n z : tn_marshal n = Some MBitmask → 0 ≤ z < 2 ^ 31 →
      leafCase flags tag (TBasic n KUint32) (VUint z) (PInteger z)
  | lc_bool n b : tn_marshal n = None → leafCase flags tag (TBasic n KBool) (VBool b) (PBoolean b)
  | lc_string n s : tn_marshal n = None → textOk dflt tag s = true →
      leafCase flags tag (TBasic n KString) (VString s) (PTextString (String.list_byte_of_string s))
  | lc_int n k i : tn_marshal n = None → k = KInt ∨ k = KInt32 → Registry_EnumForTag dflt tag = None →
      is_durationType (TBasic n k) = false → leafCase flags tag (TBasic n k) (VInt i) (PInteger i)
  | lc_long n i : tn_marshal n = None → is_durationType (TBasic n KInt64) = false →
      leafCase flags tag (TBasic n KInt64) (VInt i) (PLongInteger i)
  | lc_bytes n el b l : tn_marshal n = None → is_byteType el = true →
      leafCase flags tag (TSlice n el) (VBytes (Some (b :: l))) (PByteString (b :: l))
  | lc_time n s ns : tn_marshal n = None → is_timeType (TStruct n []) = true → flags_dateTimeExt flags = false →
      dyn = true ∨ ns = 0 → leafCase flags tag (TStruct n []) (VTime (GoTime s ns)) (PDateTime s)
  | lc_big n z : tn_marshal n = None → is_bigIntType (TStruct n []) = true →
      leafCase flags tag (TStruct n []) (VBig z) (PBigInteger z).

Lemma leaf_case flags tag typ v p : leaf dflt dyn flags tag typ v = Some p →
  leafCase flags tag typ v p ∧ tn_unmarshal (typeName typ) = None ∧ flags_enum flags || flags_bitmask flags = false.
Proof.
  unfold leaf. intros Hl. destruct (flags_enum flags || flags_bitmask flags); [done|].
  destruct (tn_unmarshal (typeName typ)); [done|]. split; [|done].
  destruct (tn_marshal (typeName typ)) as [m|] eqn:Hm.
  - destruct m; try done; destruct typ as [n k| | | | | |]; try done; destruct k; try done; destruct v; try done.
    + simplify_eq. by constructor.
    + destruct (_ && _) eqn:Hz; [|done]. apply andb_prop in Hz as [H1 H2]. simplify_eq. constructor; [done|lia].
  - destruct typ as [n k|n el| | | |n [|]|]; try done; cbn [typeName] in Hm.
    + destruct k; try done; destruct v; try done; repeat case_match; try done; simplify_eq;
        repeat match goal with
               | H : _ && _ = true |- _ => apply andb_prop in H as [? ?%negb_true_iff]
               | H : bool_decide _ = true |- _ => apply bool_decide_eq_true in H
               end;
        econstructor; eauto.
    + destruct v as [| | | | |[[|b l]|]| | | | | | | |]; try done. destruct (is_byteType el) eqn:He; [|done].
      simplify_eq. by constructor.
    + destruct v as [| | | | | | | | | | |[ts tn]|z|]; try done.
      * destruct (_ && _) eqn:Hz; [|done]. apply andb_prop in Hz as [[H1 H2%negb_true_iff]%andb_prop H3].
        rewrite orb_true_iff, Z.eqb_eq in H3. cbn in *. simplify_eq. by constructor.
      * destruct (is_bigIntType _) eqn:Hz; [|done]. simplify_eq. by constructor.
Qed.

Lemma leaf_encode fuel tag0 tag fi typ v p e :
  leaf dflt dyn (flagsOfField fi) tag typ v = Some p → is_ttlvType typ = false →
  omitted (flagsOfField fi) typ v = false → tagged tag0 fi typ v tag → tag ≠ TagNone → primOk p →
  encode dflt (S (S fuel)) tag0 (Some (typ, v)) fi e = (push e (primBlock tag p), Ok tt).
Proof.
  intros Hl Htt Ho Htag Hne Hok. apply leaf_case in Hl as (Hc & _ & Hfl).
  pose proof (encodePrim_eq (buf e) tag p Hok) as Hp.
  assert (∀ f, f (buf e) = encodePrim (buf e) tag p → onBuf f e = (push e (primBlock tag p), Ok tt)) as Hon.
  { intros f Hf. apply onBuf_push. by rewrite Hf. }
  destruct Hc as [n z Hm|n z Hm Hz|n b Hm|n s Hm He|n k i Hm Hk He Hd|n i Hm Hd|n el b l Hm Hb|n s ns Hm Ht Hx Hns|n z Hm Hb];
    (erewrite encode_written; [|try reflexivity|done|done|done|done|try reflexivity| |done|done|];
      [unfold encodeBody; cbn [marshalMethodOf typeName]; rewrite Hm; try apply Hon|..]).
  all: try (left; cbn; rewrite Hm; by eexists).
  all: try (right; first [by apply enumOrMask_text | apply enumOrMask_none; [done|]; by (left; done) || (right; done)]).
  all: try reflexivity; cbn [encodePrim primOk] in *.
  - by rewrite i32_id by (unfold is_i32; lia).
  - by rewrite String.string_of_list_byte_of_string.
  - unfold encodeScalar. rewrite Hd. destruct Hk as [-> | ->]; cbn [Kind smallInt];
      rewrite (proj2 (Z.ltb_ge _ _)) by (unfold is_i32 in Hok; lia); apply Hon; by rewrite i32_id.
  - by destruct Hk as [-> | ->].
  - by destruct Hk as [-> | ->].
  - unfold encodeScalar. rewrite Hd. by apply Hon.
  - unfold encodeScalar. rewrite Hx. by apply Hon.
Qed.

(** The cases of [wire] for a value that is written. *)
Inductive wireCase (flags tag : Z) : gotype → gov → list item → Prop :=
  | wc_ptr t x items : isDirect t = true → wire dflt dyn t flags tag x = Some items →
      wireCase flags tag (TPtr t) (VPtr (Some x)) items
  | wc_iface n t x p : noMethods n = true → dynamicLeaf dflt dyn flags tag t x = Some p →
      wireCase flags tag (TInterface n) (VIface (Some (t, x))) [IPrim tag p]
  | wc_dyn n t x tg its : noMethods n = true → dyn = true → isInterface t = false →
      wire dflt dyn t flags tag x = Some [IStructure tg its] →
      wireCase flags tag (TInterface n) (VIface (Some (t, x))) [IStructure tg its]
  | wc_slice n el l items : noMethods n = true → is_byteType el = false → l ≠ [] →
      flags_enum flags || flags_bitmask flags = false →
      Forall2 (λ x it, wire dflt dyn el (Z.ldiff flags fOmitEmpty) tag x = Some [it]) l items →
      wireCase flags tag (TSlice n el) (VSlice (Some l)) items
  | wc_struct n fields vs ti items : noMethods n = true →
      is_timeType (TStruct n fields) = false → is_bigIntType (TStruct n fields) = false →
      flags_enum flags || flags_bitmask flags = false →
      getTypeInfo dflt (TStruct n fields) = Ok ti → dynamicTag ti = false →
      wireFields dflt (wire dflt dyn) 0 fields (ti_valueFields ti) vs = Some items →
      wireCase flags tag (TStruct n fields) (VStruct vs) [IStructure tag items]
  | wc_leaf typ v p : leaf dflt dyn flags tag typ v = Some p → wireCase flags tag typ v [IPrim tag p].

(** The equation of [wire] by the type. *)
Lemma wire_eq flags tag typ v : wire dflt dyn typ flags tag v =
  if is_ttlvType typ then None else
  if omitted flags typ v then if zeroEqb (zeroValue typ) v && silent dflt typ v then Some [] else None
  else match typ, v with
  | TPtr t, VPtr (Some x) => if isDirect t then wire dflt dyn t flags tag x else None
  | TInterface n, VIface (Some (t, x)) =>
      if noMethods n then
        match dynamicLeaf dflt dyn flags tag t x with
        | Some p => Some [IPrim tag p]
        | None =>
            if dyn && negb (isInterface t) then
              match wire dflt dyn t flags tag x with Some [IStructure tg its] => Some [IStructure tg its] | _ => None end
            else None
        end
      else None
  | TSlice n e, VSlice (Some l) =>
      if noMethods n && negb (is_byteType e) && negb (bool_decide (l = []))
           && negb (flags_enum flags || flags_bitmask flags)
      then mapM (λ x, single (wire dflt dyn e (Z.ldiff flags fOmitEmpty) tag x)) l else None
  | TStruct n fields, VStruct vs =>
      if noMethods n && negb (is_timeType typ) && negb (is_bigIntType typ)
           && negb (flags_enum flags || flags_bitmask flags) then
        match getTypeInfo dflt typ with
        | Ok ti =>
            if dynamicTag ti then None
            else items ← wireFields dflt (wire dflt dyn) O fields (ti_valueFields ti) vs; Some [IStructure tag items]
        | _ => None
        end
      else None
  | _, _ => (λ p, [IPrim tag p]) <$> leaf dflt dyn flags tag typ v
  end.
Proof. by destruct v. Qed.

Lemma wire_case flags tag typ v items : wire dflt dyn typ flags tag v = Some items →
  is_ttlvType typ = false ∧
  ((omitted flags typ v = true ∧ items = [] ∧ v = zeroValue typ ∧ silent dflt typ v = true) ∨
   (omitted flags typ v = false ∧ wireCase flags tag typ v items)).
Proof.
  intros Hw. rewrite wire_eq in Hw. destruct (is_ttlvType typ); [done|]. split; [done|].
  destruct (omitted flags typ v); [left|right; split; [done|]].
  { destruct (zeroEqb _ _ && _) eqn:Hz; [|done]. apply andb_prop in Hz as [Hz%zeroEqb_eq Hs]. by simplify_eq. }
  assert ((λ p, [IPrim tag p]) <$> leaf dflt dyn flags tag typ v = Some items → wireCase flags tag typ v items) as Hlf.
  { intros (p & Hp & ->)%fmap_Some. by constructor. }
  destruct typ as [| n el| |t|n|n fields|]; try by apply Hlf.
  - destruct v as [| | | | | |[l|]| | | | | | |]; try by apply Hlf. destruct (_ && _) eqn:Hc; [|done].
    apply andb_prop in Hc as [[[H1 H2%negb_true_iff]%andb_prop H3%negb_true_iff]%andb_prop H4%negb_true_iff].
    apply bool_decide_eq_false in H3. apply mapM_Some in Hw. constructor; [done..|].
    eapply Forall2_impl; [exact Hw|]. cbn. intros x it Hx. unfold single in Hx. repeat case_match; by simplify_eq.
  - destruct v as [| | | | | | | |[x|]| | | | |]; try by apply Hlf. destruct (isDirect t) eqn:Hd; [|done]. by constructor.
  - destruct v as [| | | | | | | | |[[t x]|]| | | |]; try by apply Hlf. destruct (noMethods n) eqn:Hn; [|done].
    destruct (dynamicLeaf dflt dyn flags tag t x) as [p|] eqn:Hp; [simplify_eq; by constructor|].
    destruct (dyn && _) eqn:Hdy; [|done]. apply andb_prop in Hdy as [Hdy Hi%negb_true_iff].
    repeat case_match; simplify_eq. by constructor.
  - destruct v as [| | | | | | | | | |vs| | |]; try by apply Hlf. destruct (_ && _) eqn:Hc; [|done].
    apply andb_prop in Hc as [[[H1 H2%negb_true_iff]%andb_prop H3%negb_true_iff]%andb_prop H4%negb_true_iff].
    destruct (getTypeInfo dflt (TStruct n fields)) as [ti| | |] eqn:Hti; try done.
    destruct (dynamicTag ti) eqn:Hdt; [done|]. apply bind_Some in Hw as (its & Hf & [= <-]). by econstructor.
Qed.

(** All items of a value carry its tag. *)
Lemma wire_tag typ flags tag v items : wire dflt dyn typ flags tag v = Some items → Forall (λ it, itemTag it = tag) items.
Proof.
  revert typ flags items. induction v as [v Ha|l IH|v IH|t v IH|l _] using gov_ind'; intros typ flags items Hw;
    apply wire_case in Hw as (_ & [(_ & -> & _)|(_ & Hc)]); try (by constructor); try done.
  all: inversion Hc as [? ? ? _ Hx|? ? ? ? _ _|? ? ? ? ? _ _ _ Hx|? ? ? its _ _ _ _ Hl|? ? ? ? ? _ _ _ _ _ _ _|? ? p Hp];
    subst; try (by repeat constructor); try done; try (by eapply IH).
  clear Hc. induction Hl as [|x it l its Hx _ IHl]; constructor; apply Forall_cons in IH as [IHx IH]; [|by apply IHl].
  apply IHx in Hx. by inversion Hx.
Qed.

Lemma wire_tag_nonzero typ flags tag v it items :
  wire dflt dyn typ flags tag v = Some (it :: items) → itemOk it → tag ≠ TagNone.
Proof.
  intros Hw Hok. apply wire_tag in Hw. inversion Hw as [|? ? Ht _]; subst. apply Tag_Valid_nonzero.
  by inversion Hok.
Qed.

Lemma blocksOf_app a b : blocksOf (a ++ b) = blocksOf a ++ blocksOf b.
Proof. unfold blocksOf. by rewrite map_app, concat_app. Qed.

Lemma push_nil e : push e [] = e.
Proof. unfold push. rewrite app_nil_r. by destruct e. Qed.

Definition encodesWire (v : gov) : Prop := ∀ fuel tag0 fi tag t items e,
  wire dflt dyn t (flagsOfField fi) tag v = Some items → Forall itemOk items →
  omitted (flagsOfField fi) t v = true ∨ tagged tag0 fi t v tag → (need v ≤ fuel)%nat → 0 ≤ encodeDepth e →
  encode dflt fuel tag0 (Some (t, v)) fi e = (push e (blocksOf items), Ok tt).

Lemma forEach_wire fuel tag fi el l items e :
  Forall encodesWire l → tag ≠ TagNone → (∀ x, x ∈ l → need x ≤ fuel)%nat → 0 ≤ encodeDepth e →
  Forall2 (λ x it, wire dflt dyn el (flagsOfField fi) tag x = Some [it]) l items → Forall itemOk items →
  forEach l (λ x, encode dflt fuel tag (Some (el, x)) fi) e = (push e (blocksOf items), Ok tt).
Proof.
  intros IH Hne Hf He Hl. revert e He. induction Hl as [|x it l items Hx _ IHl]; intros e He Hok.
  { cbn. by rewrite push_nil. }
  apply Forall_cons in IH as [IHx IH]. inversion Hok; subst. cbn [forEach]. unfold mbind, enc_bind.
  rewrite (IHx fuel tag fi tag el [it] e);
    [|done|by constructor| |apply Hf; by left|done].
  - unfold mbind, enc_bind in IHl. rewrite IHl; [|done|intros; apply Hf; by right|done|done].
    rewrite push_push. unfold blocksOf. cbn [map concat]. by rewrite app_nil_r.
  - right. unfold tagged. by rewrite (proj2 (Z.eqb_neq _ _)).
Qed.

Lemma fieldsOf_drop fs f i sf rest : fieldsOf fs f → fi_index f = i → drop i fs = sf :: rest →
  ti_typ (fi_ti f) = sf_type sf.
Proof.
  intros (sf' & Hl & ->) <- Hd. f_equal. apply (f_equal (.!! O)) in Hd. rewrite lookup_drop, Nat.add_0_r in Hd.
  cbn in Hd. congruence.
Qed.

Lemma fields_encode fuel all alls fields i vals vs items e :
  Forall encodesWire vs → Forall (fieldsOf alls) vals →
  drop i alls = fields → drop i all = vs → (∀ x, x ∈ vs → need x ≤ fuel)%nat →
  wireFields dflt (wire dflt dyn) i fields vals vs = Some items → Forall itemOk items → 0 ≤ encodeDepth e →
  forEach vals (λ f,
    match all !! fi_index f with
    | None => lift Panic
    | Some fv => withField (fi_name f) (encode dflt fuel TagNone (Some (ti_typ (fi_ti f), fv)) (Some f))
    end) e = (push e (blocksOf items), Ok tt).
Proof.
  intros IH. revert i vals fields items e. induction IH as [|v vs Hv _ IHf]; intros i vals fields items e Hvals Hd Hda Hf Hw Hok He.
  { cbn in Hw. destruct fields as [|[]]; [|done]. destruct vals; [|done]. simplify_eq. cbn. by rewrite push_nil. }
  cbn [wireFields] in Hw. destruct fields as [|[fn ft ftag fan fex] fields]; [done|].
  assert (drop (S i) alls = fields) as Hd' by (by rewrite <- Nat.add_1_r, <- drop_drop, Hd).
  assert (drop (S i) all = vs) as Hda' by (by rewrite <- Nat.add_1_r, <- drop_drop, Hda).
  assert (∀ x, x ∈ vs → need x ≤ fuel)%nat as Hf' by (intros; apply Hf; by right).
  assert (∀ vals items, Forall (fieldsOf alls) vals → (if zeroEqb (zeroValue ft) v then wireFields dflt (wire dflt dyn) (S i) fields vals vs else None) = Some items →
     Forall itemOk items → wireFields dflt (wire dflt dyn) (S i) fields vals vs = Some items) as Hskip.
  { intros ? ? _ Hs _. by destruct (zeroEqb _ _). }
  destruct vals as [|f vals]; [eapply IHf; eauto|].
  destruct (fi_index f =? i)%nat eqn:Hi; [|eapply IHf; eauto].
  apply Nat.eqb_eq in Hi. destruct (flags_any (fi_flags f)); [done|].
  destruct (_ || _) eqn:Ht; [|done]. apply bind_Some in Hw as (its & Hw & Hrest).
  apply bind_Some in Hrest as (rest & Hrest & [= <-]). apply Forall_app in Hok as [Hok1 Hok2].
  apply Forall_cons in Hvals as [Hfo Hvals'].
  cbn [forEach]. assert (all !! fi_index f = Some v) as ->.
  { rewrite Hi. apply (f_equal (.!! O)) in Hda. by rewrite lookup_drop, Nat.add_0_r in Hda. }
  rewrite (fieldsOf_drop _ _ _ _ _ Hfo Hi Hd). cbn [sf_type] in *. unfold mbind, enc_bind, withField at 1.
  rewrite (Hv fuel TagNone (Some f) (fi_tag f) ft its); [|done|done| |apply Hf; by left|done].
  - unfold mbind, enc_bind in IHf. erewrite IHf; [|done|done|done|done|done|done|done].
    unfold push. cbn. by rewrite <- app_assoc, blocksOf_app.
  - cbn [flagsOfField]. unfold tagged. rewrite Z.eqb_refl. apply orb_prop in Ht as [?|?%bool_decide_eq_true]; auto.
Qed.

Lemma noMethods_inv n : noMethods n = true → tn_marshal n = None ∧ tn_unmarshal n = None.
Proof. unfold noMethods. by destruct (tn_marshal n), (tn_unmarshal n). Qed.

Lemma indirect_ptr t x : isDirect t = true → indirect (Some (TPtr t, VPtr (Some x))) = indirect (Some (t, x)).
Proof. by destruct t. Qed.

Lemma sameType_eq a b : sameType a b = true → a = b.
Proof.
  revert b. induction a as [n k|n a IH| | | |n [|f fs] _|] using gotype_ind'; intros [| | | | |? []|]; cbn; try done.
  - intros [->%bool_decide_eq_true ->%bool_decide_eq_true]%andb_prop. done.
  - intros [->%bool_decide_eq_true ->%IH]%andb_prop. done.
  - by intros ->%bool_decide_eq_true.
Qed.

(** What a dynamic leaf gives, and that it is the value [ttlv.Value()] has. *)
Lemma dynamicLeaf_inv flags tag t x p : dynamicLeaf dflt dyn flags tag t x = Some p →
  leaf dflt dyn flags tag t x = Some p ∧ is_ttlvType t = false ∧ (dyn = true ∨ ofGoval (primGo p) = (t, x)).
Proof.
  unfold dynamicLeaf. intros (p' & Hp & Hc)%bind_Some. destruct (_ && _) eqn:Ht; [|done]. simplify_eq.
  apply andb_prop in Ht as [Ht%negb_true_iff Hs]. split_and!; [done..|].
  apply orb_prop in Hs as [Hs|Hs%sameType_eq]; [by left|]. apply leaf_case in Hp as (Hp & _).
  destruct Hp as [| | | | | | |? ? ? _ _ _ [?| ->]|]; [..|by left| |]; right; cbn in Hs |- *; rewrite ?String.string_of_list_byte_of_string; by rewrite ?Hs.
Qed.

Lemma indirect_iface flags tag n t x p : leaf dflt dyn flags tag t x = Some p →
  indirect (Some (TInterface n, VIface (Some (t, x)))) = indirect (Some (t, x)).
Proof. intros (Hp & _)%leaf_case. by destruct Hp. Qed.

Lemma slice_encode fuel tag0 fi tag n el l items e :
  Forall encodesWire l → wireCase (flagsOfField fi) tag (TSlice n el) (VSlice (Some l)) items →
  is_ttlvType (TSlice n el) = false → omitted (flagsOfField fi) (TSlice n el) (VSlice (Some l)) = false →
  tagged tag0 fi (TSlice n el) (VSlice (Some l)) tag → Forall itemOk items →
  (need (VSlice (Some l)) ≤ fuel)%nat → 0 ≤ encodeDepth e →
  encode dflt fuel tag0 (Some (TSlice n el, VSlice (Some l))) fi e = (push e (blocksOf items), Ok tt).
Proof.
  intros IH Hc Htt Ho Htag Hok Hf He. inversion Hc as [| | |? ? ? ? Hn Hb Hl Hfl Hall| |? ? p Hp]; subst.
  2: { apply leaf_case in Hp as (Hp & _). inversion Hp. }
  apply noMethods_inv in Hn as [Hm _]. unfold need in Hf. cbn [gdepth] in Hf. destruct fuel as [|fuel]; [lia|].
  destruct Hall as [|x it l items Hx Hall]; [done|]. assert (tag ≠ TagNone) as Hne.
  { inversion Hok; subst. by eapply wire_tag_nonzero. }
  erewrite encode_written; [|reflexivity|done|done|done|done|reflexivity|done|done|done|].
  - unfold encodeBody. cbn [marshalMethodOf typeName]. rewrite Hm.
    apply forEach_wire; [done|done| |done| |done].
    + intros y Hy. pose proof (gdepth_In _ _ Hy). unfold need. lia.
    + destruct fi as [[]|]; [by constructor|]. by constructor.
  - right. by apply enumOrMask_none; [|right].
Qed.

Lemma struct_encode fuel tag0 fi tag n fs vs items e :
  Forall encodesWire vs → wireCase (flagsOfField fi) tag (TStruct n fs) (VStruct vs) items →
  is_ttlvType (TStruct n fs) = false → omitted (flagsOfField fi) (TStruct n fs) (VStruct vs) = false →
  tagged tag0 fi (TStruct n fs) (VStruct vs) tag → Forall itemOk items →
  (need (VStruct vs) ≤ fuel)%nat → 0 ≤ encodeDepth e →
  encode dflt fuel tag0 (Some (TStruct n fs, VStruct vs)) fi e = (push e (blocksOf items), Ok tt).
Proof.
  intros IH Hc Htt Ho Htag Hok Hf He. inversion Hc as [| | | |? ? ? ti its Hn Htm Hbi Hfl Hti Hdt Hw|? ? p Hp]; subst.
  2: { apply leaf_case in Hp as (Hp & _). inversion Hp. }
  apply Forall_cons in Hok as [Hok _]. apply itemOk_inv in Hok as (Hvt & Hok & Hlen).
  apply noMethods_inv in Hn as [Hm _]. unfold need in Hf. cbn [gdepth] in Hf. destruct fuel as [|[|fuel]]; [lia..|].
  erewrite encode_written; [|reflexivity|done|done|done|done|exact Hti|done|done|by apply Tag_Valid_nonzero|].
  - unfold encodeBody. cbn [marshalMethodOf typeName]. rewrite Hm. cbn [encodeStruct]. unfold withStruct.
    rewrite (EncodeStructure_push tag _ _ (blocksOf its)); [|intros e1 He1|done].
    + rewrite padding_aligned, app_nil_r by apply blocksOf_aligned. unfold push, blocksOf at 2. cbn.
      by rewrite app_nil_r.
    + apply (fields_encode fuel vs fs fs 0 _ vs its); [exact IH|by eapply getTypeInfo_fields|done|done| |done|done|lia].
      intros y Hy. pose proof (gdepth_In _ _ Hy). unfold need. lia.
  - right. by apply enumOrMask_none; [|right].
Qed.

Lemma iface_encode fuel tag0 fi n t x e :
  indirect (Some (TInterface n, VIface (Some (t, x)))) = indirect (Some (t, x)) →
  encode dflt fuel tag0 (Some (TInterface n, VIface (Some (t, x)))) fi e = encode dflt fuel tag0 (Some (t, x)) fi e.
Proof. intros Hi. by rewrite (encode_indirect _ _ _ (Some (t, x))). Qed.

Lemma wire_encode v : encodesWire v.
Proof.
  induction v as [v Ha|l IH|x IH|t x IH|vs IH] using gov_ind'; intros fuel tag0 fi tag typ items e Hw Hok Htag Hf He;
    apply wire_case in Hw as (Htt & [(Ho & -> & _ & Hs)|(Ho & Hc)]).
  all: try (destruct fuel; [unfold need in Hf; lia|]; rewrite encode_omitted by done; by rewrite push_nil).
  all: destruct Htag as [Htag|Htag]; [congruence|].
  all: inversion Hc as [? ? ? Hd Hx|? ? ? p Hn Hp|? ? ? tg its Hn Hdy Hni Hx|? ? ? its H1 H2 H3 H4 H5|? ? ? ti its H1 H2 H3 H4 H5 H6 H7|? ? p Hp];
    subst; try done.
  all: try (by eapply slice_encode). all: try (by eapply struct_encode).
  all: try (apply Forall_cons in Hok as [Hok _]; inversion Hok; subst; unfold need in Hf; destruct fuel as [|[|fuel]]; [lia..|];
     erewrite leaf_encode; [|done|done|done|done|by apply Tag_Valid_nonzero|done]; unfold blocksOf; cbn; by rewrite app_nil_r).
  all: unfold need in Hf; cbn [gdepth] in Hf; unfold tagged, omitted, resolvedTag in Ho, Htag.
  - rewrite (encode_indirect _ _ _ (Some (t, x))) by (by apply indirect_ptr). rewrite indirect_ptr in Ho, Htag by done.
    eapply IH; [done|done|by right|unfold need; lia|done].
  - apply dynamicLeaf_inv in Hp as (Hp & Htt' & _). assert (Hi := Hp). eapply indirect_iface in Hi.
    apply Forall_cons in Hok as [Hok _]. inversion Hok; subst.
    rewrite iface_encode by exact Hi. rewrite Hi in Ho, Htag. destruct fuel as [|[|fuel]]; [lia..|].
    erewrite leaf_encode; [|done|done|done|done|by apply Tag_Valid_nonzero|done]. unfold blocksOf. cbn. by rewrite app_nil_r.
  - assert (indirect (Some (TInterface n, VIface (Some (t, x)))) = indirect (Some (t, x))) as Hi by (by destruct t).
    rewrite iface_encode by exact Hi. rewrite Hi in Ho, Htag.
    eapply IH; [done|done|by right|unfold need; lia|done].
Qed.
End Encoding.

(** * What the decoder reads *)

Section Decoding.
Context (dflt : Registry) (dyn : bool).

(** A time is written as a DateTime, in seconds. *)
Definition seconds (v : gov) : gov := match v with VTime t => VTime (GoTime (time_sec t) 0) | _ => v end.

Lemma leaf_decode fuel d flags tag typ v v0 p rest :
  leafCase dflt dyn flags tag typ v p → tn_unmarshal (typeName typ) = None → itemOk (IPrim tag p) →
  match v0 with VSlice _ => False | _ => True end →
  unmarshalElem dflt (S fuel) d typ v0 (itemBlock (IPrim tag p) ++ rest) = (seconds v, Ok tt).
Proof.
  intros Hc Hu Hok Hv0. inversion Hok as [? ? Ht Hp|]; subst. cbn [itemBlock].
  assert (unmarshalElem dflt (S fuel) d typ v0 (primBlock tag p ++ rest) =
    unmarshalPrim d (primBlock tag p ++ rest) typ v0) as ->.
  { cbn [unmarshalElem]. rewrite primBlock_Type.
    destruct Hc; cbn [typeName] in *; rewrite Hu; cbn; by destruct v0. }
  assert (∀ A (f : A → goval) get a, Inj (=) (=) f → primGo p = f a →
    TTLV_Value (primBlock tag p ++ rest) = f <$> get (primBlock tag p ++ rest) →
    get (primBlock tag p ++ rest) = Ok a) as Hget by (intros A f get a ? ? ?; by apply (block_value f get tag p a rest)).
  pose proof (primBlock_Value tag p rest Ht Hp) as Hval.
  unfold TTLV_Value in Hget, Hval. rewrite primBlock_Type in Hget, Hval. unfold unmarshalPrim. rewrite primBlock_Type.
  destruct Hc as [n z Hm|n z Hm Hz|n b Hm|n s Hm He|n k i Hm Hk He Hd|n i Hm Hd|n el b l Hm Hb|n s ns Hm Htm Hx Hns|n z Hm Hb];
    cbn [primType primGo primOk] in *;
    cbv [TypeBoolean TypeEnumeration TypeInteger TypeLongInteger TypeBigInteger TypeTextString TypeByteString
      TypeStructure TypeDateTime TypeDateTimeExtended TypeInterval Z.eqb Pos.eqb orb] in *.
  - rewrite (Hget _ GEnumValue TTLV_ValueEnumeration z) by byInj. unfold setNumber. cbn [Kind smallInt smallUint inUint store id].
    unfold is_u32 in Hp. by rewrite (proj2 (Z.leb_le _ _)), (proj2 (Z.ltb_lt _ _)) by lia.
  - rewrite (Hget _ GInt32 TTLV_ValueInteger z) by byInj. unfold setNumber. cbn [Kind smallInt smallUint inUint store id].
    rewrite u64_id by (unfold is_u64; lia). by rewrite (proj2 (Z.leb_le _ _)), (proj2 (Z.ltb_lt _ _)) by lia.
  - by rewrite (Hget _ GBool TTLV_ValueBoolean b) by byInj.
  - injection Hval as Hval. cbn. rewrite Hval. by rewrite String.string_of_list_byte_of_string.
  - rewrite (Hget _ GInt32 TTLV_ValueInteger i) by byInj. unfold setNumber, is_i32 in *.
    destruct Hk as [-> | ->]; cbn [Kind smallInt inInt store];
      by rewrite (proj2 (Z.leb_le _ _)), (proj2 (Z.ltb_lt _ _)) by lia.
  - by rewrite (Hget _ GInt64 TTLV_ValueLongInteger i) by byInj.
  - injection Hval as Hval. cbn. by rewrite Hval.
  - rewrite Htm. by rewrite (Hget _ GTime TTLV_ValueDateTime (GoTime s 0)) by byInj.
  - rewrite Hb. by rewrite (Hget _ GBigInt TTLV_ValueBigInteger z) by byInj.
Qed.

(** What is read back: the value itself, and with [dyn] times in whole seconds,
    the values of [ttlv.Value()] in interfaces, and for the structs held by
    interfaces TTLV that starts with the block of the struct. *)
Inductive agrees : gov → gov → Prop :=
  | ag_atom v : atomic v → dyn = true ∨ seconds v = v → agrees v (seconds v)
  | ag_leaf flags tag t x p : leaf dflt dyn flags tag t x = Some p → dyn = true ∨ ofGoval (primGo p) = (t, x) →
      agrees (VIface (Some (t, x))) (VIface (Some (ofGoval (primGo p))))
  | ag_ptr x y : agrees x y → agrees (VPtr (Some x)) (VPtr (Some y))
  | ag_slice l l' : Forall2 agrees l l' → agrees (VSlice (Some l)) (VSlice (Some l'))
  | ag_struct l l' : Forall2 agrees l l' → agrees (VStruct l) (VStruct l')
  | ag_dyn t x flags tag tg its rest : dyn = true → wire dflt dyn t flags tag x = Some [IStructure tg its] →
      itemOk (IStructure tg its) →
      agrees (VIface (Some (t, x))) (VIface (Some (ttlvType, VBytes (Some (itemBlock (IStructure tg its) ++ rest))))).

(** Times are whole seconds, and interfaces hold leaves of the types that
    [ttlv.Value()] has. *)
Fixpoint lossless (v : gov) : bool :=
  match v with
  | VSlice (Some l) | VStruct l => forallb lossless l
  | VPtr (Some x) => lossless x
  | VTime t => time_nsec t =? 0
  | VIface (Some (t, x)) =>
      match x with
      | VBool b => sameType t (ofGoval (GBool b)).1
      | VInt i => sameType t (ofGoval (GInt32 i)).1 || sameType t (ofGoval (GInt64 i)).1
      | VUint z => sameType t (ofGoval (GEnumValue z)).1
      | VString s => sameType t (ofGoval (GString s)).1
      | VBytes b => sameType t (ofGoval (GBytes b)).1
      | VTime u => sameType t (ofGoval (GTime u)).1 && (time_nsec u =? 0)
      | _ => false
      end
  | _ => true
  end.

Lemma leaf_lossless flags tag t x p : leafCase dflt dyn flags tag t x p → lossless (VIface (Some (t, x))) = true →
  ofGoval (primGo p) = (t, x).
Proof.
  destruct 1 as [n z Hm|n z Hm Hz|n b Hm|n s Hm He|n k i Hm Hk He Hd|n i Hm Hd|n el b l Hm Hb|n s ns Hm Htm Hx Hns|n z Hm Hb];
    cbn [lossless primGo]; rewrite ?andb_true_iff, ?orb_true_iff; intros Hs; try done.
  all: try (apply sameType_eq in Hs; rewrite Hs; cbn; by rewrite ?String.string_of_list_byte_of_string).
  - apply sameType_eq in Hs. cbn in Hs. unfold enumValueType in Hs. by injection Hs as ->.
  - destruct Hs as [Hs|Hs]; apply sameType_eq in Hs; cbn in Hs; simplify_eq; [done|by destruct Hk].
  - destruct Hs as [Hs|Hs]; apply sameType_eq in Hs; cbn in Hs; by simplify_eq.
  - destruct Hs as [Hs Hz]. apply sameType_eq in Hs. apply Z.eqb_eq in Hz. cbn in *. rewrite Hs. by subst.
Qed.

Lemma wire_atomic typ flags tag v items : wire dflt dyn typ flags tag v = Some items → atomic v →
  items = [] ∨ ∃ p, items = [IPrim tag p].
Proof.
  intros (_ & [(_ & -> & _)|(_ & Hc)])%wire_case Ha; [by left|]. destruct Hc; try done. right. by eexists.
Qed.

Lemma seconds_lossless v : lossless v = true → seconds v = v.
Proof. destruct v as [| | | | | | | | | | |[s n]| |]; cbn; try done. by intros ->%Z.eqb_eq. Qed.

Lemma agrees_list_eq l l' : Forall (λ v, ∀ v', dyn = false ∨ lossless v = true → agrees v v' → v = v') l →
  dyn = false ∨ forallb lossless l = true → Forall2 agrees l l' → l = l'.
Proof.
  intros IH Hdy Hl. induction Hl as [|x y l l' Hxy _ IHl]; [done|].
  apply Forall_cons in IH as [IHx IH]. cbn [forallb] in Hdy. rewrite andb_true_iff in Hdy.
  f_equal; [apply IHx; [tauto|done]|apply IHl; [done|tauto]].
Qed.

Lemma agrees_eq v v' : dyn = false ∨ lossless v = true → agrees v v' → v = v'.
Proof.
  revert v'. induction v as [v Hv|l IH|v IH|t v IH|l IH] using gov_ind'; intros v' Hdy Ha;
    inversion Ha as [? ? Hs|? ? ? ? ? Hlf Hs|? ? Hx|? ? Hl|? ? Hl|? ? ? ? ? ? ? Hd Hw]; subst; try done;
    try (f_equal; f_equal; by apply IH).
  - destruct Hs as [Hs|Hs]; [|done]. destruct Hdy; [congruence|]. by rewrite seconds_lossless.
  - do 2 f_equal. by apply agrees_list_eq.
  - apply leaf_case in Hlf as (Hlf & _). destruct Hs as [Hs| ->]; [|done]. destruct Hdy; [congruence|].
    by rewrite (leaf_lossless _ _ _ _ _ Hlf).
  - destruct Hdy as [|Hdy]; [congruence|]. apply wire_atomic in Hw as [?|[? ?]]; [done..|].
    by destruct v as [| | | | | |[]| |[]|[]| | | |].
  - f_equal. by apply agrees_list_eq.
Qed.

Lemma agrees_same v : atomic v → seconds v = v → agrees v v.
Proof. intros Ha Hs. rewrite <- Hs at 2. apply ag_atom; auto. Qed.

Lemma agrees_zero typ : agrees (zeroValue typ) (zeroValue typ).
Proof.
  induction typ as [n k|n e IH|n k e IH|e IH|n|n fs IH|n k] using gotype_ind'; try by apply agrees_same.
  - by destruct k; apply agrees_same.
  - cbn. case_match; by apply agrees_same.
  - cbn [zeroValue]. repeat case_match; try by apply agrees_same. apply ag_struct.
    clear -IH. induction IH as [|[] fs Hx _ IHf]; by constructor.
Qed.

Lemma agrees_struct_inv l v' : agrees (VStruct l) v' → ∃ l', v' = VStruct l' ∧ Forall2 agrees l l'.
Proof. inversion 1; subst; [done|by eexists]. Qed.
Lemma agrees_slice_inv o v' : agrees (VSlice o) v' →
  ∃ o', v' = VSlice o' ∧ option_Forall2 (Forall2 agrees) o o'.
Proof. inversion 1; subst; [destruct o; [done|]|]; eexists; (split; [done|]); by constructor. Qed.
Lemma agrees_ptr_inv o v' : agrees (VPtr o) v' → ∃ o', v' = VPtr o' ∧ option_Forall2 agrees o o'.
Proof. inversion 1; subst; [destruct o; [done|]|]; eexists; (split; [done|]); by constructor. Qed.
Lemma leafCase_atomic flags tag typ v p : leafCase dflt dyn flags tag typ v p → atomic v.
Proof. by destruct 1. Qed.

Lemma agrees_iface_inv o v' : agrees (VIface o) v' → ∃ o', v' = VIface o' ∧ (is_Some o ↔ is_Some o').
Proof. inversion 1; subst; eexists; (split; [done|]); by split; eauto. Qed.

Lemma leafCase_agrees flags tag typ v p : leafCase dflt dyn flags tag typ v p → agrees v (seconds v).
Proof.
  intros Hc. apply ag_atom; [by eapply leafCase_atomic|].
  destruct Hc as [| | | | | | |? ? ? _ _ _ [?| ->]|]; auto.
Qed.

(** What an interface that holds a struct, or a pointer to one, is read as. *)
Lemma agrees_iface_struct t x v' : ¬ atomic x → agrees (VIface (Some (t, x))) v' →
  ∃ flags tag it rest, wire dflt dyn t flags tag x = Some [it] ∧ itemOk it ∧
    v' = VIface (Some (ttlvType, VBytes (Some (itemBlock it ++ rest)))).
Proof.
  intros Hx. inversion 1 as [|? ? ? ? ? Hl| | | |]; subst; [done| |by eexists _, _, _, _].
  by apply leaf_case in Hl as (Hl%leafCase_atomic & _).
Qed.

(** A value decoded item by item, with [rest] behind the items. *)
Fixpoint fed (dec : Decoder → gov → TTLV → stored) (items : list item) (rest : list byte) (v0 v : gov) : Prop :=
  match items with
  | [] => v0 = v
  | it :: items =>
      ∃ v1, (∀ d, dec d v0 (itemBlock it ++ blocksOf items ++ rest) = (v1, Ok tt)) ∧ fed dec items rest v1 v
  end.

Abbreviation fedValue fuel typ := (fed (λ d v t, unmarshal dflt fuel d typ v t)).
Abbreviation fedElem fuel typ := (fed (λ d v t, unmarshalElem dflt fuel d typ v t)).

Definition decodesWire (v : gov) : Prop := ∀ typ flags tag items fuel rest,
  wire dflt dyn typ flags tag v = Some items → Forall itemOk items →
  ((3 * tdepth typ ≤ fuel)%nat → ∃ v', agrees v v' ∧ fedValue fuel typ items rest (zeroValue typ) v') ∧
  (isDirect typ = true → (3 * tdepth typ ≤ S fuel)%nat →
    ∃ v', agrees v v' ∧ fedElem fuel typ items rest (zeroValue typ) v').

Lemma itemBlock_len it rest : itemOk it → len (itemBlock it ++ rest) ≠ 0.
Proof. intros Hok%itemBlock_length. rewrite len_app. unfold len. lia. Qed.

Lemma unmarshal_direct fuel d typ v t : isDirect typ = true → len t ≠ 0 →
  unmarshal dflt (S fuel) d typ v t = unmarshalElem dflt fuel d typ v t.
Proof. intros Hd Hl. cbn [unmarshal]. rewrite (proj2 (Z.eqb_neq _ _)) by done. by destruct typ. Qed.

Lemma fed_direct fuel typ items rest v0 v : isDirect typ = true → Forall itemOk items →
  fedElem fuel typ items rest v0 v → fedValue (S fuel) typ items rest v0 v.
Proof.
  intros Hd Hok. revert v0. induction Hok as [|it items Hit _ IH]; intros v0; [done|].
  intros (v1 & H1 & H2). exists v1. split; [|by apply IH]. intros d.
  rewrite unmarshal_direct; [apply H1|done|by apply itemBlock_len].
Qed.

Lemma fed_ptr fuel t items rest a b : Forall itemOk items → fedElem fuel t items rest a b →
  fedValue (S fuel) (TPtr t) items rest (VPtr (Some a)) (VPtr (Some b)).
Proof.
  intros Hok. revert a. induction Hok as [|it items Hit _ IH]; intros a; [by intros ->|].
  intros (v1 & H1 & H2). exists (VPtr (Some v1)). split; [|by apply IH]. intros d. cbn [unmarshal].
  rewrite (proj2 (Z.eqb_neq _ _)) by (by apply itemBlock_len). cbn [default]. by rewrite H1.
Qed.

Lemma fed_nil_ptr fuel t items rest a v : items ≠ [] → Forall itemOk items →
  fedValue fuel (TPtr t) items rest (VPtr (Some a)) v → a = zeroValue t →
  fedValue fuel (TPtr t) items rest (VPtr None) v.
Proof.
  destruct items as [|it items]; [done|]. intros _ [Hit _]%Forall_cons (v1 & H1 & H2) ->. exists v1. split; [|done].
  intros d. rewrite <- (H1 d). destruct fuel; [by specialize (H1 d)|]. cbn [unmarshal].
  by rewrite (proj2 (Z.eqb_neq _ _)) by (by apply itemBlock_len).
Qed.

Lemma wire_nonempty typ flags tag v items :
  wire dflt dyn typ flags tag v = Some items → omitted flags typ v = false → items ≠ [].
Proof.
  revert typ flags items. induction v as [v Ha|l _|x IH|t x _|vs _] using gov_ind'; intros typ flags items Hw Ho;
    apply wire_case in Hw as (_ & [(Ho' & _)|(_ & Hc)]); try congruence.
  all: inversion Hc as [? ? ? Hd Hx|? ? ? p Hn Hp|? ? ? tg its Hn Hdy Hni Hx|? ? ? its _ _ Hne _ Hl|? ? ? ti its H1 H2 H3 H4 H5 H6 H7|? ? p Hp];
    subst; try done.
  - intros ->. by inversion Hl.
  - eapply IH; [exact Hx|]. unfold omitted in *. by rewrite indirect_ptr in Ho.
Qed.

Lemma slice_decode fuel n el l items o flags tag rest : Forall decodesWire l → noMethods n = true → Forall itemOk items →
  (3 * tdepth el ≤ fuel)%nat → l ≠ [] → Forall2 (λ x it, wire dflt dyn el flags tag x = Some [it]) l items →
  ∃ l', Forall2 agrees l l' ∧
    fedElem (S fuel) (TSlice n el) items rest (VSlice o) (VSlice (Some (default [] o ++ l'))).
Proof.
  intros IH Hn Hok Hf Hne Hl. apply noMethods_inv in Hn as [_ Hu]. revert o Hne.
  induction Hl as [|x it l items Hx Hl IHl]; intros o Hne; [done|]. apply Forall_cons in Hok as [Hit Hok].
  apply Forall_cons in IH as [IHx IH].
  destruct (IHx el flags tag [it] fuel (blocksOf items ++ rest) Hx ltac:(by constructor)) as [Hv _].
  destruct (Hv Hf) as (x' & Hag & v1 & Hd & ->).
  assert (∀ d, unmarshalElem dflt (S fuel) d (TSlice n el) (VSlice o) (itemBlock it ++ blocksOf items ++ rest) =
    (VSlice (Some (default [] o ++ [x'])), Ok tt)) as Hstep.
  { intros d. rewrite unmarshalElem_slice by done. specialize (Hd d). cbn [blocksOf map concat app] in Hd. by rewrite Hd. }
  destruct l as [|y l].
  { inversion Hl; subst. exists [x']. split; [by constructor|]. by eexists. }
  destruct (IHl IH Hok (Some (default [] o ++ [x'])) ltac:(done)) as (l' & Hl' & Hfed).
  exists (x' :: l'). split; [by constructor|]. eexists. split; [exact Hstep|].
  change (default [] (Some ?z)) with z in Hfed. by rewrite <- app_assoc in Hfed.
Qed.

Lemma findField_tag fields f c : NoDup (taggedFields fields) → f ∈ fields → flags_any (fi_flags f) = false →
  fi_tag f ≠ TagNone → findField fields (fi_tag f) c = Some f.
Proof.
  intros Hnd Hin Ha Ht. revert c Hnd. induction fields as [|g fields IH]; intros c Hnd; [by apply not_elem_of_nil in Hin|].
  assert (∀ h, h ∈ fields → flags_any (fi_flags h) = false → fi_tag h ≠ TagNone → fi_tag h ∈ taggedFields fields) as Htf.
  { intros h Hh Hah Hth. apply list_elem_of_omap. exists h. split; [done|]. by rewrite Hah, (proj2 (Z.eqb_neq _ _)). }
  cbn [findField]. unfold taggedFields in Hnd. cbn [omap list_omap] in Hnd.
  apply elem_of_cons in Hin as [<-|Hin].
  { by rewrite Ha, Z.eqb_refl. }
  destruct (flags_any (fi_flags g)) eqn:Hag; [by apply IH|]. cbn [orb] in Hnd.
  destruct (fi_tag g =? fi_tag f) eqn:Hgf.
  - apply Z.eqb_eq in Hgf. rewrite (proj2 (Z.eqb_neq _ _)) in Hnd by congruence. exfalso.
    inversion Hnd as [|? ? Hni _]; subst. apply Hni. rewrite Hgf. by apply Htf.
  - apply IH; [done|]. destruct (fi_tag g =? TagNone); [done|]. by inversion Hnd.
Qed.

(** One value of a structure, stored into the field at the end of [pre]. *)
Section StructLoop.
Context (fuel : nat) (vals : list fieldInfo).

Definition storesFields (body : TTLV → gov → stored) : Prop := ∀ f it rest pre z zs x,
  f ∈ vals → flags_any (fi_flags f) = false → itemOk it →
  itemTag it = fi_tag f → fi_index f = length pre →
  (∀ d, unmarshal dflt fuel d (ti_typ (fi_ti f)) z (itemBlock it ++ rest) = (x, Ok tt)) →
  body (itemBlock it ++ rest) (VStruct (pre ++ z :: zs)) = (VStruct (pre ++ x :: zs), Ok tt).

Lemma field_decode body f items rest pre z zs x k : storesFields body →
  f ∈ vals → flags_any (fi_flags f) = false → Forall itemOk items →
  Forall (λ it, itemTag it = fi_tag f) items → fi_index f = length pre →
  fedValue fuel (ti_typ (fi_ti f)) items rest z x → (length (blocksOf items ++ rest) < k)%nat →
  ∃ k', (length rest < k')%nat ∧
    eachValue k (nonNil (blocksOf items ++ rest)) (VStruct (pre ++ z :: zs)) body =
    eachValue k' (nonNil rest) (VStruct (pre ++ x :: zs)) body.
Proof.
  intros Hbody Hin Ha Hok Htag Hi. revert z k. induction Hok as [|it items Hit _ IH]; intros z k Hfed Hk.
  { cbn in Hfed. subst. by exists k. }
  destruct Hfed as (v1 & H1 & H2). apply Forall_cons in Htag as [Ht Htag].
  change (blocksOf (it :: items)) with (itemBlock it ++ blocksOf items) in *. rewrite <- app_assoc in *.
  pose proof (itemBlock_denotes it Hit) as Hd. rewrite (nonNil_block it) by done.
  pose proof (itemBlock_length it Hit). rewrite length_app in Hk. destruct k as [|k]; [lia|]. cbn [eachValue].
  rewrite (Hbody f it _ pre z zs v1) by done. rewrite (block_Next it) by done. apply IH; [done|done|lia].
Qed.

Definition zeros (fields : list sfield) : list gov := map (λ f, let 'SField _ ft _ _ _ := f in zeroValue ft) fields.

Lemma fields_decode alls fields i sub vs items pre :
  Forall decodesWire vs → (∀ f, f ∈ sub → f ∈ vals) → Forall (fieldsOf alls) vals →
  drop i alls = fields → length pre = i → Forall (λ f, 3 * tdepth (sf_type f) ≤ fuel)%nat fields →
  wireFields dflt (wire dflt dyn) i fields sub vs = Some items → Forall itemOk items →
  ∃ vs', Forall2 agrees vs vs' ∧ ∀ body k, storesFields body → (length (blocksOf items) < k)%nat →
    eachValue k (nonNil (blocksOf items)) (VStruct (pre ++ zeros fields)) body = (VStruct (pre ++ vs'), Ok tt).
Proof.
  intros IH. revert i sub fields items pre. induction IH as [|v vs Hv _ IHf];
    intros i sub fields items pre Hsub Hvals Hd Hpre Hf Hw Hok.
  { cbn in Hw. destruct fields as [|[]]; [|done]. destruct sub; [|done]. simplify_eq. exists [].
    split; [done|]. by intros body []. }
  cbn [wireFields] in Hw. destruct fields as [|[fn ft ftag fan fex] fields]; [done|]. cbn [sf_type] in *.
  apply Forall_cons in Hf as [Hf1 Hf].
  assert (drop (S i) alls = fields) as Hd' by (by rewrite <- Nat.add_1_r, <- drop_drop, Hd).
  assert (∀ w sub items, (∀ f, f ∈ sub → f ∈ vals) →
    wireFields dflt (wire dflt dyn) (S i) fields sub vs = Some items → Forall itemOk items →
    ∃ vs', Forall2 agrees vs vs' ∧ ∀ body k, storesFields body → (length (blocksOf items) < k)%nat →
      eachValue k (nonNil (blocksOf items)) (VStruct (pre ++ w :: zeros fields)) body =
      (VStruct (pre ++ w :: vs'), Ok tt)) as Hrest.
  { intros w sub' items' Hs Hw' Hok'. destruct (IHf (S i) sub' fields items' (pre ++ [w])) as (vs' & Hag & Hev);
      [done|done|done|rewrite length_app; cbn; lia|done..|].
    exists vs'. split; [done|]. intros body k Hb Hk. specialize (Hev body k Hb Hk). by rewrite <- !app_assoc in Hev. }
  assert (∀ sub, (∀ f, f ∈ sub → f ∈ vals) →
    (if zeroEqb (zeroValue ft) v then wireFields dflt (wire dflt dyn) (S i) fields sub vs else None) = Some items →
    ∃ vs', Forall2 agrees (v :: vs) vs' ∧ ∀ body k, storesFields body → (length (blocksOf items) < k)%nat →
      eachValue k (nonNil (blocksOf items)) (VStruct (pre ++ zeroValue ft :: zeros fields)) body =
      (VStruct (pre ++ vs'), Ok tt)) as Hskip.
  { intros sub' Hs Hw'. destruct (zeroEqb (zeroValue ft) v) eqn:Hz; [|done]. apply zeroEqb_eq in Hz. rewrite Hz.
    destruct (Hrest v sub' items Hs Hw' Hok) as (vs' & Hag & Hev). exists (v :: vs').
    split; [constructor; [rewrite <- Hz; apply agrees_zero|done]|done]. }
  destruct sub as [|f sub]; [by apply (Hskip [])|].
  assert (∀ g, g ∈ sub → g ∈ vals) as Hsub' by (intros; apply Hsub; by right).
  destruct (fi_index f =? i)%nat eqn:Hi; [|by apply (Hskip (f :: sub))].
  apply Nat.eqb_eq in Hi. destruct (flags_any (fi_flags f)) eqn:Ha; [done|].
  destruct (_ || _); [|done]. apply bind_Some in Hw as (its & Hw & Hr).
  apply bind_Some in Hr as (rest & Hr & [= <-]). apply Forall_app in Hok as [Hok1 Hok2].
  assert (f ∈ vals) as Hin by (apply Hsub; by left).
  pose proof (fieldsOf_drop _ _ _ _ _ (proj1 (Forall_forall _ _) Hvals f Hin) Hi Hd) as Hty. cbn [sf_type] in Hty.
  destruct (Hv ft (fi_flags f) (fi_tag f) its fuel (blocksOf rest) Hw Hok1) as [Hfed _].
  destruct (Hfed Hf1) as (v' & Hag & Hfv). rewrite <- Hty in Hfv.
  destruct (Hrest v' sub rest Hsub' Hr Hok2) as (vs' & Hags & Hev). exists (v' :: vs').
  split; [by constructor|]. intros body k Hb Hk. rewrite blocksOf_app in *. cbn [zeros map].
  destruct (field_decode body f its (blocksOf rest) pre (zeroValue (ti_typ (fi_ti f))) (zeros fields) v' k) as (k' & Hk' & He);
    [done|done|done|done|by eapply wire_tag|congruence|done|done|].
  rewrite Hty in He. fold (zeros fields). rewrite He. by apply Hev.
Qed.
End StructLoop.

Lemma unmarshalElem_struct fuel d n fs v t : tn_unmarshal n = None → TTLV_Type t = TypeStructure →
  unmarshalElem dflt (S fuel) d (TStruct n fs) v t = unmarshalStructure dflt fuel d (TStruct n fs) v t.
Proof. intros Hn Ht. cbn [unmarshalElem typeName]. by rewrite Hn, Ht. Qed.

Lemma struct_decode fuel n fs vs ti tag items :
  Forall decodesWire vs → noMethods n = true →
  is_timeType (TStruct n fs) = false → is_bigIntType (TStruct n fs) = false →
  getTypeInfo dflt (TStruct n fs) = Ok ti → dynamicTag ti = false →
  wireFields dflt (wire dflt dyn) 0 fs (ti_valueFields ti) vs = Some items → itemOk (IStructure tag items) →
  (3 * tdepth (TStruct n fs) ≤ S (S (S fuel)))%nat →
  ∃ vs', Forall2 agrees vs vs' ∧ ∀ d rest,
    unmarshalElem dflt (S (S fuel)) d (TStruct n fs) (zeroValue (TStruct n fs)) (itemBlock (IStructure tag items) ++ rest) =
    (VStruct vs', Ok tt).
Proof.
  intros IH Hn Htm Hbi Hti Hdt Hw Hok Hf. apply noMethods_inv in Hn as [_ Hu].
  apply itemOk_inv in Hok as (Hvt & Hok & Hlen). cbn [itemBlock]. fold (blocksOf items) in *.
  destruct (fields_decode fuel (ti_valueFields ti) fs fs 0 (ti_valueFields ti) vs items []) as (vs' & Hag & Hev);
    [done|done|by eapply getTypeInfo_fields|done|done| |done|done|].
  { apply Forall_forall. intros f Hin. pose proof (tdepth_field n fs f Hin). lia. }
  exists vs'. split; [done|]. intros d rest. rewrite (unmarshalElem_struct _ _ _ _ _ _ Hu) by apply structure_Type.
  cbn [unmarshalStructure]. rewrite Hti, structure_value by done.
  assert (match ti_tagField ti with
    | Some f => if is_tagType (ti_typ (fi_ti f)) then setField (zeroValue (TStruct n fs)) (fi_index f) (VUint (TTLV_Tag ((header tag TypeStructure (len (blocksOf items)) ++ blocksOf items) ++ rest)))
                else zeroValue (TStruct n fs)
    | None => zeroValue (TStruct n fs)
    end = VStruct ([] ++ zeros fs)) as ->.
  { unfold dynamicTag in Hdt. cbn [zeroValue]. rewrite Htm, Hbi. destruct (ti_tagField ti); [by rewrite Hdt|done]. }
  apply Hev; [|rewrite !length_app; lia].
  intros f it rest' pre z zs x Hin Ha Hit Htag Hi Hx.
  assert (fi_tag f ≠ TagNone) as Hnz by (rewrite <- Htag; apply Tag_Valid_nonzero; by inversion Hit).
  rewrite itemBlock_Tag, Htag by done.
  rewrite findField_tag by (done || by eapply getTypeInfo_distinct).
  rewrite Hi, list_lookup_middle by done. rewrite Hx. cbn [setField]. by rewrite insert_app_r_alt, Nat.sub_diag by done.
Qed.

Lemma iface_decode fuel d flags tag n t x p rest : noMethods n = true → leafCase dflt dyn flags tag t x p →
  itemOk (IPrim tag p) →
  unmarshal dflt (S (S fuel)) d (TInterface n) (VIface None) (itemBlock (IPrim tag p) ++ rest) =
  (VIface (Some (ofGoval (primGo p))), Ok tt).
Proof.
  intros [_ Hu]%noMethods_inv Hp Hok. cbn [unmarshal].
  rewrite (proj2 (Z.eqb_neq _ _)) by (by apply itemBlock_len). cbn [unmarshalElem typeName]. rewrite Hu.
  inversion Hok; subst. cbn [itemBlock]. rewrite primBlock_Type, primBlock_Value by done. cbn [store].
  by destruct Hp.
Qed.

Lemma iface_struct_decode fuel d tag its n rest : noMethods n = true → itemOk (IStructure tag its) →
  unmarshal dflt (S (S fuel)) d (TInterface n) (VIface None) (itemBlock (IStructure tag its) ++ rest) =
  (VIface (Some (ttlvType, VBytes (Some (itemBlock (IStructure tag its) ++ rest)))), Ok tt).
Proof.
  intros [_ Hu]%noMethods_inv Hok. cbn [unmarshal]. rewrite (proj2 (Z.eqb_neq _ _)) by (by apply itemBlock_len).
  cbn [unmarshalElem typeName]. rewrite Hu, itemBlock_Type. done.
Qed.

Lemma wire_decode_direct typ flags tag v items fuel rest : isDirect typ = true →
  wire dflt dyn typ flags tag v = Some items → Forall itemOk items →
  (∀ l, v = VSlice (Some l) ∨ v = VStruct l → Forall decodesWire l) →
  (3 * tdepth typ ≤ S fuel)%nat → ∃ v', agrees v v' ∧ fedElem fuel typ items rest (zeroValue typ) v'.
Proof.
  intros Hd Hw Hok IH Hf. apply wire_case in Hw as (Htt & [(_ & -> & -> & _)|(Ho & Hc)]).
  { eexists. split; [apply agrees_zero|done]. }
  destruct Hc as [t x items _ _|n t x p _ _|n t x tg its _ _ _ _|n el l items Hn Hb Hl Hfl Hall|n fs vs ti its Hn Htm Hbi Hfl Hti Hdt Hw|typ v p Hp];
    [done..| | |].
  - cbn [tdepth zeroValue] in *. rewrite Hb. destruct fuel as [|fuel]; [lia|].
    destruct (slice_decode fuel n el l items None (Z.ldiff flags fOmitEmpty) tag rest) as (l' & Hag & Hfed);
      [by apply IH; left|done|done|lia|done|done|]. eexists. split; [by apply ag_slice|done].
  - apply Forall_cons in Hok as [Hok _]. pose proof Hf as Hf'. cbn [tdepth] in Hf'. destruct fuel as [|[|fuel]]; [lia..|].
    destruct (struct_decode fuel n fs vs ti tag its) as (vs' & Hag & Hdec); [by apply IH; right|done..|].
    exists (VStruct vs'). split; [by constructor|]. exists (VStruct vs'). split; [|done]. intros d. apply Hdec.
  - apply Forall_cons in Hok as [Hok _]. apply leaf_case in Hp as (Hc & Hu & _). exists (seconds v). split; [by eapply leafCase_agrees|].
    exists (seconds v). split; [|done]. intros d. assert (3 ≤ S fuel)%nat by (destruct typ; cbn [tdepth] in Hf; lia).
    destruct fuel as [|fuel]; [lia|]. eapply leaf_decode; [done|done|done|].
    destruct Hc as [| | | |? ? ? ? Hk| |? ? ? ? ? Hb| |]; cbn; try done; [by destruct Hk as [-> | ->]|by rewrite Hb|..];
      repeat case_match; done.
Qed.

Lemma wire_decode_ptr t x flags tag items fuel rest : decodesWire x → isDirect t = true →
  wire dflt dyn (TPtr t) flags tag (VPtr (Some x)) = Some items → wire dflt dyn t flags tag x = Some items →
  omitted flags (TPtr t) (VPtr (Some x)) = false → Forall itemOk items → (3 * tdepth (TPtr t) ≤ fuel)%nat →
  ∃ v', agrees (VPtr (Some x)) v' ∧ fedValue fuel (TPtr t) items rest (VPtr None) v'.
Proof.
  intros IH Hd Hw Hx Ho Hok Hf. cbn [tdepth] in Hf. destruct fuel as [|fuel]; [lia|].
  destruct (IH t flags tag items fuel rest Hx Hok) as [_ He]. destruct (He Hd ltac:(lia)) as (x' & Hag & Hfed).
  exists (VPtr (Some x')). split; [by constructor|].
  apply (fed_nil_ptr _ _ _ _ (zeroValue t)); [exact (wire_nonempty (TPtr t) flags tag _ _ Hw Ho)|done| |done].
  by apply fed_ptr.
Qed.

Lemma wire_decode_iface n v flags tag items fuel rest :
  wire dflt dyn (TInterface n) flags tag v = Some items → Forall itemOk items → (3 ≤ fuel)%nat →
  ∃ v', agrees v v' ∧ fedValue fuel (TInterface n) items rest (VIface None) v'.
Proof.
  intros Hw Hok Hf. apply wire_case in Hw as (_ & [(_ & -> & -> & _)|(_ & Hc)]).
  { eexists. split; [apply (agrees_zero (TInterface n))|done]. }
  destruct fuel as [|[|fuel]]; [lia..|]. inversion Hc as [|? t x p Hn Hp|? t x tg its Hn Hdy Hni Hx| | |? ? p Hp]; subst;
    [| |apply leaf_case in Hp as (Hp & _); inversion Hp]; apply Forall_cons in Hok as [Hok _].
  - apply dynamicLeaf_inv in Hp as (Hl & _ & Hs). pose proof (leaf_case _ _ _ _ _ _ _ Hl) as [Hcl _].
    eexists. split; [by eapply ag_leaf|]. eexists. split; [|done]. intros d. by eapply iface_decode.
  - eexists. split; [by eapply ag_dyn|]. eexists. split; [|done]. intros d. by apply iface_struct_decode.
Qed.

Lemma wire_decode v : decodesWire v.
Proof.
  assert (∀ v, (∀ l, v = VSlice (Some l) ∨ v = VStruct l → Forall decodesWire l) →
    (∀ x, v = VPtr (Some x) → decodesWire x) → decodesWire v) as Hstep.
  { intros v' Hl Hp typ flags tag items fuel rest Hw Hok. split; [|intros; by eapply wire_decode_direct]. intros Hf.
    destruct (isDirect typ) eqn:Hd.
    { destruct fuel as [|fuel]; [destruct typ; cbn in Hf; lia|].
      destruct (wire_decode_direct typ flags tag v' items fuel rest) as (w & Hag & Hfed); [done..|].
      exists w. split; [done|by apply fed_direct]. }
    destruct typ as [| | |t|n| |]; try done; [|by eapply wire_decode_iface; [..|cbn in Hf; lia]].
    pose proof Hw as Hw'. apply wire_case in Hw' as (_ & [(_ & -> & -> & _)|(Ho & Hc)]).
    { eexists. split; [apply (agrees_zero (TPtr t))|done]. }
    inversion Hc as [? x ? Hdt Hx| | | | |? ? p Hpf]; subst; [|apply leaf_case in Hpf as (Hpf & _); inversion Hpf].
    eapply wire_decode_ptr; eauto. }
  induction v as [v Ha|l IH|x IH|t x IH|vs IH] using gov_ind'; apply Hstep; intros;
    destruct_or?; simplify_eq; try done; by destruct Ha.
Qed.
End Decoding.

(** * Whole values *)

Section Whole.
Context (dflt : Registry) (dyn : bool).

(** The item of a value handed to [Marshal]. *)
Definition wireValue (typ : gotype) (v : gov) : option item :=
  tag ← resolvedTag dflt None typ v; single (wire dflt dyn typ 0 tag v).

Lemma wireValue_inv typ v it : wireValue typ v = Some it →
  ∃ tag, resolvedTag dflt None typ v = Some tag ∧ wire dflt dyn typ 0 tag v = Some [it].
Proof.
  intros (tag & Ht & Hs)%bind_Some. exists tag. split; [done|]. unfold single in Hs. by repeat case_match; simplify_eq.
Qed.

Lemma Marshal_wire typ v it fuel : wireValue typ v = Some it → itemOk it → (need v ≤ fuel)%nat →
  Marshal dflt fuel (Some (typ, v)) = Ok (itemBlock it).
Proof.
  intros (tag & Ht & Hw)%wireValue_inv Hok Hf. unfold Marshal, Encode, EncodeValue. unfold mbind, enc_bind.
  rewrite (wire_encode dflt dyn v fuel TagNone None tag typ [it]); [|done|by constructor|by right|done|done].
  unfold blocksOf. cbn -[itemBlock]. by rewrite app_nil_r.
Qed.

(** A value of any field, whatever its tag and flags. *)
Lemma DecodeValue_wire typ flags tag v it fuel d rest : isDirect typ = true →
  wire dflt dyn typ flags tag v = Some [it] → itemOk it → (3 * tdepth typ ≤ fuel)%nat →
  ∃ v', agrees dflt dyn v v' ∧ DecodeValue dflt fuel d typ (zeroValue typ) (itemBlock it ++ rest) = (v', Ok tt).
Proof.
  intros Hd Hw Hok Hf. unfold DecodeValue. destruct fuel as [|fuel]; [destruct typ; cbn in Hf; lia|].
  destruct (wire_decode dflt dyn v typ flags tag [it] fuel rest Hw ltac:(by constructor)) as [_ He].
  destruct (He Hd Hf) as (v' & Hag & v1 & H1 & ->). exists v'. split; [done|].
  rewrite unmarshal_ptr by (by apply itemBlock_len). specialize (H1 d). cbn [blocksOf map concat app] in H1. by rewrite H1.
Qed.

Lemma Unmarshal_wire typ v it fuel rest : isDirect typ = true → wireValue typ v = Some it → itemOk it →
  (3 * tdepth typ ≤ fuel)%nat →
  ∃ v', agrees dflt dyn v v' ∧ Unmarshal dflt fuel (itemBlock it ++ rest) typ (zeroValue typ) = (v', Ok tt).
Proof.
  intros Hd (tag & _ & Hw)%wireValue_inv Hok Hf.
  destruct (DecodeValue_wire typ 0 tag v it fuel NewDecoder [] Hd Hw Hok Hf) as (v' & Hag & Hdec).
  exists v'. split; [done|]. rewrite (Unmarshal_block _ _ it) by (by apply itemBlock_denotes).
  by rewrite app_nil_r in Hdec.
Qed.
End Whole.

(** A struct with a type tag, an omitted field, a nil pointer, a slice and an
    interface. *)
Definition sampleType : gotype :=
  TStruct (named "main" "T")
    [SField "TTLVTag" (TStruct unnamed []) "0x420078" false true;
     SField "A" intType "0x42006a" false true;
     SField "B" stringType "0x42006b,omitempty" false true;
     SField "C" (TPtr intType) "0x42006c" false true;
     SField "D" (TSlice unnamed (TPtr stringType)) "0x42006d" false true;
     SField "E" emptyInterface "0x42006e" false true].
Definition sampleValue : gov :=
  VStruct [VStruct []; VInt (-5); VString ""; VPtr None;
           VSlice (Some [VPtr (Some (VString "x")); VPtr (Some (VString ""))]);
           VIface (Some (TBasic (predeclared "bool") KBool, VBool true))].
Definition sampleWire : item :=
  IStructure 0x420078
    [IPrim 0x42006a (PInteger (-5)); IPrim 0x42006d (PTextString (String.list_byte_of_string "x"));
     IPrim 0x42006d (PTextString []); IPrim 0x42006e (PBoolean true)].
Example sampleWire_eq : wireValue emptyRegistry false sampleType sampleValue = Some sampleWire.
Proof. vm_compute. reflexivity. Qed.

(** * Properties *)


