(* ===== verification/Messages.v ===== *)
(** The request and response messages of src/types_messages.go and
    src/types.go: the structs as records, their Go types as reflection sees
    them, and the correspondence between the two. *)
From Stdlib Require Import ZArith Lia Strings.Byte Ascii String.
From stdpp Require Import base list strings numbers gmap.
From S2P Require Import Prelude Ttlv Grammar EncBuf Hex Names Registry Formatting Reflect Encoder Stream Decoder DecoderSound.
Local Open Scope Z_scope.
Set Warnings "-register-all".

(** * Go types *)

Definition pkgKMIP : string := "github.com/gemalto/kmip-go".
Definition pkg14 : string := "github.com/gemalto/kmip-go/kmip14".
Definition kmipStruct (n : string) (fs : list sfield) : gotype := TStruct (named pkgKMIP n) fs.
Definition enum14 (n : string) : gotype := TBasic (mkName pkg14 n (Some MEnumeration) None) KUint32.
Definition boolType : gotype := TBasic (predeclared "bool") KBool.
Definition bytesType : gotype := TSlice unnamed byteType.
Definition sliceOf (t : gotype) : gotype := TSlice unnamed t.
(** A field without a tag, and one with [`ttlv:",omitempty"`]. *)
Definition fld (n : string) (t : gotype) : sfield := SField n t "" false true.
Definition fldOmit (n : string) (t : gotype) : sfield := SField n t ",omitempty" false true.

Definition credentialType : gotype :=
  kmipStruct "Credential" [fld "CredentialType" (enum14 "CredentialType"); fld "CredentialValue" emptyInterface].
Definition authenticationType : gotype :=
  kmipStruct "Authentication" [fld "Credential" (sliceOf credentialType)].
Definition nonceType : gotype :=
  kmipStruct "Nonce" [fld "NonceID" bytesType; fld "NonceValue" bytesType].
Definition messageExtensionType : gotype :=
  kmipStruct "MessageExtension"
    [fld "VendorIdentification" stringType; fld "CriticalityIndicator" boolType;
     fld "VendorExtension" emptyInterface].
Definition protocolVersionType : gotype :=
  kmipStruct "ProtocolVersion" [fld "ProtocolVersionMajor" intType; fld "ProtocolVersionMinor" intType].

Definition requestHeaderType : gotype :=
  kmipStruct "RequestHeader"
    [fld "ProtocolVersion" protocolVersionType;
     fldOmit "MaximumResponseSize" intType;
     fldOmit "ClientCorrelationValue" stringType;
     fldOmit "ServerCorrelationValue" stringType;
     fldOmit "AsynchronousIndicator" boolType;
     fldOmit "AttestationCapableIndicator" boolType;
     fld "AttestationType" (sliceOf (enum14 "AttestationType"));
     fld "Authentication" (TPtr authenticationType);
     fldOmit "BatchErrorContinuationOption" (enum14 "BatchErrorContinuationOption");
     fldOmit "BatchOrderOption" boolType;
     fld "TimeStamp" (TPtr timeType);
     fld "BatchCount" intType].
Definition requestBatchItemType : gotype :=
  kmipStruct "RequestBatchItem"
    [fld "Operation" (enum14 "Operation");
     fldOmit "UniqueBatchItemID" bytesType;
     fld "RequestPayload" emptyInterface;
     fldOmit "MessageExtension" (TPtr messageExtensionType)].
Definition requestMessageType : gotype :=
  kmipStruct "RequestMessage"
    [fld "RequestHeader" requestHeaderType; fld "BatchItem" (sliceOf requestBatchItemType)].

Definition responseHeaderType : gotype :=
  kmipStruct "ResponseHeader"
    [fld "ProtocolVersion" protocolVersionType;
     fld "TimeStamp" timeType;
     fld "Nonce" (TPtr nonceType);
     fld "AttestationType" (sliceOf (enum14 "AttestationType"));
     fldOmit "ClientCorrelationValue" stringType;
     fldOmit "ServerCorrelationValue" stringType;
     fld "BatchCount" intType].
Definition responseBatchItemType : gotype :=
  kmipStruct "ResponseBatchItem"
    [fldOmit "Operation" (enum14 "Operation");
     fldOmit "UniqueBatchItemID" bytesType;
     fld "ResultStatus" (enum14 "ResultStatus");
     fldOmit "ResultReason" (enum14 "ResultReason");
     fldOmit "ResultMessage" stringType;
     fldOmit "AsynchronousCorrelationValue" bytesType;
     fldOmit "ResponsePayload" emptyInterface;
     fld "MessageExtension" (TPtr messageExtensionType)].
Definition responseMessageType : gotype :=
  kmipStruct "ResponseMessage"
    [fld "ResponseHeader" responseHeaderType; fld "BatchItem" (sliceOf responseBatchItemType)].

(** * Structs

    A nil slice is [None].  The structs the server only passes on
    (Authentication, Nonce, MessageExtension) stay reflection values. *)

Record ProtocolVersion := mkVersion { ProtocolVersionMajor : Z; ProtocolVersionMinor : Z }.

Record RequestHeader := mkRequestHeader {
  rqh_ProtocolVersion : ProtocolVersion;
  MaximumResponseSize : Z;
  rqh_ClientCorrelationValue : string;
  rqh_ServerCorrelationValue : string;
  AsynchronousIndicator : bool;
  AttestationCapableIndicator : bool;
  rqh_AttestationType : option (list Z);
  Authentication : option gov;
  BatchErrorContinuationOption : Z;
  BatchOrderOption : bool;
  rqh_TimeStamp : option gotime;
  rqh_BatchCount : Z;
}.

Record RequestBatchItem := mkRequestBatchItem {
  rqi_Operation : Z;
  rqi_UniqueBatchItemID : option (list byte);
  RequestPayload : option rvalue;
  rqi_MessageExtension : option gov;
}.

Record RequestMessage := mkRequestMessage {
  rq_RequestHeader : RequestHeader;
  rq_BatchItem : option (list RequestBatchItem);
}.

Record ResponseHeader := mkResponseHeader {
  rsh_ProtocolVersion : ProtocolVersion;
  rsh_TimeStamp : gotime;
  rsh_Nonce : option gov;
  rsh_AttestationType : option (list Z);
  rsh_ClientCorrelationValue : string;
  rsh_ServerCorrelationValue : string;
  rsh_BatchCount : Z;
}.

Record ResponseBatchItem := mkResponseBatchItem {
  rsi_Operation : Z;
  rsi_UniqueBatchItemID : option (list byte);
  ResultStatus : Z;
  ResultReason : Z;
  ResultMessage : string;
  AsynchronousCorrelationValue : option (list byte);
  ResponsePayload : option rvalue;
  rsi_MessageExtension : option gov;
}.

Record ResponseMessage := mkResponseMessage {
  rs_ResponseHeader : ResponseHeader;
  rs_BatchItem : option (list ResponseBatchItem);
}.

(** * Structs as reflection values *)

(** A Go struct type with its record: [toGo] is [reflect.ValueOf], [ofGo]
    reads a value of the type back. *)
Class GoStruct (A : Type) := {
  goType : gotype;
  toGo : A → gov;
  ofGo : gov → option A;
}.
Arguments goType A {_}.

(** What clients rely on: the two are inverse, and every value of the type is
    the image of a record. *)
Class GoStructLaws (A : Type) `{GoStruct A} := {
  ofGo_toGo (a : A) : ofGo (toGo a) = Some a;
  toGo_surj v : hasType anyBytes (goType A) v → ∃ a : A, v = toGo a;
}.

Section Slices.
Context {A : Type} `{GoStruct A}.

Definition toSlice (o : option (list A)) : gov := VSlice (map toGo <$> o).
Definition ofSlice (v : gov) : option (option (list A)) :=
  match v with
  | VSlice None => Some None
  | VSlice (Some l) => Some <$> mapM ofGo l
  | _ => None
  end.
End Slices.

Definition enumSlice (o : option (list Z)) : gov := VSlice (map VUint <$> o).
Definition ofEnum (v : gov) : option Z := match v with VUint z => Some z | _ => None end.
Definition ofEnumSlice (v : gov) : option (option (list Z)) :=
  match v with
  | VSlice None => Some None
  | VSlice (Some l) => Some <$> mapM ofEnum l
  | _ => None
  end.
Definition ofTimePtr (v : gov) : option (option gotime) :=
  match v with
  | VPtr None => Some None
  | VPtr (Some (VTime t)) => Some (Some t)
  | _ => None
  end.

#[export] Instance ProtocolVersion_go : GoStruct ProtocolVersion := {
  goType := protocolVersionType;
  toGo v := VStruct [VInt (ProtocolVersionMajor v); VInt (ProtocolVersionMinor v)];
  ofGo v := match v with VStruct [VInt a; VInt b] => Some (mkVersion a b) | _ => None end;
}.

#[export] Instance RequestHeader_go : GoStruct RequestHeader := {
  goType := requestHeaderType;
  toGo h := VStruct
    [toGo (rqh_ProtocolVersion h); VInt (MaximumResponseSize h); VString (rqh_ClientCorrelationValue h);
     VString (rqh_ServerCorrelationValue h); VBool (AsynchronousIndicator h);
     VBool (AttestationCapableIndicator h); enumSlice (rqh_AttestationType h); VPtr (Authentication h);
     VUint (BatchErrorContinuationOption h); VBool (BatchOrderOption h);
     VPtr (VTime <$> rqh_TimeStamp h); VInt (rqh_BatchCount h)];
  ofGo v := match v with
    | VStruct [pv; VInt mrs; VString ccv; VString scv; VBool ai; VBool aci; att; VPtr auth;
               VUint beco; VBool boo; ts; VInt bc] =>
        pv ← ofGo pv; att ← ofEnumSlice att; ts ← ofTimePtr ts;
        Some (mkRequestHeader pv mrs ccv scv ai aci att auth beco boo ts bc)
    | _ => None
    end;
}.

#[export] Instance RequestBatchItem_go : GoStruct RequestBatchItem := {
  goType := requestBatchItemType;
  toGo i := VStruct
    [VUint (rqi_Operation i); VBytes (rqi_UniqueBatchItemID i); VIface (RequestPayload i);
     VPtr (rqi_MessageExtension i)];
  ofGo v := match v with
    | VStruct [VUint op; VBytes id; VIface p; VPtr me] => Some (mkRequestBatchItem op id p me)
    | _ => None
    end;
}.

#[export] Instance RequestMessage_go : GoStruct RequestMessage := {
  goType := requestMessageType;
  toGo m := VStruct [toGo (rq_RequestHeader m); toSlice (rq_BatchItem m)];
  ofGo v := match v with
    | VStruct [h; b] => h ← ofGo h; b ← ofSlice b; Some (mkRequestMessage h b)
    | _ => None
    end;
}.

#[export] Instance ResponseHeader_go : GoStruct ResponseHeader := {
  goType := responseHeaderType;
  toGo h := VStruct
    [toGo (rsh_ProtocolVersion h); VTime (rsh_TimeStamp h); VPtr (rsh_Nonce h);
     enumSlice (rsh_AttestationType h); VString (rsh_ClientCorrelationValue h);
     VString (rsh_ServerCorrelationValue h); VInt (rsh_BatchCount h)];
  ofGo v := match v with
    | VStruct [pv; VTime ts; VPtr nc; att; VString ccv; VString scv; VInt bc] =>
        pv ← ofGo pv; att ← ofEnumSlice att; Some (mkResponseHeader pv ts nc att ccv scv bc)
    | _ => None
    end;
}.

#[export] Instance ResponseBatchItem_go : GoStruct ResponseBatchItem := {
  goType := responseBatchItemType;
  toGo i := VStruct
    [VUint (rsi_Operation i); VBytes (rsi_UniqueBatchItemID i); VUint (ResultStatus i);
     VUint (ResultReason i); VString (ResultMessage i); VBytes (AsynchronousCorrelationValue i);
     VIface (ResponsePayload i); VPtr (rsi_MessageExtension i)];
  ofGo v := match v with
    | VStruct [VUint op; VBytes id; VUint st; VUint rr; VString msg; VBytes acv; VIface p; VPtr me] =>
        Some (mkResponseBatchItem op id st rr msg acv p me)
    | _ => None
    end;
}.

#[export] Instance ResponseMessage_go : GoStruct ResponseMessage := {
  goType := responseMessageType;
  toGo m := VStruct [toGo (rs_ResponseHeader m); toSlice (rs_BatchItem m)];
  ofGo v := match v with
    | VStruct [h; b] => h ← ofGo h; b ← ofSlice b; Some (mkResponseMessage h b)
    | _ => None
    end;
}.

(** * The laws *)

Lemma mapM_toGo {A} `{GoStructLaws A} (l : list A) : mapM ofGo (map toGo l) = Some l.
Proof. induction l as [|a l IH]; [done|]. cbn. by rewrite ofGo_toGo, IH. Qed.

Lemma ofSlice_toSlice {A} `{GoStructLaws A} (o : option (list A)) : ofSlice (toSlice o) = Some o.
Proof. destruct o; [|done]. cbn. by rewrite mapM_toGo. Qed.

Lemma ofEnumSlice_enumSlice o : ofEnumSlice (enumSlice o) = Some o.
Proof. destruct o as [l|]; [|done]. cbn. induction l as [|z l IH]; [done|]. cbn in *. by destruct (mapM _ _); simplify_eq/=. Qed.

Lemma ofTimePtr_toGo o : ofTimePtr (VPtr (VTime <$> o)) = Some o.
Proof. by destruct o. Qed.

Lemma Forall_image {A B} (P : B → Prop) (f : A → B) (l : list B) :
  (∀ b, P b → ∃ a, b = f a) → Forall P l → ∃ l', l = map f l'.
Proof.
  intros Hf. induction 1 as [|b l Hb Hl (l' & ->)]; [by exists []|].
  destruct (Hf b Hb) as [a ->]. by exists (a :: l').
Qed.

Section Inversion.
Abbreviation ht := (hasType anyBytes).

Lemma ht_struct_inv n fs v :
  is_timeType (TStruct n fs) = false → is_bigIntType (TStruct n fs) = false → ht (TStruct n fs) v →
  ∃ l, v = VStruct l ∧ Forall2 (λ f v, ht (sf_type f) v) fs l.
Proof. intros H1 H2. inversion 1; subst; eauto; done. Qed.

Lemma ht_int_inv n v : ht (TBasic n KInt) v → ∃ z, v = VInt z.
Proof. inversion 1; subst; eauto; by destruct_or?. Qed.
Lemma ht_bool_inv n v : ht (TBasic n KBool) v → ∃ b, v = VBool b.
Proof. inversion 1; subst; eauto; by destruct_or?. Qed.
Lemma ht_string_inv n v : ht (TBasic n KString) v → ∃ s, v = VString s.
Proof. inversion 1; subst; eauto; by destruct_or?. Qed.
Lemma ht_enum_inv n v : ht (TBasic n KUint32) v → ∃ z, v = VUint z.
Proof. inversion 1; subst; eauto; by destruct_or?. Qed.
Lemma ht_bytes_inv n v : ht (TSlice n byteType) v → ∃ o, v = VBytes o.
Proof. inversion 1; subst; eauto; done. Qed.
Lemma ht_ptr_inv t v : ht (TPtr t) v → ∃ o, v = VPtr o ∧ from_option (ht t) True o.
Proof. inversion 1; subst; eexists; (split; [done|]); done. Qed.
Lemma ht_iface_inv n v : ht (TInterface n) v → ∃ o, v = VIface o.
Proof. inversion 1; subst; eauto. Qed.
Lemma ht_time_inv v : ht timeType v → ∃ t, v = VTime t.
Proof. by apply hasType_time. Qed.

Lemma ht_slice_inv {A} (f : A → gov) n t v :
  is_byteType t = false → (∀ x, ht t x → ∃ a, x = f a) → ht (TSlice n t) v →
  ∃ o, v = VSlice (map f <$> o).
Proof.
  intros Hb Hf. inversion 1 as [| | | | | |? ? ? ?|? ? l ? ? Hl| | | | | | | | |]; subst; try congruence.
  - by exists None.
  - destruct (Forall_image _ f l Hf Hl) as [l' ->]. by exists (Some l').
Qed.
End Inversion.

Lemma ht_goStruct {A} `{GoStructLaws A} t v :
  t = goType A → hasType anyBytes t v → ∃ a : A, v = toGo a.
Proof. intros ->. apply toGo_surj. Qed.

(** [fields_of H] splits the fields of a struct value. *)
Ltac fields_of H :=
  let l := fresh "l" in let Hl := fresh "Hl" in
  apply ht_struct_inv in H as (l & -> & Hl); [|reflexivity|reflexivity];
  repeat (let x := fresh "x" in let Hx := fresh "Hx" in
          apply Forall2_cons_inv_l in Hl as (x & ? & Hx & Hl & ->); cbn [sf_type fld fldOmit] in Hx);
  apply Forall2_nil_inv_l in Hl as ->.

Ltac scalar_fields :=
  repeat match goal with
  | H : hasType _ intType _ |- _ => apply ht_int_inv in H as [? ->]
  | H : hasType _ boolType _ |- _ => apply ht_bool_inv in H as [? ->]
  | H : hasType _ stringType _ |- _ => apply ht_string_inv in H as [? ->]
  | H : hasType _ (enum14 _) _ |- _ => apply ht_enum_inv in H as [? ->]
  | H : hasType _ bytesType _ |- _ => apply ht_bytes_inv in H as [? ->]
  | H : hasType _ emptyInterface _ |- _ => apply ht_iface_inv in H as [? ->]
  | H : hasType _ timeType _ |- _ => apply ht_time_inv in H as [? ->]
  | H : hasType _ (sliceOf (enum14 _)) _ |- _ =>
      apply (ht_slice_inv VUint) in H as [? ->]; [|reflexivity|intros ?; apply ht_enum_inv]
  end.

#[export] Instance ProtocolVersion_laws : GoStructLaws ProtocolVersion.
Proof.
  split; [by intros []|]. intros v Hv. fields_of Hv. scalar_fields.
  by eexists (mkVersion _ _).
Qed.

#[export] Instance RequestHeader_laws : GoStructLaws RequestHeader.
Proof.
  split.
  - intros [[]]. cbn -[ofEnumSlice ofTimePtr enumSlice]. rewrite ofEnumSlice_enumSlice.
    cbn -[ofTimePtr]. by rewrite ofTimePtr_toGo.
  - intros v Hv. fields_of Hv. scalar_fields.
    repeat match goal with
    | H : hasType _ protocolVersionType _ |- _ => apply (ht_goStruct (A := ProtocolVersion)) in H as [? ->]; [|reflexivity]
    | H : hasType _ (TPtr timeType) _ |- _ => apply ht_ptr_inv in H as ([y|] & -> & ?)
    | H : hasType _ (TPtr authenticationType) _ |- _ => apply ht_ptr_inv in H as (? & -> & _)
    end; cbn [from_option] in *; scalar_fields.
    + by eexists (mkRequestHeader _ _ _ _ _ _ _ _ _ _ (Some _) _).
    + by eexists (mkRequestHeader _ _ _ _ _ _ _ _ _ _ None _).
Qed.

#[export] Instance RequestBatchItem_laws : GoStructLaws RequestBatchItem.
Proof.
  split; [by intros []|]. intros v Hv. fields_of Hv. scalar_fields.
  match goal with H : hasType _ (TPtr _) _ |- _ => apply ht_ptr_inv in H as (? & -> & _) end.
  by eexists (mkRequestBatchItem _ _ _ _).
Qed.

#[export] Instance RequestMessage_laws : GoStructLaws RequestMessage.
Proof.
  split.
  - intros [h b]. cbn [toGo ofGo RequestMessage_go rq_RequestHeader rq_BatchItem].
    by rewrite ofGo_toGo, ofSlice_toSlice.
  - intros v Hv. fields_of Hv.
    match goal with H : hasType _ requestHeaderType _ |- _ =>
      apply (ht_goStruct (A := RequestHeader)) in H as [? ->]; [|reflexivity] end.
    match goal with H : hasType _ (sliceOf _) _ |- _ =>
      apply (ht_slice_inv (A := RequestBatchItem) toGo) in H as [? ->];
        [|reflexivity|intros ?; by apply (ht_goStruct (A := RequestBatchItem))] end.
    by eexists (mkRequestMessage _ _).
Qed.

#[export] Instance ResponseHeader_laws : GoStructLaws ResponseHeader.
Proof.
  split.
  - intros [[]]. cbn -[ofEnumSlice enumSlice]. by rewrite ofEnumSlice_enumSlice.
  - intros v Hv. fields_of Hv. scalar_fields.
    repeat match goal with
    | H : hasType _ protocolVersionType _ |- _ => apply (ht_goStruct (A := ProtocolVersion)) in H as [? ->]; [|reflexivity]
    | H : hasType _ (TPtr _) _ |- _ => apply ht_ptr_inv in H as (? & -> & _)
    end.
    by eexists (mkResponseHeader _ _ _ _ _ _ _).
Qed.

#[export] Instance ResponseBatchItem_laws : GoStructLaws ResponseBatchItem.
Proof.
  split; [by intros []|]. intros v Hv. fields_of Hv. scalar_fields.
  match goal with H : hasType _ (TPtr _) _ |- _ => apply ht_ptr_inv in H as (? & -> & _) end.
  by eexists (mkResponseBatchItem _ _ _ _ _ _ _ _).
Qed.

#[export] Instance ResponseMessage_laws : GoStructLaws ResponseMessage.
Proof.
  split.
  - intros [h b]. cbn [toGo ofGo ResponseMessage_go rs_ResponseHeader rs_BatchItem].
    by rewrite ofGo_toGo, ofSlice_toSlice.
  - intros v Hv. fields_of Hv.
    match goal with H : hasType _ responseHeaderType _ |- _ =>
      apply (ht_goStruct (A := ResponseHeader)) in H as [? ->]; [|reflexivity] end.
    match goal with H : hasType _ (sliceOf _) _ |- _ =>
      apply (ht_slice_inv (A := ResponseBatchItem) toGo) in H as [? ->];
        [|reflexivity|intros ?; by apply (ht_goStruct (A := ResponseBatchItem))] end.
    by eexists (mkResponseMessage _ _).
Qed.

Lemma typeOk_requestMessage : typeOk requestMessageType.
Proof. type_ok. Qed.
