(* ===== verification/Server.v ===== *)
(** The request pipeline of src/requests.go and src/errors.go: [Request],
    [Response], [StandardProtocolHandler], [OperationMux], the error handler
    and the loop that serves a connection. *)
From Stdlib Require Import ZArith Lia Strings.Byte Ascii String.
From stdpp Require Import base list strings numbers gmap pretty.
From S2P Require Import Prelude Ttlv Grammar EncBuf Hex Names Registry Formatting Reflect Encoder Stream Decoder DecoderSound Messages.
Local Open Scope Z_scope.
Set Warnings "-register-all".

(** * Constants of package kmip14 *)

Definition TagRequestMessage : Z := 0x420078.
Definition ResultStatusOperationFailed : Z := 1.
Definition ResultReasonResponseTooLarge : Z := 2.
Definition ResultReasonInvalidMessage : Z := 4.
Definition ResultReasonOperationNotSupported : Z := 5.
Definition ResultReasonInvalidField : Z := 7.

(** * Errors

    [merry.Value(err, errorKeyResultReason)]: the value attached to an error
    under the package's private key. *)
Inductive reasonValue : Type :=
  | RResultReason (rr : Z)
  | ROther.

(** What the code uses of github.com/ansel1/merry, and the errors of the codec
    as errors of that library. *)
Class Merry (E : Type) := {
  merry_Errorf : string → E;
  merry_UserError : string → E;
  merry_Prepend : E → string → E;
  merry_WithValue : E → Z → E;
  merry_Value : E → option reasonValue;
  merry_UserMessage : E → string;
  merry_Message : E → string;
  err_Error : E → string;
  err_ofTTLV : terr → E;
  err_ofDecode : derr → E;
  err_ofEncode : merr → E;
}.

(** Its documented behaviour: a wrapped error keeps the values and the user
    message of the one it wraps, and only [WithValue] attaches values. *)
Class MerryLaws (E : Type) `{Merry E} := {
  merry_Value_WithValue e rr : merry_Value (merry_WithValue e rr) = Some (RResultReason rr);
  merry_Value_Prepend e s : merry_Value (merry_Prepend e s) = merry_Value e;
  merry_Value_Errorf s : merry_Value (merry_Errorf s) = None;
  merry_Value_UserError s : merry_Value (merry_UserError s) = None;
  merry_Value_Decode e : merry_Value (err_ofDecode e) = None;
  merry_Value_Encode e : merry_Value (err_ofEncode e) = None;
  merry_UserMessage_WithValue e rr : merry_UserMessage (merry_WithValue e rr) = merry_UserMessage e;
  merry_UserMessage_UserError s : merry_UserMessage (merry_UserError s) = s;
}.

(** * Requests *)

(** A pointer to a batch item: the array it lies in and its index there. *)
Record itemPtr := mkItemPtr {
  ptr_array : nat;
  ptr_index : nat;
}.

(** [Message.BatchItem] is a slice of the array [req_array].  The code keeps
    pointers into that array across the calls of handlers, and a handler may
    replace [Message] or its slice: the arrays that no longer belong to the
    message, and that pointers may still refer to, are kept in [req_retired].
    The TLS state is not represented. *)
Record Request := mkRequest {
  req_TTLV : TTLV;
  req_Message : option RequestMessage;
  req_CurrentItem : option itemPtr;
  req_DisallowExtraValues : bool;
  req_RemoteAddr : string;
  req_LocalAddr : string;
  req_IDPlaceholder : string;
  req_decoder : option Decoder;
  req_array : nat;
  req_retired : gmap nat (list RequestBatchItem);
}.

Definition batchItems (r : Request) : option (list RequestBatchItem) :=
  m ← req_Message r; Some (default [] (rq_BatchItem m)).

(** [&req.Message.BatchItem[i]], and the item a pointer points to. *)
Definition ptrOf (r : Request) (i : nat) : itemPtr := mkItemPtr (req_array r) i.
Definition itemOf (r : Request) (i : nat) : option RequestBatchItem := items ← batchItems r; items !! i.
Definition derefItem (r : Request) (p : itemPtr) : option RequestBatchItem :=
  if Nat.eqb (ptr_array p) (req_array r) then itemOf r (ptr_index p)
  else items ← req_retired r !! ptr_array p; items !! ptr_index p.

(** A new message brings its own array. *)
Definition setMessage (m : RequestMessage) (r : Request) : Request :=
  mkRequest (req_TTLV r) (Some m) (req_CurrentItem r) (req_DisallowExtraValues r) (req_RemoteAddr r)
    (req_LocalAddr r) (req_IDPlaceholder r) (req_decoder r) (S (req_array r))
    (from_option (λ items, <[req_array r := items]> (req_retired r)) (req_retired r) (batchItems r)).
Definition setCurrentItem (i : nat) (r : Request) : Request :=
  mkRequest (req_TTLV r) (req_Message r) (Some (ptrOf r i)) (req_DisallowExtraValues r) (req_RemoteAddr r)
    (req_LocalAddr r) (req_IDPlaceholder r) (req_decoder r) (req_array r) (req_retired r).
Definition setDecoder (strict : bool) (d : Decoder) (r : Request) : Request :=
  mkRequest (req_TTLV r) (req_Message r) (req_CurrentItem r) strict (req_RemoteAddr r)
    (req_LocalAddr r) (req_IDPlaceholder r) (Some d) (req_array r) (req_retired r).
Definition setIDPlaceholder (s : string) (r : Request) : Request :=
  mkRequest (req_TTLV r) (req_Message r) (req_CurrentItem r) (req_DisallowExtraValues r) (req_RemoteAddr r)
    (req_LocalAddr r) s (req_decoder r) (req_array r) (req_retired r).

Section Server.
Context {E : Type} `{Merry E} (dflt : Registry).

Definition WithResultReason (e : E) (rr : Z) : E := merry_WithValue e rr.

Definition GetResultReason (e : E) : res E Z :=
  match merry_Value e with
  | None => Ok 0
  | Some (RResultReason rr) => Ok rr
  | Some ROther => Panic
  end.

Definition newFailedResponseBatchItem (reason : Z) (msg : string) : ResponseBatchItem :=
  mkResponseBatchItem 0 None ResultStatusOperationFailed reason msg None None None.

(** [None] is nil: the error was not handled. *)
Definition DefaultErrorHandler (e : E) : res E (option ResponseBatchItem) :=
  reason ← GetResultReason e;
  if reason =? 0 then Ok None
  else
    let msg := merry_UserMessage e in
    let msg := if String.eqb msg "" then merry_Message e else msg in
    Ok (Some (newFailedResponseBatchItem reason msg)).

(** [coerceToTTLV]: [None] is the nil TTLV. *)
Definition coerceToTTLV (v : option rvalue) : res E (option TTLV) :=
  match v with
  | None => Ok None
  | Some (t, x) =>
      if is_ttlvType t then match x with VBytes o => Ok o | _ => Panic end
      else match Marshal dflt (need x) v with
           | Ok bs => Ok (Some bs)
           | Err e => Err (err_ofEncode e)
           | Panic => Panic
           | OutOfFuel => OutOfFuel
           end
  end.

(** Errors of the decoder as Go errors. *)
Definition liftDecode {A} (r : res derr A) : res E A :=
  match r with
  | Ok a => Ok a
  | Err e => Err (err_ofDecode e)
  | Panic => Panic
  | OutOfFuel => OutOfFuel
  end.

(** [Request.Unmarshal] into a variable of type [typ] holding [v]; a nil
    decoder is dereferenced. *)
Definition Request_Unmarshal (r : Request) (t : option TTLV) (typ : gotype) (v : gov)
    : Request * (gov * res E unit) :=
  let bs := bytesOf t in
  if len bs =? 0 then (r, (v, Ok tt))
  else match req_decoder r with
  | None => (r, (v, Panic))
  | Some d =>
      let d := Decoder_Reset d in
      let '(v, out) := (Decode dflt (decodeFuel 4 typ bs) d (mkReader bs []) typ v).2 in
      (setDecoder (req_DisallowExtraValues r) d r, (v, liftDecode out))
  end.

Definition DecodePayload (r : Request) (typ : gotype) (v : gov) : Request * (gov * res E unit) :=
  match req_CurrentItem r with
  | None => (r, (v, Ok tt))
  | Some p =>
      match derefItem r p with
      | None => (r, (v, Panic))
      | Some item =>
          match coerceToTTLV (RequestPayload item) with
          | Ok t => Request_Unmarshal r t typ v
          | Err e => (r, (v, Err e))
          | Panic => (r, (v, Panic))
          | OutOfFuel => (r, (v, OutOfFuel))
          end
      end
  end.

(** * Responses *)

(** The encoder writes to the response's buffer: the buffer is [w] of the
    encoder. *)
Record Response := mkResponse {
  resp_Message : ResponseMessage;
  resp_enc : Encoder;
}.

Definition setBuf (e : Encoder) (bs : list byte) : Encoder :=
  mkEncoder (encodeDepth e) bs (buf e) (currStruct e) (currField e).

Definition zeroResponseMessage : ResponseMessage :=
  mkResponseMessage (mkResponseHeader (mkVersion 0 0) zeroTime None None "" "" 0) None.

Definition Response_reset (r : Response) : Response :=
  mkResponse zeroResponseMessage (setBuf (resp_enc r) []).

(** [pooled] is what [responsePool.Get()] returns. *)
Definition newResponse (pooled : option Response) : Response :=
  match pooled with
  | Some r => Response_reset r
  | None => mkResponse zeroResponseMessage NewEncoder
  end.

Definition Response_Bytes (r : Response) : Response * res E (list byte) :=
  let v := VPtr (Some (toGo (resp_Message r))) in
  let '(e, out) := Encode dflt (need v) (Some (TPtr (goType ResponseMessage), v)) (setBuf (resp_enc r) []) in
  (mkResponse (resp_Message r) e,
   match out with
   | Ok _ => Ok (w e)
   | Err _ | Panic => Panic
   | OutOfFuel => OutOfFuel
   end).

Definition setBatchItem (items : option (list ResponseBatchItem)) (r : Response) : Response :=
  mkResponse (mkResponseMessage (rs_ResponseHeader (resp_Message r)) items) (resp_enc r).
Definition setHeader (h : ResponseHeader) (r : Response) : Response :=
  mkResponse (mkResponseMessage h (rs_BatchItem (resp_Message r))) (resp_enc r).
Definition respItems (r : Response) : list ResponseBatchItem := default [] (rs_BatchItem (resp_Message r)).

Definition errorResponse (r : Response) (reason : Z) (msg : string) : Response :=
  setBatchItem (Some [newFailedResponseBatchItem reason msg]) r.

(** * Handlers *)

(** [St] is the state behind the handlers (a key store).  A handler may change
    it and the request; its error is nil when the result is [Ok], and [Ok
    None] is a nil item. *)
Context {St : Type}.

Definition ItemHandler : Type := Request → St → St * Request * res E (option ResponseBatchItem).
Definition ErrorHandler : Type := E → res E (option ResponseBatchItem).

(** A nil map of handlers is [None]. *)
Record OperationMux := mkMux {
  mux_handlers : option (gmap Z ItemHandler);
  mux_ErrorHandler : option ErrorHandler;
}.

Definition OperationMux_Handle (m : OperationMux) (op : Z) (h : ItemHandler) : OperationMux :=
  mkMux (Some (<[op := h]> (default ∅ (mux_handlers m)))) (mux_ErrorHandler m).

Definition handlerForOp (m : OperationMux) (op : Z) : option ItemHandler :=
  default ∅ (mux_handlers m) !! op.

(** The rest of [bi], with the handler that was found. *)
Definition callHandler (eh : option ErrorHandler) (handler : option ItemHandler) (req : Request) (st : St)
    : St * Request * res E (option ResponseBatchItem) :=
  match handler with
  | None => (st, req, Ok (Some (newFailedResponseBatchItem ResultReasonOperationNotSupported "")))
  | Some h =>
      let '(st, req, out) := h req st in
      match out with
      | Err e =>
          (st, req,
           match default DefaultErrorHandler eh e with
           | Ok None => Panic
           | r => r
           end)
      | _ => (st, req, out)
      end
  end.

Definition bi (m : OperationMux) (req : Request) (i : nat) (reqItem : RequestBatchItem) (st : St)
    : St * Request * res E (option ResponseBatchItem) :=
  let req := setCurrentItem i req in
  callHandler (mux_ErrorHandler m) (handlerForOp m (rqi_Operation reqItem)) req st.

Definition correlate (rq : RequestBatchItem) (rs : ResponseBatchItem) : ResponseBatchItem :=
  mkResponseBatchItem (rqi_Operation rq) (rqi_UniqueBatchItemID rq) (ResultStatus rs) (ResultReason rs)
    (ResultMessage rs) (AsynchronousCorrelationValue rs) (ResponsePayload rs) (rsi_MessageExtension rs).

(** The end of the body of the loop: the item is correlated with the one that
    the pointer taken before the call points to, and appended. *)
Definition appendItem (req : Request) (p : itemPtr) (out : res E (option ResponseBatchItem)) (resp : Response)
    : Response * res E unit :=
  match out, derefItem req p with
  | Ok (Some respItem), Some reqItem =>
      (setBatchItem (Some (respItems resp ++ [correlate reqItem respItem])) resp, Ok tt)
  | OutOfFuel, _ => (resp, OutOfFuel)
  | _, _ => (resp, Panic)
  end.

(** The loop of [HandleMessage]: [n] items are left, the next one is number
    [i]. *)
Fixpoint handleItems (m : OperationMux) (n i : nat) (req : Request) (resp : Response) (st : St)
    : St * Request * Response * res E unit :=
  match n with
  | O => (st, req, resp, Ok tt)
  | S n =>
      match itemOf req i with
      | None => (st, req, resp, Panic)
      | Some reqItem =>
          let p := ptrOf req i in
          let '(st, req, out) := bi m req i reqItem st in
          let '(resp, out) := appendItem req p out resp in
          match out with
          | Ok _ => handleItems m n (S i) req resp st
          | _ => (st, req, resp, out)
          end
      end
  end.

Definition HandleMessage (m : OperationMux) (req : Request) (resp : Response) (st : St)
    : St * Request * Response * res E unit :=
  match batchItems req with
  | None => (st, req, resp, Panic)
  | Some items => handleItems m (length items) O req resp st
  end.

(** * The protocol handler *)

(** [MessageHandler] is an interface; [LogTraffic] only selects how the
    response is written, the log line itself is not modelled. *)
Definition MessageHandler : Type := Request → Response → St → St * Request * Response * res E unit.

Record StandardProtocolHandler := mkHandler {
  h_ProtocolVersion : ProtocolVersion;
  h_MessageHandler : MessageHandler;
  h_LogTraffic : bool;
}.

Definition parseMessage (req : Request) : Request * res E unit :=
  let t := req_TTLV req in
  match TTLV_Valid t with
  | Err e => (req, Err (merry_Prepend (err_ofTTLV e) "invalid ttlv"))
  | Panic => (req, Panic)
  | OutOfFuel => (req, OutOfFuel)
  | Ok _ =>
      if negb (TTLV_Tag t =? TagRequestMessage) then
        (req, Err (merry_Errorf ("invalid tag: expected RequestMessage, was "
                                   +:+ Tag_String dflt (TTLV_Tag t))))
      else
        let typ := goType RequestMessage in
        let '(v, out) := Unmarshal dflt (decodeFuel 4 typ t) t typ (zeroValue typ) in
        match out with
        | Err e => (req, Err (merry_Prepend (err_ofDecode e) "failed to parse message"))
        | Panic => (req, Panic)
        | OutOfFuel => (req, OutOfFuel)
        | Ok _ =>
            match ofGo v with
            | Some message => (setMessage message req, Ok tt)
            | None => (req, Panic)
            end
        end
  end.

Definition batchCount (n : Z) (h : ResponseHeader) : ResponseHeader :=
  mkResponseHeader (rsh_ProtocolVersion h) (rsh_TimeStamp h) (rsh_Nonce h) (rsh_AttestationType h)
    (rsh_ClientCorrelationValue h) (rsh_ServerCorrelationValue h) n.
Definition clientCorrelation (ccv : string) (h : ResponseHeader) : ResponseHeader :=
  mkResponseHeader (rsh_ProtocolVersion h) (rsh_TimeStamp h) (rsh_Nonce h) (rsh_AttestationType h)
    ccv (rsh_ServerCorrelationValue h) (rsh_BatchCount h).
Definition header0 (r : Response) : ResponseHeader := rs_ResponseHeader (resp_Message r).

(** [handleRequest] up to the call of the message handler: [Ok true] when it is
    called, [Ok false] when the request has been answered with an error.  [now]
    is [time.Now()], [scv] is [uuid.New().String()]. *)
Definition beginRequest (version : ProtocolVersion) (now : gotime) (scv : string) (req : Request) (resp : Response)
    : Request * Response * res E bool :=
  let resp := setHeader (mkResponseHeader version now (rsh_Nonce (header0 resp))
    (rsh_AttestationType (header0 resp)) (rsh_ClientCorrelationValue (header0 resp)) scv
    (len (respItems resp))) resp in
  let '(req, out) := parseMessage req in
  match out, req_Message req with
  | Err e, _ => (req, errorResponse resp ResultReasonInvalidMessage (err_Error e), Ok false)
  | Panic, _ => (req, resp, Panic)
  | OutOfFuel, _ => (req, resp, OutOfFuel)
  | Ok _, None => (req, resp, Panic)
  | Ok _, Some message =>
      let rh := rq_RequestHeader message in
      let resp := setHeader (clientCorrelation (rqh_ClientCorrelationValue rh) (header0 resp)) resp in
      let clientMajorVersion := ProtocolVersionMajor (rqh_ProtocolVersion rh) in
      let serverMajorVersion := ProtocolVersionMajor version in
      if negb (clientMajorVersion =? serverMajorVersion) then
        (req,
         errorResponse resp ResultReasonInvalidMessage
           ("mismatched protocol versions, client: " +:+ pretty clientMajorVersion
              +:+ ", server: " +:+ pretty serverMajorVersion), Ok false)
      else
        let strict := ProtocolVersionMinor (rqh_ProtocolVersion rh) =? ProtocolVersionMinor version in
        (setDecoder strict (mkDecoder strict None "") req, resp, Ok true)
  end.

(** [handleRequest] after the message handler has returned; the message is read
    again, from the request the handler may have changed. *)
Definition finishRequest (req : Request) (resp : Response) : Response * res E unit :=
  let resp := setHeader (batchCount (len (respItems resp)) (header0 resp)) resp in
  let '(resp, out) := Response_Bytes resp in
  match out with
  | Ok respTTLV =>
      match req_Message req with
      | Some message =>
          let max := MaximumResponseSize (rq_RequestHeader message) in
          if (0 <? max) && (max <? len respTTLV)
          then (errorResponse resp ResultReasonResponseTooLarge "", Ok tt)
          else (resp, Ok tt)
      | None => (resp, Panic)
      end
  | Err e => (resp, Err e)
  | Panic => (resp, Panic)
  | OutOfFuel => (resp, OutOfFuel)
  end.

Definition handleRequest (h : StandardProtocolHandler) (now : gotime) (scv : string)
    (req : Request) (resp : Response) (st : St) : St * Request * Response * res E unit :=
  let '(req, resp, out) := beginRequest (h_ProtocolVersion h) now scv req resp in
  match out with
  | Ok true =>
      let '(st, req, resp, out) := h_MessageHandler h req resp st in
      match out with
      | Ok _ => let '(resp, out) := finishRequest req resp in (st, req, resp, out)
      | _ => (st, req, resp, out)
      end
  | Ok false => (st, req, resp, Ok tt)
  | Err e => (st, req, resp, Err e)
  | Panic => (st, req, resp, Panic)
  | OutOfFuel => (st, req, resp, OutOfFuel)
  end.

(** [ServeKMIP] after [handleRequest]: what it writes, and the response that is
    released. *)
Definition writeResponse (logTraffic : bool) (resp : Response) : Response * res E (list byte) :=
  if logTraffic then Response_Bytes resp
  else (mkResponse (resp_Message resp) (setBuf (resp_enc resp) []), Ok (w (resp_enc resp))).

(** [ServeKMIP]: the bytes written to the connection, and the response that
    goes back to the pool. *)
Definition ServeKMIP (h : StandardProtocolHandler) (now : gotime) (scv : string)
    (pooled : option Response) (req : Request) (st : St) : St * res E (list byte * Response) :=
  let resp := newResponse pooled in
  let '(st, req, resp, out) := handleRequest h now scv req resp st in
  match out with
  | Ok _ =>
      let '(resp, out) := writeResponse (h_LogTraffic h) resp in
      (st, bs ← out; Ok (bs, resp))
  | Err e => (st, Err e)
  | Panic => (st, Panic)
  | OutOfFuel => (st, OutOfFuel)
  end.

(** * Serving a connection *)

(** What the server takes from its environment for the [k]th request: the
    clock, the random correlation value, and whether the pool gives back the
    response put into it last. *)
Record Environment := mkEnv {
  env_now : nat → gotime;
  env_uuid : nat → string;
  env_pool : nat → bool;
}.

Definition newRequest (t : TTLV) (remote loc : string) : Request :=
  mkRequest t None None false remote loc "" None O ∅.

(** How [conn.serve] ends; after a panic, which is recovered, the connection
    is closed as well. *)
Inductive connEnd : Type :=
  | ClientClosed
  | Recovered
  | ServeOutOfFuel.

Fixpoint serve (h : StandardProtocolHandler) (env : Environment) (remote loc : string)
    (fuel k : nat) (r : reader) (pool : option Response) (st : St) : St * list (list byte) * connEnd :=
  match fuel with
  | O => (st, [], ServeOutOfFuel)
  | S fuel =>
      let '(r, t) := NextTTLV r in
      match t with
      | Ok t =>
          let pooled := if env_pool env k then pool else None in
          let '(st, out) := ServeKMIP h (env_now env k) (env_uuid env k) pooled
                              (newRequest t remote loc) st in
          match out with
          | Ok (bs, resp) =>
              let '(st, outs, fin) := serve h env remote loc fuel (S k) r (Some resp) st in
              (st, bs :: outs, fin)
          | OutOfFuel => (st, [], ServeOutOfFuel)
          | _ => (st, [], Recovered)
          end
      | Err EOF => (st, [], ClientClosed)
      | Err (InvalidHeader _) | Panic => (st, [], Recovered)
      | OutOfFuel => (st, [], ServeOutOfFuel)
      end
  end.
End Server.
