(* ===== verification/ServerSpec.v ===== *)
(** What the server promises: batch items are answered in order and carry the
    correlation data of the request, recycled responses leak nothing,
    connections are served message by message; and what happens on the error
    paths. *)
From Stdlib Require Import ZArith Lia Strings.Byte Ascii String.
From stdpp Require Import base list strings numbers gmap pretty.
From S2P Require Import Prelude Ttlv Grammar EncBuf Hex Names Registry Formatting Reflect Encoder Stream Decoder DecoderSound Messages Server.
Local Open Scope Z_scope.
Set Warnings "-register-all".

(** * A successful encoding restores the encoder's position *)

Definition keeps {A} (m : enc A) : Prop := ∀ e e' a, m e = (e', Ok a) →
  encodeDepth e' = encodeDepth e ∧ currStruct e' = currStruct e ∧ currField e' = currField e.

Lemma keeps_lift {A} (r : res merr A) : keeps (lift r).
Proof. by intros e e' a [= <- _]. Qed.
Lemma keeps_ret {A} (a : A) : keeps (mret a).
Proof. by intros e e' b [= <- _]. Qed.
Lemma keeps_error {A} tag t c : keeps (marshalingError (A := A) tag t c).
Proof. by intros e e' a. Qed.
Lemma keeps_onBuf f : keeps (onBuf f).
Proof. by intros e e' a [= <- _]. Qed.
Lemma keeps_Flush : keeps Flush.
Proof. intros e e' a. unfold Flush. case_match; by intros [= <- _]. Qed.
Lemma keeps_bind {A B} (m : enc A) (f : A → enc B) :
  keeps m → (∀ a, keeps (f a)) → keeps (m ≫= f).
Proof.
  intros Hm Hf e e' b. unfold mbind, enc_bind. destruct (m e) as [e1 r] eqn:Hr.
  destruct r as [a| | |]; try done. intros Hb.
  destruct (Hm _ _ _ Hr) as (? & ? & ?). destruct (Hf a _ _ _ Hb) as (? & ? & ?). split_and!; congruence.
Qed.
Lemma keeps_forEach {A} (l : list A) f : (∀ x, keeps (f x)) → keeps (forEach l f).
Proof. intros Hf. induction l; cbn [forEach]; [apply keeps_ret|]. by apply keeps_bind. Qed.
Lemma keeps_liftTI r : keeps (liftTI r).
Proof. apply keeps_lift. Qed.
Lemma keeps_withStruct s m : keeps m → keeps (withStruct s m).
Proof.
  intros Hm e e' a. unfold withStruct. destruct (m _) as [e1 r] eqn:Hr. intros [= <- ->].
  by destruct (Hm _ _ _ Hr) as (? & ? & ?).
Qed.
Lemma keeps_withField s m : keeps m → keeps (withField s m).
Proof.
  intros Hm e e' a. unfold withField. destruct (m _) as [e1 r] eqn:Hr. intros [= <- ->].
  by destruct (Hm _ _ _ Hr) as (? & ? & ?).
Qed.
Lemma keeps_EncodeStructure tag m : keeps m → keeps (EncodeStructure tag m).
Proof.
  intros Hm e e' a. unfold EncodeStructure. destruct (encBuf_begin _ _ _) as [h i].
  destruct (m _) as [e1 r] eqn:Hr. intros [= <- ->]. destruct (Hm _ _ _ Hr) as (Hd & ? & ?).
  cbn in *. split_and!; try done. lia.
Qed.

#[local] Hint Resolve keeps_lift keeps_ret keeps_error keeps_onBuf keeps_Flush keeps_liftTI : kmip.

Lemma encodeEnumOrMask_keeps dflt tag typ v flags m :
  encodeEnumOrMask dflt tag typ v flags = Some m → keeps m.
Proof. unfold encodeEnumOrMask. repeat case_match; intros; simplify_eq; auto with kmip. Qed.

Lemma encodeScalar_keeps tag typ v flags : keeps (encodeScalar tag typ v flags).
Proof. unfold encodeScalar. repeat case_match; auto with kmip. Qed.

Lemma encode_keeps dflt fuel :
  (∀ tag v fi, keeps (encode dflt fuel tag v fi)) ∧
  (∀ tag typ ti fs, keeps (encodeStruct dflt fuel tag typ ti fs)) ∧
  (∀ m v tag, keeps (MarshalTTLV dflt fuel m v tag)).
Proof.
  induction fuel as [|fuel (IHe & IHs & IHm)]; [split_and!; intros; apply keeps_lift|].
  split_and!.
  - intros tag v fi. cbn [encode]. destruct (indirect v) as [[typ val]|]; [|apply keeps_ret].
    destruct (is_ttlvType typ); [destruct val; auto with kmip|].
    apply keeps_bind; [apply keeps_liftTI|]. intros ti. cbv zeta.
    destruct (marshalMethodOf typ); [destruct (_ && _); auto with kmip|].
    destruct (unsupportedKind _); [auto with kmip|]. destruct (_ && _); [auto with kmip|].
    assert (∀ tag flags, keeps (if tag =? TagNone then marshalingError tag typ ErrNoTag
      else match encodeEnumOrMask dflt tag typ val flags with
           | Some m => m
           | None => match val with VStruct fs => encodeStruct dflt fuel tag typ ti fs
                     | _ => encodeScalar tag typ val flags end end)) as Hrest.
    { intros tg fl. case_match; [auto with kmip|]. case_match eqn:Hm; [by eapply encodeEnumOrMask_keeps|].
      destruct val; auto using encodeScalar_keeps. }
    destruct typ, val as [| | | | | |[]| | | | | | |]; try apply Hrest; by apply keeps_forEach.
  - intros tag typ ti fs. cbn [encodeStruct].
    apply keeps_withStruct, keeps_EncodeStructure, keeps_forEach. intros f. case_match; [|auto with kmip].
    by apply keeps_withField.
  - intros m v tag. cbn [MarshalTTLV]. unfold UniqueIdentifierValue_MarshalTTLV. repeat case_match; auto with kmip;
      try (apply keeps_EncodeStructure, keeps_forEach; intros x);
      (apply keeps_bind; [done|intros _; apply keeps_Flush]).
Qed.

(** An encoder that is outside of Structures, with nothing left to write. *)
Definition idle (e : Encoder) : Prop :=
  encodeDepth e = 0 ∧ buf e = [] ∧ currStruct e = ""%string ∧ currField e = ""%string.

Lemma idle_setBuf e : idle e → setBuf e [] = NewEncoder.
Proof. destruct e. intros (? & ? & ? & ?). cbn in *. by subst. Qed.

Lemma Encode_idle dflt fuel v e e' : Encode dflt fuel v e = (e', Ok tt) → idle e → idle e'.
Proof.
  intros He (H1 & H2 & H3 & H4).
  assert (keeps (Encode dflt fuel v)) as Hk.
  { apply keeps_bind; [apply encode_keeps|intros _; apply keeps_Flush]. }
  destruct (Hk _ _ _ He) as (K1 & K2 & K3). split_and!; try congruence.
  apply (EncodeValue_flushed dflt fuel TagNone v e e' He). lia.
Qed.

Section Spec.
Context {E : Type} `{Merry E} {St : Type} (dflt : Registry).
Implicit Types (m : OperationMux (E := E) (St := St)).

(** * Responses *)

(** What [Marshal] gives for a response message. *)
Definition marshalResponse (msg : ResponseMessage) : res merr (list byte) :=
  let v := VPtr (Some (toGo msg)) in
  Marshal dflt (need v) (Some (TPtr (goType ResponseMessage), v)).

Lemma Response_Bytes_eq (r : Response) :
  idle (resp_enc r) →
  ∃ e', Response_Bytes (E := E) dflt r =
      (mkResponse (resp_Message r) e',
       match marshalResponse (resp_Message r) with
       | Ok bs => Ok bs
       | Err _ | Panic => Panic
       | OutOfFuel => OutOfFuel
       end) ∧
    ∀ bs, marshalResponse (resp_Message r) = Ok bs → idle e' ∧ w e' = bs.
Proof.
  intros Hi. unfold Response_Bytes, marshalResponse, Marshal. rewrite (idle_setBuf _ Hi).
  destruct (Encode dflt _ _ NewEncoder) as [e' r'] eqn:He. exists e'. split; [by destruct r'|].
  intros bs. destruct r' as [[]| | |]; try done. intros [= <-]. split; [|done].
  by apply Encode_idle in He.
Qed.

Lemma newResponse_pooled (p : option Response) :
  from_option (λ r, idle (resp_enc r)) True p → newResponse p = newResponse None.
Proof.
  destruct p as [r|]; [|done]. cbn. unfold Response_reset. intros Hi. by rewrite idle_setBuf.
Qed.

Lemma idle_new : idle NewEncoder.
Proof. done. Qed.

(** * Handlers *)

(** The contract of a message handler: it fills in batch items and leaves the
    encoder of the response alone. *)
Class MessageHandlerOk (mh : MessageHandler (E := E) (St := St)) : Prop :=
  message_handler_enc req resp st st' req' resp' out :
    mh req resp st = (st', req', resp', out) → resp_enc resp' = resp_enc resp.

(** The contract of an item handler: it leaves the message and its array of
    items alone, and answers with an item or with an error that has a result
    reason. *)
Class ItemHandlerOk (h : ItemHandler (E := E) (St := St)) : Prop := {
  item_handler_message req st : req_Message (h req st).1.2 = req_Message req;
  item_handler_array req st : req_array (h req st).1.2 = req_array req;
  item_handler_result req st :
    (∃ item, (h req st).2 = Ok (Some item)) ∨
    (∃ e rr, (h req st).2 = Err e ∧ GetResultReason e = Ok rr ∧ rr ≠ 0);
}.

Definition muxOk (m : OperationMux (E := E) (St := St)) : Prop :=
  mux_ErrorHandler m = None ∧ ∀ op h, handlerForOp m op = Some h → ItemHandlerOk h.

(** The item carries the correlation data of the request. *)
Definition carries (rq : RequestBatchItem) (out : ResponseBatchItem) : Prop :=
  rsi_Operation out = rqi_Operation rq ∧ rsi_UniqueBatchItemID out = rqi_UniqueBatchItemID rq.

(** The item reports the result a handler returned, or a failure. *)
Definition reports (rs out : ResponseBatchItem) : Prop :=
  ResultStatus out = ResultStatus rs ∧ ResultReason out = ResultReason rs ∧ ResultMessage out = ResultMessage rs ∧
  AsynchronousCorrelationValue out = AsynchronousCorrelationValue rs ∧ ResponsePayload out = ResponsePayload rs ∧
  rsi_MessageExtension out = rsi_MessageExtension rs.
Definition fails (reason : Z) (msg : string) (out : ResponseBatchItem) : Prop :=
  ResultStatus out = ResultStatusOperationFailed ∧ ResultReason out = reason ∧ ResultMessage out = msg ∧
  AsynchronousCorrelationValue out = None ∧ ResponsePayload out = None ∧ rsi_MessageExtension out = None.

(** The message of an error: the one meant for users, if there is one. *)
Definition errorText (e : E) : string :=
  if String.eqb (merry_UserMessage e) "" then merry_Message e else merry_UserMessage e.

(** The answer to item [i]: the handler registered for its operation is called
    once, with the request pointed at that item and the state the earlier items
    left, and the answer reports what it returns, a result or an error with a
    reason; without a handler nothing is called and the operation is refused. *)
Variant answer m (i : nat) (rq : RequestBatchItem) (req : Request) (st : St) (out : ResponseBatchItem)
    : Request → St → Prop :=
  | answer_result h rs req' st' :
      handlerForOp m (rqi_Operation rq) = Some h →
      h (setCurrentItem i req) st = (st', req', Ok (Some rs)) →
      carries rq out → reports rs out → answer m i rq req st out req' st'
  | answer_error h e reason req' st' :
      handlerForOp m (rqi_Operation rq) = Some h →
      h (setCurrentItem i req) st = (st', req', Err e) → merry_Value e = Some (RResultReason reason) →
      carries rq out → fails reason (errorText e) out → answer m i rq req st out req' st'
  | answer_unsupported :
      handlerForOp m (rqi_Operation rq) = None →
      carries rq out → fails ResultReasonOperationNotSupported "" out →
      answer m i rq req st out (setCurrentItem i req) st.

(** The answers to the items from number [i] on, in order, with the request and
    the state threaded through. *)
Inductive answers m : nat → list RequestBatchItem → Request → St → list ResponseBatchItem → Request → St → Prop :=
  | answers_nil i req st : answers m i [] req st [] req st
  | answers_cons i rq rqs req st out outs req1 st1 req' st' :
      answer m i rq req st out req1 st1 → answers m (S i) rqs req1 st1 outs req' st' →
      answers m i (rq :: rqs) req st (out :: outs) req' st'.

Lemma GetResultReason_value (e : E) rr :
  GetResultReason e = Ok rr → rr ≠ 0 → merry_Value e = Some (RResultReason rr).
Proof. unfold GetResultReason. repeat case_match; intros; by simplify_eq. Qed.

Lemma DefaultErrorHandler_reason e rr :
  GetResultReason e = Ok rr → rr ≠ 0 →
  DefaultErrorHandler e = Ok (Some (newFailedResponseBatchItem rr (errorText e))).
Proof. intros Hr Hn. unfold DefaultErrorHandler. rewrite Hr. cbn. by rewrite (proj2 (Z.eqb_neq _ _) Hn). Qed.

Lemma bi_ok m req i item st :
  muxOk m →
  ∃ st' req' rs, bi m req i item st = (st', req', Ok (Some rs)) ∧ req_Message req' = req_Message req ∧
    req_array req' = req_array req ∧ answer m i item req st (correlate item rs) req' st'.
Proof.
  intros [Heh Hh]. unfold bi, callHandler. destruct (handlerForOp m (rqi_Operation item)) as [h|] eqn:Hop.
  2: { eexists _, _, _. split_and!; [done..|]. by apply answer_unsupported. }
  destruct (Hh _ _ Hop) as [Hm Ha Hr]. specialize (Hm (setCurrentItem i req) st).
  specialize (Ha (setCurrentItem i req) st). specialize (Hr (setCurrentItem i req) st).
  destruct (h (setCurrentItem i req) st) as [[st' req'] out] eqn:Hcall. cbn in Hm, Ha, Hr.
  destruct Hr as [[rs ->]|(e & rr & -> & Hrr & Hn)].
  - eexists _, _, rs. split_and!; [done..|]. by eapply answer_result.
  - rewrite Heh. cbn [default]. rewrite (DefaultErrorHandler_reason e rr Hrr Hn).
    eexists _, _, _. split_and!; [done..|]. eapply answer_error; [done|done|by apply GetResultReason_value|done|done].
Qed.

Lemma itemOf_items req items i : batchItems req = Some items → itemOf req i = items !! i.
Proof. intros Hb. unfold itemOf. by rewrite Hb. Qed.

Lemma derefItem_ptrOf req req' items i :
  batchItems req = Some items → req_array req = req_array req' → derefItem req (ptrOf req' i) = items !! i.
Proof. intros Hb Ha. unfold derefItem. cbn. rewrite Ha, Nat.eqb_refl. by apply itemOf_items. Qed.

Lemma appendItem_enc req p out resp resp' (o : res E unit) :
  appendItem req p out resp = (resp', o) → resp_enc resp' = resp_enc resp.
Proof. unfold appendItem. intros Ha. repeat case_match; simplify_eq; done. Qed.

Lemma handleItems_ok m items n i req resp st :
  muxOk m → batchItems req = Some items → (i + n = length items)%nat →
  ∃ st' req' resp' new,
    handleItems m n i req resp st = (st', req', resp', Ok tt) ∧
    respItems resp' = respItems resp ++ new ∧ answers m i (drop i items) req st new req' st' ∧
    header0 resp' = header0 resp ∧ resp_enc resp' = resp_enc resp ∧ req_Message req' = req_Message req.
Proof.
  intros Hm. revert i req resp st. induction n as [|n IH]; intros i req resp st Hb Hn; cbn [handleItems].
  { eexists _, _, _, []. rewrite drop_ge by lia. rewrite app_nil_r. split_and!; try done. constructor. }
  destruct (lookup_lt_is_Some_2 items i) as [item Hi]; [lia|]. rewrite (itemOf_items req items i Hb), Hi.
  destruct (bi_ok m req i item st Hm) as (st1 & req1 & rs & -> & Hmsg & Harr & Hans).
  assert (batchItems req1 = Some items) as Hb1 by (unfold batchItems in *; by rewrite Hmsg).
  unfold appendItem. rewrite (derefItem_ptrOf req1 req items i Hb1 Harr), Hi.
  destruct (IH (S i) req1 (setBatchItem (Some (respItems resp ++ [correlate item rs])) resp) st1 Hb1)
    as (st2 & req2 & resp2 & new & -> & Hitems & Hall & Hh & He & Hq); [lia|].
  eexists _, _, _, (correlate item rs :: new). split_and!; try done.
  - etrans; [exact Hitems|]. by rewrite (cons_middle _ _ new), app_assoc.
  - rewrite (drop_S _ _ _ Hi). by econstructor.
  - by rewrite Hq.
Qed.

Lemma handleItems_enc m n i req resp st st' req' resp' out :
  handleItems m n i req resp st = (st', req', resp', out) → resp_enc resp' = resp_enc resp.
Proof.
  revert i req resp st. induction n as [|n IH]; intros i req resp st; cbn [handleItems].
  { by intros [= _ _ <- _]. }
  case_match; [|by intros [= _ _ <- _]]. destruct (bi _ _ _ _ _) as [[st1 req1] o].
  destruct (appendItem req1 _ o resp) as [resp1 out1] eqn:Ha. apply appendItem_enc in Ha.
  destruct out1 as [[]| | |]; try (by intros [= _ _ <- _]). intros Hx. apply IH in Hx. congruence.
Qed.

#[export] Instance HandleMessage_ok m : MessageHandlerOk (HandleMessage m).
Proof.
  intros req resp st st' req' resp' out. unfold HandleMessage.
  case_match; [apply handleItems_enc|by intros [= _ _ <- _]].
Qed.

(** * Requests *)

Implicit Types (h : StandardProtocolHandler (E := E) (St := St)).

(** The header of every response. *)
Definition responseHeader h (now : gotime) (ccv scv : string) (count : Z) : ResponseHeader :=
  mkResponseHeader (h_ProtocolVersion h) now None None ccv scv count.

(** The request is refused before it reaches the message handler. *)
Variant rejected h (req : Request) : string → string → Prop :=
  | rejected_parse req' e :
      parseMessage dflt req = (req', Err e) → rejected h req "" (err_Error e)
  | rejected_version req' msg :
      parseMessage (E := E) dflt req = (req', Ok tt) → req_Message req' = Some msg →
      ProtocolVersionMajor (rqh_ProtocolVersion (rq_RequestHeader msg)) ≠
        ProtocolVersionMajor (h_ProtocolVersion h) →
      rejected h req (rqh_ClientCorrelationValue (rq_RequestHeader msg))
        ("mismatched protocol versions, client: "
           +:+ pretty (ProtocolVersionMajor (rqh_ProtocolVersion (rq_RequestHeader msg)))
           +:+ ", server: " +:+ pretty (ProtocolVersionMajor (h_ProtocolVersion h))).

(** The request reaches the message handler. *)
Definition accepted h (req req' : Request) (msg : RequestMessage) : Prop :=
  parseMessage (E := E) dflt req = (req', Ok tt) ∧ req_Message req' = Some msg ∧
  ProtocolVersionMajor (rqh_ProtocolVersion (rq_RequestHeader msg)) =
    ProtocolVersionMajor (h_ProtocolVersion h).

Lemma handleRequest_rejected h now scv req st ccv msg :
  rejected h req ccv msg →
  ∃ req', handleRequest dflt h now scv req (newResponse None) st =
    (st, req',
     mkResponse (mkResponseMessage (responseHeader h now ccv scv 0)
       (Some [newFailedResponseBatchItem ResultReasonInvalidMessage msg])) NewEncoder, Ok tt).
Proof.
  intros [req' e Hp|req' rm Hp Hm Hv]; unfold handleRequest, beginRequest; rewrite Hp.
  - eauto.
  - rewrite Hm. rewrite (proj2 (Z.eqb_neq _ _) Hv). eauto.
Qed.

(** The request as the message handler gets it. *)
Definition strictRequest h (req : Request) (msg : RequestMessage) : Request :=
  let strict := ProtocolVersionMinor (rqh_ProtocolVersion (rq_RequestHeader msg)) =?
                ProtocolVersionMinor (h_ProtocolVersion h) in
  setDecoder strict (mkDecoder strict None "") req.

Lemma handleRequest_accepted h now scv req req' msg st :
  accepted h req req' msg →
  handleRequest dflt h now scv req (newResponse None) st =
    let resp0 := mkResponse (mkResponseMessage
      (responseHeader h now (rqh_ClientCorrelationValue (rq_RequestHeader msg)) scv 0) None) NewEncoder in
    let '(st, req, resp, out) := h_MessageHandler h (strictRequest h req' msg) resp0 st in
    match out with
    | Ok _ => let '(resp, out) := finishRequest dflt req resp in (st, req, resp, out)
    | _ => (st, req, resp, out)
    end.
Proof.
  intros (Hp & Hm & Hv). unfold handleRequest, beginRequest. rewrite Hp, Hm, (proj2 (Z.eqb_eq _ _) Hv). done.
Qed.

(** The response message that the message handler leaves for an accepted
    request, with its header filled in. *)
Definition builtResponse h now scv (req' : Request) (msg : RequestMessage) (st : St) : St * ResponseMessage :=
  let resp0 := mkResponse (mkResponseMessage
    (responseHeader h now (rqh_ClientCorrelationValue (rq_RequestHeader msg)) scv 0) None) NewEncoder in
  let '(st, _, resp, _) := h_MessageHandler h (strictRequest h req' msg) resp0 st in
  (st, mkResponseMessage (batchCount (len (respItems resp)) (header0 resp)) (rs_BatchItem (resp_Message resp))).

(** The response exceeds the size the client asked for. *)
Definition tooLarge (msg : RequestMessage) (bs : list byte) : bool :=
  (0 <? MaximumResponseSize (rq_RequestHeader msg)) && (MaximumResponseSize (rq_RequestHeader msg) <? len bs).

(** The response that takes its place: the header, with the count of the items
    it no longer has, and one failure. *)
Definition tooLargeResponse (out : ResponseMessage) : ResponseMessage :=
  mkResponseMessage (rs_ResponseHeader out)
    (Some [mkResponseBatchItem 0 None ResultStatusOperationFailed ResultReasonResponseTooLarge "" None None None]).

(** The bytes [ServeKMIP] owes the client for the response message [out]: its
    encoding; only when traffic is logged and the encoding exceeds the client's
    limit, that of the response that takes its place. *)
Definition toWrite h (msg : RequestMessage) (out : ResponseMessage) : res merr (list byte) :=
  bs ← marshalResponse out;
  if h_LogTraffic h && tooLarge msg bs then marshalResponse (tooLargeResponse out) else Ok bs.

(** They are written, or the encoder's error makes the server panic. *)
Definition sent (r : Response) (bs : res merr (list byte)) : res E (list byte * Response) :=
  match bs with
  | Ok bs => Ok (bs, r)
  | Err _ | Panic => Panic
  | OutOfFuel => OutOfFuel
  end.

(** With the operation multiplexer the response answers the request, and
    [handleRequest] encodes it. *)
Lemma handleRequest_mux h m now scv req req' msg st st' out :
  h_MessageHandler h = HandleMessage m → muxOk m → accepted h req req' msg →
  builtResponse h now scv req' msg st = (st', out) →
  rs_ResponseHeader out =
    responseHeader h now (rqh_ClientCorrelationValue (rq_RequestHeader msg)) scv
      (len (default [] (rs_BatchItem out))) ∧
  ∃ req'' e', answers m O (default [] (rq_BatchItem msg)) (strictRequest h req' msg) st
      (default [] (rs_BatchItem out)) req'' st' ∧
    handleRequest dflt h now scv req (newResponse None) st =
    match marshalResponse out with
    | Ok bs =>
        (st', req'', (if tooLarge msg bs then λ r, errorResponse r ResultReasonResponseTooLarge "" else id)
                       (mkResponse out e'), Ok tt)
    | Err _ | Panic => (st', req'', mkResponse out e', Panic)
    | OutOfFuel => (st', req'', mkResponse out e', OutOfFuel)
    end ∧
    ∀ bs, marshalResponse out = Ok bs → idle e' ∧ w e' = bs.
Proof.
  intros Hmh Hmux Hacc Hbuilt. pose proof Hacc as (_ & Hm & _).
  pose proof (handleRequest_accepted h now scv req req' msg st Hacc) as Hreq. cbv zeta in Hreq.
  unfold builtResponse in Hbuilt. rewrite Hmh in Hreq, Hbuilt. unfold HandleMessage in Hreq, Hbuilt.
  assert (batchItems (strictRequest h req' msg) = Some (default [] (rq_BatchItem msg))) as Hb.
  { unfold batchItems. cbn. by rewrite Hm. }
  rewrite Hb in Hreq, Hbuilt.
  match type of Hreq with context [handleItems m _ _ _ ?r _] =>
    destruct (handleItems_ok m (default [] (rq_BatchItem msg)) (length (default [] (rq_BatchItem msg))) O
      (strictRequest h req' msg) r st Hmux Hb) as (st1 & req1 & resp1 & new & Hhi & Hri & Hall & Hhd & Hen & Hq);
      [done|] end.
  rewrite Hhi in Hreq, Hbuilt. cbn [respItems resp_Message rs_BatchItem default app] in Hri.
  injection Hbuilt as <- <-. rewrite drop_0 in Hall. cbn in Hhd, Hen.
  assert (respItems resp1 = new) as Hnew by exact Hri. subst new.
  set (out := mkResponseMessage _ _). change (default [] (rs_BatchItem out)) with (respItems resp1).
  split; [unfold out; cbn; by rewrite Hhd|].
  destruct (Response_Bytes_eq (setHeader (batchCount (len (respItems resp1)) (header0 resp1)) resp1))
    as (e' & Heq & Hidle).
  { cbn. by rewrite Hen. }
  change (resp_Message (setHeader (batchCount (len (respItems resp1)) (header0 resp1)) resp1)) with out in *.
  exists req1, e'. split_and!; [done| |done]. change (req_Message req1 = req_Message req') in Hq.
  unfold finishRequest in Hreq. rewrite Heq, Hq, Hm in Hreq. rewrite Hreq. unfold tooLarge. by destruct (marshalResponse out); [destruct (_ && _)|..].
Qed.

(** * Recycled responses *)

Lemma Response_Bytes_idle (r r' : Response) bs :
  Response_Bytes (E := E) dflt r = (r', Ok bs) → idle (resp_enc r) → idle (resp_enc r').
Proof.
  intros Hb Hi. destruct (Response_Bytes_eq r Hi) as (e' & Heq & Hid). rewrite Heq in Hb.
  destruct (marshalResponse (resp_Message r)) as [bs'| | |] eqn:Hm; try done.
  injection Hb as <- _. cbn. by apply (Hid bs').
Qed.

(** [beginRequest] encodes nothing. *)
Lemma beginRequest_enc version now scv req resp req' resp' out :
  beginRequest (E := E) dflt version now scv req resp = (req', resp', out) → resp_enc resp' = resp_enc resp.
Proof. unfold beginRequest. intros Hb. repeat case_match; simplify_eq; done. Qed.

Lemma finishRequest_idle req (resp resp' : Response) :
  finishRequest (E := E) dflt req resp = (resp', Ok tt) → idle (resp_enc resp) → idle (resp_enc resp').
Proof.
  intros Hf Hi. unfold finishRequest in Hf. destruct (Response_Bytes dflt _) as [r [bs| | |]] eqn:Hb; try done.
  apply Response_Bytes_idle in Hb; [|done]. repeat case_match; simplify_eq; done.
Qed.

Lemma writeResponse_idle log (resp resp' : Response) bs :
  writeResponse (E := E) dflt log resp = (resp', Ok bs) → idle (resp_enc resp) → idle (resp_enc resp').
Proof.
  destruct log; cbn [writeResponse]; [apply Response_Bytes_idle|]. intros [= <- _] (? & ? & ? & ?). done.
Qed.

Lemma handleRequest_idle h now scv req resp st st' req' resp' :
  MessageHandlerOk (h_MessageHandler h) → idle (resp_enc resp) →
  handleRequest dflt h now scv req resp st = (st', req', resp', Ok tt) → idle (resp_enc resp').
Proof.
  intros Hok Hi. unfold handleRequest. destruct (beginRequest dflt _ now scv req resp) as [[req1 resp1] out] eqn:Hb.
  apply beginRequest_enc in Hb. rewrite <- Hb in Hi. destruct out as [[]| | |]; try done; [|by intros [= _ _ <-]].
  destruct (h_MessageHandler h _ _ st) as [[[st1 req2] resp2] out] eqn:Hmh. apply message_handler_enc in Hmh.
  destruct out as [[]| | |]; try done. destruct (finishRequest dflt req2 resp2) as [resp3 out] eqn:Hf.
  intros [= _ _ <- ->]. eapply finishRequest_idle; [done|by rewrite Hmh].
Qed.

Lemma ServeKMIP_idle h now scv pooled req st st' bs r :
  MessageHandlerOk (h_MessageHandler h) → from_option (λ r, idle (resp_enc r)) True pooled →
  ServeKMIP dflt h now scv pooled req st = (st', Ok (bs, r)) → idle (resp_enc r).
Proof.
  intros Hok Hp. unfold ServeKMIP. rewrite (newResponse_pooled pooled Hp).
  destruct (handleRequest _ _ _ _ _ _ _) as [[[st1 req1] resp1] out] eqn:Hr.
  destruct out as [[]| | |]; try done. apply handleRequest_idle in Hr; [|done|apply idle_new].
  destruct (writeResponse dflt _ resp1) as [resp2 [bs'| | |]] eqn:Hb; try done.
  intros [= _ _ <-]. by apply writeResponse_idle in Hb.
Qed.

(** * Connections *)

(** The specification of a connection: each message is handled on its own,
    with a fresh response. *)
Fixpoint serveAll h (env : Environment) (remote loc : string) (k : nat) (ts : list TTLV) (st : St)
    : St * list (list byte) * connEnd :=
  match ts with
  | [] => (st, [], ClientClosed)
  | t :: ts =>
      let '(st, out) := ServeKMIP dflt h (env_now env k) (env_uuid env k) None (newRequest t remote loc) st in
      match out with
      | Ok (bs, _) =>
          let '(st, outs, fin) := serveAll h env remote loc (S k) ts st in (st, bs :: outs, fin)
      | OutOfFuel => (st, [], ServeOutOfFuel)
      | _ => (st, [], Recovered)
      end
  end.

Lemma serve_blocks h env remote loc its blks fuel k r pool st :
  MessageHandlerOk (h_MessageHandler h) → Forall2 Denotes its blks → (length blks < fuel)%nat →
  from_option (λ r, idle (resp_enc r)) True pool → pending r = concat blks →
  serve dflt h env remote loc fuel k r pool st = serveAll h env remote loc k blks st.
Proof.
  intros Hok Hall. revert fuel k r pool st.
  induction Hall as [|it blk its blks Hd Hall IH]; intros fuel k [bs cs] pool st Hf Hpool Hp;
    (destruct fuel as [|fuel]; [cbn in Hf; lia|]); cbn [serve serveAll]; cbn in Hp; subst bs.
  - destruct (NextTTLV_outcome [] cs) as [_ Hn|e Hl _ _|fl r' Hh _ _ _|fl r' Hh _ _ _ _];
      [by rewrite Hn|rewrite len_nil in Hl; lia|discriminate Hh..].
  - destruct (NextTTLV_of_block it blk (concat blks) cs Hd) as (r' & -> & Hp').
    set (pooled := if env_pool env k then pool else None).
    assert (from_option (λ r, idle (resp_enc r)) True pooled) as Hpd by (unfold pooled; by case_match).
    assert (ServeKMIP dflt h (env_now env k) (env_uuid env k) pooled (newRequest blk remote loc) st =
            ServeKMIP dflt h (env_now env k) (env_uuid env k) None (newRequest blk remote loc) st) as Heq.
    { unfold ServeKMIP. by rewrite (newResponse_pooled pooled Hpd). }
    rewrite Heq. destruct (ServeKMIP dflt h _ _ None _ st) as [st1 [[bs resp]| | |]] eqn:Hs; try done.
    rewrite (IH fuel (S k) r' (Some resp) st1); [done|cbn in Hf; lia| |done].
    cbn. by eapply ServeKMIP_idle in Hs.
Qed.
End Spec.

(** * Concrete requests *)

(** A small model of the error library, and its laws. *)
Record simpleError := mkError {
  se_message : string;
  se_user : string;
  se_value : option reasonValue;
}.

#[export] Instance simpleMerry : Merry simpleError := {
  merry_Errorf s := mkError s "" None;
  merry_UserError s := mkError s s None;
  merry_Prepend e s := mkError (s +:+ ": " +:+ se_message e) (se_user e) (se_value e);
  merry_WithValue e rr := mkError (se_message e) (se_user e) (Some (RResultReason rr));
  merry_Value := se_value;
  merry_UserMessage := se_user;
  merry_Message := se_message;
  err_Error := se_message;
  err_ofTTLV _ := mkError "ttlv" "" None;
  err_ofDecode _ := mkError "decode" "" None;
  err_ofEncode _ := mkError "encode" "" None;
}.

#[export] Instance simpleMerry_laws : MerryLaws simpleError.
Proof. by split. Qed.

(** The tags the messages below use. *)
Definition messageTags : list (Z * string) :=
  [(0x420078, "Request Message"); (0x420077, "Request Header"); (0x420069, "Protocol Version");
   (0x42006a, "Protocol Version Major"); (0x42006b, "Protocol Version Minor"); (0x42000d, "Batch Count");
   (0x42000f, "Batch Item"); (0x42005c, "Operation"); (0x420093, "Unique Batch Item ID");
   (0x420079, "Request Payload"); (0x420050, "Maximum Response Size"); (0x42007b, "Response Message");
   (0x42007a, "Response Header"); (0x420092, "Time Stamp"); (0x42007f, "Result Status");
   (0x42007e, "Result Reason"); (0x42007d, "Result Message"); (0x420105, "Client Correlation Value");
   (0x420106, "Server Correlation Value")]%string.

Definition messageRegistry : Registry :=
  foldl (λ r '(t, n), Registry_RegisterTag r t n) emptyRegistry messageTags.

(** A request of version 1.[minor] with the given fields in its header and one
    item. *)
Definition sampleRequest (major minor : Z) (fields : list item) : item :=
  IStructure 0x420078
    [IStructure 0x420077
       (IStructure 0x420069 [IPrim 0x42006a (PInteger major); IPrim 0x42006b (PInteger minor)] ::
        fields ++ [IPrim 0x42000d (PInteger 1)]);
     IStructure 0x42000f
       [IPrim 0x42005c (PEnumeration 0x1e); IPrim 0x420093 (PByteString [x01; x02]);
        IStructure 0x420079 []]].

Definition plainRequest : list byte := itemBlock (sampleRequest 1 4 []).
Definition cappedRequest : list byte := itemBlock (sampleRequest 1 4 [IPrim 0x420050 (PInteger 8)]).
Definition badRequest : item := sampleRequest 1 4 [IPrim 0x420105 (PByteString [x41])].

(** Handlers that count their calls. *)
Definition countHandler : ItemHandler (E := simpleError) (St := nat) := λ req st,
  (S st, req, Ok (Some (mkResponseBatchItem 0 None 0 0 "" None None None))).
#[export] Instance countHandler_ok : ItemHandlerOk countHandler.
Proof. split; [done..|]. intros req st. left. by eexists. Qed.

Definition countMux : OperationMux := OperationMux_Handle (mkMux None None) 0x1e countHandler.
Definition emptyMux : OperationMux (E := simpleError) (St := nat) := mkMux None None.

Lemma countMux_ok : muxOk countMux.
Proof.
  split; [done|]. intros op h. unfold countMux, handlerForOp. cbn.
  rewrite lookup_insert_Some, lookup_empty. intros [[_ <-]|[_ ?]]; [apply _|done].
Qed.
Lemma emptyMux_ok : muxOk emptyMux.
Proof. split; [done|]. intros op h. unfold handlerForOp. cbn. by rewrite lookup_empty. Qed.

Definition sampleHandler (log : bool) (mux : OperationMux (E := simpleError) (St := nat))
    : StandardProtocolHandler :=
  mkHandler (mkVersion 1 4) (HandleMessage mux) log.

Definition sampleNow : gotime := GoTime 1600000000 0.

(** The message of a request, as [parseMessage] leaves it. *)
Definition parsedRequest (t : TTLV) : Request :=
  (parseMessage (E := simpleError) messageRegistry (newRequest t "" "")).1.
Definition parsedMessage (t : TTLV) : RequestMessage :=
  default (mkRequestMessage (mkRequestHeader (mkVersion 0 0) 0 "" "" false false None None 0 false None 0) None)
    (req_Message (parsedRequest t)).
Definition sampleResponse (log : bool) (t : TTLV) : ResponseMessage :=
  (builtResponse (sampleHandler log countMux) sampleNow "scv" (parsedRequest t) (parsedMessage t) 0%nat).2.

(** An error of the encoder names the field it is about. *)
Example version_overflow_text :
  match Marshal messageRegistry 8 (Some (protocolVersionType, toGo (mkVersion (2 ^ 31) 0))) with
  | Err e => MarshalerError_Error (λ _, "kmip"%string) (λ _, ""%string) e
  | _ => None
  end = Some "kmip: error marshaling value of type int in struct field ProtocolVersion.ProtocolVersionMajor"%string.
Proof. vm_compute. reflexivity. Qed.

Example ServeKMIP_run :
  (ServeKMIP messageRegistry (sampleHandler false countMux) sampleNow "scv" None
     (newRequest plainRequest "" "") 0%nat).1 = 1%nat ∧
  fst <$> (ServeKMIP messageRegistry (sampleHandler false countMux) sampleNow "scv" None
     (newRequest plainRequest "" "") 0%nat).2 =
  Ok (itemBlock (IStructure 0x42007b
    [IStructure 0x42007a
       [IStructure 0x420069 [IPrim 0x42006a (PInteger 1); IPrim 0x42006b (PInteger 4)];
        IPrim 0x420092 (PDateTime 1600000000);
        IPrim 0x420106 (PTextString (String.list_byte_of_string "scv"));
        IPrim 0x42000d (PInteger 1)];
     IStructure 0x42000f
       [IPrim 0x42005c (PEnumeration 0x1e); IPrim 0x420093 (PByteString [x01; x02]);
        IPrim 0x42007f (PEnumeration 0)]])).
Proof. split; vm_compute; reflexivity. Qed.

(** A handler that replaces the message: the answer is correlated with the item
    the request came with, the next item is read from the new message. *)
Definition swapHandler : ItemHandler (E := simpleError) (St := nat) := λ req st,
  (S st,
   setMessage (mkRequestMessage
     (mkRequestHeader (mkVersion 1 4) 0 "" "" false false None None 0 false None 2)
     (Some [mkRequestBatchItem 2 (Some [x09]) None None; mkRequestBatchItem 3 (Some [x08]) None None])) req,
   Ok (Some (mkResponseBatchItem 0 None 0 0 "" None None None))).

Example swapped_message :
  (λ rs, (rsi_Operation rs, rsi_UniqueBatchItemID rs)) <$>
    respItems (HandleMessage (OperationMux_Handle (mkMux None None) 0x1e swapHandler)
      (setMessage (mkRequestMessage
         (mkRequestHeader (mkVersion 1 4) 0 "" "" false false None None 0 false None 2)
         (Some [mkRequestBatchItem 0x1e (Some [x01]) None None; mkRequestBatchItem 0x1e (Some [x02]) None None]))
         (newRequest [] "" "")) (newResponse None) 0%nat).1.2 =
  [(0x1e, Some [x01]); (3, Some [x08])].
Proof. vm_compute. reflexivity. Qed.

(** What [DisallowExtraValues] should do: the same message decoded strictly
    and after [Reset]. *)
Definition anyThenIntExtra : list byte :=
  itemBlock (IStructure 0x420078 [IPrim 0x42000d (PInteger 9); IPrim 0x42000a (PInteger 5)]).

(** * Properties *)

(** C6. Batch items are answered one by one, by the handlers registered for
    them.  Let no [ErrorHandler] be set, and let every registered handler leave
    the request's message alone and return an item or an error with a result
    reason.  Then [HandleMessage] returns, and it appends one response item for
    each request item, in the same order, with the operation and the unique
    batch item id of that item.  For an operation with a handler, exactly that
    handler is called, once, with [CurrentItem] pointing at the item and with
    the state and the request the earlier items left, and the item has the
    status, reason, message and payload it returns, or is the failure with the
    reason and the message of its error; for an operation without a handler
    nothing is called and the item is the failure "operation not supported".
    The final state is the one the calls lead to. *)
Theorem HandleMessage_correlates {E} `{Merry E} {St} (m : OperationMux (E := E) (St := St)) req resp st items :
  muxOk m → batchItems req = Some items →
  ∃ st' req' resp' new, HandleMessage m req resp st = (st', req', resp', Ok tt) ∧
    respItems resp' = respItems resp ++ new ∧ answers m O items req st new req' st'.
Proof.
  intros Hm Hb. unfold HandleMessage. rewrite Hb.
  destruct (handleItems_ok m items (length items) O req resp st Hm Hb)
    as (st' & req' & resp' & new & H1 & H2 & H3 & _); [done|]. eauto 8.
Qed.

Lemma HandleMessage_correlates_witness :
  ∃ st' req' resp' new,
    HandleMessage countMux
      (setMessage (mkRequestMessage
         (mkRequestHeader (mkVersion 1 4) 0 "" "" false false None None 0 false None 2)
         (Some [mkRequestBatchItem 0x1e None None None; mkRequestBatchItem 1 (Some [x07]) None None]))
         (newRequest [] "" "")) (newResponse None) 5%nat = (st', req', resp', Ok tt) ∧
    respItems resp' = [] ++ new ∧
    answers countMux O
      [mkRequestBatchItem 0x1e None None None; mkRequestBatchItem 1 (Some [x07]) None None]
      (setMessage (mkRequestMessage
         (mkRequestHeader (mkVersion 1 4) 0 "" "" false false None None 0 false None 2)
         (Some [mkRequestBatchItem 0x1e None None None; mkRequestBatchItem 1 (Some [x07]) None None]))
         (newRequest [] "" "")) 5%nat new req' st'.
Proof. apply HandleMessage_correlates; [apply countMux_ok|reflexivity]. Defined.

(** C16. An accepted request is answered.  Let the message handler be an
    operation multiplexer without an [ErrorHandler] whose handlers keep the
    contract of C6.  Then the response message built for the request has the
    server's protocol version, the time, both correlation values and the number
    of its items in its header, its items answer those of the request as C6
    says, and [ServeKMIP] writes exactly its encoding, whichever response the
    pool gave, of those that [ServeKMIP] has put there ([idle]), or panics when
    it has none.  There is one exception: when traffic is logged and the encoding
    exceeds the client's [MaximumResponseSize], what is written is the encoding
    of the same header with the one failure "response too large" in place of the
    items. *)
Theorem ServeKMIP_answers {E} `{Merry E} {St} dflt (m : OperationMux (E := E) (St := St)) h now scv pooled
    req req' msg st st' out :
  h_MessageHandler h = HandleMessage m → muxOk m → accepted dflt h req req' msg →
  from_option (λ r, idle (resp_enc r)) True pooled → builtResponse h now scv req' msg st = (st', out) →
  rs_ResponseHeader out =
    responseHeader h now (rqh_ClientCorrelationValue (rq_RequestHeader msg)) scv
      (len (default [] (rs_BatchItem out))) ∧
  (∃ req'', answers m O (default [] (rq_BatchItem msg)) (strictRequest h req' msg) st
      (default [] (rs_BatchItem out)) req'' st') ∧
  ∃ r, ServeKMIP dflt h now scv pooled req st = (st', sent r (toWrite dflt h msg out)).
Proof.
  intros Hmh Hm Hacc Hp Hbuilt.
  destruct (handleRequest_mux dflt h m now scv req req' msg st st' out Hmh Hm Hacc Hbuilt)
    as (Hh & req'' & e' & Hall & Hr & Hout). split_and!; [done|by exists req''|].
  unfold ServeKMIP, toWrite. rewrite (newResponse_pooled pooled Hp), Hr.
  destruct (marshalResponse dflt out) as [bs| | |] eqn:Hbs; [|by exists (newResponse None)..].
  destruct (Hout bs eq_refl) as [Hi Hw]. cbn [mbind res_bind].
  destruct (h_LogTraffic h); cbn [writeResponse andb]; [|exists (mkResponse (resp_Message (if tooLarge msg bs
      then errorResponse (mkResponse out e') ResultReasonResponseTooLarge "" else mkResponse out e')) (setBuf e' []));
      destruct (tooLarge msg bs); cbn; by rewrite Hw].
  destruct (tooLarge msg bs); cbn [id].
  - destruct (Response_Bytes_eq (E := E) dflt
      (errorResponse (mkResponse out e') ResultReasonResponseTooLarge "") Hi) as (e'' & -> & _).
    change (resp_Message (errorResponse (mkResponse out e') ResultReasonResponseTooLarge "")) with
      (tooLargeResponse out).
    by eexists; destruct (marshalResponse dflt (tooLargeResponse out)).
  - destruct (Response_Bytes_eq (E := E) dflt (mkResponse out e') Hi) as (e'' & -> & _). cbn [resp_Message].
    rewrite Hbs. cbn. eauto.
Qed.

Lemma ServeKMIP_answers_witness :
  (∃ bs r, marshalResponse messageRegistry (sampleResponse false plainRequest) = Ok bs ∧
    ServeKMIP messageRegistry (sampleHandler false countMux) sampleNow "scv" None
      (newRequest plainRequest "" "") 0%nat = (1%nat, Ok (bs, r))) ∧
  (∃ bs r, marshalResponse messageRegistry (tooLargeResponse (sampleResponse true cappedRequest)) = Ok bs ∧
    ServeKMIP messageRegistry (sampleHandler true countMux) sampleNow "scv" None
      (newRequest cappedRequest "" "") 0%nat = (1%nat, Ok (bs, r))).
Proof.
  assert (∀ log t, (log, t) = (false, plainRequest) ∨ (log, t) = (true, cappedRequest) →
    ∃ r, ServeKMIP messageRegistry (sampleHandler log countMux) sampleNow "scv" None (newRequest t "" "") 0%nat =
      (1%nat, sent r (toWrite messageRegistry (sampleHandler log countMux) (parsedMessage t) (sampleResponse log t)))) as H.
  { intros log t Hin.
    refine (proj2 (proj2 (ServeKMIP_answers messageRegistry countMux (sampleHandler log countMux) sampleNow "scv" None
      (newRequest t "" "") (parsedRequest t) (parsedMessage t) 0%nat 1%nat (sampleResponse log t) eq_refl countMux_ok
      _ I _))); destruct Hin as [[= -> ->]|[= -> ->]]; [split_and!|split_and!| |]; vm_compute; reflexivity. }
  split.
  - destruct (H false plainRequest) as [r Hr]; [by left|].
    eexists _, r. split; [vm_compute; reflexivity|]. etrans; [exact Hr|]. vm_compute. reflexivity.
  - destruct (H true cappedRequest) as [r Hr]; [by right|].
    eexists _, r. split; [vm_compute; reflexivity|]. etrans; [exact Hr|]. vm_compute. reflexivity.
Defined.

(** C35. The code that refuses a request prepares an error item but does not
    encode it: unless traffic is logged, nothing at all is written in answer to
    a request that does not parse or has another major version; when it is
    logged, the error is written, in a response whose header counts no items. *)
Theorem ServeKMIP_rejected {E} `{Merry E} {St} dflt (h : StandardProtocolHandler (E := E) (St := St)) now scv
    pooled req st ccv msg :
  rejected dflt h req ccv msg → from_option (λ r, idle (resp_enc r)) True pooled →
  let out := mkResponseMessage (responseHeader h now ccv scv 0)
               (Some [newFailedResponseBatchItem ResultReasonInvalidMessage msg]) in
  if h_LogTraffic h then
    ∀ bs, marshalResponse dflt out = Ok bs →
      ∃ r, ServeKMIP dflt h now scv pooled req st = (st, Ok (bs, r))
  else ∃ r, ServeKMIP dflt h now scv pooled req st = (st, Ok ([], r)).
Proof.
  intros Hr Hp out. destruct (handleRequest_rejected dflt h now scv req st ccv msg Hr) as [req' Hreq].
  unfold ServeKMIP. rewrite (newResponse_pooled pooled Hp), Hreq.
  destruct (h_LogTraffic h); cbn [writeResponse]; [|cbn; eauto]. intros bs Hbs. fold out.
  destruct (Response_Bytes_eq (E := E) dflt (mkResponse out NewEncoder) idle_new) as (e'' & -> & _).
  cbn [resp_Message]. rewrite Hbs. cbn. eauto.
Qed.

Lemma ServeKMIP_rejected_witness :
  ∃ r, ServeKMIP messageRegistry (sampleHandler false countMux) sampleNow "scv" None
         (newRequest (itemBlock (sampleRequest 2 0 [])) "" "") 0%nat = (0%nat, Ok ([], r)).
Proof.
  eapply (ServeKMIP_rejected messageRegistry (sampleHandler false countMux) sampleNow "scv" None);
    [|exact I].
  eapply rejected_version; [vm_compute; reflexivity|reflexivity|]. by cbn.
Defined.

(** Nor is the "response too large" error: a client that limits the size of
    the response is sent the response that exceeds its limit. *)
Theorem ServeKMIP_tooLarge {E} `{Merry E} {St} dflt (m : OperationMux (E := E) (St := St)) h now scv pooled
    req req' msg st st' out bs :
  h_MessageHandler h = HandleMessage m → muxOk m → accepted dflt h req req' msg →
  from_option (λ r, idle (resp_enc r)) True pooled → builtResponse h now scv req' msg st = (st', out) →
  marshalResponse dflt out = Ok bs → tooLarge msg bs = true → h_LogTraffic h = false →
  ∃ r, ServeKMIP dflt h now scv pooled req st = (st', Ok (bs, r)).
Proof.
  intros Hmh Hm Hacc Hp Hbuilt Hbs Hbig Hlog.
  destruct (handleRequest_mux dflt h m now scv req req' msg st st' out Hmh Hm Hacc Hbuilt)
    as (_ & req'' & e' & _ & Hr & Hout).
  unfold ServeKMIP. rewrite (newResponse_pooled pooled Hp), Hr, Hbs, Hbig, Hlog.
  destruct (Hout bs Hbs) as [_ Hw]. cbn. rewrite Hw. eauto.
Qed.

Lemma ServeKMIP_tooLarge_witness :
  ∃ bs r, 8 < len bs ∧
    ServeKMIP messageRegistry (sampleHandler false countMux) sampleNow "scv" None
      (newRequest cappedRequest "" "") 0%nat = (1%nat, Ok (bs, r)).
Proof.
  set (req' := (parseMessage (E := simpleError) messageRegistry (newRequest cappedRequest "" "")).1).
  set (msg := default (mkRequestMessage (mkRequestHeader (mkVersion 0 0) 0 "" "" false false None None 0 false None 0)
                None) (req_Message req')).
  set (out := (builtResponse (sampleHandler false countMux) sampleNow "scv" req' msg 0%nat).2).
  destruct (marshalResponse messageRegistry out) as [bs| | |] eqn:Hbs;
    [|exfalso; vm_compute in Hbs; discriminate Hbs..].
  destruct (ServeKMIP_tooLarge messageRegistry countMux (sampleHandler false countMux) sampleNow "scv" None
    (newRequest cappedRequest "" "") req' msg 0%nat 1%nat out bs) as [r Hr].
  - reflexivity.
  - apply countMux_ok.
  - split_and!; vm_compute; reflexivity.
  - exact I.
  - vm_compute; reflexivity.
  - exact Hbs.
  - vm_compute in Hbs. injection Hbs as <-. vm_compute. reflexivity.
  - reflexivity.
  - exists bs, r. split; [|exact Hr]. vm_compute in Hbs. injection Hbs as <-. vm_compute. reflexivity.
Defined.



(** The rule against extra values is never enforced on payloads:
    [Request.Unmarshal] resets the decoder, which clears [DisallowExtraValues],
    so that it decodes exactly as the lenient [Unmarshal] does; a message that
    a strict decoder rejects is accepted. *)
Theorem Request_Unmarshal_lenient {E} `{Merry E} dflt r d t typ v :
  req_decoder r = Some d → len t ≠ 0 →
  (Request_Unmarshal (E := E) dflt r (Some t) typ v).2 =
    (let s := Unmarshal dflt (decodeFuel 4 typ t) t typ v in (s.1, liftDecode s.2)) ∧
  (∃ e, (DecodeValue emptyRegistry 10 (mkDecoder true None "") anyThenInt
           (VStruct [VIface None; VInt 0]) anyThenIntExtra).2 = Err e) ∧
  (Request_Unmarshal (E := E) emptyRegistry (setDecoder true (mkDecoder true None "") r)
     (Some anyThenIntExtra) anyThenInt (VStruct [VIface None; VInt 0])).2 =
    (VStruct [VIface None; VInt 9], Ok tt).
Proof.
  intros Hd Hl. split_and!.
  - unfold Request_Unmarshal, Unmarshal. change (bytesOf (Some t)) with t.
    rewrite (proj2 (Z.eqb_neq _ _) Hl), Hd. change (Decoder_Reset d) with NewDecoder.
    by destruct (Decode dflt _ NewDecoder _ typ v).2.
  - eexists. vm_compute. reflexivity.
  - vm_compute. reflexivity.
Qed.

Lemma Request_Unmarshal_lenient_witness :
  (Request_Unmarshal (E := simpleError) emptyRegistry
     (setDecoder true (mkDecoder true None "") (newRequest [] "" ""))
     (Some anyThenIntExtra) anyThenInt (VStruct [VIface None; VInt 0])).2 =
    (VStruct [VIface None; VInt 9], Ok tt).
Proof.
  refine (proj2 (proj2 (Request_Unmarshal_lenient emptyRegistry
    (setDecoder true (mkDecoder true None "") (newRequest [] "" "")) _ [x00] intType (VInt 0) eq_refl _))).
  discriminate.
Defined.

(** A client can make the server drop the connection without an answer: a
    valid request whose client correlation value is a ByteString makes the
    decoder panic, for every handler. *)
Theorem badRequest_drops_connection {E} `{Merry E} {St} (h : StandardProtocolHandler (E := E) (St := St)) env
    remote loc cs rest pool st fuel :
  TTLV_Valid (itemBlock badRequest) = Ok tt ∧
  serve messageRegistry h env remote loc (S fuel) O
    (mkReader (itemBlock badRequest ++ rest) cs) pool st = (st, [], Recovered).
Proof.
  split; [vm_compute; reflexivity|].
  assert (itemOk badRequest) as Hok.
  { repeat constructor; cbn; unfold_types; unfold is_i32, is_u32; lia. }
  cbn [serve]. destruct (NextTTLV_of_block _ _ rest cs (itemBlock_denotes _ Hok)) as (r' & -> & _).
  unfold ServeKMIP, handleRequest, beginRequest.
  assert (parseMessage (E := E) messageRegistry (newRequest (itemBlock badRequest) remote loc) =
    (newRequest (itemBlock badRequest) remote loc, Panic)) as -> by (vm_compute; reflexivity).
  done.
Qed.
