(* ===== verification/Connections.v ===== *)
(** The connections of a server, of src/requests.go: [conn.serve] as the body of
    one goroutine per connection, any number of which run at the same time.  They
    share the handlers registered with the multiplexer, the state behind the
    handlers, and the pool of responses, whose members are objects with
    addresses: a response that two connections held at once would mix their
    answers.  The steps of a connection are its accesses to what is shared and to
    the network, and each is a function of the code of [Server]. *)
From Stdlib Require Import ZArith Lia Strings.Byte Ascii String.
From stdpp Require Import base list strings numbers gmap.
From S2P Require Import Prelude Ttlv Grammar EncBuf Blocks Registry Reflect Encoder Stream Decoder Messages Server ServerSpec.
Set Warnings "-clear-no-such-hyp".
Local Open Scope Z_scope.

(** * The handler of a server *)

(** A [StandardProtocolHandler] whose [MessageHandler] is the multiplexer. *)
Record protocolHandler := mkProtocolHandler {
  ph_ProtocolVersion : ProtocolVersion;
  ph_LogTraffic : bool;
}.

Definition DefaultProtocolHandler : protocolHandler := mkProtocolHandler (mkVersion 1 4) false.

(** [Server.Handler], which may be nil. *)
Definition serverHandler (handler : option protocolHandler) : protocolHandler := default DefaultProtocolHandler handler.

Definition standardHandler {E St} (p : protocolHandler) (m : OperationMux (E := E) (St := St))
    `{Merry E} : StandardProtocolHandler (E := E) (St := St) :=
  mkHandler (ph_ProtocolVersion p) (HandleMessage m) (ph_LogTraffic p).

(** * One connection *)

Section Connection.
Context {E : Type} `{Merry E} {St : Type} (dflt : Registry) (handler : option protocolHandler).

Abbreviation Mux := (OperationMux (E := E) (St := St)).
Abbreviation Handler := (ItemHandler (E := E) (St := St)).

(** How a connection's goroutine ends. *)
Inductive connOutcome : Type :=
  | Ended (e : connEnd)
  | HandshakeFailed.

(** Where the goroutine is: before the handshake, in [readRequest], in
    [newResponse], in [handleRequest] before the message handler is called, in
    [HandleMessage] with [n] items left before and after the handler of number
    [i] has been looked up, after the write of the response, and before
    [writer.Flush()] with what the writer has buffered. *)
Inductive connPC : Type :=
  | PStart
  | PRead
  | PGet (req : Request)
  | PBegin (req : Request)
  | PItems (n i : nat) (req : Request)
  | PCall (n i : nat) (req : Request) (found : option Handler)
  | PWrite
  | PPut (buffered : list byte)
  | PFlush (buffered : list byte)
  | PEnd (o : connOutcome).

(** A connection: what is left to read from it, what has been written to it, and
    how often it has been closed. *)
Record conn := mkConn {
  c_remoteAddr : string;
  c_localAddr : string;
  c_in : reader;
  c_out : list byte;
  c_closed : nat;
  c_pc : connPC;
}.

Definition newConn (r : reader) (remote loc : string) : conn := mkConn remote loc r [] O PStart.

Definition goto (pc : connPC) (c : conn) : conn :=
  mkConn (c_remoteAddr c) (c_localAddr c) (c_in c) (c_out c) (c_closed c) pc.
Definition rest (r : reader) (c : conn) : conn :=
  mkConn (c_remoteAddr c) (c_localAddr c) r (c_out c) (c_closed c) (c_pc c).
Definition output (bs : list byte) (c : conn) : conn :=
  mkConn (c_remoteAddr c) (c_localAddr c) (c_in c) (c_out c ++ bs) (c_closed c) (c_pc c).

(** The deferred function: the connection is closed, after a panic as well. *)
Definition finish (o : connOutcome) (c : conn) : conn :=
  mkConn (c_remoteAddr c) (c_localAddr c) (c_in c) (c_out c) (S (c_closed c)) (PEnd o).

(** What a panic, or a result the model has no fuel for, leads to. *)
Definition abort {A} (out : res E A) (c : conn) : conn :=
  finish (Ended match out with OutOfFuel => ServeOutOfFuel | _ => Recovered end) c.

(** The size of a [bufio.Writer]: a write that does not fit goes straight to the
    connection. *)
Definition defaultBufSize : Z := 4096.

(** A write to the network: all of it, or [Some n] when only [n] bytes get out
    before an error, on which [conn.serve] panics. *)
Definition send (fails : option nat) (bs : list byte) (pc : connPC) (c : conn) : conn :=
  match fails with
  | None => goto pc (output bs c)
  | Some n => finish (Ended Recovered) (output (take n bs) c)
  end.

(** The steps, with what they take from the environment: the outcome of a TLS
    handshake, of reads and of writes, the clock and the random value. *)
Inductive event : Type :=
  | EStart (ok : bool)
  | ERead (fails : bool)
  | EGet
  | EBegin (now : gotime) (scv : string)
  | ELookup
  | ECall
  | EFinish
  | EWrite (fails : option nat)
  | EPut
  | EFlush (fails : option nat).

(** A step of a connection that sees the multiplexer [m] and the state [st], with
    the response it holds, if any; for [EGet] it is the one from the pool. *)
Definition run (m : Mux) (st : St) (ev : event) (c : conn) (resp : option Response)
    : option (conn * option Response * St) :=
  match c_pc c, ev, resp with
  | PStart, EStart true, _ => Some (goto PRead c, resp, st)
  | PStart, EStart false, _ => Some (finish HandshakeFailed c, resp, st)
  | PRead, ERead true, _ => Some (finish (Ended Recovered) c, resp, st)
  | PRead, ERead false, _ =>
      let '(r, out) := NextTTLV (c_in c) in
      let c := rest r c in
      Some (match out with
            | Ok t => goto (PGet (newRequest t (c_remoteAddr c) (c_localAddr c))) c
            | Err EOF => finish (Ended ClientClosed) c
            | Err (InvalidHeader _) | Panic => finish (Ended Recovered) c
            | OutOfFuel => finish (Ended ServeOutOfFuel) c
            end, resp, st)
  | PGet req, EGet, _ => Some (goto (PBegin req) c, Some (newResponse resp), st)
  | PBegin req, EBegin now scv, Some resp =>
      let '(req, resp, out) :=
        beginRequest (E := E) dflt (ph_ProtocolVersion (serverHandler handler)) now scv req resp in
      Some (match out with
            | Ok true =>
                match batchItems req with
                | Some items => goto (PItems (length items) O req) c
                | None => finish (Ended Recovered) c
                end
            | Ok false => goto PWrite c
            | _ => abort out c
            end, Some resp, st)
  | PItems (S n) i req, ELookup, _ =>
      Some (match itemOf req i with
            | Some item => goto (PCall n i (setCurrentItem i req) (handlerForOp m (rqi_Operation item))) c
            | None => finish (Ended Recovered) c
            end, resp, st)
  | PCall n i req found, ECall, Some resp =>
      let p := ptrOf req i in
      let '(st, req, out) := callHandler (mux_ErrorHandler m) found req st in
      let '(resp, out) := appendItem req p out resp in
      Some (match out with
            | Ok _ => goto (PItems n (S i) req) c
            | _ => abort out c
            end, Some resp, st)
  | PItems O i req, EFinish, Some resp =>
      let '(resp, out) := finishRequest (E := E) dflt req resp in
      Some (match out with
            | Ok _ => goto PWrite c
            | _ => abort out c
            end, Some resp, st)
  | PWrite, EWrite fails, Some resp =>
      let '(resp, out) := writeResponse (E := E) dflt (ph_LogTraffic (serverHandler handler)) resp in
      Some (match out with
            | Ok bs =>
                if defaultBufSize <? len bs then send fails bs (PPut []) c
                else goto (PPut bs) c
            | _ => abort out c
            end, Some resp, st)
  | PPut buffered, EPut, Some _ => Some (goto (PFlush buffered) c, None, st)
  | PFlush [], EFlush _, _ => Some (goto PRead c, resp, st)
  | PFlush (b :: bs), EFlush fails, _ => Some (send fails (b :: bs) PRead c, resp, st)
  | _, _, _ => None
  end.

(** * A server *)

(** The responses that have been allocated, by address; those that are in the
    pool, where one could be more than once; and the one each connection
    holds. *)
Record server := mkServer {
  s_conns : gmap nat conn;
  s_store : gmap nat Response;
  s_pool : list nat;
  s_held : gmap nat nat;
  s_mux : Mux;
  s_state : St;
}.

Definition newServer (m : Mux) (st : St) : server := mkServer ∅ ∅ [] ∅ m st.

(** The response a connection's [resp] points to. *)
Definition load (s : server) (i : nat) : option Response := a ← s_held s !! i; s_store s !! a.

Definition save (s : server) (i : nat) (resp : option Response) : gmap nat Response :=
  match s_held s !! i, resp with
  | Some a, Some r => <[a := r]> (s_store s)
  | _, _ => s_store s
  end.

(** What a step does and who takes it; the steps of connections show the
    multiplexer and the state they have seen. *)
Inductive label : Type :=
  | LAccept (i : nat) (r : reader) (remote loc : string)
  | LConn (i : nat) (m : Mux) (st : St) (ev : event)
  | LHandle (op : Z) (h : Handler)
  | LCollect.

(** An event on a response the connection has already, or none. *)
Definition plain (ev : event) : bool := match ev with EGet | EPut => false | _ => true end.

(** [responsePool.Get()] takes any response out of the pool, or finds none, even
    when there are some; the garbage collector empties it. *)
Inductive connStep : label → server → server → Prop :=
  | step_accept i r remote loc s : s_conns s !! i = None →
      connStep (LAccept i r remote loc) s
        (mkServer (<[i := newConn r remote loc]> (s_conns s)) (s_store s) (s_pool s) (s_held s) (s_mux s) (s_state s))
  | step_handle op h s :
      connStep (LHandle op h) s
        (mkServer (s_conns s) (s_store s) (s_pool s) (s_held s) (OperationMux_Handle (s_mux s) op h) (s_state s))
  | step_collect s :
      connStep LCollect s (mkServer (s_conns s) (s_store s) [] (s_held s) (s_mux s) (s_state s))
  | step_conn i ev c c' resp st' s : plain ev = true → s_conns s !! i = Some c →
      run (s_mux s) (s_state s) ev c (load s i) = Some (c', resp, st') →
      connStep (LConn i (s_mux s) (s_state s) ev) s
        (mkServer (<[i := c']> (s_conns s)) (save s i resp) (s_pool s) (s_held s) (s_mux s) st')
  | step_get_pooled i c c' a before after r st' s : s_conns s !! i = Some c → s_pool s = before ++ a :: after →
      run (s_mux s) (s_state s) EGet c (s_store s !! a) = Some (c', Some r, st') →
      connStep (LConn i (s_mux s) (s_state s) EGet) s
        (mkServer (<[i := c']> (s_conns s)) (<[a := r]> (s_store s)) (before ++ after) (<[i := a]> (s_held s))
           (s_mux s) st')
  | step_get_new i c c' a r st' s : s_conns s !! i = Some c → s_store s !! a = None →
      run (s_mux s) (s_state s) EGet c None = Some (c', Some r, st') →
      connStep (LConn i (s_mux s) (s_state s) EGet) s
        (mkServer (<[i := c']> (s_conns s)) (<[a := r]> (s_store s)) (s_pool s) (<[i := a]> (s_held s)) (s_mux s) st')
  | step_put i c c' a resp st' s : s_conns s !! i = Some c → s_held s !! i = Some a →
      run (s_mux s) (s_state s) EPut c (load s i) = Some (c', resp, st') →
      connStep (LConn i (s_mux s) (s_state s) EPut) s
        (mkServer (<[i := c']> (s_conns s)) (s_store s) (a :: s_pool s) (delete i (s_held s)) (s_mux s) st').

(** A run of the server and the steps it took. *)
Inductive connSteps (s : server) : list label → server → Prop :=
  | steps_nil : connSteps s [] s
  | steps_snoc tr l s' s'' : connSteps s tr s' → connStep l s' s'' → connSteps s (tr ++ [l]) s''.

(** * Steps of one connection *)

(** A response is held from [newResponse] to [releaseResponse]. *)
Definition holds (pc : connPC) : bool :=
  match pc with PBegin _ | PItems _ _ _ | PCall _ _ _ _ | PWrite | PPut _ => true | _ => false end.

(** The response a connection holds has an encoder with nothing pending. *)
Definition holdsIdle (c : conn) (resp : option Response) : Prop :=
  match c_pc c with
  | PEnd _ => True
  | pc => if holds pc then ∃ r, resp = Some r ∧ idle (resp_enc r) else resp = None
  end.

Definition closedOnce (c : conn) : Prop := c_closed c = match c_pc c with PEnd _ => 1%nat | _ => 0%nat end.

Lemma run_get m st c resp c' resp' st' : run m st EGet c resp = Some (c', resp', st') →
  ∃ req, c_pc c = PGet req ∧ c' = goto (PBegin req) c ∧ resp' = Some (newResponse resp) ∧ st' = st.
Proof.
  unfold run. intros Hr. repeat case_match; simplify_eq. by eexists.
Qed.

Lemma run_put m st c resp c' resp' st' : run m st EPut c resp = Some (c', resp', st') →
  ∃ buffered, c_pc c = PPut buffered ∧ c' = goto (PFlush buffered) c ∧ resp' = None ∧ st' = st.
Proof.
  unfold run. intros Hr. repeat case_match; simplify_eq. by eexists.
Qed.

Lemma run_closedOnce m st ev c resp c' resp' st' : run m st ev c resp = Some (c', resp', st') →
  closedOnce c → closedOnce c'.
Proof.
  unfold run, closedOnce, send, abort. intros Hr Hc.
  repeat case_match; simplify_eq; cbn in *; congruence.
Qed.

(** The other steps neither take nor give up a response, and leave its encoder
    idle unless they end the connection. *)
Lemma run_plain m st ev c resp c' resp' st' : plain ev = true → run m st ev c resp = Some (c', resp', st') →
  holdsIdle c resp → holdsIdle c' resp' ∧ (is_Some resp' ↔ is_Some resp).
Proof.
  intros Hp Hr. unfold run in Hr. unfold holdsIdle at 1.
  destruct (c_pc c) as [| |req|req|[|n] i req|n i req found| |bs|[|b bs]|o] eqn:Hpc, ev; try done; cbn [holds];
    intros Hi; try (destruct Hi as (r & -> & Hi)).
  - subst resp. case_match; simplify_eq; done.
  - subst resp. repeat case_match; simplify_eq; done.
  - destruct (beginRequest _ _ _ _ _ _) as [[req1 r1] out] eqn:Hb. apply beginRequest_enc in Hb.
    rewrite <- Hb in Hi. unfold abort in Hr. repeat case_match; simplify_eq; (split; [cbn; eauto|split; eauto]).
  - destruct (finishRequest _ _ _) as [r1 out] eqn:Hf. simplify_eq. split; [|split; eauto]. destruct out as [[]| | |]; try done.
    apply finishRequest_idle in Hf; [|done]. cbn. eauto.
  - repeat case_match; simplify_eq; (split; [cbn; eauto|split; eauto]).
  - destruct (callHandler _ _ _ _) as [[st1 req1] out]. destruct (appendItem _ _ _ _) as [r1 out1] eqn:Ha.
    apply appendItem_enc in Ha. rewrite <- Ha in Hi. simplify_eq. split; [|split; eauto]. destruct out1 as [[]| | |]; cbn; eauto.
  - destruct (writeResponse _ _ _) as [r1 out] eqn:Hw. simplify_eq. split; [|split; eauto]. destruct out as [bs| | |]; try done.
    apply writeResponse_idle in Hw; [|done]. unfold send. repeat case_match; cbn; eauto.
  - subst resp. by simplify_eq.
  - subst resp. simplify_eq. unfold send. by case_match.
Qed.

(** * Ownership *)

Record Inv (s : server) : Prop := mkInv {
  inv_held i a : s_held s !! i = Some a → is_Some (s_conns s !! i) ∧ is_Some (s_store s !! a) ∧ a ∉ s_pool s;
  inv_unshared i j a : s_held s !! i = Some a → s_held s !! j = Some a → i = j;
  inv_pool : NoDup (s_pool s);
  inv_pooled a : a ∈ s_pool s → ∃ r, s_store s !! a = Some r ∧ idle (resp_enc r);
  inv_conn i c : s_conns s !! i = Some c → closedOnce c ∧ holdsIdle c (load s i);
}.

Lemma Inv_new m st : Inv (newServer m st).
Proof. split; cbn; try set_solver. constructor. Qed.

(** A connection without a response loads none. *)
Lemma load_None s i : Inv s → load s i = None → s_held s !! i = None.
Proof.
  intros HI Hl. destruct (s_held s !! i) as [a|] eqn:Hh; [|done].
  destruct (inv_held _ HI _ _ Hh) as (_ & [r Hr] & _). unfold load in Hl. rewrite Hh in Hl. cbn in Hl. congruence.
Qed.

Lemma load_save s i j resp conns pool m st : Inv s → (is_Some resp ↔ is_Some (load s i)) →
  load (mkServer conns (save s i resp) pool (s_held s) m st) j = if decide (j = i) then resp else load s j.
Proof.
  intros HI Hr. unfold load at 1. cbn [s_held s_store]. unfold save. destruct (decide (j = i)) as [->|Hne].
  - destruct (s_held s !! i) as [a|] eqn:Hh; cbn [mbind option_bind].
    + destruct (inv_held _ HI _ _ Hh) as (_ & [r0 Hr0] & _). unfold load in Hr. rewrite Hh in Hr. cbn in Hr.
      destruct resp as [r|]; [by rewrite lookup_insert_eq|]. rewrite Hr0 in Hr. by destruct (proj2 Hr ltac:(eauto)).
    + unfold load in Hr. rewrite Hh in Hr. cbn in Hr. destruct resp; [by destruct (proj1 Hr ltac:(eauto))|done].
  - unfold load. destruct (s_held s !! j) as [b|] eqn:Hj; cbn [mbind option_bind]; [|done].
    destruct (s_held s !! i) as [a|] eqn:Hh, resp as [r|]; try done.
    apply lookup_insert_ne. intros ->. by apply Hne, (inv_unshared _ HI _ _ b).
Qed.

(** A response that connection [i] takes at address [a], which nobody holds. *)
Lemma load_take s i j a r conns pool m st : Inv s → (∀ k, s_held s !! k ≠ Some a) →
  load (mkServer conns (<[a := r]> (s_store s)) pool (<[i := a]> (s_held s)) m st) j =
    if decide (j = i) then Some r else load s j.
Proof.
  intros HI Ha. unfold load. cbn [s_held s_store]. destruct (decide (j = i)) as [->|Hne].
  - rewrite lookup_insert_eq. cbn. by rewrite lookup_insert_eq.
  - rewrite lookup_insert_ne by done. destruct (s_held s !! j) as [b|] eqn:Hj; cbn [mbind option_bind]; [|done].
    apply lookup_insert_ne. intros ->. by apply (Ha j).
Qed.

Lemma load_drop s i j conns pool m st :
  load (mkServer conns (s_store s) pool (delete i (s_held s)) m st) j = if decide (j = i) then None else load s j.
Proof.
  unfold load. cbn [s_held s_store]. destruct (decide (j = i)) as [->|Hne]; [by rewrite lookup_delete_eq|].
  by rewrite lookup_delete_ne.
Qed.

(** After a step of connection [i] the connections and what they load have
    changed at [i] only. *)
Lemma conns_update s i c' resp ld : Inv s → closedOnce c' → holdsIdle c' resp →
  (∀ j, ld j = if decide (j = i) then resp else load s j) →
  ∀ j c, <[i := c']> (s_conns s) !! j = Some c → closedOnce c ∧ holdsIdle c (ld j).
Proof.
  intros HI H1 H2 Hl j c Hj. rewrite Hl. destruct (decide (j = i)) as [->|Hne].
  - rewrite lookup_insert_eq in Hj. by injection Hj as <-.
  - rewrite lookup_insert_ne in Hj by done. by apply (inv_conn _ HI).
Qed.

Lemma insert_dom {A} (m : gmap nat A) i j (x : A) : is_Some (m !! j) → is_Some (<[i := x]> m !! j).
Proof. intros Hm. apply lookup_insert_is_Some'. by right. Qed.

Lemma save_dom s i resp a : Inv s → is_Some (s_store s !! a) → is_Some (save s i resp !! a).
Proof.
  intros HI Ha. unfold save. destruct (s_held s !! i) as [b|], resp as [r|]; try done. by apply insert_dom.
Qed.

Lemma save_pooled s i resp a : Inv s → a ∈ s_pool s → save s i resp !! a = s_store s !! a.
Proof.
  intros HI Ha. unfold save. destruct (s_held s !! i) as [b|] eqn:Hh, resp as [r|]; try done.
  apply lookup_insert_ne. intros ->. by destruct (inv_held _ HI _ _ Hh) as (_ & _ & []).
Qed.

(** Taking a response nobody holds and that is not in what is left of the pool. *)
Lemma Inv_take s i a c' r pool st' : Inv s → (∀ k, s_held s !! k ≠ Some a) → a ∉ pool → pool ⊆ s_pool s → NoDup pool →
  is_Some (s_conns s !! i) → closedOnce c' → holdsIdle c' (Some r) →
  Inv (mkServer (<[i := c']> (s_conns s)) (<[a := r]> (s_store s)) pool (<[i := a]> (s_held s)) (s_mux s) st').
Proof.
  intros HI Ha Hn Hsub Hnd Hi H1 H2. split; cbn [s_conns s_store s_pool s_held].
  - intros j b [[<- <-]|[Hne Hb]]%lookup_insert_Some.
    + rewrite !lookup_insert_eq. eauto.
    + destruct (inv_held _ HI _ _ Hb) as (? & ? & ?). rewrite lookup_insert_ne, lookup_insert_ne by congruence.
      split_and!; set_solver.
  - intros j k b [[<- <-]|[Hj Hb]]%lookup_insert_Some [[<- Hx]|[Hk Hb']]%lookup_insert_Some; try done.
    + by destruct (Ha k).
    + subst b. by destruct (Ha j).
    + by apply (inv_unshared _ HI _ _ b).
  - done.
  - intros b Hb. rewrite lookup_insert_ne by set_solver. by apply (inv_pooled _ HI), Hsub.
  - apply (conns_update s i c' (Some r)); [done..|]. intros j. by apply load_take.
Qed.

Lemma Inv_accept s i r remote loc : Inv s → s_conns s !! i = None →
  Inv (mkServer (<[i := newConn r remote loc]> (s_conns s)) (s_store s) (s_pool s) (s_held s) (s_mux s) (s_state s)).
Proof.
  intros HI Hi. split; cbn; [|apply (inv_unshared _ HI)|apply (inv_pool _ HI)|apply (inv_pooled _ HI)|].
  - intros j a Hj. destruct (inv_held _ HI _ _ Hj) as (? & ? & ?). split_and!; [by apply insert_dom|done..].
  - assert (s_held s !! i = None) as Hn.
    { apply eq_None_not_Some. intros [a Hj]. destruct (inv_held _ HI _ _ Hj) as ([c Hc] & _). congruence. }
    assert (load s i = None) as Hl by (unfold load; by rewrite Hn).
    apply (conns_update s i (newConn r remote loc) None); [done..|].
    intros j. by destruct (decide (j = i)) as [->|].
Qed.

Lemma Inv_plain s i c c' resp st' : Inv s → s_conns s !! i = Some c → closedOnce c' → holdsIdle c' resp →
  (is_Some resp ↔ is_Some (load s i)) →
  Inv (mkServer (<[i := c']> (s_conns s)) (save s i resp) (s_pool s) (s_held s) (s_mux s) st').
Proof.
  intros HI Hi Hc Hid Hsome. split; cbn [s_conns s_store s_pool s_held]; [|apply (inv_unshared _ HI)|apply (inv_pool _ HI)|..].
  - intros j a Hj. destruct (inv_held _ HI _ _ Hj) as (? & ? & ?).
    split_and!; [by apply insert_dom|by apply save_dom|done].
  - intros a Ha. rewrite save_pooled by done. by apply (inv_pooled _ HI).
  - apply (conns_update s i c' resp); [done..|]. intros j. by apply load_save.
Qed.

(** Putting back the response a connection holds. *)
Lemma Inv_put s i a c' r st' : Inv s → s_held s !! i = Some a → s_store s !! a = Some r → idle (resp_enc r) →
  closedOnce c' → holdsIdle c' None →
  Inv (mkServer (<[i := c']> (s_conns s)) (s_store s) (a :: s_pool s) (delete i (s_held s)) (s_mux s) st').
Proof.
  intros HI Hh Hr Hid H1 H2. destruct (inv_held _ HI _ _ Hh) as (_ & _ & Hnin).
  split; cbn [s_conns s_store s_pool s_held].
  - intros j b [Hne Hj]%lookup_delete_Some. destruct (inv_held _ HI _ _ Hj) as (? & ? & ?).
    split_and!; [by apply insert_dom|done|]. intros [->|?]%elem_of_cons; [|done].
    by apply Hne, (inv_unshared _ HI _ _ a).
  - intros j k b [_ Hj]%lookup_delete_Some [_ Hk]%lookup_delete_Some. by apply (inv_unshared _ HI _ _ b).
  - constructor; [done|apply (inv_pool _ HI)].
  - intros b [->|Hb]%elem_of_cons; [eauto|by apply (inv_pooled _ HI)].
  - apply (conns_update s i c' None); [done..|]. intros j. apply load_drop.
Qed.

(** An address of the pool is held by no connection, nor is a new one. *)
Lemma pool_unheld s a k : Inv s → a ∈ s_pool s → s_held s !! k ≠ Some a.
Proof. intros HI Ha Hk. by destruct (inv_held _ HI _ _ Hk) as (_ & _ & []). Qed.

Lemma new_unheld s a k : Inv s → s_store s !! a = None → s_held s !! k ≠ Some a.
Proof. intros HI Ha Hk. destruct (inv_held _ HI _ _ Hk) as (_ & [? ?] & _). congruence. Qed.

Lemma Inv_connStep l s s' : connStep l s s' → Inv s → Inv s'.
Proof.
  intros Hs HI. destruct Hs as [i r remote loc s Hi|op h s|s|i ev c c' resp st' s Hp Hi Hr
    |i c c' a before after r st' s Hi Hpool Hr|i c c' a r st' s Hi Ha Hr|i c c' a resp st' s Hi Hh Hr].
  - by apply Inv_accept.
  - by destruct HI.
  - destruct HI as [H1 H2 _ _ H5]. split; cbn; [|done|constructor|set_solver|done].
    intros i a Hh. destruct (H1 i a Hh) as (? & ? & _). set_solver.
  - destruct (inv_conn _ HI _ _ Hi) as [Hc Hid]. destruct (run_plain _ _ _ _ _ _ _ _ Hp Hr Hid) as [Hid' Hsome].
    eapply Inv_plain; try done. by eapply run_closedOnce.
  - pose proof (run_closedOnce _ _ _ _ _ _ _ _ Hr (proj1 (inv_conn _ HI _ _ Hi))) as Hc.
    apply run_get in Hr as (req & _ & -> & [= ->] & ->). pose proof (inv_pool _ HI) as Hnd. rewrite Hpool in Hnd.
    apply NoDup_app in Hnd as (Hn1 & Hd & [Hn2 Hn3]%NoDup_cons).
    assert (a ∈ s_pool s) as Ha by (rewrite Hpool; set_solver). destruct (inv_pooled _ HI a Ha) as (r & Hra & Hid).
    apply Inv_take; [done|by intros k; apply pool_unheld|set_solver|rewrite Hpool; set_solver| |eauto|done|].
    + apply NoDup_app. split_and!; [done|set_solver|done].
    + rewrite Hra. cbn. eexists. split; [done|]. by destruct Hid as (? & ? & ? & ?).
  - pose proof (run_closedOnce _ _ _ _ _ _ _ _ Hr (proj1 (inv_conn _ HI _ _ Hi))) as Hc.
    apply run_get in Hr as (req & _ & -> & [= ->] & ->).
    apply Inv_take; [done|by intros k; apply new_unheld| |done|apply (inv_pool _ HI)|eauto|done|cbn; eauto using idle_new].
    intros Hin. destruct (inv_pooled _ HI a Hin) as (? & ? & _). congruence.
  - destruct (inv_conn _ HI _ _ Hi) as [Hc Hid]. pose proof (run_closedOnce _ _ _ _ _ _ _ _ Hr Hc) as Hc'.
    apply run_put in Hr as (bs & Hpc & -> & -> & ->). unfold holdsIdle in Hid. rewrite Hpc in Hid.
    destruct Hid as (r & Hl & Hid). unfold load in Hl. rewrite Hh in Hl. by apply (Inv_put s i a _ r).
Qed.

Lemma Inv_steps s tr s' : connSteps s tr s' → Inv s → Inv s'.
Proof. induction 1; eauto using Inv_connStep. Qed.

(** * Connections on their own *)

(** What connection [i] did in a run, and the multiplexer and the state it saw. *)
Definition history (i : nat) (tr : list label) : list (Mux * St * event) :=
  omap (λ l, match l with
             | LConn j m st ev => if decide (j = i) then Some (m, st, ev) else None
             | _ => None
             end) tr.

(** The steps of a connection without any other, with new responses only. *)
Fixpoint replay (h : list (Mux * St * event)) (c : conn) (resp : option Response) : option (conn * option Response) :=
  match h with
  | [] => Some (c, resp)
  | (m, st, ev) :: h => '(c, resp, _) ← run m st ev c resp; replay h c resp
  end.

Lemma replay_snoc h m st ev c resp c1 resp1 c2 resp2 st2 : replay h c resp = Some (c1, resp1) →
  run m st ev c1 resp1 = Some (c2, resp2, st2) → replay (h ++ [(m, st, ev)]) c resp = Some (c2, resp2).
Proof.
  intros Hh Hr. revert c resp Hh. induction h as [|[[m0 st0] ev0] h IH]; intros c resp; cbn [replay app].
  - intros [= -> ->]. rewrite Hr. done.
  - intros ([[c' resp'] st'] & Hr' & Hh)%bind_Some. rewrite Hr'. cbn [mbind option_bind]. by apply IH.
Qed.

(** The connection a step belongs to. *)
Definition labelOf (l : label) : option nat :=
  match l with LAccept i _ _ _ | LConn i _ _ _ => Some i | _ => None end.

Lemma step_other l s s' i : Inv s → connStep l s s' → labelOf l ≠ Some i →
  s_conns s' !! i = s_conns s !! i ∧ load s' i = load s i.
Proof.
  intros HI Hs. destruct Hs as [j r remote loc s Hi|op h s|s|j ev c c' resp st' s Hp Hi Hr
    |j c c' a before after r st' s Hi Hpool Hr|j c c' a r st' s Hi Ha Hr|j c c' a resp st' s Hi Hh Hr];
    cbn [labelOf]; intros Hne; try done; (split; [cbn; by rewrite lookup_insert_ne by congruence|]).
  - done.
  - destruct (inv_conn _ HI _ _ Hi) as [_ Hid]. destruct (run_plain _ _ _ _ _ _ _ _ Hp Hr Hid) as [_ Hsome].
    rewrite load_save by done. by rewrite decide_False by congruence.
  - rewrite load_take; [by rewrite decide_False by congruence|done|]. intros k. apply pool_unheld; [done|].
    rewrite Hpool. set_solver.
  - rewrite load_take; [by rewrite decide_False by congruence|done|]. intros k. by apply new_unheld.
  - rewrite load_drop. by rewrite decide_False by congruence.
Qed.

(** A step of a connection is what the connection does on its own, with a new
    response for one from the pool. *)
Lemma step_own i m st ev s s' : Inv s → connStep (LConn i m st ev) s s' →
  ∃ c c' st', s_conns s !! i = Some c ∧ s_conns s' !! i = Some c' ∧ run m st ev c (load s i) = Some (c', load s' i, st').
Proof.
  intros HI Hs. inversion Hs as [| | |? ? c c' resp st' ? Hp Hi Hr|? c c' a before after r st' ? Hi Hpool Hr
    |? c c' a r st' ? Hi Ha Hr|? c c' a resp st' ? Hi Hh Hr]; subst; exists c, c', st'; cbn [s_conns];
    rewrite lookup_insert_eq; (split_and!; [done|done|]); destruct (inv_conn _ HI _ _ Hi) as [_ Hid].
  - destruct (run_plain _ _ _ _ _ _ _ _ Hp Hr Hid) as [_ Hsome].
    rewrite load_save by done. by rewrite decide_True by done.
  - assert (a ∈ s_pool s) as Ha by (rewrite Hpool; set_solver). destruct (inv_pooled _ HI a Ha) as (r0 & Hra & Hid0).
    rewrite load_take by (done || by intros k; apply pool_unheld). rewrite decide_True by done.
    pose proof Hr as (req & Hpc & -> & [= ->] & ->)%run_get. unfold holdsIdle in Hid. rewrite Hpc in Hid. cbn in Hid.
    rewrite Hid. rewrite Hra in Hr |- *. rewrite (newResponse_pooled (Some r0) Hid0). unfold run. by rewrite Hpc.
  - rewrite load_take by (done || by intros k; apply new_unheld). rewrite decide_True by done.
    pose proof Hr as (req & Hpc & _)%run_get. unfold holdsIdle in Hid. rewrite Hpc in Hid. cbn in Hid. by rewrite Hid.
  - rewrite load_drop, decide_True by done. by pose proof Hr as (bs & _ & _ & -> & _)%run_put.
Qed.

Lemma history_snoc i tr l : history i (tr ++ [l]) = history i tr ++ history i [l].
Proof. apply omap_app. Qed.

Lemma steps_replay m st tr s : connSteps (newServer m st) tr s → ∀ i,
  match s_conns s !! i with
  | Some c => ∃ r remote loc, LAccept i r remote loc ∈ tr ∧
      replay (history i tr) (newConn r remote loc) None = Some (c, load s i)
  | None => history i tr = [] ∧ load s i = None
  end.
Proof.
  induction 1 as [|tr l s s' Hss IH Hs]; intros i; [done|].
  pose proof (Inv_steps _ _ _ Hss (Inv_new m st)) as HI. specialize (IH i). rewrite history_snoc.
  destruct (decide (labelOf l = Some i)) as [Hl|Hl].
  - destruct l as [? r remote loc|? m' st' ev| |]; cbn [labelOf] in Hl; try done; injection Hl as ->.
    + inversion Hs as [? ? ? ? ? Hi| | | | | |]; subst. cbn [s_conns]. rewrite lookup_insert_eq. rewrite Hi in IH.
      destruct IH as [-> Hld]. exists r, remote, loc. split; [set_solver|].
      cbn. do 2 f_equal. symmetry. exact Hld.
    + destruct (step_own _ _ _ _ _ _ HI Hs) as (c & c' & st1 & Hc & -> & Hr). rewrite Hc in IH.
      destruct IH as (r & remote & loc & Hin & Hre). exists r, remote, loc. split; [set_solver|].
      cbn. rewrite decide_True by done. by eapply replay_snoc.
  - destruct (step_other _ _ _ _ HI Hs Hl) as [-> ->].
    assert (history i [l] = []) as ->.
    { destruct l; cbn in *; try done. by rewrite decide_False by congruence. }
    rewrite app_nil_r. destruct (s_conns s !! i); [|done]. set_solver.
Qed.

(** The network, the clock and the pool willing, a connection that has not ended
    can go on: no other connection keeps it from it. *)
Lemma conn_progress s i c : Inv s → s_conns s !! i = Some c → (∀ o, c_pc c ≠ PEnd o) →
  ∃ l s', labelOf l = Some i ∧ connStep l s s'.
Proof.
  intros HI Hc Hne. destruct (inv_conn _ HI _ _ Hc) as [_ Hid]. unfold holdsIdle in Hid.
  assert (∀ ev c' resp st', plain ev = true → run (s_mux s) (s_state s) ev c (load s i) = Some (c', resp, st') →
    ∃ l s', labelOf l = Some i ∧ connStep l s s') as Hgo.
  { intros ev c' resp st' Hp Hr. by eexists _, _; split; [|by eapply step_conn]. }
  destruct (c_pc c) as [| |req|req|[|n] k req|n k req found| |bs|[|b bs]|o] eqn:Hpc; cbn [holds] in Hid;
    try (destruct Hid as (r & Hl & _); rewrite Hl in Hgo).
  - eapply (Hgo (EStart true)); [done|]. unfold run. by rewrite Hpc.
  - destruct (NextTTLV (c_in c)) as [r1 out] eqn:Hn. eapply (Hgo (ERead false)); [done|]. unfold run. by rewrite Hpc, Hn.
  - eexists _, _. split; [|eapply (step_get_new i c _ (fresh (dom (s_store s)))); [done|apply not_elem_of_dom, is_fresh|]]; [done|].
    unfold run. by rewrite Hpc.
  - destruct (beginRequest (E := E) dflt (ph_ProtocolVersion (serverHandler handler)) zeroTime "" req r) as [[? ?] ?] eqn:Hb.
    eapply (Hgo (EBegin zeroTime "")); [done|]. unfold run. by rewrite Hpc, Hb.
  - destruct (finishRequest (E := E) dflt req r) as [? ?] eqn:Hf. eapply (Hgo EFinish); [done|]. unfold run. by rewrite Hpc, Hf.
  - eapply (Hgo ELookup); [done|]. unfold run. by rewrite Hpc.
  - destruct (callHandler (mux_ErrorHandler (s_mux s)) found req (s_state s)) as [[? req1] out] eqn:Hca.
    destruct (appendItem (E := E) req1 (ptrOf req k) out r) as [? ?] eqn:Ha. eapply (Hgo ECall); [done|]. unfold run. by rewrite Hpc, Hca, Ha.
  - destruct (writeResponse (E := E) dflt (ph_LogTraffic (serverHandler handler)) r) as [? ?] eqn:Hw.
    eapply (Hgo (EWrite None)); [done|]. unfold run. by rewrite Hpc, Hw.
  - pose proof Hl as (a & Hh & _)%bind_Some. eexists _, _. split; [|eapply (step_put i c _ a); [done..|]]; [done|].
    rewrite Hl. unfold run. by rewrite Hpc.
  - eapply (Hgo (EFlush None)); [done|]. unfold run. by rewrite Hpc.
  - eapply (Hgo (EFlush None)); [done|]. unfold run. by rewrite Hpc.
  - by destruct (Hne o).
Qed.

(** * One connection at a time *)

(** A run in which only connection [i] takes steps. *)
Definition alone (i : nat) (s s' : server) : Prop :=
  ∃ tr, connSteps s tr s' ∧ Forall (λ l, labelOf l = Some i) tr.

Lemma alone_refl i s : alone i s s.
Proof. exists []. split; constructor. Qed.

Lemma alone_snoc i s s' l s'' : alone i s s' → connStep l s' s'' → labelOf l = Some i → alone i s s''.
Proof.
  intros (tr & Hs & Hall) Hl Hi. exists (tr ++ [l]). split; [by econstructor|]. apply Forall_app. eauto.
Qed.

Lemma alone_trans i s1 s2 s3 : alone i s1 s2 → alone i s2 s3 → alone i s1 s3.
Proof.
  intros H12 (tr & Hs & Hall). revert Hall. induction Hs as [|tr l s s' Hs IH Hl]; [done|].
  intros [Hall [Hli _]%Forall_cons]%Forall_app. eapply alone_snoc; [by apply IH|exact Hl|]. exact Hli.
Qed.

Lemma steps_others i j s tr s' : Inv s → connSteps s tr s' → Forall (λ l, labelOf l = Some i) tr → j ≠ i →
  s_conns s' !! j = s_conns s !! j.
Proof.
  intros HI Hs Hall Hj. induction Hs as [|tr l s' s'' Hs IH Hl]; [done|].
  apply Forall_app in Hall as [Hall [Hli _]%Forall_cons]. rewrite <- IH by done.
  apply (step_other l s' s'' j); [by eapply Inv_steps|done|]. rewrite Hli. by intros [= <-].
Qed.

(** Several plain steps of a connection, on a state only it changes. *)
Fixpoint exec (m : Mux) (evs : list event) (c : conn) (resp : option Response) (st : St)
    : option (conn * option Response * St) :=
  match evs with
  | [] => Some (c, resp, st)
  | ev :: evs => '(c, resp, st) ← run m st ev c resp; exec m evs c resp st
  end.

Lemma exec_app m evs evs' c resp st c1 resp1 st1 : exec m evs c resp st = Some (c1, resp1, st1) →
  exec m (evs ++ evs') c resp st = exec m evs' c1 resp1 st1.
Proof.
  revert c resp st. induction evs as [|ev evs IH]; intros c resp st; cbn [exec app]; [by intros [= -> -> ->]|].
  intros ([[c' resp'] st'] & Hr & He)%bind_Some. rewrite Hr. by apply IH.
Qed.

(** What the shared parts of a server look like to a connection between its
    requests. *)
Definition sees (s : server) (i : nat) (c : conn) (resp : option Response) (m : Mux) (st : St) : Prop :=
  Inv s ∧ s_conns s !! i = Some c ∧ load s i = resp ∧ s_mux s = m ∧ s_state s = st.

Lemma exec_alone s i c evs resp m st c' resp' st' : sees s i c resp m st → Forall (λ ev, plain ev = true) evs →
  exec m evs c resp st = Some (c', resp', st') →
  ∃ s', alone i s s' ∧ sees s' i c' resp' m st' ∧ s_held s' = s_held s ∧ s_pool s' = s_pool s ∧
    ∀ a, a ∈ s_pool s → s_store s' !! a = s_store s !! a.
Proof.
  revert s c resp st. induction evs as [|ev evs IH]; intros s c resp st Hsees Hall; cbn [exec].
  { intros [= -> -> ->]. exists s. split_and!; eauto using alone_refl. }
  apply Forall_cons in Hall as [Hp Hall]. destruct Hsees as (HI & Hc & <- & <- & <-).
  intros ([[c1 resp1] st1] & Hr & He)%bind_Some. pose proof (step_conn _ _ _ _ _ _ _ Hp Hc Hr) as Hs.
  destruct (inv_conn _ HI _ _ Hc) as [_ Hid]. destruct (run_plain _ _ _ _ _ _ _ _ Hp Hr Hid) as [_ Hsome].
  edestruct IH as (s' & Hal & Hsees & Hh & Hpl & Hst); [|done|exact He|].
  - split_and!; [by eapply Inv_connStep|by cbn; rewrite lookup_insert_eq|by rewrite load_save, decide_True|done|done].
  - exists s'. split_and!; [|done|done|done|].
    + eapply alone_trans; [|exact Hal]. eapply alone_snoc; [apply alone_refl|exact Hs|done].
    + intros a Ha. rewrite Hst by done. cbn. by apply save_pooled.
Qed.

(** The loop of [HandleMessage], item by item. *)
Lemma exec_items m n i req resp st st' req' resp' out c : c_pc c = PItems n i req →
  handleItems m n i req resp st = (st', req', resp', out) →
  ∃ evs, Forall (λ ev, plain ev = true) evs ∧
    exec m evs c (Some resp) st =
      Some (match out with Ok _ => goto (PItems O (i + n) req') c | _ => abort out c end, Some resp', st').
Proof.
  revert i req resp st c. induction n as [|n IH]; intros i req resp st c Hpc; cbn [handleItems].
  { intros [= <- <- <- <-]. exists []. split; [done|]. rewrite Nat.add_0_r, <- Hpc. by destruct c. }
  assert (run m st ELookup c (Some resp) = Some (match itemOf req i with
    | Some item => goto (PCall n i (setCurrentItem i req) (handlerForOp m (rqi_Operation item))) c
    | None => finish (Ended Recovered) c end, Some resp, st)) as Hl by (unfold run; by rewrite Hpc).
  destruct (itemOf req i) as [item|].
  2: { intros [= <- <- <- <-]. exists [ELookup]. split; [by constructor|]. cbn [exec]. by rewrite Hl. }
  unfold bi. destruct (callHandler _ _ _ st) as [[st1 req1] o] eqn:Hcall.
  destruct (appendItem req1 (ptrOf req i) o resp) as [resp1 out1] eqn:Happ.
  set (c1 := goto (PCall n i (setCurrentItem i req) (handlerForOp m (rqi_Operation item))) c) in *.
  assert (run m st ECall c1 (Some resp) = Some (match out1 with
    | Ok _ => goto (PItems n (S i) req1) c1 | _ => abort out1 c1 end, Some resp1, st1)) as Hc.
  { unfold run, c1. cbn [goto c_pc]. change (ptrOf (setCurrentItem i req) i) with (ptrOf req i). by rewrite Hcall, Happ. }
  destruct out1 as [[]| | |].
  1: { intros Hh. destruct (IH (S i) req1 resp1 st1 (goto (PItems n (S i) req1) c1)) as (evs & Hall & He); [done|exact Hh|].
       exists (ELookup :: ECall :: evs). split; [by repeat constructor|]. cbn [exec]. rewrite Hl. cbn [mbind option_bind].
       rewrite Hc. cbn [mbind option_bind]. rewrite He. replace (i + S n)%nat with (S i + n)%nat by lia. by destruct out. }
  all: intros [= <- <- <- <-]; exists [ELookup; ECall]; split; [by repeat constructor|]; cbn [exec]; rewrite Hl;
    cbn [mbind option_bind]; by rewrite Hc.
Qed.

(** What a connection has done when [ServeKMIP] is about to release the response,
    or has panicked. *)
Definition written (c c' : conn) (resp' : Response) (out : res E (list byte * Response)) : Prop :=
  match out with
  | Ok (bs, r) => resp' = r ∧ ∃ pre buffered, bs = pre ++ buffered ∧ c' = goto (PPut buffered) (output pre c)
  | _ => c' = abort out c
  end.

Lemma exec_write m resp st c0 c : c = goto PWrite c0 →
  let '(resp', out) := writeResponse (E := E) dflt (ph_LogTraffic (serverHandler handler)) resp in
  ∃ c', exec m [EWrite None] c (Some resp) st = Some (c', Some resp', st) ∧
    written c0 c' resp' (bs ← out; Ok (bs, resp')).
Proof.
  intros ->. destruct (writeResponse _ _ _) as [resp' out] eqn:Hw. cbn [exec]. unfold run. cbn [goto c_pc]. rewrite Hw.
  cbn [mbind option_bind]. eexists. split; [done|]. destruct out as [bs|e| |]; cbn [mbind res_bind written]; try done.
  split; [done|]. destruct (defaultBufSize <? len bs).
  - exists bs, []. by rewrite app_nil_r.
  - exists [], bs. split; [done|]. unfold goto, output. cbn. by rewrite app_nil_r.
Qed.

(** [exec_one] runs one plain step whose result is known. *)
Lemma exec_one m ev c resp st c' resp' st' : run m st ev c resp = Some (c', resp', st') →
  exec m [ev] c resp st = Some (c', resp', st').
Proof. intros Hr. cbn [exec]. by rewrite Hr. Qed.

Lemma goto_goto pc pc' c : goto pc (goto pc' c) = goto pc c.
Proof. done. Qed.

Lemma exec_finish m req resp st i c0 :
  let '(resp', out) := finishRequest (E := E) dflt req resp in
  exec m [EFinish] (goto (PItems O i req) c0) (Some resp) st =
    Some (match out with Ok _ => goto PWrite c0 | _ => abort out c0 end, Some resp', st).
Proof.
  destruct (finishRequest dflt req resp) as [resp' out] eqn:Hf. apply exec_one. unfold run. cbn [goto c_pc].
  rewrite Hf. by destruct out.
Qed.

Lemma exec_handleRequest m now scv req resp st st' req' resp' out c : c_pc c = PBegin req →
  handleRequest dflt (standardHandler (serverHandler handler) m) now scv req resp st = (st', req', resp', out) →
  ∃ evs, Forall (λ ev, plain ev = true) evs ∧ exec m evs c (Some resp) st =
    Some (match out with Ok _ => goto PWrite c | _ => abort out c end, Some resp', st').
Proof.
  intros Hpc. unfold handleRequest. cbn [standardHandler h_ProtocolVersion h_MessageHandler].
  destruct (beginRequest _ _ _ _ _ _) as [[req1 resp1] out1] eqn:Hb.
  assert (run m st (EBegin now scv) c (Some resp) = Some (match out1 with
    | Ok true => match batchItems req1 with
                 | Some items => goto (PItems (length items) O req1) c
                 | None => finish (Ended Recovered) c end
    | Ok false => goto PWrite c
    | _ => abort out1 c end, Some resp1, st)) as Hbegin%exec_one by (unfold run; by rewrite Hpc, Hb).
  destruct out1 as [[]|e| |].
  2-5: intros [= <- _ <- <-]; exists [EBegin now scv]; split; [by repeat constructor|exact Hbegin].
  unfold HandleMessage. destruct (batchItems req1) as [items|].
  2: { intros [= <- _ <- <-]. exists [EBegin now scv]. split; [by repeat constructor|exact Hbegin]. }
  destruct (handleItems m _ _ _ _ _) as [[[st2 req2] resp2] out2] eqn:Hh.
  eapply (exec_items _ _ _ _ _ _ _ _ _ _ (goto (PItems (length items) O req1) c)) in Hh as (evs & Hall & He); [|done].
  pose proof (exec_app _ _ evs _ _ _ _ _ _ Hbegin) as Hbe. rewrite He in Hbe.
  change ([EBegin now scv] ++ evs) with (EBegin now scv :: evs) in Hbe.
  destruct out2 as [[]| | |].
  2-4: intros [= <- _ <- <-]; exists (EBegin now scv :: evs); split; [by constructor|exact Hbe].
  destruct (finishRequest dflt req2 resp2) as [resp3 out3] eqn:Hf. intros [= <- _ <- <-].
  pose proof (exec_finish m req2 resp2 st2 (0 + length items) c) as Hfin. rewrite Hf in Hfin.
  exists ((EBegin now scv :: evs) ++ [EFinish]). split; [apply Forall_app; split; by repeat constructor|].
  rewrite (exec_app _ _ [EFinish] _ _ _ _ _ _ Hbe), goto_goto. exact Hfin.
Qed.

Lemma exec_ServeKMIP m now scv pooled req st st' out c : c_pc c = PBegin req →
  ServeKMIP dflt (standardHandler (serverHandler handler) m) now scv pooled req st = (st', out) →
  ∃ evs c' resp', Forall (λ ev, plain ev = true) evs ∧
    exec m evs c (Some (newResponse pooled)) st = Some (c', Some resp', st') ∧ written c c' resp' out.
Proof.
  intros Hpc. unfold ServeKMIP.
  destruct (handleRequest _ _ _ _ _ _ _) as [[[st1 req1] resp1] out1] eqn:Hh.
  apply (exec_handleRequest _ _ _ _ _ _ _ _ _ _ _ Hpc) in Hh as (evs & Hall & He).
  destruct out1 as [[]| | |].
  2-4: intros [= <- <-]; exists evs; eexists _, _; by split_and!.
  cbn [standardHandler h_LogTraffic]. pose proof (exec_write m resp1 st1 c _ eq_refl) as Hw.
  destruct (writeResponse _ _ resp1) as [resp2 out2]. destruct Hw as (c' & Hx & Hwr). intros [= <- <-].
  exists (evs ++ [EWrite None]), c', resp2. split_and!; [|by rewrite (exec_app _ _ _ _ _ _ _ _ _ He)|done].
  apply Forall_app. by repeat constructor.
Qed.

(** The response is in the pool. *)
Definition pooledIn (s : server) (pooled : option Response) : Prop :=
  match pooled with
  | Some r => ∃ a, a ∈ s_pool s ∧ s_store s !! a = Some r
  | None => True
  end.

Lemma get_alone s i c req m st pooled : sees s i c None m st → c_pc c = PGet req → pooledIn s pooled →
  ∃ s', alone i s s' ∧ sees s' i (goto (PBegin req) c) (Some (newResponse pooled)) m st.
Proof.
  intros (HI & Hc & Hl & <- & <-) Hpc Hp.
  assert (∀ o, run (s_mux s) (s_state s) EGet c o =
    Some (goto (PBegin req) c, Some (newResponse o), s_state s)) as Hr by (intros o; unfold run; by rewrite Hpc).
  assert (∃ a s', connStep (LConn i (s_mux s) (s_state s) EGet) s s' ∧ (∀ k, s_held s !! k ≠ Some a) ∧ ∃ pool,
    s' = mkServer (<[i := goto (PBegin req) c]> (s_conns s)) (<[a := newResponse pooled]> (s_store s)) pool
           (<[i := a]> (s_held s)) (s_mux s) (s_state s)) as (a & s' & Hs & Ha & pool & ->).
  { destruct pooled as [r|]; cbn [pooledIn] in Hp.
    - destruct Hp as (a & Ha & Hra). pose proof Ha as (before & after & Hpool)%list_elem_of_split. exists a. eexists.
      split_and!; [|by intros k; apply pool_unheld|by eexists]. eapply step_get_pooled; [done..|]. by rewrite Hra.
    - exists (fresh (dom (s_store s))). eexists.
      assert (s_store s !! fresh (dom (s_store s)) = None) as Hf by (apply not_elem_of_dom, is_fresh).
      split_and!; [by eapply step_get_new|by intros k; apply new_unheld|by eexists]. }
  eexists. split; [eapply alone_snoc; [apply alone_refl|exact Hs|done]|]. split_and!.
  - by eapply Inv_connStep.
  - cbn. by rewrite lookup_insert_eq.
  - by rewrite load_take, decide_True.
  - done.
  - done.
Qed.

Lemma put_alone s i c buffered m st r : sees s i c (Some r) m st → c_pc c = PPut buffered →
  ∃ s', alone i s s' ∧ sees s' i (goto (PFlush buffered) c) None m st ∧ pooledIn s' (Some r).
Proof.
  intros (HI & Hc & Hl & <- & <-) Hpc. pose proof Hl as (a & Hh & Hra)%bind_Some.
  assert (run (s_mux s) (s_state s) EPut c (load s i) = Some (goto (PFlush buffered) c, None, s_state s)) as Hr
    by (unfold run; by rewrite Hpc, Hl).
  pose proof (step_put _ _ _ _ _ _ _ Hc Hh Hr) as Hs. eexists. split_and!.
  - eapply alone_snoc; [apply alone_refl|exact Hs|done].
  - split_and!; [by eapply Inv_connStep|by cbn; rewrite lookup_insert_eq|by rewrite load_drop, decide_True|done|done].
  - exists a. split; [set_solver|done].
Qed.

Lemma flush_alone s i c buffered m st pooled : sees s i (goto (PFlush buffered) c) None m st → pooledIn s pooled →
  ∃ s', alone i s s' ∧ sees s' i (goto PRead (output buffered c)) None m st ∧ pooledIn s' pooled.
Proof.
  intros Hsees Hp.
  destruct (exec_alone s i (goto (PFlush buffered) c) [EFlush None] None m st (goto PRead (output buffered c)) None st)
    as (s' & Hal & Hsees' & _ & Hpl & Hst); [done|by repeat constructor| |].
  { apply exec_one. destruct buffered as [|b bs]; [|done]. unfold run, goto, output. cbn. by rewrite app_nil_r. }
  exists s'. split_and!; [done|done|]. destruct pooled as [r|]; [|done]. destruct Hp as (a & Ha & Hra). exists a.
  rewrite Hpl, Hst; done.
Qed.

(** A request and its answer. *)
Lemma ServeKMIP_alone s i c req m st st' out now scv pooled : sees s i c None m st → c_pc c = PGet req →
  pooledIn s pooled → ServeKMIP dflt (standardHandler (serverHandler handler) m) now scv pooled req st = (st', out) →
  ∃ s', alone i s s' ∧ match out with
    | Ok (bs, r) => sees s' i (goto PRead (output bs c)) None m st' ∧ pooledIn s' (Some r)
    | _ => ∃ resp, sees s' i (abort out c) resp m st'
    end.
Proof.
  intros Hsees Hpc Hp Hk. destruct (get_alone _ _ _ _ _ _ _ Hsees Hpc Hp) as (s1 & Ha1 & Hs1).
  destruct (exec_ServeKMIP m now scv pooled req st st' out (goto (PBegin req) c)) as (evs & c' & r' & Hall & He & Hw);
    [done|done|].
  destruct (exec_alone _ _ _ _ _ _ _ _ _ _ Hs1 Hall He) as (s2 & Ha2 & Hs2 & _).
  pose proof (alone_trans _ _ _ _ Ha1 Ha2) as Ha12. destruct out as [[bs r]|e| |]; cbn [written] in Hw.
  2-4: subst c'; exists s2; split; [exact Ha12|by eexists].
  destruct Hw as (-> & pre & buffered & -> & ->).
  destruct (put_alone _ _ _ buffered _ _ _ Hs2) as (s3 & Ha3 & Hs3 & Hp3); [done|].
  rewrite goto_goto in Hs3. change (output pre (goto (PBegin req) c)) with (goto (PBegin req) (output pre c)) in Hs3.
  rewrite goto_goto in Hs3. destruct (flush_alone _ _ _ _ _ _ _ Hs3 Hp3) as (s4 & Ha4 & Hs4 & Hp4).
  exists s4. split; [eauto using alone_trans|]. split; [|exact Hp4].
  unfold output, goto in *. cbn in *. by rewrite <- app_assoc in Hs4.
Qed.

(** [serve] is what a connection does when no other runs. *)
Lemma serve_alone_from m env remote loc fuel k r pool st st' outs fin s i c :
  sees s i c None m st → c_pc c = PRead → c_in c = r → c_remoteAddr c = remote → c_localAddr c = loc → pooledIn s pool →
  serve dflt (standardHandler (serverHandler handler) m) env remote loc fuel k r pool st = (st', outs, fin) →
  fin ≠ ServeOutOfFuel →
  ∃ s' c' resp, alone i s s' ∧ sees s' i c' resp m st' ∧ c_pc c' = PEnd (Ended fin) ∧ c_out c' = c_out c ++ concat outs.
Proof.
  revert k r pool st outs s c. induction fuel as [|fuel IH]; intros k r pool st outs s c Hsees Hpc <- Hrem Hloc Hp Hserve Hfin;
    cbn [serve] in Hserve; [by injection Hserve as <- <- <-|].
  destruct (NextTTLV (c_in c)) as [r1 t] eqn:Hn.
  edestruct (exec_alone s i c [ERead false] None m st) as (s1 & Ha1 & Hs1 & _ & Hpl & Hst);
    [done|by repeat constructor|by apply exec_one; unfold run; rewrite Hpc, Hn|].
  destruct t as [t|[|]| |].
  2-5: injection Hserve as <- <- <-; try done; exists s1; eexists _, _; (split_and!; [done|done|done|by cbn; rewrite app_nil_r]).
  cbn [rest c_remoteAddr c_localAddr] in Hs1. rewrite Hrem, Hloc in Hs1.
  set (pooled := if env_pool env k then pool else None) in *.
  assert (pooledIn s1 pooled) as Hp1.
  { unfold pooled. destruct (env_pool env k), pool as [r0|]; try done. destruct Hp as (a & Ha & Hra). exists a.
    by rewrite Hpl, Hst. }
  destruct (ServeKMIP _ _ _ _ _ _ _) as [st1 out] eqn:Hk.
  destruct (ServeKMIP_alone _ _ _ _ _ _ _ _ _ _ _ Hs1 eq_refl Hp1 Hk) as (s2 & Ha2 & Hs2).
  pose proof (alone_trans _ _ _ _ Ha1 Ha2) as Ha12. destruct out as [[bs r2]|e| |].
  2-4: injection Hserve as <- <- <-; try done; destruct Hs2 as [resp Hs2]; exists s2; eexists _, _;
    (split_and!; [done|exact Hs2|done|by cbn; rewrite app_nil_r]).
  destruct (serve _ _ _ _ _ fuel _ _ _ _) as [[st2 outs2] fin2] eqn:Hrest. injection Hserve as -> <- ->.
  destruct Hs2 as [Hs2 Hp2].
  edestruct (IH (S k) r1 (Some r2) st1 outs2 s2) as (s3 & c3 & resp & Ha3 & Hs3 & Hpc3 & Hout3);
    [exact Hs2|done|done|done|done|exact Hp2|exact Hrest|done|].
  exists s3, c3, resp. split_and!; [by eapply alone_trans|done|done|]. rewrite Hout3. cbn. by rewrite app_assoc.
Qed.
End Connection.

(** * Schedules *)

(** The steps as a function of what the scheduler and the pool choose: [Get] finds
    the response at a position of the pool, or a new address. *)
Inductive choice {E St : Type} : Type :=
  | Accept (i : nat) (r : reader) (remote loc : string)
  | Run (i : nat) (ev : event)
  | Get (i : nat) (pooled : option nat)
  | Put (i : nat)
  | Handle (op : Z) (h : ItemHandler (E := E) (St := St))
  | Collect.

Section Schedule.
Context {E : Type} `{Merry E} {St : Type} (dflt : Registry) (handler : option protocolHandler).

Definition choose (ch : choice) (s : server (E := E) (St := St)) : option (label * server) :=
  let l i ev := LConn i (s_mux s) (s_state s) ev in
  match ch with
  | Accept i r remote loc =>
      match s_conns s !! i with
      | None => Some (LAccept i r remote loc,
          mkServer (<[i := newConn r remote loc]> (s_conns s)) (s_store s) (s_pool s) (s_held s) (s_mux s) (s_state s))
      | Some _ => None
      end
  | Run i ev =>
      if plain ev then
        c ← s_conns s !! i;
        '(c', resp, st') ← run dflt handler (s_mux s) (s_state s) ev c (load s i);
        Some (l i ev, mkServer (<[i := c']> (s_conns s)) (save s i resp) (s_pool s) (s_held s) (s_mux s) st')
      else None
  | Get i (Some n) =>
      c ← s_conns s !! i;
      a ← s_pool s !! n;
      '(c', resp, st') ← run dflt handler (s_mux s) (s_state s) EGet c (s_store s !! a);
      r ← resp;
      Some (l i EGet, mkServer (<[i := c']> (s_conns s)) (<[a := r]> (s_store s)) (take n (s_pool s) ++ drop (S n) (s_pool s))
                        (<[i := a]> (s_held s)) (s_mux s) st')
  | Get i None =>
      let a := fresh (dom (s_store s)) in
      c ← s_conns s !! i;
      '(c', resp, st') ← run dflt handler (s_mux s) (s_state s) EGet c None;
      r ← resp;
      Some (l i EGet, mkServer (<[i := c']> (s_conns s)) (<[a := r]> (s_store s)) (s_pool s) (<[i := a]> (s_held s))
                        (s_mux s) st')
  | Put i =>
      c ← s_conns s !! i;
      a ← s_held s !! i;
      '(c', resp, st') ← run dflt handler (s_mux s) (s_state s) EPut c (load s i);
      Some (l i EPut, mkServer (<[i := c']> (s_conns s)) (s_store s) (a :: s_pool s) (delete i (s_held s)) (s_mux s) st')
  | Handle op h =>
      Some (LHandle op h,
        mkServer (s_conns s) (s_store s) (s_pool s) (s_held s) (OperationMux_Handle (s_mux s) op h) (s_state s))
  | Collect => Some (LCollect, mkServer (s_conns s) (s_store s) [] (s_held s) (s_mux s) (s_state s))
  end.

Lemma choose_step ch s l s' : choose ch s = Some (l, s') → connStep dflt handler l s s'.
Proof.
  destruct ch as [i r remote loc|i ev|i [n|]|i|op h|]; cbn [choose].
  - case_match; [done|]. intros [= <- <-]. by constructor.
  - destruct (plain ev) eqn:Hp; [|done]. intros (c & Hc & ([[c' resp] st'] & Hr & [= <- <-])%bind_Some)%bind_Some.
    by eapply step_conn.
  - intros (c & Hc & (a & Ha & ([[c' resp] st'] & Hr & (r & -> & [= <- <-])%bind_Some)%bind_Some)%bind_Some)%bind_Some.
    eapply step_get_pooled; [done| |done]. by rewrite take_drop_middle.
  - intros (c & Hc & ([[c' resp] st'] & Hr & (r & -> & [= <- <-])%bind_Some)%bind_Some)%bind_Some.
    eapply step_get_new; [done| |done]. apply not_elem_of_dom, is_fresh.
  - intros (c & Hc & (a & Ha & ([[c' resp] st'] & Hr & [= <- <-])%bind_Some)%bind_Some)%bind_Some. by eapply step_put.
  - intros [= <- <-]. constructor.
  - intros [= <- <-]. constructor.
Qed.

Fixpoint schedule (chs : list choice) (tr : list label) (s : server (E := E) (St := St)) : option (list label * server) :=
  match chs with
  | [] => Some (tr, s)
  | ch :: chs => '(l, s) ← choose ch s; schedule chs (tr ++ [l]) s
  end.

Lemma schedule_steps s0 chs tr s tr' s' : connSteps dflt handler s0 tr s → schedule chs tr s = Some (tr', s') →
  connSteps dflt handler s0 tr' s'.
Proof.
  revert tr s. induction chs as [|ch chs IH]; intros tr s Hs; cbn [schedule]; [by intros [= <- <-]|].
  intros ([l s1] & Hch%choose_step & Hrest)%bind_Some. eapply IH; [|exact Hrest]. by econstructor.
Qed.
End Schedule.

(** Two connections in turns: the second, which is accepted while the first waits
    for its handler, takes the response that the first has released. *)
Definition sampleSchedule : list (choice (E := simpleError) (St := nat)) :=
  let r := mkReader plainRequest [] in
  [Accept 0 r "a" ""; Run 0 (EStart true); Run 0 (ERead false); Get 0 None; Run 0 (EBegin sampleNow "x");
   Accept 1 r "b" ""; Run 1 (EStart true); Run 0 ELookup; Run 1 (ERead false); Run 0 ECall; Run 0 EFinish;
   Run 0 (EWrite None); Put 0; Get 1 (Some 0%nat); Run 1 (EBegin sampleNow "y"); Run 0 (EFlush None); Run 0 (ERead false);
   Run 1 ELookup; Run 1 ECall; Run 1 EFinish; Run 1 (EWrite None)].

Definition sampleRun : option (list label * server) :=
  schedule messageRegistry None sampleSchedule [] (newServer countMux 0%nat).

(** * Properties *)

(** C9. In every run of a server, whatever its connections, the registrations of
    handlers and the garbage collector do in between: a response is held by at
    most one connection, a response that is held is not in the pool, none is in
    the pool twice; a connection has been closed once when its goroutine has
    ended, also after a panic, and not before; and until then it can take a step,
    whatever the others do. *)
Theorem responses_owned {E} `{Merry E} {St} dflt handler (m : OperationMux (E := E) (St := St)) st tr s :
  connSteps dflt handler (newServer m st) tr s →
  (∀ i j a, s_held s !! i = Some a → s_held s !! j = Some a → i = j) ∧
  (∀ i a, s_held s !! i = Some a → a ∉ s_pool s) ∧ NoDup (s_pool s) ∧
  (∀ i c, s_conns s !! i = Some c → c_closed c = match c_pc c with PEnd _ => 1%nat | _ => 0%nat end) ∧
  ∀ i c, s_conns s !! i = Some c → (∀ o, c_pc c ≠ PEnd o) → ∃ l s', labelOf l = Some i ∧ connStep dflt handler l s s'.
Proof.
  intros Hs. pose proof (Inv_steps _ _ _ _ _ Hs (Inv_new m st)) as HI. split_and!.
  - apply (inv_unshared _ HI).
  - intros i a Hi. by destruct (inv_held _ HI _ _ Hi) as (_ & _ & Hn).
  - apply (inv_pool _ HI).
  - intros i c Hc. by apply (inv_conn _ HI) in Hc as [Hc _].
  - intros i c. by apply conn_progress.
Qed.

Lemma responses_owned_witness :
  ∃ tr s, sampleRun = Some (tr, s) ∧ s_held s !! 1%nat = Some 0%nat ∧ s_state s = 2%nat ∧
    (∀ i j a, s_held s !! i = Some a → s_held s !! j = Some a → i = j).
Proof.
  assert ((λ p, (s_held p.2 !! 1%nat, s_state p.2)) <$> sampleRun = Some (Some 0%nat, 2%nat)) as Hv by (vm_compute; reflexivity).
  destruct sampleRun as [[tr s]|] eqn:Hs; [|discriminate Hv]. injection Hv as Hheld Hstate.
  exists tr, s. split_and!; [reflexivity|exact Hheld|exact Hstate|].
  exact (proj1 (responses_owned messageRegistry None countMux 0%nat tr s (schedule_steps _ _ _ _ _ _ _ _ (steps_nil _ _ _) Hs))).
Defined.

(** C7. Connections do not interfere through the responses they recycle: in every
    run of a server, every connection is where it gets on its own, with new
    responses only, from the bytes it was accepted with, the values it took from
    its environment, and the handlers and states its items saw.  So are the bytes
    written to it. *)
Theorem connections_isolated {E} `{Merry E} {St} dflt handler (m : OperationMux (E := E) (St := St)) st tr s i c :
  connSteps dflt handler (newServer m st) tr s → s_conns s !! i = Some c →
  ∃ r remote loc, LAccept i r remote loc ∈ tr ∧
    replay dflt handler (history i tr) (newConn r remote loc) None = Some (c, load s i).
Proof. intros Hs Hc. pose proof (steps_replay _ _ _ _ _ _ Hs i) as Hr. by rewrite Hc in Hr. Qed.

Lemma connections_isolated_witness :
  ∃ tr s c, sampleRun = Some (tr, s) ∧ s_conns s !! 0%nat = Some c ∧ c_pc c = PEnd (Ended ClientClosed) ∧ c_out c ≠ [] ∧
    ∃ r remote loc, LAccept 0 r remote loc ∈ tr ∧
      replay messageRegistry None (history 0 tr) (newConn r remote loc) None = Some (c, load s 0).
Proof.
  assert ((λ p, (λ c, (c_pc c, bool_decide (c_out c = []))) <$> s_conns p.2 !! 0%nat) <$> sampleRun =
    Some (Some (PEnd (Ended ClientClosed), false))) as Hv by (vm_compute; reflexivity).
  destruct sampleRun as [[tr s]|] eqn:Hs; [|discriminate Hv]. cbn [fmap option_fmap option_map snd] in Hv.
  destruct (s_conns s !! 0%nat) as [c|] eqn:Hc; [|discriminate Hv]. injection Hv as Hpc Hout.
  exists tr, s, c. split_and!; [reflexivity|exact Hc|exact Hpc|by apply bool_decide_eq_false in Hout|].
  exact (connections_isolated messageRegistry None countMux 0%nat tr s 0%nat c
    (schedule_steps _ _ _ _ _ _ _ _ (steps_nil _ _ _) Hs) Hc).
Defined.

(** C8. The server has the runs that the sequential model of a connection
    describes: wherever a server has got to, a new connection can be served to
    its end without a step of another; what is written to it, how it ends and the
    state behind the handlers are then those of [serve], with the handler of the
    server or the default one, and the other connections are where they were. *)
Theorem serve_alone {E} `{Merry E} {St} dflt handler (m : OperationMux (E := E) (St := St)) st tr s
    i r remote loc env fuel st' outs fin :
  connSteps dflt handler (newServer m st) tr s → s_conns s !! i = None →
  serve dflt (standardHandler (serverHandler handler) (s_mux s)) env remote loc fuel O r None (s_state s)
    = (st', outs, fin) → fin ≠ ServeOutOfFuel →
  ∃ tr' s' c, connSteps dflt handler s tr' s' ∧ s_conns s' !! i = Some c ∧ c_pc c = PEnd (Ended fin) ∧
    c_out c = concat outs ∧ s_state s' = st' ∧ ∀ j, j ≠ i → s_conns s' !! j = s_conns s !! j.
Proof.
  intros Hs Hi Hserve Hfin. pose proof (Inv_steps _ _ _ _ _ Hs (Inv_new m st)) as HI.
  pose proof (step_accept dflt handler i r remote loc s Hi) as Hacc.
  pose proof (Inv_connStep _ _ _ _ _ Hacc HI) as HI1. set (s1 := mkServer _ _ _ _ _ _) in *.
  assert (s_conns s1 !! i = Some (newConn r remote loc)) as Hc1 by (cbn; by rewrite lookup_insert_eq).
  assert (load s1 i = None) as Hl1 by (by apply (inv_conn _ HI1) in Hc1 as [_ Hid]).
  edestruct (exec_alone dflt handler s1 i (newConn r remote loc) [EStart true] None (s_mux s) (s_state s))
    as (s2 & Ha2 & Hs2 & _); [by split_and!|by repeat constructor|done|].
  edestruct (serve_alone_from dflt handler (s_mux s) env remote loc fuel O r None (s_state s) st' outs fin s2 i)
    as (s3 & c & resp & Ha3 & (_ & Hc3 & _ & _ & Hst) & Hpc & Hout); [exact Hs2|done..|].
  assert (alone dflt handler i s s3) as (tr' & Hst' & Hall).
  { eapply alone_trans; [|eapply alone_trans; [exact Ha2|exact Ha3]]. eapply alone_snoc; [apply alone_refl|exact Hacc|done]. }
  exists tr', s3, c. split_and!; [done..|]. intros j Hj. by eapply steps_others.
Qed.

Lemma serve_alone_witness :
  ∃ tr' s' c, connSteps messageRegistry None (newServer countMux 0%nat) tr' s' ∧ s_conns s' !! 7%nat = Some c ∧
    c_pc c = PEnd (Ended ClientClosed) ∧ s_state s' = 1%nat.
Proof.
  set (env := mkEnv (λ _, sampleNow) (λ _, "scv"%string) (λ _, true)).
  assert ((λ p, (p.1.1, p.2)) (serve messageRegistry (standardHandler (serverHandler None) countMux) env "a" "b" 5 O
    (mkReader plainRequest []) None 0%nat) = (1%nat, ClientClosed)) as Hv by (vm_compute; reflexivity).
  destruct (serve _ _ _ _ _ _ _ _ _ _) as [[st' outs] fin] eqn:Hs. injection Hv as -> ->.
  destruct (serve_alone messageRegistry None countMux 0%nat [] (newServer countMux 0%nat) 7%nat (mkReader plainRequest [])
    "a" "b" env 5%nat 1%nat outs ClientClosed) as (tr' & s' & c & H1 & H2 & H3 & _ & H5 & _);
    [constructor|reflexivity|exact Hs|done|]. exists tr', s', c. repeat split; [exact H1|exact H2|exact H3|exact H5].
Defined.
