(* ===== verification/Objects.v ===== *)
(** Attributes and the operation handlers of package kmip: TemplateAttribute of
    src/base_objects.go and the handlers of src/op_create.go,
    src/op_register.go, src/op_get.go, src/op_destroy.go,
    src/op_discover_versions.go and src/kmip20/op_locate.go; what they look up,
    what they validate, and how their errors reach the client. *)
From Stdlib Require Import ZArith Lia Strings.Byte Ascii String.
From stdpp Require Import base list strings numbers gmap pretty.
From S2P Require Import Prelude Ttlv Grammar EncBuf Hex Names Registry Formatting Generated Kmip14 Kmip20 DefaultRegistry Reflect Encoder Stream Decoder DecoderSound Messages Server ServerSpec.
Local Open Scope Z_scope.
Set Warnings "-register-all".

(** * Go types of the objects *)

Definition bigIntPtrType : gotype := TPtr bigIntType.

Definition attributeType : gotype :=
  kmipStruct "Attribute"
    [fld "AttributeName" stringType; fldOmit "AttributeIndex" intType; fld "AttributeValue" emptyInterface].
Definition nameType : gotype :=
  kmipStruct "Name" [fld "NameValue" stringType; fld "NameType" (enum14 "NameType")].
Definition templateAttributeType : gotype :=
  kmipStruct "TemplateAttribute" [fld "Name" (sliceOf nameType); fld "Attribute" (sliceOf attributeType)].

Definition cryptographicParametersType : gotype :=
  kmipStruct "CryptographicParameters"
    [fldOmit "BlockCipherMode" (enum14 "BlockCipherMode");
     fldOmit "PaddingMethod" (enum14 "PaddingMethod");
     fldOmit "HashingAlgorithm" (enum14 "HashingAlgorithm");
     fldOmit "KeyRoleType" (enum14 "KeyRoleType");
     fldOmit "DigitalSignatureAlgorithm" (enum14 "DigitalSignatureAlgorithm");
     fldOmit "CryptographicAlgorithm" (enum14 "CryptographicAlgorithm");
     fldOmit "RandomIV" boolType;
     fldOmit "IVLength" intType;
     fldOmit "TagLength" intType;
     fldOmit "FixedFieldLength" intType;
     fldOmit "InvocationFieldLength" intType;
     fldOmit "CounterLength" intType;
     fldOmit "InitialCounterValue" intType;
     fldOmit "SaltLength" intType;
     fldOmit "MaskGenerator" (enum14 "MaskGenerator");
     fldOmit "MaskGeneratorHashingAlgorithm" (enum14 "HashingAlgorithm");
     fldOmit "PSource" bytesType;
     fldOmit "TrailerField" intType].
Definition encryptionKeyInformationType : gotype :=
  kmipStruct "EncryptionKeyInformation"
    [fld "UniqueIdentifier" stringType; fld "CryptographicParameters" (TPtr cryptographicParametersType)].
Definition macSignatureKeyInformationType : gotype :=
  kmipStruct "MACSignatureKeyInformation"
    [fld "UniqueIdentifier" stringType; fld "CryptographicParameters" (TPtr cryptographicParametersType)].
Definition keyWrappingDataType : gotype :=
  kmipStruct "KeyWrappingData"
    [fld "WrappingMethod" (enum14 "WrappingMethod");
     fld "EncryptionKeyInformation" (TPtr encryptionKeyInformationType);
     fld "MACSignatureKeyInformation" (TPtr macSignatureKeyInformationType);
     fld "MACSignature" bytesType;
     fld "IVCounterNonce" bytesType;
     fldOmit "EncodingOption" (enum14 "EncodingOption")].
Definition keyValueType : gotype :=
  kmipStruct "KeyValue" [fld "KeyMaterial" emptyInterface; fld "Attribute" (sliceOf attributeType)].
Definition keyBlockType : gotype :=
  kmipStruct "KeyBlock"
    [fld "KeyFormatType" (enum14 "KeyFormatType");
     fldOmit "KeyCompressionType" (enum14 "KeyCompressionType");
     fldOmit "KeyValue" (TPtr keyValueType);
     fldOmit "CryptographicAlgorithm" (enum14 "CryptographicAlgorithm");
     fldOmit "CryptographicLength" intType;
     fld "KeyWrappingData" (TPtr keyWrappingDataType)].

Definition certificateType : gotype :=
  kmipStruct "Certificate"
    [fld "CertificateType" (enum14 "CertificateType"); fld "CertificateValue" bytesType].
Definition symmetricKeyType : gotype := kmipStruct "SymmetricKey" [fld "KeyBlock" keyBlockType].
Definition publicKeyType : gotype := kmipStruct "PublicKey" [fld "KeyBlock" keyBlockType].
Definition privateKeyType : gotype := kmipStruct "PrivateKey" [fld "KeyBlock" keyBlockType].
Definition splitKeyType : gotype :=
  kmipStruct "SplitKey"
    [fld "SplitKeyParts" intType; fld "KeyPartIdentifier" intType; fld "SplitKeyThreshold" intType;
     fld "SplitKeyMethod" (enum14 "SplitKeyMethod"); fldOmit "PrimeFieldSize" bigIntPtrType;
     fld "KeyBlock" keyBlockType].
Definition templateType : gotype := kmipStruct "Template" [fld "Attribute" (sliceOf attributeType)].
Definition secretDataType : gotype :=
  kmipStruct "SecretData" [fld "SecretDataType" (enum14 "SecretDataType"); fld "KeyBlock" keyBlockType].
Definition opaqueObjectType : gotype :=
  kmipStruct "OpaqueObject"
    [fld "OpaqueDataType" (enum14 "OpaqueDataType"); fld "OpaqueDataValue" bytesType].

(** The fields of the Register request and the Get response that hold the
    object. *)
Definition objectFields : list sfield :=
  [fld "Certificate" (TPtr certificateType); fld "SymmetricKey" (TPtr symmetricKeyType);
   fld "PrivateKey" (TPtr privateKeyType); fld "PublicKey" (TPtr publicKeyType);
   fld "SplitKey" (TPtr splitKeyType); fld "Template" (TPtr templateType);
   fld "SecretData" (TPtr secretDataType); fld "OpaqueObject" (TPtr opaqueObjectType)].

Definition createRequestPayloadType : gotype :=
  kmipStruct "CreateRequestPayload"
    [fld "ObjectType" (enum14 "ObjectType"); fld "TemplateAttribute" templateAttributeType].
Definition createResponsePayloadType : gotype :=
  kmipStruct "CreateResponsePayload"
    [fld "ObjectType" (enum14 "ObjectType"); fld "UniqueIdentifier" stringType;
     fld "TemplateAttribute" (TPtr templateAttributeType)].
Definition registerRequestPayloadType : gotype :=
  kmipStruct "RegisterRequestPayload"
    ([fld "ObjectType" (enum14 "ObjectType"); fld "TemplateAttribute" templateAttributeType] ++ objectFields).
Definition registerResponsePayloadType : gotype :=
  kmipStruct "RegisterResponsePayload"
    [fld "UniqueIdentifier" stringType; fld "TemplateAttribute" templateAttributeType].
Definition getRequestPayloadType : gotype :=
  kmipStruct "GetRequestPayload" [fld "UniqueIdentifier" stringType].
Definition getResponsePayloadType : gotype :=
  kmipStruct "GetResponsePayload"
    ([fld "ObjectType" (enum14 "ObjectType"); fld "UniqueIdentifier" stringType] ++ objectFields).
Definition destroyRequestPayloadType : gotype :=
  kmipStruct "DestroyRequestPayload" [fld "UniqueIdentifier" stringType].
Definition destroyResponsePayloadType : gotype :=
  kmipStruct "DestroyResponsePayload" [fld "UniqueIdentifier" stringType].
Definition discoverVersionsRequestPayloadType : gotype :=
  kmipStruct "DiscoverVersionsRequestPayload" [fld "ProtocolVersion" (sliceOf protocolVersionType)].
Definition discoverVersionsResponsePayloadType : gotype :=
  kmipStruct "DiscoverVersionsResponsePayload" [fld "ProtocolVersion" (sliceOf protocolVersionType)].
Definition locateRequestPayloadType : gotype :=
  TStruct (named "github.com/gemalto/kmip-go/kmip20" "LocateRequestPayload") [fld "Attributes" emptyInterface].
Definition locateResponsePayloadType : gotype :=
  TStruct (named "github.com/gemalto/kmip-go/kmip20" "LocateResponsePayload") [fld "UniqueIdentifier" stringType].

(** * Structs *)

Record Attribute := mkAttribute {
  AttributeName : string;
  AttributeIndex : Z;
  AttributeValue : option rvalue;
}.

(** [Name] stays a reflection value. *)
Record TemplateAttribute := mkTemplateAttribute {
  ta_Name : gov;
  ta_Attribute : option (list Attribute);
}.

(** The eight object pointers of a payload; the objects stay reflection
    values. *)
Record objectPtrs := mkObjects {
  op_Certificate : option gov;
  op_SymmetricKey : option gov;
  op_PrivateKey : option gov;
  op_PublicKey : option gov;
  op_SplitKey : option gov;
  op_Template : option gov;
  op_SecretData : option gov;
  op_OpaqueObject : option gov;
}.

Record CreateRequestPayload := mkCreateRequest {
  crq_ObjectType : Z;
  crq_TemplateAttribute : TemplateAttribute;
}.
Record CreateResponsePayload := mkCreateResponse {
  crs_ObjectType : Z;
  crs_UniqueIdentifier : string;
  crs_TemplateAttribute : option TemplateAttribute;
}.
Record RegisterRequestPayload := mkRegisterRequest {
  rrq_ObjectType : Z;
  rrq_TemplateAttribute : TemplateAttribute;
  rrq_Objects : objectPtrs;
}.
Record RegisterResponsePayload := mkRegisterResponse {
  rrs_UniqueIdentifier : string;
  rrs_TemplateAttribute : TemplateAttribute;
}.
Record GetRequestPayload := mkGetRequest { grq_UniqueIdentifier : string }.
Record GetResponsePayload := mkGetResponse {
  grs_ObjectType : Z;
  grs_UniqueIdentifier : string;
  grs_Objects : objectPtrs;
}.
Record DestroyRequestPayload := mkDestroyRequest { drq_UniqueIdentifier : string }.
Record DestroyResponsePayload := mkDestroyResponse { drs_UniqueIdentifier : string }.
Record DiscoverVersionsRequestPayload := mkDiscoverRequest { dvq_ProtocolVersion : option (list ProtocolVersion) }.
Record DiscoverVersionsResponsePayload := mkDiscoverResponse { dvs_ProtocolVersion : option (list ProtocolVersion) }.
Record LocateRequestPayload := mkLocateRequest { lrq_Attributes : option rvalue }.
Record LocateResponsePayload := mkLocateResponse { lrs_UniqueIdentifier : string }.

#[export] Instance Attribute_go : GoStruct Attribute := {
  goType := attributeType;
  toGo a := VStruct [VString (AttributeName a); VInt (AttributeIndex a); VIface (AttributeValue a)];
  ofGo v := match v with
    | VStruct [VString n; VInt i; VIface x] => Some (mkAttribute n i x)
    | _ => None
    end;
}.

#[export] Instance TemplateAttribute_go : GoStruct TemplateAttribute := {
  goType := templateAttributeType;
  toGo t := VStruct [ta_Name t; toSlice (ta_Attribute t)];
  ofGo v := match v with
    | VStruct [n; a] => a ← ofSlice a; Some (mkTemplateAttribute n a)
    | _ => None
    end;
}.

Definition objectsToGo (o : objectPtrs) : list gov :=
  [VPtr (op_Certificate o); VPtr (op_SymmetricKey o); VPtr (op_PrivateKey o); VPtr (op_PublicKey o);
   VPtr (op_SplitKey o); VPtr (op_Template o); VPtr (op_SecretData o); VPtr (op_OpaqueObject o)].
Definition objectsOfGo (l : list gov) : option objectPtrs :=
  match l with
  | [VPtr a; VPtr b; VPtr c; VPtr d; VPtr e; VPtr f; VPtr g; VPtr h] => Some (mkObjects a b c d e f g h)
  | _ => None
  end.

#[export] Instance CreateRequestPayload_go : GoStruct CreateRequestPayload := {
  goType := createRequestPayloadType;
  toGo p := VStruct [VUint (crq_ObjectType p); toGo (crq_TemplateAttribute p)];
  ofGo v := match v with
    | VStruct [VUint o; t] => t ← ofGo t; Some (mkCreateRequest o t)
    | _ => None
    end;
}.
#[export] Instance CreateResponsePayload_go : GoStruct CreateResponsePayload := {
  goType := createResponsePayloadType;
  toGo p := VStruct [VUint (crs_ObjectType p); VString (crs_UniqueIdentifier p);
                     VPtr (toGo <$> crs_TemplateAttribute p)];
  ofGo v := match v with
    | VStruct [VUint o; VString u; VPtr None] => Some (mkCreateResponse o u None)
    | VStruct [VUint o; VString u; VPtr (Some t)] => t ← ofGo t; Some (mkCreateResponse o u (Some t))
    | _ => None
    end;
}.
#[export] Instance RegisterRequestPayload_go : GoStruct RegisterRequestPayload := {
  goType := registerRequestPayloadType;
  toGo p := VStruct (VUint (rrq_ObjectType p) :: toGo (rrq_TemplateAttribute p) :: objectsToGo (rrq_Objects p));
  ofGo v := match v with
    | VStruct (VUint o :: t :: objs) => t ← ofGo t; objs ← objectsOfGo objs; Some (mkRegisterRequest o t objs)
    | _ => None
    end;
}.
#[export] Instance RegisterResponsePayload_go : GoStruct RegisterResponsePayload := {
  goType := registerResponsePayloadType;
  toGo p := VStruct [VString (rrs_UniqueIdentifier p); toGo (rrs_TemplateAttribute p)];
  ofGo v := match v with
    | VStruct [VString u; t] => t ← ofGo t; Some (mkRegisterResponse u t)
    | _ => None
    end;
}.
#[export] Instance GetRequestPayload_go : GoStruct GetRequestPayload := {
  goType := getRequestPayloadType;
  toGo p := VStruct [VString (grq_UniqueIdentifier p)];
  ofGo v := match v with VStruct [VString u] => Some (mkGetRequest u) | _ => None end;
}.
#[export] Instance GetResponsePayload_go : GoStruct GetResponsePayload := {
  goType := getResponsePayloadType;
  toGo p := VStruct (VUint (grs_ObjectType p) :: VString (grs_UniqueIdentifier p) :: objectsToGo (grs_Objects p));
  ofGo v := match v with
    | VStruct (VUint o :: VString u :: objs) => objs ← objectsOfGo objs; Some (mkGetResponse o u objs)
    | _ => None
    end;
}.
#[export] Instance DestroyRequestPayload_go : GoStruct DestroyRequestPayload := {
  goType := destroyRequestPayloadType;
  toGo p := VStruct [VString (drq_UniqueIdentifier p)];
  ofGo v := match v with VStruct [VString u] => Some (mkDestroyRequest u) | _ => None end;
}.
#[export] Instance DestroyResponsePayload_go : GoStruct DestroyResponsePayload := {
  goType := destroyResponsePayloadType;
  toGo p := VStruct [VString (drs_UniqueIdentifier p)];
  ofGo v := match v with VStruct [VString u] => Some (mkDestroyResponse u) | _ => None end;
}.
#[export] Instance DiscoverVersionsRequestPayload_go : GoStruct DiscoverVersionsRequestPayload := {
  goType := discoverVersionsRequestPayloadType;
  toGo p := VStruct [toSlice (dvq_ProtocolVersion p)];
  ofGo v := match v with VStruct [l] => l ← ofSlice l; Some (mkDiscoverRequest l) | _ => None end;
}.
#[export] Instance DiscoverVersionsResponsePayload_go : GoStruct DiscoverVersionsResponsePayload := {
  goType := discoverVersionsResponsePayloadType;
  toGo p := VStruct [toSlice (dvs_ProtocolVersion p)];
  ofGo v := match v with VStruct [l] => l ← ofSlice l; Some (mkDiscoverResponse l) | _ => None end;
}.
#[export] Instance LocateRequestPayload_go : GoStruct LocateRequestPayload := {
  goType := locateRequestPayloadType;
  toGo p := VStruct [VIface (lrq_Attributes p)];
  ofGo v := match v with VStruct [VIface o] => Some (mkLocateRequest o) | _ => None end;
}.
#[export] Instance LocateResponsePayload_go : GoStruct LocateResponsePayload := {
  goType := locateResponsePayloadType;
  toGo p := VStruct [VString (lrs_UniqueIdentifier p)];
  ofGo v := match v with VStruct [VString u] => Some (mkLocateResponse u) | _ => None end;
}.

(** * Template attributes *)

(** A reference to an attribute is its position in the list; the receiver may
    be nil. *)
Fixpoint indexOf {A} (p : A → bool) (l : list A) : option nat :=
  match l with
  | [] => None
  | x :: l => if p x then Some O else S <$> indexOf p l
  end.

Definition attributesOf (t : option TemplateAttribute) : list Attribute :=
  default [] (t ≫= ta_Attribute).

Definition TemplateAttribute_Get (t : option TemplateAttribute) (s : string) : option nat :=
  indexOf (λ a, String.eqb (AttributeName a) s) (attributesOf t).

Definition TemplateAttribute_GetIdx (t : option TemplateAttribute) (s : string) (idx : Z) : option nat :=
  indexOf (λ a, String.eqb (AttributeName a) s && (AttributeIndex a =? idx)) (attributesOf t).

Definition TemplateAttribute_GetAll (t : option TemplateAttribute) (s : string) : list Attribute :=
  List.filter (λ a, String.eqb (AttributeName a) s) (attributesOf t).

Section Attributes.
(** [DefaultRegistry] *)
Context (dflt : Registry).

Definition NewAttributeFromTag (tag idx : Z) (val : option rvalue) : Attribute :=
  mkAttribute (Tag_CanonicalName dflt tag) idx val.

Definition TemplateAttribute_GetTag (t : option TemplateAttribute) (tag : Z) : option nat :=
  TemplateAttribute_Get t (Tag_String dflt tag).
Definition TemplateAttribute_GetTagIdx (t : option TemplateAttribute) (tag idx : Z) : option nat :=
  TemplateAttribute_GetIdx t (Tag_String dflt tag) idx.
Definition TemplateAttribute_GetAllTag (t : option TemplateAttribute) (tag : Z) : list Attribute :=
  TemplateAttribute_GetAll t (Tag_String dflt tag).

Definition TemplateAttribute_Append (t : TemplateAttribute) (tag : Z) (value : option rvalue)
    : TemplateAttribute :=
  mkTemplateAttribute (ta_Name t)
    (Some (default [] (ta_Attribute t) ++ [NewAttributeFromTag tag 0 value])).
End Attributes.

(** * Operation handlers *)

Definition TagUniqueIdentifier : Z := 0x420094.
Definition ObjectTypeCertificate : Z := 1.
Definition ObjectTypeSymmetricKey : Z := 2.
Definition ObjectTypePublicKey : Z := 3.
Definition ObjectTypePrivateKey : Z := 4.
Definition ObjectTypeSplitKey : Z := 5.
Definition ObjectTypeTemplate : Z := 6.
Definition ObjectTypeSecretData : Z := 7.
Definition ObjectTypeOpaqueObject : Z := 8.

Section Handlers.
Context {E : Type} `{Merry E} `{TitleCaser} (dflt : Registry) {St : Type}.

(** The function a handler is configured with: it returns a pointer to the
    response payload, possibly nil, or an error. *)
Definition operation (Req Resp : Type) : Type := Req → St → St * res E (option Resp).

(** [var payload Req; err := req.DecodePayload(&payload)] *)
Definition decodePayload (Req : Type) `{GoStruct Req} (req : Request) : Request * res E Req :=
  let '(req, (v, out)) := DecodePayload dflt req (goType Req) (zeroValue (goType Req)) in
  (req,
   match out with
   | Ok _ => match ofGo v with Some p => Ok p | None => Panic end
   | Err e => Err e
   | Panic => Panic
   | OutOfFuel => OutOfFuel
   end).

(** [&ResponseBatchItem{ResponsePayload: respPayload}] *)
Definition payloadItem {Resp : Type} `{GoStruct Resp} (p : option Resp) : ResponseBatchItem :=
  mkResponseBatchItem 0 None 0 0 "" None (Some (TPtr (goType Resp), VPtr (toGo <$> p))) None.

(** The handlers that only decode, call and answer. *)
Definition plainHandle {Req Resp : Type} `{GoStruct Req} `{GoStruct Resp} (f : operation Req Resp)
    : ItemHandler := λ req st,
  let '(req, payload) := decodePayload Req req in
  match payload with
  | Ok p =>
      let '(st, out) := f p st in
      (st, req, (λ resp, Some (payloadItem resp)) <$> out)
  | Err e => (st, req, Err e)
  | Panic => (st, req, Panic)
  | OutOfFuel => (st, req, OutOfFuel)
  end.

Definition GetHandler_HandleItem (Get : operation GetRequestPayload GetResponsePayload) : ItemHandler :=
  plainHandle Get.
Definition DestroyHandler_HandleItem (Destroy : operation DestroyRequestPayload DestroyResponsePayload)
    : ItemHandler := plainHandle Destroy.
Definition LocateHandler_HandleItem (Locate : operation LocateRequestPayload LocateResponsePayload)
    : ItemHandler := plainHandle Locate.

(** [v.(string)] *)
Definition asString (v : option rvalue) : option string :=
  match v with
  | Some (t, VString s) => if isNamed "" "string" t then Some s else None
  | _ => None
  end.

(** [sprintfT] is the formatting of a value with the verb [%t]. *)
Definition CreateHandler_HandleItem (sprintfT : option rvalue → string)
    (Create : operation CreateRequestPayload CreateResponsePayload) : ItemHandler := λ req st,
  let '(req, payload) := decodePayload CreateRequestPayload req in
  match payload with
  | Ok p =>
      let '(st, out) := Create p st in
      match out with
      | Ok None => (st, req, Panic)
      | Ok (Some respPayload) =>
          let attrs := attributesOf (crs_TemplateAttribute respPayload) in
          match TemplateAttribute_GetTag dflt (crs_TemplateAttribute respPayload) TagUniqueIdentifier
                  ≫= (λ i, attrs !! i) with
          | None => (st, req, Panic)
          | Some idAttr =>
              match asString (AttributeValue idAttr) with
              | Some s => (st, setIDPlaceholder s req, Ok (Some (payloadItem (Some respPayload))))
              | None =>
                  (st, setIDPlaceholder "" req,
                   Err (merry_Errorf ("invalid response returned by CreateHandler: unique identifier tag in attributes should have been a string, was "
                                        +:+ sprintfT (AttributeValue idAttr))))
              end
          end
      | Err e => (st, req, Err e)
      | Panic => (st, req, Panic)
      | OutOfFuel => (st, req, OutOfFuel)
      end
  | Err e => (st, req, Err e)
  | Panic => (st, req, Panic)
  | OutOfFuel => (st, req, OutOfFuel)
  end.

(** Is the object of the stated type present?  [None]: the type is unknown. *)
Definition payloadPresent (p : RegisterRequestPayload) : option bool :=
  let o := rrq_Objects p in
  let present (x : option gov) := Some (bool_decide (is_Some x)) in
  let t := rrq_ObjectType p in
  if t =? ObjectTypeCertificate then present (op_Certificate o)
  else if t =? ObjectTypeSymmetricKey then present (op_SymmetricKey o)
  else if t =? ObjectTypePrivateKey then present (op_PrivateKey o)
  else if t =? ObjectTypePublicKey then present (op_PublicKey o)
  else if t =? ObjectTypeSplitKey then present (op_SplitKey o)
  else if t =? ObjectTypeTemplate then present (op_Template o)
  else if t =? ObjectTypeSecretData then present (op_SecretData o)
  else if t =? ObjectTypeOpaqueObject then present (op_OpaqueObject o)
  else None.

(** The validation of a Register request: its error, if any. *)
Definition registerError (p : RegisterRequestPayload) : option E :=
  match payloadPresent p with
  | None => Some (WithResultReason (merry_UserError "Object Type is not recognized") ResultReasonInvalidField)
  | Some false =>
      Some (WithResultReason
        (merry_UserError ("Object Type " +:+ EnumType_String Kmip14.ObjectType (rrq_ObjectType p)
                            +:+ " does not match type of cryptographic object provided"))
        ResultReasonInvalidField)
  | Some true => None
  end.

Definition RegisterHandler_HandleItem (SkipValidation : bool)
    (RegisterFunc : operation RegisterRequestPayload RegisterResponsePayload) : ItemHandler := λ req st,
  let '(req, payload) := decodePayload RegisterRequestPayload req in
  match payload with
  | Ok p =>
      match (if SkipValidation then None else registerError p) with
      | Some e => (st, req, Err e)
      | None =>
          let '(st, out) := RegisterFunc p st in
          match out with
          | Ok None => (st, req, Panic)
          | Ok (Some respPayload) =>
              (st, setIDPlaceholder (rrs_UniqueIdentifier respPayload) req,
               Ok (Some (payloadItem (Some respPayload))))
          | Err e => (st, req, Err e)
          | Panic => (st, req, Panic)
          | OutOfFuel => (st, req, OutOfFuel)
          end
      end
  | Err e => (st, req, Err (merry_Prepend e "decoding request"))
  | Panic => (st, req, Panic)
  | OutOfFuel => (st, req, OutOfFuel)
  end.

Definition versionEqb (a b : ProtocolVersion) : bool :=
  (ProtocolVersionMajor a =? ProtocolVersionMajor b) && (ProtocolVersionMinor a =? ProtocolVersionMinor b).

(** The nested loops of [DiscoverVersionsHandler.HandleItem]. *)
Fixpoint commonVersions (supported client acc : list ProtocolVersion) : list ProtocolVersion :=
  match supported with
  | [] => acc
  | v :: supported =>
      commonVersions supported client
        (if existsb (λ cv, versionEqb cv v) client then acc ++ [v] else acc)
  end.

Definition DiscoverVersionsHandler_HandleItem (SupportedVersions : option (list ProtocolVersion))
    : ItemHandler (St := St) := λ req st,
  let '(req, payload) := decodePayload DiscoverVersionsRequestPayload req in
  match payload with
  | Ok p =>
      let client := default [] (dvq_ProtocolVersion p) in
      let versions :=
        match client with
        | [] => SupportedVersions
        | _ => match commonVersions (default [] SupportedVersions) client [] with
               | [] => None
               | l => Some l
               end
        end in
      (st, req,
       Ok (Some (mkResponseBatchItem 0 None 0 0 "" None
         (Some (goType DiscoverVersionsResponsePayload, toGo (mkDiscoverResponse versions))) None)))
  | Err e => (st, req, Err e)
  | Panic => (st, req, Panic)
  | OutOfFuel => (st, req, OutOfFuel)
  end.
End Handlers.

(** * Looking attributes up *)

Lemma indexOf_app {A} (p : A → bool) l x :
  indexOf p (l ++ [x]) =
  match indexOf p l with Some i => Some i | None => if p x then Some (length l) else None end.
Proof.
  induction l as [|y l IH]; cbn; [by destruct (p x)|]. destruct (p y); [done|]. rewrite IH.
  destruct (indexOf p l); [done|]. by destruct (p x).
Qed.

Lemma indexOf_None {A} (p : A → bool) l : indexOf p l = None ↔ Forall (λ x, p x = false) l.
Proof.
  induction l as [|y l IH]; cbn; [by split|]. rewrite Forall_cons, <- IH.
  destruct (p y); [by split; [|intros [? _]]|]. destruct (indexOf p l); cbn; split; try done.
  by intros [_ ?].
Qed.

(** * The canonical names of the default registry *)

Lemma registerAll_canonical_inv `{TitleCaser} b l v cn :
  valuesToCanonicalName (registerAll (blankEnum b) l) !! v = Some cn → (v, cn) ∈ l.
Proof.
  rewrite (registerAll_proj valuesToCanonicalName (λ v _, v) (λ _ n, n)) by done.
  simpl. rewrite (right_id_L ∅ (∪)). intros Hin%elem_of_list_to_map_2.
  rewrite elem_of_reverse in Hin. apply list_elem_of_fmap in Hin as ([v' n] & Heq & Hin).
  by simplify_eq.
Qed.

Lemma canonicalNames_ok :
  forallb (λ x, negb (String.eqb x.2 "UniqueIdentifier")) allTags = true.
Proof. vm_compute. reflexivity. Qed.

Lemma canonical_not_UniqueIdentifier (tc : TitleCaser) tag :
  Tag_CanonicalName (@theRegistry tc) tag ≠ "UniqueIdentifier"%string.
Proof.
  unfold Tag_CanonicalName, Registry_FormatTagCanonical, FormatTagCanonical. cbn [fmap option_fmap option_map].
  change (em_CanonicalName (Enum_EnumMap (tags theRegistry)) tag)
    with (valuesToCanonicalName (tags (@theRegistry tc)) !! tag).
  destruct (valuesToCanonicalName (tags (@theRegistry tc)) !! tag) as [cn|] eqn:Hc.
  - apply registerAll_canonical_inv in Hc. pose proof canonicalNames_ok as Hok.
    rewrite List.forallb_forall in Hok. specialize (Hok _ (proj1 (list_elem_of_In _ _) Hc)). cbn in *.
    intros ->. done.
  - cbn. destruct (Z.lt_ge_cases tag 0) as [Hn|Hn].
    + destruct (sprintfHex_neg 6 tag Hn) as [s ->]. done.
    + by rewrite sprintfHex_pos.
Qed.

Lemma UniqueIdentifier_listed :
  bool_decide ((TagUniqueIdentifier, "Unique Identifier"%string) ∈ allTags) = true.
Proof. vm_compute. reflexivity. Qed.

Lemma UniqueIdentifier_String (tc : TitleCaser) :
  titleCaserOk tc → Tag_String (@theRegistry tc) TagUniqueIdentifier = "UniqueIdentifier"%string.
Proof.
  intros Htc. unfold Tag_String, Registry_FormatTag, FormatTag. cbn [fmap option_fmap option_map].
  change (em_Name (Enum_EnumMap (tags theRegistry)) TagUniqueIdentifier)
    with (valuesToName (tags (@theRegistry tc)) !! TagUniqueIdentifier).
  destruct (entriesOk_inv tc allTags Htc allTags_ok) as (_ & Hnd & _).
  cbn [tags theRegistry layered]. unfold theTags.
  rewrite (registerAll_name _ allTags _ "Unique Identifier") by
    (try exact Hnd; exact (bool_decide_eq_true_1 _ UniqueIdentifier_listed)).
  cbn [nameOr]. rewrite NormalizeName_caser; [vm_compute; reflexivity|done|vm_compute; reflexivity].
Qed.

(** * Errors of the handlers *)

Section Errors.
Context {E : Type} `{MerryLaws E} (dflt : Registry) {St : Type}.

(** An error of [DecodePayload] carries no result reason. *)
Lemma DecodePayload_error req typ v req' v' (e : E) :
  DecodePayload dflt req typ v = (req', (v', Err e)) → merry_Value e = None.
Proof.
  unfold DecodePayload. destruct (req_CurrentItem req) as [i|]; [|done].
  destruct (derefItem req i) as [item|]; [|done].
  unfold coerceToTTLV. destruct (RequestPayload item) as [[t x]|]; [|done].
  assert (∀ o, Request_Unmarshal (E := E) dflt req o typ v = (req', (v', Err e)) → merry_Value e = None) as Hu.
  { intros o. unfold Request_Unmarshal. case_match; [done|]. destruct (req_decoder req); [|done].
    destruct (Decode _ _ _ _ _ _).2 as [v1 [[]|de| |]]; cbn; try done. intros [= _ _ <-].
    apply merry_Value_Decode. }
  destruct (is_ttlvType t); [destruct x; try done; apply Hu|].
  destruct (Marshal _ _ _) as [bs|m| |]; try done; [apply Hu|]. intros [= _ _ <-]. apply merry_Value_Encode.
Qed.

Lemma decodePayload_error Req `{GoStruct Req} req req' (e : E) :
  decodePayload dflt Req req = (req', Err e) → merry_Value e = None.
Proof.
  unfold decodePayload. destruct (DecodePayload dflt req _ _) as [r [v out]] eqn:Hd.
  destruct out as [[]|x| |]; [by destruct (ofGo v)|..]; try done. intros [= _ <-].
  by apply DecodePayload_error in Hd.
Qed.

Lemma bi_no_reason (m : OperationMux (E := E) (St := St)) req i item st h st' req' e :
  mux_ErrorHandler m = None → handlerForOp m (rqi_Operation item) = Some h →
  h (setCurrentItem i req) st = (st', req', Err e) → merry_Value e = None →
  bi m req i item st = (st', req', Panic).
Proof.
  intros Heh Hh He Hv. unfold bi, callHandler. rewrite Hh, He, Heh. cbn [default].
  unfold DefaultErrorHandler, GetResultReason. by rewrite Hv.
Qed.
End Errors.

Lemma versionEqb_eq a b : versionEqb a b = true ↔ a = b.
Proof.
  destruct a, b. unfold versionEqb. cbn. rewrite andb_true_iff, !Z.eqb_eq.
  split; [by intros [-> ->]|by intros [= -> ->]].
Qed.

#[export] Instance ProtocolVersion_eq_dec : EqDecision ProtocolVersion.
Proof. solve_decision. Defined.

Lemma commonVersions_filter supported client acc :
  commonVersions supported client acc = acc ++ filter (λ v, v ∈ client) supported.
Proof.
  revert acc. induction supported as [|v l IH]; intros acc; cbn [commonVersions].
  { by rewrite app_nil_r. }
  rewrite IH, filter_cons.
  assert (existsb (λ cv, versionEqb cv v) client = bool_decide (v ∈ client)) as ->.
  { apply eq_true_iff_eq. rewrite existsb_exists, bool_decide_eq_true. split.
    - intros (x & Hx & ->%versionEqb_eq). by apply list_elem_of_In.
    - intros Hin. exists v. split; [by apply list_elem_of_In|by apply versionEqb_eq]. }
  case_bool_decide as Hd; [rewrite decide_True by done; by rewrite <- app_assoc|by rewrite decide_False].
Qed.

(** * Concrete payloads *)

(** A Get request whose unique identifier is an Integer. *)
Definition badGetItem : RequestBatchItem :=
  mkRequestBatchItem 10 None
    (Some (ttlvType, VBytes (Some (itemBlock (IStructure 0x420079 [IPrim 0x420094 (PInteger 1)]))))) None.
Definition requestWith (item : RequestBatchItem) : Request :=
  setDecoder false NewDecoder
    (setMessage (mkRequestMessage
       (mkRequestHeader (mkVersion 1 4) 0 "" "" false false None None 0 false None 1) (Some [item]))
       (newRequest [] "" "")).
Definition idRegistry : Registry := Registry_RegisterTag emptyRegistry 0x420094 "Unique Identifier".
Definition noGet : operation (E := simpleError) (St := nat) GetRequestPayload GetResponsePayload :=
  λ _ st, (S st, Ok None).

(** * Properties *)

(** [Append] followed by [GetTag] of the same tag: the appended attribute
    carries the canonical name of the tag, [GetTag] looks for its normalized
    name, so that it is found only when the two are the same; a lookup by the
    canonical name always finds an attribute. *)
Theorem GetTag_Append dflt ta tag v :
  TemplateAttribute_GetTag dflt (Some (TemplateAttribute_Append dflt ta tag v)) tag =
    match TemplateAttribute_GetTag dflt (Some ta) tag with
    | Some i => Some i
    | None => if String.eqb (Tag_CanonicalName dflt tag) (Tag_String dflt tag)
              then Some (length (attributesOf (Some ta))) else None
    end ∧
  TemplateAttribute_Get (Some (TemplateAttribute_Append dflt ta tag v)) (Tag_CanonicalName dflt tag) =
    match TemplateAttribute_Get (Some ta) (Tag_CanonicalName dflt tag) with
    | Some i => Some i
    | None => Some (length (attributesOf (Some ta)))
    end.
Proof.
  unfold TemplateAttribute_GetTag, TemplateAttribute_Get, TemplateAttribute_Append, attributesOf.
  cbn [mbind option_bind ta_Attribute]. change (default [] (Some ?l)) with l. cbn [default from_option id].
  rewrite !indexOf_app.
  cbn [AttributeName NewAttributeFromTag]. by rewrite String.eqb_refl.
Qed.

(** With the default registry, the Create handler panics whenever the
    response it is given describes its attributes with [NewAttributeFromTag] or
    [Append], the unique identifier included: it looks for the attribute under
    its normalized name, finds nothing, and dereferences the nil reference. *)
Theorem CreateHandler_panics {E} `{Merry E} (tc : TitleCaser) {St} r sprintfT
    (Create : operation (E := E) (St := St) CreateRequestPayload CreateResponsePayload) req req' p st st' resp :
  titleCaserOk tc → initRegistry = Ok r →
  decodePayload r CreateRequestPayload req = (req', Ok p) → Create p st = (st', Ok (Some resp)) →
  Forall (λ a, ∃ tag idx val, a = NewAttributeFromTag r tag idx val)
    (attributesOf (crs_TemplateAttribute resp)) →
  CreateHandler_HandleItem r sprintfT Create req st = (st', req', Panic).
Proof.
  intros Htc Hr Hd Hc Hall. rewrite (initRegistry_eq tc Htc) in Hr. injection Hr as <-.
  unfold CreateHandler_HandleItem. rewrite Hd, Hc.
  assert (TemplateAttribute_GetTag (@theRegistry tc) (crs_TemplateAttribute resp) TagUniqueIdentifier = None)
    as ->; [|done].
  apply indexOf_None. eapply Forall_impl; [exact Hall|]. intros a (tag & idx & val & ->).
  rewrite (UniqueIdentifier_String tc Htc). apply String.eqb_neq, canonical_not_UniqueIdentifier.
Qed.

Lemma CreateHandler_panics_witness :
  let resp := mkCreateResponse 2 "id" (Some (mkTemplateAttribute (VSlice None)
    (Some [NewAttributeFromTag (@theRegistry asciiCaser) TagUniqueIdentifier 0
             (Some (stringType, VString "id"))]))) in
  CreateHandler_HandleItem (E := simpleError) (@theRegistry asciiCaser) (λ _, ""%string)
    (λ _ (st : nat), (S st, Ok (Some resp))) (newRequest [] "" "") 0%nat =
  (1%nat, newRequest [] "" "", Panic).
Proof.
  intros resp. assert (titleCaserOk asciiCaser) as Htc by (intros w _; reflexivity).
  eapply (CreateHandler_panics asciiCaser); [exact Htc|exact (initRegistry_eq asciiCaser Htc)|..].
  - reflexivity.
  - reflexivity.
  - repeat constructor. by eexists _, _, _.
Defined.

(** A Register request that names an unknown object type, or one whose
    object is missing, never reaches the registration function: the handler
    returns an error, which the multiplexer turns into a failed item with the
    reason "invalid field"; otherwise the function is called with the payload,
    and its answer is passed on with its identifier as ID placeholder. *)
Theorem RegisterHandler_validates {E} `{MerryLaws E} `{TitleCaser} {St} dflt
    (RegisterFunc : operation (E := E) (St := St) RegisterRequestPayload RegisterResponsePayload) req req' p st :
  decodePayload dflt RegisterRequestPayload req = (req', Ok p) →
  let out := RegisterHandler_HandleItem dflt false RegisterFunc req st in
  match payloadPresent p with
  | Some true =>
      out = match RegisterFunc p st with
            | (st, Ok (Some resp)) =>
                (st, setIDPlaceholder (rrs_UniqueIdentifier resp) req', Ok (Some (payloadItem (Some resp))))
            | (st, Ok None) => (st, req', Panic)
            | (st, Err e) => (st, req', Err e)
            | (st, Panic) => (st, req', Panic)
            | (st, OutOfFuel) => (st, req', OutOfFuel)
            end
  | _ => ∃ e msg, out = (st, req', Err e) ∧
      DefaultErrorHandler e = Ok (Some (newFailedResponseBatchItem ResultReasonInvalidField msg))
  end.
Proof.
  intros Hd out. unfold out, RegisterHandler_HandleItem. rewrite Hd. unfold registerError.
  assert (∀ s, ∃ msg, DefaultErrorHandler (E := E) (WithResultReason (merry_UserError s) ResultReasonInvalidField)
    = Ok (Some (newFailedResponseBatchItem ResultReasonInvalidField msg))) as He.
  { intros s. eexists; apply DefaultErrorHandler_reason; [|done]. unfold GetResultReason, WithResultReason.
    by rewrite merry_Value_WithValue. }
  destruct (payloadPresent p) as [[]|].
  - by destruct (RegisterFunc p st) as [st' [[resp|]| | |]].
  - edestruct He as [msg Hm]. by eexists _, msg.
  - edestruct He as [msg Hm]. by eexists _, msg.
Qed.

Lemma RegisterHandler_validates_witness :
  ∃ e msg, RegisterHandler_HandleItem emptyRegistry false
      (λ _ (st : nat), (S st, Ok None)) (newRequest [] "" "") 0%nat =
    (0%nat, newRequest [] "" "", Err e) ∧
    DefaultErrorHandler (E := simpleError) e =
      Ok (Some (newFailedResponseBatchItem ResultReasonInvalidField msg)).
Proof.
  exact (RegisterHandler_validates (E := simpleError) emptyRegistry (λ _ (st : nat), (S st, Ok None))
    (newRequest [] "" "") _ _ 0%nat eq_refl).
Defined.

(** C36. A payload that cannot be decoded is not answered: the error of the
    decoder has no result reason, the default error handler does not handle
    it, and the multiplexer panics; the operation is not called. *)
Theorem undecodable_payload_panics {E} `{MerryLaws E} {St Req Resp} `{GoStruct Req} `{GoStruct Resp} dflt
    (m : OperationMux (E := E) (St := St)) (f : operation Req Resp) req req' i item st e :
  mux_ErrorHandler m = None → handlerForOp m (rqi_Operation item) = Some (plainHandle dflt f) →
  decodePayload dflt Req (setCurrentItem i req) = (req', Err e) →
  bi m req i item st = (st, req', Panic).
Proof.
  intros Heh Hh Hd. apply (bi_no_reason m req i item st (plainHandle dflt f) st req' e Heh Hh).
  - unfold plainHandle. by rewrite Hd.
  - exact (decodePayload_error dflt Req _ _ e Hd).
Qed.

Lemma undecodable_payload_panics_witness :
  bi (OperationMux_Handle emptyMux 10 (GetHandler_HandleItem idRegistry noGet)) (requestWith badGetItem) O
    badGetItem 0%nat = (0%nat, setCurrentItem O (requestWith badGetItem), Panic).
Proof.
  eapply (undecodable_payload_panics idRegistry _ noGet).
  - reflexivity.
  - cbn. by rewrite lookup_insert_eq.
  - vm_compute. reflexivity.
Defined.

(** DiscoverVersions answers with the supported versions that the client
    lists too, in the server's order, and with all of them when the client
    lists none. *)
Theorem DiscoverVersions_common {E} `{Merry E} {St} dflt supported req req' p (st : St) :
  decodePayload (E := E) dflt DiscoverVersionsRequestPayload req = (req', Ok p) →
  ∃ versions,
    DiscoverVersionsHandler_HandleItem (E := E) dflt supported req st =
      (st, req', Ok (Some (mkResponseBatchItem 0 None 0 0 "" None
         (Some (goType DiscoverVersionsResponsePayload, toGo (mkDiscoverResponse versions))) None))) ∧
    default [] versions =
      match default [] (dvq_ProtocolVersion p) with
      | [] => default [] supported
      | client => filter (λ v, v ∈ client) (default [] supported)
      end.
Proof.
  intros Hd. unfold DiscoverVersionsHandler_HandleItem. rewrite Hd. eexists. split; [reflexivity|].
  destruct (default [] (dvq_ProtocolVersion p)) as [|c cs]; [done|].
  rewrite commonVersions_filter, app_nil_l. by destruct (filter _ _).
Qed.

Lemma DiscoverVersions_common_witness :
  ∃ versions,
    DiscoverVersionsHandler_HandleItem (E := simpleError) emptyRegistry (Some [mkVersion 1 4])
      (newRequest [] "" "") 0%nat =
      (0%nat, newRequest [] "" "", Ok (Some (mkResponseBatchItem 0 None 0 0 "" None
         (Some (goType DiscoverVersionsResponsePayload, toGo (mkDiscoverResponse versions))) None))) ∧
    default [] versions = [mkVersion 1 4].
Proof.
  exact (DiscoverVersions_common (E := simpleError) emptyRegistry (Some [mkVersion 1 4])
    (newRequest [] "" "") _ _ 0%nat eq_refl).
Defined.
