(* ===== verification/Operations20.v ===== *)
(** The operations of package kmip20: [UniqueIdentifierValue] of
    src/kmip20/unique_identifier.go, the payloads of src/kmip20/payloads.go and
    the handlers of the op_*.go files there. *)
From Stdlib Require Import ZArith Lia Strings.Byte Ascii String.
From stdpp Require Import base list strings numbers gmap pretty.
From S2P Require Import Prelude Ttlv Grammar EncBuf Blocks Hex Names Registry Formatting Json Printer Reflect Encoder Stream Decoder Messages Server ServerSpec Objects.
Local Open Scope Z_scope.
Set Warnings "-register-all".

(** * Types *)

Definition pkg20 : string := "github.com/gemalto/kmip-go/kmip20".
Definition struct20 (n : string) (fs : list sfield) : gotype := TStruct (named pkg20 n) fs.
Definition enum20 (n : string) : gotype := TBasic (mkName pkg20 n (Some MEnumeration) None) KUint32.
Definition mask20 (n : string) : gotype := TBasic (mkName pkg20 n (Some MBitmask) None) KUint32.
Definition int32Type : gotype := TBasic (predeclared "int32") KInt32.

Definition uniqueIdentifierValueType : gotype :=
  TStruct (mkName pkg20 "UniqueIdentifierValue" (Some MUniqueIdentifier) (Some UUniqueIdentifier))
    [fld "Text" stringType; fld "Enum" (enum20 "UniqueIdentifier"); fld "Index" int32Type].
Definition uidField : sfield := fld "UniqueIdentifier" (TPtr uniqueIdentifierValueType).

(** [kmip.Attributes] and [kmip20.Attributes] *)
Definition attributesType : gotype := kmipStruct "Attributes" [fld "Attributes" (sliceOf attributeType)].
Definition attributes20Type : gotype := struct20 "Attributes" [fld "Values" valuesType].

Definition createRequestPayload20Type : gotype :=
  struct20 "CreateRequestPayload"
    [SField "TTLVTag" (TStruct unnamed []) "RequestPayload" false true; fld "ObjectType" (enum20 "ObjectType");
     fld "Attributes" emptyInterface; fldOmit "ProtectionStorageMasks" (mask20 "ProtectionStorageMask")].
Definition createResponsePayload20Type : gotype :=
  struct20 "CreateResponsePayload" [fld "ObjectType" (enum20 "ObjectType"); fld "UniqueIdentifier" stringType].
Definition createKeyPairRequestPayload20Type : gotype :=
  struct20 "CreateKeyPairRequestPayload"
    [fld "CommonAttributes" emptyInterface; fld "PrivateKeyAttributes" emptyInterface;
     fld "PublicKeyAttributes" emptyInterface;
     fldOmit "CommonProtectionStorageMasks" (mask20 "ProtectionStorageMask");
     fldOmit "PrivateProtectionStorageMasks" (mask20 "ProtectionStorageMask");
     fldOmit "PublicProtectionStorageMasks" (mask20 "ProtectionStorageMask")].
Definition createKeyPairResponsePayload20Type : gotype :=
  struct20 "CreateKeyPairResponsePayload"
    [fld "PrivateKeyUniqueIdentifier" stringType; fld "PublicKeyUniqueIdentifier" stringType].

Definition capabilityInformationType : gotype :=
  struct20 "CapabilityInformation"
    [fld "StreamingCapability" boolType; fld "AsynchronousCapability" boolType; fld "AttestationCapability" boolType;
     fld "BatchUndoCapability" boolType; fld "BatchContinueCapability" boolType;
     fld "UnwrapMode" (enum14 "UnwrapMode"); fld "DestroyAction" (enum14 "DestroyAction");
     fld "ShreddingAlgorithm" (enum14 "ShreddingAlgorithm"); fld "RNGMode" (enum14 "RNGMode");
     fld "QuantumSafeCapability" boolType].
Definition objectDefaultsType : gotype :=
  struct20 "ObjectDefaults" [fld "ObjectType" (enum14 "ObjectType"); fld "Attributes" attributesType].
Definition defaultsInformationType : gotype :=
  struct20 "DefaultsInformation" [fld "ObjectDefaults" objectDefaultsType].
Definition extensionInformationType : gotype :=
  struct20 "ExtensionInformation"
    [fld "ExtensionName" stringType; fld "ExtensionTag" intType; fld "ExtensionType" intType;
     fld "ExtensionEnumeration" intType; fld "ExtensionAttribute" boolType;
     fld "ExtensionParentStructureTag" intType; fld "ExtensionDescription" stringType].
Definition rngParametersType : gotype :=
  struct20 "RNGParameters"
    [fld "RNGAlgorithm" (enum14 "RNGAlgorithm"); fld "CryptographicAlgorithm" (enum14 "CryptographicAlgorithm");
     fld "CryptographicLength" intType; fld "HashingAlgorithm" (enum14 "HashingAlgorithm");
     fld "DRBGAlgorithm" (enum14 "DRBGAlgorithm"); fld "RecommendedCurve" (enum14 "RecommendedCurve");
     fld "FIPS186Variation" (enum14 "FIPS186Variation"); fld "PredictionResistance" boolType].
Definition serverInformationType : gotype :=
  struct20 "ServerInformation"
    [fld "ServerName" stringType; fld "ServerSerialNumber" stringType; fld "ServerVersion" stringType;
     fld "ServerLoad" stringType; fld "ProductName" stringType; fld "BuildLevel" stringType; fld "BuildDate" stringType;
     fld "ClusterInfo" stringType; fld "AlternativeFailoverEndpoints" (sliceOf stringType);
     fld "VendorSpecific" (sliceOf stringType)].
Definition queryRequestPayloadType : gotype :=
  struct20 "QueryRequestPayload" [fld "QueryFunction" (enum20 "QueryFunction")].
Definition queryResponsePayloadType : gotype :=
  struct20 "QueryResponsePayload"
    [fld "Operation" (sliceOf (enum14 "Operation")); fld "ObjectType" (sliceOf (enum20 "ObjectType"));
     fld "VendorIdentification" stringType; fld "ServerInformation" (sliceOf serverInformationType);
     fld "ApplicationNamespace" (sliceOf stringType); fld "ExtensionInformation" (sliceOf extensionInformationType);
     fld "AttestationType" (enum14 "AttestationType"); fld "RNGParameters" (sliceOf rngParametersType);
     fld "ProfileInformation" (sliceOf (enum20 "ProfileName"));
     fld "ValidationInformation" (sliceOf (enum14 "ValidationAuthorityType"));
     fld "CapabilityInformation" (sliceOf capabilityInformationType);
     fld "ClientRegistrationMethod" (enum14 "ClientRegistrationMethod");
     fld "DefaultsInformation" (TPtr defaultsInformationType);
     fld "ProtectionStorageMasks" (sliceOf (mask20 "ProtectionStorageMask"))].

Definition revocationReasonType : gotype :=
  struct20 "RevocationReason" [fld "RevocationReasonCode" (enum14 "RevocationReasonCode")].
Definition revokeRequestPayloadType : gotype :=
  struct20 "RevokeRequestPayload"
    [uidField; fld "RevocationReason" revocationReasonType; fld "CompromiseOccurrenceDate" (TPtr timeType)].
Definition setAttributeRequestPayloadType : gotype :=
  struct20 "SetAttributeRequestPayload"
    [uidField; SField "NewAttribute" attributes20Type "DerivationData" false true].
Definition getResponsePayload20Type : gotype :=
  struct20 "GetResponsePayload"
    [fld "ObjectType" (enum14 "ObjectType"); fld "UniqueIdentifier" stringType; fld "Key" symmetricKeyType].

(** * Structs *)

Record UniqueIdentifierValue := mkUID { uid_Text : string; uid_Enum : Z; uid_Index : Z }.

(** A payload that is only a unique identifier; [op] names the operation. *)
Record uidRequest (op : string) := mkUidRequest { uq_UniqueIdentifier : option UniqueIdentifierValue }.
Record uidResponse (op : string) := mkUidResponse { us_UniqueIdentifier : string }.
Arguments mkUidRequest {op}. Arguments uq_UniqueIdentifier {op}.
Arguments mkUidResponse {op}. Arguments us_UniqueIdentifier {op}.

Record GetResponsePayload20 := mkGetResponse20 {
  gr_ObjectType : Z;
  gr_UniqueIdentifier : string;
  gr_Key : gov;      (** a [kmip.SymmetricKey] *)
}.
Record QueryRequestPayload := mkQueryRequest { qq_QueryFunction : Z }.
(** The value of a [QueryResponsePayload], which the handler only passes on. *)
Record QueryResponsePayload := mkQueryResponse { qs_value : gov }.
Record RevokeRequestPayload := mkRevokeRequest {
  rv_UniqueIdentifier : option UniqueIdentifierValue;
  rv_RevocationReasonCode : Z;
  rv_CompromiseOccurrenceDate : option gotime;
}.
Record SetAttributeRequestPayload := mkSetAttributeRequest {
  sa_UniqueIdentifier : option UniqueIdentifierValue;
  sa_NewAttribute : gov;   (** the [ttlv.Values] of the [Attributes] *)
}.

#[export] Instance UniqueIdentifierValue_go : GoStruct UniqueIdentifierValue := {
  goType := uniqueIdentifierValueType;
  toGo u := VStruct [VString (uid_Text u); VUint (uid_Enum u); VInt (uid_Index u)];
  ofGo v := match v with VStruct [VString t; VUint e; VInt i] => Some (mkUID t e i) | _ => None end;
}.

Definition uidPtrToGo (u : option UniqueIdentifierValue) : gov := VPtr (toGo <$> u).
Definition uidPtrOfGo (v : gov) : option (option UniqueIdentifierValue) :=
  match v with
  | VPtr None => Some None
  | VPtr (Some v) => u ← ofGo v; Some (Some u)
  | _ => None
  end.

#[export] Instance uidRequest_go op : GoStruct (uidRequest op) := {
  goType := struct20 (op +:+ "RequestPayload") [uidField];
  toGo p := VStruct [uidPtrToGo (uq_UniqueIdentifier p)];
  ofGo v := match v with VStruct [u] => u ← uidPtrOfGo u; Some (mkUidRequest u) | _ => None end;
}.
#[export] Instance uidResponse_go op : GoStruct (uidResponse op) := {
  goType := struct20 (op +:+ "ResponsePayload") [fld "UniqueIdentifier" stringType];
  toGo p := VStruct [VString (us_UniqueIdentifier p)];
  ofGo v := match v with VStruct [VString u] => Some (mkUidResponse u) | _ => None end;
}.
#[export] Instance GetResponsePayload20_go : GoStruct GetResponsePayload20 := {
  goType := getResponsePayload20Type;
  toGo p := VStruct [VUint (gr_ObjectType p); VString (gr_UniqueIdentifier p); gr_Key p];
  ofGo v := match v with VStruct [VUint o; VString u; k] => Some (mkGetResponse20 o u k) | _ => None end;
}.
#[export] Instance QueryRequestPayload_go : GoStruct QueryRequestPayload := {
  goType := queryRequestPayloadType;
  toGo p := VStruct [VUint (qq_QueryFunction p)];
  ofGo v := match v with VStruct [VUint f] => Some (mkQueryRequest f) | _ => None end;
}.
#[export] Instance QueryResponsePayload_go : GoStruct QueryResponsePayload := {
  goType := queryResponsePayloadType; toGo := qs_value; ofGo v := Some (mkQueryResponse v);
}.
#[export] Instance RevokeRequestPayload_go : GoStruct RevokeRequestPayload := {
  goType := revokeRequestPayloadType;
  toGo p := VStruct [uidPtrToGo (rv_UniqueIdentifier p); VStruct [VUint (rv_RevocationReasonCode p)];
                     VPtr (VTime <$> rv_CompromiseOccurrenceDate p)];
  ofGo v := match v with
    | VStruct [u; VStruct [VUint c]; VPtr None] => u ← uidPtrOfGo u; Some (mkRevokeRequest u c None)
    | VStruct [u; VStruct [VUint c]; VPtr (Some (VTime t))] => u ← uidPtrOfGo u; Some (mkRevokeRequest u c (Some t))
    | _ => None
    end;
}.
#[export] Instance SetAttributeRequestPayload_go : GoStruct SetAttributeRequestPayload := {
  goType := setAttributeRequestPayloadType;
  toGo p := VStruct [uidPtrToGo (sa_UniqueIdentifier p); VStruct [sa_NewAttribute p]];
  ofGo v := match v with
    | VStruct [u; VStruct [vs]] => u ← uidPtrOfGo u; Some (mkSetAttributeRequest u vs)
    | _ => None
    end;
}.

(** * Handlers *)

Section Handlers.
Context {E : Type} `{Merry E} `{TitleCaser} (dflt : Registry) {St : Type}.

Definition ActivateHandler_HandleItem (Activate : operation (E:=E) (St:=St) (uidRequest "Activate") (uidResponse "Activate"))
    : ItemHandler := plainHandle dflt Activate.
Definition DestroyHandler20_HandleItem (Destroy : operation (E:=E) (St:=St) (uidRequest "Destroy") (uidResponse "Destroy"))
    : ItemHandler := plainHandle dflt Destroy.
Definition QueryHandler_HandleItem (Query : operation (E:=E) (St:=St) QueryRequestPayload QueryResponsePayload)
    : ItemHandler := plainHandle dflt Query.
Definition RevokeHandler_HandleItem (Revoke : operation (E:=E) (St:=St) RevokeRequestPayload (uidResponse "Revoke"))
    : ItemHandler := plainHandle dflt Revoke.
Definition SetAttributeHandler_HandleItem
    (SetAttribute : operation (E:=E) (St:=St) SetAttributeRequestPayload (uidResponse "SetAttribute"))
    : ItemHandler := plainHandle dflt SetAttribute.

(** The Get handler reads the response to set the ID placeholder, which panics
    when the function returned nil. *)
Definition GetHandler20_HandleItem (Get : operation (E:=E) (St:=St) (uidRequest "Get") GetResponsePayload20)
    : ItemHandler := λ req st,
  let '(req, payload) := decodePayload dflt (uidRequest "Get") req in
  match payload with
  | Ok p =>
      let '(st, out) := Get p st in
      match out with
      | Ok None => (st, req, Panic)
      | Ok (Some respPayload) =>
          (st, setIDPlaceholder (gr_UniqueIdentifier respPayload) req, Ok (Some (payloadItem (Some respPayload))))
      | Err e => (st, req, Err e)
      | Panic => (st, req, Panic)
      | OutOfFuel => (st, req, OutOfFuel)
      end
  | Err e => (st, req, Err e)
  | Panic => (st, req, Panic)
  | OutOfFuel => (st, req, OutOfFuel)
  end.

End Handlers.

(** Example: what the function behind a Get handler is given. *)
Definition get20Item : RequestBatchItem :=
  mkRequestBatchItem 10 None
    (Some (ttlvType, VBytes (Some (itemBlock
      (IStructure 0x420079 [IPrim 0x420094 (PTextString (String.list_byte_of_string "key-1"))]))))) None.
Example get20_identifier :
  (decodePayload (E := simpleError) idRegistry (uidRequest "Get") (setCurrentItem 0 (requestWith get20Item))).2 =
  Ok (mkUidRequest (Some (mkUID "UniqueIdentifier (0x07/5): key-1" 0 0))).
Proof. vm_compute. reflexivity. Qed.

(** * UniqueIdentifierValue *)

(** What [MarshalTTLV] writes: the first of the three that is set. *)
Definition uidItem (tag : Z) (u : UniqueIdentifierValue) : option item :=
  if negb (String.eqb (uid_Text u) "") then Some (IPrim tag (PTextString (String.list_byte_of_string (uid_Text u))))
  else if negb (uid_Enum u =? 0) then Some (IPrim tag (PEnumeration (uid_Enum u)))
  else if negb (uid_Index u =? 0) then Some (IPrim tag (PInteger (uid_Index u)))
  else None.

(** What is read back into a zero value. *)
Definition uidReadBack (r : Registry) (tag : Z) (u : UniqueIdentifierValue) : UniqueIdentifierValue :=
  if negb (String.eqb (uid_Text u) "") then
    mkUID (lineOf r "" (IPrim tag (PTextString (String.list_byte_of_string (uid_Text u)))) +:+ " " +:+ uid_Text u) 0 0
  else if negb (uid_Enum u =? 0) then mkUID "" (uid_Enum u) 0
  else mkUID "" 0 (uid_Index u).

Lemma String_item r tag p rest : itemOk (IPrim tag p) →
  TTLV_String r (primBlock tag p ++ rest) = lineOf r "" (IPrim tag p) +:+ " " +:+ primPrinted r tag p.
Proof.
  intros Hok. unfold TTLV_String, Print.
  pose proof (print_item r (IPrim tag p) (S (length (primBlock tag p ++ rest))) "" "  " rest Hok) as Hp.
  cbn [itemBlock] in Hp. rewrite Hp by (rewrite length_app; lia). done.
Qed.

Lemma uid_marshal dflt fuel e tag u it : uidItem tag u = Some it → itemOk it →
  MarshalTTLV dflt (S fuel) MUniqueIdentifier (uniqueIdentifierValueType, toGo u) tag e =
    (mkEncoder (encodeDepth e) (w e) (buf e ++ itemBlock it) (currStruct e) (currField e), Ok tt).
Proof.
  intros Hi Hok. unfold uidItem in Hi. cbn [MarshalTTLV toGo UniqueIdentifierValue_go snd].
  assert (∀ p, itemOk (IPrim tag p) → primOk p) as Hp by (intros p Hp; by inversion Hp).
  unfold UniqueIdentifierValue_MarshalTTLV. repeat case_match; simplify_eq; unfold onBuf, modify; cbn [itemBlock]; rewrite <- encodePrim_eq by (by apply Hp);
    cbn [encodePrim]; rewrite ?String.string_of_list_byte_of_string; done.
Qed.

Lemma uid_unmarshal dflt fuel d tag u it rest : uidItem tag u = Some it → itemOk it →
  UnmarshalTTLV dflt (S fuel) UUniqueIdentifier d (toGo (mkUID "" 0 0)) (itemBlock it ++ rest) =
    (toGo (uidReadBack dflt tag u), Ok tt).
Proof.
  intros Hi Hok. pose proof (itemBlock_length it Hok) as Hl. pose proof (itemBlock_Type it rest) as Hty.
  unfold uidItem in Hi. unfold uidReadBack. cbn [UnmarshalTTLV toGo UniqueIdentifierValue_go uid_Text uid_Enum uid_Index].
  unfold UniqueIdentifierValue_UnmarshalTTLV.
  rewrite len_app, (proj2 (Z.eqb_neq _ _)) by (unfold len; lia). rewrite Hty.
  destruct (negb (String.eqb (uid_Text u) "")); simplify_eq.
  { cbn [itemBlock]. cbn -[TTLV_String primBlock lineOf]. rewrite String_item by done.
    cbn [primPrinted primGo fmtV]. by rewrite String.string_of_list_byte_of_string. }
  destruct (negb (uid_Enum u =? 0)); [|destruct (negb (uid_Index u =? 0))]; simplify_eq; inversion Hok; subst;
    cbn -[TTLV_ValueEnumeration TTLV_ValueInteger primBlock].
  - rewrite (block_value GEnumValue TTLV_ValueEnumeration tag (PEnumeration (uid_Enum u)) (uid_Enum u))
      by byInj || (unfold TTLV_Value; rewrite primBlock_Type; done). done.
  - rewrite (block_value GInt32 TTLV_ValueInteger tag (PInteger (uid_Index u)) (uid_Index u))
      by byInj || (unfold TTLV_Value; rewrite primBlock_Type; done). done.
Qed.

Lemma uid_text_changed r tag u : uid_Text u ≠ "" → uid_Text (uidReadBack r tag u) ≠ uid_Text u.
Proof.
  intros Ht. unfold uidReadBack. apply String.eqb_neq in Ht. rewrite Ht. cbn [negb uid_Text].
  intros Heq. apply (f_equal String.length) in Heq. rewrite !length_append in Heq. cbn in Heq. lia.
Qed.

Definition uidTag : Z := 0x420094.

(** * Properties *)

(** A [UniqueIdentifierValue] and its wire form: [MarshalTTLV] writes one
    value of the variant that is set, and [UnmarshalTTLV] of that value, whatever
    follows it in its structure, restores an Enum or an Index identifier but not
    a Text identifier: it stores the printed form of the value ("UniqueIdentifier
    (TextString/5): key-1"), which is never the text that was written. *)
Theorem UniqueIdentifierValue_text_mangled dflt fuel d e tag u it rest :
  uidItem tag u = Some it → itemOk it →
  MarshalTTLV dflt (S fuel) MUniqueIdentifier (uniqueIdentifierValueType, toGo u) tag e =
    (mkEncoder (encodeDepth e) (w e) (buf e ++ itemBlock it) (currStruct e) (currField e), Ok tt) ∧
  UnmarshalTTLV dflt (S fuel) UUniqueIdentifier d (toGo (mkUID "" 0 0)) (itemBlock it ++ rest) =
    (toGo (uidReadBack dflt tag u), Ok tt) ∧
  (uid_Text u ≠ "" → uid_Text (uidReadBack dflt tag u) ≠ uid_Text u) ∧
  (uid_Text u = "" → uid_Enum u = 0 ∨ uid_Index u = 0 → uidReadBack dflt tag u = u).
Proof.
  intros Hi Hok. split_and!; [by apply uid_marshal|by eapply uid_unmarshal|apply uid_text_changed|].
  intros Ht Hz. unfold uidReadBack, uidItem in *. destruct u as [t en ix]; cbn in *; subst.
  repeat case_match; simplify_eq; cbn in *; destruct Hz; simplify_eq; try done; lia.
Qed.

Example UniqueIdentifierValue_text_mangled_witness :
  UnmarshalTTLV idRegistry 1 UUniqueIdentifier NewDecoder (toGo (mkUID "" 0 0))
    (itemBlock (IPrim uidTag (PTextString (String.list_byte_of_string "key-1"))) ++ []) =
    (toGo (mkUID "UniqueIdentifier (0x07/5): key-1" 0 0), Ok tt).
Proof.
  destruct (UniqueIdentifierValue_text_mangled idRegistry 0 NewDecoder NewEncoder uidTag (mkUID "key-1" 0 0)
    (IPrim uidTag (PTextString (String.list_byte_of_string "key-1"))) []) as (_ & Hu & _);
    [reflexivity|by repeat constructor|]. rewrite Hu. vm_compute. reflexivity.
Defined.
