(* ===== verification/ObjectTypes.v ===== *)
(** The remaining object types of src/base_objects.go and the payloads of
    src/op_create_key_pair.go, and the catalogue of all the struct types that
    messages are made of. *)
From Stdlib Require Import ZArith Lia Strings.Byte Ascii String.
From stdpp Require Import base list strings numbers gmap.
From S2P Require Import Prelude Ttlv Grammar EncBuf Blocks Names Registry Formatting Generated Kmip14 Kmip20 DefaultRegistry Reflect Encoder Decoder DecoderSound GoRoundtrip Messages Objects Operations20.
Local Open Scope Z_scope.

(** * Credentials *)

Definition usernameAndPasswordCredentialValueType : gotype :=
  kmipStruct "UsernameAndPasswordCredentialValue" [fld "Username" stringType; fldOmit "Password" stringType].
Definition deviceCredentialValueType : gotype :=
  kmipStruct "DeviceCredentialValue"
    [fldOmit "DeviceSerialNumber" stringType; fldOmit "Password" stringType; fldOmit "DeviceIdentifier" stringType;
     fldOmit "NetworkIdentifier" stringType; fldOmit "MachineIdentifier" stringType;
     fldOmit "MediaIdentifier" stringType].
Definition attestationCredentialValueType : gotype :=
  kmipStruct "AttestationCredentialValue"
    [fld "Nonce" nonceType; fld "AttestationType" (enum14 "AttestationType");
     fldOmit "AttestationMeasurement" bytesType; fldOmit "AttestationAssertion" bytesType].

(** * Key material *)

Definition bigs (names : list string) : list sfield := (λ n, fld n bigIntPtrType) <$> names.
Definition curve : sfield := fld "RecommendedCurve" (enum14 "RecommendedCurve").

Definition transparentSymmetricKeyType : gotype := kmipStruct "TransparentSymmetricKey" [fld "Key" bytesType].
Definition transparentDSAPrivateKeyType : gotype := kmipStruct "TransparentDSAPrivateKey" (bigs ["P"; "Q"; "G"; "X"]%string).
Definition transparentDSAPublicKeyType : gotype := kmipStruct "TransparentDSAPublicKey" (bigs ["P"; "Q"; "G"; "Y"]%string).
Definition transparentRSAPrivateKeyType : gotype :=
  kmipStruct "TransparentRSAPrivateKey"
    (bigs ["Modulus"; "PrivateExponent"; "PublicExponent"; "P"; "Q"; "PrimeExponentP"; "PrimeExponentQ";
           "CRTCoefficient"]%string).
Definition transparentRSAPublicKeyType : gotype :=
  kmipStruct "TransparentRSAPublicKey" (bigs ["Modulus"; "PublicExponent"]%string).
Definition transparentDHPrivateKeyType : gotype :=
  kmipStruct "TransparentDHPrivateKey" (bigs ["P"; "Q"; "G"; "J"; "X"]%string).
Definition transparentDHPublicKeyType : gotype :=
  kmipStruct "TransparentDHPublicKey" (bigs ["P"; "Q"; "G"; "J"; "Y"]%string).
Definition transparentECDSAPrivateKeyType : gotype :=
  kmipStruct "TransparentECDSAPrivateKey" (curve :: bigs ["D"%string]).
Definition transparentECDSAPublicKeyType : gotype :=
  kmipStruct "TransparentECDSAPublicKey" [curve; fld "QString" bytesType].

(** [TransparentECPrivateKey], [TransparentECPublicKey] and the types declared
    by them. *)
Definition transparentECPrivateKeyType (n : string) : gotype := kmipStruct n (curve :: bigs ["D"%string]).
Definition transparentECPublicKeyType (n : string) : gotype := kmipStruct n [curve; fld "QString" bytesType].
Definition transparentECKeyTypes : list gotype :=
  (transparentECPrivateKeyType <$>
     ["TransparentECPrivateKey"; "TransparentECDHPrivateKey"; "TransparentECMQVPrivateKey"]%string) ++
  (transparentECPublicKeyType <$>
     ["TransparentECPublicKey"; "TransparentECDHPublicKey"; "TransparentECMQVPublicKey"]%string).

(** [PGPKey] of src/managed_objects.go *)
Definition pgpKeyType : gotype :=
  kmipStruct "PGPKey" [fld "PGPKeyVersion" intType; fld "KeyBlock" keyBlockType].

(** * Create key pair *)

Definition createKeyPairRequestPayloadType : gotype :=
  kmipStruct "CreateKeyPairRequestPayload"
    [fld "CommonTemplateAttribute" (TPtr templateAttributeType);
     fld "PrivateKeyTemplateAttribute" (TPtr templateAttributeType);
     fld "PublicKeyTemplateAttribute" (TPtr templateAttributeType)].
Definition createKeyPairResponsePayloadType : gotype :=
  kmipStruct "CreateKeyPairResponsePayload"
    [fld "PrivateKeyUniqueIdentifier" stringType; fld "PublicKeyUniqueIdentifier" stringType;
     fld "PrivateKeyTemplateAttribute" (TPtr templateAttributeType);
     fld "PublicKeyTemplateAttribute" (TPtr templateAttributeType)].

(** * The catalogue *)

Definition messageTypes : list gotype :=
  [requestMessageType; requestHeaderType; requestBatchItemType; responseMessageType; responseHeaderType;
   responseBatchItemType; protocolVersionType; authenticationType; credentialType; nonceType; messageExtensionType].
Definition credentialTypes : list gotype :=
  [usernameAndPasswordCredentialValueType; deviceCredentialValueType; attestationCredentialValueType].
Definition keyMaterialTypes : list gotype :=
  [transparentSymmetricKeyType; transparentDSAPrivateKeyType; transparentDSAPublicKeyType;
   transparentRSAPrivateKeyType; transparentRSAPublicKeyType; transparentDHPrivateKeyType;
   transparentDHPublicKeyType; transparentECDSAPrivateKeyType; transparentECDSAPublicKeyType] ++ transparentECKeyTypes.
Definition objectTypes : list gotype :=
  [attributeType; nameType; templateAttributeType; attributesType; cryptographicParametersType;
   encryptionKeyInformationType; macSignatureKeyInformationType; keyWrappingDataType; keyValueType; keyBlockType;
   certificateType; symmetricKeyType; publicKeyType; privateKeyType; splitKeyType; templateType; secretDataType;
   opaqueObjectType; pgpKeyType].
Definition payloadTypes14 : list gotype :=
  [createRequestPayloadType; createResponsePayloadType; createKeyPairRequestPayloadType;
   createKeyPairResponsePayloadType; registerRequestPayloadType; registerResponsePayloadType; getRequestPayloadType;
   getResponsePayloadType; destroyRequestPayloadType; destroyResponsePayloadType; discoverVersionsRequestPayloadType;
   discoverVersionsResponsePayloadType].
Definition payloadTypes20 : list gotype :=
  [createRequestPayload20Type; createResponsePayload20Type; createKeyPairRequestPayload20Type;
   createKeyPairResponsePayload20Type; locateRequestPayloadType; locateResponsePayloadType; attributes20Type;
   goType (uidRequest "Activate"); goType (uidResponse "Activate"); goType (uidRequest "Destroy");
   goType (uidResponse "Destroy"); goType (uidRequest "Get"); getResponsePayload20Type; queryRequestPayloadType;
   queryResponsePayloadType; capabilityInformationType; objectDefaultsType; defaultsInformationType;
   extensionInformationType; rngParametersType; serverInformationType; revokeRequestPayloadType; revocationReasonType;
   goType (uidResponse "Revoke"); setAttributeRequestPayloadType; goType (uidResponse "SetAttribute");
   uniqueIdentifierValueType].
Definition kmipTypes : list gotype :=
  messageTypes ++ credentialTypes ++ keyMaterialTypes ++ objectTypes ++ payloadTypes14 ++ payloadTypes20.

(** The fields of a struct that no tag is inferred for. *)
Definition untagged (r : Registry) (t : gotype) : res tierr (list string) :=
  (λ ti, fi_name <$> List.filter (λ f, fi_tag f =? TagNone) (ti_valueFields ti)) <$> getTypeInfo r t.

(** The fields without a tag; [UniqueIdentifierValue] has methods of its own. *)
Definition untaggedFields (t : gotype) : list string :=
  if String.eqb (tn_pkg (typeName t)) pkg20 then
    if String.eqb (tn_name (typeName t)) "Attributes" then ["Values"%string]
    else if String.eqb (tn_name (typeName t)) "ServerInformation"
    then ["AlternativeFailoverEndpoints"; "VendorSpecific"]%string
    else if String.eqb (tn_name (typeName t)) "UniqueIdentifierValue" then ["Text"; "Enum"; "Index"]%string else []
  else [].

Lemma kmipTypes_typeOk : Forall typeOk kmipTypes.
Proof. unfold kmipTypes. repeat (apply Forall_cons; split; [type_ok|]); apply Forall_nil; done. Qed.

(** Type information depends on the tags of the registry only, and these on the
    caser only through plain words. *)
Definition tagRegistry : Registry := mkRegistry ∅ (@theTags asciiCaser) NewEnum.

Lemma registerAll_caser (tc : TitleCaser) l e :
  titleCaserOk tc → forallb (λ '(v, n), forallb plainWord (nameWords n)) l = true →
  @registerAll tc e l = @registerAll asciiCaser e l.
Proof.
  intros Htc. revert e. induction l as [|[v n] l IH]; intros e; [done|]. cbn [forallb]. intros [Hn Hl]%andb_prop.
  cbn [registerAll foldl] in *. unfold Enum_RegisterValue. rewrite (NormalizeName_caser tc n) by done. by apply IH.
Qed.

Lemma theRegistry_getTypeInfo (tc : TitleCaser) t :
  titleCaserOk tc → getTypeInfo theRegistry t = getTypeInfo tagRegistry t.
Proof.
  intros Htc. change (getTypeInfo theRegistry t) with (getTypeInfo (mkRegistry ∅ theTags NewEnum) t).
  unfold theTags. rewrite registerAll_caser; [reflexivity|done|by vm_compute].
Qed.

Definition tagsOk (t : gotype) : bool :=
  match untagged tagRegistry t with Ok l => bool_decide (l = untaggedFields t) | _ => false end.

Lemma kmipTypes_tagsOk : forallb tagsOk kmipTypes = true.
Proof. vm_compute. reflexivity. Qed.

(** * Values that no field takes *)

Lemma eachValue_skip f v items body : DenotesSeq items body →
  (∀ it blk rest, Denotes it blk → f (blk ++ rest) v = (v, Ok tt)) →
  ∀ k, (length body < k)%nat → eachValue k (nonNil body) v f = (v, Ok tt).
Proof.
  intros Hs Hf. induction Hs as [|it items blk body Hd _ IH]; intros k Hk; [by destruct k|].
  pose proof (block_length it blk Hd). rewrite length_app in Hk. destruct k as [|k]; [lia|].
  rewrite (nonNil_block it) by done. cbn [eachValue]. rewrite (Hf it) by done. rewrite (block_Next it) by done.
  apply IH. lia.
Qed.

Lemma Denotes_tag it blk rest : Denotes it blk → TTLV_Tag (blk ++ rest) ≠ TagNone.
Proof.
  intros Hd. destruct (Denotes_header it blk rest Hd) as (_ & _ & -> & _).
  assert (Tag_Valid (itemTag it) = true) as Hv by (by inversion Hd). intros Heq. rewrite Heq in Hv. by vm_compute in Hv.
Qed.

Lemma attributes20_info (tc : TitleCaser) : titleCaserOk tc →
  ∃ f, getTypeInfo theRegistry attributes20Type = Ok (TI attributes20Type 0x420125 None [f]) ∧
    fi_tag f = TagNone ∧ fi_flags f = 0.
Proof. intros Htc. rewrite theRegistry_getTypeInfo by done. eexists. split; [vm_compute; reflexivity|done]. Qed.

Lemma unmarshal_attributes20 (tc : TitleCaser) fuel d tag items blk rest v :
  titleCaserOk tc → Denotes (IStructure tag items) blk → DisallowExtraValues d = false →
  unmarshalElem theRegistry (S (S fuel)) d attributes20Type v (blk ++ rest) = (v, Ok tt).
Proof.
  intros Htc Hd Hx. inversion Hd as [|? ? body Ht Hs Hl]; subst.
  unfold attributes20Type at 1. unfold struct20 at 1. rewrite unmarshalElem_struct; [|done|apply structure_Type].
  fold (struct20 "Attributes" [fld "Values" valuesType]). fold attributes20Type.
  destruct (attributes20_info tc Htc) as (f & Hi & Hft & Hff).
  cbn [unmarshalStructure]. rewrite Hi. cbn [ti_tagField ti_valueFields].
  rewrite structure_value by done. apply (eachValue_skip _ _ items); [done| |rewrite !length_app; lia].
  intros it blk rest' Hdi. pose proof (Denotes_tag it blk rest' Hdi) as Hn. cbn [findField].
  rewrite Hff, Hft, (proj2 (Z.eqb_neq _ _)) by (by apply not_eq_sym). cbn. by rewrite Hx.
Qed.

(** The attributes of a request for an AES key. *)
Definition aesAttributes : item := IStructure 0x420125 [IPrim 0x420028 (PEnumeration 3)].

(** * Properties *)

(** C12. Every struct type that messages are made of, 87 in all, works with
    the default registry: its type information exists, no two of its fields
    share a tag, and all fields have a tag but [Attributes.Values], two fields
    of [ServerInformation] and the three of [UniqueIdentifierValue], which has
    methods of its own; unmarshaling any bytes into it ends and leaves a value
    of the type. *)
Theorem kmipTypes_sound (tc : TitleCaser) r t bs :
  titleCaserOk tc → initRegistry = Ok r → t ∈ kmipTypes →
  (∃ ti, getTypeInfo r t = Ok ti ∧ NoDup (taggedFields (ti_valueFields ti))) ∧
  untagged r t = Ok (untaggedFields t) ∧
  hasType anyBytes t (Unmarshal r (decodeFuel 4 t bs) bs t (zeroValue t)).1 ∧
  (Unmarshal r (decodeFuel 4 t bs) bs t (zeroValue t)).2 ≠ OutOfFuel.
Proof.
  intros Htc Hr Hin. rewrite initRegistry_eq in Hr by done. injection Hr as <-.
  pose proof kmipTypes_typeOk as Hok. rewrite Forall_forall in Hok. specialize (Hok t Hin).
  pose proof kmipTypes_tagsOk as Htags. rewrite forallb_forall in Htags.
  specialize (Htags t (proj1 (list_elem_of_In _ _) Hin)). unfold tagsOk, untagged in *.
  rewrite theRegistry_getTypeInfo by done. destruct (getTypeInfo tagRegistry t) as [ti| | |] eqn:Hi; try done.
  split; [exists ti; split; [done|by eapply getTypeInfo_distinct]|].
  split; [cbn in *; case_bool_decide; [by f_equal|done]|].
  destruct (Decode_sound theRegistry 4 NewDecoder bs [] t (zeroValue t) (decodeFuel 4 t bs)) as (? & _ & ?);
    [lia|done|by apply zeroValue_hasType|by apply ifaceOk_zero|done|done].
Qed.

Lemma kmipTypes_sound_witness :
  queryResponsePayloadType ∈ kmipTypes ∧ untagged (@theRegistry asciiCaser) queryResponsePayloadType = Ok [].
Proof.
  assert (queryResponsePayloadType ∈ kmipTypes) as Hin by (apply (list_elem_of_lookup_2 _ 74); reflexivity).
  split; [exact Hin|]. assert (titleCaserOk asciiCaser) as Htc by (intros w _; reflexivity).
  exact (proj1 (proj2 (kmipTypes_sound asciiCaser theRegistry _ [] Htc (initRegistry_eq _ Htc) Hin))).
Defined.

(** [kmip20.Attributes] cannot be unmarshaled: its field has no tag and no
    any flag, so that every value of every Structure is skipped and the
    destination is left as it was, without an error. *)
Theorem Attributes20_not_decoded (tc : TitleCaser) r fuel tag items blk rest v :
  titleCaserOk tc → initRegistry = Ok r → Denotes (IStructure tag items) blk → (3 ≤ fuel)%nat →
  untagged r attributes20Type = Ok ["Values"%string] ∧
  Unmarshal r fuel (blk ++ rest) attributes20Type v = (v, Ok tt).
Proof.
  intros Htc Hr Hd Hf. rewrite initRegistry_eq in Hr by done. injection Hr as <-.
  split; [unfold untagged; rewrite theRegistry_getTypeInfo by done; by vm_compute|].
  rewrite (Unmarshal_block _ _ (IStructure tag items)) by done. unfold DecodeValue.
  pose proof (block_length _ _ Hd). destruct fuel as [|[|[|fuel]]]; [lia..|].
  rewrite unmarshal_ptr by (unfold len; lia).
  pose proof (unmarshal_attributes20 tc fuel NewDecoder tag items blk [] v Htc Hd eq_refl) as Hu.
  rewrite app_nil_r in Hu. by rewrite Hu.
Qed.

Lemma Attributes20_not_decoded_witness :
  untagged (@theRegistry asciiCaser) attributes20Type = Ok ["Values"%string] ∧
  Unmarshal (@theRegistry asciiCaser) 3 (itemBlock aesAttributes ++ []) attributes20Type (zeroValue attributes20Type) =
    (zeroValue attributes20Type, Ok tt).
Proof.
  assert (titleCaserOk asciiCaser) as Htc by (intros w _; reflexivity).
  eapply (Attributes20_not_decoded asciiCaser); [exact Htc|exact (initRegistry_eq _ Htc)| |lia].
  apply itemBlock_denotes. by repeat constructor.
Defined.
