(* ===== verification/EndToEnd.v ===== *)
(** Calls over the wire: what a client marshals as a RequestMessage reaches the
    functions behind the handlers of src/requests.go and src/op_get.go with the
    client's arguments, and what these return reaches the client.  The file
    composes the encoding of Go values ([GoRoundtrip]), the messages, the
    protocol handler, the multiplexer and the item handlers. *)
From Stdlib Require Import ZArith Lia Strings.Byte Ascii String.
From stdpp Require Import base list strings numbers gmap.
From S2P Require Import Prelude Ttlv Grammar EncBuf Blocks Hex Names Registry Formatting Generated Kmip14 Kmip20 DefaultRegistry Reflect Encoder Stream Decoder DecoderSound GoRoundtrip Messages Server ServerSpec Objects ObjectTypes.
Local Open Scope Z_scope.
Set Warnings "-register-all".

(** * Messages that are read back *)

Section Messages.
Context (dflt : Registry).
Abbreviation agrees := (agrees dflt true).

(** What the server sees of a request: operations and identifiers are the
    client's, payloads agree with the client's. *)
Definition requestItemAgrees (i i' : RequestBatchItem) : Prop :=
  rqi_Operation i' = rqi_Operation i ∧ rqi_UniqueBatchItemID i' = rqi_UniqueBatchItemID i ∧
  agrees (VIface (RequestPayload i)) (VIface (RequestPayload i')).
Definition responseItemAgrees (i i' : ResponseBatchItem) : Prop :=
  rsi_Operation i' = rsi_Operation i ∧ rsi_UniqueBatchItemID i' = rsi_UniqueBatchItemID i ∧
  ResultStatus i' = ResultStatus i ∧ ResultReason i' = ResultReason i ∧ ResultMessage i' = ResultMessage i ∧
  agrees (VIface (ResponsePayload i)) (VIface (ResponsePayload i')).

Lemma agrees_lossless v v' : lossless v = true → agrees v v' → v' = v.
Proof. intros Hl Ha. symmetry. by apply (agrees_eq dflt true); [right|]. Qed.

Lemma lossless_enumSlice o : lossless (enumSlice o) = true.
Proof. destruct o as [l|]; [|done]. cbn. by induction l. Qed.

(** The time of a header without its fraction. *)
Definition wholeSeconds (t : gotime) : gotime := GoTime (time_sec t) 0.

Lemma agrees_time t v' : agrees (VTime t) v' → v' = VTime (wholeSeconds t).
Proof. inversion 1; subst. done. Qed.
End Messages.

(** [agree_fields H] splits the fields of two agreeing structs, and replaces
    those that are read back as they were. *)
Ltac agree_fields H :=
  let l := fresh "l" in let Hl := fresh "Hl" in
  apply agrees_struct_inv in H as (l & -> & Hl);
  repeat (let x := fresh "x" in let Hx := fresh "Hx" in
          apply Forall2_cons_inv_l in Hl as (x & ? & Hx & Hl & ->);
          try (apply agrees_lossless in Hx as ->; [|first [reflexivity|apply lossless_enumSlice]]));
  apply Forall2_nil_inv_l in Hl as ->.

Section Readback.
Context (dflt : Registry).
Abbreviation agrees := (agrees dflt true).

Lemma requestHeader_agrees (h : RequestHeader) v' : agrees (toGo h) v' → ∃ h', v' = toGo h' ∧
  rqh_ProtocolVersion h' = rqh_ProtocolVersion h ∧ MaximumResponseSize h' = MaximumResponseSize h ∧
  rqh_ClientCorrelationValue h' = rqh_ClientCorrelationValue h.
Proof.
  intros Ha. agree_fields Ha.
  match goal with H : agrees (VPtr (Authentication h)) _ |- _ => apply agrees_ptr_inv in H as (auth & -> & _) end.
  match goal with H : agrees (VPtr (VTime <$> _)) _ |- _ => apply agrees_ptr_inv in H as (ts & -> & Hts) end.
  assert (∃ t, ts = VTime <$> t) as [t ->].
  { inversion Hts as [? ? Ht|]; subst; [|by exists None]. destruct (rqh_TimeStamp h); simplify_eq/=.
    apply agrees_time in Ht as ->. by eexists (Some _). }
  by eexists (mkRequestHeader _ _ _ _ _ _ _ auth _ _ t _).
Qed.

Lemma requestItem_agrees (i : RequestBatchItem) v' : agrees (toGo i) v' → ∃ i', v' = toGo i' ∧ requestItemAgrees dflt i i'.
Proof.
  intros Ha. agree_fields Ha.
  match goal with H : agrees (VPtr _) _ |- _ => apply agrees_ptr_inv in H as (me & -> & _) end.
  match goal with H : agrees (VIface _) _ |- _ => pose proof H as Hp; apply agrees_iface_inv in H as (p & -> & _) end.
  by eexists (mkRequestBatchItem _ _ p me).
Qed.

Lemma responseItem_agrees (i : ResponseBatchItem) v' : agrees (toGo i) v' → ∃ i', v' = toGo i' ∧ responseItemAgrees dflt i i'.
Proof.
  intros Ha. agree_fields Ha.
  match goal with H : agrees (VPtr _) _ |- _ => apply agrees_ptr_inv in H as (me & -> & _) end.
  match goal with H : agrees (VIface _) _ |- _ => pose proof H as Hp; apply agrees_iface_inv in H as (p & -> & _) end.
  by eexists (mkResponseBatchItem _ _ _ _ _ _ p me).
Qed.

Lemma slice_agrees {A} `{GoStruct A} (R : A → A → Prop) o v' :
  (∀ a w, agrees (toGo a) w → ∃ a', w = toGo a' ∧ R a a') → agrees (toSlice o) v' →
  ∃ o', v' = toSlice o' ∧ option_Forall2 (Forall2 R) o o'.
Proof.
  intros HR Ha. apply agrees_slice_inv in Ha as (l' & -> & Hl). destruct o as [l|]; inversion Hl as [? m Hm|]; subst;
    [|exists None; by split; [|constructor]].
  assert (∃ k, m = map toGo k ∧ Forall2 R l k) as (k & -> & Hk); [|exists (Some k); by split; [|constructor]].
  clear Hl. revert m Hm. induction l as [|a l IH]; intros m Hm; [inversion Hm; subst; by exists []|].
  apply Forall2_cons_inv_l in Hm as (w & m' & Hw & Hm & ->). destruct (HR a w Hw) as (a' & -> & ?).
  destruct (IH m' Hm) as (k & -> & ?). exists (a' :: k). by split; [|constructor].
Qed.

Lemma requestMessage_agrees (m : RequestMessage) v' : agrees (toGo m) v' → ∃ m', v' = toGo m' ∧
  agrees (toGo (rq_RequestHeader m)) (toGo (rq_RequestHeader m')) ∧
  rqh_ProtocolVersion (rq_RequestHeader m') = rqh_ProtocolVersion (rq_RequestHeader m) ∧
  MaximumResponseSize (rq_RequestHeader m') = MaximumResponseSize (rq_RequestHeader m) ∧
  rqh_ClientCorrelationValue (rq_RequestHeader m') = rqh_ClientCorrelationValue (rq_RequestHeader m) ∧
  option_Forall2 (Forall2 (requestItemAgrees dflt)) (rq_BatchItem m) (rq_BatchItem m').
Proof.
  intros (l & -> & Hl)%agrees_struct_inv. apply Forall2_cons_inv_l in Hl as (x & l' & Hh & Hl & ->).
  apply Forall2_cons_inv_l in Hl as (y & l & Hb & Hl & ->). apply Forall2_nil_inv_l in Hl as ->.
  pose proof Hh as (h & -> & Hv & Hm & Hc)%requestHeader_agrees.
  apply (slice_agrees (requestItemAgrees dflt)) in Hb as (b & -> & Hb); [|apply requestItem_agrees].
  by exists (mkRequestMessage h b).
Qed.

(** The header of a response: the time loses its fraction. *)
Definition inSeconds (h : ResponseHeader) : ResponseHeader :=
  mkResponseHeader (rsh_ProtocolVersion h) (wholeSeconds (rsh_TimeStamp h)) (rsh_Nonce h) (rsh_AttestationType h)
    (rsh_ClientCorrelationValue h) (rsh_ServerCorrelationValue h) (rsh_BatchCount h).

Lemma responseMessage_agrees (m : ResponseMessage) v' : rsh_Nonce (rs_ResponseHeader m) = None → agrees (toGo m) v' →
  ∃ m', v' = toGo m' ∧ rs_ResponseHeader m' = inSeconds (rs_ResponseHeader m) ∧
    option_Forall2 (Forall2 (responseItemAgrees dflt)) (rs_BatchItem m) (rs_BatchItem m').
Proof.
  intros Hn (l & -> & Hl)%agrees_struct_inv. apply Forall2_cons_inv_l in Hl as (x & l' & Hh & Hl & ->).
  apply Forall2_cons_inv_l in Hl as (y & l & Hb & Hl & ->). apply Forall2_nil_inv_l in Hl as ->.
  apply (slice_agrees (responseItemAgrees dflt)) in Hb as (b & -> & Hb); [|apply responseItem_agrees].
  exists (mkResponseMessage (inSeconds (rs_ResponseHeader m)) b). split_and!; [|done..].
  destruct m as [[pv ts nonce att ccv scv bc] its]. cbn in Hn. subst nonce. agree_fields Hh.
  by match goal with H : agrees (VTime _) _ |- _ => apply agrees_time in H as -> end.
Qed.
End Readback.

(** * The request at the server *)

Section Server.
Context {E : Type} `{Merry E} (dflt : Registry).

Lemma decodeFuel_enough typ bs : (3 * tdepth typ ≤ decodeFuel 4 typ bs)%nat.
Proof. unfold decodeFuel. lia. Qed.

Lemma parseMessage_wire (m : RequestMessage) it req : wireValue dflt true requestMessageType (toGo m) = Some it → itemOk it →
  itemTag it = TagRequestMessage → req_TTLV req = itemBlock it →
  ∃ m', agrees dflt true (toGo m) (toGo m') ∧ parseMessage (E := E) dflt req = (setMessage m' req, Ok tt).
Proof.
  intros Hw Hok Ht Hr. pose proof (itemBlock_denotes it Hok) as Hd. unfold parseMessage. rewrite Hr.
  pose proof (Valid_block it (itemBlock it) [] Hd) as Hv. destruct (Denotes_header it (itemBlock it) [] Hd) as (_ & _ & Htag & _).
  rewrite app_nil_r in Hv, Htag. rewrite Hv, Htag, Ht, Z.eqb_refl. cbn [negb].
  destruct (Unmarshal_wire dflt true requestMessageType (toGo m) it
    (decodeFuel 4 requestMessageType (itemBlock it)) []) as (v' & Hag & Hu); [done..|apply decodeFuel_enough|].
  rewrite app_nil_r in Hu. cbv zeta. change (goType RequestMessage) with requestMessageType. rewrite Hu.
  pose proof Hag as (m' & -> & _)%requestMessage_agrees. rewrite ofGo_toGo. by exists m'.
Qed.

(** A payload that came over the wire, unmarshaled by server or client. *)
Lemma payload_wire typ v flags tag it rest :
  isDirect typ = true → wire dflt true typ flags tag v = Some [it] → itemOk it → lossless v = true →
  let bs := itemBlock it ++ rest in Unmarshal dflt (decodeFuel 4 typ bs) bs typ (zeroValue typ) = (v, Ok tt).
Proof.
  intros Hdir Hw Hok Hl bs. unfold bs at 2. rewrite (Unmarshal_block _ _ it) by (by apply itemBlock_denotes).
  destruct (DecodeValue_wire dflt true typ flags tag v it (decodeFuel 4 typ bs) NewDecoder []) as (v' & Hag & Hu);
    [done..|apply decodeFuel_enough|].
  rewrite app_nil_r in Hu. by apply agrees_lossless in Hag as ->.
Qed.

Lemma decodePayload_wire {Req} `{GoStructLaws Req} req i items item d (p : Req) flags tag it rest :
  req_CurrentItem req = Some (ptrOf req i) → batchItems req = Some items → items !! i = Some item → req_decoder req = Some d →
  RequestPayload item = Some (ttlvType, VBytes (Some (itemBlock it ++ rest))) →
  isDirect (goType Req) = true → wire dflt true (goType Req) flags tag (toGo p) = Some [it] → itemOk it →
  lossless (toGo p) = true →
  decodePayload (E := E) dflt Req req = (setDecoder (req_DisallowExtraValues req) NewDecoder req, Ok p).
Proof.
  intros Hc Hb Hi Hd Hp Hdir Hw Hok Hl. pose proof (payload_wire _ _ _ _ _ rest Hdir Hw Hok Hl) as Hu.
  unfold Unmarshal in Hu. unfold decodePayload, DecodePayload. rewrite Hc, (derefItem_ptrOf req req items i Hb eq_refl), Hi, Hp.
  change (coerceToTTLV dflt (Some (ttlvType, VBytes ?o))) with (Ok (E := E) o). cbv iota beta.
  unfold Request_Unmarshal. change (bytesOf (Some ?x)) with x.
  rewrite (proj2 (Z.eqb_neq _ _)) by (by apply itemBlock_len).
  rewrite Hd. cbv zeta in *. change (Decoder_Reset d) with NewDecoder. rewrite Hu. cbn [liftDecode].
  by rewrite ofGo_toGo.
Qed.
End Server.

(** * Calls *)

Section Calls.
Context {E : Type} `{Merry E} (dflt : Registry) {St : Type}.

(** An operation of the server, with the argument a client calls it with. *)
Record Call := mkCall {
  call_Req : Type;
  call_Resp : Type;
  call_ReqGo :: GoStruct call_Req;
  call_ReqLaws :: GoStructLaws call_Req;
  call_RespGo :: GoStruct call_Resp;
  call_Operation : Z;
  call_ID : option (list byte);
  call_fn : operation (E := E) (St := St) call_Req call_Resp;
  call_arg : call_Req;
}.

(** How a call ends: with what the function returned, or with the reason and
    the message of a failure. *)
Definition Outcome (c : Call) : Type := (call_Resp c + (Z * string))%type.
Definition Reply : Type := { c : Call & Outcome c }.

(** A payload that is read back as it was. *)
Definition payloadOk {A} `{GoStruct A} (a : A) : bool :=
  isDirect (goType A) && match toGo a with VStruct _ => true | _ => false end && lossless (toGo a).
Definition callOk (c : Call) : bool := payloadOk (call_arg c).
Definition replyOk (r : Reply) : bool := match projT2 r with inl a => payloadOk a | inr _ => true end.

(** The batch item of a call, and the one that answers it. *)
Definition callItem (c : Call) : RequestBatchItem :=
  mkRequestBatchItem (call_Operation c) (call_ID c) (Some (goType (call_Req c), toGo (call_arg c))) None.
Definition outcomeItem {c : Call} (o : Outcome c) : ResponseBatchItem :=
  match o with
  | inl a => payloadItem (Some a)
  | inr (reason, msg) => newFailedResponseBatchItem reason msg
  end.
Definition replyItem (r : Reply) : ResponseBatchItem := correlate (callItem (projT1 r)) (outcomeItem (projT2 r)).

(** One call: an operation that is not registered fails and changes nothing, an
    error with a result reason is a failure with that reason.  [None] is what
    makes the server panic: a nil result, and an error without a reason. *)
Definition runCall (m : OperationMux (E := E) (St := St)) (c : Call) (st : St) : option (St * Outcome c) :=
  match handlerForOp m (call_Operation c) with
  | None => Some (st, inr (ResultReasonOperationNotSupported, EmptyString))
  | Some _ =>
      match call_fn c (call_arg c) st with
      | (st, Ok (Some r)) => Some (st, inl r)
      | (st, Err e) =>
          match DefaultErrorHandler e with
          | Ok (Some item) => Some (st, inr (ResultReason item, ResultMessage item))
          | _ => None
          end
      | _ => None
      end
  end.

(** The functions called in order, on the state they share. *)
Fixpoint runCalls (m : OperationMux (E := E) (St := St)) (cs : list Call) (st : St) : option (St * list Reply) :=
  match cs with
  | [] => Some (st, [])
  | c :: cs =>
      '(st, o) ← runCall m c st;
      '(st, rs) ← runCalls m cs st;
      Some (st, existT c o :: rs)
  end.

(** The multiplexer has the function's handler for a call, or none. *)
Definition registered (m : OperationMux (E := E) (St := St)) (c : Call) : Prop :=
  handlerForOp m (call_Operation c) = None ∨
  handlerForOp m (call_Operation c) = Some (plainHandle dflt (call_fn c)).

Lemma DefaultErrorHandler_item (e : E) item : DefaultErrorHandler e = Ok (Some item) →
  item = newFailedResponseBatchItem (ResultReason item) (ResultMessage item).
Proof.
  unfold DefaultErrorHandler. destruct (GetResultReason e) as [rr| | |]; try done. cbn [mbind res_bind].
  destruct (rr =? 0); [done|]. by intros [= <-].
Qed.

Lemma payloadOk_inv {A} `{GoStruct A} (a : A) : payloadOk a = true →
  isDirect (goType A) = true ∧ ¬ atomic (toGo a) ∧ lossless (toGo a) = true.
Proof. unfold payloadOk. rewrite !andb_true_iff. intros [[? Hs] ?]. split_and!; [done| |done]. revert Hs. destruct (toGo a); done || by intros _ []. Qed.

Lemma bi_call m req i items item d c st st' o : mux_ErrorHandler m = None → registered m c → callOk c = true →
  batchItems req = Some items → items !! i = Some item → requestItemAgrees dflt (callItem c) item →
  req_decoder req = Some d → runCall m c st = Some (st', o) →
  ∃ req', bi m req i item st = (st', req', Ok (Some (outcomeItem o))) ∧ req_Message req' = req_Message req ∧
    req_array req' = req_array req ∧ is_Some (req_decoder req').
Proof.
  intros Heh Hm (Hdir & Hat & Hl)%payloadOk_inv Hb Hi (Hop & _ & Hag) Hd Hrun.
  apply agrees_iface_struct in Hag as (flags & tag & it & rest & Hw & Hok & Hp); [|done]. injection Hp as Hp.
  unfold bi, callHandler, runCall in *. rewrite Hop. cbn [rqi_Operation callItem]. destruct Hm as [Hm|Hm]; rewrite Hm in *.
  { injection Hrun as <- <-. by eexists. }
  unfold plainHandle.
  rewrite (decodePayload_wire dflt (setCurrentItem i req) i items item d (call_arg c) flags tag it rest) by done.
  destruct (call_fn c (call_arg c) st) as [st1 [[r|]|e| |]]; try done.
  - injection Hrun as <- <-. by eexists.
  - destruct (DefaultErrorHandler e) as [[fi|]| | |] eqn:He; try done. injection Hrun as <- <-.
    cbn [fmap res_fmap]. rewrite Heh. change (default ?x None) with x. rewrite He. cbn [outcomeItem].
    rewrite <- (DefaultErrorHandler_item _ _ He). by eexists.
Qed.

Lemma handleItems_calls m cs rs items i req resp st st' d : mux_ErrorHandler m = None →
  Forall (registered m) cs → Forall (λ c, callOk c = true) cs → runCalls m cs st = Some (st', rs) →
  batchItems req = Some items → Forall2 (requestItemAgrees dflt) (callItem <$> cs) (drop i items) →
  req_decoder req = Some d →
  ∃ req', handleItems m (length cs) i req resp st =
    (st', req', foldl (λ resp r, setBatchItem (Some (respItems resp ++ [replyItem r])) resp) resp rs, Ok tt) ∧
    req_Message req' = req_Message req.
Proof.
  intros Heh Hm Hok. revert rs i req resp st d Hok. induction Hm as [|c cs Hc Hm IH]; intros rs i req resp st d Hok Hr Hb Hag Hd.
  { injection Hr as <- <-. by exists req. }
  apply Forall_cons in Hok as [Hok1 Hok]. cbn [runCalls] in Hr. apply bind_Some in Hr as ([st1 o] & Hf & Hr).
  apply bind_Some in Hr as ([st2 rs'] & Hr & Heq). injection Heq as -> <-.
  cbn [fmap list_fmap] in Hag. apply Forall2_cons_inv_l in Hag as (item & items' & Hi & Hag & Hdrop).
  assert (items !! i = Some item) as Hit by (by rewrite <- (Nat.add_0_r i), <- lookup_drop, Hdrop).
  assert (drop (S i) items = items') as Hdrop' by (by rewrite <- Nat.add_1_r, <- drop_drop, Hdrop).
  destruct (bi_call m req i items item d c st st1 o) as (req1 & Hbi & Hm1 & Ha1 & [d1 Hd1]); [done..|].
  assert (batchItems req1 = Some items) as Hb1 by (unfold batchItems in *; by rewrite Hm1).
  cbn [length handleItems]. rewrite (itemOf_items req items i Hb), Hit, Hbi. unfold appendItem.
  rewrite (derefItem_ptrOf req1 req items i Hb1 Ha1), Hit.
  destruct Hi as (Hop & Hid & _).
  assert (correlate item (outcomeItem o) = replyItem (existT c o)) as ->.
  { unfold correlate, replyItem. cbn. by rewrite Hop, Hid. }
  cbn [foldl]. rewrite <- Hm1. apply (IH rs' (S i) req1 _ st1 d1); try done. by rewrite Hdrop'.
Qed.

Lemma replies_items rs resp : let out := foldl (λ resp r, setBatchItem (Some (respItems resp ++ [replyItem r])) resp) resp rs in
  respItems out = respItems resp ++ (replyItem <$> rs) ∧ (rs ≠ [] → rs_BatchItem (resp_Message out) = Some (respItems out)) ∧
  header0 out = header0 resp ∧ resp_enc out = resp_enc resp.
Proof.
  revert resp. induction rs as [|r rs IH]; intros resp; cbn [foldl]; [by rewrite app_nil_r|]. cbv zeta in *.
  destruct (IH (setBatchItem (Some (respItems resp ++ [replyItem r])) resp)) as (Hi & Hs & Hh & He).
  split_and!; [|intros _|done|done].
  { rewrite Hi. change (respItems (setBatchItem (Some ?l) resp)) with l. by rewrite <- app_assoc. }
  destruct rs; [done|by apply Hs].
Qed.
End Calls.

(** * The response at the client *)

Section Client.
Context {E : Type} `{Merry E} (dflt : Registry) {St : Type}.

Lemma wire_ptr typ flags tag x it : isDirect typ = true → wire dflt true typ flags tag x = Some [it] →
  wire dflt true (TPtr typ) flags tag (VPtr (Some x)) = Some [it].
Proof.
  intros Hd Hw. pose proof Hw as (_ & [(_ & ? & _)|(Ho & _)])%wire_case; [done|].
  cbn [wire]. unfold omitted in *. rewrite indirect_ptr by done. change (is_ttlvType (TPtr typ)) with false.
  by rewrite Ho, Hd.
Qed.

(** The other way round: what a pointer is written as is what it points to. *)
Lemma wire_ptr_inv typ flags tag x it : wire dflt true (TPtr typ) flags tag (VPtr (Some x)) = Some [it] →
  wire dflt true typ flags tag x = Some [it].
Proof.
  intros (_ & [(_ & ? & _)|(_ & Hc)])%wire_case; [done|].
  inversion Hc as [| | | | |? ? p Hp]; subst; [done|]. apply leaf_case in Hp as (Hp & _). inversion Hp.
Qed.

Lemma marshalResponse_wire (out : ResponseMessage) it :
  wireValue dflt true responseMessageType (toGo out) = Some it → itemOk it →
  marshalResponse dflt out = Ok (itemBlock it).
Proof.
  intros (tag & Ht & Hw)%wireValue_inv Hok. unfold marshalResponse. cbv zeta.
  apply (Marshal_wire dflt true); [|done|done]. change (goType ResponseMessage) with responseMessageType. unfold wireValue.
  assert (resolvedTag dflt None (TPtr responseMessageType) (VPtr (Some (toGo out))) = Some tag) as ->.
  { rewrite <- Ht. unfold resolvedTag. by rewrite indirect_ptr. }
  cbn [mbind option_bind]. by rewrite (wire_ptr _ _ _ _ it).
Qed.

(** The protocol handler on a request that its message handler has answered. *)
Lemma ServeKMIP_handled (h : StandardProtocolHandler (E := E) (St := St)) now scv pooled req req' msg st st1 req1 resp1 bs :
  accepted dflt h req req' msg → from_option (λ r, idle (resp_enc r)) True pooled →
  h_MessageHandler h (strictRequest h req' msg)
    (mkResponse (mkResponseMessage (responseHeader h now (rqh_ClientCorrelationValue (rq_RequestHeader msg)) scv 0) None)
       NewEncoder) st = (st1, req1, resp1, Ok tt) →
  resp_enc resp1 = NewEncoder → req_Message req1 = Some msg →
  marshalResponse dflt (mkResponseMessage (batchCount (len (respItems resp1)) (header0 resp1))
    (rs_BatchItem (resp_Message resp1))) = Ok bs →
  tooLarge msg bs = false →
  ∃ r, ServeKMIP dflt h now scv pooled req st = (st1, Ok (bs, r)).
Proof.
  intros Hacc Hp Hh He Hq Hbs Hl. unfold ServeKMIP. rewrite (newResponse_pooled pooled Hp).
  rewrite (handleRequest_accepted dflt h now scv req req' msg st Hacc). cbv zeta. rewrite Hh. unfold finishRequest.
  set (resp2 := setHeader (batchCount (len (respItems resp1)) (header0 resp1)) resp1).
  destruct (Response_Bytes_eq (E := E) dflt resp2) as (e & -> & Hi); [by cbn; rewrite He|].
  change (resp_Message resp2) with (mkResponseMessage (batchCount (len (respItems resp1)) (header0 resp1))
    (rs_BatchItem (resp_Message resp1))) in *.
  rewrite Hbs, Hq in *. destruct (Hi bs eq_refl) as [Hid Hw]. unfold tooLarge in Hl. rewrite Hl.
  destruct (h_LogTraffic h); cbn [writeResponse]; [|cbn; rewrite Hw; eauto].
  match goal with |- context [Response_Bytes dflt ?r] =>
    destruct (Response_Bytes_eq (E := E) dflt r Hid) as (e' & -> & _) end.
  cbn [resp_Message]. rewrite Hbs. cbn. eauto.
Qed.

(** An item of the response answers a call: with a payload that is TTLV and
    unmarshals to what the function returned, or with the reason and message of
    the failure. *)
Definition received (r : Reply (E := E) (St := St)) (item : ResponseBatchItem) : Prop :=
  let '(existT c o) := r in
  rsi_Operation item = call_Operation c ∧ rsi_UniqueBatchItemID item = call_ID c ∧
  match o with
  | inl a =>
      ResultStatus item = 0 ∧ ResultReason item = 0 ∧ ResultMessage item = ""%string ∧
      ∃ bs, ResponsePayload item = Some (ttlvType, VBytes (Some bs)) ∧
        let typ := goType (call_Resp c) in
        Unmarshal dflt (decodeFuel 4 typ bs) bs typ (zeroValue typ) = (toGo a, Ok tt)
  | inr (reason, msg) =>
      ResultStatus item = ResultStatusOperationFailed ∧ ResultReason item = reason ∧ ResultMessage item = msg ∧
      ResponsePayload item = None
  end.

Lemma reply_received (r : Reply (E := E) (St := St)) item :
  replyOk r = true → responseItemAgrees dflt (replyItem r) item → received r item.
Proof.
  destruct r as [c [a|[reason msg]]].
  - intros (Hdir & Hat & Hl)%payloadOk_inv (? & ? & ? & ? & ? & Hag). cbn [projT2] in *.
    apply agrees_iface_struct in Hag as (flags & tag & it & rest & Hw & Hok & Hp); [|by intros []]. injection Hp as Hp.
    cbn [received]. split_and!; [done..|]. eexists. split; [done|].
    eapply payload_wire; [done|by apply wire_ptr_inv in Hw|done|done].
  - intros _ (? & ? & ? & ? & ? & Hag). apply agrees_lossless in Hag; [|done]. injection Hag as Hag. done.
Qed.

Definition callResponse (h : StandardProtocolHandler (E := E) (St := St)) (now : gotime) (ccv scv : string)
    (rs : list (Reply (E := E) (St := St))) : ResponseMessage :=
  mkResponseMessage (responseHeader h now ccv scv (len rs)) (Some (replyItem <$> rs)).

Lemma client_receives h now ccv scv rs it fuel :
  wireValue dflt true responseMessageType (toGo (callResponse h now ccv scv rs)) = Some it → itemOk it →
  Forall (λ r, replyOk r = true) rs → (3 * tdepth responseMessageType ≤ fuel)%nat →
  ∃ out, Unmarshal dflt fuel (itemBlock it) responseMessageType (zeroValue responseMessageType) = (toGo out, Ok tt) ∧
    rs_ResponseHeader out = responseHeader h (wholeSeconds now) ccv scv (len rs) ∧
    Forall2 received rs (default [] (rs_BatchItem out)).
Proof.
  intros Hw Hok Hrs Hf. destruct (Unmarshal_wire dflt true responseMessageType _ it fuel [] eq_refl Hw Hok Hf) as (v' & Hag & Hu).
  rewrite app_nil_r in Hu. apply responseMessage_agrees in Hag as (out & -> & Hh & Hi); [|done].
  exists out. split_and!; [done|done|]. inversion Hi as [? l Hl Hx Hy|]; subst. cbn [default from_option id].
  clear -Hl Hrs. revert l Hl. induction Hrs as [|r rs Hr _ IH]; intros l Hl.
  - by apply Forall2_nil_inv_l in Hl as ->.
  - cbn in Hl. apply Forall2_cons_inv_l in Hl as (i & l' & Hi & Hl & ->).
    constructor; [by apply reply_received|by apply IH].
Qed.

Lemma runCalls_length m cs st st' (rs : list (Reply (E := E) (St := St))) :
  runCalls m cs st = Some (st', rs) → length rs = length cs.
Proof.
  revert st rs. induction cs as [|c cs IH]; intros st rs; cbn [runCalls]; [by intros [= _ <-]|].
  intros ([st1 o] & _ & Hr)%bind_Some. apply bind_Some in Hr as ([st2 rs'] & Hr & Heq).
  injection Heq as -> <-. cbn. f_equal. exact (IH _ _ Hr).
Qed.

(** The server on the bytes of a request of calls. *)
Lemma server_serves (m : OperationMux (E := E) (St := St)) h now scv pooled remote loc st st' hd cs rs it it' :
  let msg := mkRequestMessage hd (Some (callItem <$> cs)) in
  let out := callResponse h now (rqh_ClientCorrelationValue hd) scv rs in
  h_MessageHandler h = HandleMessage m → mux_ErrorHandler m = None → from_option (λ r, idle (resp_enc r)) True pooled → cs ≠ [] →
  Forall (registered dflt m) cs → Forall (λ c, callOk c = true) cs → runCalls m cs st = Some (st', rs) →
  ProtocolVersionMajor (rqh_ProtocolVersion hd) = ProtocolVersionMajor (h_ProtocolVersion h) →
  wireValue dflt true requestMessageType (toGo msg) = Some it → itemOk it → itemTag it = TagRequestMessage →
  wireValue dflt true responseMessageType (toGo out) = Some it' → itemOk it' →
  tooLarge msg (itemBlock it') = false →
  ∃ r, ServeKMIP dflt h now scv pooled (newRequest (itemBlock it) remote loc) st = (st', Ok (itemBlock it', r)).
Proof.
  intros msg out Hmh Heh Hp Hne Hreg Hcs Hrun Hv Hw Hok Ht Hw' Hok' Hl.
  destruct (parseMessage_wire (E := E) dflt msg it (newRequest (itemBlock it) remote loc)) as (msg' & Hag & Hpm); [done..|].
  apply requestMessage_agrees in Hag as (msg1 & Heq & _ & Hpv & Hmax & Hccv & Hitems).
  apply (f_equal (ofGo (A := RequestMessage))) in Heq. rewrite !ofGo_toGo in Heq. injection Heq as <-.
  cbn [msg rq_RequestHeader rq_BatchItem] in *. inversion Hitems as [? items' Hall Hx Hitems'|]; subst.
  destruct (handleItems_calls dflt m cs rs items' O
    (strictRequest h (setMessage msg' (newRequest (itemBlock it) remote loc)) msg')
    (mkResponse (mkResponseMessage (responseHeader h now (rqh_ClientCorrelationValue hd) scv 0) None) NewEncoder)
    st st' (mkDecoder (ProtocolVersionMinor (rqh_ProtocolVersion (rq_RequestHeader msg')) =?
                ProtocolVersionMinor (h_ProtocolVersion h)) None "")) as (req1 & Hhi & Hq); [done..| | |done|].
  { unfold batchItems. cbn. by rewrite <- Hitems'. }
  { by rewrite drop_0. }
  edestruct (replies_items (E := E) (St := St) rs) as (Hri & Hsome & Hhd & Henc). cbv zeta in *.
  eapply (ServeKMIP_handled h now scv pooled _ (setMessage msg' (newRequest (itemBlock it) remote loc)) msg').
  - split_and!; [done|done|by rewrite Hpv].
  - done.
  - rewrite Hmh. unfold HandleMessage, batchItems. cbn [req_Message strictRequest setDecoder setMessage mbind option_bind].
    rewrite <- Hitems'. cbn [default from_option id]. rewrite <- (Forall2_length _ _ _ Hall), length_fmap, Hccv. exact Hhi.
  - by rewrite Henc.
  - by rewrite Hq.
  - rewrite Hsome, Hri, Hhd by (intros ->; by apply runCalls_length in Hrun; destruct cs).
    rewrite <- (marshalResponse_wire out it' Hw' Hok'). f_equal. unfold out, callResponse. cbn.
    unfold batchCount, responseHeader. cbn. unfold len. by rewrite length_fmap.
  - unfold tooLarge in *. cbn in Hl. by rewrite Hmax.
Qed.

(** * Sessions *)

(** A request of calls, their replies, and the items both are on the wire. *)
Record Exchange := mkExchange {
  x_header : RequestHeader;
  x_calls : list (Call (E := E) (St := St));
  x_replies : list (Reply (E := E) (St := St));
  x_request : item;
  x_response : item;
}.
Definition x_message (x : Exchange) : RequestMessage := mkRequestMessage (x_header x) (Some (callItem <$> x_calls x)).

Context (m : OperationMux (E := E) (St := St)) (h : StandardProtocolHandler (E := E) (St := St)) (env : Environment).
Context (Hmh : h_MessageHandler h = HandleMessage m) (Heh : mux_ErrorHandler m = None).

(** The exchange with number [k] of a connection: the functions turn [st] into
    [st'], and both messages can be written. *)
Record exchange (k : nat) (st : St) (x : Exchange) (st' : St) : Prop := {
  ex_nonempty : x_calls x ≠ [];
  ex_registered : Forall (registered dflt m) (x_calls x);
  ex_calls : Forall (λ c, callOk c = true) (x_calls x);
  ex_run : runCalls m (x_calls x) st = Some (st', x_replies x);
  ex_replies : Forall (λ r, replyOk r = true) (x_replies x);
  ex_version : ProtocolVersionMajor (rqh_ProtocolVersion (x_header x)) = ProtocolVersionMajor (h_ProtocolVersion h);
  ex_request : wireValue dflt true requestMessageType (toGo (x_message x)) = Some (x_request x);
  ex_request_ok : itemOk (x_request x);
  ex_request_tag : itemTag (x_request x) = TagRequestMessage;
  ex_response : wireValue dflt true responseMessageType
    (toGo (callResponse h (env_now env k) (rqh_ClientCorrelationValue (x_header x)) (env_uuid env k) (x_replies x))) =
    Some (x_response x);
  ex_response_ok : itemOk (x_response x);
  ex_size : tooLarge (x_message x) (itemBlock (x_response x)) = false;
}.

Inductive session : nat → St → list Exchange → St → Prop :=
  | session_nil k st : session k st [] st
  | session_cons k st x st1 xs st2 :
      exchange k st x st1 → session (S k) st1 xs st2 → session k st (x :: xs) st2.

Lemma exchange_served k st x st' remote loc : exchange k st x st' →
  ∃ r, ServeKMIP dflt h (env_now env k) (env_uuid env k) None (newRequest (itemBlock (x_request x)) remote loc) st =
    (st', Ok (itemBlock (x_response x), r)).
Proof. intros []. by eapply server_serves. Qed.

Lemma session_served k st xs st' remote loc : session k st xs st' →
  serveAll dflt h env remote loc k (map (λ x, itemBlock (x_request x)) xs) st =
    (st', map (λ x, itemBlock (x_response x)) xs, ClientClosed).
Proof.
  induction 1 as [|k st x st1 xs st2 Hx _ IH]; [done|]. cbn [map serveAll].
  destruct (exchange_served k st x st1 remote loc Hx) as [r ->]. by rewrite IH.
Qed.

Lemma session_denotes k st xs st' : session k st xs st' →
  Forall2 Denotes (map x_request xs) (map (λ x, itemBlock (x_request x)) xs).
Proof.
  induction 1 as [|k st x st1 xs st2 Hx _ IH]; constructor; [|done].
  apply itemBlock_denotes. by apply ex_request_ok in Hx.
Qed.

(** What the client knows of an exchange: it marshaled the request, and it
    unmarshals the replies to its calls from the response. *)
Definition completed (fuel k : nat) (x : Exchange) : Prop :=
  Marshal dflt (need (toGo (x_message x))) (Some (requestMessageType, toGo (x_message x))) =
    Ok (itemBlock (x_request x)) ∧
  ∃ out, Unmarshal dflt fuel (itemBlock (x_response x)) responseMessageType (zeroValue responseMessageType) =
      (toGo out, Ok tt) ∧
    rs_ResponseHeader out =
      responseHeader h (wholeSeconds (env_now env k)) (rqh_ClientCorrelationValue (x_header x)) (env_uuid env k)
        (len (x_replies x)) ∧
    Forall2 received (x_replies x) (default [] (rs_BatchItem out)).

Lemma exchange_completed fuel k st x st' : (3 * tdepth responseMessageType ≤ fuel)%nat → exchange k st x st' →
  completed fuel k x.
Proof. intros Hf []. split; [by apply (Marshal_wire dflt true)|by apply client_receives]. Qed.

Lemma session_completed fuel k st xs st' : (3 * tdepth responseMessageType ≤ fuel)%nat → session k st xs st' →
  ∀ i x, xs !! i = Some x → completed fuel (k + i) x.
Proof.
  intros Hf. induction 1 as [|k st x st1 xs st2 Hx _ IH]; intros [|i] y Hi; try done; cbn in Hi.
  - injection Hi as <-. rewrite Nat.add_0_r. by eapply exchange_completed.
  - rewrite <- Nat.add_succ_comm. by apply IH.
Qed.
End Client.

(** * The payloads

    The laws of [GoStructLaws] for the request payloads of the handlers. *)

#[export] Instance GetRequestPayload_laws : GoStructLaws GetRequestPayload.
Proof. split; [by intros []|]. intros v Hv. fields_of Hv. scalar_fields. by eexists (mkGetRequest _). Qed.
#[export] Instance DestroyRequestPayload_laws : GoStructLaws DestroyRequestPayload.
Proof. split; [by intros []|]. intros v Hv. fields_of Hv. scalar_fields. by eexists (mkDestroyRequest _). Qed.
#[export] Instance LocateRequestPayload_laws : GoStructLaws LocateRequestPayload.
Proof. split; [by intros []|]. intros v Hv. fields_of Hv. scalar_fields. by eexists (mkLocateRequest _). Qed.
#[export] Instance DiscoverVersionsRequestPayload_laws : GoStructLaws DiscoverVersionsRequestPayload.
Proof.
  split; [intros [l]; cbn -[ofSlice toSlice]; by rewrite ofSlice_toSlice|]. intros v Hv. fields_of Hv.
  match goal with H : hasType _ (sliceOf _) _ |- _ =>
    apply (ht_slice_inv (A := ProtocolVersion) toGo) in H as [? ->];
      [|reflexivity|intros ?; by apply (ht_goStruct (A := ProtocolVersion))] end.
  by eexists (mkDiscoverRequest _).
Qed.
#[export] Instance Attribute_laws : GoStructLaws Attribute.
Proof. split; [by intros []|]. intros v Hv. fields_of Hv. scalar_fields. by eexists (mkAttribute _ _ _). Qed.
#[export] Instance TemplateAttribute_laws : GoStructLaws TemplateAttribute.
Proof.
  split; [intros [n l]; cbn -[ofSlice toSlice]; by rewrite ofSlice_toSlice|]. intros v Hv. fields_of Hv.
  match goal with H : hasType _ (sliceOf attributeType) _ |- _ =>
    apply (ht_slice_inv (A := Attribute) toGo) in H as [? ->];
      [|reflexivity|intros ?; by apply (ht_goStruct (A := Attribute))] end.
  by eexists (mkTemplateAttribute _ _).
Qed.
#[export] Instance CreateRequestPayload_laws : GoStructLaws CreateRequestPayload.
Proof.
  split; [intros [o t]; cbn [toGo ofGo CreateRequestPayload_go crq_ObjectType crq_TemplateAttribute]; by rewrite ofGo_toGo|].
  intros v Hv. fields_of Hv. scalar_fields.
  match goal with H : hasType _ templateAttributeType _ |- _ =>
    apply (ht_goStruct (A := TemplateAttribute)) in H as [? ->]; [|reflexivity] end.
  by eexists (mkCreateRequest _ _).
Qed.
#[export] Instance RegisterRequestPayload_laws : GoStructLaws RegisterRequestPayload.
Proof.
  split.
  { intros [o t []]. cbn [toGo ofGo RegisterRequestPayload_go rrq_ObjectType rrq_TemplateAttribute rrq_Objects].
    by rewrite ofGo_toGo. }
  intros v Hv. fields_of Hv. scalar_fields.
  match goal with H : hasType _ templateAttributeType _ |- _ =>
    apply (ht_goStruct (A := TemplateAttribute)) in H as [? ->]; [|reflexivity] end.
  repeat match goal with H : hasType _ (TPtr _) _ |- _ => apply ht_ptr_inv in H as (? & -> & _) end.
  by eexists (mkRegisterRequest _ _ (mkObjects _ _ _ _ _ _ _ _)).
Qed.

(** * A batch of three calls *)

(** A key store of one key: Get gives it out and counts, Destroy fails. *)
Definition storedKey : gov :=
  VStruct [VStruct [VUint 1; VUint 0;
    VPtr (Some (VStruct [VIface (Some (bytesType, VBytes (Some [x01; x02; x03]))); VSlice None]));
    VUint 3; VInt 24; VPtr None]].
Definition storeGet : operation (E := simpleError) (St := nat) GetRequestPayload GetResponsePayload := λ p st,
  (S st, Ok (Some (mkGetResponse 2 (grq_UniqueIdentifier p)
                     (mkObjects None (Some storedKey) None None None None None None)))).
Definition storeDestroy : operation (E := simpleError) (St := nat) DestroyRequestPayload DestroyResponsePayload :=
  λ _ st, (st, Err (WithResultReason (merry_UserError "denied") 12)).
Definition storeLocate : operation (E := simpleError) (St := nat) LocateRequestPayload LocateResponsePayload :=
  λ _ st, (S st, Ok None).

(** Locate is not registered. *)
Definition storeMux (dflt : Registry) : OperationMux (E := simpleError) (St := nat) :=
  OperationMux_Handle (OperationMux_Handle emptyMux 10 (GetHandler_HandleItem dflt storeGet)) 20
    (DestroyHandler_HandleItem dflt storeDestroy).
Definition storeCalls : list (Call (E := simpleError) (St := nat)) :=
  [mkCall _ _ _ _ _ 10 (Some [x01]) storeGet (mkGetRequest "key-1");
   mkCall _ _ _ _ _ 20 (Some [x02]) storeDestroy (mkDestroyRequest "key-1");
   mkCall _ _ _ _ _ 8 (Some [x03]) storeLocate (mkLocateRequest None)].
Definition storeHeader : RequestHeader :=
  mkRequestHeader (mkVersion 1 4) 0 "client" "" false false None None 0 false (Some (GoTime 1600000000 5)) 3.
Definition storeRequest : item := Eval vm_compute in
  default (IStructure 0 []) (wireValue (@theRegistry asciiCaser) true requestMessageType
    (toGo (mkRequestMessage storeHeader (Some (callItem <$> storeCalls))))).
Definition storeReplies : list (Reply (E := simpleError) (St := nat)) :=
  default [] (snd <$> runCalls (storeMux (@theRegistry asciiCaser)) storeCalls 7%nat).
Definition storeHandler (log : bool) : StandardProtocolHandler :=
  sampleHandler log (storeMux (@theRegistry asciiCaser)).
Definition storeEnv : Environment := mkEnv (λ _, GoTime 1600000001 9) (λ _, "server"%string) (λ _, true).
Definition storeResponse : item := Eval vm_compute in
  default (IStructure 0 []) (wireValue (@theRegistry asciiCaser) true responseMessageType
    (toGo (callResponse (storeHandler true) (GoTime 1600000001 9) "client" "server" storeReplies))).
Definition storeExchange : Exchange := mkExchange storeHeader storeCalls storeReplies storeRequest storeResponse.

Lemma storeExchange_ok k n :
  exchange (@theRegistry asciiCaser) (storeMux (@theRegistry asciiCaser)) (storeHandler false) storeEnv k n storeExchange (S n).
Proof.
  constructor.
  - discriminate.
  - constructor; [right; reflexivity|]. constructor; [right; reflexivity|]. constructor; [left; reflexivity|constructor].
  - repeat constructor.
  - vm_compute. reflexivity.
  - repeat constructor.
  - reflexivity.
  - vm_compute. reflexivity.
  - by repeat constructor.
  - reflexivity.
  - vm_compute. reflexivity.
  - by repeat constructor.
  - reflexivity.
Qed.

(** * Identifiers that are numerals *)

(** The field of [GetRequestPayload], as the default registry describes it. *)
Definition identifierField : fieldInfo :=
  FI "GetRequestPayload" TagNone TagUniqueIdentifier "UniqueIdentifier" 0 0 (TI stringType TagNone None []).

Lemma getRequest_info (tc : TitleCaser) : titleCaserOk tc →
  getTypeInfo theRegistry getRequestPayloadType = Ok (TI getRequestPayloadType TagNone None [identifierField]).
Proof. intros Htc. rewrite theRegistry_getTypeInfo by done. vm_compute. reflexivity. Qed.

Lemma plainEnum dflt tag : Registry_IsBitmask dflt tag = false → is_Some (enums dflt !! tag) →
  ∃ m, Registry_EnumForTag dflt tag = Some m ∧ em_Bitmask m = false.
Proof.
  unfold Registry_IsBitmask. intros Hb [e He]. unfold Registry_EnumForTag in *. rewrite He in *. cbn in *. by eexists.
Qed.

(** Version 2.0 has an enumeration for the tag. *)
Lemma identifier_enum (tc : TitleCaser) :
  ∃ m, Registry_EnumForTag (@theRegistry tc) TagUniqueIdentifier = Some m ∧ em_Bitmask m = false.
Proof.
  apply plainEnum; [vm_compute; reflexivity|].
  assert (bool_decide (is_Some (enums (@theRegistry tc) !! TagUniqueIdentifier)) = true) as Hs by (vm_compute; reflexivity).
  exact (bool_decide_eq_true_1 _ Hs).
Qed.

Lemma parseDigits_nonneg s acc n : 0 ≤ acc → parseDigits s acc = Some n → 0 ≤ n.
Proof.
  revert acc. induction s as [|c s IH]; intros acc Ha; cbn [parseDigits]; [by intros [= <-]|].
  destruct (isDigit c) eqn:Hd; [|done]. apply IH. unfold isDigit in Hd. lia.
Qed.

Lemma parseUint_u32 s u : parseUint s (2 ^ 32) = Some u → is_u32 u.
Proof.
  unfold parseUint, is_u32. destruct s as [|c s]; [done|]. intros (n & Hn%parseDigits_nonneg & Hb)%bind_Some; [|done].
  destruct (n <? 2 ^ 32) eqn:Hl; [|done]. simplify_eq. lia.
Qed.

Section Numerals.
Context (dflt : Registry) (m : EnumMap) (s : string) (u : Z).
Context (Hm : Registry_EnumForTag dflt TagUniqueIdentifier = Some m) (Hb : em_Bitmask m = false).
Context (Hs : parseUint s (2 ^ 32) = Some u) (Hu : is_u32 u).
Context (Hti : getTypeInfo dflt getRequestPayloadType = Ok (TI getRequestPayloadType TagNone None [identifierField])).

Definition numeralItem (tag : Z) : item := IStructure tag [IPrim TagUniqueIdentifier (PEnumeration u)].

Lemma identifier_encode fuel e :
  encode dflt (S fuel) TagNone (Some (stringType, VString s)) (Some identifierField) e =
    (push e (primBlock TagUniqueIdentifier (PEnumeration u)), Ok tt).
Proof.
  assert (encodeEnumOrMask dflt TagUniqueIdentifier stringType (VString s) 0 =
    Some (onBuf (λ h, encodeEnum h TagUniqueIdentifier u))) as Hem.
  { unfold encodeEnumOrMask. rewrite Hm, Hb. rewrite bool_decide_eq_true_2 by by eexists.
    change (flags_enum 0) with false. change (flags_bitmask 0) with false. cbn [orb].
    unfold ParseEnum. rewrite Hs. by rewrite u32_id. }
  cbn -[encodeEnumOrMask push primBlock TagUniqueIdentifier]. rewrite bind_liftTI.
  cbn -[encodeEnumOrMask push primBlock TagUniqueIdentifier].
  change (TagUniqueIdentifier =? TagNone) with false. rewrite Hem.
  apply onBuf_push. exact (encodePrim_eq (buf e) TagUniqueIdentifier (PEnumeration u) Hu).
Qed.

Lemma identifierItem_ok : itemOk (IPrim TagUniqueIdentifier (PEnumeration u)).
Proof. by apply itemOk_prim. Qed.

Lemma numeralItem_ok tag : Tag_Valid tag = true → itemOk (numeralItem tag).
Proof. intros Ht. apply itemOk_structure; [done| |done]. apply Forall_singleton, identifierItem_ok. Qed.

Lemma getRequest_encode fuel tag e : Tag_Valid tag = true → 0 ≤ encodeDepth e →
  encode dflt (S (S (S fuel))) tag (Some (getRequestPayloadType, toGo (mkGetRequest s))) None e =
    (push e (itemBlock (numeralItem tag)), Ok tt).
Proof.
  intros Ht He. assert (tag ≠ TagNone) as Hn by (by apply Tag_Valid_nonzero).
  erewrite encode_written;
    [|reflexivity|done|done|done|done|exact Hti|done|unfold tagged; by rewrite (proj2 (Z.eqb_neq _ _))|done|].
  - unfold encodeBody. cbn [marshalMethodOf typeName getRequestPayloadType kmipStruct]. cbn [tn_marshal named].
    cbn [encodeStruct toGo GetRequestPayload_go grq_UniqueIdentifier]. unfold withStruct.
    rewrite (EncodeStructure_push tag _ _ (primBlock TagUniqueIdentifier (PEnumeration u))); [|intros e1 He1|done].
    + done.
    + cbn [ti_valueFields forEach]. cbn -[encode push primBlock]. unfold withField.
      unfold mbind, enc_bind. cbv beta. rewrite identifier_encode. done.
  - right. by apply enumOrMask_none; [|right].
Qed.

Lemma getRequest_EncodeValue fuel tag : Tag_Valid tag = true → ∃ e,
  EncodeValue dflt (S (S (S fuel))) tag (Some (getRequestPayloadType, toGo (mkGetRequest s))) NewEncoder = (e, Ok tt) ∧
  w e = itemBlock (numeralItem tag).
Proof. intros Ht. unfold EncodeValue, mbind, enc_bind. rewrite getRequest_encode by done. by eexists. Qed.

Lemma identifier_decode fuel d rest :
  unmarshal dflt (S (S fuel)) d stringType (VString "") (primBlock TagUniqueIdentifier (PEnumeration u) ++ rest) =
    (VString "", Err (UnmarshalerError (d_currStruct d) (d_currField d) TagUniqueIdentifier TypeEnumeration "string"
                        DErrUnsupportedTypeError)).
Proof.
  pose proof (itemBlock_len (IPrim TagUniqueIdentifier (PEnumeration u)) rest identifierItem_ok) as Hl.
  rewrite unmarshal_direct by done. cbn [unmarshalElem]. unfold stringType at 1. cbn [typeName tn_unmarshal predeclared].
  rewrite primBlock_Type. cbn [primType]. change (TypeEnumeration =? TypeStructure) with false. cbv iota.
  unfold unmarshalPrim. rewrite primBlock_Type.
  rewrite (block_value GEnumValue TTLV_ValueEnumeration TagUniqueIdentifier (PEnumeration u) u rest).
  - unfold store, setNumber, newUnmarshalerError. cbn [Kind stringType smallInt smallUint].
    rewrite primBlock_Type. pose proof (itemBlock_Tag (IPrim TagUniqueIdentifier (PEnumeration u)) rest identifierItem_ok) as Htag.
    cbn [itemBlock itemTag] in Htag. by rewrite Htag.
  - by intros ? ? [=].
  - done.
  - done.
  - done.
  - unfold TTLV_Value. by rewrite primBlock_Type.
Qed.

Definition identifierError : derr :=
  UnmarshalerError (Some "GetRequestPayload"%string) "UniqueIdentifier" TagUniqueIdentifier TypeEnumeration "string"
    DErrUnsupportedTypeError.

Lemma numeral_unmarshal fuel tag rest : Tag_Valid tag = true →
  Unmarshal dflt (S (S (S (S (S fuel))))) (itemBlock (numeralItem tag) ++ rest) getRequestPayloadType
    (zeroValue getRequestPayloadType) = (zeroValue getRequestPayloadType, Err identifierError).
Proof.
  intros Ht. pose proof (numeralItem_ok tag Ht) as Hok.
  rewrite (Unmarshal_block _ _ (numeralItem tag)) by (by apply itemBlock_denotes). unfold DecodeValue.
  rewrite <- (app_nil_r (itemBlock (numeralItem tag))). rewrite unmarshal_ptr by (by apply itemBlock_len).
  unfold getRequestPayloadType at 1, kmipStruct at 1.
  rewrite unmarshalElem_struct; [|done|apply structure_Type]. fold (kmipStruct "GetRequestPayload" [fld "UniqueIdentifier" stringType]).
  fold getRequestPayloadType. cbn [unmarshalStructure]. rewrite Hti. cbn [itemBlock numeralItem map concat].
  rewrite structure_value by done. rewrite (nonNil_block (IPrim TagUniqueIdentifier (PEnumeration u))) by
    (apply itemBlock_denotes, identifierItem_ok).
  cbn [eachValue ti_tagField ti_valueFields].
  change (primBlock TagUniqueIdentifier (PEnumeration u)) with (itemBlock (IPrim TagUniqueIdentifier (PEnumeration u))).
  rewrite itemBlock_Tag by apply identifierItem_ok. cbn [itemTag].
  change (findField [identifierField] TagUniqueIdentifier None) with (Some identifierField).
  change (zeroValue getRequestPayloadType) with (VStruct [VString ""]).
  cbn [fi_index identifierField lookup list_lookup fi_ti ti_typ itemBlock].
  by rewrite identifier_decode.
Qed.
End Numerals.

(** * Properties *)

(** C4. Calls over the wire, in sessions that the wire can carry.  The message
    handler is an operation multiplexer without an [ErrorHandler]; each request
    is a non-empty batch of calls under the server's major version; the
    operations called either have no handler or have one that decodes the
    payload, calls a function and returns its answer; the functions return
    answers, or errors with a result reason; both messages can be encoded, the
    payloads are read back as they were sent ([payloadOk]: no fractions of
    seconds, no structs in interfaces, no text that the registry takes for an
    enumeration value), and the response is within the client's limit.  Then the
    requests that a client marshals and sends over a connection, which may split
    them into reads in any way, are served by calling the functions once each,
    in order, with the client's arguments; what a function returns is what the
    client unmarshals from the item of the response under the operation and
    batch item id of the call, an error with a result reason and an operation
    that is not registered are failures with their reason there.  The header of a
    response carries the server's version and the client's correlation value;
    its time stamp loses the fraction of the second. *)
Theorem remote_calls {E} `{Merry E} {St} dflt (m : OperationMux (E := E) (St := St)) h env remote loc st xs st' cs fuel
    fuel' :
  h_MessageHandler h = HandleMessage m → mux_ErrorHandler m = None → session dflt m h env O st xs st' →
  (length xs < fuel)%nat → (3 * tdepth responseMessageType ≤ fuel')%nat →
  serve dflt h env remote loc fuel O (mkReader (concat (map (λ x, itemBlock (x_request x)) xs)) cs) None st =
    (st', map (λ x, itemBlock (x_response x)) xs, ClientClosed) ∧
  ∀ i x, xs !! i = Some x → completed dflt h env fuel' i x.
Proof.
  intros Hmh Heh Hs Hf Hf'. split.
  - rewrite (serve_blocks dflt h env remote loc (map x_request xs) (map (λ x, itemBlock (x_request x)) xs));
      [by eapply session_served|rewrite Hmh; apply _|by eapply session_denotes|by rewrite length_map|done|done].
  - exact (session_completed dflt m h env fuel' 0 st xs st' Hf' Hs).
Qed.

Lemma remote_calls_witness :
  serve (@theRegistry asciiCaser) (storeHandler false) storeEnv "" "" 3 O
    (mkReader (itemBlock storeRequest ++ itemBlock storeRequest ++ []) [5; 100]%nat) None 7%nat =
    (9%nat, [itemBlock storeResponse; itemBlock storeResponse], ClientClosed) ∧
  completed (@theRegistry asciiCaser) (storeHandler false) storeEnv 60 1 storeExchange.
Proof.
  destruct (remote_calls (@theRegistry asciiCaser) (storeMux (@theRegistry asciiCaser)) (storeHandler false) storeEnv "" ""
    7%nat [storeExchange; storeExchange] 9%nat [5; 100]%nat 3 60) as [Hs Hc].
  - reflexivity.
  - reflexivity.
  - repeat (eapply session_cons; [apply storeExchange_ok|]). apply session_nil.
  - cbn. lia.
  - vm_compute. lia.
  - split; [exact Hs|exact (Hc 1%nat storeExchange eq_refl)].
Defined.

(** C40. Once version 2.0 is registered, a unique identifier that is a decimal
    numeral below 2^32 cannot be sent: its tag has an enumeration then, the encoder takes
    the numeral for a value of it and writes an Enumeration, and the decoder
    refuses an Enumeration for the string field it was written from, with an
    error that names the tag, the type and the field. *)
Theorem numeral_identifier_unreadable (tc : TitleCaser) r s u fuel tag :
  titleCaserOk tc → initRegistry = Ok r → parseUint s (2 ^ 32) = Some u → Tag_Valid tag = true → (5 ≤ fuel)%nat →
  let it := numeralItem u tag in
  (∃ e, EncodeValue r fuel tag (Some (getRequestPayloadType, toGo (mkGetRequest s))) NewEncoder = (e, Ok tt) ∧
     w e = itemBlock it) ∧
  ∃ err, Unmarshal r fuel (itemBlock it) getRequestPayloadType (zeroValue getRequestPayloadType) =
    (zeroValue getRequestPayloadType, Err err) ∧
    UnmarshalerError_Error r err = Some ("kmip: error unmarshaling UniqueIdentifier with type " +:+
      Type_String r TypeEnumeration +:+
      " into value of type string in struct field GetRequestPayload.UniqueIdentifier")%string.
Proof.
  intros Htc Hr Hs Ht Hf it. rewrite initRegistry_eq in Hr by done. injection Hr as <-.
  pose proof (parseUint_u32 s u Hs) as Hu. destruct (identifier_enum tc) as (m & Hm & Hb).
  pose proof (getRequest_info tc Htc) as Hti. destruct fuel as [|[|[|[|[|fuel]]]]]; [lia..|]. split.
  - exact (getRequest_EncodeValue theRegistry m s u Hm Hb Hs Hu Hti _ tag Ht).
  - exists identifierError. split.
    + rewrite <- (app_nil_r (itemBlock it)). exact (numeral_unmarshal theRegistry u Hu Hti _ tag [] Ht).
    + unfold UnmarshalerError_Error, identifierError. rewrite (UniqueIdentifier_String tc Htc). reflexivity.
Qed.

Lemma numeral_identifier_unreadable_witness :
  (∃ e, EncodeValue (@theRegistry asciiCaser) 5 0x420079 (Some (getRequestPayloadType, toGo (mkGetRequest "49")))
          NewEncoder = (e, Ok tt) ∧
     w e = itemBlock (IStructure 0x420079 [IPrim 0x420094 (PEnumeration 49)])) ∧
  ∃ err, Unmarshal (@theRegistry asciiCaser) 5 (itemBlock (IStructure 0x420079 [IPrim 0x420094 (PEnumeration 49)]))
           getRequestPayloadType (zeroValue getRequestPayloadType) =
    (zeroValue getRequestPayloadType, Err err) ∧
    UnmarshalerError_Error (@theRegistry asciiCaser) err = Some ("kmip: error unmarshaling UniqueIdentifier with type " +:+
      Type_String (@theRegistry asciiCaser) TypeEnumeration +:+
      " into value of type string in struct field GetRequestPayload.UniqueIdentifier")%string.
Proof.
  assert (titleCaserOk asciiCaser) as Htc by (intros w _; reflexivity).
  exact (numeral_identifier_unreadable asciiCaser _ "49" 49 5 0x420079 Htc (initRegistry_eq _ Htc) eq_refl eq_refl (le_n 5)).
Defined.
