(* ===== verification/Listener.v ===== *)
(** The server's listeners, of src/requests.go: [Serve], [Close], [Shutdown],
    [trackListener], [closeListenersLocked] and [onceCloseListener], as a
    transition system in which any number of calls of [Serve] and [Close] run
    concurrently.  The steps are the accesses to shared state: the mutex, the
    atomic [inShutdown] and the listeners. *)
From Stdlib Require Import ZArith Lia Classical_Prop.
From stdpp Require Import base list numbers gmap sets functions.
From S2P Require Import Prelude.
Set Warnings "-clear-no-such-hyp".
Local Open Scope Z_scope.

(** * State *)

Inductive thread : Type :=
  | TServe (i : nat)   (** the [i]th call of [Serve], with its listener *)
  | TClose (c : nat).  (** the [c]th call of [Close] or [Shutdown] *)

(** What [Serve] returns: it never returns nil. *)
Inductive serveResult : Type :=
  | ErrServerClosed
  | ErrAccept.

(** Where a call of [Serve] is; [d] is [tempDelay], in nanoseconds. *)
Inductive servePC : Type :=
  | SIdle
  | STrackLock
  | STrackRead
  | STrackInsert
  | SAccept (d : Z)
  | SAcceptErr (d : Z) (timeout : bool)
  | SSleep (d : Z)
  | SUntrackLock (r : serveResult)
  | SUntrackDelete (r : serveResult)
  | SClose (r : serveResult)
  | SDone (r : serveResult).

(** Where a call of [Close] or [Shutdown] is, with the first error of the
    listeners it has closed. *)
Inductive closePC : Type :=
  | CIdle
  | CLock
  | CLoop (err : option nat)
  | CDone (err : option nat).

(** [onceDone] and [closeCalls]: has the once of a wrapped listener fired, and
    how often was the listener underneath closed; [conns] counts the
    connections handed to goroutines. *)
Record state := mkState {
  mu : option thread;
  listeners : gset nat;
  inShutdown : bool;
  serves : nat → servePC;
  closers : nat → closePC;
  onceDone : nat → bool;
  closeCalls : nat → nat;
  conns : nat;
}.

Definition init : state :=
  mkState None ∅ false (λ _, SIdle) (λ _, CIdle) (λ _, false) (λ _, O) O.

(** * Operations *)

Definition Millisecond : Z := 1000000.
Definition maxDelay : Z := 1000 * Millisecond.

(** How long to sleep on a temporary accept failure. *)
Definition nextDelay (tempDelay : Z) : Z :=
  let tempDelay := if tempDelay =? 0 then 5 * Millisecond else tempDelay * 2 in
  if maxDelay <? tempDelay then maxDelay else tempDelay.

Definition setServe (i : nat) (pc : servePC) (s : state) : state :=
  mkState (mu s) (listeners s) (inShutdown s) (<[i := pc]> (serves s)) (closers s) (onceDone s)
    (closeCalls s) (conns s).
Definition setCloser (c : nat) (pc : closePC) (s : state) : state :=
  mkState (mu s) (listeners s) (inShutdown s) (serves s) (<[c := pc]> (closers s)) (onceDone s)
    (closeCalls s) (conns s).
Definition lock (t : thread) (s : state) : state :=
  mkState (Some t) (listeners s) (inShutdown s) (serves s) (closers s) (onceDone s) (closeCalls s) (conns s).
Definition unlock (s : state) : state :=
  mkState None (listeners s) (inShutdown s) (serves s) (closers s) (onceDone s) (closeCalls s) (conns s).
Definition setListeners (l : gset nat) (s : state) : state :=
  mkState (mu s) l (inShutdown s) (serves s) (closers s) (onceDone s) (closeCalls s) (conns s).
Definition storeShutdown (s : state) : state :=
  mkState (mu s) (listeners s) true (serves s) (closers s) (onceDone s) (closeCalls s) (conns s).
Definition newConn (s : state) : state :=
  mkState (mu s) (listeners s) (inShutdown s) (serves s) (closers s) (onceDone s) (closeCalls s) (S (conns s)).

(** [onceCloseListener.Close]: [once.Do] closes the listener underneath the
    first time only. *)
Definition onceClose (i : nat) (s : state) : state :=
  mkState (mu s) (listeners s) (inShutdown s) (serves s) (closers s) (<[i := true]> (onceDone s))
    (if onceDone s i then closeCalls s else <[i := S (closeCalls s i)]> (closeCalls s)) (conns s).

(** * Automation *)

(** [upd] resolves the updated functions of a state, by cases on the index. *)
Ltac upd :=
  simpl in *;
  repeat match goal with
  | H : context [<[?i := _]> _ ?i] |- _ => rewrite fn_lookup_insert in H
  | |- context [<[?i := _]> _ ?i] => rewrite fn_lookup_insert
  | Hne : ?j ≠ ?i, H : context [<[?i := _]> _ ?j] |- _ => rewrite (fn_lookup_insert_ne _ i j _) in H by congruence
  | Hne : ?j ≠ ?i |- context [<[?i := _]> _ ?j] => rewrite (fn_lookup_insert_ne _ i j _) by congruence
  | H : context [<[?i := _]> _ ?j] |- _ => destruct (decide (j = i)) as [-> | ?]
  | |- context [<[?i := _]> _ ?j] => destruct (decide (j = i)) as [-> | ?]
  end; simpl in *.

(** The cases of a step, with the program counter that moves in [Hpc]. *)
Ltac step_cases Hs :=
  destruct Hs as [i s Hpc|i s Hpc Hmu|i s Hpc Hsd|i s Hpc Hsd|i s Hpc|i d s Hpc Hopen|i d b s Hpc
    |i d b s Hpc Hsd|i d s Hpc Hsd|i d s Hpc Hsd|i d s Hpc|i r s Hpc Hmu|i r s Hpc|i r s Hpc
    |c s Hpc|c s Hpc Hmu|c err ln s Hpc Hln|c err s Hpc Hemp].

(** * Steps *)

Section Steps.

(** What the [Close] of each listener underneath returns. *)
Context (closeErr : nat → option nat).

(** The first error is the one that is returned. *)
Definition firstErr (err cerr : option nat) : option nat :=
  match err with None => cerr | Some _ => err end.

(** The listener underneath is the environment: until it is closed, [Accept]
    returns a connection or any error, and after that only errors.  The
    sleeping and the accepting threads wait for the environment. *)
Inductive step : thread → state → state → Prop :=
  (* Serve *)
  | st_serve i s : serves s i = SIdle → step (TServe i) s (setServe i STrackLock s)
  | st_track_lock i s : serves s i = STrackLock → mu s = None →
      step (TServe i) s (setServe i STrackRead (lock (TServe i) s))
  | st_track_down i s : serves s i = STrackRead → inShutdown s = true →
      step (TServe i) s (setServe i (SClose ErrServerClosed) (unlock s))
  | st_track_up i s : serves s i = STrackRead → inShutdown s = false →
      step (TServe i) s (setServe i STrackInsert s)
  | st_track_insert i s : serves s i = STrackInsert →
      step (TServe i) s (setServe i (SAccept 0) (unlock (setListeners ({[i]} ∪ listeners s) s)))
  | st_accept_conn i d s : serves s i = SAccept d → onceDone s i = false →
      step (TServe i) s (setServe i (SAccept 0) (newConn s))
  | st_accept_error i d timeout s : serves s i = SAccept d →
      step (TServe i) s (setServe i (SAcceptErr d timeout) s)
  | st_error_down i d timeout s : serves s i = SAcceptErr d timeout → inShutdown s = true →
      step (TServe i) s (setServe i (SUntrackLock ErrServerClosed) s)
  | st_error_timeout i d s : serves s i = SAcceptErr d true → inShutdown s = false →
      step (TServe i) s (setServe i (SSleep (nextDelay d)) s)
  | st_error_return i d s : serves s i = SAcceptErr d false → inShutdown s = false →
      step (TServe i) s (setServe i (SUntrackLock ErrAccept) s)
  | st_slept i d s : serves s i = SSleep d → step (TServe i) s (setServe i (SAccept d) s)
  | st_untrack_lock i r s : serves s i = SUntrackLock r → mu s = None →
      step (TServe i) s (setServe i (SUntrackDelete r) (lock (TServe i) s))
  | st_untrack_delete i r s : serves s i = SUntrackDelete r →
      step (TServe i) s (setServe i (SClose r) (unlock (setListeners (listeners s ∖ {[i]}) s)))
  | st_close_listener i r s : serves s i = SClose r →
      step (TServe i) s (setServe i (SDone r) (onceClose i s))
  (* Close and Shutdown *)
  | st_store c s : closers s c = CIdle → step (TClose c) s (setCloser c CLock (storeShutdown s))
  | st_close_lock c s : closers s c = CLock → mu s = None →
      step (TClose c) s (setCloser c (CLoop None) (lock (TClose c) s))
  | st_close_one c err ln s : closers s c = CLoop err → ln ∈ listeners s →
      step (TClose c) s
        (setCloser c (CLoop (firstErr err (closeErr ln)))
           (setListeners (listeners s ∖ {[ln]}) (onceClose ln s)))
  | st_close_done c err s : closers s c = CLoop err → listeners s = ∅ →
      step (TClose c) s (setCloser c (CDone err) (unlock s)).

Inductive reachable : state → Prop :=
  | reach_init : reachable init
  | reach_step t s s' : reachable s → step t s s' → reachable s'.

(** * Invariants *)

(** Between the two calls of [trackListener]. *)
Definition tracked (pc : servePC) : bool :=
  match pc with
  | SAccept _ | SAcceptErr _ _ | SSleep _ | SUntrackLock _ | SUntrackDelete _ => true
  | _ => false
  end.

(** Holding the mutex. *)
Definition serveHolds (pc : servePC) : bool :=
  match pc with STrackRead | STrackInsert | SUntrackDelete _ => true | _ => false end.

Definition closeHolds (pc : closePC) : bool :=
  match pc with CLoop _ => true | _ => false end.

(** [tempDelay], where there is one. *)
Definition delayOf (pc : servePC) : Z :=
  match pc with SAccept d | SAcceptErr d _ | SSleep d => d | _ => 0 end.

(** What the call is going to return. *)
Definition returning (pc : servePC) : option serveResult :=
  match pc with
  | SUntrackLock r | SUntrackDelete r | SClose r | SDone r => Some r
  | _ => None
  end.

Definition closed (pc : closePC) : bool := match pc with CDone _ => true | _ => false end.

Record Inv (s : state) : Prop := mkInv {
  inv_once : ∀ i, closeCalls s i = if onceDone s i then 1%nat else 0%nat;
  inv_tracked : ∀ i, i ∈ listeners s → tracked (serves s i) = true;
  inv_untracked : ∀ i, tracked (serves s i) = true → i ∈ listeners s ∨ onceDone s i = true ∧ inShutdown s = true;
  inv_muServe : ∀ i, serveHolds (serves s i) = true ↔ mu s = Some (TServe i);
  inv_muClose : ∀ c, closeHolds (closers s c) = true ↔ mu s = Some (TClose c);
  inv_called : ∀ c, closers s c ≠ CIdle → inShutdown s = true;
  inv_closed : ∀ c, closed (closers s c) = true →
    listeners s = ∅ ∧ ∀ i, serves s i ≠ STrackInsert;
  inv_done : ∀ i r, serves s i = SDone r → onceDone s i = true;
  inv_delay : ∀ i, 0 ≤ delayOf (serves s i) ≤ maxDelay;
}.

Lemma nextDelay_bounds d : 0 ≤ d ≤ maxDelay → 0 ≤ nextDelay d ≤ maxDelay.
Proof. unfold nextDelay, maxDelay, Millisecond. intros. repeat case_match; lia. Qed.

Lemma Inv_init : Inv init.
Proof. split; simpl; try done; try set_solver. Qed.

Section Preserved.

Context (t : thread) (s s' : state) (Hs : step t s s') (HI : Inv s).

Lemma step_once j : closeCalls s' j = if onceDone s' j then 1%nat else 0%nat.
Proof.
  pose proof (inv_once _ HI) as H. step_cases Hs; try exact (H j); simpl.
  all: match goal with |- context [onceDone ?s ?k] => pose proof (H k); destruct (onceDone s k) eqn:? end;
    upd; try done; try exact (H j).
  all: congruence.
Qed.

Lemma step_muServe j : serveHolds (serves s' j) = true ↔ mu s' = Some (TServe j).
Proof.
  pose proof (inv_muServe _ HI) as H. pose proof (inv_muClose _ HI) as H'. step_cases Hs.
  all: pose proof (H j) as Hj; try pose proof (H i) as Hi; try pose proof (H' c) as Hc; rewrite ?Hpc in *; upd.
  all: naive_solver.
Qed.

Lemma step_muClose j : closeHolds (closers s' j) = true ↔ mu s' = Some (TClose j).
Proof.
  pose proof (inv_muServe _ HI) as H. pose proof (inv_muClose _ HI) as H'. step_cases Hs.
  all: pose proof (H' j) as Hj; try pose proof (H i) as Hi; try pose proof (H' c) as Hc; rewrite ?Hpc in *; upd.
  all: naive_solver.
Qed.

Lemma step_tracked j : j ∈ listeners s' → tracked (serves s' j) = true.
Proof.
  pose proof (inv_tracked _ HI j) as H. step_cases Hs; upd; rewrite ?Hpc in *; simpl in *; set_solver.
Qed.

Lemma step_untracked j : tracked (serves s' j) = true →
  j ∈ listeners s' ∨ onceDone s' j = true ∧ inShutdown s' = true.
Proof.
  pose proof (inv_untracked _ HI j) as H. pose proof (inv_called _ HI) as Hsh. 
  step_cases Hs; upd; rewrite ?Hpc in *; simpl in *; try set_solver.
  all: right; split; [done|]; apply (Hsh c); congruence.
Qed.

Lemma step_called j : closers s' j ≠ CIdle → inShutdown s' = true.
Proof.
  pose proof (inv_called _ HI j) as H. step_cases Hs; upd; try done.
  all: intros _; apply (inv_called _ HI c); congruence.
Qed.

(** While a [Close] holds the mutex, no [Serve] is about to insert. *)
Lemma noInsert c err : closers s c = CLoop err → ∀ i, serves s i ≠ STrackInsert.
Proof.
  intros Hc i Hi. pose proof (inv_muServe _ HI i) as H. pose proof (inv_muClose _ HI c) as H'.
  rewrite Hi in H. rewrite Hc in H'. naive_solver.
Qed.

Lemma step_closed j : closed (closers s' j) = true → listeners s' = ∅ ∧ ∀ i, serves s' i ≠ STrackInsert.
Proof.
  pose proof (inv_closed _ HI j) as H. pose proof (inv_called _ HI j) as Hsh.
  pose proof noInsert as Hno.
  assert (closed (closers s j) = true → inShutdown s = true) as Hdown by (destruct (closers s j); naive_solver).
  step_cases Hs; upd; intros Hj; try (split; [set_solver | intros k; upd; set_solver]).
  by rewrite Hdown in Hsd.
Qed.

Lemma step_done j q : serves s' j = SDone q → onceDone s' j = true.
Proof. pose proof (inv_done _ HI j q) as H. step_cases Hs; upd; set_solver. Qed.

Lemma step_delay j : 0 ≤ delayOf (serves s' j) ≤ maxDelay.
Proof.
  pose proof (inv_delay _ HI j) as H. pose proof nextDelay_bounds. unfold maxDelay, Millisecond in *.
  step_cases Hs; upd; rewrite ?Hpc in *; simpl in *; eauto with lia.
Qed.

Lemma Inv_step : Inv s'.
Proof.
  split; eauto using step_once, step_muServe, step_muClose, step_tracked, step_untracked, step_called,
    step_closed, step_done, step_delay.
Qed.

End Preserved.

Lemma Inv_reachable s : reachable s → Inv s.
Proof. induction 1; eauto using Inv_init, Inv_step. Qed.

(** Once a [Close] has returned, a tracked listener is closed. *)
Lemma closed_once s c i : Inv s → closed (closers s c) = true → tracked (serves s i) = true → onceDone s i = true.
Proof.
  intros HI Hc Ht. destruct (inv_closed _ HI c Hc) as [He _].
  destruct (inv_untracked _ HI i Ht) as [Hin|[? _]]; [set_solver|done].
Qed.

Lemma closed_down s c : Inv s → closed (closers s c) = true → inShutdown s = true.
Proof. intros HI Hc. apply (inv_called _ HI c). by intros E; rewrite E in Hc. Qed.

(** * Runs *)

(** An infinite run: at each instant a thread takes a step, or none does. *)
Record run (σ : nat → state) (l : nat → option thread) : Prop := {
  run_init : σ 0%nat = init;
  run_step : ∀ n, match l n with
    | Some t => step t (σ n) (σ (S n))
    | None => σ (S n) = σ n
    end;
}.

(** A thread that waits neither for the mutex nor for the environment: a call
    that has not been made and the [Accept] of an open listener do. *)
Definition ready (t : thread) (s : state) : Prop :=
  match t with
  | TServe i =>
      match serves s i with
      | SIdle | SDone _ => False
      | STrackLock | SUntrackLock _ => mu s = None
      | SAccept _ => onceDone s i = true
      | _ => True
      end
  | TClose c =>
      match closers s c with
      | CIdle | CDone _ => False
      | CLock => mu s = None
      | CLoop _ => True
      end
  end.

(** Strong fairness, what the scheduler and [sync.Mutex] give: a thread that
    is ready again and again takes a step. *)
Definition fair (σ : nat → state) (l : nat → option thread) : Prop :=
  ∀ t n, (∀ m, (n ≤ m)%nat → ∃ k, (m ≤ k)%nat ∧ ready t (σ k)) → ∃ k, (n ≤ k)%nat ∧ l k = Some t.

Section Runs.

Context (σ : nat → state) (l : nat → option thread) (Hrun : run σ l) (Hfair : fair σ l).

Lemma run_reachable n : reachable (σ n).
Proof.
  induction n as [|n IH]; [rewrite (run_init _ _ Hrun); constructor|].
  pose proof (run_step _ _ Hrun n) as Hs. destruct (l n); [by econstructor | by rewrite Hs].
Qed.

Lemma run_Inv n : Inv (σ n).
Proof. apply Inv_reachable, run_reachable. Qed.

(** What no step of a thread other than [t] changes. *)
Definition frame (t : thread) (s s' : state) : Prop :=
  match t with
  | TServe i => serves s' i = serves s i
  | TClose c => closers s' c = closers s c
  end ∧ (mu s = Some t → mu s' = Some t ∧ listeners s' = listeners s).

Lemma step_frame t t' s s' : step t' s s' → Inv s → t ≠ t' → frame t s s'.
Proof.
  intros Hs HI Hne. pose proof (inv_muServe _ HI) as H. pose proof (inv_muClose _ HI) as H'.
  step_cases Hs; (split; [destruct t; upd; congruence|]); intros Hmut; simpl in *; try congruence; try done.
  all: try pose proof (H i) as Hi; try pose proof (H' c) as Hc; rewrite ?Hpc in *; simpl in *; naive_solver.
Qed.

Lemma step_monotone t s s' : step t s s' → Inv s →
  (inShutdown s = true → inShutdown s' = true) ∧
  ∀ c, closed (closers s c) = true → closed (closers s' c) = true.
Proof. intros Hs HI. step_cases Hs; split; intros; upd; try done; by rewrite Hpc in *. Qed.

Lemma run_frame t n m : (n ≤ m)%nat → (∀ k, (n ≤ k < m)%nat → l k ≠ Some t) → frame t (σ n) (σ m).
Proof.
  induction 1 as [|m Hm IH]; intros Hno; [by destruct t|].
  pose proof (run_step _ _ Hrun m) as Hs. destruct IH as [IH1 IH2]; [intros k Hk; apply Hno; lia|].
  destruct (l m) as [t'|] eqn:Hl; [|by rewrite Hs].
  assert (t ≠ t') as Hne by (intros ->; apply (Hno m); [lia | done]).
  destruct (step_frame t t' _ _ Hs (run_Inv m) Hne) as [F1 F2]. split; [destruct t; congruence|].
  intros Hmu. destruct (IH2 Hmu) as [H1 H2]. destruct (F2 H1). split; congruence.
Qed.

(** A thread that becomes ready again and again as long as it takes no step
    takes its next step, from the program counter and with what it protects
    unchanged. *)
Lemma next_step t n :
  (∀ m, (n ≤ m)%nat → frame t (σ n) (σ m) → ∃ k, (m ≤ k)%nat ∧ (frame t (σ n) (σ k) → ready t (σ k))) →
  ∃ k, (n ≤ k)%nat ∧ frame t (σ n) (σ k) ∧ step t (σ k) (σ (S k)).
Proof.
  intros Hr.
  assert (∃ k, (n ≤ k)%nat ∧ l k = Some t) as Hex.
  { apply NNPP. intros Hno.
    assert (∀ m, (n ≤ m)%nat → frame t (σ n) (σ m)) as Hfr.
    { intros m Hm. apply run_frame; [done|]. intros k Hk Hl. apply Hno. exists k. split; [lia|done]. }
    apply Hno. apply Hfair. intros m Hm. destruct (Hr m Hm (Hfr m Hm)) as (k & Hk & Hrd).
    exists k. split; [done|]. apply Hrd, Hfr. lia. }
  destruct Hex as (k0 & Hk0 & Hl0).
  revert Hk0 Hl0. induction (lt_wf k0) as [k0 _ IH]. intros Hk0 Hl0.
  destruct (classic (∃ k, (n ≤ k < k0)%nat ∧ l k = Some t)) as [(k & Hk & Hl)|Hno].
  - by apply (IH k); [lia|lia|].
  - exists k0. split; [done|]. split.
    + apply run_frame; [done|]. intros k Hk Hl. apply Hno. by exists k.
    + pose proof (run_step _ _ Hrun k0) as Hs. by rewrite Hl0 in Hs.
Qed.

(** ** The mutex is released *)

Definition holdRank (s : state) : nat :=
  match mu s with
  | None => 0
  | Some (TServe i) => match serves s i with STrackRead => 2 | _ => 1 end
  | Some (TClose c) => S (size (listeners s))
  end.

Lemma holder_ready t s : Inv s → mu s = Some t → ready t s.
Proof.
  intros HI Hmu. destruct t as [i|c]; simpl.
  - pose proof (proj2 (inv_muServe _ HI i) Hmu). by destruct (serves s i).
  - pose proof (proj2 (inv_muClose _ HI c) Hmu). by destruct (closers s c).
Qed.

Lemma size_remove (X : gset nat) x : x ∈ X → (size (X ∖ {[x]}) < size X)%nat.
Proof. intros Hx. apply subset_size. set_solver. Qed.

Lemma holder_step t s s' : step t s s' → Inv s → mu s = Some t → mu s' = None ∨ (holdRank s' < holdRank s)%nat.
Proof.
  intros Hs HI Hown. pose proof (holder_ready t s HI Hown) as Hr. unfold holdRank.
  pose proof (inv_muServe _ HI) as H. pose proof (inv_muClose _ HI) as H'.
  step_cases Hs; try pose proof (proj2 (H i) Hown) as Hh; try pose proof (proj2 (H' c) Hown) as Hh;
    rewrite Hpc in Hh; try done; simpl in *; rewrite ?Hown; upd; rewrite ?Hpc; auto.
  right. apply size_remove in Hln. lia.
Qed.

Lemma holdRank_frame t n k : mu (σ n) = Some t → frame t (σ n) (σ k) →
  mu (σ k) = Some t ∧ holdRank (σ k) = holdRank (σ n).
Proof.
  intros Hmu [F1 F2]. destruct (F2 Hmu) as [Hk Hl]. split; [done|].
  unfold holdRank. rewrite Hmu, Hk. destruct t; simpl in F1; by rewrite ?F1, ?Hl.
Qed.

Lemma mutex_free n : ∃ k, (n ≤ k)%nat ∧ mu (σ k) = None.
Proof.
  remember (holdRank (σ n)) as x eqn:Hx. revert n Hx.
  induction (lt_wf x) as [x _ IH]. intros n ->.
  destruct (mu (σ n)) as [t|] eqn:Hmu; [|by exists n].
  destruct (next_step t n) as (k & Hk & Hfr & Hs).
  { intros m Hm _. exists m. split; [done|]. intros Hfr.
    apply holder_ready; [apply run_Inv|]. by eapply holdRank_frame. }
  destruct (holdRank_frame t n k Hmu Hfr) as [Hmk Hrk].
  destruct (holder_step t _ _ Hs (run_Inv k) Hmk) as [Hfree|Hlt]; [exists (S k); split; [lia|done]|].
  destruct (IH (holdRank (σ (S k)))) with (n := S k) as (j & Hj & Hf); [lia|done|].
  exists j. split; [lia|done].
Qed.

(** ** Close returns *)

Lemma closeLoop_step c e s s' : step (TClose c) s s' → closers s c = CLoop e →
  (∃ e', closers s' c = CLoop e' ∧ (size (listeners s') < size (listeners s))%nat) ∨
  closed (closers s' c) = true.
Proof.
  inversion 1; intros; simplify_eq/=; upd; try congruence; eauto using size_remove.
Qed.

Lemma Close_loop_returns c n e : closers (σ n) c = CLoop e →
  ∃ k, (n ≤ k)%nat ∧ closed (closers (σ k) c) = true.
Proof.
  remember (size (listeners (σ n))) as x eqn:Hx. revert n e Hx.
  induction (lt_wf x) as [x _ IH]. intros n e -> Hc.
  assert (mu (σ n) = Some (TClose c)) as Hmu by (apply (inv_muClose _ (run_Inv n)); by rewrite Hc).
  destruct (next_step (TClose c) n) as (k & Hk & Hfr & Hs).
  { intros m Hm [Hfr _]. exists m. split; [done|]. simpl in *. by rewrite Hfr, Hc. }
  destruct Hfr as [F1 F2]. destruct (F2 Hmu) as [Hmk Hlk]. simpl in F1. rewrite Hc in F1.
  destruct (closeLoop_step c e _ _ Hs F1) as [[e' He] | Hd].
  - destruct (IH (size (listeners (σ (S k))))) with (n := S k) (e := e') as (j & Hj & Hf); try done.
    + rewrite <- Hlk. naive_solver.
    + naive_solver.
    + exists j. split; [lia|done].
  - exists (S k). split; [lia|done].
Qed.

Lemma Close_returns c n : closers (σ n) c ≠ CIdle → ∃ k, (n ≤ k)%nat ∧ closed (closers (σ k) c) = true.
Proof.
  intros Hne. destruct (closers (σ n) c) as [| |e|e] eqn:Hc; [done| | |].
  - destruct (next_step (TClose c) n) as (k & Hk & [F1 _] & Hs).
    { intros m Hm _. destruct (mutex_free m) as (k & Hk & Hf). exists k. split; [done|].
      intros [Hfr _]. simpl in *. by rewrite Hfr, Hc. }
    simpl in F1. rewrite Hc in F1. inversion Hs; simplify_eq/=; try congruence.
    destruct (Close_loop_returns c (S k) None) as (j & Hj & Hf).
    + match goal with H : _ = σ (S k) |- _ => rewrite <- H end. by upd.
    + exists j. split; [lia|done].
  - by eapply Close_loop_returns.
  - exists n. by rewrite Hc.
Qed.

(** ** Serve returns *)

Definition serveRank (pc : servePC) : nat :=
  match pc with
  | SIdle => 9
  | STrackLock => 8
  | STrackRead => 7
  | STrackInsert => 6
  | SSleep _ => 6
  | SAccept _ => 5
  | SAcceptErr _ _ => 4
  | SUntrackLock _ => 3
  | SUntrackDelete _ => 2
  | SClose _ => 1
  | SDone _ => 0
  end.

Lemma serve_progress s s' c i : Inv s → closed (closers s c) = true → step (TServe i) s s' →
  (serveRank (serves s' i) < serveRank (serves s i))%nat.
Proof.
  intros HI Hc Hs. pose proof (closed_down s c HI Hc) as Hd.
  pose proof (closed_once s c i HI Hc) as Ho. destruct (inv_closed _ HI c Hc) as [_ Hno].
  inversion Hs as [? ? Hpc|? ? Hpc|? ? Hpc|? ? Hpc|? ? Hpc|? ? ? Hpc|? ? ? ? Hpc|? ? ? ? Hpc|? ? ? Hpc|? ? ? Hpc
    |? ? ? Hpc|? ? ? Hpc|? ? ? Hpc|? ? ? Hpc| | | |]; subst; upd; rewrite ?Hpc in *; simpl in *; try lia; try congruence.
  rewrite Ho in *; done.
Qed.

(** From the moment the server shuts down, the only new result is
    [ErrServerClosed]. *)
Lemma serve_result t s s' j : inShutdown s = true → step t s s' →
  returning (serves s' j) = returning (serves s j) ∨
  returning (serves s j) = None ∧ returning (serves s' j) = Some ErrServerClosed.
Proof. intros Hd Hs. step_cases Hs; upd; rewrite ?Hpc; auto; congruence. Qed.

Lemma run_down n m : (n ≤ m)%nat → inShutdown (σ n) = true → inShutdown (σ m) = true.
Proof.
  induction 1 as [|m Hm IH]; [done|]. intros Hd. pose proof (run_step _ _ Hrun m) as Hs.
  destruct (l m); [|by rewrite Hs; auto]. apply (step_monotone _ _ _ Hs (run_Inv m)). auto.
Qed.

Lemma run_started i n m : (n ≤ m)%nat → serves (σ n) i ≠ SIdle → serves (σ m) i ≠ SIdle.
Proof.
  induction 1 as [|m Hm IH]; [done|]. intros Hd. specialize (IH Hd).
  pose proof (run_step _ _ Hrun m) as Hs. destruct (l m) as [t|]; [|by rewrite Hs].
  clear -IH Hs. revert IH. rename i into j. step_cases Hs; upd; done.
Qed.

Lemma run_closed c n m : (n ≤ m)%nat → closed (closers (σ n) c) = true → closed (closers (σ m) c) = true.
Proof.
  induction 1 as [|m Hm IH]; [done|]. intros Hd. pose proof (run_step _ _ Hrun m) as Hs.
  destruct (l m); [|by rewrite Hs; auto]. apply (step_monotone _ _ _ Hs (run_Inv m)). auto.
Qed.

Lemma run_result i n m : (n ≤ m)%nat → inShutdown (σ n) = true → returning (serves (σ n) i) = None →
  returning (serves (σ m) i) = None ∨ returning (serves (σ m) i) = Some ErrServerClosed.
Proof.
  intros Hm Hd Hn. induction Hm as [|m Hm IH]; [auto|]. pose proof (run_step _ _ Hrun m) as Hs.
  destruct (l m); [|by rewrite Hs; auto].
  destruct (serve_result _ _ _ i (run_down n m Hm Hd) Hs) as [->|[_ ->]]; auto.
Qed.

Lemma serve_ready c i n : closed (closers (σ n) c) = true → serves (σ n) i ≠ SIdle →
  (∀ r, serves (σ n) i ≠ SDone r) →
  ∃ k, (n ≤ k)%nat ∧ (serves (σ k) i = serves (σ n) i → ready (TServe i) (σ k)).
Proof.
  intros Hc Hs Hd. destruct (mutex_free n) as (k & Hk & Hf). exists k. split; [done|].
  intros F. simpl in *. pose proof (closed_once (σ k) c i (run_Inv k) (run_closed c n k Hk Hc)) as Ho.
  rewrite F in *. destruct (serves (σ n) i) as [| | | | | | | | | |r]; try done; [by auto | by destruct (Hd r)].
Qed.

Lemma Serve_ends c i n : closed (closers (σ n) c) = true → serves (σ n) i ≠ SIdle →
  ∃ m r, (n ≤ m)%nat ∧ serves (σ m) i = SDone r.
Proof.
  remember (serveRank (serves (σ n) i)) as x eqn:Hx. revert n Hx.
  induction (lt_wf x) as [x _ IH]. intros n -> Hc Hi.
  destruct (classic (∃ r, serves (σ n) i = SDone r)) as [[r Hr]|Hno]; [by exists n, r|].
  destruct (next_step (TServe i) n) as (k & Hk & [F _] & Hs).
  { intros m Hm [F _]. simpl in F. destruct (serve_ready c i m) as (k & Hk & Hr).
    - by eapply run_closed.
    - by rewrite F.
    - intros r Hr. apply Hno. exists r. by rewrite <- F.
    - exists k. split; [lia|]. intros [F' _]. apply Hr. simpl in *; congruence. }
  simpl in F. pose proof (serve_progress _ _ c i (run_Inv k) (run_closed c n k Hk Hc) Hs) as Hlt.
  destruct (IH (serveRank (serves (σ (S k)) i))) with (n := S k) as (m & r & Hm & Hr); try done.
  - by rewrite <- F.
  - eapply run_closed; [|done]. lia.
  - intros E. rewrite E, F in Hlt. destruct (serves (σ n) i); simpl in Hlt; lia.
  - exists m, r. split; [lia|done].
Qed.

End Runs.
End Steps.

(** * A concrete run: Serve accepts, Close is called, Serve returns *)

Definition noErr (i : nat) : option nat := None.

(** Each entry is the thread that moves and the state it moves to. *)
Definition sampleSteps : list (thread * (state → state)) :=
  [ (TServe 0, setServe 0 STrackLock);
    (TServe 0, λ s, setServe 0 STrackRead (lock (TServe 0) s));
    (TServe 0, setServe 0 STrackInsert);
    (TServe 0, λ s, setServe 0 (SAccept 0) (unlock (setListeners ({[0%nat]} ∪ listeners s) s)));
    (TClose 0, λ s, setCloser 0 CLock (storeShutdown s));
    (TClose 0, λ s, setCloser 0 (CLoop None) (lock (TClose 0) s));
    (TClose 0, λ s, setCloser 0 (CLoop (firstErr None (noErr 0)))
                      (setListeners (listeners s ∖ {[0%nat]}) (onceClose 0 s)));
    (TClose 0, λ s, setCloser 0 (CDone None) (unlock s));
    (TServe 0, setServe 0 (SAcceptErr 0 false));
    (TServe 0, setServe 0 (SUntrackLock ErrServerClosed));
    (TServe 0, λ s, setServe 0 (SUntrackDelete ErrServerClosed) (lock (TServe 0) s));
    (TServe 0, λ s, setServe 0 (SClose ErrServerClosed) (unlock (setListeners (listeners s ∖ {[0%nat]}) s)));
    (TServe 0, λ s, setServe 0 (SDone ErrServerClosed) (onceClose 0 s)) ]%nat.

Fixpoint runSteps (n : nat) (steps : list (thread * (state → state))) (s : state) : state :=
  match n, steps with
  | S n, (_, f) :: steps => runSteps n steps (f s)
  | _, _ => s
  end.

Definition sampleRun (n : nat) : state := runSteps n sampleSteps init.
Definition sampleLabels (n : nat) : option thread := fst <$> sampleSteps !! n.

Lemma sampleRun_run : run noErr sampleRun sampleLabels.
Proof.
  split; [done|]. intros n. unfold sampleLabels, sampleRun.
  destruct n as [|n]; [by apply st_serve|].
  destruct n as [|n]; [by apply st_track_lock|].
  destruct n as [|n]; [by apply st_track_up|].
  destruct n as [|n]; [by apply st_track_insert|].
  destruct n as [|n]; [by apply st_store|].
  destruct n as [|n]; [by apply st_close_lock|].
  destruct n as [|n]; [by eapply (st_close_one _ 0 None 0%nat); [done|set_solver]|].
  destruct n as [|n]; [by apply st_close_done|].
  destruct n as [|n]; [by eapply st_accept_error|].
  destruct n as [|n]; [by eapply st_error_down|].
  destruct n as [|n]; [by apply st_untrack_lock|].
  destruct n as [|n]; [by apply st_untrack_delete|].
  destruct n as [|n]; [by apply st_close_listener|].
  by destruct n.
Qed.

(** At the end of the run no thread is ready. *)
Lemma sampleRun_fair : fair sampleRun sampleLabels.
Proof.
  intros t n H. destruct (H (n + 13)%nat) as (k & Hk & Hr); [lia|].
  replace (sampleRun k) with (sampleRun 13) in Hr; [by destruct t as [[|i]|[|c]]|].
  replace k with (13 + (k - 13))%nat by lia. by destruct (k - 13)%nat.
Qed.

(** * Properties *)

(** C17. Once a call of [Close] or [Shutdown] has returned, no listener is
    tracked, and the listener of every call of [Serve] that is accepting
    connections, or on its way out, has been closed: no listener stays open
    behind a closed server, however the calls were interleaved. *)
Theorem Close_complete closeErr s c e i :
  reachable closeErr s → closers s c = CDone e →
  listeners s = ∅ ∧ (tracked (serves s i) = true → onceDone s i = true ∧ closeCalls s i = 1%nat).
Proof.
  intros Hr Hc. pose proof (Inv_reachable _ _ Hr) as HI.
  assert (closed (closers s c) = true) as Hd by (by rewrite Hc).
  split; [apply (inv_closed _ HI c Hd)|]. intros Ht.
  pose proof (closed_once closeErr s c i HI Hd Ht) as Ho. by rewrite (inv_once _ HI), Ho.
Qed.

Lemma Close_complete_witness :
  tracked (serves (sampleRun 8) 0) = true ∧ onceDone (sampleRun 8) 0 = true ∧ listeners (sampleRun 8) = ∅.
Proof.
  destruct (Close_complete noErr (sampleRun 8) 0 None 0) as [He Ho].
  - apply (run_reachable _ _ _ sampleRun_run).
  - reflexivity.
  - split; [reflexivity|]. split; [by apply Ho | exact He].
Defined.

(** C18. The listener underneath a call of [Serve] is closed at most once, by
    whichever of [Close], [Shutdown] and [Serve]'s own deferred calls comes
    first, and it has been closed when [Serve] returns. *)
Theorem listener_closed_once closeErr s i :
  reachable closeErr s →
  (closeCalls s i ≤ 1)%nat ∧ ∀ r, serves s i = SDone r → closeCalls s i = 1%nat ∧ i ∉ listeners s.
Proof.
  intros Hr. pose proof (Inv_reachable _ _ Hr) as HI. rewrite (inv_once _ HI). split; [case_match; lia|].
  intros r Hs. rewrite (inv_done _ HI i r Hs). split; [done|]. intros Hin.
  pose proof (inv_tracked _ HI i Hin) as Ht. by rewrite Hs in Ht.
Qed.

Lemma listener_closed_once_witness : closeCalls (sampleRun 13) 0 = 1%nat.
Proof.
  destruct (listener_closed_once noErr (sampleRun 13) 0) as [_ H].
  - apply (run_reachable _ _ _ sampleRun_run).
  - by destruct (H ErrServerClosed).
Defined.

(** C10. In every fair run, once [Close] or [Shutdown] has been called, that
    call returns and every call of [Serve] that had begun returns too; unless
    it was already returning another error, what it returns is
    [ErrServerClosed]. *)
Theorem Serve_returns_after_Close closeErr σ l c i n :
  run closeErr σ l → fair σ l → closers (σ n) c ≠ CIdle → serves (σ n) i ≠ SIdle →
  ∃ m e r, (n ≤ m)%nat ∧ closers (σ m) c = CDone e ∧ serves (σ m) i = SDone r ∧
    (returning (serves (σ n) i) = None → r = ErrServerClosed).
Proof.
  intros Hrun Hfair Hc Hi.
  destruct (Close_returns closeErr σ l Hrun Hfair c n Hc) as (k & Hk & Hd).
  destruct (Serve_ends closeErr σ l Hrun Hfair c i k Hd) as (m & r & Hm & Hr).
  { by eapply run_started. }
  destruct (closers (σ m) c) as [| | |e] eqn:He.
  1-3: pose proof (run_closed _ _ _ Hrun c k m Hm Hd) as Hx; by rewrite He in Hx.
  exists m, e, r. repeat split; [lia|done|done|]. intros Hn.
  destruct (run_result _ _ _ Hrun i n m) as [Hx|Hx]; [lia|exact (inv_called _ (run_Inv _ _ _ Hrun n) c Hc)|done| |];
    rewrite Hr in Hx; by inversion Hx.
Qed.

Lemma Serve_returns_after_Close_witness :
  ∃ m r, (5 ≤ m)%nat ∧ serves (sampleRun m) 0 = SDone r ∧ r = ErrServerClosed.
Proof.
  destruct (Serve_returns_after_Close noErr sampleRun sampleLabels 0 0 5 sampleRun_run sampleRun_fair)
    as (m & e & r & Hm & _ & Hs & Hr); [done|done|].
  exists m, r. repeat split; [done|done|]. by apply Hr.
Defined.
